(* ===== verification/_CoqProject ===== *)
-Q . S2P
Prelude.v
DList.v
Bitmap.v
Machine.v
MachineFacts.v
Klib.v
Format.v
Sched.v
Ipc.v
Log.v
Cpu.v
Alloc.v
Paging.v
AddrSpace.v
KernelMap.v
FreeSpace.v
CopySpace.v
Irq.v
Timer.v
Fs.v
Task.v
TaskLife.v
Exec.v
ProgLoad.v
ExecSpace.v
LoadElf.v
CopyArgs.v
ExecRun.v
Syscall.v
Fork.v
User.v
Init.v
Boot.v
FirstTask.v
Asm.v
Entry.v
EntryRun.v
CallPath.v
CallFork.v
Start.v
CallExec.v
BootSector.v
Loader.v
LoaderRun.v
Demo.v
Witness.v
WitnessKernel.v
WitnessBoot.v
WitnessExec.v
WitnessEntry.v
