(* ===== verification/Prelude.v ===== *)
(** * A verification of the kernel in source/kernel and its loader

    The repository is a small 32-bit operating system for x86: a boot sector and a
    two-stage loader, a kernel with preemptive tasks, paging, mutexes and semaphores,
    system calls and a serial log, and a shell. This library translates the C code of the
    kernel, the loader and the programs and the assembly code around it into Rocq functions
    and proves what these functions do: from the boot sector's first instruction to the
    loader, from the loader to the kernel, from the kernel to its first task, and from a
    program's system call back to the program.

    ** How the code is modelled

    [Machine.v] has the state [kst]: EFLAGS.IF, CR2, CR3, TR, GDTR and IDTR, RAM as bytes,
    the list nodes, tasks, mutexes and semaphores by their addresses, the task
    manager, the page allocator, GDT and IDT, the file position, the writes to ports
    (newest first) and the number of port reads made. A kernel function is a
    computation [K A]: it returns ([Done]), stops the machine ([Halted]: [hlt] in a loop, or
    a device that never answers), goes wrong ([Fault]: an access C leaves undefined,
    or one the processor refuses) or gives the CPU to another task
    ([Susp s k]: [s] is the state the other task goes on in and [k] is the rest of the function,
    for the state in which the caller is resumed). Addresses are numbers; [load32]
    and the like walk the page tables for user addresses ([mmu_walk]) and take the addresses
    the kernel maps ([kmapped]) as they are, which [create_kernel_table_identity] justifies.
    Machine integers are numbers with [u8], [u16], [u32] and [i32] where the code wraps.
    The addresses the linker chooses are the class [Layout] ([kernel_elf] is the image in
    the repository); what devices answer is the class [Device].

    ** The parts, in the order of their files

    - [Prelude] notations, tactics and lemmas on lists and integers.
    - [DList] (tools/list.c): intrusive lists on a heap of nodes; [dlist] says that a
      heap holds a list. [list_operations_correct].
    - [Bitmap] (tools/bitmap.c): [bitmap_alloc_run_spec], [bitmap_alloc_one_correct].
    - [Machine], [MachineFacts] (comm/cpu_instr.h, cpu/irq.c's critical sections): the state,
      memory accesses, the switch to a TSS, and their equations.
    - [Klib] (tools/klib.c): strings, memory, alignment. [memory_routines_correct],
      [alignment_correct].
    - [Format] (kitoa and kvsprintf): [kitoa_reads_back], [kvsprintf_writes_text].
    - [Sched] (core/task.c: dispatch, ready and sleep lists, yield, sleep, exit, tick):
      [sview] is the abstract scheduler, [sched_inv] its relation to the state and [resched]
      what a call does that may switch. [scheduler_refines],
      [yield_round_robin], [sleeper_wakes_on_time].
    - [Ipc] (ipc/mutex.c, ipc/sem.c): abstract locks and counters with first-come
      waiters, [mutex_refines] and [sem_refines]; [mutex_first_come], [sem_conservation].
    - [Log] (tools/log.c, pannic and ASSERT): [log_printf_sends_text], [assert_halts].
    - [Cpu] (cpu/cpu.c): descriptors and the GDT. [descriptor_round_trip],
      [cpu_init_table], [gdt_alloc_set_free].
    - [Alloc] (core/memory.c, page frames): the allocator against the list of its free
      frames, [frame_allocator_refines]; over any sequence of calls the frames held and the
      free ones are a partition of the region, [frames_partition].
    - [Paging] (the rest of core/memory.c): page tables and address spaces. Its theorems
      speak of [mmu_walk], the translation the processor does, and are in [AddrSpace] ([dir_wf]
      is a well-formed directory, [map_step] what a mapping may change; mapping, new
      spaces, allocation at a range, translation and copying into another space),
      [KernelMap] (the kernel's own table), [FreeSpace] (destroying a space) and [CopySpace]
      (the copy [fork] makes).
    - [Irq] (cpu/irq.c): the IDT, the interrupt controllers, the exception handlers.
      [irq_init_table], [irq_mask_one_line].
    - [Timer] (dev/timer.c): [timer_tick_acknowledged], [timer_init_period].
    - [Fs] (fs/fs.c and the sector reader of the loader): [file_read_at].
    - [Task] (core/task.c: TSS, task_init, task_uninit, the task table, fork) with the
      theorems on [task_init] in [TaskLife]: [task_init_live], [task_init_hides_failure].
    - [Exec] (core/task.c: load_phdr, load_elf_file, copy_args, sys_execve), followed step by
      step: [ProgLoad] takes the bytes of a segment from the file to the program's addresses
      ([load_phdr_loads]), [ExecSpace] makes the new space, [LoadElf] reads the headers and the
      segments, [CopyArgs] puts the arguments on the new stack, and [ExecRun] composes them:
      [sys_execve_enters_program], and [sys_execve_missing_file] for a path that cannot be opened.
    - [Syscall] (core/syscall.c): [syscall_sleep_suspends] and the calls answered at once.
    - [Fork] (core/task.c: sys_fork as a whole): [sys_fork_makes_child] puts together the task
      table, [task_init], the frame's registers, the copied address space and the ready queue.
    - [User] (applib, shell, init/first_task.c): programs as interaction trees, whose events are
      system calls. [wrappers_reach_handlers] leads through the call gate to [Syscall];
      [shell_is_straight_line] compares the shell with a program without loops.
    - [Init] (init/init.c): the order of initialisation, and the tests nothing calls. [Boot]
      follows [kernel_init] ([hardware_ready], [tasks_ready]) and [FirstTask] the rest up to the
      first task: [booted] is the state then.
    - [Asm]: the processor's registers ([cpu_t]) and the instructions the assembly code uses,
      with its entry to the kernel through gates, in a monad above [K]; outcomes are equal up
      to equal continuations.
    - [Entry] (init/start_kernel.S): the stubs of the exceptions, of the timer and of the system
      call, and simple_switch. [EntryRun] is about interrupts and exceptions:
      [timer_interrupt_transparent], [exception_reports_context]; [CallPath] about system calls
      from the program's [lcall] to its next instruction: [call_returns_to_program],
      [stubs_return_well_typed]; [CallFork] and [CallExec] about the two that do more:
      [fork_returns_twice], [execve_starts_program].
    - [Start] (the kernel's [_start], the end of init.c, first_task_entry.S, start_loader.S,
      crt0.S): [kernel_start_reaches_first_task] is start-up as a whole.
    - [BootSector] (boot/start.S, boot/boot.c): [boot_sector_starts_loader].
    - [Loader], [LoaderRun] (loader/loader_16.c, loader/loader_32.c): [loader_entry_enters],
      [reload_elf_reference], [load_kernel_enters].
    - [Demo], [Witness], [WitnessKernel], [WitnessBoot], [WitnessExec], [WitnessEntry]: concrete
      states at which the theorems apply.

    Components meet in few places. The scheduler's [sched_inv] is what mutexes, semaphores,
    the timer and the sleeping system call preserve; the allocator's free frames are
    what page tables, address spaces and new tasks take from; [live] (a task's selector
    designates its TSS) is what [task_init] establishes and the dispatcher needs; [fork_pre]
    and [exec_call] bring them together, [booted] is where they all begin, and [at_handler] ties
    the frame the C code reads to the registers of the program.

    ** Loops

    A C loop is a function on a natural number of rounds. Counted loops take the
    number the code computes. The walk of the sleep list takes the list's length, the
    loop of [load_phdr] [size / 4096 + 1] rounds (every round but the last reads a page), and
    string loops may make 2^32 rounds (counted in binary), more than a pointer can move. A busy-wait
    takes [port_patience] rounds, after which the device counts as hung and the machine as
    stopped; the theorems that need devices assume they answer at once
    ([com1_ready], [disk_ready]).

    ** Not modelled

    - What the C compiler does with registers and stack: a C function called from assembly
      finds its argument on the stack, and leaves arbitrary values in EAX, ECX and EDX
      ([c_call]); the stack its frames use is not written.
    - The inline assembly of a system call: it is an event of [User] on the program's side, and
      [gate_words], the five words on the kernel stack, on the kernel's; [CallPath] starts at its
      [lcall].
    - In the kernel CR0 and CR4 (the loader sets them, [LoaderRun]), the accessed and dirty bits,
      the protection bits of page entries (they are stored, but not enforced), the TLB,
      segment limits, and the privilege checks on selectors and gates.
    - test_alloc of memory.c, which nothing calls: it uses a second allocator on its stack, and
      the state has one.
    - Interrupts between two instructions of a kernel function: the handlers run with
      IF clear, and the calls of the scheduler, mutexes and semaphores clear it.
*)
From Stdlib Require Export ZArith Lia Bool.
From stdpp Require Export base tactics option list gmap strings.

#[export] Set Default Goal Selector "!".
#[global] Open Scope Z_scope.

(** * Machine integers

    [uint8_t], [uint16_t], [uint32_t] and [int] of comm/types.h as integers
    reduced to their width.  [typedef unsigned long uint32_t] is 32 bits wide
    on the i386 target the kernel is built for. *)
Declare Scope kernel_scope.
Delimit Scope kernel_scope with kernel.

Definition u8 (x : Z) : Z := x mod 2 ^ 8.

Definition u16 (x : Z) : Z := x mod 2 ^ 16.

Definition u32 (x : Z) : Z := x mod 2 ^ 32.

(** Two's complement reading of the low 32 bits: a conversion to [int]. *)
Definition i32 (x : Z) : Z := (x + 2 ^ 31) mod 2 ^ 32 - 2 ^ 31.

(** The characters of a string literal, without the terminating 0. *)
Fixpoint cs (s : string) : list Z :=
  match s with
  | EmptyString => []
  | String a s => Z.of_N (Ascii.N_of_ascii a) :: cs s
  end.

Definition nl : list Z := [10].

(** * Automation *)
Create HintDb kernel.
Create Rewrite HintDb kernel.

Ltac zdiv := Z.div_mod_to_equations; lia.

(** Case analysis on the boolean comparisons of a goal. *)
Ltac bcase :=
  match goal with
  | |- context [?a =? ?b] => destruct (Z.eqb_spec a b)
  | |- context [?a <? ?b] => destruct (Z.ltb_spec a b)
  | |- context [?a <=? ?b] => destruct (Z.leb_spec a b)
  end.

Ltac bcases := repeat (bcase; simpl); try lia.

(** * Integer lemmas *)
Lemma u8_range x : 0 <= u8 x < 256.
Proof. unfold u8. apply (Z.mod_pos_bound x (2 ^ 8)). lia. Qed.

Lemma u16_range x : 0 <= u16 x < 65536.
Proof. unfold u16. apply (Z.mod_pos_bound x (2 ^ 16)). lia. Qed.

Lemma u32_range x : 0 <= u32 x < 2 ^ 32.
Proof. unfold u32. apply Z.mod_pos_bound. lia. Qed.

Lemma i32_range x : - 2 ^ 31 <= i32 x < 2 ^ 31.
Proof. unfold i32. pose proof (Z.mod_pos_bound (x + 2 ^ 31) (2 ^ 32)). lia. Qed.

Lemma u8_small x : 0 <= x < 256 -> u8 x = x.
Proof. intros. apply Z.mod_small. lia. Qed.

Lemma u16_small x : 0 <= x < 65536 -> u16 x = x.
Proof. intros. apply Z.mod_small. lia. Qed.

Lemma u32_small x : 0 <= x < 2 ^ 32 -> u32 x = x.
Proof. intros. apply Z.mod_small. lia. Qed.

Lemma i32_small x : - 2 ^ 31 <= x < 2 ^ 31 -> i32 x = x.
Proof. intros. unfold i32. rewrite Z.mod_small; lia. Qed.

Lemma u8_u8 x : u8 (u8 x) = u8 x.
Proof. apply u8_small, u8_range. Qed.

Lemma u32_u32 x : u32 (u32 x) = u32 x.
Proof. apply u32_small, u32_range. Qed.

#[export] Hint Resolve u8_range u16_range u32_range i32_range : kernel.
#[export] Hint Rewrite u8_u8 u32_u32 : kernel.

(** [x & (2^n - 1)] and [x & ~(2^n - 1)]: offset in and base of a block. *)
Lemma land_ones_mod x n : 0 <= n -> Z.land x (2 ^ n - 1) = x mod 2 ^ n.
Proof.
  intros. replace (2 ^ n - 1) with (Z.ones n).
  - by apply Z.land_ones.
  - rewrite Z.ones_equiv. lia.
Qed.

Lemma land_lnot_ones x n :
  0 <= n -> Z.land x (Z.lnot (2 ^ n - 1)) = x - x mod 2 ^ n.
Proof.
  intros Hn. rewrite <- (land_ones_mod x n) by done.
  rewrite <- Z.ldiff_land. symmetry.
  replace (2 ^ n - 1) with (Z.ones n) by (rewrite Z.ones_equiv; lia).
  enough (x = Z.land x (Z.ones n) + Z.ldiff x (Z.ones n)) by lia.
  rewrite Z.add_nocarry_lxor.
  - apply Z.bits_inj'. intros k _.
    rewrite Z.lxor_spec, Z.land_spec, Z.ldiff_spec. by destruct (Z.testbit x k), (Z.testbit (Z.ones n) k).
  - apply Z.bits_inj'. intros k _.
    rewrite Z.land_spec, Z.land_spec, Z.ldiff_spec, Z.bits_0.
    by destruct (Z.testbit x k), (Z.testbit (Z.ones n) k).
Qed.

(** A value shifted past another one is or-ed in without a carry. *)
Lemma lor_add_low hi lo n :
  0 <= n -> 0 <= lo < 2 ^ n -> hi mod 2 ^ n = 0 -> Z.lor hi lo = hi + lo.
Proof.
  intros Hn Hlo Hhi. symmetry. rewrite Z.add_nocarry_lxor.
  - apply Z.bits_inj'. intros k Hk.
    rewrite Z.lxor_spec, Z.lor_spec.
    destruct (decide (k < n)) as [Hlt|Hge].
    + assert (Z.testbit hi k = false) as ->; [|by rewrite xorb_false_l].
      rewrite <- (Z.mod_pow2_bits_low hi n k) by lia. rewrite Hhi. apply Z.bits_0.
    + assert (Z.testbit lo k = false) as ->; [|by rewrite xorb_false_r, orb_false_r].
      rewrite <- (Z.mod_small lo (2 ^ n)) by lia. apply Z.mod_pow2_bits_high. lia.
  - apply Z.bits_inj'. intros k Hk. rewrite Z.land_spec, Z.bits_0.
    destruct (decide (k < n)) as [Hlt|Hge].
    + rewrite <- (Z.mod_pow2_bits_low hi n k) by lia. rewrite Hhi, Z.bits_0. done.
    + rewrite <- (Z.mod_small lo (2 ^ n)) by lia.
      rewrite Z.mod_pow2_bits_high by lia. apply andb_false_r.
Qed.

(** * Lists *)
Lemma last_app_cons {A} (d x : A) a b : List.last (a ++ x :: b) d = List.last (x :: b) d.
Proof.
  induction a as [|y a IH]; simpl; [done|].
  rewrite IH. by destruct a.
Qed.

Lemma last_snoc {A} (d x : A) a : List.last (a ++ [x]) d = x.
Proof. by rewrite last_app_cons. Qed.

Lemma hd_app_cons {A} (d x : A) a b : hd d (a ++ x :: b) = hd x a.
Proof. by destruct a. Qed.

Lemma nodup_middle {A} (x : A) a b : NoDup (a ++ x :: b) <-> (x ∉ a ++ b) /\ NoDup (a ++ b).
Proof. rewrite <- Permutation_middle. apply NoDup_cons. Qed.

Lemma filter_ne_middle (x : Z) a b :
  NoDup (a ++ x :: b) -> filter (fun y => y <> x) (a ++ x :: b) = a ++ b.
Proof.
  intros [Hx _]%nodup_middle.
  assert (forall l : list Z, x ∉ l -> filter (fun y => y <> x) l = l) as Hid.
  { induction l as [|y l IH]; intros Hn; [done|].
    rewrite filter_cons_True by set_solver. rewrite IH by set_solver. done. }
  rewrite filter_app, filter_cons_False by (intros F; by apply F).
  rewrite !Hid; set_solver.
Qed.

Lemma filter_ext_in {A} (P Q : A -> Prop) `{!forall x, Decision (P x), !forall x, Decision (Q x)} (l : list A) :
  (forall x, x ∈ l -> (P x <-> Q x)) -> filter P l = filter Q l.
Proof.
  induction l as [|x l IH]; intros Hl; [done|].
  rewrite !filter_cons, IH by (intros; apply Hl; by right).
  destruct (Hl x ltac:(by left)). repeat case_decide; tauto || done.
Qed.

Lemma filter_none {A} (P : A -> Prop) `{!forall x, Decision (P x)} (l : list A) :
  (forall x, x ∈ l -> ~ P x) -> filter P l = [].
Proof.
  induction l as [|x l IH]; intros Hl; [done|].
  rewrite filter_cons_False by (apply Hl; by left). apply IH. intros. apply Hl. by right.
Qed.

Lemma filter_all {A} (P : A -> Prop) `{!forall x, Decision (P x)} (l : list A) :
  (forall x, x ∈ l -> P x) -> filter P l = l.
Proof.
  induction l as [|x l IH]; intros Hl; [done|].
  rewrite filter_cons_True by (apply Hl; by left). f_equal. apply IH. intros. apply Hl. by right.
Qed.
