(* ===== verification/DList.v ===== *)
(** The intrusive doubly linked list of kernel/tools/list.c and list.h.

    Nodes live in a heap keyed by their address, as [list_node_t] members of
    tasks do in the kernel; address 0 is the null pointer.  Reading or writing
    a node the heap does not hold is an access through a wild pointer and
    makes the operation undefined ([None]).  [dlist h l ns] says that the
    header [l] and the heap [h] represent the sequence of node addresses [ns];
    each operation of list.c is shown to act on that sequence. *)
From S2P Require Import Prelude.

(** list.h: [struct _list_node_t]. *)
Record list_node_t := Node { pre : Z; next : Z }.

(** list.h: [struct _list_t]. *)
Record list_t := List { first : Z; last : Z; count : Z }.

#[export] Instance list_node_t_eq_dec : EqDecision list_node_t.
Proof. solve_decision. Defined.
#[export] Instance list_t_eq_dec : EqDecision list_t.
Proof. solve_decision. Defined.

Abbreviation heap := (gmap Z list_node_t).

(** ** Field accesses through a node pointer *)
Definition get_pre (h : heap) (node : Z) : option Z := pre <$> h !! node.

Definition get_next (h : heap) (node : Z) : option Z := next <$> h !! node.

Definition set_pre (h : heap) (node v : Z) : option heap :=
  n ← h !! node; Some (<[node := Node v (next n)]> h).

Definition set_next (h : heap) (node v : Z) : option heap :=
  n ← h !! node; Some (<[node := Node (pre n) v]> h).

(** ** list.h *)
Definition list_node_init (h : heap) (node : Z) : heap := <[node := Node 0 0]> h.

Definition list_node_pre (h : heap) (node : Z) : option Z := get_pre h node.

Definition list_node_next (h : heap) (node : Z) : option Z := get_next h node.

Definition list_is_empty (l : list_t) : bool := count l =? 0.

Definition list_size (l : list_t) : Z := count l.

Definition list_first (l : list_t) : Z := first l.

Definition list_last (l : list_t) : Z := last l.

(** [list_node_parent(node, T, m)], [off] being [offset_in_parent(T, m)]. *)
Definition list_node_parent (node off : Z) : Z :=
  if node =? 0 then 0 else node - off.

(** ** list.c *)
Definition list_init : list_t := List 0 0 0.

Definition list_insert_front (h : heap) (l : list_t) (node : Z) : option (heap * list_t) :=
  h ← set_next h node (first l);
  h ← set_pre h node 0;
  if list_is_empty l
  then Some (h, List node node (count l + 1))
  else
    h ← set_pre h (first l) node;
    Some (h, List node (last l) (count l + 1)).

Definition list_insert_back (h : heap) (l : list_t) (node : Z) : option (heap * list_t) :=
  h ← set_pre h node (last l);
  h ← set_next h node 0;
  if list_is_empty l
  then Some (h, List node node (count l + 1))
  else
    h ← set_next h (last l) node;
    Some (h, List (first l) node (count l + 1)).

Definition list_remove_front (h : heap) (l : list_t) : option (Z * heap * list_t) :=
  if list_is_empty l then Some (0, h, l)
  else
    let removed_node := first l in
    nxt ← get_next h removed_node;
    '(h, lst) ← (if nxt =? 0 then Some (h, 0)
                 else (h ← set_pre h nxt 0; Some (h, last l)));
    h ← set_next h removed_node 0;
    h ← set_pre h removed_node 0;
    Some (removed_node, h, List nxt lst (count l - 1)).

Definition list_remove (h : heap) (l : list_t) (node : Z) : option (Z * heap * list_t) :=
  nxt ← get_next h node;
  prv ← get_pre h node;
  let fst := if node =? first l then nxt else first l in
  let lst := if node =? last l then prv else last l in
  h ← (if prv =? 0 then Some h else set_next h prv nxt);
  nxt ← get_next h node;
  prv ← get_pre h node;
  h ← (if nxt =? 0 then Some h else set_pre h nxt prv);
  h ← set_next h node 0;
  h ← set_pre h node 0;
  Some (node, h, List fst lst (count l - 1)).

(** ** Representation

    [dseg h p ns q]: the nodes [ns] are chained in order, the first one
    pointing back to [p] and the last one forward to [q]. *)
Fixpoint dseg (h : heap) (p : Z) (ns : list Z) (q : Z) : Prop :=
  match ns with
  | [] => True
  | n :: r => h !! n = Some (Node p (hd q r)) /\ dseg h n r q
  end.

Definition dlist (h : heap) (l : list_t) (ns : list Z) : Prop :=
  dseg h 0 ns 0 /\ NoDup ns /\ (0 ∉ ns) /\
  l = List (hd 0 ns) (List.last ns 0) (Z.of_nat (length ns)).

(** [h'] differs from [h] only on the nodes [ns], and holds the same nodes. *)
Definition touches (ns : list Z) (h h' : heap) : Prop :=
  (forall n, n ∉ ns -> h' !! n = h !! n) /\ dom h' = dom h.

(** ** Segments *)
Lemma dseg_app h p a b q :
  dseg h p (a ++ b) q <-> dseg h p a (hd q b) /\ dseg h (List.last a p) b q.
Proof.
  revert p; induction a as [|x a IH]; intros p; simpl; [tauto|].
  rewrite IH. replace (List.last a x) with (List.last (x :: a) p).
  - destruct a as [|y a]; simpl; tauto.
  - clear; revert x p; induction a as [|y a IH]; intros; simpl in *; [done|].
    destruct a; [done|]. by rewrite (IH y p), <- (IH y x).
Qed.

Lemma dseg_frame h h' p ns q :
  (forall n, n ∈ ns -> h' !! n = h !! n) -> dseg h p ns q -> dseg h' p ns q.
Proof.
  revert p; induction ns as [|n r IH]; intros p Heq; simpl; [done|].
  intros [Hn Hr]; split.
  - rewrite Heq; [done | set_solver].
  - apply IH; [intros; apply Heq; set_solver | done].
Qed.

Lemma dseg_insert_ne h p ns q k v :
  k ∉ ns -> dseg h p ns q -> dseg (<[k := v]> h) p ns q.
Proof.
  intros Hk. apply dseg_frame. intros n Hn.
  rewrite lookup_insert_ne; [done | set_solver].
Qed.

Lemma dlist_frame h h' l ns :
  (forall n, n ∈ ns -> h' !! n = h !! n) -> dlist h l ns -> dlist h' l ns.
Proof. intros Heq (? & ? & ? & ?). split_and!; eauto using dseg_frame. Qed.

Lemma dlist_insert_ne h l ns k v : k ∉ ns -> dlist h l ns -> dlist (<[k := v]> h) l ns.
Proof. intros Hk (? & ? & ? & ?). split_and!; eauto using dseg_insert_ne. Qed.

Lemma dlist_touches h h' l ns ms :
  touches ms h h' -> (forall n, n ∈ ns -> n ∉ ms) -> dlist h l ns -> dlist h' l ns.
Proof. intros [Hf _] Hd. apply dlist_frame. auto. Qed.

Lemma dlist_lookup h l ns n : dlist h l ns -> n ∈ ns -> is_Some (h !! n).
Proof.
  intros (Hs & _) Hn. apply list_elem_of_split in Hn as (a & b & ->).
  apply dseg_app in Hs as [_ Hb]. simpl in Hb. destruct Hb as [-> _]. eauto.
Qed.

Lemma dlist_list_size h l ns : dlist h l ns -> list_size l = Z.of_nat (length ns).
Proof. by intros (_ & _ & _ & ->). Qed.

Lemma dlist_is_empty h l ns :
  dlist h l ns -> list_is_empty l = match ns with [] => true | _ => false end.
Proof. intros (_ & _ & _ & ->). by destruct ns. Qed.

Lemma dlist_list_first h l ns : dlist h l ns -> list_first l = hd 0 ns.
Proof. by intros (_ & _ & _ & ->). Qed.

Lemma dlist_list_last h l ns : dlist h l ns -> list_last l = List.last ns 0.
Proof. by intros (_ & _ & _ & ->). Qed.

Lemma dlist_nil h : dlist h list_init [].
Proof. split_and!; [done | constructor | set_solver | done]. Qed.

(** Successor of a member of the sequence, as [list_node_next] reads it. *)
Lemma dlist_next h l a n b :
  dlist h l (a ++ n :: b) -> list_node_next h n = Some (hd 0 b).
Proof.
  intros (Hs & _). apply dseg_app in Hs as [_ Hb]. simpl in Hb.
  destruct Hb as [Hn _]. unfold list_node_next, get_next. by rewrite Hn.
Qed.

Lemma touches_refl ns h : touches ns h h.
Proof. done. Qed.

Lemma touches_trans ns h1 h2 h3 : touches ns h1 h2 -> touches ns h2 h3 -> touches ns h1 h3.
Proof. intros [H1 D1] [H2 D2]; split; [|congruence]. intros. rewrite H2, H1; done. Qed.

Lemma touches_weaken ns ms h h' : ns ⊆ ms -> touches ns h h' -> touches ms h h'.
Proof. intros Hs [H D]; split; [|done]. intros n Hn. apply H. set_solver. Qed.

Lemma touches_insert ns h k v :
  k ∈ ns -> is_Some (h !! k) -> touches ns h (<[k := v]> h).
Proof.
  intros Hk Hs; split.
  - intros n Hn. rewrite lookup_insert_ne; [done | set_solver].
  - apply dom_insert_lookup_L. done.
Qed.

Lemma set_pre_Some h k a b v : h !! k = Some (Node a b) -> set_pre h k v = Some (<[k := Node v b]> h).
Proof. intros H. unfold set_pre. by rewrite H. Qed.

Lemma set_next_Some h k a b v : h !! k = Some (Node a b) -> set_next h k v = Some (<[k := Node a v]> h).
Proof. intros H. unfold set_next. by rewrite H. Qed.

#[export] Hint Resolve touches_refl touches_insert dlist_nil : kernel.

(** ** Operations on the represented sequence *)

(** Prepending a node to a segment redirects the back pointer of its head. *)
Lemma dseg_repoint h p p' n r q :
  n ∉ r -> dseg h p (n :: r) q -> dseg (<[n := Node p' (hd q r)]> h) p' (n :: r) q.
Proof.
  intros Hn [_ Hr]; simpl; split; [apply lookup_insert_eq|].
  by apply dseg_insert_ne.
Qed.

(** Extending a segment redirects the forward pointer of its last node. *)
Lemma dseg_repoint_last h p a n q q' :
  n ∉ a -> dseg h p (a ++ [n]) q ->
  h !! n = Some (Node (List.last a p) q) /\
  dseg (<[n := Node (List.last a p) q']> h) p (a ++ [n]) q'.
Proof.
  intros Hn H. apply dseg_app in H as [Ha [Hl _]]. simpl in *. split; [done|].
  apply dseg_app; simpl; split_and!; [|by apply lookup_insert_eq|done].
  by apply dseg_insert_ne.
Qed.

Ltac node_step :=
  first
    [ rewrite lookup_insert_eq by auto
    | rewrite lookup_insert_ne by (first [done | set_solver | congruence]) ].

Lemma list_insert_front_spec h l ns node :
  dlist h l ns -> node ∉ ns -> node <> 0 -> is_Some (h !! node) ->
  exists h' l', list_insert_front h l node = Some (h', l') /\
    dlist h' l' (node :: ns) /\ touches (node :: ns) h h'.
Proof.
  intros Hl Hn Hnz [[a b] Hb]. pose proof Hl as (Hs & Hnd & H0 & Heq).
  unfold list_insert_front. erewrite set_next_Some by eauto. simpl.
  erewrite set_pre_Some by apply lookup_insert_eq. simpl. rewrite insert_insert_eq.
  rewrite (dlist_is_empty h l ns Hl). subst l. destruct ns as [|x r]; simpl.
  - eexists _, _; split; [done|]. split; [|apply touches_insert; [set_solver|eauto]].
    split_and!; simpl; [split; [apply lookup_insert_eq|done] | by apply NoDup_singleton | set_solver | done].
  - simpl in Hs. destruct Hs as [Hx Hr].
    assert (node <> x) by set_solver.
    erewrite set_pre_Some by (rewrite lookup_insert_ne by done; exact Hx). simpl.
    eexists _, _; split; [done|]. split.
    + split_and!.
      * simpl; split; [by rewrite lookup_insert_ne, lookup_insert_eq by done|].
        apply (dseg_repoint _ 0); [by apply NoDup_cons in Hnd as [? _]|].
        apply (dseg_insert_ne h 0 (x :: r)); [done|]. simpl; done.
      * by apply NoDup_cons.
      * set_solver.
      * f_equal; simpl; lia.
    + eapply touches_trans; apply touches_insert; rewrite ?lookup_insert_ne by done;
        [set_solver | eauto | set_solver | eauto].
Qed.

Lemma list_insert_back_spec h l ns node :
  dlist h l ns -> node ∉ ns -> node <> 0 -> is_Some (h !! node) ->
  exists h' l', list_insert_back h l node = Some (h', l') /\
    dlist h' l' (ns ++ [node]) /\ touches (ns ++ [node]) h h'.
Proof.
  intros Hl Hn Hnz [[a b] Hb]. pose proof Hl as (Hs & Hnd & H0 & Heq).
  unfold list_insert_back. erewrite set_pre_Some by eauto. simpl.
  erewrite set_next_Some by apply lookup_insert_eq. simpl. rewrite insert_insert_eq.
  rewrite (dlist_is_empty h l ns Hl).
  destruct ns as [|x r _] using rev_ind; subst l; simpl.
  - eexists _, _; split; [done|]. split; [|apply touches_insert; [set_solver|eauto]].
    split_and!; simpl; [split; [apply lookup_insert_eq|done] | by apply NoDup_singleton | set_solver | done].
  - assert (exists y t, r ++ [x] = y :: t) as (y & t & Hyt) by (destruct r; simpl; eauto).
    assert (x ∉ r) as Hxr.
    { apply NoDup_app in Hnd as (_ & Hd & _). intros Hx. apply (Hd x Hx). set_solver. }
    assert (node <> x) by set_solver.
    replace (match r ++ [x] with [] => true | _ => false end) with false by (by rewrite Hyt).
    rewrite last_snoc. set (h1 := <[node := Node x 0]> h).
    assert (dseg h1 0 (r ++ [x]) 0) as Hs1 by (by apply dseg_insert_ne).
    destruct (dseg_repoint_last h1 0 r x 0 node Hxr Hs1) as [Hx Hs2].
    erewrite set_next_Some by exact Hx. simpl.
    eexists _, _; split; [done|]. split.
    + split_and!.
      * apply dseg_app. simpl. rewrite last_snoc. split_and!; [done| |done].
        rewrite lookup_insert_ne by done. apply lookup_insert_eq.
      * apply NoDup_app. split_and!; [done| |by apply NoDup_singleton]. set_solver.
      * set_solver.
      * rewrite last_snoc, Hyt. f_equal; rewrite length_app; simpl; lia.
    + eapply (touches_trans _ _ h1); apply touches_insert; [set_solver | eauto | set_solver | eauto].
Qed.

Lemma list_remove_front_spec h l n ns :
  dlist h l (n :: ns) ->
  exists h' l', list_remove_front h l = Some (n, h', l') /\
    dlist h' l' ns /\ h' !! n = Some (Node 0 0) /\ touches (n :: ns) h h'.
Proof.
  intros Hl. pose proof Hl as (Hs & Hnd & H0 & Heq).
  unfold list_remove_front. rewrite (dlist_is_empty h l _ Hl). subst l; simpl.
  simpl in Hs. destruct Hs as [Hn Hr]. apply NoDup_cons in Hnd as [Hnn Hnd].
  unfold get_next. rewrite Hn; simpl. destruct ns as [|x r]; simpl.
  - erewrite set_next_Some by exact Hn. simpl.
    erewrite set_pre_Some by apply lookup_insert_eq. simpl. rewrite insert_insert_eq.
    eexists _, _; split; [done|]. split_and!; [by split_and!; [|constructor|set_solver|] | apply lookup_insert_eq |].
    apply touches_insert; [set_solver|eauto].
  - simpl in Hr. destruct Hr as [Hx Hr].
    assert (x <> 0) by set_solver. assert (n <> x) by set_solver.
    rewrite (proj2 (Z.eqb_neq x 0)) by done.
    erewrite set_pre_Some by exact Hx. simpl.
    erewrite set_next_Some by (rewrite lookup_insert_ne by done; exact Hn). simpl.
    erewrite set_pre_Some by apply lookup_insert_eq. simpl. rewrite insert_insert_eq.
    eexists _, _; split; [done|]. split_and!.
    + split_and!; [|done|set_solver|].
      * apply dseg_insert_ne; [done|].
        apply (dseg_repoint h n 0 x r 0); [by apply NoDup_cons in Hnd as [? _] | simpl; done].
      * f_equal. simpl. lia.
    + apply lookup_insert_eq.
    + eapply touches_trans; apply touches_insert; rewrite ?lookup_insert_ne by done;
        [set_solver | eauto | set_solver | eauto].
Qed.

Lemma list_remove_front_empty h l :
  dlist h l [] -> list_remove_front h l = Some (0, h, l).
Proof. intros Hl. unfold list_remove_front. by rewrite (dlist_is_empty h l _ Hl). Qed.

(** Writing one link of a node the heap holds. *)
Lemma set_next_ok h k v :
  is_Some (h !! k) ->
  exists a b, h !! k = Some (Node a b) /\ set_next h k v = Some (<[k := Node a v]> h).
Proof. intros [[a b] H]. exists a, b. split; [done|]. by apply (set_next_Some _ _ _ b). Qed.

(** Unlinking the middle of a chain: the neighbours end up linked. *)
Lemma dseg_unlink h a n b :
  NoDup (a ++ n :: b) -> 0 ∉ (a ++ n :: b) -> dseg h 0 (a ++ n :: b) 0 ->
  exists h1 h2 p q,
    p = List.last a 0 /\ q = hd 0 b /\ h !! n = Some (Node p q) /\
    (if p =? 0 then Some h else set_next h p q) = Some h1 /\
    (if q =? 0 then Some h1 else set_pre h1 q p) = Some h2 /\
    h1 !! n = Some (Node p q) /\ h2 !! n = Some (Node p q) /\
    dseg h2 0 (a ++ b) 0 /\ touches (a ++ n :: b) h h2.
Proof.
  intros Hnd H0 Hs. apply dseg_app in Hs as [Ha Hs]. simpl in Ha, Hs. destruct Hs as [Hn Hb].
  apply NoDup_app in Hnd as (Hnda & Hdis & Hndb). apply NoDup_cons in Hndb as [Hnb Hndb].
  (* the forward pointer of the predecessor *)
  assert (exists h1, (if List.last a 0 =? 0 then Some h else set_next h (List.last a 0) (hd 0 b)) = Some h1 /\
            dseg h1 0 a (hd 0 b) /\ touches a h h1) as (h1 & E1 & Ha1 & T1).
  { destruct a as [|x r _] using rev_ind; [by exists h|].
    rewrite last_snoc.
    assert (x <> 0) by set_solver. rewrite (proj2 (Z.eqb_neq x 0)) by done.
    assert (x ∉ r) as Hxr.
    { apply NoDup_app in Hnda as (_ & Hd & _). intros Hx. apply (Hd x Hx). set_solver. }
    destruct (dseg_repoint_last h 0 r x n (hd 0 b) Hxr Ha) as [Hx Hs].
    eexists; split; [apply (set_next_Some _ _ _ _ _ Hx)|]. split; [done|].
    apply touches_insert; [set_solver|eauto]. }
  assert (h1 !! n = Some (Node (List.last a 0) (hd 0 b))) as Hn1.
  { rewrite (proj1 T1); [done|]. intros Hin. apply (Hdis n Hin). set_solver. }
  assert (dseg h1 n b 0) as Hb1.
  { apply (dseg_frame h); [|done]. intros m Hm. apply (proj1 T1). intros Hin. apply (Hdis m Hin). set_solver. }
  (* the back pointer of the successor *)
  assert (exists h2, (if hd 0 b =? 0 then Some h1 else set_pre h1 (hd 0 b) (List.last a 0)) = Some h2 /\
            dseg h2 (List.last a 0) b 0 /\ touches b h1 h2) as (h2 & E2 & Hb2 & T2).
  { destruct b as [|y r]; [by exists h1|]. simpl.
    assert (y <> 0) by set_solver. rewrite (proj2 (Z.eqb_neq y 0)) by done.
    pose proof Hb1 as [Hy _].
    eexists; split; [apply (set_pre_Some _ _ _ _ _ Hy)|]. split.
    - apply (dseg_repoint h1 n _ y r 0); [by apply NoDup_cons in Hndb as [? _]|done].
    - apply touches_insert; [set_solver|eauto]. }
  assert (h2 !! n = Some (Node (List.last a 0) (hd 0 b))) as Hn2.
  { rewrite (proj1 T2); done. }
  exists h1, h2, (List.last a 0), (hd 0 b). split_and!; try done.
  - apply dseg_app. split; [|done]. apply (dseg_frame h1); [|done].
    intros m Hm. apply (proj1 T2). intros Hin. apply (Hdis m Hm). set_solver.
  - eapply touches_trans; [eapply touches_weaken; [|exact T1] | eapply touches_weaken; [|exact T2]]; set_solver.
Qed.

Lemma eqb_hd_member (n : Z) a b :
  NoDup (a ++ n :: b) -> (n =? hd 0 (a ++ n :: b)) = match a with [] => true | _ => false end.
Proof.
  intros Hnd. destruct a as [|x a]; simpl; [apply Z.eqb_refl|].
  apply Z.eqb_neq. intros ->. apply NoDup_cons in Hnd as [H _]. apply H. set_solver.
Qed.

Lemma eqb_last_member (n : Z) a b :
  NoDup (a ++ n :: b) -> (n =? List.last (a ++ n :: b) 0) = match b with [] => true | _ => false end.
Proof.
  intros Hnd. rewrite last_app_cons. destruct b as [|y b _] using rev_ind; [apply Z.eqb_refl|].
  replace (match b ++ [y] with [] => true | _ => false end) with false by (by destruct b).
  rewrite app_comm_cons, last_snoc. apply Z.eqb_neq. intros ->.
  apply NoDup_app in Hnd as (_ & _ & Hnd). apply NoDup_cons in Hnd as [H _]. apply H. set_solver.
Qed.

Lemma hd_last_unlink (a b : list Z) n :
  (match a with [] => hd 0 b | _ => hd 0 (a ++ n :: b) end = hd 0 (a ++ b)) /\
  (match b with [] => List.last a 0 | _ => List.last (a ++ n :: b) 0 end = List.last (a ++ b) 0).
Proof.
  split; [by destruct a|].
  destruct b as [|y b]; [by rewrite app_nil_r|].
  rewrite !last_app_cons. done.
Qed.

Lemma list_remove_spec h l a n b :
  dlist h l (a ++ n :: b) ->
  exists h' l', list_remove h l n = Some (n, h', l') /\
    dlist h' l' (a ++ b) /\ h' !! n = Some (Node 0 0) /\ touches (a ++ n :: b) h h'.
Proof.
  intros Hl. pose proof Hl as (Hs & Hnd & H0 & Heq).
  destruct (dseg_unlink h a n b Hnd H0 Hs) as (h1 & h2 & p & q & Hp & Hq & Hn & E1 & E2 & Hn1 & Hn2 & Hs2 & T).
  unfold list_remove, get_next, get_pre. rewrite Hn; simpl. rewrite E1; simpl.
  rewrite Hn1; simpl. rewrite E2; simpl.
  erewrite set_next_Some by exact Hn2. simpl.
  erewrite set_pre_Some by apply lookup_insert_eq. simpl. rewrite insert_insert_eq.
  assert (n ∉ a ++ b) as Hnab.
  { apply NoDup_app in Hnd as (_ & Hd & Hnd). apply NoDup_cons in Hnd as [Hb _].
    intros [Ha|]%elem_of_app; [|done]. apply (Hd n Ha). set_solver. }
  eexists _, _; split; [done|]. split_and!.
  - split_and!.
    + by apply dseg_insert_ne.
    + apply NoDup_app in Hnd as (? & Hd & Hnd). apply NoDup_cons in Hnd as [_ ?].
      apply NoDup_app; split_and!; [done| |done]. intros x Hx Hb. apply (Hd x Hx). set_solver.
    + set_solver.
    + subst l; simpl. rewrite (eqb_hd_member n a b Hnd), (eqb_last_member n a b Hnd).
      destruct (hd_last_unlink a b n) as [Eh El]. rewrite <- Eh, <- El, Hp, Hq.
      f_equal; [by destruct a | by destruct b | rewrite !length_app; simpl; lia].
  - apply lookup_insert_eq.
  - eapply touches_trans; [exact T|]. apply touches_insert; [set_solver|eauto].
Qed.

(** [list_remove] does not test membership: taking out a node that is linked
    nowhere leaves the chain alone but still decrements [count]. *)
Lemma list_remove_detached h l ns n :
  dlist h l ns -> n ∉ ns -> n <> 0 -> h !! n = Some (Node 0 0) ->
  list_remove h l n = Some (n, h, List (first l) (DList.last l) (count l - 1)).
Proof.
  intros (Hs & Hnd & H0 & ->) Hn Hnz Hh.
  unfold list_remove, get_next, get_pre. rewrite Hh; simpl. rewrite Hh; simpl.
  erewrite set_next_Some by exact Hh. simpl.
  erewrite set_pre_Some by apply lookup_insert_eq. simpl. rewrite insert_insert_eq.
  rewrite insert_id by done.
  assert (n <> hd 0 ns) by (destruct ns; set_solver).
  assert (n <> List.last ns 0).
  { destruct ns as [|x r _] using rev_ind; [done|]. rewrite last_snoc. set_solver. }
  do 2 (rewrite (proj2 (Z.eqb_neq _ _)) by done). done.
Qed.

(** * Queues *)

(** Inserting the nodes of a list at the back, one after the other. *)
Fixpoint insert_all_back (h : heap) (l : list_t) (ms : list Z) : option (heap * list_t) :=
  match ms with
  | [] => Some (h, l)
  | n :: ms => '(h, l) ← list_insert_back h l n; insert_all_back h l ms
  end.

(** Removing [n] nodes at the front: the nodes in the order they came out. *)
Fixpoint remove_all_front (h : heap) (l : list_t) (n : nat) : option (list Z * heap * list_t) :=
  match n with
  | O => Some ([], h, l)
  | S n =>
      '(x, h, l) ← list_remove_front h l;
      '(xs, h, l) ← remove_all_front h l n;
      Some (x :: xs, h, l)
  end.

Lemma insert_all_back_spec ms : forall h l ns,
  dlist h l ns -> NoDup (ns ++ ms) -> 0 ∉ ms -> (forall n, n ∈ ms -> is_Some (h !! n)) ->
  exists h' l', insert_all_back h l ms = Some (h', l') /\ dlist h' l' (ns ++ ms).
Proof.
  induction ms as [|n ms IH]; intros h l ns Hl Hnd H0 Hs; simpl.
  { exists h, l. by rewrite app_nil_r. }
  pose proof Hnd as [Hn _]%nodup_middle.
  destruct (list_insert_back_spec h l ns n Hl) as (h1 & l1 & E & Hl1 & [_ Hd]);
    [set_solver | set_solver | apply Hs; by left |].
  rewrite E. cbn [mbind option_bind]. destruct (IH h1 l1 (ns ++ [n]) Hl1) as (h2 & l2 & E2 & Hl2).
  - by rewrite <- app_assoc.
  - set_solver.
  - intros m Hm. rewrite <- elem_of_dom, Hd, elem_of_dom. apply Hs. by right.
  - exists h2, l2. rewrite <- app_assoc in Hl2. done.
Qed.

Lemma remove_all_front_spec ns : forall h l,
  dlist h l ns -> exists h' l', remove_all_front h l (length ns) = Some (ns, h', l') /\ dlist h' l' [].
Proof.
  induction ns as [|n ns IH]; intros h l Hl; simpl; [by exists h, l|].
  destruct (list_remove_front_spec h l n ns Hl) as (h1 & l1 & E & Hl1 & _).
  rewrite E. cbn [mbind option_bind]. destruct (IH h1 l1 Hl1) as (h2 & l2 & E2 & Hl2).
  rewrite E2. cbn [mbind option_bind]. by exists h2, l2.
Qed.

(** * Properties *)

(** C33: on a well-formed list the operations do what they say: inserting a node
    that is not in the list puts it at the front or at the back, removing at the
    front returns the first node (or null when there is none) and removing a member
    takes out just that node, whose links are cleared.  The result is well formed
    again (links, [first], [last] and [count] agree) and no node outside the list
    is touched. *)
Theorem list_operations_correct h l ns :
  dlist h l ns ->
  (forall n, n ∉ ns -> n <> 0 -> is_Some (h !! n) ->
     (exists h' l', list_insert_front h l n = Some (h', l') /\ dlist h' l' (n :: ns) /\ touches (n :: ns) h h') /\
     (exists h' l', list_insert_back h l n = Some (h', l') /\ dlist h' l' (ns ++ [n]) /\ touches (ns ++ [n]) h h')) /\
  (exists h' l', list_remove_front h l = Some (hd 0 ns, h', l') /\ dlist h' l' (tail ns) /\ touches ns h h') /\
  (forall a n b, ns = a ++ n :: b -> exists h' l', list_remove h l n = Some (n, h', l') /\
     dlist h' l' (a ++ b) /\ h' !! n = Some (Node 0 0) /\ touches ns h h').
Proof.
  intros Hl. split_and!.
  - intros n Hn Hz Hs. split; [by apply list_insert_front_spec | by apply list_insert_back_spec].
  - destruct ns as [|n ns]; simpl.
    + exists h, l. split_and!; [by apply list_remove_front_empty | done | apply touches_refl].
    + destruct (list_remove_front_spec h l n ns Hl) as (h' & l' & E & Hl' & _ & Ht). by exists h', l'.
  - intros a n b ->. by apply list_remove_spec.
Qed.

(** A list used as a queue is first in, first out: the nodes put in at the
    back of an empty list come out at the front in the same order, and the list is
    empty again. *)
Theorem list_is_fifo h ms :
  NoDup ms -> 0 ∉ ms -> (forall n, n ∈ ms -> is_Some (h !! n)) ->
  exists h1 l1 h2 l2, insert_all_back h list_init ms = Some (h1, l1) /\
    list_size l1 = Z.of_nat (length ms) /\
    remove_all_front h1 l1 (length ms) = Some (ms, h2, l2) /\ dlist h2 l2 [].
Proof.
  intros Hnd H0 Hs.
  destruct (insert_all_back_spec ms h list_init [] (dlist_nil h) Hnd H0 Hs) as (h1 & l1 & E1 & Hl1).
  destruct (remove_all_front_spec ms h1 l1 Hl1) as (h2 & l2 & E2 & Hl2).
  exists h1, l1, h2, l2. split_and!; [done | by apply (dlist_list_size h1) | done | done].
Qed.

(** [list_remove] does not look whether the node is in the list: given a node
    linked nowhere it returns it and decrements [count], so that the count no longer
    is the number of nodes. *)
Theorem list_remove_unchecked h l ns n :
  dlist h l ns -> n ∉ ns -> n <> 0 -> h !! n = Some (Node 0 0) ->
  exists l', list_remove h l n = Some (n, h, l') /\ first l' = list_first l /\
    list_size l' = Z.of_nat (length ns) - 1.
Proof.
  intros Hl Hn Hz Hh. eexists. split_and!; [by eapply list_remove_detached | done |].
  simpl. by rewrite <- (dlist_list_size h l ns Hl).
Qed.
