(* ===== verification/Bitmap.v ===== *)
(** The bitmap of kernel/tools/bitmap.c: one bit per page frame.

    [bits] is the array the C structure points to; an index outside it is
    undefined ([None]).  The scan of [bitmap_alloc_nbits] is related to a
    reference definition, the least start of a run of equal bits. *)
From S2P Require Import Prelude.

(** bitmap.h: [struct _bitmap_t]. *)
Record bitmap_t := Bitmap { bit_count : Z; bits : list Z }.

#[export] Instance bitmap_t_eq_dec : EqDecision bitmap_t.
Proof. solve_decision. Defined.

(** C's [/] and [%] on [int] round towards zero: [Z.quot] and [Z.rem]. *)
Definition bitmap_byte_count (bit_count : Z) : Z := (bit_count + 8 - 1) ÷ 8.

Definition bitmap_init (bits : list Z) (count init_bit : Z) : option bitmap_t :=
  let bytes := Z.to_nat (bitmap_byte_count count) in
  if (bytes <=? length bits)%nat
  then Some (Bitmap count (replicate bytes (if init_bit =? 0 then 0 else 0xff) ++ drop bytes bits))
  else None.

(** [bits[index / 8]] *)
Definition bits_at (bm : bitmap_t) (index : Z) : option Z :=
  if 0 <=? index then bits bm !! Z.to_nat (index ÷ 8) else None.

Definition bits_set (bm : bitmap_t) (index v : Z) : bitmap_t :=
  Bitmap (bit_count bm) (<[Z.to_nat (index ÷ 8) := u8 v]> (bits bm)).

Fixpoint bitmap_set_loop (n : nat) (bm : bitmap_t) (index bit_value : Z) : option bitmap_t :=
  match n with
  | O => Some bm
  | S n =>
      if index <? bit_count bm then
        b ← bits_at bm index;
        let mask := Z.shiftl 1 (Z.rem index 8) in
        let v := if bit_value =? 0 then Z.land b (Z.lnot mask) else Z.lor b mask in
        bitmap_set_loop n (bits_set bm index v) (index + 1) bit_value
      else Some bm
  end.

(** The loop runs while [i < count], so at most [count] times. *)
Definition bitmap_set_bit (bm : bitmap_t) (index count bit_value : Z) : option bitmap_t :=
  bitmap_set_loop (Z.to_nat count) bm index bit_value.

Definition bitmap_get_bit (bm : bitmap_t) (index : Z) : option Z :=
  b ← bits_at bm index;
  Some (if Z.land b (Z.shiftl 1 (Z.rem index 8)) =? 0 then 0 else 1).

Definition bitmap_is_set (bm : bitmap_t) (index : Z) : option Z :=
  b ← bitmap_get_bit bm index;
  Some (if b =? 0 then 0 else 1).

(** The inner [for] of [bitmap_alloc_nbits]: [(i, search_idx, ok_idx)] when it
    ends, by its condition or by its [break]. *)
Fixpoint bitmap_alloc_inner (fuel : nat) (bm : bitmap_t) (bit count i search_idx ok_idx : Z)
    : option (Z * Z * Z) :=
  if (i <? count) && (search_idx <? bit_count bm) then
    match fuel with
    | O => None
    | S fuel =>
        b ← bitmap_get_bit bm search_idx;
        if negb (b =? bit) then Some (i, search_idx + 1, -1)
        else bitmap_alloc_inner fuel bm bit count (i + 1) (search_idx + 1) ok_idx
    end
  else Some (i, search_idx, ok_idx).

(** The outer [while]. *)
Fixpoint bitmap_alloc_outer (fuel : nat) (bm : bitmap_t) (bit count search_idx : Z)
    : option (Z * bitmap_t) :=
  if search_idx <? bit_count bm then
    match fuel with
    | O => None
    | S fuel =>
        b ← bitmap_get_bit bm search_idx;
        if negb (b =? bit) then bitmap_alloc_outer fuel bm bit count (search_idx + 1)
        else
          '(i, search_idx, ok_idx) ←
             bitmap_alloc_inner (Z.to_nat (bit_count bm)) bm bit count 1 search_idx search_idx;
          if i >=? count then
            bm ← bitmap_set_bit bm ok_idx count (Z.lnot bit);
            Some (ok_idx, bm)
          else bitmap_alloc_outer fuel bm bit count search_idx
    end
  else Some (-1, bm).

(** Both loops move [search_idx] forward in every round, so [bit_count] rounds
    are enough ([bitmap_alloc_run_spec] holds without a hypothesis on it). *)
Definition bitmap_alloc_nbits (bm : bitmap_t) (bit count : Z) : option (Z * bitmap_t) :=
  bitmap_alloc_outer (Z.to_nat (bit_count bm)) bm bit count 0.

(** ** Abstraction: the value of a bit *)
Definition bget (bm : bitmap_t) (i : Z) : bool :=
  Z.testbit (nth (Z.to_nat (i / 8)) (bits bm) 0) (i mod 8).

Definition bval (b : bool) : Z := if b then 1 else 0.

(** The array covers the bits, and its cells are bytes. *)
Definition bitmap_wf (bm : bitmap_t) : Prop :=
  0 <= bit_count bm <= 8 * Z.of_nat (length (bits bm)) /\
  Forall (fun b => 0 <= b < 256) (bits bm).

(** ** Lemmas *)
Lemma bits_at_Some bm i :
  bitmap_wf bm -> 0 <= i < bit_count bm ->
  bits_at bm i = Some (nth (Z.to_nat (i / 8)) (bits bm) 0).
Proof.
  intros [Hc _] Hi. unfold bits_at.
  rewrite (proj2 (Z.leb_le 0 i)) by lia. rewrite Z.quot_div_nonneg by lia.
  assert (Z.to_nat (i / 8) < length (bits bm))%nat as Hlt by (apply Nat2Z.inj_lt; rewrite Z2Nat.id; zdiv).
  destruct (lookup_lt_is_Some_2 _ _ Hlt) as [b Hb]. rewrite Hb.
  f_equal. symmetry. by apply nth_lookup_Some.
Qed.

Lemma land_bit_eqb b k :
  0 <= k -> (Z.land b (Z.shiftl 1 k) =? 0) = negb (Z.testbit b k).
Proof.
  intros Hk. rewrite Z.shiftl_1_l. destruct (Z.testbit b k) eqn:E; simpl.
  - apply Z.eqb_neq. intros H. apply (f_equal (fun x => Z.testbit x k)) in H.
    rewrite Z.land_spec, Z.pow2_bits_true, E, Z.bits_0 in H by done. done.
  - apply Z.eqb_eq. apply Z.bits_inj'. intros n Hn.
    rewrite Z.land_spec, Z.bits_0, Z.pow2_bits_eqb by done.
    destruct (Z.eqb_spec k n); [subst; by rewrite E | apply andb_false_r].
Qed.

Lemma bitmap_get_bit_spec bm i :
  bitmap_wf bm -> 0 <= i < bit_count bm -> bitmap_get_bit bm i = Some (bval (bget bm i)).
Proof.
  intros Hwf Hi. unfold bitmap_get_bit. rewrite bits_at_Some by done. simpl.
  rewrite Z.rem_mod_nonneg by lia. rewrite land_bit_eqb by zdiv.
  unfold bget, bval. by destruct (Z.testbit _ _).
Qed.

Lemma bitmap_is_set_spec bm i :
  bitmap_wf bm -> 0 <= i < bit_count bm -> bitmap_is_set bm i = Some (bval (bget bm i)).
Proof.
  intros. unfold bitmap_is_set. rewrite bitmap_get_bit_spec by done. simpl. by destruct (bget bm i).
Qed.

(** Updating one bit of a byte. *)
Definition bit_update (b k v : Z) : Z :=
  if v =? 0 then Z.land b (Z.lnot (Z.shiftl 1 k)) else Z.lor b (Z.shiftl 1 k).

Lemma bit_update_testbit b k v n :
  0 <= k < 8 -> 0 <= n < 8 ->
  Z.testbit (u8 (bit_update b k v)) n = if n =? k then negb (v =? 0) else Z.testbit b n.
Proof.
  intros Hk Hn. unfold u8. rewrite Z.mod_pow2_bits_low by lia.
  unfold bit_update. rewrite Z.shiftl_1_l.
  destruct (Z.eqb_spec v 0); simpl;
    rewrite ?Z.land_spec, ?Z.lor_spec, ?Z.lnot_spec, Z.pow2_bits_eqb by lia;
    rewrite (Z.eqb_sym k n); destruct (n =? k); simpl;
    by rewrite ?andb_false_r, ?andb_true_r, ?orb_true_r, ?orb_false_r.
Qed.

Lemma bits_set_wf bm i v : bitmap_wf bm -> bitmap_wf (bits_set bm i v).
Proof.
  intros [Hc Hb]. split; simpl; [by rewrite length_insert|].
  apply Forall_insert; [done | apply u8_range].
Qed.

Lemma bget_bits_set bm i k v j :
  bitmap_wf bm -> 0 <= i < bit_count bm -> 0 <= j -> k = i mod 8 ->
  bget (bits_set bm i (bit_update (nth (Z.to_nat (i / 8)) (bits bm) 0) k v)) j =
    if j =? i then negb (v =? 0) else bget bm j.
Proof.
  intros [Hc _] Hi Hj ->. unfold bget, bits_set. simpl. rewrite Z.quot_div_nonneg by lia.
  assert (Z.to_nat (i / 8) < length (bits bm))%nat as Hlt by (apply Nat2Z.inj_lt; rewrite Z2Nat.id; zdiv).
  pose proof (Z.mod_pos_bound i 8). pose proof (Z.mod_pos_bound j 8).
  destruct (decide (j / 8 = i / 8)) as [E|E].
  - rewrite E. erewrite nth_lookup_Some by (by apply list_lookup_insert_eq).
    rewrite bit_update_testbit by lia.
    destruct (Z.eqb_spec (j mod 8) (i mod 8)), (Z.eqb_spec j i); try done; zdiv.
  - destruct (Z.eqb_spec j i) as [->|]; [done|].
    rewrite !nth_lookup, list_lookup_insert_ne; [done|].
    intros F. apply E. apply Z2Nat.inj; [zdiv..|]. done.
Qed.

(** The effect of [bitmap_set_bit]: bits [index .. index+count-1] below
    [bit_count] get the value, the others keep theirs. *)
Lemma bitmap_set_loop_spec n : forall bm i v,
  bitmap_wf bm -> 0 <= i ->
  exists bm', bitmap_set_loop n bm i v = Some bm' /\ bitmap_wf bm' /\
    bit_count bm' = bit_count bm /\
    forall j, 0 <= j -> bget bm' j =
      if (i <=? j) && (j <? Z.min (i + Z.of_nat n) (bit_count bm)) then negb (v =? 0) else bget bm j.
Proof.
  induction n as [|n IH]; intros bm i v Hwf Hi; cbn [bitmap_set_loop].
  - exists bm. split_and!; try done. intros j Hj. destruct (Z.leb_spec i j), (Z.ltb_spec j (Z.min (i + Z.of_nat 0) (bit_count bm))); simpl; try done; lia.
  - destruct (Z.ltb_spec i (bit_count bm)) as [Hlt|Hge].
    + rewrite bits_at_Some by (done || lia). cbn [mbind option_bind].
      rewrite Z.rem_mod_nonneg by lia.
      fold (bit_update (nth (Z.to_nat (i / 8)) (bits bm) 0) (i mod 8) v).
      edestruct (IH (bits_set bm i (bit_update (nth (Z.to_nat (i / 8)) (bits bm) 0) (i mod 8) v)) (i + 1) v)
        as (bm' & E & Hwf' & Hc & Hb); [by apply bits_set_wf | lia |].
      exists bm'. split_and!; try done. intros j Hj. rewrite Hb by done.
      rewrite bget_bits_set by (done || lia). simpl.
      destruct (Z.eqb_spec j i), (Z.leb_spec (i + 1) j), (Z.leb_spec i j),
        (Z.ltb_spec j (Z.min (i + 1 + Z.of_nat n) (bit_count bm))),
        (Z.ltb_spec j (Z.min (i + Z.of_nat (S n)) (bit_count bm))); simpl; try done; lia.
    + exists bm. split_and!; try done. intros j Hj.
      destruct (Z.leb_spec i j), (Z.ltb_spec j (Z.min (i + Z.of_nat (S n)) (bit_count bm))); simpl; try done; lia.
Qed.

Lemma bitmap_set_bit_spec bm i n v :
  bitmap_wf bm -> 0 <= i ->
  exists bm', bitmap_set_bit bm i n v = Some bm' /\ bitmap_wf bm' /\
    bit_count bm' = bit_count bm /\
    forall j, 0 <= j -> bget bm' j =
      if (i <=? j) && (j <? Z.min (i + n) (bit_count bm)) then negb (v =? 0) else bget bm j.
Proof.
  intros Hwf Hi. destruct (bitmap_set_loop_spec (Z.to_nat n) bm i v Hwf Hi) as (bm' & E & ? & ? & Hb).
  exists bm'. split_and!; try done. intros j Hj. rewrite Hb by done.
  destruct (decide (0 <= n)); [by rewrite Z2Nat.id|].
  destruct (Z.leb_spec i j), (Z.ltb_spec j (Z.min (i + Z.of_nat (Z.to_nat n)) (bit_count bm))),
    (Z.ltb_spec j (Z.min (i + n) (bit_count bm))); simpl; try done; lia.
Qed.

Lemma bitmap_init_spec bs count v bm :
  0 <= count -> Forall (fun b => 0 <= b < 256) bs -> bitmap_init bs count v = Some bm ->
  bitmap_wf bm /\ bit_count bm = count /\
  forall i, 0 <= i < count -> bget bm i = negb (v =? 0).
Proof.
  intros Hc Hb. unfold bitmap_init, bitmap_byte_count. rewrite Z.quot_div_nonneg by lia.
  destruct (Nat.leb_spec (Z.to_nat ((count + 8 - 1) / 8)) (length bs)) as [Hle|]; [|done].
  injection 1 as <-. split_and!; simpl; [|done|].
  - split; simpl.
    + rewrite length_app, length_replicate, length_drop. zdiv.
    + apply Forall_app; split; [|by apply Forall_drop].
      apply Forall_replicate. bcase; lia.
  - intros i Hi. unfold bget. simpl.
    rewrite app_nth1 by (rewrite length_replicate; apply Z2Nat.inj_lt; zdiv).
    rewrite nth_lookup, lookup_replicate_2 by (apply Z2Nat.inj_lt; zdiv). simpl.
    destruct (v =? 0); simpl; [apply Z.bits_0|].
    change 255 with (Z.ones 8). apply Z.ones_spec_low. pose proof (Z.mod_pos_bound i 8). lia.
Qed.

(** ** The scan of [bitmap_alloc_nbits]

    The inner loop looks at [search_idx] before it increments it, so of a run
    of [count] bits it compares the first [count - 1] (and the outer loop the
    first one): [alloc_window] bits. *)
Definition alloc_window (count : Z) : Z := Z.max 1 (count - 1).

(** [w] bits from [r] on equal [bit], inside the map. *)
Definition run_at (bm : bitmap_t) (bit w r : Z) : Prop :=
  r + w <= bit_count bm /\ forall j, r <= j < r + w -> bval (bget bm j) = bit.

Lemma bitmap_alloc_inner_spec fuel : forall bm bit count i s ok,
  bitmap_wf bm -> 0 <= s <= bit_count bm -> bit_count bm - s <= Z.of_nat fuel ->
  exists i' s' ok', bitmap_alloc_inner fuel bm bit count i s ok = Some (i', s', ok') /\
    ((count <= i' /\ ok' = ok /\ s' = s + Z.max 0 (count - i) /\ s' <= bit_count bm /\
        forall j, s <= j < s' -> bval (bget bm j) = bit) \/
     (i' < count /\ s < s' <= bit_count bm /\ s' <= s + (count - i) /\ bval (bget bm (s' - 1)) <> bit) \/
     (i' < count /\ s' = bit_count bm /\ bit_count bm < s + (count - i))).
Proof.
  induction fuel as [|fuel IH]; intros bm bit count i s ok Hwf Hs Hf; cbn [bitmap_alloc_inner];
    destruct (Z.ltb_spec i count) as [Hi|Hi], (Z.ltb_spec s (bit_count bm)) as [Hsb|Hsb]; simpl;
    try lia.
  1, 4: (exists i, s, ok; split; [done|]; right; right; split_and!; lia).
  1, 3, 4: (exists i, s, ok; split; [done|]; left; split_and!; intros; lia).
  rewrite bitmap_get_bit_spec by (done || lia). cbn [mbind option_bind].
  destruct (Z.eqb_spec (bval (bget bm s)) bit) as [Hb|Hb]; simpl.
  - destruct (IH bm bit count (i + 1) (s + 1) ok) as (i' & s' & ok' & E & H); [done|lia..|].
    exists i', s', ok'. split; [done|].
    destruct H as [(? & ? & ? & ? & Hj)|[(? & ? & ? & ?)|(? & ? & ?)]].
    + left. split_and!; try lia. intros j Hjr.
      destruct (decide (j = s)) as [->|]; [done | apply Hj; lia].
    + right; left. split_and!; (done || lia).
    + right; right. split_and!; lia.
  - exists i, (s + 1), (-1). split; [done|]. right; left. split_and!; try lia.
    by replace (s + 1 - 1) with s by lia.
Qed.

Lemma bitmap_alloc_outer_spec fuel : forall bm bit count s,
  bitmap_wf bm -> 0 <= s -> bit_count bm - s <= Z.of_nat fuel ->
  (forall r, 0 <= r < s -> ~ run_at bm bit (alloc_window count) r) ->
  exists r bm', bitmap_alloc_outer fuel bm bit count s = Some (r, bm') /\
    ((r = -1 /\ bm' = bm /\ forall r', 0 <= r' -> ~ run_at bm bit (alloc_window count) r') \/
     (0 <= r /\ run_at bm bit (alloc_window count) r /\
        (forall r', 0 <= r' < r -> ~ run_at bm bit (alloc_window count) r') /\
        bitmap_set_bit bm r count (Z.lnot bit) = Some bm')).
Proof.
  induction fuel as [|fuel IH]; intros bm bit count s Hwf Hs Hf Hno; cbn [bitmap_alloc_outer];
    destruct (Z.ltb_spec s (bit_count bm)) as [Hsb|Hsb]; try lia.
  1, 3: exists (-1), bm; split; [done|]; left; split_and!; try done; intros r Hr [Hrw Hrj];
    apply (Hno r); [unfold alloc_window in *; lia | done].
  rewrite bitmap_get_bit_spec by (done || lia). cbn [mbind option_bind].
  destruct (Z.eqb_spec (bval (bget bm s)) bit) as [Hb|Hb]; simpl.
  - destruct (bitmap_alloc_inner_spec (Z.to_nat (bit_count bm)) bm bit count 1 s s)
      as (i' & s' & ok' & E & H); [done | lia..|].
    rewrite E. cbn [mbind option_bind].
    rewrite Z.geb_leb. destruct H as [(Hi & -> & Hs' & Hle & Hj)|H].
    + rewrite (proj2 (Z.leb_le _ _)) by lia.
      destruct (bitmap_set_bit_spec bm s count (Z.lnot bit) Hwf Hs) as (bm' & Eb & _).
      rewrite Eb. simpl. exists s, bm'. split; [done|]. right. split_and!; try done.
      unfold run_at, alloc_window. split; [lia|]. intros j Hjr.
      destruct (decide (j = s)) as [->|]; [done | apply Hj; lia].
    + assert (s < s' /\ i' < count) as [Hss Hic].
      { destruct H as [(? & ? & ? & ?)|(? & ? & ?)]; lia. }
      rewrite (proj2 (Z.leb_gt _ _)) by lia.
      apply IH; [done|lia..|]. intros r Hr.
      destruct (decide (r < s)); [apply Hno; lia|]. intros [Hrw Hrj].
      unfold alloc_window in *.
      destruct H as [(? & ? & ? & Hne)|(? & ? & ?)]; [|lia].
      apply Hne, Hrj. lia.
  - apply IH; [done|lia..|]. intros r Hr.
    destruct (decide (r = s)) as [->|]; [|apply Hno; lia].
    intros [_ Hrj]. apply Hb, Hrj. unfold alloc_window. lia.
Qed.

(** [bitmap_alloc_nbits] always terminates; it answers the least start of a run
    of [alloc_window count] bits and sets [count] bits from there, or -1. *)
Lemma bitmap_alloc_nbits_total bm bit count :
  bitmap_wf bm ->
  exists r bm', bitmap_alloc_nbits bm bit count = Some (r, bm') /\
    ((r = -1 /\ bm' = bm /\ forall r', 0 <= r' -> ~ run_at bm bit (alloc_window count) r') \/
     (0 <= r /\ run_at bm bit (alloc_window count) r /\
        (forall r', 0 <= r' < r -> ~ run_at bm bit (alloc_window count) r') /\
        bitmap_set_bit bm r count (Z.lnot bit) = Some bm')).
Proof.
  intros Hwf. apply bitmap_alloc_outer_spec; [done | lia | pose proof (proj1 Hwf); lia | intros; lia].
Qed.

(** The case the kernel uses: one free frame.  The least clear bit is set. *)
Lemma bitmap_alloc_one bm :
  bitmap_wf bm ->
  exists r bm', bitmap_alloc_nbits bm 0 1 = Some (r, bm') /\ bitmap_wf bm' /\
    bit_count bm' = bit_count bm /\
    ((r = -1 /\ bm' = bm /\ forall j, 0 <= j < bit_count bm -> bget bm j = true) \/
     (0 <= r < bit_count bm /\ bget bm r = false /\
        (forall j, 0 <= j < r -> bget bm j = true) /\
        forall j, 0 <= j -> bget bm' j = if j =? r then true else bget bm j)).
Proof.
  intros Hwf. destruct (bitmap_alloc_nbits_total bm 0 1 Hwf) as (r & bm' & E & H).
  assert (forall j, 0 <= j < bit_count bm -> ~ run_at bm 0 (alloc_window 1) j -> bget bm j = true) as Hset.
  { intros j Hj Hn. destruct (bget bm j) eqn:Eb; [done|]. exfalso. apply Hn.
    split; [unfold alloc_window; lia|]. unfold alloc_window. intros k Hk. replace k with j by lia. by rewrite Eb. }
  exists r, bm'. split; [done|]. destruct H as [(-> & -> & Hno)|(Hr & [Hrw Hrun] & Hleast & Eset)].
  - split_and!; try done. left. split_and!; try done. intros j Hj. apply Hset; [done | apply Hno; lia].
  - destruct (bitmap_set_bit_spec bm r 1 (Z.lnot 0) Hwf Hr) as (bm2 & E2 & Hwf2 & Hc2 & Hb2).
    rewrite E2 in Eset. injection Eset as <-. unfold alloc_window in Hrw. split_and!; try done. right.
    split_and!; [lia|lia| | |].
    + specialize (Hrun r). unfold alloc_window in Hrun. destruct (bget bm r); [|done]. discriminate Hrun; lia.
    + intros j Hj. apply Hset; [lia | apply Hleast; lia].
    + intros j Hj. rewrite Hb2 by done.
      destruct (Z.eqb_spec j r), (Z.leb_spec r j), (Z.ltb_spec j (Z.min (r + 1) (bit_count bm))); simpl; try done; lia.
Qed.

(** * Properties *)

(** Allocating a single bit [n] times: the bits handed out. *)
Fixpoint alloc_many (bm : bitmap_t) (n : nat) : option (list Z * bitmap_t) :=
  match n with
  | O => Some ([], bm)
  | S n =>
      '(r, bm) ← bitmap_alloc_nbits bm 0 1;
      '(rs, bm) ← alloc_many bm n;
      Some (r :: rs, bm)
  end.

Lemma alloc_many_spec n : forall bm,
  bitmap_wf bm ->
  exists rs bm', alloc_many bm n = Some (rs, bm') /\ bitmap_wf bm' /\
    bit_count bm' = bit_count bm /\
    (forall r, r ∈ rs -> r <> -1 -> 0 <= r < bit_count bm /\ bget bm r = false /\ bget bm' r = true) /\
    NoDup (filter (fun r => r <> -1) rs) /\
    (forall j, 0 <= j -> bget bm j = true -> bget bm' j = true).
Proof.
  induction n as [|n IH]; intros bm Hwf; cbn [alloc_many].
  { exists [], bm. split_and!; try done; [by intros r ?%not_elem_of_nil | constructor]. }
  destruct (bitmap_alloc_one bm Hwf) as (r & bm1 & E & Hwf1 & Hc1 & H).
  rewrite E. cbn [mbind option_bind]. destruct (IH bm1 Hwf1) as (rs & bm2 & E2 & Hwf2 & Hc2 & Hrs & Hnd & Hk).
  rewrite E2. cbn [mbind option_bind]. exists (r :: rs), bm2.
  assert (forall j, 0 <= j -> bget bm j = true -> bget bm1 j = true) as Hk1.
  { intros j Hj Hb. destruct H as [(_ & -> & _)|(_ & _ & _ & Hb1)]; [done|].
    rewrite Hb1 by done. by destruct (j =? r). }
  split_and!; [done | done | congruence | | | intros j Hj Hb; by apply Hk, Hk1].
  - intros x [->|Hx]%elem_of_cons Hne.
    + destruct H as [(? & _)|(Hr & Hb & _ & Hb1)]; [done|]. split_and!; [lia | lia | done |].
      apply Hk; [lia|]. rewrite Hb1, Z.eqb_refl by lia. done.
    + destruct (Hrs x Hx Hne) as (? & Hb & ?). split_and!; [lia | lia | | done].
      destruct (bget bm x) eqn:Ex; [|done]. rewrite Hk1 in Hb; done || lia.
  - destruct (decide (r = -1)) as [->|Hne].
    + by rewrite filter_cons_False by naive_solver.
    + rewrite filter_cons_True by done. apply NoDup_cons. split; [|done].
      intros [_ Hin]%list_elem_of_filter. destruct (Hrs r Hin Hne) as (? & Hb & _).
      destruct H as [(? & _)|(Hr & _ & _ & Hb1)]; [done|]. rewrite Hb1, Z.eqb_refl in Hb by lia. done.
Qed.

(** Allocating one bit finds the lowest clear bit, sets it and nothing else,
    and fails (-1, map unchanged) exactly when every bit is set; so bits handed out
    by any number of allocations are in range, were clear, and are all different. *)
Theorem bitmap_alloc_one_correct bm n :
  bitmap_wf bm ->
  (exists r bm', bitmap_alloc_nbits bm 0 1 = Some (r, bm') /\ bitmap_wf bm' /\
    ((r = -1 /\ bm' = bm /\ forall j, 0 <= j < bit_count bm -> bget bm j = true) \/
     (0 <= r < bit_count bm /\ bget bm r = false /\
        (forall j, 0 <= j < r -> bget bm j = true) /\
        forall j, 0 <= j -> bget bm' j = if j =? r then true else bget bm j))) /\
  exists rs bm', alloc_many bm n = Some (rs, bm') /\
    (forall r, r ∈ rs -> r <> -1 -> 0 <= r < bit_count bm /\ bget bm r = false /\ bget bm' r = true) /\
    NoDup (filter (fun r => r <> -1) rs).
Proof.
  intros Hwf. split.
  - destruct (bitmap_alloc_one bm Hwf) as (r & bm' & E & Hwf' & _ & H). by exists r, bm'.
  - destruct (alloc_many_spec n bm Hwf) as (rs & bm' & E & _ & _ & H1 & H2 & _). by exists rs, bm'.
Qed.

(** C34: what [bitmap_alloc_nbits] does for a run of [count]: it always terminates
    and answers the least index from which [max 1 (count - 1)] bits, one less than
    asked for when [count] is 2 or more, have the wanted value inside the map; then
    [count] bits from there are set. *)
Theorem bitmap_alloc_run_spec bm bit count :
  bitmap_wf bm ->
  exists r bm', bitmap_alloc_nbits bm bit count = Some (r, bm') /\
    ((r = -1 /\ bm' = bm /\ forall r', 0 <= r' -> ~ run_at bm bit (alloc_window count) r') \/
     (0 <= r /\ run_at bm bit (alloc_window count) r /\
        (forall r', 0 <= r' < r -> ~ run_at bm bit (alloc_window count) r') /\
        bitmap_set_bit bm r count (Z.lnot bit) = Some bm')).
Proof. apply bitmap_alloc_nbits_total. Qed.

(** So a run of two or more bits can overlap bits in use: when the first
    [count - 1] bits are clear and the next one is set, the allocation answers 0 all
    the same. *)
Theorem bitmap_alloc_run_overlaps bm count :
  bitmap_wf bm -> 2 <= count <= bit_count bm ->
  (forall j, 0 <= j < count - 1 -> bget bm j = false) -> bget bm (count - 1) = true ->
  exists bm', bitmap_alloc_nbits bm 0 count = Some (0, bm').
Proof.
  intros Hwf Hc Hfree _. destruct (bitmap_alloc_nbits_total bm 0 count Hwf) as (r & bm' & E & H).
  assert (run_at bm 0 (alloc_window count) 0) as Hrun.
  { unfold run_at, alloc_window. split; [lia|]. intros j Hj. rewrite Hfree by lia. done. }
  destruct H as [(_ & _ & Hno)|(Hr & _ & Hleast & _)]; [by destruct (Hno 0)|].
  destruct (decide (r = 0)) as [->|]; [by exists bm'|]. by destruct (Hleast 0 ltac:(lia)).
Qed.

(** [bitmap_init] makes every bit the initial value; [bitmap_set_bit] gives a
    range, cut off at the end of the map, the value and keeps every other bit;
    [bitmap_get_bit] and [bitmap_is_set] read back what was set. *)
Theorem bitmap_bits_correct bs bm n v i c w :
  0 <= n -> Forall (fun b => 0 <= b < 256) bs -> bitmap_init bs n v = Some bm -> 0 <= i ->
  exists bm', bitmap_set_bit bm i c w = Some bm' /\
    forall j, 0 <= j < n ->
      let b := if (i <=? j) && (j <? i + c) then negb (w =? 0) else negb (v =? 0) in
      bitmap_get_bit bm' j = Some (bval b) /\ bitmap_is_set bm' j = Some (bval b).
Proof.
  intros Hn Hb Ei Hi. destruct (bitmap_init_spec bs n v bm Hn Hb Ei) as (Hwf & Hc & Hv).
  destruct (bitmap_set_bit_spec bm i c w Hwf Hi) as (bm' & E & Hwf' & Hc' & Hb').
  exists bm'. split; [done|]. intros j Hj b.
  assert (bget bm' j = b) as Ej.
  { rewrite Hb', Hc by lia. unfold b.
    rewrite Hv by lia. destruct (Z.ltb_spec j (i + c)), (Z.ltb_spec j (Z.min (i + c) n)); done || lia. }
  rewrite <- Ej. split; [by apply bitmap_get_bit_spec; [done | lia] | by apply bitmap_is_set_spec; [done | lia]].
Qed.
