(* ===== verification/Machine.v ===== *)
(** The machine the kernel runs on and the kernel's global state.

    Every kernel function of the development is a computation of [K]: it takes
    the state [kst] and returns, is suspended by a task switch, halts for ever,
    or runs into a page fault.  [MM] is the fragment that only touches RAM. *)
From S2P Require Import Prelude DList Bitmap.

(** * Data of the kernel *)
(** cpu.h: the hardware task state segment, [struct _tss_t] (26 words). *)
Record tss_t := Tss {
  tss_pre_link : Z;
  tss_esp0 : Z;
  tss_ss0 : Z;
  tss_esp1 : Z;
  tss_ss1 : Z;
  tss_esp2 : Z;
  tss_ss2 : Z;
  tss_cr3 : Z;
  tss_eip : Z;
  tss_eflags : Z;
  tss_eax : Z;
  tss_ecx : Z;
  tss_edx : Z;
  tss_ebx : Z;
  tss_esp : Z;
  tss_ebp : Z;
  tss_esi : Z;
  tss_edi : Z;
  tss_es : Z;
  tss_cs : Z;
  tss_ss : Z;
  tss_ds : Z;
  tss_fs : Z;
  tss_gs : Z;
  tss_ldt : Z;
  tss_iomap : Z
}.

Definition set_tss_cr3 (v : Z) (x : tss_t) : tss_t :=
  Tss (tss_pre_link x) (tss_esp0 x) (tss_ss0 x) (tss_esp1 x) (tss_ss1 x) (tss_esp2 x) (tss_ss2 x) v (tss_eip x) (tss_eflags x) (tss_eax x) (tss_ecx x) (tss_edx x) (tss_ebx x) (tss_esp x) (tss_ebp x) (tss_esi x) (tss_edi x) (tss_es x) (tss_cs x) (tss_ss x) (tss_ds x) (tss_fs x) (tss_gs x) (tss_ldt x) (tss_iomap x).

(** The states of task.h; [TASK_WAITING] is declared there and never used. *)
Inductive task_state :=
  | TASK_CREATED | TASK_RUNNING | TASK_SLEEP | TASK_READY | TASK_WAITING | TASK_ZOMBIE.

(** task.h: [struct _task_t].  Its three list nodes are kept in [k_nodes], at
    the addresses [run_node], [all_node] and [wait_node] below. *)
Record task_t := Task {
  t_state : task_state;
  t_name : list Z;
  t_pid : Z;
  t_parent : Z;
  t_sleep_ticks : Z;
  t_time_ticks : Z;
  t_slice_ticks : Z;
  t_tss : tss_t;
  t_tss_sel : Z
}.

Definition set_t_state (v : task_state) (x : task_t) : task_t :=
  Task v (t_name x) (t_pid x) (t_parent x) (t_sleep_ticks x) (t_time_ticks x) (t_slice_ticks x) (t_tss x) (t_tss_sel x).

Definition set_t_name (v : list Z) (x : task_t) : task_t :=
  Task (t_state x) v (t_pid x) (t_parent x) (t_sleep_ticks x) (t_time_ticks x) (t_slice_ticks x) (t_tss x) (t_tss_sel x).

Definition set_t_pid (v : Z) (x : task_t) : task_t :=
  Task (t_state x) (t_name x) v (t_parent x) (t_sleep_ticks x) (t_time_ticks x) (t_slice_ticks x) (t_tss x) (t_tss_sel x).

Definition set_t_parent (v : Z) (x : task_t) : task_t :=
  Task (t_state x) (t_name x) (t_pid x) v (t_sleep_ticks x) (t_time_ticks x) (t_slice_ticks x) (t_tss x) (t_tss_sel x).

Definition set_t_sleep_ticks (v : Z) (x : task_t) : task_t :=
  Task (t_state x) (t_name x) (t_pid x) (t_parent x) v (t_time_ticks x) (t_slice_ticks x) (t_tss x) (t_tss_sel x).

Definition set_t_time_ticks (v : Z) (x : task_t) : task_t :=
  Task (t_state x) (t_name x) (t_pid x) (t_parent x) (t_sleep_ticks x) v (t_slice_ticks x) (t_tss x) (t_tss_sel x).

Definition set_t_slice_ticks (v : Z) (x : task_t) : task_t :=
  Task (t_state x) (t_name x) (t_pid x) (t_parent x) (t_sleep_ticks x) (t_time_ticks x) v (t_tss x) (t_tss_sel x).

Definition set_t_tss (v : tss_t) (x : task_t) : task_t :=
  Task (t_state x) (t_name x) (t_pid x) (t_parent x) (t_sleep_ticks x) (t_time_ticks x) (t_slice_ticks x) v (t_tss_sel x).

Definition set_t_tss_sel (v : Z) (x : task_t) : task_t :=
  Task (t_state x) (t_name x) (t_pid x) (t_parent x) (t_sleep_ticks x) (t_time_ticks x) (t_slice_ticks x) (t_tss x) v.

(** task.h: [struct _task_manager_t]; the tasks [first_task] and [idle_task]
    embedded in it are entries of [k_tasks]. *)
Record task_manager_t := TaskManager {
  curr_task : Z;
  ready_list : list_t;
  task_list : list_t;
  sleep_list : list_t;
  app_code_sel : Z;
  app_data_sel : Z
}.

Definition set_curr_task (v : Z) (x : task_manager_t) : task_manager_t :=
  TaskManager v (ready_list x) (task_list x) (sleep_list x) (app_code_sel x) (app_data_sel x).

Definition set_ready_list (v : list_t) (x : task_manager_t) : task_manager_t :=
  TaskManager (curr_task x) v (task_list x) (sleep_list x) (app_code_sel x) (app_data_sel x).

Definition set_task_list (v : list_t) (x : task_manager_t) : task_manager_t :=
  TaskManager (curr_task x) (ready_list x) v (sleep_list x) (app_code_sel x) (app_data_sel x).

Definition set_sleep_list (v : list_t) (x : task_manager_t) : task_manager_t :=
  TaskManager (curr_task x) (ready_list x) (task_list x) v (app_code_sel x) (app_data_sel x).

Definition set_app_code_sel (v : Z) (x : task_manager_t) : task_manager_t :=
  TaskManager (curr_task x) (ready_list x) (task_list x) (sleep_list x) v (app_data_sel x).

Definition set_app_data_sel (v : Z) (x : task_manager_t) : task_manager_t :=
  TaskManager (curr_task x) (ready_list x) (task_list x) (sleep_list x) (app_code_sel x) v.

(** mutex.h: [struct _mutex_t]. *)
Record mutex_t := Mutex {
  m_name : list Z;
  m_owner : Z;
  m_locked_count : Z;
  m_wait_list : list_t
}.

(** sem.h: [struct _sem_t]. *)
Record sem_t := Sem {
  s_count : Z;
  s_wait_list : list_t
}.

(** cpu.h: a GDT entry, [struct _segment_desc_t]. *)
Record segment_desc_t := SegmentDesc {
  sd_limit15_0 : Z;
  sd_base15_0 : Z;
  sd_base23_16 : Z;
  sd_attr : Z;
  sd_base31_24 : Z
}.

Definition set_sd_attr (v : Z) (x : segment_desc_t) : segment_desc_t :=
  SegmentDesc (sd_limit15_0 x) (sd_base15_0 x) (sd_base23_16 x) v (sd_base31_24 x).

(** cpu.h: an IDT entry or call gate, [struct _gate_desc_t]. *)
Record gate_desc_t := GateDesc {
  gd_offset15_0 : Z;
  gd_selector : Z;
  gd_attr : Z;
  gd_offset31_16 : Z
}.

(** memory.h: [struct _addr_alloc_t] without its mutex, which is the entry
    [paddr_alloc] of [k_mutex] (the mutex is the first member). *)
Record addr_alloc_t := AddrAlloc {
  al_bitmap : bitmap_t;
  al_start : Z;
  al_size : Z;
  al_page_size : Z
}.

Definition set_al_bitmap (v : bitmap_t) (x : addr_alloc_t) : addr_alloc_t :=
  AddrAlloc v (al_start x) (al_size x) (al_page_size x).

(** The state of the machine as the kernel sees it: the CPU's interrupt flag,
    CR3 and TR, the RAM, the kernel's static objects, the bytes written to I/O
    ports (newest first) with the number of port reads made so far, and the
    registers CR2, GDTR and IDTR (the latter as base and limit). *)
Record kst := Kst {
  k_if : bool;
  k_cr3 : Z;
  k_tr : Z;
  k_mem : gmap Z Z;
  k_nodes : heap;
  k_tasks : gmap Z task_t;
  k_tm : task_manager_t;
  k_mutex : gmap Z mutex_t;
  k_sem : gmap Z sem_t;
  k_alloc : addr_alloc_t;
  k_gdt : list segment_desc_t;
  k_idt : list gate_desc_t;
  k_sys_tick : Z;
  k_temp_pos : Z;
  k_out : list (Z * Z);
  k_reads : nat;
  k_cr2 : Z;
  k_gdtr : Z * Z;
  k_idtr : Z * Z
}.

Definition set_k_if (v : bool) (s : kst) : kst :=
  Kst v (k_cr3 s) (k_tr s) (k_mem s) (k_nodes s) (k_tasks s) (k_tm s) (k_mutex s) (k_sem s) (k_alloc s) (k_gdt s) (k_idt s) (k_sys_tick s) (k_temp_pos s) (k_out s) (k_reads s) (k_cr2 s) (k_gdtr s) (k_idtr s).

Definition set_k_cr3 (v : Z) (s : kst) : kst :=
  Kst (k_if s) v (k_tr s) (k_mem s) (k_nodes s) (k_tasks s) (k_tm s) (k_mutex s) (k_sem s) (k_alloc s) (k_gdt s) (k_idt s) (k_sys_tick s) (k_temp_pos s) (k_out s) (k_reads s) (k_cr2 s) (k_gdtr s) (k_idtr s).

Definition set_k_tr (v : Z) (s : kst) : kst :=
  Kst (k_if s) (k_cr3 s) v (k_mem s) (k_nodes s) (k_tasks s) (k_tm s) (k_mutex s) (k_sem s) (k_alloc s) (k_gdt s) (k_idt s) (k_sys_tick s) (k_temp_pos s) (k_out s) (k_reads s) (k_cr2 s) (k_gdtr s) (k_idtr s).

Definition set_k_mem (v : gmap Z Z) (s : kst) : kst :=
  Kst (k_if s) (k_cr3 s) (k_tr s) v (k_nodes s) (k_tasks s) (k_tm s) (k_mutex s) (k_sem s) (k_alloc s) (k_gdt s) (k_idt s) (k_sys_tick s) (k_temp_pos s) (k_out s) (k_reads s) (k_cr2 s) (k_gdtr s) (k_idtr s).

Definition set_k_nodes (v : heap) (s : kst) : kst :=
  Kst (k_if s) (k_cr3 s) (k_tr s) (k_mem s) v (k_tasks s) (k_tm s) (k_mutex s) (k_sem s) (k_alloc s) (k_gdt s) (k_idt s) (k_sys_tick s) (k_temp_pos s) (k_out s) (k_reads s) (k_cr2 s) (k_gdtr s) (k_idtr s).

Definition set_k_tasks (v : gmap Z task_t) (s : kst) : kst :=
  Kst (k_if s) (k_cr3 s) (k_tr s) (k_mem s) (k_nodes s) v (k_tm s) (k_mutex s) (k_sem s) (k_alloc s) (k_gdt s) (k_idt s) (k_sys_tick s) (k_temp_pos s) (k_out s) (k_reads s) (k_cr2 s) (k_gdtr s) (k_idtr s).

Definition set_k_tm (v : task_manager_t) (s : kst) : kst :=
  Kst (k_if s) (k_cr3 s) (k_tr s) (k_mem s) (k_nodes s) (k_tasks s) v (k_mutex s) (k_sem s) (k_alloc s) (k_gdt s) (k_idt s) (k_sys_tick s) (k_temp_pos s) (k_out s) (k_reads s) (k_cr2 s) (k_gdtr s) (k_idtr s).

Definition set_k_mutex (v : gmap Z mutex_t) (s : kst) : kst :=
  Kst (k_if s) (k_cr3 s) (k_tr s) (k_mem s) (k_nodes s) (k_tasks s) (k_tm s) v (k_sem s) (k_alloc s) (k_gdt s) (k_idt s) (k_sys_tick s) (k_temp_pos s) (k_out s) (k_reads s) (k_cr2 s) (k_gdtr s) (k_idtr s).

Definition set_k_sem (v : gmap Z sem_t) (s : kst) : kst :=
  Kst (k_if s) (k_cr3 s) (k_tr s) (k_mem s) (k_nodes s) (k_tasks s) (k_tm s) (k_mutex s) v (k_alloc s) (k_gdt s) (k_idt s) (k_sys_tick s) (k_temp_pos s) (k_out s) (k_reads s) (k_cr2 s) (k_gdtr s) (k_idtr s).

Definition set_k_alloc (v : addr_alloc_t) (s : kst) : kst :=
  Kst (k_if s) (k_cr3 s) (k_tr s) (k_mem s) (k_nodes s) (k_tasks s) (k_tm s) (k_mutex s) (k_sem s) v (k_gdt s) (k_idt s) (k_sys_tick s) (k_temp_pos s) (k_out s) (k_reads s) (k_cr2 s) (k_gdtr s) (k_idtr s).

Definition set_k_gdt (v : list segment_desc_t) (s : kst) : kst :=
  Kst (k_if s) (k_cr3 s) (k_tr s) (k_mem s) (k_nodes s) (k_tasks s) (k_tm s) (k_mutex s) (k_sem s) (k_alloc s) v (k_idt s) (k_sys_tick s) (k_temp_pos s) (k_out s) (k_reads s) (k_cr2 s) (k_gdtr s) (k_idtr s).

Definition set_k_idt (v : list gate_desc_t) (s : kst) : kst :=
  Kst (k_if s) (k_cr3 s) (k_tr s) (k_mem s) (k_nodes s) (k_tasks s) (k_tm s) (k_mutex s) (k_sem s) (k_alloc s) (k_gdt s) v (k_sys_tick s) (k_temp_pos s) (k_out s) (k_reads s) (k_cr2 s) (k_gdtr s) (k_idtr s).

Definition set_k_sys_tick (v : Z) (s : kst) : kst :=
  Kst (k_if s) (k_cr3 s) (k_tr s) (k_mem s) (k_nodes s) (k_tasks s) (k_tm s) (k_mutex s) (k_sem s) (k_alloc s) (k_gdt s) (k_idt s) v (k_temp_pos s) (k_out s) (k_reads s) (k_cr2 s) (k_gdtr s) (k_idtr s).

Definition set_k_temp_pos (v : Z) (s : kst) : kst :=
  Kst (k_if s) (k_cr3 s) (k_tr s) (k_mem s) (k_nodes s) (k_tasks s) (k_tm s) (k_mutex s) (k_sem s) (k_alloc s) (k_gdt s) (k_idt s) (k_sys_tick s) v (k_out s) (k_reads s) (k_cr2 s) (k_gdtr s) (k_idtr s).

Definition set_k_out (v : list (Z * Z)) (s : kst) : kst :=
  Kst (k_if s) (k_cr3 s) (k_tr s) (k_mem s) (k_nodes s) (k_tasks s) (k_tm s) (k_mutex s) (k_sem s) (k_alloc s) (k_gdt s) (k_idt s) (k_sys_tick s) (k_temp_pos s) v (k_reads s) (k_cr2 s) (k_gdtr s) (k_idtr s).

Definition set_k_reads (v : nat) (s : kst) : kst :=
  Kst (k_if s) (k_cr3 s) (k_tr s) (k_mem s) (k_nodes s) (k_tasks s) (k_tm s) (k_mutex s) (k_sem s) (k_alloc s) (k_gdt s) (k_idt s) (k_sys_tick s) (k_temp_pos s) (k_out s) v (k_cr2 s) (k_gdtr s) (k_idtr s).

Definition set_k_cr2 (v : Z) (s : kst) : kst :=
  Kst (k_if s) (k_cr3 s) (k_tr s) (k_mem s) (k_nodes s) (k_tasks s) (k_tm s) (k_mutex s) (k_sem s) (k_alloc s) (k_gdt s) (k_idt s) (k_sys_tick s) (k_temp_pos s) (k_out s) (k_reads s) v (k_gdtr s) (k_idtr s).

Definition set_k_gdtr (v : Z * Z) (s : kst) : kst :=
  Kst (k_if s) (k_cr3 s) (k_tr s) (k_mem s) (k_nodes s) (k_tasks s) (k_tm s) (k_mutex s) (k_sem s) (k_alloc s) (k_gdt s) (k_idt s) (k_sys_tick s) (k_temp_pos s) (k_out s) (k_reads s) (k_cr2 s) v (k_idtr s).

Definition set_k_idtr (v : Z * Z) (s : kst) : kst :=
  Kst (k_if s) (k_cr3 s) (k_tr s) (k_mem s) (k_nodes s) (k_tasks s) (k_tm s) (k_mutex s) (k_sem s) (k_alloc s) (k_gdt s) (k_idt s) (k_sys_tick s) (k_temp_pos s) (k_out s) (k_reads s) (k_cr2 s) (k_gdtr s) v.


#[export] Instance task_state_eq_dec : EqDecision task_state.
Proof. solve_decision. Defined.

(** ** Structure layout: sizes and member offsets on i386 *)
Definition SIZEOF_TASK : Z := 188.
Definition RUN_NODE_OFF : Z := 44.
Definition ALL_NODE_OFF : Z := 52.
Definition WAIT_NODE_OFF : Z := 60.

Definition run_node (task : Z) : Z := task + RUN_NODE_OFF.
Definition all_node (task : Z) : Z := task + ALL_NODE_OFF.
Definition wait_node (task : Z) : Z := task + WAIT_NODE_OFF.

(** ** Addresses of the kernel's static objects: what the linker chose. *)
Class Layout := {
  paddr_alloc : Z;
  kernel_page_dir : Z;
  task_manager : Z;
  task_table : Z;
  task_table_mutex : Z;
  idle_task_stack : Z;
  gdt_table : Z;
  gdt_mutex : Z;
  idt_table : Z;
  log_mutex : Z;
  TEMP_ADDR : Z;
  kernel_base : Z;
  s_text : Z;
  e_text : Z;
  s_data : Z;
  s_first_task : Z;
  e_first_task : Z;
  mem_free_start : Z;
  first_task_entry : Z;
  idle_task_entry : Z;
  exception_handler_syscall : Z;
  exception_handler_timer : Z;
  exception_handler_unknown : Z;
  (** the stub of start_kernel.S for an exception number *)
  exception_handler : Z -> Z;
  (** the directory [__FILE__] starts with *)
  source_root : list Z;
  (** the locals of [load_elf_file] and [copy_args], by their distance from the
      top of the kernel stack *)
  stk_elf_hdr : Z;
  stk_elf_phdr : Z;
  stk_task_args : Z;
  (** what a call of a [void] function leaves in EAX, by system call number *)
  void_eax : Z -> Z
}.

(** The members [first_task] and [idle_task] of [task_manager]. *)
Definition first_task `{Layout} : Z := task_manager + 40.
Definition idle_task `{Layout} : Z := task_manager + 40 + SIZEOF_TASK.

(** The image of build/source/kernel/kernel_elf.txt. *)
Definition kernel_elf : Layout := {|
  paddr_alloc := 0x16000; kernel_page_dir := 0x17000; task_manager := 0x18000;
  task_table := 0x181c0; task_table_mutex := 0x1dfc0; idle_task_stack := 0x1e020;
  gdt_table := 0x1f020; gdt_mutex := 0x1f820; idt_table := 0x1f880; log_mutex := 0x40f00;
  TEMP_ADDR := 0x1fca0; kernel_base := 0; s_text := 0x10000; e_text := 0x14ccc;
  s_data := 0x15000; s_first_task := 0x42f60; e_first_task := 0x431fa;
  mem_free_start := 0x431fa; first_task_entry := 0x80000000; idle_task_entry := 0x11426;
  exception_handler_syscall := 0x102d7; exception_handler_timer := 0x102a3;
  exception_handler_unknown := 0x10026;
  exception_handler := fun n =>
    nth (Z.to_nat n)
      [0x10045; 0x10064; 0x10083; 0x100a2; 0x100c1; 0x100e0; 0x100ff; 0x1011e; 0x1013d; 0;
       0x1015a; 0x10177; 0x10194; 0x101b3; 0x101d0; 0; 0x101ed; 0x1020c; 0x10229; 0x10248;
       0x10267; 0x10286] 0;
  source_root := cs "E:/Data/Work/Job/Cpp/diy-x86os/start/start/source/kernel/"; stk_elf_hdr := 300; stk_elf_phdr := 340; stk_task_args := 260;
  void_eax := fun _ => 0
|}.

(** ** Devices: the value the [n]-th port read of the run finds at a port, and
    how many times a status port is polled before the device counts as hung. *)
Class Device := {
  port_in : Z -> nat -> Z;
  port_patience : nat
}.

(** * Kernel computations *)
Inductive outcome (A : Type) :=
  (** the function returned *)
  | Done (a : A) (s : kst)
  (** it jumped to another task; the continuation runs when it is resumed *)
  | Susp (s : kst) (k : kst -> outcome A)
  (** it loops for ever ([hlt], or a device that does not answer) *)
  | Halted (s : kst)
  (** it accessed an address or object that is not there *)
  | Fault (s : kst).
Arguments Done {A} a s.
Arguments Susp {A} s k.
Arguments Halted {A} s.
Arguments Fault {A} s.

Definition K (A : Type) : Type := kst -> outcome A.

Fixpoint obind {A B} (f : A -> K B) (o : outcome A) : outcome B :=
  match o with
  | Done a s => f a s
  | Susp s k => Susp s (fun s' => obind f (k s'))
  | Halted s => Halted s
  | Fault s => Fault s
  end.

#[export] Instance K_ret : MRet K := fun A a s => Done a s.
#[export] Instance K_bind : MBind K := fun A B f m s => obind f (m s).

Definition kfault {A} : K A := fun s => Fault s.
Definition khalt {A} : K A := fun s => Halted s.
Definition gets {A} (f : kst -> A) : K A := fun s => Done (f s) s.
Definition modify (f : kst -> kst) : K unit := fun s => Done tt (f s).
Definition kopt {A} (o : option A) : K A :=
  match o with Some a => mret a | None => kfault end.

(** ** The hardware task switch: [far_jump] to a TSS selector

    The processor finds the TSS through the GDT entry of the selector, loads TR
    and CR3 from it and continues the task the TSS belongs to. *)
Definition TSS_OFF : Z := 80.

Definition desc_base (d : segment_desc_t) : Z :=
  sd_base15_0 d + 2 ^ 16 * sd_base23_16 d + 2 ^ 24 * sd_base31_24 d.

(** The task whose TSS a selector designates. *)
Definition tss_owner (s : kst) (tss_sel : Z) : option (Z * task_t) :=
  d ← k_gdt s !! Z.to_nat (tss_sel / 8);
  t ← k_tasks s !! (desc_base d - TSS_OFF);
  Some (desc_base d - TSS_OFF, t).

(** The task that leaves is suspended; its flags are in its TSS and come back
    when it is resumed.  A task that never ran starts with the IF bit of the
    [eflags] its TSS was given. *)
Definition far_jump_tss (tss_sel : Z) : K unit :=
  fun s =>
    match tss_owner s tss_sel with
    | Some (_, t) =>
        Susp (set_k_if (Z.testbit (tss_eflags (t_tss t)) 9)
                (set_k_cr3 (tss_cr3 (t_tss t)) (set_k_tr tss_sel s)))
             (fun s' => Done tt (set_k_if (k_if s) s'))
    | None => Fault s
    end.

(** * RAM *)
Definition mget (m : gmap Z Z) (a : Z) : Z := u8 (default 0 (m !! a)).

Definition mset (m : gmap Z Z) (a v : Z) : gmap Z Z := <[a := u8 v]> m.

(** Little-endian words. *)
Definition ld32 (m : gmap Z Z) (a : Z) : Z :=
  mget m a + 2 ^ 8 * mget m (a + 1) + 2 ^ 16 * mget m (a + 2) + 2 ^ 24 * mget m (a + 3).

Definition st32 (m : gmap Z Z) (a v : Z) : gmap Z Z :=
  mset (mset (mset (mset m a v) (a + 1) (v / 2 ^ 8)) (a + 2) (v / 2 ^ 16)) (a + 3) (v / 2 ^ 24).

(** memory.h *)
Definition MEM_EXT_START : Z := 0x100000.
Definition MEM_PAGE_SIZE : Z := 4096.
Definition MEM_EBDA_START : Z := 0x80000.
Definition MEMORY_TASK_BASE : Z := 0x80000000.
Definition MEM_EXT_END : Z := 127 * 1024 * 1024.

(** ** Address translation

    Below [MEMORY_TASK_BASE] an address is translated by the kernel's own
    mappings, which [create_kernel_table] makes one to one on low memory and on
    the extended memory; above it, by the page tables CR3 points to. *)
Definition kmapped (a : Z) : bool :=
  ((0 <=? a) && (a <? MEM_EBDA_START)) || ((MEM_EXT_START <=? a) && (a <? MEM_EXT_END)).

(** The processor's two-level walk for 4 KiB pages. *)
Definition mmu_walk (cr3 : Z) (m : gmap Z Z) (va : Z) : option Z :=
  let pde := ld32 m (cr3 / 4096 * 4096 + 4 * (va / 2 ^ 22)) in
  if Z.testbit pde 0 then
    let pte := ld32 m (pde / 4096 * 4096 + 4 * (va / 2 ^ 12 mod 2 ^ 10)) in
    if Z.testbit pte 0 then Some (pte / 4096 * 4096 + va mod 4096) else None
  else None.

Definition translate (cr3 : Z) (m : gmap Z Z) (va : Z) : option Z :=
  if va <? MEMORY_TASK_BASE
  then if kmapped va then Some va else None
  else if va <? 2 ^ 32 then mmu_walk cr3 m va else None.

(** ** Computations on RAM in an address space *)
Definition MM (A : Type) : Type := Z -> gmap Z Z -> option (A * gmap Z Z).

#[export] Instance MM_ret : MRet MM := fun A a _ m => Some (a, m).
#[export] Instance MM_bind : MBind MM :=
  fun A B f x cr3 m => match x cr3 m with Some (a, m') => f a cr3 m' | None => None end.

Definition mfault {A} : MM A := fun _ _ => None.

Definition load8 (a : Z) : MM Z :=
  fun cr3 m => pa ← translate cr3 m a; Some (mget m pa, m).

Definition store8 (a v : Z) : MM unit :=
  fun cr3 m => pa ← translate cr3 m a; Some (tt, mset m pa v).

(** A word access never crosses a page here: the addresses are aligned. *)
Definition load32 (a : Z) : MM Z :=
  fun cr3 m => pa ← translate cr3 m a; Some (ld32 m pa, m).

Definition store32 (a v : Z) : MM unit :=
  fun cr3 m => pa ← translate cr3 m a; Some (tt, st32 m pa v).

Definition lift {A} (x : MM A) : K A :=
  fun s => match x (k_cr3 s) (k_mem s) with
           | Some (a, m) => Done a (set_k_mem m s)
           | None => Fault s
           end.

(** * Instructions of comm/cpu_instr.h *)
Definition outb (port data : Z) : K unit :=
  modify (fun s => set_k_out ((port, u8 data) :: k_out s) s).

Definition inb `{Device} (port : Z) : K Z :=
  fun s => Done (u8 (port_in port (k_reads s))) (set_k_reads (S (k_reads s)) s).

Definition inw `{Device} (port : Z) : K Z :=
  fun s => Done (u16 (port_in port (k_reads s))) (set_k_reads (S (k_reads s)) s).

Definition cli : K unit := modify (set_k_if false).

Definition sti : K unit := modify (set_k_if true).

(** Of EFLAGS the model keeps the interrupt flag. *)
Definition read_eflags : K bool := gets k_if.

Definition write_eflags (state : bool) : K unit := modify (set_k_if state).

Definition write_cr3 (v : Z) : K unit := modify (set_k_cr3 v).

(** The limit field of the operand is 16 bits wide. *)
Definition lgdt (start size : Z) : K unit := modify (set_k_gdtr (start, u16 (size - 1))).

Definition lidt (start size : Z) : K unit := modify (set_k_idtr (start, u16 (size - 1))).

Definition read_cr2 : K Z := gets k_cr2.

(** [while (1) { hlt(); }] *)
Definition hlt_forever : K unit := khalt.

Definition write_tr (tss_sel : Z) : K unit := modify (set_k_tr tss_sel).

(** A busy-wait [while ((inb(port) & mask) != want) { }]. *)
Fixpoint poll `{Device} (fuel : nat) (port mask want : Z) : K unit :=
  match fuel with
  | O => khalt
  | S fuel =>
      v ← inb port;
      if Z.land v mask =? want then mret tt else poll fuel port mask want
  end.

(** * Critical sections: kernel/cpu/irq.c *)
Definition irq_disable_global : K unit := cli.

Definition irq_enable_global : K unit := sti.

Definition irq_enter_protection : K bool :=
  state ← read_eflags;
  irq_disable_global;;
  mret state.

Definition irq_leave_protection (state : bool) : K unit := write_eflags state.

(** * Objects *)
Definition get_task (a : Z) : K task_t :=
  s ← gets k_tasks; kopt (s !! a).

Definition upd_task (a : Z) (f : task_t -> task_t) : K unit :=
  t ← get_task a; modify (fun s => set_k_tasks (<[a := f t]> (k_tasks s)) s).

Definition get_mutex (a : Z) : K mutex_t :=
  m ← gets k_mutex; kopt (m !! a).

Definition put_mutex (a : Z) (m : mutex_t) : K unit :=
  modify (fun s => set_k_mutex (<[a := m]> (k_mutex s)) s).

Definition get_sem (a : Z) : K sem_t :=
  m ← gets k_sem; kopt (m !! a).

Definition put_sem (a : Z) (x : sem_t) : K unit :=
  modify (fun s => set_k_sem (<[a := x]> (k_sem s)) s).

Definition modify_tm (f : task_manager_t -> task_manager_t) : K unit :=
  modify (fun s => set_k_tm (f (k_tm s)) s).

(** A list operation on the node heap and a list header. *)
Definition on_list (op : heap -> list_t -> option (heap * list_t)) (l : list_t) : K list_t :=
  h ← gets k_nodes;
  '(h, l) ← kopt (op h l);
  modify (set_k_nodes h);;
  mret l.
