(* ===== verification/MachineFacts.v ===== *)
(** Reasoning rules for [K] and [MM], and the algebra of RAM. *)
From S2P Require Import Prelude DList Bitmap Machine.

(** * Kernel computations *)

(** The state in which the function gives up the CPU: by returning or by
    switching to another task. *)
Definition leaves {A} (o : outcome A) : option kst :=
  match o with Done _ s => Some s | Susp s _ => Some s | _ => None end.

Lemma kbind_done {A B} (m : K A) (f : A -> K B) s a s' :
  m s = Done a s' -> (m ≫= f) s = f a s'.
Proof. intros E. unfold mbind, K_bind. by rewrite E. Qed.

Lemma kbind_susp {A B} (m : K A) (f : A -> K B) s s' k :
  m s = Susp s' k -> (m ≫= f) s = Susp s' (fun s'' => obind f (k s'')).
Proof. intros E. unfold mbind, K_bind. by rewrite E. Qed.

(** ** Running a computation: one equation per constructor of [K] *)
Lemma run_bind {A B} (m : K A) (f : A -> K B) s : (m ≫= f) s = obind f (m s).
Proof. done. Qed.

Lemma run_ret {A} (a : A) s : (mret a : K A) s = Done a s.
Proof. done. Qed.

Lemma run_gets {A} (g : kst -> A) s : gets g s = Done (g s) s.
Proof. done. Qed.

Lemma run_modify g s : modify g s = Done tt (g s).
Proof. done. Qed.

Lemma run_kopt {A} (a : A) s : kopt (Some a) s = Done a s.
Proof. done. Qed.

Lemma run_enter s : irq_enter_protection s = Done (k_if s) (set_k_if false s).
Proof. done. Qed.

Lemma run_leave b s : irq_leave_protection b s = Done tt (set_k_if b s).
Proof. done. Qed.

Lemma run_on_list op l s h' l' :
  op (k_nodes s) l = Some (h', l') -> on_list op l s = Done l' (set_k_nodes h' s).
Proof. intros E. unfold on_list. rewrite !run_bind, run_gets. cbn [obind]. by rewrite E. Qed.

Lemma run_modify_tm f s : modify_tm f s = Done tt (set_k_tm (f (k_tm s)) s).
Proof. done. Qed.

Lemma obind_done {A B} (f : A -> K B) a s : obind f (Done a s) = f a s.
Proof. done. Qed.

Lemma obind_susp {A B} (f : A -> K B) s k :
  obind f (Susp s k) = Susp s (fun s' => obind f (k s')).
Proof. done. Qed.

Create Rewrite HintDb krun.
#[export] Hint Rewrite @run_bind @run_ret @run_gets run_modify run_modify_tm @run_kopt run_enter run_leave
  @obind_done @obind_susp : krun.

(** Projections of updated states. *)
Ltac kproj := cbn [k_if k_cr3 k_tr k_mem k_nodes k_tasks k_tm k_mutex k_sem k_alloc k_gdt k_idt k_sys_tick k_temp_pos k_out k_reads k_cr2 k_gdtr k_idtr set_k_if set_k_cr3 set_k_tr set_k_mem set_k_nodes set_k_tasks set_k_tm set_k_mutex set_k_sem set_k_alloc set_k_gdt set_k_idt set_k_sys_tick set_k_temp_pos set_k_out set_k_reads set_k_cr2 set_k_gdtr set_k_idtr
  curr_task ready_list task_list sleep_list app_code_sel app_data_sel set_curr_task set_ready_list set_task_list set_sleep_list set_app_code_sel set_app_data_sel].

Ltac kred := repeat (progress (autorewrite with krun; cbn beta iota zeta)); kproj.

(** Writing a component back unchanged. *)
Lemma set_k_if_id s : set_k_if (k_if s) s = s.
Proof. by destruct s. Qed.

Lemma set_k_cr3_id s : set_k_cr3 (k_cr3 s) s = s.
Proof. by destruct s. Qed.

Lemma set_k_tr_id s : set_k_tr (k_tr s) s = s.
Proof. by destruct s. Qed.

Lemma set_k_mem_id s : set_k_mem (k_mem s) s = s.
Proof. by destruct s. Qed.

Lemma set_k_nodes_id s : set_k_nodes (k_nodes s) s = s.
Proof. by destruct s. Qed.

Lemma set_k_tasks_id s : set_k_tasks (k_tasks s) s = s.
Proof. by destruct s. Qed.

Lemma set_k_tm_id s : set_k_tm (k_tm s) s = s.
Proof. by destruct s. Qed.

Lemma set_k_mutex_id s : set_k_mutex (k_mutex s) s = s.
Proof. by destruct s. Qed.

Lemma set_k_sem_id s : set_k_sem (k_sem s) s = s.
Proof. by destruct s. Qed.

Lemma set_k_alloc_id s : set_k_alloc (k_alloc s) s = s.
Proof. by destruct s. Qed.

Lemma set_k_gdt_id s : set_k_gdt (k_gdt s) s = s.
Proof. by destruct s. Qed.

Lemma set_k_idt_id s : set_k_idt (k_idt s) s = s.
Proof. by destruct s. Qed.

Lemma set_k_sys_tick_id s : set_k_sys_tick (k_sys_tick s) s = s.
Proof. by destruct s. Qed.

Lemma set_k_temp_pos_id s : set_k_temp_pos (k_temp_pos s) s = s.
Proof. by destruct s. Qed.

Lemma set_k_out_id s : set_k_out (k_out s) s = s.
Proof. by destruct s. Qed.

Lemma set_k_reads_id s : set_k_reads (k_reads s) s = s.
Proof. by destruct s. Qed.

#[export] Hint Rewrite set_k_if_id set_k_cr3_id set_k_tr_id set_k_mem_id set_k_nodes_id set_k_tasks_id set_k_tm_id set_k_mutex_id set_k_sem_id set_k_alloc_id set_k_gdt_id set_k_idt_id set_k_sys_tick_id set_k_temp_pos_id set_k_out_id set_k_reads_id : kernel.

(** * RAM *)
Lemma mget_range m a : 0 <= mget m a < 256.
Proof. apply u8_range. Qed.

Lemma mget_mset_eq m a v : mget (mset m a v) a = u8 v.
Proof. unfold mget, mset. rewrite lookup_insert_eq. simpl. apply u8_u8. Qed.

Lemma mget_mset_ne m a b v : a <> b -> mget (mset m a v) b = mget m b.
Proof. intros. unfold mget, mset. by rewrite lookup_insert_ne. Qed.

Lemma mget_mset m a b v : mget (mset m a v) b = if a =? b then u8 v else mget m b.
Proof. destruct (Z.eqb_spec a b) as [->|]; [apply mget_mset_eq | by apply mget_mset_ne]. Qed.

#[export] Hint Resolve mget_range : kernel.

Lemma ld32_range m a : 0 <= ld32 m a < 2 ^ 32.
Proof.
  unfold ld32. pose proof (mget_range m a). pose proof (mget_range m (a + 1)).
  pose proof (mget_range m (a + 2)). pose proof (mget_range m (a + 3)). lia.
Qed.

(** A word is its four bytes. *)
Lemma bytes_of_word v :
  u8 v + 2 ^ 8 * u8 (v / 2 ^ 8) + 2 ^ 16 * u8 (v / 2 ^ 16) + 2 ^ 24 * u8 (v / 2 ^ 24) = u32 v.
Proof. unfold u8, u32. change (2 ^ 8) with 256. change (2 ^ 16) with 65536.
  change (2 ^ 24) with 16777216. change (2 ^ 32) with 4294967296. zdiv. Qed.

Lemma mget_st32 m a v b :
  mget (st32 m a v) b =
    if b =? a then u8 v else if b =? a + 1 then u8 (v / 2 ^ 8)
    else if b =? a + 2 then u8 (v / 2 ^ 16) else if b =? a + 3 then u8 (v / 2 ^ 24)
    else mget m b.
Proof.
  unfold st32. rewrite !mget_mset.
  rewrite (Z.eqb_sym (a + 3)), (Z.eqb_sym (a + 2)), (Z.eqb_sym (a + 1)), (Z.eqb_sym a).
  destruct (Z.eqb_spec b a), (Z.eqb_spec b (a + 1)), (Z.eqb_spec b (a + 2)), (Z.eqb_spec b (a + 3)); done || lia.
Qed.

Lemma ld32_st32_eq m a v : ld32 (st32 m a v) a = u32 v.
Proof.
  unfold ld32. rewrite !mget_st32, <- bytes_of_word. rewrite Z.eqb_refl.
  rewrite (proj2 (Z.eqb_neq (a + 1) a)), (proj2 (Z.eqb_neq (a + 2) a)), (proj2 (Z.eqb_neq (a + 3) a)) by lia.
  rewrite (proj2 (Z.eqb_neq (a + 2) (a + 1))), (proj2 (Z.eqb_neq (a + 3) (a + 1))), (proj2 (Z.eqb_neq (a + 3) (a + 2))) by lia.
  by rewrite !Z.eqb_refl.
Qed.

(** Two memories that agree on the bytes of a word agree on the word. *)
Lemma ld32_ext m m' a :
  (forall b, a <= b < a + 4 -> mget m' b = mget m b) -> ld32 m' a = ld32 m a.
Proof. intros H. unfold ld32. rewrite !H by lia. done. Qed.

Lemma ld32_st32_ne m a v b : b + 4 <= a \/ a + 4 <= b -> ld32 (st32 m a v) b = ld32 m b.
Proof.
  intros. apply ld32_ext. intros c Hc. rewrite mget_st32.
  rewrite (proj2 (Z.eqb_neq c a)), (proj2 (Z.eqb_neq c (a + 1))), (proj2 (Z.eqb_neq c (a + 2))),
    (proj2 (Z.eqb_neq c (a + 3))) by lia. done.
Qed.

Lemma mget_st32_ne m a v b : b < a \/ a + 4 <= b -> mget (st32 m a v) b = mget m b.
Proof.
  intros. rewrite mget_st32.
  rewrite (proj2 (Z.eqb_neq b a)), (proj2 (Z.eqb_neq b (a + 1))), (proj2 (Z.eqb_neq b (a + 2))),
    (proj2 (Z.eqb_neq b (a + 3))) by lia. done.
Qed.

(** * Accesses through the kernel's own mapping *)
Lemma kmapped_spec a :
  kmapped a = true <-> 0 <= a < 524288 \/ 1048576 <= a < 133169152.
Proof.
  unfold kmapped, MEM_EBDA_START, MEM_EXT_START, MEM_EXT_END.
  rewrite orb_true_iff, !andb_true_iff, !Z.leb_le, !Z.ltb_lt. change (127 * 1024 * 1024) with 133169152. lia.
Qed.

Lemma translate_kernel cr3 m a : kmapped a = true -> translate cr3 m a = Some a.
Proof.
  intros Hk. unfold translate. rewrite Hk.
  rewrite (proj2 (Z.ltb_lt _ _)); [done|].
  apply kmapped_spec in Hk. unfold MEMORY_TASK_BASE. lia.
Qed.

Lemma load8_kernel cr3 m a : kmapped a = true -> load8 a cr3 m = Some (mget m a, m).
Proof. intros. unfold load8. by rewrite translate_kernel. Qed.

Lemma store8_kernel cr3 m a v : kmapped a = true -> store8 a v cr3 m = Some (tt, mset m a v).
Proof. intros. unfold store8. by rewrite translate_kernel. Qed.

Lemma load32_kernel cr3 m a : kmapped a = true -> load32 a cr3 m = Some (ld32 m a, m).
Proof. intros. unfold load32. by rewrite translate_kernel. Qed.

Lemma store32_kernel cr3 m a v : kmapped a = true -> store32 a v cr3 m = Some (tt, st32 m a v).
Proof. intros. unfold store32. by rewrite translate_kernel. Qed.

Lemma kmapped_ext a : MEM_EXT_START <= a < MEM_EXT_END -> kmapped a = true.
Proof. intros Ha. apply kmapped_spec. unfold MEM_EXT_START, MEM_EXT_END in Ha. lia. Qed.

Lemma lift_done {A} (x : MM A) s a m :
  x (k_cr3 s) (k_mem s) = Some (a, m) -> lift x s = Done a (set_k_mem m s).
Proof. intros E. unfold lift. by rewrite E. Qed.

#[export] Hint Resolve kmapped_ext : kernel.
#[export] Hint Rewrite mget_mset_eq ld32_st32_eq : kernel.
