(* ===== verification/Klib.v ===== *)
(** The kernel library of kernel/tools/klib.c and klib.h: alignment, memory and
    string routines.  (Number formatting is in Format.)

    Routines that walk pointers are computations of [MM] on RAM.  The string
    copies that fill a member of a kernel object ([task_t.name],
    [mutex_t.name]) also have a version on the array of the member, which is
    shown to be what the pointer version does. *)
From S2P Require Import Prelude Machine MachineFacts.

(** * klib.h: alignment *)
Definition up2 (size bound : Z) : Z :=
  Z.land (u32 (size + bound - 1)) (u32 (Z.lnot (u32 (bound - 1)))).

Definition down2 (size bound : Z) : Z := Z.land size (u32 (Z.lnot (u32 (bound - 1)))).

(** * Loops on RAM

    A [while] whose body may go on ([inl]) or leave ([inr]).  [mloop p] makes at
    most [p] rounds, counting in binary; [mwhile] allows 2^32 of them, more than
    any walk of a pointer through the address space can make. *)
Section Loop.
Context {S R : Type} (body : S -> MM (S + R)).

Fixpoint mloop (fuel : positive) (x : S) : MM (S + R) :=
  match fuel with
  | xH => body x
  | xO p =>
      r ← mloop p x;
      match r with inl x => mloop p x | inr r => mret (inr r) end
  | xI p =>
      r ← body x;
      match r with
      | inl x =>
          r ← mloop p x;
          match r with inl x => mloop p x | inr r => mret (inr r) end
      | inr r => mret (inr r)
      end
  end.

Definition mwhile (x : S) : MM R :=
  r ← mloop (2 ^ 32)%positive x;
  match r with inl _ => mfault | inr r => mret r end.

End Loop.

(** * Strings *)
Definition kstrcpy_body (x : Z * Z) : MM (Z * Z + Z) :=
  let '(dest, src) := x in
  d ← load8 dest;
  c ← load8 src;
  if negb (d =? 0) && negb (c =? 0)
  then store8 dest c;; mret (inl (dest + 1, src + 1))
  else mret (inr dest).

Definition kstrcpy (dest src : Z) : MM unit :=
  if (dest =? 0) || (src =? 0) then mret tt
  else
    dest ← mwhile kstrcpy_body (dest, src);
    store8 dest 0.

(** [while ((size-- > 0) && ( *s))]: the state is [(d, s, size)]. *)
Definition kstrncpy_body (x : Z * Z * Z) : MM (Z * Z * Z + Z * Z) :=
  let '(d, s, size) := x in
  if size >? 0 then
    c ← load8 s;
    if negb (c =? 0)
    then store8 d c;; mret (inl (d + 1, s + 1, size - 1))
    else mret (inr (d, size - 1))
  else mret (inr (d, size - 1)).

Definition kstrncpy (dest src size : Z) : MM unit :=
  if (dest =? 0) || (src =? 0) || (size =? 0) then mret tt
  else
    '(d, size) ← mwhile kstrncpy_body (dest, src, size);
    if size =? 0 then store8 (d - 1) 0 else store8 d 0.

Definition kstrlen_body (x : Z * Z) : MM (Z * Z + Z) :=
  let '(c, len) := x in
  b ← load8 c;
  if negb (b =? 0) then mret (inl (c + 1, len + 1)) else mret (inr len).

Definition kstrlen (str : Z) : MM Z :=
  if str =? 0 then mret 0 else mwhile kstrlen_body (str, 0).

(** [size] is tested and never decremented. *)
Definition kstrncmp_body (size : Z) (x : Z * Z) : MM (Z * Z + Z * Z) :=
  let '(s1, s2) := x in
  a ← load8 s1;
  b ← load8 s2;
  if negb (a =? 0) && negb (b =? 0) && (a =? b) && negb (size =? 0)
  then mret (inl (s1 + 1, s2 + 1))
  else mret (inr (a, b)).

Definition kstrncmp (s1 s2 size : Z) : MM Z :=
  if (s1 =? 0) || (s2 =? 0) then mret (-1)
  else
    '(a, b) ← mwhile (kstrncmp_body size) (s1, s2);
    mret (if (a =? 0) || (b =? 0) || (a =? b) then 0 else 1).

(** * Memory: [while (size--)] runs [size] times, modulo 2^32. *)
Fixpoint kmemcpy_loop (n : nat) (d s : Z) : MM unit :=
  match n with
  | O => mret tt
  | S n => c ← load8 s; store8 d c;; kmemcpy_loop n (d + 1) (s + 1)
  end.

Definition kmemcpy (dest src size : Z) : MM unit :=
  if (dest =? 0) || (src =? 0) || (size =? 0) then mret tt
  else kmemcpy_loop (Z.to_nat (u32 size)) dest src.

Fixpoint kmemset_loop (n : nat) (d v : Z) : MM unit :=
  match n with
  | O => mret tt
  | S n => store8 d v;; kmemset_loop n (d + 1) v
  end.

Definition kmemset (dest v size : Z) : MM unit :=
  if (dest =? 0) || (size =? 0) then mret tt
  else kmemset_loop (Z.to_nat (u32 size)) dest (u8 v).

Fixpoint kmemcmp_loop (n : nat) (d1 d2 : Z) : MM Z :=
  match n with
  | O => mret 0
  | S n =>
      a ← load8 d1;
      b ← load8 d2;
      if negb (a =? b) then mret 1 else kmemcmp_loop n (d1 + 1) (d2 + 1)
  end.

Definition kmemcmp (d1 d2 size : Z) : MM Z :=
  if (d1 =? 0) || (d2 =? 0) then mret 1 else kmemcmp_loop (Z.to_nat (u32 size)) d1 d2.

(** * argv and paths *)
Definition strings_count_body (x : Z * Z) : MM (Z * Z + Z) :=
  let '(start, count) := x in
  p ← load32 start;
  if negb (p =? 0) then mret (inl (start + 4, count + 1)) else mret (inr count).

Definition strings_count (start : Z) : MM Z :=
  if negb (start =? 0) then mwhile strings_count_body (start, 0) else mret 0.

Definition file_name_end_body (s : Z) : MM (Z + Z) :=
  c ← load8 s;
  if negb (c =? 0) then mret (inl (s + 1)) else mret (inr s).

(** The backward search reads [*s] before it compares [s >= name]. *)
Definition file_name_back_body (name s : Z) : MM (Z + Z) :=
  c ← load8 s;
  if negb (c =? 0x5c) && negb (c =? 0x2f) && (s >=? name)
  then mret (inl (s - 1)) else mret (inr s).

Definition get_file_name (name : Z) : MM Z :=
  s ← mwhile file_name_end_body name;
  s ← mwhile (file_name_back_body name) s;
  mret (s + 1).

(** An array written through a pointer: [buf] from index [i] on. *)
Definition poke (buf : list Z) (i : nat) (v : Z) : option (list Z) :=
  if (i <? length buf)%nat then Some (<[i := u8 v]> buf) else None.

(** * The string copies on an array

    [dest] is the whole array of a member; the source string ends where [src]
    does or at a 0 byte.  The result of [kstrncpy] may be one cell longer than
    [size]: the array must have it. *)
Fixpoint strcpy_array (dest src : list Z) : option (list Z) :=
  match dest with
  | [] => None
  | d :: dest' =>
      let c := hd 0 src in
      if negb (d =? 0) && negb (c =? 0)
      then r ← strcpy_array dest' (tl src); Some (c :: r)
      else Some (0 :: dest')
  end.

(** The loop of [kstrncpy] from index [i]: the array, the index it stopped at
    and what is left of [size] after the last decrement. *)
Fixpoint strncpy_array_loop (dest : list Z) (i : nat) (src : list Z) (size : Z)
    : option (list Z * nat * Z) :=
  match src with
  | c :: src =>
      if (size >? 0) && negb (c =? 0)
      then dest ← poke dest i c; strncpy_array_loop dest (S i) src (size - 1)
      else Some (dest, i, size - 1)
  | [] => Some (dest, i, size - 1)
  end.

Definition strncpy_array (dest src : list Z) (size : Z) : option (list Z) :=
  if size =? 0 then Some dest
  else
    '(dest, i, size) ← strncpy_array_loop dest 0 src size;
    if size =? 0
    then match i with S j => poke dest j 0 | O => None end
    else poke dest i 0.

(** * Reasoning about loops on RAM *)
Lemma mm_bind {A B} (x : MM A) (f : A -> MM B) cr3 m :
  (x ≫= f) cr3 m = match x cr3 m with Some (a, m') => f a cr3 m' | None => None end.
Proof. done. Qed.

Lemma mm_bind_some {A B} (x : MM A) (f : A -> MM B) cr3 m a m' :
  x cr3 m = Some (a, m') -> (x ≫= f) cr3 m = f a cr3 m'.
Proof. intros E. by rewrite mm_bind, E. Qed.

Lemma mm_ret {A} (a : A) cr3 m : (mret a : MM A) cr3 m = Some (a, m).
Proof. done. Qed.

Section LoopFacts.
Context {S R : Type} (body : S -> MM (S + R)).

(** At most [n] rounds, counted in unary. *)
Fixpoint miter (n : nat) (x : S) : MM (S + R) :=
  match n with
  | O => mret (inl x)
  | Datatypes.S n =>
      r ← body x;
      match r with inl x => miter n x | inr r => mret (inr r) end
  end.

Lemma miter_add a b x cr3 m :
  miter (a + b) x cr3 m =
    (r ← miter a x; match r with inl x => miter b x | inr r => mret (inr r) end) cr3 m.
Proof.
  revert x m; induction a as [|a IH]; intros x m; simpl; [done|].
  rewrite !mm_bind. destruct (body x cr3 m) as [[[x'|r] m']|]; [|done|done].
  by rewrite IH, mm_bind.
Qed.

Lemma mloop_miter p x cr3 m : mloop body p x cr3 m = miter (Pos.to_nat p) x cr3 m.
Proof.
  revert x m; induction p as [p IH|p IH|]; intros x m; cbn [mloop].
  - rewrite Pos2Nat.inj_xI. cbn [miter]. rewrite !mm_bind.
    destruct (body x cr3 m) as [[[x'|r] m']|]; [|done|done].
    rewrite mm_bind, IH, Nat.mul_succ_l, Nat.mul_1_l, miter_add, mm_bind.
    destruct (miter _ x' cr3 m') as [[[x2|r] m2]|]; [by rewrite IH|done|done].
  - rewrite Pos2Nat.inj_xO, Nat.mul_succ_l, Nat.mul_1_l, miter_add, !mm_bind, IH.
    destruct (miter _ x cr3 m) as [[[x2|r] m2]|]; [by rewrite IH|done|done].
  - change (Pos.to_nat 1) with 1%nat. cbn [miter]. rewrite mm_bind.
    by destruct (body x cr3 m) as [[[x'|r] m']|].
Qed.

Lemma miter_more n k x r cr3 m m' :
  miter n x cr3 m = Some (inr r, m') -> (n <= k)%nat -> miter k x cr3 m = Some (inr r, m').
Proof.
  intros E Hk. replace k with (n + (k - n))%nat by lia. by rewrite miter_add, mm_bind, E.
Qed.

(** A loop that leaves within 2^32 rounds returns what it leaves with. *)
Lemma mwhile_exit n x r cr3 m m' :
  miter n x cr3 m = Some (inr r, m') -> Z.of_nat n <= 2 ^ 32 ->
  mwhile body x cr3 m = Some (r, m').
Proof.
  intros E Hn. unfold mwhile. rewrite mm_bind, mloop_miter.
  rewrite (miter_more n _ x r cr3 m m' E); [done|].
  apply Nat2Z.inj_le. rewrite positive_nat_Z. exact Hn.
Qed.

Lemma miter_next n x y cr3 m m' :
  body x cr3 m = Some (inl y, m') -> miter (Datatypes.S n) x cr3 m = miter n y cr3 m'.
Proof. intros E. cbn [miter]. by rewrite mm_bind, E. Qed.

Lemma miter_last x r cr3 m m' :
  body x cr3 m = Some (inr r, m') -> miter 1 x cr3 m = Some (inr r, m').
Proof. intros E. cbn [miter]. by rewrite mm_bind, E. Qed.

End LoopFacts.

(** * Strings in RAM *)

(** The C string [s] (without its terminator) is at [p] in an address space. *)
Fixpoint cstr (cr3 : Z) (m : gmap Z Z) (p : Z) (s : list Z) : Prop :=
  match s with
  | [] => load8 p cr3 m = Some (0, m)
  | c :: s => c <> 0 /\ load8 p cr3 m = Some (c, m) /\ cstr cr3 m (p + 1) s
  end.

Lemma kstrlen_loop cr3 m s : forall p len,
  cstr cr3 m p s ->
  miter kstrlen_body (S (length s)) (p, len) cr3 m = Some (inr (len + Z.of_nat (length s)), m).
Proof.
  induction s as [|c s IH]; intros p len Hs.
  - simpl in Hs. rewrite (miter_last _ (p, len) len cr3 m m); [do 3 f_equal; simpl; lia|].
    unfold kstrlen_body. erewrite mm_bind_some by exact Hs. done.
  - destruct Hs as (Hc & Hl & Hs). cbn [length].
    rewrite (miter_next _ _ (p, len) (p + 1, len + 1) cr3 m m).
    + rewrite IH by done. do 3 f_equal. lia.
    + unfold kstrlen_body. erewrite mm_bind_some by exact Hl.
      by rewrite (proj2 (Z.eqb_neq c 0)).
Qed.

Lemma kstrlen_spec cr3 m p s :
  p <> 0 -> cstr cr3 m p s -> Z.of_nat (length s) < 2 ^ 32 ->
  kstrlen p cr3 m = Some (Z.of_nat (length s), m).
Proof.
  intros Hp Hs Hl. unfold kstrlen. rewrite (proj2 (Z.eqb_neq p 0)) by done.
  eapply (mwhile_exit _ (S (length s))); [by apply kstrlen_loop | lia].
Qed.

(** * Blocks of RAM *)

(** [m'] holds the same bytes as [m] outside [lo .. lo+n-1]. *)
Definition same_outside (lo n : Z) (m m' : gmap Z Z) : Prop :=
  forall a, ~ (lo <= a < lo + n) -> mget m' a = mget m a.

Lemma same_outside_refl lo n m : same_outside lo n m m.
Proof. done. Qed.

Lemma same_outside_trans lo n m1 m2 m3 :
  same_outside lo n m1 m2 -> same_outside lo n m2 m3 -> same_outside lo n m1 m3.
Proof. intros H1 H2 a Ha. by rewrite H2, H1. Qed.

Lemma same_outside_weaken lo n lo' n' m m' :
  lo' <= lo -> lo + n <= lo' + n' -> same_outside lo n m m' -> same_outside lo' n' m m'.
Proof. intros ? ? H a Ha. apply H. lia. Qed.

(** The block [d .. d+n-1] is reachable through the kernel's own mapping. *)
Definition kblock (d n : Z) : Prop := forall i, 0 <= i < n -> kmapped (d + i) = true.

Lemma kblock_ext d n : MEM_EXT_START <= d -> d + n <= MEM_EXT_END -> kblock d n.
Proof. intros ? ? i Hi. apply kmapped_ext. lia. Qed.

Lemma kmemset_loop_spec n : forall d v cr3 m,
  kblock d (Z.of_nat n) ->
  exists m', kmemset_loop n d v cr3 m = Some (tt, m') /\ same_outside d (Z.of_nat n) m m' /\
    forall a, d <= a < d + Z.of_nat n -> mget m' a = u8 v.
Proof.
  induction n as [|n IH]; intros d v cr3 m Hb; cbn [kmemset_loop].
  { exists m. split_and!; [done | done | lia]. }
  erewrite mm_bind_some by (apply store8_kernel; replace d with (d + 0) by lia; apply Hb; lia).
  destruct (IH (d + 1) v cr3 (mset m d v)) as (m' & E & Hs & Hv).
  { intros i Hi. replace (d + 1 + i) with (d + (i + 1)) by lia. apply Hb. lia. }
  exists m'. split_and!; [exact E | |].
  - intros a Ha. rewrite Hs by lia. apply mget_mset_ne. lia.
  - intros a Ha. destruct (decide (a = d)) as [->|]; [|apply Hv; lia].
    rewrite Hs by lia. apply mget_mset_eq.
Qed.

Lemma kmemset_spec d v n cr3 m :
  d <> 0 -> 0 <= n < 2 ^ 32 -> kblock d n ->
  exists m', kmemset d v n cr3 m = Some (tt, m') /\ same_outside d n m m' /\
    forall a, d <= a < d + n -> mget m' a = u8 v.
Proof.
  intros Hd Hn Hb. unfold kmemset. rewrite (proj2 (Z.eqb_neq d 0)) by done. simpl.
  destruct (Z.eqb_spec n 0) as [->|].
  { exists m. split_and!; [done | done | lia]. }
  rewrite u32_small by lia.
  destruct (kmemset_loop_spec (Z.to_nat n) d (u8 v) cr3 m) as (m' & E & Hs & Hv);
    rewrite Z2Nat.id in * by lia; [done|].
  exists m'. split_and!; try done. intros a Ha. by rewrite Hv, u8_u8.
Qed.

(** Copying from any readable block to a block of the kernel's mapping.  The
    source may be a user address: then writing the destination must not change
    the translation of the source. *)
Definition readable (cr3 : Z) (m : gmap Z Z) (lo n : Z) (src : Z) (at_ : Z -> Z) : Prop :=
  forall m' i, same_outside lo n m m' -> 0 <= i < n -> translate cr3 m' (src + i) = Some (at_ i).

Lemma kmemcpy_loop_spec k : forall j d s n cr3 m0 m at_,
  kblock d n -> readable cr3 m0 d n s at_ -> same_outside d n m0 m ->
  0 <= j -> j + Z.of_nat k = n ->
  (forall i, 0 <= i < n -> ~ (d <= at_ i < d + n)) ->
  exists m', kmemcpy_loop k (d + j) (s + j) cr3 m = Some (tt, m') /\ same_outside d n m0 m' /\
    (forall i, 0 <= i < j -> mget m' (d + i) = mget m (d + i)) /\
    forall i, j <= i < n -> mget m' (d + i) = mget m0 (at_ i).
Proof.
  induction k as [|k IH]; intros j d s n cr3 m0 m at_ Hb Hr Hs Hj Hn Hd; cbn [kmemcpy_loop].
  { exists m. split_and!; [done | done | done | lia]. }
  erewrite mm_bind_some by (unfold load8; rewrite (Hr m j) by (done || lia); done).
  erewrite mm_bind_some by (apply store8_kernel, Hb; lia).
  destruct (IH (j + 1) d s n cr3 m0 (mset m (d + j) (mget m (at_ j))) at_) as (m' & E & Ho & Hlo & Hhi); try done; [|lia..|].
  { intros a Ha. rewrite mget_mset_ne by lia. by apply Hs. }
  replace (d + j + 1) with (d + (j + 1)) by lia. replace (s + j + 1) with (s + (j + 1)) by lia.
  exists m'. split_and!; [exact E | done | |].
  - intros i Hi. rewrite Hlo by lia. apply mget_mset_ne. lia.
  - intros i Hi. destruct (decide (i = j)) as [->|]; [|apply Hhi; lia].
    rewrite Hlo by lia. rewrite mget_mset_eq, u8_small by apply mget_range.
    apply Hs, Hd. lia.
Qed.

Lemma kmemcpy_spec d s n cr3 m at_ :
  d <> 0 -> s <> 0 -> 0 <= n < 2 ^ 32 -> kblock d n -> readable cr3 m d n s at_ ->
  (forall i, 0 <= i < n -> ~ (d <= at_ i < d + n)) ->
  exists m', kmemcpy d s n cr3 m = Some (tt, m') /\ same_outside d n m m' /\
    forall i, 0 <= i < n -> mget m' (d + i) = mget m (at_ i).
Proof.
  intros Hd Hs Hn Hb Hr Ha. unfold kmemcpy.
  rewrite (proj2 (Z.eqb_neq d 0)), (proj2 (Z.eqb_neq s 0)) by done. simpl.
  destruct (Z.eqb_spec n 0) as [->|].
  { exists m. split_and!; [done | done | lia]. }
  rewrite u32_small by lia.
  destruct (kmemcpy_loop_spec (Z.to_nat n) 0 d s n cr3 m m at_) as (m' & E & Ho & _ & Hi); try done; [lia..|].
  rewrite !Z.add_0_r in E. exists m'. split_and!; [exact E | done | exact Hi].
Qed.

(** Both ends in the kernel's mapping. *)
Lemma readable_kernel cr3 m lo n s : kblock s n -> readable cr3 m lo n s (fun i => s + i).
Proof. intros Hb m' i _ Hi. by apply translate_kernel, Hb. Qed.

(** * Alignment *)
Lemma page_mask k : 0 <= k < 32 -> u32 (Z.lnot (u32 (2 ^ k - 1))) = Z.land (Z.ones 32) (Z.lnot (2 ^ k - 1)).
Proof.
  intros Hk. pose proof (Z.pow_le_mono_r 2 k 31). pose proof (Z.pow_pos_nonneg 2 k).
  rewrite (u32_small (2 ^ k - 1)) by lia. unfold u32. rewrite <- Z.land_ones by lia. apply Z.land_comm.
Qed.

Lemma land_page_mask x k :
  0 <= k < 32 -> 0 <= x < 2 ^ 32 -> Z.land x (u32 (Z.lnot (u32 (2 ^ k - 1)))) = x - x mod 2 ^ k.
Proof.
  intros Hk Hx. rewrite page_mask by done. rewrite Z.land_assoc, Z.land_ones by lia.
  rewrite (Z.mod_small x) by lia. apply land_lnot_ones. lia.
Qed.

Lemma down2_spec x k : 0 <= k < 32 -> 0 <= x < 2 ^ 32 -> down2 x (2 ^ k) = x - x mod 2 ^ k.
Proof. apply land_page_mask. Qed.

Lemma up2_spec x k :
  0 <= k < 32 -> 0 <= x -> x + 2 ^ k - 1 < 2 ^ 32 ->
  up2 x (2 ^ k) = (x + 2 ^ k - 1) / 2 ^ k * 2 ^ k.
Proof.
  intros Hk Hx Hb. pose proof (Z.pow_pos_nonneg 2 k). unfold up2.
  rewrite land_page_mask by (done || apply u32_range). rewrite u32_small by lia.
  pose proof (Z.div_mod (x + 2 ^ k - 1) (2 ^ k)). lia.
Qed.

(** * Comparison *)

(** [kmemcmp] on two blocks: 0 exactly when they hold the same bytes. *)
Lemma kmemcmp_loop_spec n : forall a b cr3 m,
  kblock a (Z.of_nat n) -> kblock b (Z.of_nat n) ->
  exists r, kmemcmp_loop n a b cr3 m = Some (r, m) /\ (r = 0 \/ r = 1) /\
    (r = 0 <-> forall i, 0 <= i < Z.of_nat n -> mget m (a + i) = mget m (b + i)).
Proof.
  induction n as [|n IH]; intros a b cr3 m Ha Hb; cbn [kmemcmp_loop].
  { exists 0. split_and!; [done | by left | split; [lia | done]]. }
  erewrite mm_bind_some by (apply load8_kernel; replace a with (a + 0) by lia; apply Ha; lia).
  erewrite mm_bind_some by (apply load8_kernel; replace b with (b + 0) by lia; apply Hb; lia).
  destruct (Z.eqb_spec (mget m a) (mget m b)) as [E|E]; simpl.
  - destruct (IH (a + 1) (b + 1) cr3 m) as (r & Er & H01 & Hr).
    { intros i Hi. replace (a + 1 + i) with (a + (i + 1)) by lia. apply Ha. lia. }
    { intros i Hi. replace (b + 1 + i) with (b + (i + 1)) by lia. apply Hb. lia. }
    exists r. split_and!; [done | done |]. rewrite Hr. split; intros H i Hi.
    + destruct (decide (i = 0)) as [->|]; [by rewrite !Z.add_0_r|].
      specialize (H (i - 1)). replace (a + 1 + (i - 1)) with (a + i) in H by lia.
      replace (b + 1 + (i - 1)) with (b + i) in H by lia. apply H. lia.
    + specialize (H (i + 1)). replace (a + (i + 1)) with (a + 1 + i) in H by lia.
      replace (b + (i + 1)) with (b + 1 + i) in H by lia. apply H. lia.
  - exists 1. split_and!; [done | by right |]. split; [done|]. intros H. exfalso. apply E.
    specialize (H 0). rewrite !Z.add_0_r in H. apply H. lia.
Qed.

(** [kstrncmp] walks while both strings go on and agree; it never looks at
    [size] again after testing it for 0. *)
Lemma kstrncmp_loop_spec cr3 m size s1 : forall p1 p2 s2,
  size <> 0 -> cstr cr3 m p1 s1 -> cstr cr3 m p2 s2 ->
  exists n a b, miter (kstrncmp_body size) n (p1, p2) cr3 m = Some (inr (a, b), m) /\
    (n <= S (length s1))%nat /\
    (((a =? 0) || (b =? 0) || (a =? b)) = true <-> s1 `prefix_of` s2 \/ s2 `prefix_of` s1).
Proof.
  induction s1 as [|c1 s1 IH]; intros p1 p2 s2 Hz H1 H2.
  - assert (exists b, load8 p2 cr3 m = Some (b, m)) as [b Eb].
    { destruct s2; simpl in H2; [eauto | destruct H2 as (_ & ? & _); eauto]. }
    exists 1%nat, 0, b. split_and!; [|simpl; lia|].
    + apply miter_last. unfold kstrncmp_body. erewrite mm_bind_some by exact H1.
      erewrite mm_bind_some by exact Eb. done.
    + simpl. split; [|done]. intros _. left. by exists s2.
  - destruct H1 as (Hc1 & E1 & H1). destruct s2 as [|c2 s2].
    + exists 1%nat, c1, 0. split_and!; [|simpl; lia|].
      * apply miter_last. unfold kstrncmp_body. erewrite mm_bind_some by exact E1.
        erewrite mm_bind_some by exact H2. by rewrite andb_false_r.
      * rewrite orb_true_r. simpl. split; [|done]. intros _. right. by exists (c1 :: s1).
    + destruct H2 as (Hc2 & E2 & H2). destruct (Z.eqb_spec c1 c2) as [->|Hne].
      * destruct (IH (p1 + 1) (p2 + 1) s2 Hz H1 H2) as (n & a & b & E & Hn & Hr).
        exists (S n), a, b. split_and!; [|simpl; lia|].
        -- rewrite (miter_next _ _ _ (p1 + 1, p2 + 1) cr3 m m); [done|].
           unfold kstrncmp_body. erewrite mm_bind_some by exact E1.
           erewrite mm_bind_some by exact E2.
           by rewrite (proj2 (Z.eqb_neq c2 0)), Z.eqb_refl, (proj2 (Z.eqb_neq size 0)).
        -- rewrite Hr. split; (intros [H|H]; [left | right]);
             first [by apply prefix_cons | by apply prefix_cons_inv_2 in H].
      * exists 1%nat, c1, c2. split_and!; [|simpl; lia|].
        -- apply miter_last. unfold kstrncmp_body. erewrite mm_bind_some by exact E1.
           erewrite mm_bind_some by exact E2.
           by rewrite (proj2 (Z.eqb_neq c1 c2)), andb_false_r.
        -- rewrite (proj2 (Z.eqb_neq c1 0)), (proj2 (Z.eqb_neq c2 0)), (proj2 (Z.eqb_neq c1 c2)) by done.
           split; [done|]. intros [H|H]; apply prefix_cons_inv_1 in H; congruence.
Qed.

(** * The array versions of the string copies *)

(** The bytes of an array in RAM. *)
Definition array_at (m : gmap Z Z) (p : Z) (bs : list Z) : Prop :=
  forall i b, bs !! i = Some b -> mget m (p + Z.of_nat i) = b.

Definition str_bytes (s : list Z) : Prop := Forall (fun c => 0 < c < 256) s.

Lemma poke_length buf i v buf' : poke buf i v = Some buf' -> length buf' = length buf.
Proof. unfold poke. case_match; [|done]. injection 1 as <-. apply length_insert. Qed.

Lemma poke_Some buf i v : (i < length buf)%nat -> poke buf i v = Some (<[i := u8 v]> buf).
Proof. intros H. unfold poke. by rewrite (proj2 (Nat.ltb_lt _ _)). Qed.

(** Storing a byte in RAM is poking the array. *)
Lemma array_at_mset m p bs i v :
  array_at m p bs -> (i < length bs)%nat -> array_at (mset m (p + Z.of_nat i) v) p (<[i := u8 v]> bs).
Proof.
  intros Ha Hi j b Hj. destruct (decide (i = j)) as [<-|Hne].
  - rewrite list_lookup_insert_eq in Hj by done. injection Hj as <-. apply mget_mset_eq.
  - rewrite list_lookup_insert_ne in Hj by done. rewrite mget_mset_ne by lia. by apply Ha.
Qed.

(** What [kstrncpy] leaves in the array: the characters copied, a 0, and the
    old contents after it.  [strncpy_kept] says which characters: all of them
    when the string is at least two shorter than [size]; all but the last when
    it is one shorter; [size] of them, with the 0 in cell [size], otherwise. *)
Definition strncpy_kept (s : list Z) (size : nat) : list Z :=
  if (size <=? length s)%nat then take size s
  else if (length s =? size - 1)%nat then take (length s - 1) s
  else s.

Lemma insert_middle {A} (a : list A) x y b : <[length a := x]> (a ++ y :: b) = a ++ x :: b.
Proof. by rewrite insert_app_r_alt, Nat.sub_diag by lia. Qed.

Lemma strncpy_array_loop_spec s : forall a b (size : nat),
  str_bytes s -> (length s <= length b \/ size <= length b)%nat ->
  strncpy_array_loop (a ++ b) (length a) s (Z.of_nat size) =
    let k := Nat.min (length s) size in
    Some (a ++ take k s ++ drop k b, (length a + k)%nat, Z.of_nat size - Z.of_nat k - 1).
Proof.
  induction s as [|c s IH]; intros a b size Hs Hl; cbn [strncpy_array_loop].
  { simpl. rewrite Nat.add_0_r, Z.sub_0_r. done. }
  apply Forall_cons in Hs as [Hc Hs]. rewrite Z.gtb_ltb.
  destruct size as [|size].
  { simpl. rewrite Nat.add_0_r. done. }
  rewrite (proj2 (Z.ltb_lt 0 _)) by lia. rewrite (proj2 (Z.eqb_neq c 0)) by lia. simpl negb. cbn [andb].
  destruct b as [|y b]; [simpl in Hl; lia|].
  rewrite poke_Some by (rewrite length_app; simpl; lia). cbn [mbind option_bind].
  rewrite insert_middle, u8_small by lia.
  replace (a ++ c :: b) with ((a ++ [c]) ++ b) by (by rewrite <- app_assoc).
  replace (S (length a)) with (length (a ++ [c])) by (rewrite length_app; simpl; lia).
  replace (Z.of_nat (S size) - 1) with (Z.of_nat size) by lia.
  rewrite IH by (done || simpl in Hl; lia). cbn zeta. cbn [length]. rewrite <- Nat.succ_min_distr.
  cbn [take drop]. rewrite length_app, <- app_assoc. simpl. do 2 f_equal; [f_equal; lia | lia].
Qed.

Lemma strncpy_array_spec dest s (size : nat) :
  str_bytes s -> (0 < size < length dest)%nat -> (size = 1 -> s <> [])%nat ->
  let k := strncpy_kept s size in
  strncpy_array dest s (Z.of_nat size) = Some (k ++ 0 :: drop (S (length k)) dest).
Proof.
  intros Hs Hsz H1 k. unfold strncpy_array. rewrite (proj2 (Z.eqb_neq _ 0)) by lia.
  pose proof (strncpy_array_loop_spec s [] dest size Hs ltac:(lia)) as El.
  cbn [app length Nat.add] in El. rewrite El. cbn zeta. cbn [mbind option_bind]. unfold k, strncpy_kept.
  destruct (Nat.leb_spec size (length s)) as [Hle|Hlt].
  - rewrite Nat.min_r by lia. rewrite (proj2 (Z.eqb_neq _ 0)) by lia.
    rewrite poke_Some by (rewrite length_app, length_take, length_drop; lia).
    destruct (drop size dest) as [|y b] eqn:Ed; [apply (f_equal length) in Ed; rewrite length_drop in Ed; simpl in Ed; lia|].
    replace size with (length (take size s)) at 1 by (rewrite length_take; lia).
    rewrite insert_middle. rewrite length_take, Nat.min_l by lia.
    replace (drop (S size) dest) with b; [done|].
    replace (S size) with (size + 1)%nat by lia. by rewrite <- drop_drop, Ed.
  - rewrite Nat.min_l by lia. rewrite take_ge by lia.
    destruct (Nat.eqb_spec (length s) (size - 1)) as [E|E].
    + replace (Z.of_nat size - Z.of_nat (length s) - 1) with 0 by lia. simpl.
      destruct s as [|c s _] using rev_ind; [simpl in E; exfalso; apply H1; lia || done|].
      rewrite length_app in *. simpl in E |- *. rewrite Nat.add_1_r. simpl.
      rewrite poke_Some by (rewrite !length_app, length_drop; simpl; lia).
      rewrite <- app_assoc. simpl. rewrite insert_middle.
      rewrite Nat.sub_0_r, take_app_length. done.
    + rewrite (proj2 (Z.eqb_neq _ 0)) by lia.
      rewrite poke_Some by (rewrite length_app, length_drop; lia).
      destruct (drop (length s) dest) as [|y b] eqn:Ed; [apply (f_equal length) in Ed; rewrite length_drop in Ed; simpl in Ed; lia|].
      rewrite insert_middle. replace (drop (S (length s)) dest) with b; [done|].
      replace (S (length s)) with (length s + 1)%nat by lia. by rewrite <- drop_drop, Ed.
Qed.

(** [kstrcpy] stops at the first 0 of the destination as well: of the source it
    copies at most as many characters as the destination string had. *)
Lemma strcpy_array_spec d s b :
  str_bytes d -> str_bytes s ->
  let k := Nat.min (length d) (length s) in
  strcpy_array (d ++ 0 :: b) s = Some (take k s ++ 0 :: drop (S k) (d ++ 0 :: b)).
Proof.
  revert s; induction d as [|x d IH]; intros s Hd Hs; simpl; [done|].
  apply Forall_cons in Hd as [Hx Hd]. rewrite (proj2 (Z.eqb_neq x 0)) by lia.
  destruct s as [|c s]; simpl; [done|].
  apply Forall_cons in Hs as [Hc Hs]. rewrite (proj2 (Z.eqb_neq c 0)) by lia. simpl.
  by rewrite IH.
Qed.

(** ** The pointer versions do the same *)
Definition cstr_stable (cr3 : Z) (m : gmap Z Z) (lo n q : Z) (s : list Z) : Prop :=
  forall m', same_outside lo n m m' -> cstr cr3 m' q s.

Lemma cstr_stable_tail cr3 m lo n q c s :
  cstr_stable cr3 m lo n q (c :: s) -> cstr_stable cr3 m lo n (q + 1) s.
Proof. intros H m' Hm. by destruct (H m' Hm) as (_ & _ & ?). Qed.

Lemma cstr_stable_step cr3 m m1 lo n q s :
  same_outside lo n m m1 -> cstr_stable cr3 m lo n q s -> cstr_stable cr3 m1 lo n q s.
Proof. intros H1 H m' Hm. apply H. by eapply same_outside_trans. Qed.

Lemma same_outside_mset m lo n a v : lo <= a < lo + n -> same_outside lo n m (mset m a v).
Proof. intros Ha b Hb. apply mget_mset_ne. lia. Qed.

Lemma kstrncpy_loop_eq cr3 p s : forall bs i q size m bs' j sz,
  kblock p (Z.of_nat (length bs)) -> array_at m p bs ->
  cstr_stable cr3 m p (Z.of_nat (length bs)) q s ->
  strncpy_array_loop bs i s size = Some (bs', j, sz) ->
  exists n m', miter kstrncpy_body n (p + Z.of_nat i, q, size) cr3 m = Some (inr (p + Z.of_nat j, sz), m') /\
    (n <= S (length s))%nat /\ array_at m' p bs' /\ same_outside p (Z.of_nat (length bs)) m m'.
Proof.
  induction s as [|c s IH]; intros bs i q size m bs' j sz Hb Ha Hc E; cbn [strncpy_array_loop] in E.
  - injection E as <- <- <-. exists 1%nat, m. split_and!; [|simpl; lia|done|done].
    apply miter_last. unfold kstrncpy_body. rewrite Z.gtb_ltb. destruct (0 <? size); [|done].
    erewrite mm_bind_some by exact (Hc m (same_outside_refl _ _ _)). done.
  - destruct (Hc m (same_outside_refl _ _ _)) as (Hnz & El & _).
    rewrite Z.gtb_ltb in E. rewrite (proj2 (Z.eqb_neq c 0)) in E by done.
    destruct (Z.ltb_spec 0 size) as [Hs|Hs]; simpl in E.
    + destruct (poke bs i c) as [bs1|] eqn:Ep; simpl in E; [|done].
      pose proof (poke_length _ _ _ _ Ep) as Hl. unfold poke in Ep.
      destruct (Nat.ltb_spec i (length bs)) as [Hi|]; [|done]. injection Ep as <-.
      assert (same_outside p (Z.of_nat (length bs)) m (mset m (p + Z.of_nat i) c)) as Hso
        by (apply same_outside_mset; lia).
      edestruct (IH (<[i:=u8 c]> bs) (S i) (q + 1) (size - 1) (mset m (p + Z.of_nat i) c)) as (n & m' & En & Hn & Ha' & Hs'); [| | |exact E|]; rewrite ?Hl.
      * done.
      * by apply array_at_mset.
      * eapply cstr_stable_step; [exact Hso|]. by eapply cstr_stable_tail.
      * rewrite Hl in Hs'. exists (S n), m'. split_and!; [|simpl; lia|done|by eapply same_outside_trans].
        rewrite (miter_next _ _ _ (p + Z.of_nat (S i), q + 1, size - 1) cr3 m (mset m (p + Z.of_nat i) c)); [done|].
        unfold kstrncpy_body. rewrite Z.gtb_ltb, (proj2 (Z.ltb_lt 0 size)) by done.
        erewrite mm_bind_some by exact El. rewrite (proj2 (Z.eqb_neq c 0)) by done. cbn [negb].
        erewrite mm_bind_some by (apply store8_kernel, Hb; lia). rewrite mm_ret.
        do 5 f_equal. lia.
    + injection E as <- <- <-. exists 1%nat, m. split_and!; [|simpl; lia|done|done].
      apply miter_last. unfold kstrncpy_body. by rewrite Z.gtb_ltb, (proj2 (Z.ltb_ge 0 size)).
Qed.

Lemma kstrncpy_eq cr3 p q s bs size m bs' :
  p <> 0 -> q <> 0 -> Z.of_nat (length s) < 2 ^ 32 ->
  kblock p (Z.of_nat (length bs)) -> array_at m p bs ->
  cstr_stable cr3 m p (Z.of_nat (length bs)) q s ->
  strncpy_array bs s size = Some bs' ->
  exists m', kstrncpy p q size cr3 m = Some (tt, m') /\ array_at m' p bs' /\
    same_outside p (Z.of_nat (length bs)) m m'.
Proof.
  intros Hp Hq Hlen Hb Ha Hc E. unfold kstrncpy, strncpy_array in *.
  rewrite (proj2 (Z.eqb_neq p 0)), (proj2 (Z.eqb_neq q 0)) by done. cbn [orb].
  destruct (Z.eqb_spec size 0); [injection E as <-; by exists m|].
  destruct (strncpy_array_loop bs 0 s size) as [[[bs1 j] sz]|] eqn:El; simpl in E; [|done].
  destruct (kstrncpy_loop_eq cr3 p s bs 0 q size m bs1 j sz Hb Ha Hc El) as (n1 & m1 & En & Hn & Ha1 & Hs1).
  rewrite Z.add_0_r in En.
  erewrite mm_bind_some by (eapply mwhile_exit; [exact En | lia]).
  assert (exists k, (if sz =? 0 then p + Z.of_nat j - 1 else p + Z.of_nat j) = p + Z.of_nat k /\ poke bs1 k 0 = Some bs') as (k & Ek & Ep).
  { destruct (sz =? 0); [destruct j as [|j]; [done|]; exists j; split; [lia|done] | by exists j]. }
  assert (length bs1 = length bs) as Hl1.
  { clear -El. revert El. generalize 0%nat. revert bs size. induction s as [|c s IH]; intros bs size i; simpl.
    - by injection 1 as <- _ _.
    - case_match; [|by injection 1 as <- _ _]. destruct (poke bs i c) eqn:Ep; simpl; [|done].
      intros ->%IH. by eapply poke_length. }
  unfold poke in Ep. destruct (Nat.ltb_spec k (length bs1)) as [Hk|]; [|done]. injection Ep as <-.
  exists (mset m1 (p + Z.of_nat k) 0). split_and!.
  - destruct (sz =? 0); rewrite Ek; apply store8_kernel, Hb; lia.
  - by apply array_at_mset.
  - eapply same_outside_trans; [exact Hs1 | apply same_outside_mset; lia].
Qed.

(** ** kstrcpy through pointers *)
Lemma kstrcpy_loop_eq cr3 dest : forall i s q m bs r,
  kblock q (Z.of_nat (length bs)) -> array_at m q bs -> drop i bs = dest ->
  str_bytes s ->
  forall p, cstr_stable cr3 m q (Z.of_nat (length bs)) p s ->
  strcpy_array dest s = Some r ->
  exists n j m', miter kstrcpy_body n (q + Z.of_nat i, p) cr3 m = Some (inr (q + Z.of_nat j), m') /\
    (n <= S (length s))%nat /\ (j < length bs)%nat /\
    same_outside q (Z.of_nat (length bs)) m m' /\
    array_at (mset m' (q + Z.of_nat j) 0) q (take i bs ++ r).
Proof.
  induction dest as [|d dest IH]; intros i s q m bs r Hb Ha Ed Hs p Hc E; cbn [strcpy_array] in E; [done|].
  assert (i < length bs)%nat as Hi by (apply (f_equal length) in Ed; rewrite length_drop in Ed; simpl in Ed; lia).
  assert (bs !! i = Some d) as Hd by (rewrite <- (Nat.add_0_r i), <- lookup_drop, Ed; done).
  assert (drop (S i) bs = dest) as Ed' by (rewrite (drop_S bs d i Hd) in Ed; by injection Ed).
  assert (load8 (q + Z.of_nat i) cr3 m = Some (d, m)) as El.
  { rewrite load8_kernel by (apply Hb; lia). by rewrite (Ha i d Hd). }
  assert (exists c, load8 p cr3 m = Some (c, m) /\ hd 0 s = c) as (c & Ec & Eh).
  { specialize (Hc m (same_outside_refl _ _ _)). destruct s; simpl in Hc; [by exists 0 | destruct Hc as (_ & ? & _); eauto]. }
  rewrite Eh in E. destruct (negb (d =? 0) && negb (c =? 0)) eqn:Et.
  - destruct s as [|c' s]; [simpl in Eh; subst c; by rewrite andb_false_r in Et|]. simpl in Eh. subst c'.
    apply Forall_cons in Hs as [Hcb Hs]. simpl in E.
    destruct (strcpy_array dest s) as [r'|] eqn:E'; simpl in E; [|done]. injection E as <-.
    set (m1 := mset m (q + Z.of_nat i) c).
    assert (same_outside q (Z.of_nat (length bs)) m m1) as Hso by (apply same_outside_mset; lia).
    edestruct (IH (S i) s q m1 (<[i := u8 c]> bs) r') as (n & j & m' & En & Hn & Hj & Ho & Har); rewrite ?length_insert.
    + done.
    + by apply array_at_mset.
    + by rewrite drop_insert_lt by lia.
    + done.
    + eapply cstr_stable_step; [exact Hso|]. by eapply cstr_stable_tail.
    + done.
    + rewrite length_insert in *. exists (S n), j, m'. split_and!; [|simpl; lia|done|by eapply same_outside_trans|].
      * rewrite (miter_next _ _ _ (q + Z.of_nat (S i), p + 1) cr3 m m1); [done|].
        unfold kstrcpy_body. erewrite mm_bind_some by exact El. erewrite mm_bind_some by exact Ec.
        rewrite Et. erewrite mm_bind_some by (apply store8_kernel, Hb; lia). rewrite mm_ret.
        do 4 f_equal. lia.
      * rewrite (take_S_r _ _ (u8 c)) in Har by (by apply list_lookup_insert_eq).
        rewrite take_insert_ge in Har by lia. rewrite u8_small in Har by lia. by rewrite <- app_assoc in Har.
  - injection E as <-. exists 1%nat, i, m. split_and!; [|lia|done|done|].
    + apply miter_last. unfold kstrcpy_body. erewrite mm_bind_some by exact El.
      erewrite mm_bind_some by exact Ec. by rewrite Et.
    + assert (take i bs ++ 0 :: dest = <[i := u8 0]> bs) as ->; [|by apply array_at_mset].
      rewrite insert_take_drop by done. by rewrite Ed'.
Qed.

Lemma kstrcpy_eq cr3 p q s bs r m :
  q <> 0 -> p <> 0 -> Z.of_nat (length s) < 2 ^ 32 ->
  kblock q (Z.of_nat (length bs)) -> array_at m q bs -> str_bytes s ->
  cstr_stable cr3 m q (Z.of_nat (length bs)) p s -> strcpy_array bs s = Some r ->
  exists m', kstrcpy q p cr3 m = Some (tt, m') /\ array_at m' q r /\
    same_outside q (Z.of_nat (length bs)) m m'.
Proof.
  intros Hq Hp Hl Hb Ha Hs Hc E. unfold kstrcpy.
  rewrite (proj2 (Z.eqb_neq q 0)), (proj2 (Z.eqb_neq p 0)) by done. cbn [orb].
  destruct (kstrcpy_loop_eq cr3 bs 0 s q m bs r Hb Ha eq_refl Hs p Hc E) as (n & j & m1 & En & Hn & Hj & Ho & Har).
  rewrite Z.add_0_r in En. erewrite mm_bind_some by (eapply mwhile_exit; [exact En | lia]).
  eexists. split_and!; [apply store8_kernel, Hb; lia | exact Har |].
  eapply same_outside_trans; [exact Ho | apply same_outside_mset; lia].
Qed.

(** ** argv *)
Fixpoint argv_at (cr3 : Z) (m : gmap Z Z) (p : Z) (ps : list Z) : Prop :=
  match ps with
  | [] => load32 p cr3 m = Some (0, m)
  | v :: ps => v <> 0 /\ load32 p cr3 m = Some (v, m) /\ argv_at cr3 m (p + 4) ps
  end.

Lemma strings_count_loop cr3 m ps : forall p n,
  argv_at cr3 m p ps ->
  miter strings_count_body (S (length ps)) (p, n) cr3 m = Some (inr (n + Z.of_nat (length ps)), m).
Proof.
  induction ps as [|v ps IH]; intros p n Ha.
  - rewrite (miter_last _ (p, n) n cr3 m m); [do 3 f_equal; simpl; lia|].
    unfold strings_count_body. erewrite mm_bind_some by exact Ha. done.
  - destruct Ha as (Hv & El & Ha). cbn [length]. rewrite (miter_next _ _ (p, n) (p + 4, n + 1) cr3 m m).
    + rewrite IH by done. do 3 f_equal. lia.
    + unfold strings_count_body. erewrite mm_bind_some by exact El. by rewrite (proj2 (Z.eqb_neq v 0)).
Qed.

(** ** Paths *)
Definition is_sep (c : Z) : bool := (c =? 0x5c) || (c =? 0x2f).

Lemma cstr_app cr3 m a : forall p b,
  cstr cr3 m p (a ++ b) -> cstr cr3 m (p + Z.of_nat (length a)) b.
Proof.
  induction a as [|c a IH]; intros p b Hc; simpl in *; [by rewrite Z.add_0_r|].
  destruct Hc as (_ & _ & Hc). replace (p + Z.of_nat (S (length a))) with (p + 1 + Z.of_nat (length a)) by lia.
  by apply IH.
Qed.

Lemma file_name_end cr3 m s : forall p,
  cstr cr3 m p s ->
  miter file_name_end_body (S (length s)) p cr3 m = Some (inr (p + Z.of_nat (length s)), m).
Proof.
  induction s as [|c s IH]; intros p Hc.
  - rewrite (miter_last _ p p cr3 m m); [do 3 f_equal; simpl; lia|].
    unfold file_name_end_body. erewrite mm_bind_some by exact Hc. done.
  - destruct Hc as (Hz & El & Hc). cbn [length]. rewrite (miter_next _ _ p (p + 1) cr3 m m).
    + rewrite IH by done. do 3 f_equal. lia.
    + unfold file_name_end_body. erewrite mm_bind_some by exact El. by rewrite (proj2 (Z.eqb_neq c 0)).
Qed.

(** Backwards over [f], which has no separator and ends just before [p]. *)
Lemma file_name_back cr3 m dir sep f : forall name,
  cstr cr3 m name (dir ++ sep :: f) -> is_sep sep = true -> Forall (fun c => is_sep c = false) f ->
  miter (file_name_back_body name) (S (S (length f))) (name + Z.of_nat (length (dir ++ sep :: f))) cr3 m
    = Some (inr (name + Z.of_nat (length dir)), m).
Proof.
  intros name Hc Hsep Hf.
  assert (forall k c, (k <= length f)%nat -> load8 (name + Z.of_nat (length dir) + 1 + Z.of_nat k) cr3 m = Some (c, m) ->
    is_sep c = false ->
    miter (file_name_back_body name) (S (S k)) (name + Z.of_nat (length dir) + 1 + Z.of_nat k) cr3 m
      = Some (inr (name + Z.of_nat (length dir)), m)) as Hback.
  { pose proof (cstr_app _ _ dir name (sep :: f) Hc) as (Hz & Esep & Hcf).
    induction k as [|k IH]; intros c Hk El Hns; unfold is_sep in Hns.
    - rewrite (miter_next _ _ _ (name + Z.of_nat (length dir)) cr3 m m).
      + apply miter_last. unfold file_name_back_body. erewrite mm_bind_some by exact Esep.
        unfold is_sep in Hsep. by destruct (sep =? 0x5c), (sep =? 0x2f).
      + unfold file_name_back_body. erewrite mm_bind_some by exact El.
        apply orb_false_iff in Hns as [-> ->]. cbn [negb andb].
        rewrite Z.geb_leb, (proj2 (Z.leb_le _ _)) by lia. rewrite mm_ret. do 3 f_equal. lia.
    - destruct (lookup_lt_is_Some_2 f k ltac:(lia)) as [c' Hc'].
      assert (load8 (name + Z.of_nat (length dir) + 1 + Z.of_nat k) cr3 m = Some (c', m)) as El'.
      { rewrite <- (take_drop_middle f k c' Hc') in Hcf. apply cstr_app in Hcf.
        rewrite length_take, Nat.min_l in Hcf by lia. apply Hcf. }
      rewrite (miter_next _ _ _ (name + Z.of_nat (length dir) + 1 + Z.of_nat k) cr3 m m).
      + apply (IH c'); [lia | done |]. by apply (Forall_lookup_1 _ f k c' Hf).
      + unfold file_name_back_body. erewrite mm_bind_some by exact El.
        apply orb_false_iff in Hns as [-> ->]. cbn [negb andb].
        rewrite Z.geb_leb, (proj2 (Z.leb_le _ _)) by lia. rewrite mm_ret. do 3 f_equal. lia. }
  rewrite length_app. cbn [length].
  replace (name + Z.of_nat (length dir + S (length f)))
    with (name + Z.of_nat (length dir) + 1 + Z.of_nat (length f)) by lia.
  apply (Hback (length f) 0); [lia | | done].
  replace (name + Z.of_nat (length dir) + 1 + Z.of_nat (length f))
    with (name + Z.of_nat (length (dir ++ sep :: f))) by (rewrite length_app; simpl; lia).
  apply (cstr_app cr3 m (dir ++ sep :: f) name []). by rewrite app_nil_r.
Qed.

(** * Properties *)

(** [kmemset] fills exactly the block; [kmemcpy] between disjoint blocks makes
    them equal, as [kmemcmp] then finds, and changes nothing else. *)
Theorem memory_routines_correct d s n v cr3 m :
  d <> 0 -> s <> 0 -> 0 <= n < 2 ^ 32 -> kblock d n -> kblock s n -> d + n <= s \/ s + n <= d ->
  (exists m', kmemset d v n cr3 m = Some (tt, m') /\ same_outside d n m m' /\
     forall a, d <= a < d + n -> mget m' a = u8 v) /\
  (exists m', kmemcpy d s n cr3 m = Some (tt, m') /\ same_outside d n m m' /\
     (forall i, 0 <= i < n -> mget m' (d + i) = mget m (s + i)) /\
     kmemcmp d s n cr3 m' = Some (0, m')).
Proof.
  intros Hd Hs Hn Hbd Hbs Hdis. split; [by apply kmemset_spec|].
  destruct (kmemcpy_spec d s n cr3 m (fun i => s + i)) as (m' & E & Ho & Hc); try done;
    [by apply readable_kernel | intros; lia |].
  exists m'. split_and!; try done. unfold kmemcmp.
  rewrite (proj2 (Z.eqb_neq d 0)), (proj2 (Z.eqb_neq s 0)), u32_small by (done || lia). cbn [orb].
  destruct (kmemcmp_loop_spec (Z.to_nat n) d s cr3 m') as (r & Er & _ & Hr); rewrite ?Z2Nat.id in * by lia; try done.
  replace r with 0 in Er; [done|]. symmetry. apply Hr. intros i Hi. rewrite Hc by done. symmetry. apply Ho. lia.
Qed.

(** [kstrlen] is the length of the string; [kstrncmp] with any non-zero size
    answers 0 exactly when one string is a prefix of the other: it never counts
    [size] down, and does not tell a string from a longer one. *)
Theorem string_scan_correct cr3 m p1 p2 s1 s2 size :
  p1 <> 0 -> p2 <> 0 -> size <> 0 -> cstr cr3 m p1 s1 -> cstr cr3 m p2 s2 -> Z.of_nat (length s1) < 2 ^ 32 - 1 ->
  kstrlen p1 cr3 m = Some (Z.of_nat (length s1), m) /\
  exists r, kstrncmp p1 p2 size cr3 m = Some (r, m) /\ (r = 0 <-> s1 `prefix_of` s2 \/ s2 `prefix_of` s1).
Proof.
  intros H1 H2 Hz Hs1 Hs2 Hl. split; [apply kstrlen_spec; done || lia|].
  destruct (kstrncmp_loop_spec cr3 m size s1 p1 p2 s2 Hz Hs1 Hs2) as (n & a & b & En & Hn & Hab).
  unfold kstrncmp. rewrite (proj2 (Z.eqb_neq p1 0)), (proj2 (Z.eqb_neq p2 0)) by done. cbn [orb].
  erewrite mm_bind_some by (eapply mwhile_exit; [exact En | lia]).
  eexists. split; [done|]. rewrite <- Hab. destruct ((a =? 0) || (b =? 0) || (a =? b)); split; done || lia.
Qed.

(** What [kstrncpy] leaves in an array with more than [size] cells: all of a
    string at least two characters shorter than [size]; all but the last character
    of one that is one shorter; and of a longer one [size] characters with the
    terminator in cell [size], behind a buffer of [size] cells.  The rest of the
    array and of memory is unchanged. *)
Theorem kstrncpy_result cr3 p q s dest (size : nat) m :
  p <> 0 -> q <> 0 -> Z.of_nat (length s) < 2 ^ 32 -> kblock p (Z.of_nat (length dest)) ->
  array_at m p dest -> cstr_stable cr3 m p (Z.of_nat (length dest)) q s -> str_bytes s ->
  (0 < size < length dest)%nat -> (size = 1 -> s <> [])%nat ->
  let k := strncpy_kept s size in
  exists m', kstrncpy p q (Z.of_nat size) cr3 m = Some (tt, m') /\
    array_at m' p (k ++ 0 :: drop (S (length k)) dest) /\
    same_outside p (Z.of_nat (length dest)) m m'.
Proof.
  intros Hp Hq Hl Hb Ha Hc Hs Hsz H1 k.
  eapply kstrncpy_eq; try done. by apply strncpy_array_spec.
Qed.

(** [kstrcpy] copies no more characters than the destination string had before:
    into an empty string it copies nothing. *)
Theorem kstrcpy_result cr3 p q d b s m :
  q <> 0 -> p <> 0 -> Z.of_nat (length s) < 2 ^ 32 -> str_bytes d -> str_bytes s ->
  let bs := d ++ 0 :: b in
  kblock q (Z.of_nat (length bs)) -> array_at m q bs ->
  cstr_stable cr3 m q (Z.of_nat (length bs)) p s ->
  let k := Nat.min (length d) (length s) in
  exists m', kstrcpy q p cr3 m = Some (tt, m') /\
    array_at m' q (take k s ++ 0 :: drop (S k) bs) /\
    same_outside q (Z.of_nat (length bs)) m m'.
Proof.
  intros Hq Hp Hl Hd Hs bs Hb Ha Hc k. eapply kstrcpy_eq; try done. by apply strcpy_array_spec.
Qed.

(** C40: [down2] and [up2] round to a multiple of a power of two: down for every
    32-bit size, up for every size the rounded value of which fits in 32 bits. *)
Theorem alignment_correct x k :
  0 <= k < 32 -> 0 <= x < 2 ^ 32 ->
  down2 x (2 ^ k) = x / 2 ^ k * 2 ^ k /\
  (x + 2 ^ k - 1 < 2 ^ 32 ->
     up2 x (2 ^ k) mod 2 ^ k = 0 /\ x <= up2 x (2 ^ k) < x + 2 ^ k).
Proof.
  intros Hk Hx. assert (0 < 2 ^ k) as Hp by (apply Z.pow_pos_nonneg; lia). split.
  - rewrite down2_spec by done. pose proof (Z.div_mod x (2 ^ k)). lia.
  - intros Hb. rewrite up2_spec by lia. split; [by apply Z.mod_mul; lia|].
    pose proof (Z.div_mod (x + 2 ^ k - 1) (2 ^ k) ltac:(lia)).
    pose proof (Z.mod_pos_bound (x + 2 ^ k - 1) (2 ^ k) Hp). lia.
Qed.

(** Of a path with a separator [get_file_name] returns the address of what
    follows the last one; [strings_count] counts the pointers before the null one. *)
Theorem path_and_argv_correct cr3 m name dir sep f argv ps :
  cstr cr3 m name (dir ++ sep :: f) -> is_sep sep = true -> Forall (fun c => is_sep c = false) f ->
  Z.of_nat (length (dir ++ sep :: f)) < 2 ^ 32 - 2 ->
  argv <> 0 -> argv_at cr3 m argv ps -> Z.of_nat (length ps) < 2 ^ 32 - 1 ->
  (exists p, get_file_name name cr3 m = Some (p, m) /\ p = name + Z.of_nat (length dir) + 1 /\ cstr cr3 m p f) /\
  strings_count argv cr3 m = Some (Z.of_nat (length ps), m).
Proof.
  intros Hc Hsep Hf Hl Ha Hps Hn. split.
  - eexists. split_and!; [|done|].
    + unfold get_file_name.
      erewrite mm_bind_some by (eapply mwhile_exit; [by apply file_name_end | lia]).
      erewrite mm_bind_some; [done|]. eapply mwhile_exit; [by eapply file_name_back|].
      rewrite length_app in Hl. simpl in Hl. lia.
    + apply (cstr_app cr3 m dir name) in Hc. by destruct Hc as (_ & _ & Hc).
  - unfold strings_count. rewrite (proj2 (Z.eqb_neq argv 0)) by done. cbn [negb].
    eapply mwhile_exit; [exact (strings_count_loop cr3 m ps argv 0 Hps) | lia].
Qed.
