(* ===== verification/Format.v ===== *)
(** Number formatting of kernel/tools/klib.c: [kitoa], [kvsprintf], [ksprintf].

    They write an array [buf] from an index on; a write outside it is
    undefined ([None]). *)
From S2P Require Import Prelude Klib.

(** * Numbers *)

(** [num2ch], "FEDCBA9876543210123456789ABCDEF" *)
Definition num2ch : list Z :=
  [0x46;0x45;0x44;0x43;0x42;0x41;0x39;0x38;0x37;0x36;0x35;0x34;0x33;0x32;0x31;0x30;
   0x31;0x32;0x33;0x34;0x35;0x36;0x37;0x38;0x39;0x41;0x42;0x43;0x44;0x45;0x46].

(** The [do .. while (num)] loops: the index after the last digit.  An [int] has
    at most 32 digits in any of the bases. *)
Fixpoint kitoa_digits (fuel : nat) (buf : list Z) (p : nat) (num base : Z) : option (list Z * nat) :=
  match fuel with
  | O => None
  | S fuel =>
      ch ← num2ch !! Z.to_nat (Z.rem num base + 15);
      buf ← poke buf p ch;
      let num := num ÷ base in
      if negb (num =? 0) then kitoa_digits fuel buf (S p) num base else Some (buf, S p)
  end.

(** [while (start < p)]: swap and move inwards. *)
Fixpoint kitoa_reverse (fuel : nat) (buf : list Z) (start p : nat) : option (list Z) :=
  if (start <? p)%nat then
    match fuel with
    | O => None
    | S fuel =>
        ch ← buf !! start;
        c ← buf !! p;
        buf ← poke buf start c;
        buf ← poke buf p ch;
        kitoa_reverse fuel buf (S start) (Nat.pred p)
    end
  else Some buf.

(** [kitoa(&buf[i], num, base)]: the array it leaves. *)
Definition kitoa (buf : list Z) (i : nat) (num base : Z) : option (list Z) :=
  if negb ((base =? 2) || (base =? 8) || (base =? 10) || (base =? 16)) then poke buf i 0
  else
    let signed_num := (num <? 0) && (base =? 10) in
    '(buf, p) ← (if signed_num then (buf ← poke buf i 0x2d; Some (buf, S i)) else Some (buf, i));
    '(buf, p) ← (if signed_num then kitoa_digits 32 buf p num base
                 else kitoa_digits 32 buf p (u32 num) base);
    buf ← poke buf p 0;
    kitoa_reverse (length buf) buf (if signed_num then S i else i) (Nat.pred p).

(** * Formatted output *)

(** A variadic argument: a word, read as [va_arg] asks, or a [char *] to a string of the kernel image,
    given by its bytes. *)
Inductive varg := VInt (z : Z) | VStr (s : list Z).

Section Format.
(** How a [char *] passed as a number is read. *)
Variable deref : Z -> option (list Z).

Fixpoint poke_all (buf : list Z) (i : nat) (bs : list Z) : option (list Z * nat) :=
  match bs with
  | [] => Some (buf, i)
  | b :: bs => buf ← poke buf i b; poke_all buf (S i) bs
  end.

(** [curr += kstrlen(curr)] after [kitoa]. *)
Fixpoint len_from (fuel : nat) (buf : list Z) (i : nat) : option nat :=
  match fuel with
  | O => None
  | S fuel => b ← buf !! i; if negb (b =? 0) then len_from fuel buf (S i) else Some i
  end.

Definition arg_int (args : list varg) : option (Z * list varg) :=
  match args with VInt z :: args => Some (i32 z, args) | _ => None end.

Definition arg_str (args : list varg) : option (list Z * list varg) :=
  match args with
  | VInt z :: args => s ← deref (u32 z); Some (s, args)
  | VStr s :: args => Some (s, args)
  | [] => None
  end.

(** The loop over the format; [read_fmt] is the state READ_FMT. *)
Fixpoint kvsprintf_loop (fmt : list Z) (read_fmt : bool) (buf : list Z) (curr : nat)
    (args : list varg) : option (list Z * nat) :=
  match fmt with
  | [] => Some (buf, curr)
  | ch :: fmt =>
      if negb read_fmt then
        if ch =? 0x25 then kvsprintf_loop fmt true buf curr args
        else buf ← poke buf curr ch; kvsprintf_loop fmt false buf (S curr) args
      else if ch =? 0x64 then
        '(num, args) ← arg_int args;
        buf ← kitoa buf curr num 10;
        curr ← len_from (length buf) buf curr;
        kvsprintf_loop fmt false buf curr args
      else if ch =? 0x78 then
        buf ← poke buf curr 0x30;
        buf ← poke buf (S curr) 0x78;
        '(num, args) ← arg_int args;
        buf ← kitoa buf (S (S curr)) num 16;
        curr ← len_from (length buf) buf (S (S curr));
        kvsprintf_loop fmt false buf curr args
      else if ch =? 0x63 then
        '(c, args) ← arg_int args;
        buf ← poke buf curr c;
        kvsprintf_loop fmt false buf (S curr) args
      else if ch =? 0x73 then
        '(str, args) ← arg_str args;
        '(buf, curr) ← poke_all buf curr str;
        kvsprintf_loop fmt false buf curr args
      else kvsprintf_loop fmt false buf curr args
  end.

Definition kvsprintf (buffer fmt : list Z) (args : list varg) : option (list Z) :=
  fst <$> kvsprintf_loop fmt false buffer 0 args.

Definition ksprintf (buf fmt : list Z) (args : list varg) : option (list Z) :=
  kvsprintf buf fmt args.

End Format.

(** * Numbers are written in positional notation *)

(** The character of a digit, its value, and the number a text of digits denotes. *)
Definition digit_char (d : Z) : Z := nth (Z.to_nat (d + 15)) num2ch 0.

Definition digit_val (c : Z) : Z := if c <? 0x41 then c - 0x30 else c - 0x41 + 10.

Definition value (base : Z) (ds : list Z) : Z := foldl (fun v c => v * base + digit_val c) 0 ds.

(** The digits of [n], least significant first: at least one. *)
Fixpoint lsd (fuel : nat) (n base : Z) : list Z :=
  match fuel with
  | O => []
  | S fuel => digit_char (n mod base) :: if n / base =? 0 then [] else lsd fuel (n / base) base
  end.

Definition good_base (base : Z) : Prop := base = 2 \/ base = 8 \/ base = 10 \/ base = 16.

Lemma good_base_range base : good_base base -> 2 <= base <= 16.
Proof. intros [->|[->|[->| ->]]]; lia. Qed.

(** [num2ch] has a digit at distance [d] from its middle on either side. *)
Lemma digit_cases d (P : Z -> Prop) :
  0 <= d < 16 -> P 0 -> P 1 -> P 2 -> P 3 -> P 4 -> P 5 -> P 6 -> P 7 -> P 8 -> P 9 -> P 10 -> P 11 -> P 12 ->
  P 13 -> P 14 -> P 15 -> P d.
Proof.
  intros Hd. intros. assert (d = 0 \/ d = 1 \/ d = 2 \/ d = 3 \/ d = 4 \/ d = 5 \/ d = 6 \/ d = 7 \/ d = 8 \/ d = 9
    \/ d = 10 \/ d = 11 \/ d = 12 \/ d = 13 \/ d = 14 \/ d = 15) as Hc by lia.
  repeat (destruct Hc as [->|Hc]; [done|]). by subst d.
Qed.

Lemma num2ch_digit d sg :
  0 <= d < 16 -> num2ch !! Z.to_nat ((if sg : bool then - d else d) + 15) = Some (digit_char d).
Proof.
  intros Hd. apply (digit_cases d (fun d => num2ch !! Z.to_nat ((if sg then - d else d) + 15) = Some (digit_char d)));
    done || by destruct sg.
Qed.

Lemma digit_val_char d : 0 <= d < 16 -> digit_val (digit_char d) = d /\ 0 < digit_char d < 256.
Proof. intros Hd. apply (digit_cases d (fun d => digit_val (digit_char d) = d /\ 0 < digit_char d < 256)); done. Qed.

Lemma value_snoc base ds c : value base (ds ++ [c]) = value base ds * base + digit_val c.
Proof. unfold value. by rewrite foldl_app. Qed.

Lemma lsd_value fuel : forall n base,
  2 <= base <= 16 -> 0 <= n < base ^ Z.of_nat fuel -> value base (reverse (lsd fuel n base)) = n.
Proof.
  induction fuel as [|fuel IH]; intros n base Hb Hn; cbn [lsd].
  { change (base ^ Z.of_nat 0) with 1 in Hn. cbn. lia. }
  rewrite Nat2Z.inj_succ, Z.pow_succ_r in Hn by lia.
  pose proof (Z.mod_pos_bound n base ltac:(lia)). pose proof (Z.div_mod n base ltac:(lia)).
  rewrite reverse_cons, value_snoc, (proj1 (digit_val_char (n mod base) ltac:(lia))).
  destruct (Z.eqb_spec (n / base) 0) as [E|E]; [cbn; lia|].
  rewrite IH; [lia | done |]. split; [apply Z.div_pos; lia | apply Z.div_lt_upper_bound; lia].
Qed.

Lemma lsd_bytes fuel : forall n base, 2 <= base <= 16 -> str_bytes (lsd fuel n base).
Proof.
  induction fuel as [|fuel IH]; intros n base Hb; cbn [lsd]; [constructor|].
  pose proof (Z.mod_pos_bound n base ltac:(lia)).
  constructor; [by apply digit_val_char; lia|]. case_match; [constructor | by apply IH].
Qed.

(** ** The digit loop *)
Lemma kitoa_digits_spec fuel : forall a b n base (sg : bool),
  2 <= base <= 16 -> 0 <= n < base ^ Z.of_nat fuel -> (length (lsd fuel n base) <= length b)%nat ->
  let ds := lsd fuel n base in
  kitoa_digits fuel (a ++ b) (length a) (if sg then - n else n) base =
    match fuel with O => None | _ => Some (a ++ ds ++ drop (length ds) b, (length a + length ds)%nat) end.
Proof.
  induction fuel as [|fuel IH]; intros a b n base sg Hb Hn Hl; [done|].
  rewrite Nat2Z.inj_succ, Z.pow_succ_r in Hn by lia.
  pose proof (Z.mod_pos_bound n base ltac:(lia)).
  assert (Z.rem (if sg then - n else n) base = if sg then - (n mod base) else n mod base) as Er.
  { destruct sg; [rewrite Z.rem_opp_l by lia; f_equal|]; apply Z.rem_mod_nonneg; lia. }
  assert ((if sg then - n else n) ÷ base = if sg then - (n / base) else n / base) as Eq.
  { destruct sg; [rewrite Z.quot_opp_l by lia; f_equal|]; apply Z.quot_div_nonneg; lia. }
  cbn [kitoa_digits lsd] in *. rewrite Er, num2ch_digit by lia. cbn [mbind option_bind].
  destruct b as [|y b]; [simpl in Hl; lia|].
  rewrite poke_Some by (rewrite length_app; simpl; lia). cbn [mbind option_bind].
  rewrite insert_middle, u8_small by (pose proof (digit_val_char (n mod base) ltac:(lia)); lia).
  rewrite Eq. set (c := digit_char (n mod base)).
  assert (((if sg then - (n / base) else n / base) =? 0) = (n / base =? 0)) as ->.
  { destruct sg; [|done]. destruct (Z.eqb_spec (n / base) 0), (Z.eqb_spec (- (n / base)) 0); done || lia. }
  destruct (Z.eqb_spec (n / base) 0) as [E|E]; cbn [negb].
  { cbn [length drop app]. do 2 f_equal. lia. }
  replace (a ++ c :: b) with ((a ++ [c]) ++ b) by (by rewrite <- app_assoc).
  replace (S (length a)) with (length (a ++ [c])) by (rewrite length_app; simpl; lia).
  simpl in Hl. rewrite IH; [| done | split; [apply Z.div_pos; lia | apply Z.div_lt_upper_bound; lia] | lia].
  destruct fuel as [|fuel]; [change (base ^ Z.of_nat 0) with 1 in Hn; exfalso; apply E, Z.div_small; lia|].
  rewrite <- app_assoc, length_app. cbn [length drop app]. do 2 f_equal. simpl. lia.
Qed.

(** Concatenations in one normal form. *)
Ltac app_norm := cbn [app]; repeat (rewrite <- app_assoc; cbn [app]).

(** ** The reversal *)
Lemma kitoa_reverse_spec fuel : forall a l b,
  (length l <= fuel)%nat -> Forall (fun c => 0 <= c < 256) l ->
  kitoa_reverse fuel (a ++ l ++ b) (length a) (Nat.pred (length a + length l)) = Some (a ++ reverse l ++ b).
Proof.
  induction fuel as [|fuel IH]; intros a l b Hf Hl.
  { destruct l; [|simpl in Hf; lia]. cbn [kitoa_reverse length]. rewrite Nat.add_0_r.
    destruct (Nat.ltb_spec (length a) (Nat.pred (length a))); [lia|done]. }
  destruct l as [|x l]; [|destruct l as [|y l _] using rev_ind].
  - cbn [kitoa_reverse length]. rewrite Nat.add_0_r.
    destruct (Nat.ltb_spec (length a) (Nat.pred (length a))); [lia|done].
  - cbn [kitoa_reverse length]. destruct (Nat.ltb_spec (length a) (Nat.pred (length a + 1))); [lia|done].
  - cbn [kitoa_reverse]. rewrite length_cons, length_app in *. cbn [length] in *.
    replace (Nat.pred (length a + S (length l + 1))) with (length a + S (length l))%nat by lia.
    rewrite (proj2 (Nat.ltb_lt _ _)) by lia.
    apply Forall_cons in Hl as [Hx [Hl [Hy _]%Forall_cons]%Forall_app].
    assert ((a ++ (x :: l ++ [y]) ++ b) !! length a = Some x) as -> by (by apply (list_lookup_middle a ((l ++ [y]) ++ b) x)).
    cbn [mbind option_bind].
    assert (a ++ (x :: l ++ [y]) ++ b = (a ++ x :: l) ++ y :: b) as Eab by (by app_norm).
    assert ((a ++ (x :: l ++ [y]) ++ b) !! (length a + S (length l))%nat = Some y) as ->.
    { rewrite Eab. apply list_lookup_middle. rewrite length_app. simpl. lia. }
    cbn [mbind option_bind].
    rewrite poke_Some by (rewrite !length_app; simpl; lia). cbn [mbind option_bind].
    change (a ++ (x :: l ++ [y]) ++ b) with (a ++ x :: (l ++ [y]) ++ b). rewrite insert_middle, u8_small by lia.
    replace (a ++ y :: (l ++ [y]) ++ b) with ((a ++ y :: l) ++ y :: b) by (by app_norm).
    replace (length a + S (length l))%nat with (length (a ++ y :: l)) by (rewrite length_app; simpl; lia).
    rewrite poke_Some by (rewrite !length_app; simpl; lia). cbn [mbind option_bind].
    rewrite insert_middle, u8_small by lia.
    replace ((a ++ y :: l) ++ x :: b) with ((a ++ [y]) ++ l ++ x :: b) by (by app_norm).
    replace (Nat.pred (length (a ++ y :: l))) with (Nat.pred (length (a ++ [y]) + length l)) by (rewrite !length_app; simpl; lia).
    replace (S (length a)) with (length (a ++ [y])) by (rewrite length_app; simpl; lia).
    rewrite IH by (done || lia). f_equal. rewrite reverse_cons, reverse_app. cbn [reverse rev_append]. by app_norm.
Qed.

(** The text [kitoa] writes: a sign for a negative decimal, then the digits. *)
Definition kitoa_text (num base : Z) : list Z :=
  if (num <? 0) && (base =? 10) then 0x2d :: reverse (lsd 32 (- num) base)
  else reverse (lsd 32 (u32 num) base).

Lemma kitoa_text_bytes num base : good_base base -> str_bytes (kitoa_text num base).
Proof.
  intros Hb%good_base_range. unfold kitoa_text. case_match.
  - constructor; [lia|]. apply Forall_reverse. by apply lsd_bytes.
  - apply Forall_reverse. by apply lsd_bytes.
Qed.

Lemma drop_tail {A} n (b : list A) z r : drop n b = z :: r -> drop (S n) b = r.
Proof. intros E. replace (S n) with (n + 1)%nat by lia. by rewrite <- drop_drop, E. Qed.

(** After the digits: the terminator, and the reversal. *)
Lemma kitoa_finish a ds b y :
  str_bytes ds ->
  (buf ← poke (a ++ ds ++ y :: b) (length a + length ds) 0;
   kitoa_reverse (length buf) buf (length a) (Nat.pred (length a + length ds)))
  = Some (a ++ reverse ds ++ 0 :: b).
Proof.
  intros Hds. rewrite poke_Some by (rewrite !length_app; simpl; lia). cbn [mbind option_bind].
  rewrite app_assoc, <- length_app, insert_middle. change (u8 0) with 0. rewrite <- app_assoc.
  rewrite (length_app a ds). apply kitoa_reverse_spec; [rewrite !length_app; lia|]. eapply Forall_impl; [exact Hds|]. simpl. lia.
Qed.

Lemma kitoa_run a b num base :
  good_base base -> - 2 ^ 31 <= num < 2 ^ 31 -> (length (kitoa_text num base) < length b)%nat ->
  kitoa (a ++ b) (length a) num base =
    Some (a ++ kitoa_text num base ++ 0 :: drop (S (length (kitoa_text num base))) b).
Proof.
  intros Hb Hn Hl. pose proof (good_base_range base Hb) as Hb'. unfold kitoa.
  assert (negb ((base =? 2) || (base =? 8) || (base =? 10) || (base =? 16)) = false) as -> by (by destruct Hb as [->|[->|[->| ->]]]).
  assert (2 ^ 32 <= base ^ Z.of_nat 32) as Hpow by (apply (Z.pow_le_mono_l 2 base 32); lia).
  unfold kitoa_text in *. destruct ((num <? 0) && (base =? 10)) eqn:Es.
  - apply andb_true_iff in Es as [Hneg%Z.ltb_lt Hten].
    pose proof (lsd_bytes 32 (- num) base Hb') as Hbytes.
    cbn [length] in Hl. rewrite length_reverse in Hl. destruct b as [|y b]; [cbn [length] in Hl; lia|]. cbn [length] in Hl.
    rewrite poke_Some by (rewrite length_app; simpl; lia). cbn [mbind option_bind].
    rewrite insert_middle. change (u8 45) with 45.
    replace (a ++ 45 :: b) with ((a ++ [45]) ++ b) by (by rewrite <- app_assoc).
    replace (S (length a)) with (length (a ++ [45])) by (rewrite length_app; simpl; lia).
    pose proof (kitoa_digits_spec 32 (a ++ [45]) b (- num) base true Hb' ltac:(lia) ltac:(lia)) as Ed.
    remember (lsd 32 (- num) base) as ds eqn:Eds in *. clear Eds.
    cbn zeta in Ed. rewrite Z.opp_involutive in Ed. rewrite Ed. cbn [mbind option_bind].
    destruct (drop (length ds) b) as [|z r] eqn:Edr; [apply (f_equal length) in Edr; rewrite length_drop in Edr; simpl in Edr; lia|].
    rewrite kitoa_finish by done. rewrite <- app_assoc. cbn [app length drop].
    by rewrite length_reverse, (drop_tail _ _ _ _ Edr).
  - rewrite length_reverse in Hl. cbn [mbind option_bind].
    pose proof (u32_range num).
    pose proof (kitoa_digits_spec 32 a b (u32 num) base false Hb' ltac:(lia) ltac:(lia)) as Ed.
    pose proof (lsd_bytes 32 (u32 num) base Hb') as Hbytes.
    remember (lsd 32 (u32 num) base) as ds eqn:Eds in *. clear Eds.
    cbn zeta in Ed. cbn [option_bind mbind]. rewrite Ed. cbn [mbind option_bind].
    destruct (drop (length ds) b) as [|z r] eqn:Edr; [apply (f_equal length) in Edr; rewrite length_drop in Edr; simpl in Edr; lia|].
    rewrite kitoa_finish by done. by rewrite length_reverse, (drop_tail _ _ _ _ Edr).
Qed.

(** * Formatted text *)
Section FormatText.
Variable deref : Z -> option (list Z).

(** The text a format denotes, independent of any buffer. *)
Fixpoint format_text (fmt : list Z) (read_fmt : bool) (args : list varg) : option (list Z) :=
  match fmt with
  | [] => Some []
  | ch :: fmt =>
      if negb read_fmt then
        if ch =? 0x25 then format_text fmt true args
        else t ← format_text fmt false args; Some (u8 ch :: t)
      else if ch =? 0x64 then
        '(num, args) ← arg_int args;
        t ← format_text fmt false args; Some (kitoa_text num 10 ++ t)
      else if ch =? 0x78 then
        '(num, args) ← arg_int args;
        t ← format_text fmt false args; Some (0x30 :: 0x78 :: kitoa_text num 16 ++ t)
      else if ch =? 0x63 then
        '(c, args) ← arg_int args;
        t ← format_text fmt false args; Some (u8 c :: t)
      else if ch =? 0x73 then
        '(str, args) ← arg_str deref args;
        t ← format_text fmt false args; Some (map u8 str ++ t)
      else format_text fmt false args
  end.

Lemma len_from_spec ds : forall fuel w r,
  str_bytes ds -> (length ds < fuel)%nat ->
  len_from fuel (w ++ ds ++ 0 :: r) (length w) = Some (length w + length ds)%nat.
Proof.
  induction ds as [|c ds IH]; intros fuel w r Hds Hf; (destruct fuel as [|fuel]; [simpl in Hf; lia|]); cbn [len_from app].
  - rewrite list_lookup_middle by done. cbn [mbind option_bind length]. rewrite Nat.add_0_r. done.
  - rewrite list_lookup_middle by done. cbn [mbind option_bind].
    apply Forall_cons in Hds as [Hc Hds]. rewrite (proj2 (Z.eqb_neq c 0)) by lia. cbn [negb].
    replace (w ++ c :: ds ++ 0 :: r) with ((w ++ [c]) ++ ds ++ 0 :: r) by (by app_norm).
    replace (S (length w)) with (length (w ++ [c])) by (rewrite length_app; simpl; lia).
    rewrite IH by (done || (simpl in Hf; lia)). f_equal. rewrite length_app. simpl. lia.
Qed.

Lemma poke_zeros w n v :
  (0 < n)%nat -> poke (w ++ replicate n 0) (length w) v = Some ((w ++ [u8 v]) ++ replicate (n - 1) 0).
Proof.
  intros Hn. destruct n as [|n]; [lia|]. cbn [replicate].
  rewrite poke_Some by (rewrite length_app; simpl; lia). rewrite insert_middle, Nat.sub_succ, Nat.sub_0_r.
  by app_norm.
Qed.

Lemma poke_all_zeros bs : forall w n,
  (length bs <= n)%nat ->
  poke_all (w ++ replicate n 0) (length w) bs =
    Some ((w ++ map u8 bs) ++ replicate (n - length bs) 0, length (w ++ map u8 bs)).
Proof.
  induction bs as [|b bs IH]; intros w n Hn; cbn [poke_all map length].
  { by rewrite app_nil_r, Nat.sub_0_r. }
  cbn [length] in Hn. rewrite poke_zeros by lia. cbn [mbind option_bind].
  replace (S (length w)) with (length (w ++ [u8 b])) by (rewrite length_app; simpl; lia).
  rewrite IH by lia. replace (n - 1 - length bs)%nat with (n - S (length bs))%nat by lia.
  rewrite <- (app_assoc w). done.
Qed.

(** [kitoa] at the end of what is written, in a zeroed buffer. *)
Lemma kitoa_zeros w n num base :
  good_base base -> - 2 ^ 31 <= num < 2 ^ 31 -> (length (kitoa_text num base) < n)%nat ->
  kitoa (w ++ replicate n 0) (length w) num base =
    Some ((w ++ kitoa_text num base) ++ replicate (n - length (kitoa_text num base)) 0) /\
  len_from (length ((w ++ kitoa_text num base) ++ replicate (n - length (kitoa_text num base)) 0))
    ((w ++ kitoa_text num base) ++ replicate (n - length (kitoa_text num base)) 0) (length w)
    = Some (length (w ++ kitoa_text num base)).
Proof.
  intros Hb Hnum Hn. pose proof (kitoa_text_bytes num base Hb) as Hbytes.
  rewrite kitoa_run; [|done|done|by rewrite length_replicate].
  remember (kitoa_text num base) as ds eqn:Eds in *. clear Eds.
  replace (n - length ds)%nat with (S (n - S (length ds))) by lia. cbn [replicate]. split.
  - rewrite drop_replicate. by app_norm.
  - rewrite <- app_assoc. rewrite len_from_spec; [by rewrite length_app | done |].
    rewrite !length_app. simpl. lia.
Qed.

Lemma kvsprintf_loop_run fmt : forall rf w n args txt,
  format_text fmt rf args = Some txt -> (length txt < n)%nat ->
  kvsprintf_loop deref fmt rf (w ++ replicate n 0) (length w) args =
    Some ((w ++ txt) ++ replicate (n - length txt) 0, length (w ++ txt)).
Proof.
  induction fmt as [|ch fmt IH]; intros rf w n args txt E Hn; cbn [format_text kvsprintf_loop] in *.
  { injection E as <-. by rewrite app_nil_r, Nat.sub_0_r. }
  destruct rf; cbn [negb] in *.
  - destruct (ch =? 0x64); [|destruct (ch =? 0x78); [|destruct (ch =? 0x63); [|destruct (ch =? 0x73); [|by apply IH]]]].
    + destruct (arg_int args) as [[num args']|] eqn:Ea; [|done]. cbn [mbind option_bind] in *.
      destruct (format_text fmt false args') as [t|] eqn:Et; [|done]. injection E as <-.
      rewrite length_app in Hn.
      assert (- 2 ^ 31 <= num < 2 ^ 31) as Hr by (destruct args as [|[]]; simplify_eq/=; apply i32_range).
      destruct (kitoa_zeros w n num 10) as [-> El]; [right; right; by left | done | lia |]. cbn [mbind option_bind].
      rewrite El. cbn [mbind option_bind]. rewrite (IH false _ _ _ t Et) by lia.
      by rewrite <- (app_assoc w), <- Nat.sub_add_distr, (length_app (kitoa_text num 10)).
    + rewrite poke_zeros by (destruct (arg_int args) as [[]|]; [|done]; cbn [mbind option_bind] in E;
        destruct (format_text fmt false _); [|done]; injection E as <-; simpl in Hn; lia).
      cbn [mbind option_bind].
      destruct (arg_int args) as [[num args']|] eqn:Ea; [|done]. cbn [mbind option_bind] in *.
      destruct (format_text fmt false args') as [t|] eqn:Et; [|done]. injection E as <-.
      cbn [length] in Hn. rewrite length_app in Hn.
      replace (S (length w)) with (length (w ++ [u8 0x30])) by (rewrite length_app; simpl; lia).
      rewrite poke_zeros by lia. cbn [mbind option_bind].
      replace (S (length (w ++ [u8 0x30]))) with (length ((w ++ [u8 0x30]) ++ [u8 0x78])) by (rewrite !length_app; simpl; lia).
      assert (- 2 ^ 31 <= num < 2 ^ 31) as Hr by (destruct args as [|[]]; simplify_eq/=; apply i32_range).
      destruct (kitoa_zeros ((w ++ [u8 0x30]) ++ [u8 0x78]) (n - 1 - 1) num 16) as [-> El]; [by do 3 right | done | lia |].
      cbn [mbind option_bind]. rewrite El. cbn [mbind option_bind]. rewrite (IH false _ _ _ t Et) by lia.
      cbn [length]. rewrite (length_app (kitoa_text num 16) t).
      replace (n - 1 - 1 - length (kitoa_text num 16) - length t)%nat
        with (n - S (S (length (kitoa_text num 16) + length t)))%nat by lia.
      change (u8 0x30) with 0x30. change (u8 0x78) with 0x78. by app_norm.
    + destruct (arg_int args) as [[c args']|] eqn:Ea; [|done]. cbn [mbind option_bind] in *.
      destruct (format_text fmt false args') as [t|] eqn:Et; [|done]. injection E as <-.
      cbn [length] in Hn. rewrite poke_zeros by lia. cbn [mbind option_bind].
      replace (S (length w)) with (length (w ++ [u8 c])) by (rewrite length_app; simpl; lia).
      rewrite (IH false _ _ _ t Et) by lia. cbn [length].
      replace (n - 1 - length t)%nat with (n - S (length t))%nat by lia. by rewrite <- (app_assoc w).
    + destruct (arg_str deref args) as [[str args']|] eqn:Ea; [|done]. cbn [mbind option_bind] in *.
      destruct (format_text fmt false args') as [t|] eqn:Et; [|done]. injection E as <-.
      rewrite length_app, length_map in Hn. rewrite poke_all_zeros by lia. cbn [mbind option_bind].
      rewrite (IH false _ _ _ t Et) by lia. rewrite (length_app (map u8 str)), length_map, <- Nat.sub_add_distr.
      by rewrite <- (app_assoc w).
  - destruct (ch =? 0x25); [by apply IH|].
    destruct (format_text fmt false args) as [t|] eqn:Et; [|done]. injection E as <-.
    cbn [length] in Hn. rewrite poke_zeros by lia. cbn [mbind option_bind].
    replace (S (length w)) with (length (w ++ [u8 ch])) by (rewrite length_app; simpl; lia).
    rewrite (IH false _ _ _ t Et) by lia. cbn [length].
    replace (n - 1 - length t)%nat with (n - S (length t))%nat by lia. by rewrite <- (app_assoc w).
Qed.

Lemma kvsprintf_text fmt args txt n :
  format_text fmt false args = Some txt -> (length txt < n)%nat ->
  kvsprintf deref (replicate n 0) fmt args = Some (txt ++ replicate (n - length txt) 0).
Proof.
  intros E Hn. unfold kvsprintf.
  pose proof (kvsprintf_loop_run fmt false [] n args txt E Hn) as El. cbn [app length] in El. by rewrite El.
Qed.

(** * Properties *)

(** C36: in a zeroed buffer longer than the text, [kvsprintf] writes exactly the
    text the format denotes and leaves the zeros behind it, which end the text: it
    writes no terminator of its own. *)
Theorem kvsprintf_writes_text fmt args txt n :
  format_text fmt false args = Some txt -> (length txt < n)%nat ->
  kvsprintf deref (replicate n 0) fmt args = Some (txt ++ replicate (n - length txt) 0).
Proof. apply kvsprintf_text. Qed.

End FormatText.

(** ** How long a text can get *)
Lemma lsd_length f base : forall k n,
  2 <= base -> 0 <= n < base ^ Z.of_nat k -> (0 < k)%nat -> (length (lsd f n base) <= k)%nat.
Proof.
  induction f as [|f IH]; intros k n Hb Hn Hk; cbn [lsd]; [simpl; lia|].
  cbn [length]. destruct (Z.eqb_spec (n / base) 0) as [_|Hne]; [simpl; lia|].
  destruct k as [|k]; [lia|]. rewrite Nat2Z.inj_succ, Z.pow_succ_r in Hn by lia.
  assert (0 <= n / base < base ^ Z.of_nat k) as Hd.
  { split; [apply Z.div_pos; lia | apply Z.div_lt_upper_bound; lia]. }
  destruct k as [|k]; [simpl in Hd; lia|]. specialize (IH (S k) (n / base) Hb Hd). lia.
Qed.

Lemma kitoa_text_10_length z : (length (kitoa_text (i32 z) 10) <= 11)%nat.
Proof.
  pose proof (i32_range z). unfold kitoa_text. destruct (Z.ltb_spec (i32 z) 0); cbn [andb Z.eqb Pos.eqb length];
    rewrite length_reverse.
  - pose proof (lsd_length 32 10 10 (- i32 z) ltac:(lia) ltac:(lia) ltac:(lia)). lia.
  - rewrite u32_small by lia. pose proof (lsd_length 32 10 10 (i32 z) ltac:(lia) ltac:(lia) ltac:(lia)). lia.
Qed.

Lemma kitoa_text_16_length z : (length (kitoa_text z 16) <= 8)%nat.
Proof.
  pose proof (u32_range z). unfold kitoa_text. rewrite andb_false_r, length_reverse.
  apply lsd_length; lia.
Qed.

Definition is_byte (c : Z) : bool := (0 <? c) && (c <? 256).

Lemma is_byte_spec c : is_byte c = true <-> 0 < c < 256.
Proof. unfold is_byte. rewrite andb_true_iff, !Z.ltb_lt. done. Qed.

(** Room for the text of a format whose arguments are numbers and literal strings;
    [None] when the format has %c or an argument is missing. *)
Fixpoint fmt_room (fmt : list Z) (read_fmt : bool) (args : list varg) : option nat :=
  match fmt with
  | [] => Some 0%nat
  | ch :: fmt =>
      if negb read_fmt then
        if ch =? 0x25 then fmt_room fmt true args
        else if is_byte ch then n ← fmt_room fmt false args; Some (1 + n)%nat else None
      else if ch =? 0x64 then
        match args with VInt _ :: args => n ← fmt_room fmt false args; Some (11 + n)%nat | _ => None end
      else if ch =? 0x78 then
        match args with VInt _ :: args => n ← fmt_room fmt false args; Some (10 + n)%nat | _ => None end
      else if ch =? 0x63 then
        match args with
        | VInt c :: args => if is_byte c then n ← fmt_room fmt false args; Some (1 + n)%nat else None
        | _ => None
        end
      else if ch =? 0x73 then
        match args with
        | VStr str :: args =>
            if forallb is_byte str then n ← fmt_room fmt false args; Some (length str + n)%nat else None
        | _ => None
        end
      else fmt_room fmt false args
  end.

Lemma map_u8_bytes str : forallb is_byte str = true -> str_bytes (map u8 str).
Proof.
  induction str as [|c str IH]; cbn [forallb map]; [constructor|].
  intros [Hc%is_byte_spec Hs]%andb_true_iff. constructor; [rewrite u8_small by lia; lia | by apply IH].
Qed.

Lemma fmt_room_spec deref fmt : forall rf args n,
  fmt_room fmt rf args = Some n ->
  exists txt, format_text deref fmt rf args = Some txt /\ str_bytes txt /\ (length txt <= n)%nat.
Proof.
  induction fmt as [|ch fmt IH]; intros rf args n E; cbn [fmt_room format_text] in *.
  { exists []. split_and!; [done | constructor | simpl; lia]. }
  assert (forall args' b pre, (m ← fmt_room fmt false args'; Some (b + m)%nat) = Some n ->
    str_bytes pre -> (length pre <= b)%nat ->
    exists txt, (t ← format_text deref fmt false args'; Some (pre ++ t)) = Some txt /\ str_bytes txt /\ (length txt <= n)%nat)
    as Hpre.
  { intros args' b pre E' Hp Hl. destruct (fmt_room fmt false args') as [m|] eqn:Er; [|done]. injection E' as <-.
    destruct (IH false args' m Er) as (t & -> & Ht & Hlt). exists (pre ++ t). rewrite length_app.
    split_and!; [done | by apply Forall_app | lia]. }
  destruct rf; cbn [negb] in *.
  - destruct (Z.eqb_spec ch 0x64); [|destruct (Z.eqb_spec ch 0x78); [|destruct (Z.eqb_spec ch 0x63); [|destruct (Z.eqb_spec ch 0x73)]]].
    + destruct args as [|[z|] args]; try done. cbn [arg_int mbind option_bind].
      apply (Hpre args 11%nat); [done | apply kitoa_text_bytes; right; right; by left | apply kitoa_text_10_length].
    + destruct args as [|[z|] args]; try done. cbn [arg_int mbind option_bind].
      apply (Hpre args 10%nat (0x30 :: 0x78 :: kitoa_text (i32 z) 16)); [done | |].
      * repeat constructor; try lia. apply kitoa_text_bytes. right; right; by right.
      * pose proof (kitoa_text_16_length (i32 z)). simpl. lia.
    + destruct args as [|[c|] args]; try done. destruct (is_byte c) eqn:Eb; [|done]. apply is_byte_spec in Eb.
      cbn [arg_int mbind option_bind]. apply (Hpre args 1%nat [u8 (i32 c)]); [done | | simpl; lia].
      repeat constructor; rewrite i32_small, u8_small by lia; lia.
    + destruct args as [|[|str] args]; try done. destruct (forallb is_byte str) eqn:Eb; [|done]. cbn [arg_str mbind option_bind].
      apply (Hpre args (length str)); [done | by apply map_u8_bytes | by rewrite length_map].
    + by apply IH.
  - destruct (Z.eqb_spec ch 0x25); [by apply IH|]. destruct (is_byte ch) eqn:Eb; [|done]. apply is_byte_spec in Eb.
    apply (Hpre args 1%nat [u8 ch]); [done | | simpl; lia]. repeat constructor; rewrite u8_small; lia.
Qed.

(** C37: for the bases 2, 8, 10 and 16 [kitoa] writes a text that reads back as the
    number: for base 10 a minus sign before the digits of the absolute value of a
    negative number, in the other bases the digits of the 32-bit word.  It ends the
    text with a 0 and leaves the rest of the buffer alone; for another base it
    writes the empty string. *)
Theorem kitoa_reads_back a b num base :
  - 2 ^ 31 <= num < 2 ^ 31 -> (34 <= length b)%nat ->
  (good_base base -> exists sign ds,
     kitoa (a ++ b) (length a) num base = Some (a ++ (sign ++ ds) ++ 0 :: drop (S (length (sign ++ ds))) b) /\
     sign = (if (num <? 0) && (base =? 10) then [0x2d] else []) /\
     value base ds = (if base =? 10 then Z.abs num else u32 num)) /\
  (~ good_base base -> kitoa (a ++ b) (length a) num base = poke (a ++ b) (length a) 0).
Proof.
  intros Hn Hl. split.
  - intros Hb. pose proof (good_base_range base Hb) as Hr.
    assert (forall n, (length (lsd 32 n base) <= 32)%nat) as Hlen.
    { generalize 32%nat. intros f. induction f as [|f IH]; intros n; cbn [lsd length]; [lia|].
      case_match; cbn [length]; [lia|]. specialize (IH (n / base)). lia. }
    assert (2 ^ 32 <= base ^ Z.of_nat 32) as Hpow by (apply (Z.pow_le_mono_l 2 base 32); lia).
    rewrite kitoa_run; [|done|done|].
    2:{ unfold kitoa_text. case_match; cbn [length]; rewrite length_reverse;
          [specialize (Hlen (- num)) | specialize (Hlen (u32 num))]; lia. }
    unfold kitoa_text. destruct ((num <? 0) && (base =? 10)) eqn:Es.
    + apply andb_true_iff in Es as [Hneg%Z.ltb_lt ->].
      eexists [0x2d], (reverse (lsd 32 (- num) base)). split_and!; [done | done |].
      rewrite lsd_value; lia.
    + eexists [], (reverse (lsd 32 (u32 num) base)). split_and!; [done | done |].
      pose proof (u32_range num). rewrite lsd_value by lia.
      destruct (Z.eqb_spec base 10) as [->|]; [|done].
      rewrite andb_true_r in Es. apply Z.ltb_ge in Es. rewrite u32_small; lia.
  - intros Hb. unfold kitoa.
    destruct (Z.eqb_spec base 2), (Z.eqb_spec base 8), (Z.eqb_spec base 10), (Z.eqb_spec base 16); try done;
      exfalso; apply Hb; unfold good_base; tauto.
Qed.
