(* ===== verification/Sched.v ===== *)
(** The scheduler of kernel/core/task.c: ready, sleep and task queues, the
    dispatcher, the timer tick, sleeping, yielding and exit. *)
From S2P Require Import Prelude DList Machine MachineFacts.

Section Sched.
Context `{Layout}.

(** os_cfg.h *)
Definition OS_TICKS_MS : Z := 10.

(** cpu.c: [swtch_to_tss] *)
Definition swtch_to_tss (tss_sel : Z) : K unit := far_jump_tss tss_sel.

Definition task_switch_from_to (from to : Z) : K unit :=
  t ← get_task to; swtch_to_tss (t_tss_sel t).

Definition task_first_task : Z := first_task.

Definition task_set_ready (task : Z) : K unit :=
  if task =? idle_task then mret tt
  else
    tm ← gets k_tm;
    l ← on_list (fun h l => list_insert_back h l (run_node task)) (ready_list tm);
    modify_tm (set_ready_list l);;
    upd_task task (set_t_state TASK_READY).

Definition task_set_blocked (task : Z) : K unit :=
  if task =? idle_task then mret tt
  else
    tm ← gets k_tm;
    h ← gets k_nodes;
    '(_, h, l) ← kopt (list_remove h (ready_list tm) (run_node task));
    modify (set_k_nodes h);;
    modify_tm (set_ready_list l).

Definition task_next_run : K Z :=
  tm ← gets k_tm;
  if list_size (ready_list tm) =? 0 then mret idle_task
  else
    let task_node := list_first (ready_list tm) in
    mret (list_node_parent task_node RUN_NODE_OFF).

Definition task_current : K Z := tm ← gets k_tm; mret (curr_task tm).

Definition task_dispatch : K unit :=
  state ← irq_enter_protection;
  to ← task_next_run;
  tm ← gets k_tm;
  (if to =? curr_task tm then mret tt
   else
     from ← task_current;
     modify_tm (set_curr_task to);;
     upd_task to (set_t_state TASK_RUNNING);;
     task_switch_from_to from to);;
  irq_leave_protection state.

Definition task_start (task : Z) : K unit :=
  state ← irq_enter_protection;
  task_set_ready task;;
  irq_leave_protection state.

Definition sys_sched_yield : K Z :=
  state ← irq_enter_protection;
  tm ← gets k_tm;
  (if list_size (ready_list tm) >? 1 then
     curr ← task_current;
     task_set_blocked curr;;
     task_set_ready curr;;
     task_dispatch
   else mret tt);;
  irq_leave_protection state;;
  mret 0.

Definition task_set_sleep (task ticks : Z) : K unit :=
  if ticks =? 0 then mret tt
  else
    upd_task task (set_t_sleep_ticks ticks);;
    (* [task->state == TASK_SLEEP;] compares and discards the result *)
    _ ← get_task task;
    tm ← gets k_tm;
    l ← on_list (fun h l => list_insert_back h l (run_node task)) (sleep_list tm);
    modify_tm (set_sleep_list l).

Definition task_set_wakeup (task : Z) : K unit :=
  tm ← gets k_tm;
  h ← gets k_nodes;
  '(_, h, l) ← kopt (list_remove h (sleep_list tm) (run_node task));
  modify (set_k_nodes h);;
  modify_tm (set_sleep_list l).

(** The [while (curr)] of [task_time_tick], [fuel] bounding its rounds. *)
Fixpoint tick_sleepers (fuel : nat) (curr : Z) : K unit :=
  if curr =? 0 then mret tt
  else
    match fuel with
    | O => kfault
    | S fuel =>
        h ← gets k_nodes;
        next ← kopt (list_node_next h curr);
        let task := list_node_parent curr RUN_NODE_OFF in
        upd_task task (fun t => set_t_sleep_ticks (i32 (t_sleep_ticks t - 1)) t);;
        t ← get_task task;
        (if t_sleep_ticks t =? 0
         then task_set_wakeup task;; task_set_ready task
         else mret tt);;
        tick_sleepers fuel next
    end.

(** The walk of the sleep queue and the final dispatch; [count] nodes are in
    the queue and each round moves on to the next one. *)
Definition tick_rest : K unit :=
  tm ← gets k_tm;
  tick_sleepers (Z.to_nat (list_size (sleep_list tm))) (list_first (sleep_list tm));;
  task_dispatch.

Definition task_time_tick : K unit :=
  curr ← task_current;
  upd_task curr (fun t => set_t_slice_ticks (i32 (t_slice_ticks t - 1)) t);;
  t ← get_task curr;
  (if t_slice_ticks t =? 0 then
     upd_task curr (fun t => set_t_slice_ticks (t_time_ticks t) t);;
     task_set_blocked curr;;
     task_set_ready curr;;
     task_dispatch
   else mret tt);;
  tick_rest.

(** [(ms + (OS_TICKS_MS - 1)) / OS_TICKS_MS] on [uint32_t]; [task_set_sleep]
    stores it in an [int]. *)
Definition sleep_ticks_of_ms (ms : Z) : Z := u32 (ms + (OS_TICKS_MS - 1)) / OS_TICKS_MS.

Definition sys_sleep (ms : Z) : K unit :=
  state ← irq_enter_protection;
  tm ← gets k_tm;
  task_set_blocked (curr_task tm);;
  tm ← gets k_tm;
  task_set_sleep (curr_task tm) (sleep_ticks_of_ms ms);;
  task_dispatch;;
  irq_leave_protection state.

Definition sys_getpid : K Z :=
  task ← task_current;
  t ← get_task task;
  mret (t_pid t).

Definition sys_exit (status : Z) : K Z :=
  state ← irq_enter_protection;
  curr ← task_current;
  upd_task curr (set_t_state TASK_ZOMBIE);;
  task_set_blocked curr;;
  task_dispatch;;
  irq_leave_protection state;;
  mret 0.

(** ** Abstract scheduler

    The promise of the scheduler, over queues of task addresses: the running
    task, the ready queue and the sleeping tasks with the ticks they have left. *)
Record sview := SView { v_curr : Z; v_ready : list Z; v_sleep : list (Z * Z) }.

(** The next task is the head of the ready queue, or the idle task. *)
Definition a_next (v : sview) : Z := hd idle_task (v_ready v).

Definition a_dispatch (v : sview) : sview := SView (a_next v) (v_ready v) (v_sleep v).

Definition a_set_ready (t : Z) (v : sview) : sview :=
  SView (v_curr v) (v_ready v ++ [t]) (v_sleep v).

Definition a_set_blocked (t : Z) (v : sview) : sview :=
  SView (v_curr v) (filter (fun x => x <> t) (v_ready v)) (v_sleep v).

Definition a_rotate (t : Z) (v : sview) : sview := a_set_ready t (a_set_blocked t v).

(** The end of a time slice: a running task that is ready goes to the tail. *)
Definition a_slice_end (v : sview) : sview :=
  if bool_decide (v_curr v ∈ v_ready v) then a_rotate (v_curr v) v else v.

Definition a_yield (v : sview) : sview :=
  if (1 <? length (v_ready v))%nat then a_dispatch (a_rotate (v_curr v) v) else v.

(** One tick for the sleepers: those whose count reaches 0 join the ready
    queue in the order of the sleep queue. *)
Definition a_awake (l : list (Z * Z)) : list Z := (filter (fun p => p.2 = 1) l).*1.

Definition a_asleep (l : list (Z * Z)) : list (Z * Z) :=
  prod_map id (fun n => n - 1) <$> filter (fun p => p.2 <> 1) l.

Definition a_tick_sleepers (v : sview) : sview :=
  SView (v_curr v) (v_ready v ++ a_awake (v_sleep v)) (a_asleep (v_sleep v)).

Definition a_sleep (ticks : Z) (v : sview) : sview :=
  let v := a_set_blocked (v_curr v) v in
  a_dispatch (SView (v_curr v) (v_ready v)
                (v_sleep v ++ if ticks =? 0 then [] else [(v_curr v, ticks)])).

Definition a_exit (v : sview) : sview := a_dispatch (a_set_blocked (v_curr v) v).

(** ** Representation *)

(** Task structures do not overlap. *)
Definition tasks_apart (ts : gmap Z task_t) : Prop :=
  forall t t', t ∈ dom ts -> t' ∈ dom ts -> t <> t' ->
    t + SIZEOF_TASK <= t' \/ t' + SIZEOF_TASK <= t.

(** A task that can be queued and switched to: its structure and its three list
    nodes exist and its selector designates its own TSS. *)
Definition live (s : kst) (t : Z) : Prop :=
  0 < t /\
  is_Some (k_nodes s !! run_node t) /\ is_Some (k_nodes s !! all_node t) /\
  is_Some (k_nodes s !! wait_node t) /\
  exists task, k_tasks s !! t = Some task /\ fst <$> tss_owner s (t_tss_sel task) = Some t.

(** The kernel state holds the abstract scheduler state [v]. *)
Record sched_inv (s : kst) (v : sview) : Prop := {
  si_curr : curr_task (k_tm s) = v_curr v;
  si_ready : dlist (k_nodes s) (ready_list (k_tm s)) (run_node <$> v_ready v);
  si_sleep : dlist (k_nodes s) (sleep_list (k_tm s)) (run_node <$> (v_sleep v).*1);
  si_nodup : NoDup (v_ready v ++ (v_sleep v).*1);
  si_idle : idle_task ∉ v_ready v ++ (v_sleep v).*1;
  si_live : forall t, t ∈ idle_task :: v_ready v ++ (v_sleep v).*1 -> live s t;
  si_ticks : forall t n, (t, n) ∈ v_sleep v ->
    0 < n < 2 ^ 31 /\ t_sleep_ticks <$> k_tasks s !! t = Some n;
  si_apart : tasks_apart (k_tasks s)
}.

(** What scheduling leaves alone in a task. *)
Definition task_core (t : task_t) : list Z * Z * Z * Z * tss_t * Z :=
  (t_name t, t_pid t, t_parent t, t_time_ticks t, t_tss t, t_tss_sel t).

(** [s'] differs from [s] only in the queues, the [run_node] links and the
    scheduling fields of tasks. *)
Definition sched_step (s s' : kst) : Prop :=
  exists tm h ts, s' = set_k_tm tm (set_k_nodes h (set_k_tasks ts s)) /\
    task_list tm = task_list (k_tm s) /\
    app_code_sel tm = app_code_sel (k_tm s) /\ app_data_sel tm = app_data_sel (k_tm s) /\
    (forall n, (forall t, t ∈ dom (k_tasks s) -> n <> run_node t) -> h !! n = k_nodes s !! n) /\
    dom h = dom (k_nodes s) /\
    (forall t, task_core <$> ts !! t = task_core <$> k_tasks s !! t).

(** ** Frame lemmas *)
Lemma sched_step_refl s : sched_step s s.
Proof.
  exists (k_tm s), (k_nodes s), (k_tasks s).
  by rewrite set_k_tasks_id, set_k_nodes_id, set_k_tm_id.
Qed.

Lemma core_dom (ts ts' : gmap Z task_t) :
  (forall t, task_core <$> ts' !! t = task_core <$> ts !! t) -> dom ts' = dom ts.
Proof.
  intros Hc. apply set_eq. intros t. rewrite !elem_of_dom.
  specialize (Hc t). destruct (ts' !! t), (ts !! t); simpl in Hc; try done; split; eauto.
Qed.

Lemma sched_step_dom s s' : sched_step s s' -> dom (k_tasks s') = dom (k_tasks s).
Proof. intros (tm & h & ts & -> & _ & _ & _ & _ & _ & Hc). by apply core_dom. Qed.

Lemma sched_step_trans s1 s2 s3 : sched_step s1 s2 -> sched_step s2 s3 -> sched_step s1 s3.
Proof.
  intros H12. pose proof (sched_step_dom _ _ H12) as Hd. revert H12.
  intros (tm & h & ts & E & A1 & A2 & A3 & A4 & A5 & A6).
  intros (tm' & h' & ts' & -> & B1 & B2 & B3 & B4 & B5 & B6).
  exists tm', h', ts'. subst s2; simpl in *. split_and!; try congruence.
  - done.
  - intros n Hn. rewrite B4, A4; [done|done|by rewrite Hd].
Qed.

#[global] Instance sched_step_preorder : PreOrder sched_step.
Proof. split; [exact sched_step_refl | exact sched_step_trans]. Qed.

Lemma sched_step_live s s' t : sched_step s s' -> live s t -> live s' t.
Proof.
  intros (tm & h & ts & -> & _ & _ & _ & Hn & Hd & Hc) (Hp & H1 & H2 & H3 & task & Ht & Ho).
  assert (forall n, is_Some (k_nodes s !! n) -> is_Some (h !! n)) as Hs.
  { intros n. rewrite <- !elem_of_dom, Hd. done. }
  pose proof (Hc t) as Hct. rewrite Ht in Hct. simpl in Hct.
  destruct (ts !! t) as [task'|] eqn:Et; [|done]. injection Hct as ?????? .
  unfold live; simpl. split_and!; eauto. exists task'. split; [done|].
  unfold tss_owner in *; simpl. destruct (k_gdt s !! _) as [d|] eqn:Eg; [|by simpl in Ho].
  replace (t_tss_sel task') with (t_tss_sel task) by congruence. rewrite Eg. simpl in *.
  specialize (Hc (desc_base d - TSS_OFF)).
  destruct (k_tasks s !! (desc_base d - TSS_OFF)), (ts !! (desc_base d - TSS_OFF)); done.
Qed.

(** Lists threaded through other nodes survive scheduling. *)
Lemma sched_step_dlist s s' l ns :
  sched_step s s' ->
  (forall n t, n ∈ ns -> t ∈ dom (k_tasks s) -> n <> run_node t) ->
  dlist (k_nodes s) l ns -> dlist (k_nodes s') l ns.
Proof.
  intros (tm & h & ts & -> & _ & _ & _ & Hn & _) Hd. apply dlist_frame.
  intros n Hin. apply Hn. intros t Ht. by apply Hd.
Qed.

(** ** The operations *)

Lemma run_node_fmap_in t (l : list Z) : run_node t ∈ run_node <$> l <-> t ∈ l.
Proof.
  rewrite list_elem_of_fmap. unfold run_node. split; [|by eauto].
  intros (x & E & Hx). by replace t with x by lia.
Qed.

Lemma parent_run_node t : 0 < t -> list_node_parent (run_node t) RUN_NODE_OFF = t.
Proof.
  intros. unfold list_node_parent, run_node, RUN_NODE_OFF.
  rewrite (proj2 (Z.eqb_neq _ _)) by lia. lia.
Qed.

(** Queue updates by the scheduler are [sched_step]s. *)
Lemma touches_run_step s s' h (l : list Z) tm ts :
  s' = set_k_tm tm (set_k_nodes h (set_k_tasks ts s)) ->
  touches (run_node <$> l) (k_nodes s) h -> (forall t, t ∈ l -> t ∈ dom (k_tasks s)) ->
  (forall t, task_core <$> ts !! t = task_core <$> k_tasks s !! t) ->
  task_list tm = task_list (k_tm s) -> app_code_sel tm = app_code_sel (k_tm s) ->
  app_data_sel tm = app_data_sel (k_tm s) ->
  sched_step s s'.
Proof.
  intros -> [Hf Hd] Hl Hc ? ? ?. exists tm, h, ts. split_and!; try done.
  intros n Hn. apply Hf. intros Hin.
  apply list_elem_of_fmap in Hin as (t & -> & Ht). by apply (Hn t); [apply Hl|].
Qed.

Lemma live_dom s t : live s t -> t ∈ dom (k_tasks s).
Proof. intros (_ & _ & _ & _ & task & Ht & _). apply elem_of_dom. eauto. Qed.

Lemma live_pos s t : live s t -> 0 < t.
Proof. by intros [? _]. Qed.

Lemma core_insert (ts : gmap Z task_t) t task task' :
  ts !! t = Some task -> task_core task' = task_core task ->
  forall x, task_core <$> <[t := task']> ts !! x = task_core <$> ts !! x.
Proof.
  intros Ht Hc x. destruct (decide (t = x)) as [<-|]; [|by rewrite lookup_insert_ne].
  rewrite lookup_insert_eq, Ht. simpl. by rewrite Hc.
Qed.

Lemma tasks_apart_dom (ts ts' : gmap Z task_t) : dom ts' = dom ts -> tasks_apart ts -> tasks_apart ts'.
Proof. intros Hd Ha t t'. rewrite Hd. apply Ha. Qed.

(** Changing a scheduling field of one task. *)
Lemma upd_task_run s t task f :
  k_tasks s !! t = Some task ->
  upd_task t f s = Done tt (set_k_tasks (<[t := f task]> (k_tasks s)) s).
Proof. intros Ht. unfold upd_task, get_task. kred. rewrite Ht. done. Qed.

Lemma task_step s t task f :
  k_tasks s !! t = Some task -> (forall x, task_core (f x) = task_core x) ->
  sched_step s (set_k_tasks (<[t := f task]> (k_tasks s)) s).
Proof.
  intros Ht Hf. exists (k_tm s), (k_nodes s), (<[t := f task]> (k_tasks s)).
  split_and!; try done. by eapply core_insert.
Qed.

Lemma get_task_run s t task : k_tasks s !! t = Some task -> get_task t s = Done task s.
Proof. intros Ht. unfold get_task. kred. by rewrite Ht. Qed.

Lemma task_set_ready_idle s : task_set_ready idle_task s = Done tt s.
Proof. unfold task_set_ready. by rewrite Z.eqb_refl. Qed.

Lemma task_set_blocked_idle s : task_set_blocked idle_task s = Done tt s.
Proof. unfold task_set_blocked. by rewrite Z.eqb_refl. Qed.

Lemma in_queue_live s v t : sched_inv s v -> t ∈ v_ready v ++ (v_sleep v).*1 -> live s t.
Proof. intros Hi Ht. apply (si_live s v Hi). by right. Qed.

(** A step that keeps the header of a queue and its links keeps the queue. *)
Lemma other_queue s h (l1 l2 : list Z) l :
  touches (run_node <$> l1) (k_nodes s) h -> (forall t, t ∈ l2 -> t ∉ l1) ->
  dlist (k_nodes s) l (run_node <$> l2) -> dlist h l (run_node <$> l2).
Proof.
  intros Ht Hd. eapply dlist_touches; [exact Ht|].
  intros n (t & -> & Hin)%list_elem_of_fmap. rewrite run_node_fmap_in. by apply Hd.
Qed.

(** The queue predicates other than the links follow any [sched_step]. *)
Lemma sched_inv_step s s' v v' :
  sched_inv s v -> sched_step s s' ->
  curr_task (k_tm s') = v_curr v' ->
  dlist (k_nodes s') (ready_list (k_tm s')) (run_node <$> v_ready v') ->
  dlist (k_nodes s') (sleep_list (k_tm s')) (run_node <$> (v_sleep v').*1) ->
  NoDup (v_ready v' ++ (v_sleep v').*1) ->
  idle_task ∉ v_ready v' ++ (v_sleep v').*1 ->
  (forall t, t ∈ v_ready v' ++ (v_sleep v').*1 -> live s t) ->
  (forall t n, (t, n) ∈ v_sleep v' ->
     0 < n < 2 ^ 31 /\ t_sleep_ticks <$> k_tasks s' !! t = Some n) ->
  sched_inv s' v'.
Proof.
  intros Hi Hs Hc Hr Hsl Hnd Hid Hl Ht. split; try done.
  - intros t [->|Hin]%elem_of_cons; apply (sched_step_live s); try done; [|by apply Hl].
    apply (si_live s v Hi). by left.
  - eapply tasks_apart_dom; [by apply sched_step_dom | exact (si_apart s v Hi)].
Qed.

Lemma task_set_ready_run s v t :
  sched_inv s v -> live s t -> t <> idle_task -> t ∉ v_ready v ++ (v_sleep v).*1 ->
  exists s' task, k_tasks s !! t = Some task /\ task_set_ready t s = Done tt s' /\
    sched_step s s' /\ sched_inv s' (a_set_ready t v) /\
    k_tasks s' = <[t := set_t_state TASK_READY task]> (k_tasks s).
Proof.
  intros Hi Hl Hid Hnin. pose proof Hl as (Hpos & Hn & _ & _ & task & Ht & _).
  assert (run_node t ∉ run_node <$> v_ready v) as Hr by (rewrite run_node_fmap_in; set_solver).
  assert (run_node t <> 0) as Hz by (unfold run_node, RUN_NODE_OFF; lia).
  destruct (list_insert_back_spec _ _ _ _ (si_ready s v Hi) Hr Hz Hn) as (h & l & E & Hdl & Htch).
  change ([run_node t]) with (run_node <$> [t]) in Hdl, Htch. rewrite <- fmap_app in Hdl, Htch.
  eexists _, task. split; [done|]. split.
  { unfold task_set_ready. rewrite (proj2 (Z.eqb_neq t idle_task)) by done. kred. erewrite run_on_list by exact E. kred.
    by erewrite upd_task_run. }
  assert (sched_step s (set_k_tasks (<[t:=set_t_state TASK_READY task]> (k_tasks s))
            (set_k_tm (set_ready_list l (k_tm s)) (set_k_nodes h s)))) as Hst.
  { eapply (touches_run_step s _ h (v_ready v ++ [t]) (set_ready_list l (k_tm s))
              (<[t:=set_t_state TASK_READY task]> (k_tasks s))); try done; [|by eapply core_insert].
    intros x [Hx| ->%list_elem_of_singleton]%elem_of_app; apply live_dom; [|done].
    apply (in_queue_live s v); [done | set_solver]. }
  split; [exact Hst|]. split; [|done].
  eapply sched_inv_step; [exact Hi | exact Hst | exact (si_curr s v Hi) | exact Hdl | | | | |].
  - eapply other_queue; [exact Htch | | exact (si_sleep s v Hi)].
    intros x Hx [Hy| ->%list_elem_of_singleton]%elem_of_app; [|set_solver].
    pose proof (si_nodup s v Hi) as (_ & Hd & _)%NoDup_app. by apply (Hd x).
  - simpl. rewrite <- app_assoc. simpl. apply nodup_middle. split; [done | exact (si_nodup s v Hi)].
  - pose proof (si_idle s v Hi). set_solver.
  - intros x Hx. destruct (decide (x = t)) as [->|]; [done|].
    apply (in_queue_live s v); [done|]. set_solver.
  - intros x n Hx. pose proof (si_ticks s v Hi x n Hx) as [Hp Hk]. split; [done|]. simpl.
    rewrite lookup_insert_ne; [done|]. intros <-. apply Hnin, elem_of_app. right.
    by apply (list_elem_of_fmap_2 fst) in Hx.
Qed.

(** Removing a task from the queue it is in. *)
Lemma queue_remove s l (q : list Z) t :
  dlist (k_nodes s) l (run_node <$> q) -> t ∈ q ->
  exists a b h l', q = a ++ t :: b /\
    list_remove (k_nodes s) l (run_node t) = Some (run_node t, h, l') /\
    dlist h l' (run_node <$> a ++ b) /\ touches (run_node <$> q) (k_nodes s) h.
Proof.
  intros Hd (a & b & ->)%list_elem_of_split.
  rewrite fmap_app, fmap_cons in Hd. apply list_remove_spec in Hd as (h & l' & E & Hd & _ & Ht).
  exists a, b, h, l'. rewrite !fmap_app, fmap_cons. done.
Qed.

Lemma queue_ready_ne_idle s v t : sched_inv s v -> t ∈ v_ready v ++ (v_sleep v).*1 -> t <> idle_task.
Proof. intros Hi Ht ->. by apply (si_idle s v Hi). Qed.

Lemma task_set_blocked_run s v t :
  sched_inv s v -> t ∈ v_ready v ->
  exists s', task_set_blocked t s = Done tt s' /\ sched_step s s' /\
    sched_inv s' (a_set_blocked t v) /\ k_tasks s' = k_tasks s.
Proof.
  intros Hi Hin.
  destruct (queue_remove s _ _ t (si_ready s v Hi) Hin) as (a & b & h & l & Hq & E & Hdl & Htch).
  assert (t <> idle_task) as Hid by (apply (queue_ready_ne_idle s v); [done | set_solver]).
  eexists. split.
  { unfold task_set_blocked. rewrite (proj2 (Z.eqb_neq t idle_task)) by done. kred. rewrite E. kred. done. }
  match goal with |- sched_step _ ?x /\ _ => assert (sched_step s x) as Hst end.
  { eapply (touches_run_step s _ h (v_ready v) (set_ready_list l (k_tm s)) (k_tasks s)); try done.
    intros x Hx. apply live_dom, (in_queue_live s v); [done | set_solver]. }
  split; [exact Hst|]. split; [|done].
  pose proof (si_nodup s v Hi) as Hnd. rewrite Hq, <- app_assoc in Hnd. simpl in Hnd.
  assert (v_ready (a_set_blocked t v) = a ++ b) as Hab.
  { simpl. rewrite Hq. apply filter_ne_middle. rewrite app_comm_cons, app_assoc in Hnd.
    by apply NoDup_app in Hnd as [? _]. }
  apply nodup_middle in Hnd as [Htn Hnd]. rewrite app_assoc in Hnd.
  assert (a ++ b ⊆ v_ready v) as Hsub by (rewrite Hq; set_solver).
  eapply sched_inv_step; [exact Hi | exact Hst | exact (si_curr s v Hi) | by rewrite Hab | | | | |]; rewrite ?Hab; simpl.
  - eapply other_queue; [exact Htch | | exact (si_sleep s v Hi)].
    intros x Hx Hy. pose proof (si_nodup s v Hi) as (_ & Hd & _)%NoDup_app. by apply (Hd x).
  - exact Hnd.
  - pose proof (si_idle s v Hi). set_solver.
  - intros x Hx. apply (in_queue_live s v); [done | set_solver].
  - exact (si_ticks s v Hi).
Qed.

Lemma task_next_run_run s v :
  sched_inv s v -> task_next_run s = Done (a_next v) s.
Proof.
  intros Hi. unfold task_next_run. kred.
  pose proof (si_ready s v Hi) as Hd. rewrite (dlist_list_size _ _ _ Hd), (dlist_list_first _ _ _ Hd).
  unfold a_next. destruct (v_ready v) as [|t r] eqn:E; simpl; [done|].
  rewrite parent_run_node; [done|]. eapply live_pos, (in_queue_live s v); [done | rewrite E; set_solver].
Qed.

(** [task_dispatch] when the head of the ready queue is running already. *)
Lemma task_dispatch_stay s v :
  sched_inv s v -> a_next v = v_curr v -> task_dispatch s = Done tt s.
Proof.
  intros Hi Hn. unfold task_dispatch.
  assert (sched_inv (set_k_if false s) v) as Hi' by (destruct Hi; by split).
  kred. rewrite (task_next_run_run _ v) by done. kred.
  rewrite (si_curr s v Hi), Hn, Z.eqb_refl. kred. by destruct s.
Qed.

(** A state in which only the CPU's registers differ. *)
Lemma sched_inv_regs s v b c r :
  sched_inv s v -> sched_inv (set_k_if b (set_k_cr3 c (set_k_tr r s))) v.
Proof. intros []. by split. Qed.

(** [task_dispatch] when another task is next: it runs from here on, in its
    address space; the caller continues with its interrupt flag restored. *)
Lemma task_dispatch_switch s v :
  sched_inv s v -> a_next v <> v_curr v ->
  exists s1 task, k_tasks s !! a_next v = Some task /\
    task_dispatch s =
      Susp (set_k_if (Z.testbit (tss_eflags (t_tss task)) 9)
              (set_k_cr3 (tss_cr3 (t_tss task)) (set_k_tr (t_tss_sel task) (set_k_if false s1))))
           (fun s2 => Done tt (set_k_if (k_if s) s2)) /\
    sched_step s s1 /\ sched_inv s1 (a_dispatch v) /\
    k_tasks s1 = <[a_next v := set_t_state TASK_RUNNING task]> (k_tasks s).
Proof.
  intros Hi Hn. set (t := a_next v) in *.
  assert (live s t) as Hl.
  { unfold t, a_next. destruct (v_ready v) as [|x r] eqn:E; simpl; [apply (si_live s v Hi); by left|].
    apply (in_queue_live s v); [done | rewrite E; set_solver]. }
  pose proof Hl as (_ & _ & _ & _ & task & Ht & Ho).
  set (s1 := set_k_tasks (<[t := set_t_state TASK_RUNNING task]> (k_tasks s)) (set_k_tm (set_curr_task t (k_tm s)) s)).
  assert (sched_step s s1) as Hst.
  { exists (set_curr_task t (k_tm s)), (k_nodes s), (<[t := set_t_state TASK_RUNNING task]> (k_tasks s)).
    split_and!; try done. by eapply core_insert. }
  exists s1, task. split; [done|]. split; [|split; [exact Hst|split; [|done]]].
  - assert (sched_inv (set_k_if false s) v) as Hi' by (destruct Hi; by split).
    unfold task_dispatch. kred. rewrite (task_next_run_run _ v) by done. kred.
    rewrite (si_curr s v Hi), (proj2 (Z.eqb_neq (a_next v) (v_curr v))) by done.
    unfold task_current, task_switch_from_to. kred. erewrite upd_task_run by exact Ht. kred.
    erewrite get_task_run by apply lookup_insert_eq. kred. unfold swtch_to_tss, far_jump_tss. simpl.
    pose proof (sched_step_live _ _ _ Hst Hl) as (_ & _ & _ & _ & task' & Ht' & Ho').
    unfold s1 in Ht'; simpl in Ht'. rewrite lookup_insert_eq in Ht'. injection Ht' as <-.
    fold t in Ho' |- *. unfold tss_owner in *. simpl in *.
    destruct (k_gdt s !! _) as [d|]; simpl in *; [|done].
    destruct (<[t:=_]> (k_tasks s) !! (desc_base d - TSS_OFF)) as [t'|] eqn:Et; simpl in *; [|done].
    injection Ho' as Hb. rewrite Hb, lookup_insert_eq in Et. injection Et as <-. done.
  - eapply sched_inv_step; [exact Hi | exact Hst | done | exact (si_ready s v Hi) | exact (si_sleep s v Hi)
      | exact (si_nodup s v Hi) | exact (si_idle s v Hi) | intros x Hx; by apply (in_queue_live s v) |].
    intros x n Hx. pose proof (si_ticks s v Hi x n Hx) as [Hp Hk]. split; [done|]. unfold s1; simpl.
    destruct (decide (t = x)) as [<-|]; [|by rewrite lookup_insert_ne].
    rewrite Ht in Hk. by rewrite lookup_insert_eq.
Qed.

(** ** Rescheduling

    The effect of an operation that ends in [task_dispatch]: the queues go from
    [v] to [v'] and either the same task goes on and gets the result [a], or the
    CPU is in the address space of the new one, marked running, and the caller
    will get [a] with its interrupt flag restored when it is resumed. *)
Definition enter_task (task : task_t) (s : kst) : kst :=
  set_k_if (Z.testbit (tss_eflags (t_tss task)) 9)
    (set_k_cr3 (tss_cr3 (t_tss task)) (set_k_tr (t_tss_sel task) s)).

Definition resched {A} (s : kst) (a : A) (v v' : sview) (o : outcome A) : Prop :=
  exists s1, sched_step s s1 /\ sched_inv s1 v' /\
    ((v_curr v' = v_curr v /\ o = Done a s1) \/
     (v_curr v' <> v_curr v /\ exists task,
        k_tasks s1 !! v_curr v' = Some task /\ t_state task = TASK_RUNNING /\
        o = Susp (enter_task task s1) (fun s2 => Done a (set_k_if (k_if s) s2)))).

Lemma sched_step_if s s1 b : sched_step (set_k_if b s) s1 -> sched_step s (set_k_if (k_if s) s1).
Proof.
  intros (tm & h & ts & -> & Hr). exists tm, h, ts. split; [by destruct s | exact Hr].
Qed.

Lemma sched_inv_if s v b : sched_inv s v -> sched_inv (set_k_if b s) v.
Proof. intros []. by split. Qed.

Lemma task_dispatch_resched s v :
  sched_inv s v -> resched s tt v (a_dispatch v) (task_dispatch s).
Proof.
  intros Hi. destruct (decide (a_next v = v_curr v)) as [E|E].
  - exists s. split_and!; [done | | left; split; [done | by eapply task_dispatch_stay]].
    destruct v. unfold a_dispatch. simpl in *. by rewrite E.
  - destruct (task_dispatch_switch s v Hi E) as (s1 & task & Ht & Eo & Hs & Hi1 & Hk).
    exists s1. split_and!; [done | done |]. right. split; [done|].
    exists (set_t_state TASK_RUNNING task). rewrite Hk. simpl. split_and!; [apply lookup_insert_eq | done |].
    rewrite Eo. done.
Qed.

(** Steps before the dispatch. *)
Lemma resched_after {A} s s1 (a : A) v v1 v' o :
  sched_step s s1 -> v_curr v1 = v_curr v -> resched s1 a v1 v' o -> resched s a v v' o.
Proof.
  intros Hs Hc (s2 & H2 & Hi & Ho). exists s2. rewrite Hc in Ho.
  pose proof Hs as (tm & h & ts & E & _). rewrite E in Ho. simpl in Ho.
  split_and!; [by etrans | done | exact Ho].
Qed.

(** The critical section around it. *)
Lemma resched_protect {A B} s (a : A) (b : B) v v' o :
  resched (set_k_if false s) a v v' o ->
  resched s b v v' (obind (fun _ s2 => Done b (set_k_if (k_if s) s2)) o).
Proof.
  intros (s1 & Hs & Hi & Ho). exists (set_k_if (k_if s) s1).
  split_and!; [by eapply sched_step_if | by apply sched_inv_if |].
  destruct Ho as [[Hc ->]|[Hc (task & Ht & Hst & ->)]]; [by left|].
  right. split; [done|]. exists task. done.
Qed.

Lemma a_set_blocked_not_in t v : t ∉ v_ready (a_set_blocked t v).
Proof. simpl. rewrite list_elem_of_filter. naive_solver. Qed.

(** Moving the running task to the tail of the ready queue. *)
Lemma task_rotate_run s v t :
  sched_inv s v -> t ∈ v_ready v ->
  exists s1 s2 task, task_set_blocked t s = Done tt s1 /\ task_set_ready t s1 = Done tt s2 /\
    sched_step s s2 /\ sched_inv s2 (a_rotate t v) /\
    k_tasks s !! t = Some task /\ k_tasks s2 = <[t := set_t_state TASK_READY task]> (k_tasks s).
Proof.
  intros Hi Hin.
  assert (t ∈ v_ready v ++ (v_sleep v).*1) as Hq by set_solver.
  destruct (task_set_blocked_run s v t Hi Hin) as (s1 & E1 & Hs1 & Hi1 & Hk1).
  assert (live s1 t) as Hl by (eapply sched_step_live; [exact Hs1 | by apply (in_queue_live s v)]).
  destruct (task_set_ready_run s1 _ t Hi1 Hl) as (s2 & task & Ht & E2 & Hs2 & Hi2 & Hk2).
  - by apply (queue_ready_ne_idle s v).
  - intros [Hr|Hr]%elem_of_app; [by apply a_set_blocked_not_in in Hr|]. simpl in Hr.
    pose proof (si_nodup s v Hi) as (_ & Hd & _)%NoDup_app. by apply (Hd t).
  - exists s1, s2, task. rewrite Hk1 in *. split_and!; try done. by etrans.
Qed.

(** *** Yielding *)
Lemma sys_sched_yield_resched s v :
  sched_inv s v -> v_curr v ∈ v_ready v ->
  resched s 0 v (a_yield v) (sys_sched_yield s).
Proof.
  intros Hi Hc. unfold sys_sched_yield.
  assert (sched_inv (set_k_if false s) v) as Hi0 by (by apply sched_inv_if).
  kred. rewrite (dlist_list_size _ _ _ (si_ready s v Hi)), length_fmap.
  unfold a_yield. rewrite Z.gtb_ltb.
  destruct (Nat.ltb_spec 1 (length (v_ready v))) as [Hlt|Hge].
  - rewrite (proj2 (Z.ltb_lt _ _)) by lia. unfold task_current. kred.
    rewrite (si_curr s v Hi).
    destruct (task_rotate_run _ v (v_curr v) Hi0 Hc) as (s1 & s2 & task & E1 & E2 & Hs & Hi2 & _).
    rewrite E1. kred. rewrite E2. kred.
    apply (resched_protect s tt). eapply resched_after; [exact Hs | | by apply task_dispatch_resched]. done.
  - rewrite (proj2 (Z.ltb_ge _ _)) by lia. kred.
    exists s. split_and!; [done | done | left; split; [done | by destruct s]].
Qed.

(** *** The walk of the sleep queue *)

(** Updating a sleeper's count, when it stays positive. *)
Lemma sleeper_update s v a t n b task n' :
  sched_inv s v -> v_sleep v = a ++ (t, n) :: b -> k_tasks s !! t = Some task -> 0 < n' < 2 ^ 31 ->
  sched_inv (set_k_tasks (<[t := set_t_sleep_ticks n' task]> (k_tasks s)) s)
    (SView (v_curr v) (v_ready v) (a ++ (t, n') :: b)).
Proof.
  intros Hi Hq Ht Hn'.
  assert ((v_sleep v).*1 = (a ++ (t, n') :: b).*1) as Hf by (rewrite Hq, !fmap_app; done).
  eapply sched_inv_step; [exact Hi | by apply (task_step s t task (set_t_sleep_ticks n'))
    | exact (si_curr s v Hi) | exact (si_ready s v Hi) | | | | |]; simpl; rewrite <- ?Hf.
  - exact (si_sleep s v Hi).
  - exact (si_nodup s v Hi).
  - exact (si_idle s v Hi).
  - intros x Hx. by apply (in_queue_live s v).
  - intros x m Hx.
    pose proof (si_nodup s v Hi) as (_ & _ & Hnd)%NoDup_app. rewrite Hq, fmap_app, fmap_cons in Hnd.
    simpl in Hnd. apply nodup_middle in Hnd as [Hnd _]. rewrite <- fmap_app in Hnd.
    apply elem_of_app in Hx. rewrite elem_of_cons in Hx.
    destruct (decide (t = x)) as [<-|Hne].
    + rewrite lookup_insert_eq. assert (m = n') as ->; [|done].
      destruct Hx as [Hx|[Hx|Hx]]; [| by injection Hx |]; exfalso; apply Hnd;
        apply (list_elem_of_fmap_2 fst _ (t, m)); set_solver.
    + rewrite lookup_insert_ne by done. apply (si_ticks s v Hi). rewrite Hq.
      destruct Hx as [Hx|[Hx|Hx]]; [set_solver | congruence | set_solver].
Qed.

(** Waking a task, whose count was changed by the caller already. *)
Lemma task_set_wakeup_run s v a t n b task f :
  sched_inv s v -> v_sleep v = a ++ (t, n) :: b -> k_tasks s !! t = Some task ->
  (forall x, task_core (f x) = task_core x) ->
  let s0 := set_k_tasks (<[t := f task]> (k_tasks s)) s in
  exists s', task_set_wakeup t s0 = Done tt s' /\ sched_step s s' /\
    sched_inv s' (SView (v_curr v) (v_ready v) (a ++ b)) /\ k_tasks s' = k_tasks s0.
Proof.
  intros Hi Hq Ht Hf s0.
  pose proof (si_sleep s v Hi) as Hd. rewrite Hq, fmap_app, fmap_cons in Hd. simpl in Hd.
  rewrite fmap_app, fmap_cons in Hd. apply list_remove_spec in Hd as (h & l & E & Hdl & _ & Htch).
  eexists. split.
  { unfold task_set_wakeup, s0. kred. rewrite E. kred. done. }
  match goal with |- sched_step _ ?x /\ _ => assert (sched_step s x) as Hst end.
  { eapply (touches_run_step s _ h ((v_sleep v).*1) (set_sleep_list l (k_tm s)) (<[t := f task]> (k_tasks s)));
      try done; [| | by eapply core_insert].
    - rewrite Hq, !fmap_app, !fmap_cons. done.
    - intros x Hx. apply live_dom, (in_queue_live s v); [done | set_solver]. }
  split; [exact Hst|]. split; [|done].
  pose proof (si_nodup s v Hi) as Hnd. rewrite Hq, fmap_app, fmap_cons in Hnd. simpl in Hnd.
  rewrite app_assoc in Hnd. apply nodup_middle in Hnd as [Htn Hnd].
  rewrite <- app_assoc, <- fmap_app in Hnd, Htn.
  assert ((a ++ b).*1 ⊆ (v_sleep v).*1) as Hsub by (rewrite Hq, !fmap_app; set_solver).
  eapply sched_inv_step; [exact Hi | exact Hst | exact (si_curr s v Hi) | | | | | |]; simpl.
  - eapply (other_queue s h ((v_sleep v).*1)); [| | exact (si_ready s v Hi)].
    + rewrite Hq, !fmap_app, !fmap_cons. done.
    + intros x Hx Hy. pose proof (si_nodup s v Hi) as (_ & Hdj & _)%NoDup_app. by apply (Hdj x).
  - by rewrite fmap_app, fmap_app.
  - exact Hnd.
  - pose proof (si_idle s v Hi). set_solver.
  - intros x Hx. apply (in_queue_live s v); [done|]. set_solver.
  - intros x m Hx. rewrite lookup_insert_ne.
    + apply (si_ticks s v Hi). rewrite Hq. set_solver.
    + intros <-. apply Htn, elem_of_app. right. by apply (list_elem_of_fmap_2 fst _ (t, m)).
Qed.

Lemma t_sleep_ticks_set n t : t_sleep_ticks (set_t_sleep_ticks n t) = n.
Proof. done. Qed.

(** One round of the loop. *)
Lemma tick_sleepers_run rest : forall fuel dn s v,
  (length rest <= fuel)%nat -> sched_inv s v -> v_sleep v = dn ++ rest ->
  exists s', tick_sleepers fuel (hd 0 (run_node <$> rest.*1)) s = Done tt s' /\ sched_step s s' /\
    sched_inv s' (SView (v_curr v) (v_ready v ++ a_awake rest) (dn ++ a_asleep rest)).
Proof.
  induction rest as [|[t n] rest IH]; intros fuel dn s v Hf Hi Hq.
  { exists s. split_and!; [by destruct fuel | done|].
    unfold a_awake, a_asleep. simpl. rewrite app_nil_r, <- Hq. by destruct v. }
  destruct fuel as [|fuel]; simpl in Hf; [lia|].
  assert (live s t) as Hl.
  { apply (in_queue_live s v); [done|]. rewrite Hq, fmap_app. set_solver. }
  pose proof (live_pos s t Hl) as Hpos.
  pose proof Hl as (_ & _ & _ & _ & task & Ht & _).
  assert (Hin : (t, n) ∈ v_sleep v) by (rewrite Hq; set_solver).
  destruct (si_ticks s v Hi t n Hin) as [Hn Htk]. rewrite Ht in Htk. simpl in Htk. injection Htk as Htk.
  simpl. rewrite (proj2 (Z.eqb_neq (run_node t) 0)) by (unfold run_node, RUN_NODE_OFF; lia). kred.
  pose proof (si_sleep s v Hi) as Hd. rewrite Hq, fmap_app, fmap_cons, fmap_app, fmap_cons in Hd.
  erewrite dlist_next by exact Hd. kred. rewrite parent_run_node by done.
  erewrite upd_task_run by exact Ht. kred. erewrite get_task_run by apply lookup_insert_eq. kred.
  rewrite Htk, i32_small, t_sleep_ticks_set by lia.
  destruct (Z.eqb_spec (n - 1) 0) as [E|E].
  - (* this one wakes up *)
    destruct (task_set_wakeup_run s v dn t n rest task (fun x => set_t_sleep_ticks (n - 1) x))
      as (s1 & E1 & Hs1 & Hi1 & Hk1); try done.
    simpl in E1. kred. rewrite E1. kred.
    assert (t ∉ v_ready v ++ (dn ++ rest).*1) as Hnq.
    { pose proof (si_nodup s v Hi) as Hnd. rewrite Hq, fmap_app, fmap_cons, app_assoc in Hnd.
      apply nodup_middle in Hnd as [Hnd _]. by rewrite <- app_assoc, <- fmap_app in Hnd. }
    destruct (task_set_ready_run s1 _ t Hi1) as (s2 & task2 & _ & E2 & Hs2 & Hi2 & _);
      [by eapply sched_step_live | apply (queue_ready_ne_idle s v); [done|]; rewrite Hq, fmap_app; set_solver | done |].
    rewrite E2. kred.
    destruct (IH fuel dn s2 _ ltac:(lia) Hi2 eq_refl) as (s3 & E3 & Hs3 & Hi3).
    exists s3. split_and!; [exact E3 | by do 2 (etrans; [eassumption|]) |].
    simpl in Hi3. unfold a_awake, a_asleep in *.
    rewrite (filter_cons_True _ (t, n) rest) by (simpl; lia).
    rewrite (filter_cons_False _ (t, n) rest) by (simpl; lia).
    rewrite <- app_assoc in Hi3. exact Hi3.
  - (* this one goes on sleeping *)
    kred. pose proof (sleeper_update s v dn t n rest task (n - 1) Hi Hq Ht ltac:(lia)) as Hi1.
    destruct (IH fuel (dn ++ [(t, n - 1)]) _ _ ltac:(lia) Hi1) as (s3 & E3 & Hs3 & Hi3);
      [simpl; by rewrite <- app_assoc|].
    exists s3. split_and!; [exact E3 | |].
    + etrans; [|exact Hs3]. by apply (task_step s t task (set_t_sleep_ticks (n - 1))).
    + simpl in Hi3. unfold a_awake, a_asleep in *.
      rewrite (filter_cons_False _ (t, n) rest) by (simpl; lia).
      rewrite (filter_cons_True _ (t, n) rest) by (simpl; lia).
      rewrite <- app_assoc in Hi3. exact Hi3.
Qed.

(** *** The timer tick *)
Lemma t_slice_ticks_set n t : t_slice_ticks (set_t_slice_ticks n t) = n.
Proof. done. Qed.

Lemma tick_rest_resched s v :
  sched_inv s v -> resched s tt v (a_dispatch (a_tick_sleepers v)) (tick_rest s).
Proof.
  intros Hi. unfold tick_rest. kred.
  pose proof (si_sleep s v Hi) as Hd.
  rewrite (dlist_list_size _ _ _ Hd), (dlist_list_first _ _ _ Hd), Nat2Z.id, !length_fmap.
  destruct (tick_sleepers_run (v_sleep v) (length (v_sleep v)) [] s v) as (s1 & E & Hs & Hi1); try done.
  rewrite E. kred. eapply resched_after; [exact Hs | | by apply task_dispatch_resched]. done.
Qed.

(** Changing a field of the running task the queues do not depend on. *)
Lemma sched_inv_upd s v t task f :
  sched_inv s v -> k_tasks s !! t = Some task -> (forall x, task_core (f x) = task_core x) ->
  (forall x, t_sleep_ticks (f x) = t_sleep_ticks x) ->
  sched_inv (set_k_tasks (<[t := f task]> (k_tasks s)) s) v.
Proof.
  intros Hi Ht Hf Hsl.
  eapply sched_inv_step; [exact Hi | by apply task_step | exact (si_curr s v Hi) | exact (si_ready s v Hi)
    | exact (si_sleep s v Hi) | exact (si_nodup s v Hi) | exact (si_idle s v Hi)
    | intros x Hx; by apply (in_queue_live s v) |].
  intros x n Hx. pose proof (si_ticks s v Hi x n Hx) as [? Hk]. split; [done|]. simpl.
  destruct (decide (t = x)) as [<-|]; [|by rewrite lookup_insert_ne].
  rewrite lookup_insert_eq. rewrite Ht in Hk. simpl in *. by rewrite Hsl.
Qed.

(** The running task is in the ready queue, or it is the idle task. *)
Lemma curr_live s v :
  sched_inv s v -> v_curr v = a_next v ->
  exists task, k_tasks s !! v_curr v = Some task /\ (v_curr v ∈ v_ready v \/ v_curr v = idle_task).
Proof.
  intros Hi Hv. assert (v_curr v ∈ v_ready v \/ v_curr v = idle_task) as Hc.
  { rewrite Hv. unfold a_next. destruct (v_ready v); [by right | left; by left]. }
  destruct (si_live s v Hi (v_curr v)) as (_ & _ & _ & _ & task & Ht & _); [|by exists task].
  destruct Hc as [Hc| ->]; [right; apply elem_of_app; by left | by left].
Qed.

(** The slice goes on: one tick for every sleeper, then the dispatcher. *)
Lemma task_time_tick_slice s v task :
  sched_inv s v -> k_tasks s !! v_curr v = Some task -> i32 (t_slice_ticks task - 1) <> 0 ->
  resched s tt v (a_dispatch (a_tick_sleepers v)) (task_time_tick s).
Proof.
  intros Hi Ht Hsl. unfold task_time_tick, task_current. kred. rewrite (si_curr s v Hi).
  erewrite upd_task_run by exact Ht. kred. erewrite get_task_run by apply lookup_insert_eq. kred.
  rewrite (proj2 (Z.eqb_neq _ _)) by exact Hsl. kred.
  pose proof (sched_inv_upd s v (v_curr v) task (fun x => set_t_slice_ticks (i32 (t_slice_ticks x - 1)) x)
                Hi Ht ltac:(done) ltac:(done)) as Hi1.
  eapply resched_after; [| | apply tick_rest_resched, Hi1]; [by apply task_step | done].
Qed.

(** The slice is over: the running task goes to the tail, the idle task stays where it is,
    and the dispatcher is called before the sleep queue is looked at. *)
Lemma task_time_tick_end s v task :
  sched_inv s v -> k_tasks s !! v_curr v = Some task -> i32 (t_slice_ticks task - 1) = 0 ->
  v_curr v ∈ v_ready v \/ v_curr v = idle_task ->
  exists s1, sched_step s s1 /\ sched_inv s1 (a_slice_end v) /\
    task_time_tick s = obind (fun _ => tick_rest) (task_dispatch s1).
Proof.
  intros Hi Ht Hsl Hc. unfold task_time_tick, task_current. kred. rewrite (si_curr s v Hi).
  erewrite upd_task_run by exact Ht. kred. erewrite get_task_run by apply lookup_insert_eq. kred.
  rewrite t_slice_ticks_set, Hsl. change (0 =? 0) with true. cbn iota. kred.
  erewrite upd_task_run by apply lookup_insert_eq. kred. rewrite insert_insert_eq.
  pose proof (sched_inv_upd s v (v_curr v) task
     (fun x => set_t_slice_ticks (t_time_ticks x) (set_t_slice_ticks 0 x))
                Hi Ht ltac:(done) ltac:(done)) as Hi1.
  pose proof (task_step s (v_curr v) task (fun x => set_t_slice_ticks (t_time_ticks x) (set_t_slice_ticks 0 x))
                Ht ltac:(done)) as Hs1.
  unfold a_slice_end. destruct (bool_decide_reflect (v_curr v ∈ v_ready v)) as [Hin|Hout].
  - destruct (task_rotate_run _ v (v_curr v) Hi1 Hin) as (s1 & s2 & task2 & E1 & E2 & Hs & Hi2 & _).
    match type of E1 with _ ?x = _ =>
      match goal with |- context [task_set_blocked (v_curr v) ?y] => change y with x end end.
    rewrite E1. kred. rewrite E2. kred. exists s2. split_and!; [|done|done].
    by etrans.
  - destruct Hc as [|Hid]; [done|]. unfold task_set_blocked, task_set_ready.
    rewrite (proj2 (Z.eqb_eq _ _) Hid). kred. eexists. split_and!; [exact Hs1 | exact Hi1 | reflexivity].
Qed.

(** Another task is next: the CPU is gone before the walk of the sleep queue, which is
    what is left to do when the task is resumed. *)
Lemma task_time_tick_switches s v task :
  sched_inv s v -> k_tasks s !! v_curr v = Some task -> i32 (t_slice_ticks task - 1) = 0 ->
  v_curr v ∈ v_ready v \/ v_curr v = idle_task -> a_next (a_slice_end v) <> v_curr v ->
  exists s1 to k, sched_step s s1 /\ sched_inv s1 (a_dispatch (a_slice_end v)) /\
    k_tasks s1 !! a_next (a_slice_end v) = Some to /\ t_state to = TASK_RUNNING /\
    task_time_tick s = Susp (enter_task to s1) k /\ forall s2, k s2 = tick_rest (set_k_if (k_if s) s2).
Proof.
  intros Hi Ht Hsl Hc Hnext.
  destruct (task_time_tick_end s v task Hi Ht Hsl Hc) as (s1 & Hs & Hi1 & ->).
  assert (v_curr (a_slice_end v) = v_curr v) as Ecur by (unfold a_slice_end; by destruct (bool_decide _)).
  destruct (task_dispatch_switch s1 _ Hi1) as (s2 & to & _ & E & Hs2 & Hi2 & Hk); [by rewrite Ecur|].
  rewrite E. kred. assert (k_if s1 = k_if s) as Eif by (by destruct Hs as (tm & h & ts & -> & _)).
  eexists s2, _, _. split_and!; [by etrans | exact Hi2 | rewrite Hk; apply lookup_insert_eq | | reflexivity |].
  - done.
  - intros s3. by rewrite Eif.
Qed.

Lemma a_slice_end_same v :
  v_curr v = a_next v -> NoDup (v_ready v) -> a_next (a_slice_end v) = v_curr v -> a_slice_end v = v.
Proof.
  intros Hv Hnd Hn. unfold a_slice_end in *. destruct (bool_decide_reflect (v_curr v ∈ v_ready v)) as [Hin|]; [|done].
  destruct v as [c [|x r] sl]; [by apply not_elem_of_nil in Hin|]. unfold a_next in Hv. simpl in Hv. subst c.
  unfold a_rotate, a_set_ready, a_set_blocked, a_next in *. cbn [v_curr v_ready v_sleep] in *.
  pose proof (filter_ne_middle x [] r Hnd) as Hf. simpl in Hf. rewrite Hf in *.
  destruct r as [|y r]; [done|]. simpl in Hn. subst y. by apply NoDup_cons in Hnd as [[]%not_elem_of_cons _].
Qed.

(** Whether this is the last tick of the running task's slice, and gives the CPU away. *)
Definition slice_over (s : kst) (v : sview) : bool :=
  match k_tasks s !! v_curr v with Some t => i32 (t_slice_ticks t - 1) =? 0 | None => false end.

Definition tick_preempts (s : kst) (v : sview) : bool :=
  slice_over s v && negb (a_next (a_slice_end v) =? v_curr v).

(** A tick that leaves the CPU to the running task, or takes it after the walk of the
    sleep queue. *)
Lemma task_time_tick_stays s v :
  sched_inv s v -> v_curr v = a_next v -> tick_preempts s v = false ->
  resched s tt v (a_dispatch (a_tick_sleepers v)) (task_time_tick s).
Proof.
  intros Hi Hv Hp. destruct (curr_live s v Hi Hv) as (task & Ht & Hc).
  unfold tick_preempts, slice_over in Hp. rewrite Ht in Hp.
  destruct (Z.eqb_spec (i32 (t_slice_ticks task - 1)) 0) as [Hsl|]; [|by apply (task_time_tick_slice s v task)].
  cbn [andb] in Hp. apply negb_false_iff, Z.eqb_eq in Hp.
  destruct (task_time_tick_end s v task Hi Ht Hsl Hc) as (s1 & Hs & Hi1 & ->).
  rewrite (a_slice_end_same v) in Hi1 by (done || by pose proof (si_nodup s v Hi) as (? & _)%NoDup_app).
  rewrite (task_dispatch_stay s1 v) by done. cbn [obind].
  eapply resched_after; [exact Hs | | by apply tick_rest_resched]. done.
Qed.

Lemma task_time_tick_preempts s v :
  sched_inv s v -> v_curr v = a_next v -> tick_preempts s v = true ->
  exists s1 to k, sched_step s s1 /\ sched_inv s1 (a_dispatch (a_slice_end v)) /\
    k_tasks s1 !! a_next (a_slice_end v) = Some to /\ t_state to = TASK_RUNNING /\
    task_time_tick s = Susp (enter_task to s1) k /\ forall s2, k s2 = tick_rest (set_k_if (k_if s) s2).
Proof.
  intros Hi Hv Hp. destruct (curr_live s v Hi Hv) as (task & Ht & Hc).
  unfold tick_preempts, slice_over in Hp. rewrite Ht in Hp.
  apply andb_prop in Hp as [Hsl%Z.eqb_eq Hne%negb_true_iff%Z.eqb_neq].
  by apply (task_time_tick_switches s v task).
Qed.

(** *** Sleeping *)
Lemma sleep_ticks_of_ms_range ms : 0 <= sleep_ticks_of_ms ms < 2 ^ 31.
Proof. unfold sleep_ticks_of_ms, OS_TICKS_MS. pose proof (u32_range (ms + (10 - 1))). zdiv. Qed.

Lemma task_set_sleep_run s v t ticks :
  sched_inv s v -> live s t -> t <> idle_task -> t ∉ v_ready v ++ (v_sleep v).*1 ->
  0 <= ticks < 2 ^ 31 ->
  exists s', task_set_sleep t ticks s = Done tt s' /\ sched_step s s' /\
    sched_inv s' (SView (v_curr v) (v_ready v)
                    (v_sleep v ++ if ticks =? 0 then [] else [(t, ticks)])).
Proof.
  intros Hi Hl Hid Hnin Htk. unfold task_set_sleep.
  destruct (Z.eqb_spec ticks 0) as [->|Hz].
  { exists s. split_and!; [done | done |]. rewrite app_nil_r. by destruct v. }
  pose proof Hl as (Hpos & Hn & _ & _ & task & Ht & _).
  assert (run_node t ∉ run_node <$> (v_sleep v).*1) as Hr by (rewrite run_node_fmap_in; set_solver).
  assert (run_node t <> 0) as Hnz by (unfold run_node, RUN_NODE_OFF; lia).
  destruct (list_insert_back_spec _ _ _ _ (si_sleep s v Hi) Hr Hnz Hn) as (h & l & E & Hdl & Htch).
  change ([run_node t]) with (run_node <$> [t]) in Hdl, Htch. rewrite <- fmap_app in Hdl, Htch.
  eexists. split.
  { kred. erewrite upd_task_run by exact Ht. kred. erewrite get_task_run by apply lookup_insert_eq. kred.
    erewrite run_on_list by exact E. kred. done. }
  match goal with |- sched_step _ ?x /\ _ => assert (sched_step s x) as Hst end.
  { eapply (touches_run_step s _ h ((v_sleep v).*1 ++ [t]) (set_sleep_list l (k_tm s))
              (<[t:=set_t_sleep_ticks ticks task]> (k_tasks s))); try done; [|by eapply core_insert].
    intros x [Hx| ->%list_elem_of_singleton]%elem_of_app; apply live_dom; [|done].
    apply (in_queue_live s v); [done | set_solver]. }
  split; [exact Hst|].
  assert ((v_sleep v ++ [(t, ticks)]).*1 = (v_sleep v).*1 ++ [t]) as Hf by by rewrite fmap_app.
  eapply sched_inv_step; [exact Hi | exact Hst | exact (si_curr s v Hi) | | | | | |]; cbn [v_ready v_sleep]; rewrite ?Hf.
  - eapply other_queue; [exact Htch | | exact (si_ready s v Hi)].
    intros x Hx [Hy| ->%list_elem_of_singleton]%elem_of_app; [|set_solver].
    pose proof (si_nodup s v Hi) as (_ & Hd & _)%NoDup_app. by apply (Hd x).
  - exact Hdl.
  - rewrite app_assoc. apply nodup_middle. rewrite app_nil_r. split; [done | exact (si_nodup s v Hi)].
  - pose proof (si_idle s v Hi). set_solver.
  - intros x Hx. destruct (decide (x = t)) as [->|]; [done|].
    apply (in_queue_live s v); [done|]. set_solver.
  - intros x n Hx. simpl. destruct (decide (t = x)) as [<-|Hne].
    + rewrite lookup_insert_eq. apply elem_of_app in Hx as [Hx|Hx%list_elem_of_singleton].
      * exfalso. apply Hnin, elem_of_app. right. by apply (list_elem_of_fmap_2 fst) in Hx.
      * injection Hx as ->. split; [lia | done].
    + rewrite lookup_insert_ne by done. apply (si_ticks s v Hi).
      apply elem_of_app in Hx as [Hx|Hx%list_elem_of_singleton]; [done | congruence].
Qed.

Lemma sys_sleep_resched s v ms :
  sched_inv s v -> v_curr v ∈ v_ready v ->
  resched s tt v (a_sleep (sleep_ticks_of_ms ms) v) (sys_sleep ms s).
Proof.
  intros Hi Hc. unfold sys_sleep. kred. rewrite (si_curr s v Hi).
  assert (sched_inv (set_k_if false s) v) as Hi0 by (by apply sched_inv_if).
  assert (v_curr v ∈ v_ready v ++ (v_sleep v).*1) as Hq by set_solver.
  destruct (task_set_blocked_run _ v (v_curr v) Hi0 Hc) as (s1 & E1 & Hs1 & Hi1 & Hk1).
  rewrite E1. kred. rewrite (si_curr _ _ Hi1). cbn [v_curr a_set_blocked].
  destruct (task_set_sleep_run s1 _ (v_curr v) (sleep_ticks_of_ms ms) Hi1) as (s2 & E2 & Hs2 & Hi2).
  - eapply sched_step_live; [exact Hs1|]. by apply (in_queue_live _ v).
  - by apply (queue_ready_ne_idle s v).
  - intros [Hr|Hr]%elem_of_app; [by apply a_set_blocked_not_in in Hr|]. simpl in Hr.
    pose proof (si_nodup s v Hi) as (_ & Hd & _)%NoDup_app. by apply (Hd (v_curr v)).
  - apply sleep_ticks_of_ms_range.
  - rewrite E2. kred. apply (resched_protect s tt).
    eapply resched_after; [by etrans | | by apply task_dispatch_resched]. done.
Qed.

(** *** Exit *)
Lemma sys_exit_resched s v status :
  sched_inv s v -> v_curr v ∈ v_ready v ->
  resched s 0 v (a_exit v) (sys_exit status s).
Proof.
  intros Hi Hc. unfold sys_exit, task_current. kred. rewrite (si_curr s v Hi).
  assert (sched_inv (set_k_if false s) v) as Hi0 by (by apply sched_inv_if).
  assert (v_curr v ∈ v_ready v ++ (v_sleep v).*1) as Hq by set_solver.
  pose proof (in_queue_live _ v _ Hi0 Hq) as (_ & _ & _ & _ & task & Ht & _).
  erewrite upd_task_run by exact Ht. kred.
  pose proof (sched_inv_upd _ v (v_curr v) task (set_t_state TASK_ZOMBIE) Hi0 Ht ltac:(done) ltac:(done)) as Hi1.
  destruct (task_set_blocked_run _ v (v_curr v) Hi1 Hc) as (s2 & E2 & Hs2 & Hi2 & _).
  simpl in E2 |- *. rewrite E2. kred. apply (resched_protect s tt).
  eapply resched_after; [etrans; [|exact Hs2] | | by apply task_dispatch_resched]; [|done].
  by apply (task_step (set_k_if false s)).
Qed.

(** * The scheduler as a whole

    The calls that reschedule; [CallTick] stands for [task_time_tick]. *)
Inductive sched_call := CallYield | CallSleep (ms : Z) | CallExit (status : Z) | CallTick.

Definition run_call (c : sched_call) : K Z :=
  match c with
  | CallYield => sys_sched_yield
  | CallSleep ms => sys_sleep ms;; mret 0
  | CallExit status => sys_exit status
  | CallTick => task_time_tick;; mret 0
  end.

Definition a_call (c : sched_call) (v : sview) : sview :=
  match c with
  | CallYield => a_yield v
  | CallSleep ms => a_sleep (sleep_ticks_of_ms ms) v
  | CallExit _ => a_exit v
  | CallTick => a_dispatch (a_tick_sleepers v)
  end.

(** When a call may be made: by a task that is ready; a tick at any time. *)
Definition call_ok (c : sched_call) (v : sview) : Prop :=
  match c with CallTick => True | _ => v_curr v ∈ v_ready v end.

(** The one call that gives the CPU away before it is done: the last tick of a slice, when
    another task is ready. *)
Definition preempts (c : sched_call) (s : kst) (v : sview) : bool :=
  match c with CallTick => tick_preempts s v | _ => false end.

(** The running task is the one the dispatcher would choose. *)
Definition dispatched (v : sview) : Prop := v_curr v = a_next v.

Lemma resched_return {A B} s (a : A) (b : B) v v' o :
  resched s a v v' o -> resched s b v v' (obind (fun _ => mret b) o).
Proof.
  intros (s1 & Hs & Hi & Ho). exists s1. split_and!; [done | done |].
  destruct Ho as [[Hc ->]|[Hc (task & Ht & Hst & ->)]]; [by left|].
  right. split; [done|]. by exists task.
Qed.

Lemma dispatched_call c v : dispatched v -> dispatched (a_call c v).
Proof.
  intros Hv. destruct c; try done. simpl. unfold a_yield. by destruct (_ <? _)%nat.
Qed.

(** Leaving the CPU keeps the queues. *)
Lemma resched_leaves {A} s (a : A) v v' o :
  resched s a v v' o -> exists s', leaves o = Some s' /\ sched_inv s' v'.
Proof.
  intros (s1 & _ & Hi & [[_ ->]|[_ (task & _ & _ & ->)]]); simpl; [by exists s1|].
  eexists; split; [done|]. by apply sched_inv_regs.
Qed.

(** ** Yielding in turn *)
Fixpoint yields (n : nat) (s : kst) : option kst :=
  match n with
  | O => Some s
  | S n => s' ← leaves (sys_sched_yield s); yields n s'
  end.

Lemma a_yield_rotates v x r :
  v_ready v = x :: r -> v_curr v = x -> NoDup (v_ready v) ->
  a_yield v = SView (hd x r) (r ++ [x]) (v_sleep v).
Proof.
  intros Hq Hx Hnd. unfold a_yield. rewrite Hq. destruct r as [|y r]; simpl.
  { destruct v; simpl in *; by subst. }
  unfold a_dispatch, a_rotate, a_set_ready, a_set_blocked, a_next; simpl. rewrite Hq, Hx in *.
  pose proof (filter_ne_middle x [] (y :: r) Hnd) as Hf. simpl in Hf. rewrite Hf. done.
Qed.

Lemma nth_rotate (x : Z) r n d :
  nth (S n mod length (x :: r)) (x :: r) d = nth (n mod length (r ++ [x])) (r ++ [x]) d.
Proof.
  rewrite length_app, Nat.add_1_r. cbn [length].
  pose proof (Nat.mod_upper_bound n (S (length r)) ltac:(lia)) as Hlt.
  destruct (decide (n mod S (length r) = length r)%nat) as [E|E].
  - assert (S n mod S (length r) = 0)%nat as ->.
    { rewrite <- Nat.add_1_r, <- Nat.Div0.add_mod_idemp_l, E, Nat.add_1_r. apply Nat.Div0.mod_same. }
    rewrite E, app_nth2, Nat.sub_diag by lia. done.
  - assert (S n mod S (length r) = S (n mod S (length r)))%nat as ->.
    { rewrite <- Nat.add_1_r, <- Nat.Div0.add_mod_idemp_l, Nat.add_1_r. apply Nat.mod_small. lia. }
    cbn [nth]. rewrite app_nth1; [done|lia].
Qed.

Lemma yields_run n : forall s v,
  sched_inv s v -> dispatched v -> v_curr v ∈ v_ready v ->
  exists s', yields n s = Some s' /\
    curr_task (k_tm s') = nth (n mod length (v_ready v)) (v_ready v) idle_task.
Proof.
  induction n as [|n IH]; intros s v Hi Hv Hc.
  { exists s. split; [done|]. rewrite (si_curr s v Hi), Hv. unfold a_next.
    rewrite Nat.Div0.mod_0_l. by destruct (v_ready v). }
  destruct (resched_leaves _ _ _ _ _ (sys_sched_yield_resched s v Hi Hc)) as (s1 & E & Hi1).
  pose proof (si_nodup s v Hi) as (Hnd & _)%NoDup_app.
  unfold dispatched, a_next in Hv. destruct (v_ready v) as [|x r] eqn:Eq; [set_solver|]. simpl in Hv.
  pose proof (a_yield_rotates v x r Eq Hv ltac:(by rewrite Eq)) as Ey. rewrite Ey in Hi1.
  destruct (IH s1 _ Hi1) as (s2 & E2 & Ec); cbn [v_ready v_curr] in *.
  - unfold dispatched, a_next. simpl. by destruct r.
  - destruct r; simpl; set_solver.
  - exists s2. split; [simpl; by rewrite E|]. rewrite Ec. symmetry. apply nth_rotate.
Qed.

(** ** Sleeping *)
Fixpoint walks (n : nat) (s : kst) : option kst :=
  match n with
  | O => Some s
  | S n => s' ← leaves (tick_rest s); walks n s'
  end.

Lemma walks_run k : forall s v t n,
  sched_inv s v -> (t, n) ∈ v_sleep v ->
  exists s' v', walks k s = Some s' /\ sched_inv s' v' /\
    (Z.of_nat k < n -> (t, n - Z.of_nat k) ∈ v_sleep v') /\
    (n <= Z.of_nat k -> t ∈ v_ready v').
Proof.
  assert (forall k s v t, sched_inv s v -> t ∈ v_ready v ->
    exists s' v', walks k s = Some s' /\ sched_inv s' v' /\ t ∈ v_ready v') as Hstay.
  { clear k. induction k as [|k IH]; intros s v t Hi Ht; [by exists s, v|].
    destruct (resched_leaves _ _ _ _ _ (tick_rest_resched s v Hi)) as (s1 & E & Hi1).
    destruct (IH s1 _ t Hi1) as (s' & v' & E' & ? & ?); [simpl; set_solver|].
    exists s', v'. split_and!; [|done|done]. simpl. by rewrite E. }
  induction k as [|k IH]; intros s v t n Hi Ht.
  { exists s, v. split_and!; [done | done | by rewrite Z.sub_0_r |].
    pose proof (si_ticks s v Hi t n Ht) as [? _]. lia. }
  destruct (resched_leaves _ _ _ _ _ (tick_rest_resched s v Hi)) as (s1 & E & Hi1).
  pose proof (si_ticks s v Hi t n Ht) as [Hn _].
  destruct (decide (n = 1)) as [->|Hn1].
  - destruct (Hstay k s1 _ t Hi1) as (s' & v' & E' & ? & ?).
    { simpl. apply elem_of_app. right. apply (list_elem_of_fmap_2 fst _ (t, 1)).
      by apply list_elem_of_filter. }
    exists s', v'. split_and!; [simpl; by rewrite E | done | lia | done].
  - destruct (IH s1 _ t (n - 1) Hi1) as (s' & v' & E' & Hi' & Hlt & Hge).
    { simpl. unfold a_asleep. apply (list_elem_of_fmap_2 (prod_map id (fun x => x - 1)) _ (t, n)).
      by apply list_elem_of_filter. }
    exists s', v'. split_and!; [simpl; by rewrite E | done | |].
    + intros. replace (n - Z.of_nat (S k)) with (n - 1 - Z.of_nat k) by lia. apply Hlt. lia.
    + intros. apply Hge. lia.
Qed.

(** * Properties *)

(** C4: every call of the scheduler that reschedules - a yield, a sleep, an exit, a timer
    tick - does to the queues what the abstract scheduler says.  Either the same task goes
    on, or the CPU is given to the head of the ready queue (the idle task when it is
    empty), marked running, in its own address space, and the caller resumes with its
    interrupt flag restored; afterwards the task the dispatcher would choose is the one
    that runs.  The last tick of a slice, when another task is ready, is done in two parts:
    first the running task goes to the tail and the CPU to the next task, and only when the
    preempted task is resumed, whatever the queues are by then, does it do to them what the
    abstract scheduler says of a tick. *)
Theorem scheduler_refines s v c :
  sched_inv s v -> dispatched v -> call_ok c v ->
  if preempts c s v then
    let v1 := a_dispatch (a_slice_end v) in
    exists s1 to k, sched_step s s1 /\ sched_inv s1 v1 /\ dispatched v1 /\ v_curr v1 <> v_curr v /\
      k_tasks s1 !! v_curr v1 = Some to /\ t_state to = TASK_RUNNING /\
      run_call c s = Susp (enter_task to s1) k /\
      forall s2 v2, sched_inv s2 v2 ->
        resched (set_k_if (k_if s) s2) 0 v2 (a_dispatch (a_tick_sleepers v2)) (k s2)
  else resched s 0 v (a_call c v) (run_call c s) /\ dispatched (a_call c v).
Proof.
  intros Hi Hv Hc. destruct (preempts c s v) eqn:Hp.
  - destruct c; try done. cbn zeta. destruct (task_time_tick_preempts s v Hi Hv Hp) as (s1 & to & k & Hs & Hi1 & Ht & Hst & E & Hk).
    cbn [run_call]. rewrite run_bind, E. cbn [obind]. exists s1, to. eexists. split_and!; try done.
    + unfold preempts, tick_preempts in Hp. by apply andb_prop in Hp as [_ ?%negb_true_iff%Z.eqb_neq].
    + intros s2 v2 Hi2. cbn beta. rewrite Hk. by eapply (resched_return _ tt), tick_rest_resched, sched_inv_if.
  - split; [|by apply dispatched_call]. destruct c; simpl in *.
    + by apply sys_sched_yield_resched.
    + by eapply (resched_return s tt), sys_sleep_resched.
    + by apply sys_exit_resched.
    + by eapply (resched_return s tt), task_time_tick_stays.
Qed.

(** C26: yielding is fair: when the ready tasks keep yielding, after [n] yields
    the task at position [n] modulo the length of the queue runs, so every ready
    task runs once in each round. *)
Theorem yield_round_robin s v n :
  sched_inv s v -> dispatched v -> v_curr v ∈ v_ready v ->
  exists s', yields n s = Some s' /\
    curr_task (k_tm s') = nth (n mod length (v_ready v)) (v_ready v) idle_task.
Proof. apply yields_run. Qed.

(** C27: a sleeping task with [n] ticks left is still asleep, with the right count,
    after fewer than [n] walks of the sleep queue, and ready from the [n]-th on. *)
Theorem sleeper_wakes_on_time s v t n k :
  sched_inv s v -> (t, n) ∈ v_sleep v ->
  exists s' v', walks k s = Some s' /\ sched_inv s' v' /\
    (Z.of_nat k < n -> (t, n - Z.of_nat k) ∈ v_sleep v') /\
    (n <= Z.of_nat k -> t ∈ v_ready v').
Proof. apply walks_run. Qed.

(** [sys_sleep(0)], and [sys_sleep] of 2^32 - 9 or more milliseconds (the
    rounding wraps around), take the caller out of the ready queue and put it
    nowhere: no tick will ever wake it. *)
Theorem sys_sleep_loses_task s v ms :
  sched_inv s v -> dispatched v -> v_curr v ∈ v_ready v ->
  ms = 0 \/ 2 ^ 32 - 9 <= ms < 2 ^ 32 ->
  exists v', resched s tt v v' (sys_sleep ms s) /\
    (v_curr v ∉ v_ready v' ++ (v_sleep v').*1) /\ v_curr v' <> v_curr v.
Proof.
  intros Hi Hv Hc Hms. exists (a_sleep 0 v).
  assert (sleep_ticks_of_ms ms = 0) as E.
  { unfold sleep_ticks_of_ms, OS_TICKS_MS, u32. destruct Hms as [->|?]; [done|].
    rewrite <- (Z.mod_unique_pos (ms + (10 - 1)) (2 ^ 32) 1 (ms + 9 - 2 ^ 32)) by lia.
    apply Z.div_small. lia. }
  pose proof (sys_sleep_resched s v ms Hi Hc) as Hr. rewrite E in Hr. split; [done|].
  pose proof (si_nodup s v Hi) as (_ & Hd & _)%NoDup_app.
  assert (v_curr v ∉ v_ready (a_set_blocked (v_curr v) v)) as Hn by apply a_set_blocked_not_in.
  simpl in *. rewrite app_nil_r. split.
  - intros [Hx|Hx]%elem_of_app; [done|]. by apply (Hd (v_curr v)).
  - unfold a_next; simpl. destruct (filter _ (v_ready v)) as [|y q] eqn:Ef; simpl.
    + intros E'. apply (si_idle s v Hi). rewrite E'. set_solver.
    + intros ->. set_solver.
Qed.

(** When the tick that ends a time slice switches to another task, the
    sleepers are not counted down by then: the walk of the sleep queue is part of
    what the preempted task does when it is resumed. *)
Theorem expired_tick_delays_sleepers s v task :
  sched_inv s v -> k_tasks s !! v_curr v = Some task -> t_slice_ticks task = 1 ->
  v_curr v ∈ v_ready v -> a_next (a_rotate (v_curr v) v) <> v_curr v ->
  exists s' k, task_time_tick s = Susp s' k /\
    sched_inv s' (a_dispatch (a_rotate (v_curr v) v)) /\
    (forall s2, k s2 = tick_rest (set_k_if (k_if s) s2)).
Proof.
  intros Hi Ht Hsl Hin Hn. assert (a_slice_end v = a_rotate (v_curr v) v) as Er by (unfold a_slice_end; by rewrite bool_decide_true).
  destruct (task_time_tick_switches s v task Hi Ht) as (s1 & to & k & _ & Hi1 & _ & _ & E & Hk);
    [by rewrite Hsl | by left | by rewrite Er |].
  rewrite Er in Hi1. exists (enter_task to s1), k. split_and!; [done | by apply sched_inv_regs | done].
Qed.

End Sched.
