(* ===== verification/Ipc.v ===== *)
(** Mutexes and semaphores of kernel/ipc. *)
From S2P Require Import Prelude DList Machine MachineFacts Klib Sched.

Section Ipc.
Context `{Layout}.

(** mutex.h *)
Definition MUTEX_NAME_SIZE : nat := 64.

Definition set_m_wait_list (l : list_t) (x : mutex_t) : mutex_t :=
  Mutex (m_name x) (m_owner x) (m_locked_count x) l.

Definition set_m_lock (owner locked_count : Z) (x : mutex_t) : mutex_t :=
  Mutex (m_name x) owner locked_count (m_wait_list x).

Definition set_s_count (c : Z) (x : sem_t) : sem_t := Sem c (s_wait_list x).

Definition set_s_wait_list (l : list_t) (x : sem_t) : sem_t := Sem (s_count x) l.

(** ** mutex.c *)
Definition mutex_init (mutex : Z) (name : list Z) : K unit :=
  m ← get_mutex mutex;
  n ← kopt (strcpy_array (m_name m) name);
  put_mutex mutex (Mutex n 0 0 list_init).

Definition mutex_acquire (mutex : Z) : K unit :=
  state ← irq_enter_protection;
  curr ← task_current;
  m ← get_mutex mutex;
  (if m_locked_count m =? 0 then put_mutex mutex (set_m_lock curr 1 m)
   else if m_owner m =? curr then
     put_mutex mutex (set_m_lock (m_owner m) (i32 (m_locked_count m + 1)) m)
   else
     task_set_blocked curr;;
     m ← get_mutex mutex;
     l ← on_list (fun h l => list_insert_back h l (wait_node curr)) (m_wait_list m);
     put_mutex mutex (set_m_wait_list l m);;
     task_dispatch);;
  irq_leave_protection state.

Definition mutex_release (mutex : Z) : K unit :=
  state ← irq_enter_protection;
  curr ← task_current;
  m ← get_mutex mutex;
  (if m_owner m =? curr then
     let count := i32 (m_locked_count m - 1) in
     put_mutex mutex (set_m_lock (m_owner m) count m);;
     if count =? 0 then
       put_mutex mutex (set_m_lock 0 count m);;
       if negb (list_size (m_wait_list m) =? 0) then
         h ← gets k_nodes;
         '(node, h, l) ← kopt (list_remove_front h (m_wait_list m));
         modify (set_k_nodes h);;
         put_mutex mutex (set_m_wait_list l (set_m_lock 0 count m));;
         let task := list_node_parent node WAIT_NODE_OFF in
         task_set_ready task;;
         m ← get_mutex mutex;
         put_mutex mutex (set_m_lock task 1 m);;
         task_dispatch
       else mret tt
     else mret tt
   else mret tt);;
  irq_leave_protection state.

(** ** sem.c *)
Definition sem_init (sem init_count : Z) : K unit := put_sem sem (Sem init_count list_init).

Definition sem_wait (sem : Z) : K unit :=
  state ← irq_enter_protection;
  x ← get_sem sem;
  (if s_count x >? 0 then put_sem sem (set_s_count (s_count x - 1) x)
   else
     curr ← task_current;
     task_set_blocked curr;;
     x ← get_sem sem;
     l ← on_list (fun h l => list_insert_back h l (wait_node curr)) (s_wait_list x);
     put_sem sem (set_s_wait_list l x);;
     task_dispatch);;
  irq_leave_protection state.

Definition sem_notify (sem : Z) : K unit :=
  state ← irq_enter_protection;
  x ← get_sem sem;
  (if negb (list_size (s_wait_list x) =? 0) then
     h ← gets k_nodes;
     '(node, h, l) ← kopt (list_remove_front h (s_wait_list x));
     modify (set_k_nodes h);;
     put_sem sem (set_s_wait_list l x);;
     let task := list_node_parent node WAIT_NODE_OFF in
     task_set_ready task;;
     task_dispatch
   else put_sem sem (set_s_count (i32 (s_count x + 1)) x));;
  irq_leave_protection state.

Definition sem_count (sem : Z) : K Z :=
  state ← irq_enter_protection;
  x ← get_sem sem;
  let count := s_count x in
  irq_leave_protection state;;
  mret count.

(** * Blocking and waking

    [wait_step ws s s']: beyond what scheduling changes, [s'] may have other
    [wait_node] links of the tasks [ws] and other mutexes and semaphores. *)
Definition wait_step (ws : list Z) (s s' : kst) : Prop :=
  exists tm h ts mx sm,
    s' = set_k_mutex mx (set_k_sem sm (set_k_tm tm (set_k_nodes h (set_k_tasks ts s)))) /\
    task_list tm = task_list (k_tm s) /\
    app_code_sel tm = app_code_sel (k_tm s) /\ app_data_sel tm = app_data_sel (k_tm s) /\
    (forall n, (forall t, t ∈ dom (k_tasks s) -> n <> run_node t) -> n ∉ wait_node <$> ws ->
       h !! n = k_nodes s !! n) /\
    dom h = dom (k_nodes s) /\
    (forall t, task_core <$> ts !! t = task_core <$> k_tasks s !! t).

Lemma wait_step_sched ws s s' : sched_step s s' -> wait_step ws s s'.
Proof.
  intros (tm & h & ts & -> & ? & ? & ? & Hn & ? & ?).
  exists tm, h, ts, (k_mutex s), (k_sem s). split_and!; try done. intros n Hr _. by apply Hn.
Qed.

Lemma wait_step_dom ws s s' : wait_step ws s s' -> dom (k_tasks s') = dom (k_tasks s).
Proof. intros (tm & h & ts & mx & sm & -> & _ & _ & _ & _ & _ & Hc). by apply core_dom. Qed.

Lemma wait_step_trans ws s1 s2 s3 : wait_step ws s1 s2 -> wait_step ws s2 s3 -> wait_step ws s1 s3.
Proof.
  intros H12. pose proof (wait_step_dom _ _ _ H12) as Hd. revert H12.
  intros (tm & h & ts & mx & sm & E & A1 & A2 & A3 & A4 & A5 & A6).
  intros (tm' & h' & ts' & mx' & sm' & -> & B1 & B2 & B3 & B4 & B5 & B6).
  exists tm', h', ts', mx', sm'. subst s2; simpl in *. split_and!; try congruence.
  - done.
  - intros n Hn Hw. rewrite B4, A4; [done | done | done | by rewrite Hd | done].
Qed.

Lemma wait_step_mutex ws mx s : wait_step ws s (set_k_mutex mx s).
Proof. exists (k_tm s), (k_nodes s), (k_tasks s), mx, (k_sem s). by destruct s. Qed.

Lemma wait_step_sem ws sm s : wait_step ws s (set_k_sem sm s).
Proof. exists (k_tm s), (k_nodes s), (k_tasks s), (k_mutex s), sm. by destruct s. Qed.

Lemma wait_step_nodes ws h s :
  touches (wait_node <$> ws) (k_nodes s) h -> wait_step ws s (set_k_nodes h s).
Proof.
  intros [Hf Hd]. exists (k_tm s), h, (k_tasks s), (k_mutex s), (k_sem s).
  split_and!; try done. intros n _ Hn. by apply Hf.
Qed.

Lemma wait_step_if ws s s' b : wait_step ws (set_k_if b s) s' -> wait_step ws s (set_k_if (k_if s) s').
Proof.
  intros (tm & h & ts & mx & sm & -> & Hr). exists tm, h, ts, mx, sm. split; [by destruct s | exact Hr].
Qed.

(** Links of different tasks, and different links of a task, are apart. *)
Lemma run_wait_apart (ts : gmap Z task_t) t t' :
  tasks_apart ts -> t ∈ dom ts -> t' ∈ dom ts -> run_node t <> wait_node t'.
Proof.
  intros Ha Ht Ht'. unfold run_node, wait_node, RUN_NODE_OFF, WAIT_NODE_OFF.
  destruct (decide (t = t')) as [->|Hne]; [lia|].
  specialize (Ha t t' Ht Ht' Hne). unfold SIZEOF_TASK in Ha. lia.
Qed.

Lemma wait_node_fmap_in t (l : list Z) : wait_node t ∈ wait_node <$> l <-> t ∈ l.
Proof.
  rewrite list_elem_of_fmap. unfold wait_node. split; [|by eauto].
  intros (x & E & Hx). by replace t with x by lia.
Qed.

(** The scheduler does not see the wait lists. *)
Lemma sched_inv_wait s v h (ws : list Z) :
  sched_inv s v -> touches (wait_node <$> ws) (k_nodes s) h -> (forall t, t ∈ ws -> t ∈ dom (k_tasks s)) ->
  sched_inv (set_k_nodes h s) v.
Proof.
  intros Hi [Hf Hd] Hw.
  assert (forall q l, (forall t, t ∈ q -> live s t) -> dlist (k_nodes s) l (run_node <$> q) ->
            dlist h l (run_node <$> q)) as Hq.
  { intros q l Hl. apply dlist_frame. intros n (t & -> & Ht)%list_elem_of_fmap. apply Hf.
    intros (t' & E & Ht')%list_elem_of_fmap.
    by apply (run_wait_apart (k_tasks s) t t'); [apply (si_apart s v Hi) | apply live_dom, Hl | apply Hw |]. }
  split; try apply Hi.
  - apply Hq; [|apply Hi]. intros t Ht. apply (in_queue_live s v); [done | set_solver].
  - apply Hq; [|apply Hi]. intros t Ht. apply (in_queue_live s v); [done | set_solver].
  - intros t Ht. destruct (si_live s v Hi t Ht) as (Hp & H1 & H2 & H3 & Hr).
    split_and!; try done; simpl; rewrite <- elem_of_dom, Hd, elem_of_dom; done.
Qed.

Lemma sched_inv_mutex s v mx : sched_inv s v -> sched_inv (set_k_mutex mx s) v.
Proof. intros []. by split. Qed.

Lemma sched_inv_sem s v sm : sched_inv s v -> sched_inv (set_k_sem sm s) v.
Proof. intros []. by split. Qed.

(** ** How a call that may dispatch ends: as in [resched], from a state [s1]. *)
Definition switched {A} (b : bool) (a : A) (v v' : sview) (o : outcome A) (s1 : kst) : Prop :=
  (v_curr v' = v_curr v /\ o = Done a s1) \/
  (v_curr v' <> v_curr v /\ exists task,
     k_tasks s1 !! v_curr v' = Some task /\ t_state task = TASK_RUNNING /\
     o = Susp (enter_task task s1) (fun s2 => Done a (set_k_if b s2))).

Lemma dispatch_leave s v v0 b :
  sched_inv s v -> v_curr v = v_curr v0 ->
  exists s1, sched_step s s1 /\ sched_inv (set_k_if b s1) (a_dispatch v) /\
    switched b tt v0 (a_dispatch v) (obind (fun _ => irq_leave_protection b) (task_dispatch s))
      (set_k_if b s1).
Proof.
  intros Hi Hc. destruct (task_dispatch_resched s v Hi) as (s1 & Hs & Hi1 & Ho).
  exists s1. split_and!; [done | by apply sched_inv_if |].
  unfold switched. rewrite <- Hc.
  destruct Ho as [[Hv ->]|[Hv (task & Ht & Hst & ->)]]; [by left|].
  right. split; [done|]. exists task. done.
Qed.

(** ** Wait lists *)

(** Tasks that wait in a list are queued nowhere in the scheduler. *)
Definition waiting (s : kst) (v : sview) (ws : list Z) : Prop :=
  NoDup ws /\ forall t, t ∈ ws -> live s t /\ t <> idle_task /\ t ∉ v_ready v ++ (v_sleep v).*1.

Lemma waiting_dom s v ws t : waiting s v ws -> t ∈ ws -> t ∈ dom (k_tasks s).
Proof. intros [_ Hw] Ht. by apply live_dom, Hw. Qed.

Lemma wait_list_sched s s1 v ws l :
  sched_inv s v -> (forall t, t ∈ ws -> t ∈ dom (k_tasks s)) -> sched_step s s1 ->
  dlist (k_nodes s) l (wait_node <$> ws) -> dlist (k_nodes s1) l (wait_node <$> ws).
Proof.
  intros Hi Hw Hs. eapply sched_step_dlist; [exact Hs|].
  intros n t (t' & -> & Ht')%list_elem_of_fmap Ht E. symmetry in E. revert E.
  apply (run_wait_apart (k_tasks s)); [apply (si_apart s v Hi) | done | by apply Hw].
Qed.

Lemma wait_node_nonzero t : 0 < t -> wait_node t <> 0.
Proof. unfold wait_node, WAIT_NODE_OFF. lia. Qed.

Lemma parent_wait_node t : 0 < t -> list_node_parent (wait_node t) WAIT_NODE_OFF = t.
Proof.
  intros. unfold list_node_parent, wait_node, WAIT_NODE_OFF.
  rewrite (proj2 (Z.eqb_neq _ _)) by lia. lia.
Qed.

(** The running task leaves the ready queue and joins a wait list. *)
Lemma block_on s v ws l :
  sched_inv s v -> waiting s v ws -> v_curr v ∈ v_ready v ->
  dlist (k_nodes s) l (wait_node <$> ws) ->
  exists s1 h l', task_set_blocked (v_curr v) s = Done tt s1 /\
    list_insert_back (k_nodes s1) l (wait_node (v_curr v)) = Some (h, l') /\
    sched_step s s1 /\
    touches (wait_node <$> ws ++ [v_curr v]) (k_nodes s1) h /\
    dlist h l' (wait_node <$> ws ++ [v_curr v]) /\
    sched_inv (set_k_nodes h s1) (a_set_blocked (v_curr v) v).
Proof.
  intros Hi Hw Hc Hd.
  destruct (task_set_blocked_run s v (v_curr v) Hi Hc) as (s1 & E & Hs & Hi1 & Hk).
  assert (live s1 (v_curr v)) as Hl.
  { eapply sched_step_live; [exact Hs|]. apply (in_queue_live s v); [done | set_solver]. }
  assert (forall t, t ∈ ws ++ [v_curr v] -> t ∈ dom (k_tasks s)) as Hdom.
  { intros t [Ht| ->%list_elem_of_singleton]%elem_of_app; [by eapply waiting_dom|].
    apply live_dom, (in_queue_live s v); [done | set_solver]. }
  assert (dlist (k_nodes s1) l (wait_node <$> ws)) as Hd1.
  { eapply (wait_list_sched s s1 v); [done | set_solver | done | done]. }
  assert (wait_node (v_curr v) ∉ wait_node <$> ws) as Hn.
  { rewrite wait_node_fmap_in. intros Hin. apply Hw in Hin as (_ & _ & Hin). set_solver. }
  pose proof Hl as (Hp & _ & _ & Hwn & _).
  destruct (list_insert_back_spec _ _ _ _ Hd1 Hn (wait_node_nonzero _ Hp) Hwn) as (h & l' & E' & Hd' & Ht).
  change ([wait_node (v_curr v)]) with (wait_node <$> [v_curr v]) in Hd', Ht. rewrite <- fmap_app in Hd', Ht.
  exists s1, h, l'. split_and!; try done.
  eapply (sched_inv_wait s1 _ h (ws ++ [v_curr v])); [done | done |].
  intros t Ht'. rewrite (sched_step_dom s s1) by done. by apply Hdom.
Qed.

(** The first waiter leaves a wait list and joins the ready queue. *)
Lemma wake_first s v w ws l :
  sched_inv s v -> waiting s v (w :: ws) -> dlist (k_nodes s) l (wait_node <$> w :: ws) ->
  exists h l', list_remove_front (k_nodes s) l = Some (wait_node w, h, l') /\
    touches (wait_node <$> w :: ws) (k_nodes s) h /\ dlist h l' (wait_node <$> ws) /\
    forall mx sm, let s0 := set_k_mutex mx (set_k_sem sm (set_k_nodes h s)) in
    exists s1, task_set_ready w s0 = Done tt s1 /\ sched_step s0 s1 /\
      sched_inv s1 (a_set_ready w v) /\ dlist (k_nodes s1) l' (wait_node <$> ws).
Proof.
  intros Hi Hw Hd. rewrite fmap_cons in Hd.
  destruct (list_remove_front_spec _ _ _ _ Hd) as (h & l' & E & Hd' & _ & Ht).
  exists h, l'. rewrite fmap_cons. split_and!; try done. intros mx sm s0.
  assert (sched_inv s0 v) as Hi0.
  { apply sched_inv_mutex, sched_inv_sem. eapply (sched_inv_wait s v h (w :: ws)); [done | by rewrite fmap_cons |].
    intros t. by apply (waiting_dom s v). }
  destruct (proj2 Hw w) as ((Hp & H1 & H2 & H3 & Hr) & Hid & Hnin); [by left|].
  assert (live s0 w) as Hlw.
  { destruct Ht as [_ Hdm].
    split_and!; try done; simpl; rewrite <- elem_of_dom, Hdm, elem_of_dom; done. }
  destruct (task_set_ready_run s0 v w Hi0 Hlw Hid Hnin) as (s1 & task & _ & E1 & Hs & Hi2 & _).
  exists s1. split_and!; try done.
  apply (wait_list_sched s0 s1 v); [done | | done | done].
  intros t Hin. apply (waiting_dom s v (w :: ws)); [done | by right].
Qed.


(** * Mutexes

    What a mutex promises: its owner, how often the owner took it, and the tasks
    that wait, first come first. *)
Record amutex := AMutex { a_owner : Z; a_count : Z; a_waiters : list Z }.

Definition a_acquire (v : sview) (m : amutex) : sview * amutex :=
  if a_count m =? 0 then (v, AMutex (v_curr v) 1 [])
  else if a_owner m =? v_curr v then (v, AMutex (a_owner m) (a_count m + 1) (a_waiters m))
  else (a_dispatch (a_set_blocked (v_curr v) v),
        AMutex (a_owner m) (a_count m) (a_waiters m ++ [v_curr v])).

Definition a_release (v : sview) (m : amutex) : sview * amutex :=
  if negb (a_owner m =? v_curr v) then (v, m)
  else if a_count m >? 1 then (v, AMutex (a_owner m) (a_count m - 1) (a_waiters m))
  else
    match a_waiters m with
    | [] => (v, AMutex 0 0 [])
    | w :: ws => (a_dispatch (a_set_ready w v), AMutex w 1 ws)
    end.

(** A mutex is free, with no owner and nobody waiting, or it is held by a task
    that does not wait for it. *)
Definition lock_wf (m : amutex) : Prop :=
  0 <= a_count m < 2 ^ 31 /\
  (a_count m = 0 <-> a_owner m = 0) /\
  (a_count m = 0 -> a_waiters m = []) /\
  (a_owner m ∉ a_waiters m).

Definition mutex_at (s : kst) (a : Z) (m : amutex) : Prop :=
  exists x, k_mutex s !! a = Some x /\ m_owner x = a_owner m /\ m_locked_count x = a_count m /\
    dlist (k_nodes s) (m_wait_list x) (wait_node <$> a_waiters m).

Record lock_inv (s : kst) (v : sview) (a : Z) (m : amutex) : Prop := {
  li_sched : sched_inv s v;
  li_mutex : mutex_at s a m;
  li_waiting : waiting s v (a_waiters m);
  li_wf : lock_wf m
}.

(** Nothing but the mutex [a], the scheduler and the links of [ws] differs. *)
Definition mutex_step (a : Z) (ws : list Z) (s s' : kst) : Prop :=
  wait_step ws s s' /\ k_sem s' = k_sem s /\ forall b, b <> a -> k_mutex s' !! b = k_mutex s !! b.

Lemma lock_wf_step v m :
  lock_wf m -> 0 < v_curr v -> a_count m < 2 ^ 31 - 1 -> lock_wf (snd (a_acquire v m)).
Proof.
  intros (Hc & H0 & Hw & Ho) Hp Hlt. unfold a_acquire.
  destruct (Z.eqb_spec (a_count m) 0); simpl; [|destruct (Z.eqb_spec (a_owner m) (v_curr v)); simpl];
    split_and!; simpl; try lia; try done; try set_solver.
Qed.

Lemma lock_wf_release v m ws :
  lock_wf m -> NoDup (a_waiters m) -> (forall t, t ∈ a_waiters m -> 0 < t) -> 0 < v_curr v ->
  a_waiters m = ws -> lock_wf (snd (a_release v m)).
Proof.
  intros Hwf Hnd Hpos Hp Ews. pose proof Hwf as (Hc & H0 & Hw & Ho). unfold a_release.
  destruct (Z.eqb_spec (a_owner m) (v_curr v)); simpl; [|done].
  destruct (Z.gtb_spec (a_count m) 1); simpl.
  { split_and!; simpl; try lia; try done. }
  destruct (a_waiters m) as [|w r]; simpl.
  { split_and!; simpl; try lia; set_solver. }
  apply NoDup_cons in Hnd as [Hwr _]. specialize (Hpos w ltac:(by left)).
  split_and!; simpl; try lia; try done.
Qed.

(** ** Acquiring *)
Lemma mutex_acquire_free s a x :
  k_mutex s !! a = Some x -> m_locked_count x = 0 ->
  mutex_acquire a s =
    Done tt (set_k_mutex (<[a := set_m_lock (curr_task (k_tm s)) 1 x]> (k_mutex s)) s).
Proof.
  intros Hx Hc. unfold mutex_acquire, task_current, get_mutex. kred. rewrite Hx. kred.
  rewrite Hc. simpl. unfold put_mutex. kred. by destruct s.
Qed.

Lemma mutex_acquire_again s a x :
  k_mutex s !! a = Some x -> m_locked_count x <> 0 -> m_owner x = curr_task (k_tm s) ->
  mutex_acquire a s =
    Done tt (set_k_mutex (<[a := set_m_lock (m_owner x) (i32 (m_locked_count x + 1)) x]> (k_mutex s)) s).
Proof.
  intros Hx Hc Ho. unfold mutex_acquire, task_current, get_mutex. kred. rewrite Hx. kred.
  rewrite (proj2 (Z.eqb_neq _ 0)) by done. rewrite <- Ho, Z.eqb_refl. unfold put_mutex. kred. by destruct s.
Qed.

(** A change of the mutex alone. *)
Lemma lock_inv_put s v a m x m' x' :
  lock_inv s v a m -> k_mutex s !! a = Some x ->
  m_wait_list x' = m_wait_list x -> m_owner x' = a_owner m' -> m_locked_count x' = a_count m' ->
  a_waiters m' = a_waiters m -> lock_wf m' ->
  lock_inv (set_k_mutex (<[a := x']> (k_mutex s)) s) v a m' /\
  forall ws, mutex_step a ws s (set_k_mutex (<[a := x']> (k_mutex s)) s).
Proof.
  intros [Hi (y & Hy & _ & _ & Hd) Hw _] Hx Hl Ho Hc Hws Hwf. rewrite Hx in Hy. injection Hy as <-.
  split.
  - split; [by apply sched_inv_mutex | | by rewrite Hws | done].
    exists x'. simpl. rewrite lookup_insert_eq, Hws, Hl. done.
  - intros ws. split_and!; [apply wait_step_mutex | done |]. intros b Hb. simpl. by apply lookup_insert_ne.
Qed.

Lemma li_curr_pos s v a m : lock_inv s v a m -> v_curr v ∈ v_ready v -> 0 < v_curr v.
Proof. intros Hi Hc. eapply live_pos, in_queue_live; [by apply Hi | set_solver]. Qed.

Lemma wait_step_live ws s s' t : wait_step ws s s' -> live s t -> live s' t.
Proof.
  intros (tm & h & ts & mx & sm & -> & _ & _ & _ & _ & Hd & Hc) Hl.
  assert (sched_step s (set_k_tasks ts s)) as Hs.
  { exists (k_tm s), (k_nodes s), ts. split_and!; try done. }
  destruct (sched_step_live _ _ _ Hs Hl) as (Hp & H1 & H2 & H3 & Hr).
  split_and!; try done; simpl; rewrite <- elem_of_dom, Hd, elem_of_dom; done.
Qed.

(** Who waits keeps waiting, and the task that blocks waits too. *)
Lemma waiting_block s s' v ws :
  sched_inv s v -> waiting s v ws -> v_curr v ∈ v_ready v -> wait_step (ws ++ [v_curr v]) s s' ->
  waiting s' (a_dispatch (a_set_blocked (v_curr v) v)) (ws ++ [v_curr v]).
Proof.
  intros Hi Hw Hc Hs.
  assert (v_curr v ∈ v_ready v ++ (v_sleep v).*1) as Hq by set_solver.
  split.
  - apply NoDup_app. split_and!; [apply Hw | | apply NoDup_singleton].
    intros t Hin ->%list_elem_of_singleton. apply Hw in Hin as (_ & _ & Hin). done.
  - intros t [Hin| ->%list_elem_of_singleton]%elem_of_app.
    + apply Hw in Hin as (? & ? & Hnin). split_and!; [by eapply wait_step_live | done |]. simpl.
      intros [[_ ?]%list_elem_of_filter|?]%elem_of_app; set_solver.
    + split_and!; [eapply wait_step_live; [done | by apply (in_queue_live s v)] | by apply (queue_ready_ne_idle s v) |].
      intros [Hr|Hr]%elem_of_app; [by apply a_set_blocked_not_in in Hr|].
      pose proof (si_nodup s v Hi) as (_ & Hdj & _)%NoDup_app. by apply (Hdj (v_curr v)).
Qed.

(** After the first waiter was woken the others still wait. *)
Lemma waiting_wake s s' v w ws :
  waiting s v (w :: ws) -> wait_step (w :: ws) s s' -> waiting s' (a_dispatch (a_set_ready w v)) ws.
Proof.
  intros [[Hw Hnd]%NoDup_cons Hl] Hs. split; [done|].
  intros t Ht. destruct (Hl t) as (? & ? & Hnin); [by right|].
  split_and!; [by eapply wait_step_live | done |]. simpl. set_solver.
Qed.

Lemma acquire_waits s v a m x :
  lock_inv s v a m -> v_curr v ∈ v_ready v -> k_mutex s !! a = Some x ->
  a_count m <> 0 -> a_owner m <> v_curr v ->
  let '(v', m') := a_acquire v m in
  exists s', mutex_step a (a_waiters m') s s' /\ lock_inv s' v' a m' /\
    switched (k_if s) tt v v' (mutex_acquire a s) s'.
Proof.
  intros Hl Hc Hx Hn Ho. pose proof (li_curr_pos _ _ _ _ Hl Hc) as Hpos. unfold a_acquire.
  rewrite (proj2 (Z.eqb_neq (a_count m) 0)), (proj2 (Z.eqb_neq _ (v_curr v))) by done.
  pose proof Hl as [Hi (y & Hy & Eo & Ec & Hd) Hw Hwf]. rewrite Hx in Hy. injection Hy as <-.
  assert (sched_inv (set_k_if false s) v) as Hi0 by (by apply sched_inv_if).
  destruct (block_on (set_k_if false s) v (a_waiters m) (m_wait_list x)) as (s1 & h & l' & E1 & E2 & Hs1 & Ht & Hd1 & Hi1);
    try done.
  pose proof Hs1 as (tm & h1 & ts & Es1 & _ & _ & _ & _ & _ & Hcore).
  assert (k_mutex s1 = k_mutex s) as Em by (by rewrite Es1).
  set (s2 := set_k_mutex (<[a := set_m_wait_list l' x]> (k_mutex s1)) (set_k_nodes h s1)).
  assert (sched_inv s2 (a_set_blocked (v_curr v) v)) as Hi2 by (by apply sched_inv_mutex).
  destruct (dispatch_leave s2 _ v (k_if s) Hi2 eq_refl) as (s3 & Hs3 & Hi3 & Hsw).
  assert (wait_step (a_waiters m ++ [v_curr v]) (set_k_if false s) s3) as Hws.
  { eapply wait_step_trans; [by apply wait_step_sched|].
    eapply wait_step_trans; [by apply wait_step_nodes|].
    eapply wait_step_trans; [apply wait_step_mutex | by apply wait_step_sched]. }
  pose proof Hs3 as (tm3 & h3 & ts3 & Es3 & _).
  exists (set_k_if (k_if s) s3). split_and!.
  - split_and!; [by eapply wait_step_if | by rewrite Es3; simpl; rewrite Es1 |].
    intros b Hb. rewrite Es3. simpl. rewrite lookup_insert_ne, Em; done.
  - split.
    + exact Hi3.
    + exists (set_m_wait_list l' x). split_and!; [|done|done|].
      * rewrite Es3. simpl. apply lookup_insert_eq.
      * simpl. eapply (wait_list_sched s2 s3 (a_set_blocked (v_curr v) v)); [done | | done | exact Hd1].
        intros t Hin. simpl. rewrite (sched_step_dom _ _ Hs1).
        apply elem_of_app in Hin as [Hin| ->%list_elem_of_singleton]; [by eapply waiting_dom|].
        apply live_dom, (in_queue_live s v); [done | set_solver].
    + simpl. eapply (waiting_block s); [done | done | done | by eapply wait_step_if].
    + destruct Hwf as (Hcc & H0 & Hwz & How). split_and!; simpl; [lia | lia | done | done | set_solver].
  - unfold mutex_acquire, task_current, get_mutex. kred. rewrite Hx. kred.
    rewrite Ec, (proj2 (Z.eqb_neq (a_count m) 0)), Eo, (si_curr s v Hi), (proj2 (Z.eqb_neq _ (v_curr v))) by done.
    kred. rewrite E1. kred. rewrite Em, Hx. kred. erewrite run_on_list by exact E2. unfold put_mutex. kred.
    exact Hsw.
Qed.

Lemma mutex_acquire_run s v a m :
  lock_inv s v a m -> v_curr v ∈ v_ready v -> a_count m < 2 ^ 31 - 1 ->
  let '(v', m') := a_acquire v m in
  exists s', mutex_step a (a_waiters m') s s' /\ lock_inv s' v' a m' /\
    switched (k_if s) tt v v' (mutex_acquire a s) s'.
Proof.
  intros Hl Hc Hlt. pose proof (li_curr_pos _ _ _ _ Hl Hc) as Hpos.
  pose proof (lock_wf_step v m (li_wf _ _ _ _ Hl) Hpos Hlt) as Hwf'.
  pose proof Hl as [Hi (x & Hx & Eo & Ec & Hd) Hw (Hcc & H0 & Hwz & How)].
  destruct (decide (a_count m = 0)) as [E|E]; [|destruct (decide (a_owner m = v_curr v)) as [E'|E']];
    [| |by eapply acquire_waits]; unfold a_acquire in *; simpl in *.
  - rewrite E in *. simpl in *.
    destruct (lock_inv_put s v a m x (AMutex (v_curr v) 1 []) (set_m_lock (v_curr v) 1 x)) as [Hl' Hs]; try done.
    { simpl. by rewrite Hwz. }
    eexists. split_and!; [apply Hs | exact Hl' |]. left. split; [done|].
    erewrite mutex_acquire_free by (done || congruence). by rewrite (si_curr s v Hi).
  - rewrite (proj2 (Z.eqb_neq (a_count m) 0)), E', Z.eqb_refl in Hwf' by done.
    rewrite (proj2 (Z.eqb_neq (a_count m) 0)), E', Z.eqb_refl by done. simpl in *.
    destruct (lock_inv_put s v a m x (AMutex (v_curr v) (a_count m + 1) (a_waiters m))
                (set_m_lock (v_curr v) (a_count m + 1) x)) as [Hl' Hs]; try done.
    eexists. split_and!; [apply Hs | exact Hl' |]. left. split; [done|].
    erewrite mutex_acquire_again by (done || (rewrite (si_curr s v Hi); congruence) || congruence).
    rewrite Eo, E', Ec, i32_small by lia. done.
Qed.

(** ** Releasing *)

(** Up to the wake-up a release is a write of the mutex. *)
Lemma mutex_release_other s a x :
  k_mutex s !! a = Some x -> m_owner x <> curr_task (k_tm s) -> mutex_release a s = Done tt s.
Proof.
  intros Hx Ho. unfold mutex_release, task_current, get_mutex. kred. rewrite Hx. kred.
  rewrite (proj2 (Z.eqb_neq _ _)) by done. kred. by destruct s.
Qed.

Lemma mutex_release_nested s a x :
  k_mutex s !! a = Some x -> m_owner x = curr_task (k_tm s) -> i32 (m_locked_count x - 1) <> 0 ->
  mutex_release a s =
    Done tt (set_k_mutex (<[a := set_m_lock (m_owner x) (i32 (m_locked_count x - 1)) x]> (k_mutex s)) s).
Proof.
  intros Hx Ho Hc. unfold mutex_release, task_current, get_mutex. kred. rewrite Hx. kred.
  rewrite <- Ho, Z.eqb_refl. unfold put_mutex. kred. rewrite (proj2 (Z.eqb_neq _ 0)) by done. kred.
  by destruct s.
Qed.

Lemma mutex_release_last s a x :
  k_mutex s !! a = Some x -> m_owner x = curr_task (k_tm s) -> m_locked_count x = 1 ->
  list_size (m_wait_list x) = 0 ->
  mutex_release a s = Done tt (set_k_mutex (<[a := set_m_lock 0 0 x]> (k_mutex s)) s).
Proof.
  intros Hx Ho Hc Hl. unfold mutex_release, task_current, get_mutex. kred. rewrite Hx. kred.
  rewrite <- Ho, Z.eqb_refl, Hc. unfold put_mutex. change (i32 (1 - 1)) with 0. kred. rewrite Hl.
  change (negb (0 =? 0)) with false. change (0 =? 0) with true. kred.
  rewrite insert_insert_eq. by destruct s.
Qed.

(** A critical section nobody else is in: acquiring and releasing the free mutex
    leaves every byte of the state as it was. *)
Lemma acquire_release_free s a x :
  k_mutex s !! a = Some x -> m_locked_count x = 0 -> m_owner x = 0 -> list_size (m_wait_list x) = 0 ->
  (mutex_acquire a;; mutex_release a) s = Done tt s.
Proof.
  intros Hx Hc Ho Hl. kred. erewrite mutex_acquire_free by done. kred.
  erewrite mutex_release_last; kproj; [|apply lookup_insert_eq|done|done|done].
  rewrite insert_insert_eq. unfold set_m_lock; simpl. rewrite insert_id; [by destruct s|].
  rewrite Hx. destruct x; simpl in *; subst. done.
Qed.

Lemma release_wakes s v a m x w ws :
  lock_inv s v a m -> v_curr v ∈ v_ready v -> k_mutex s !! a = Some x ->
  a_count m = 1 -> a_owner m = v_curr v -> a_waiters m = w :: ws ->
  exists s', mutex_step a (w :: ws) s s' /\
    lock_inv s' (a_dispatch (a_set_ready w v)) a (AMutex w 1 ws) /\
    switched (k_if s) tt v (a_dispatch (a_set_ready w v)) (mutex_release a s) s'.
Proof.
  intros Hl Hc Hx Ec Eo Ew. pose proof (li_curr_pos _ _ _ _ Hl Hc) as Hpos.
  pose proof Hl as [Hi (y & Hy & Eo' & Ec' & Hd) Hw Hwf]. rewrite Hx in Hy. injection Hy as <-.
  rewrite Ew in *.
  assert (sched_inv (set_k_if false s) v) as Hi0 by (by apply sched_inv_if).
  destruct (wake_first (set_k_if false s) v w ws (m_wait_list x) Hi0 Hw Hd) as (h & l' & E1 & Ht & Hd1 & Hrdy).
  destruct (Hrdy (<[a := set_m_wait_list l' (set_m_lock 0 0 x)]> (k_mutex s)) (k_sem s)) as (s1 & E2 & Hs1 & Hi1 & Hd2).
  pose proof Hs1 as (tm & h1 & ts & Es1 & _). cbn zeta in Es1.
  set (s2 := set_k_mutex (<[a := set_m_lock w 1 (set_m_wait_list l' x)]> (k_mutex s1)) s1).
  destruct (dispatch_leave s2 _ v (k_if s) (sched_inv_mutex _ _ _ Hi1) eq_refl) as (s3 & Hs3 & Hi3 & Hsw).
  pose proof Hs3 as (tm3 & h3 & ts3 & Es3 & _).
  assert (wait_step (w :: ws) (set_k_if false s) s3) as Hws.
  { eapply wait_step_trans; [by apply wait_step_nodes|].
    eapply wait_step_trans; [apply wait_step_mutex|].
    eapply wait_step_trans; [by apply wait_step_sched|].
    eapply wait_step_trans; [apply wait_step_mutex | by apply wait_step_sched]. }
  apply (wait_step_if _ _ _ false) in Hws as Hws'.
  exists (set_k_if (k_if s) s3). split_and!.
  - split_and!; [done | by rewrite Es3; simpl; rewrite Es1 |].
    intros b Hb. rewrite Es3. simpl. rewrite lookup_insert_ne, Es1 by done. simpl. by rewrite lookup_insert_ne.
  - split; [exact Hi3 | | by eapply (waiting_wake s) |].
    + exists (set_m_lock w 1 (set_m_wait_list l' x)). split_and!; [|done|done|].
      * rewrite Es3. simpl. apply lookup_insert_eq.
      * simpl. eapply (wait_list_sched s2 s3 (a_set_ready w v)); [by apply sched_inv_mutex | | done | exact Hd2].
        intros t Hin. simpl. rewrite (sched_step_dom _ _ Hs1). apply (waiting_dom s v (w :: ws)); [done | by right].
    + pose proof Hw as [[Hnw _]%NoDup_cons Hlw]. destruct (Hlw w) as (Hlv & _); [by left|].
      apply live_pos in Hlv. split_and!; simpl; try lia; done.
  - unfold mutex_release, task_current, get_mutex. kred. rewrite Hx. kred.
    rewrite Eo', Eo, (si_curr s v Hi), Z.eqb_refl, Ec', Ec. change (i32 (1 - 1)) with 0. unfold put_mutex. kred.
    change (0 =? 0) with true. kred. rewrite (dlist_list_size _ _ _ Hd). cbn [fmap list_fmap length].
    rewrite (proj2 (Z.eqb_neq _ 0)) by lia. cbn [negb]. kred.
    simpl in E1. rewrite E1. kred. destruct (Hw) as [_ Hlw]. destruct (Hlw w) as (Hlv & _); [by left|].
    rewrite parent_wait_node by (by eapply live_pos). rewrite !insert_insert_eq.
    match type of E2 with _ ?x = _ =>
      match goal with |- context [task_set_ready w ?y] => change y with x end end.
    rewrite E2. kred. assert (k_mutex s1 !! a = Some (set_m_wait_list l' (set_m_lock 0 0 x))) as ->
      by (rewrite Es1; apply lookup_insert_eq). kred.
    exact Hsw.
Qed.

Lemma mutex_release_run s v a m :
  lock_inv s v a m -> v_curr v ∈ v_ready v ->
  let '(v', m') := a_release v m in
  exists s', mutex_step a (a_waiters m) s s' /\ lock_inv s' v' a m' /\
    switched (k_if s) tt v v' (mutex_release a s) s'.
Proof.
  intros Hl Hc. pose proof (li_curr_pos _ _ _ _ Hl Hc) as Hpos.
  pose proof Hl as [Hi (x & Hx & Eo & Ec & Hd) Hw Hwf].
  assert (lock_wf (snd (a_release v m))) as Hwf'.
  { eapply lock_wf_release; [done | apply Hw | | done | done].
    intros t Ht. by eapply live_pos, Hw. }
  destruct Hwf as (Hcc & H0 & Hwz & How).
  unfold a_release in *. destruct (Z.eqb_spec (a_owner m) (v_curr v)) as [E|E]; simpl in *; [|].
  2:{ exists s. split_and!; [split_and!; [apply wait_step_sched, sched_step_refl | done | done] | done |].
      left. split; [done|]. apply (mutex_release_other s a x); [done|]. rewrite (si_curr s v Hi). congruence. }
  destruct (Z.gtb_spec (a_count m) 1) as [Hgt|Hle]; simpl in *.
  - destruct (lock_inv_put s v a m x (AMutex (a_owner m) (a_count m - 1) (a_waiters m))
                (set_m_lock (m_owner x) (a_count m - 1) x)) as [Hl' Hs]; try done.
    eexists. split_and!; [apply Hs | exact Hl' |]. left. split; [done|].
    erewrite mutex_release_nested; [|done | rewrite (si_curr s v Hi); congruence |];
      rewrite Ec, i32_small by lia; [done | lia].
  - assert (a_count m = 1) as Ec1 by lia.
    destruct (a_waiters m) as [|w ws] eqn:Ew; simpl in *; [|by eapply release_wakes].
    destruct (lock_inv_put s v a m x (AMutex 0 0 []) (set_m_lock 0 0 x)) as [Hl' Hs]; try done.
    eexists. split_and!; [apply Hs | exact Hl' |]. left. split; [done|].
    apply mutex_release_last; [done | rewrite (si_curr s v Hi); congruence | congruence |].
    by rewrite (dlist_list_size _ _ _ Hd).
Qed.

(** * Semaphores *)
Record asem := ASem { x_count : Z; x_waiters : list Z }.

Definition a_wait (v : sview) (x : asem) : sview * asem :=
  if x_count x >? 0 then (v, ASem (x_count x - 1) (x_waiters x))
  else (a_dispatch (a_set_blocked (v_curr v) v), ASem (x_count x) (x_waiters x ++ [v_curr v])).

Definition a_notify (v : sview) (x : asem) : sview * asem :=
  match x_waiters x with
  | w :: ws => (a_dispatch (a_set_ready w v), ASem (x_count x) ws)
  | [] => (v, ASem (x_count x + 1) [])
  end.

(** Nobody waits while there are units left. *)
Definition sem_wf (x : asem) : Prop :=
  0 <= x_count x < 2 ^ 31 /\ (0 < x_count x -> x_waiters x = []).

Definition sem_at (s : kst) (a : Z) (x : asem) : Prop :=
  exists y, k_sem s !! a = Some y /\ s_count y = x_count x /\
    dlist (k_nodes s) (s_wait_list y) (wait_node <$> x_waiters x).

Record semaphore_inv (s : kst) (v : sview) (a : Z) (x : asem) : Prop := {
  xi_sched : sched_inv s v;
  xi_sem : sem_at s a x;
  xi_waiting : waiting s v (x_waiters x);
  xi_wf : sem_wf x
}.

Definition sem_step (a : Z) (ws : list Z) (s s' : kst) : Prop :=
  wait_step ws s s' /\ k_mutex s' = k_mutex s /\ forall b, b <> a -> k_sem s' !! b = k_sem s !! b.

Lemma sem_wait_blocks s v a x :
  semaphore_inv s v a x -> v_curr v ∈ v_ready v -> x_count x = 0 ->
  let v' := a_dispatch (a_set_blocked (v_curr v) v) in
  let ws := x_waiters x ++ [v_curr v] in
  exists s', sem_step a ws s s' /\ semaphore_inv s' v' a (ASem 0 ws) /\
    switched (k_if s) tt v v' (sem_wait a s) s'.
Proof.
  intros [Hi (y & Hy & Ec & Hd) Hw Hwf] Hc Hz v' ws.
  assert (sched_inv (set_k_if false s) v) as Hi0 by (by apply sched_inv_if).
  destruct (block_on (set_k_if false s) v (x_waiters x) (s_wait_list y)) as (s1 & h & l' & E1 & E2 & Hs1 & Ht & Hd1 & Hi1);
    try done.
  pose proof Hs1 as (tm & h1 & ts & Es1 & _).
  assert (k_sem s1 = k_sem s) as Em by (by rewrite Es1).
  set (s2 := set_k_sem (<[a := set_s_wait_list l' y]> (k_sem s1)) (set_k_nodes h s1)).
  destruct (dispatch_leave s2 _ v (k_if s) (sched_inv_sem _ _ _ Hi1) eq_refl) as (s3 & Hs3 & Hi3 & Hsw).
  assert (wait_step ws (set_k_if false s) s3) as Hws%wait_step_if.
  { eapply wait_step_trans; [by apply wait_step_sched|].
    eapply wait_step_trans; [by apply wait_step_nodes|].
    eapply wait_step_trans; [apply wait_step_sem | by apply wait_step_sched]. }
  pose proof Hs3 as (tm3 & h3 & ts3 & Es3 & _).
  exists (set_k_if (k_if s) s3). split_and!.
  - split_and!; [done | by rewrite Es3; simpl; rewrite Es1 |].
    intros b Hb. rewrite Es3. simpl. rewrite lookup_insert_ne, Em; done.
  - split; [exact Hi3 | | by eapply (waiting_block s) | by split].
    exists (set_s_wait_list l' y). split_and!; [|simpl; congruence|].
    + rewrite Es3. simpl. apply lookup_insert_eq.
    + simpl. eapply (wait_list_sched s2 s3 (a_set_blocked (v_curr v) v)); [by apply sched_inv_sem | | done | exact Hd1].
      intros t Hin. simpl. rewrite (sched_step_dom _ _ Hs1).
      apply elem_of_app in Hin as [Hin| ->%list_elem_of_singleton]; [by eapply waiting_dom|].
      apply live_dom, (in_queue_live s v); [done | set_solver].
  - unfold sem_wait, task_current, get_sem. kred. rewrite Hy. kred.
    rewrite Ec, Hz. cbn [Z.gtb Z.compare]. kred. rewrite (si_curr s v Hi), E1. kred. rewrite Em, Hy. kred.
    erewrite run_on_list by exact E2. unfold put_sem. kred. exact Hsw.
Qed.

Lemma sem_notify_wakes s v a x w ws :
  semaphore_inv s v a x -> x_waiters x = w :: ws ->
  let v' := a_dispatch (a_set_ready w v) in
  exists s', sem_step a (w :: ws) s s' /\ semaphore_inv s' v' a (ASem (x_count x) ws) /\
    switched (k_if s) tt v v' (sem_notify a s) s'.
Proof.
  intros [Hi (y & Hy & Ec & Hd) Hw [Hcc Hpos]] Ew v'. rewrite Ew in *.
  assert (sched_inv (set_k_if false s) v) as Hi0 by (by apply sched_inv_if).
  destruct (wake_first (set_k_if false s) v w ws (s_wait_list y) Hi0 Hw Hd) as (h & l' & E1 & Ht & Hd1 & Hrdy).
  destruct (Hrdy (k_mutex s) (<[a := set_s_wait_list l' y]> (k_sem s))) as (s1 & E2 & Hs1 & Hi1 & Hd2).
  pose proof Hs1 as (tm & h1 & ts & Es1 & _). cbn zeta in Es1.
  destruct (dispatch_leave s1 _ v (k_if s) Hi1 eq_refl) as (s3 & Hs3 & Hi3 & Hsw).
  pose proof Hs3 as (tm3 & h3 & ts3 & Es3 & _).
  assert (wait_step (w :: ws) (set_k_if false s) s3) as Hws%wait_step_if.
  { eapply wait_step_trans; [by apply wait_step_nodes|].
    eapply wait_step_trans; [apply wait_step_sem|].
    eapply wait_step_trans; [by apply wait_step_sched | by apply wait_step_sched]. }
  exists (set_k_if (k_if s) s3). split_and!.
  - split_and!; [done | by rewrite Es3; simpl; rewrite Es1 |].
    intros b Hb. rewrite Es3. simpl. rewrite Es1. simpl. by rewrite lookup_insert_ne.
  - split; [exact Hi3 | | by eapply (waiting_wake s) |].
    + exists (set_s_wait_list l' y). split_and!; [|done|].
      * rewrite Es3. simpl. rewrite Es1. apply lookup_insert_eq.
      * simpl. eapply (wait_list_sched s1 s3 (a_set_ready w v)); [done | | done | exact Hd2].
        intros t Hin. rewrite (sched_step_dom _ _ Hs1). apply (waiting_dom s v (w :: ws)); [done | by right].
    + split; [done|]. intros Hp. by apply Hpos in Hp.
  - unfold sem_notify, get_sem. kred. rewrite Hy. kred.
    rewrite (dlist_list_size _ _ _ Hd). cbn [fmap list_fmap length].
    rewrite (proj2 (Z.eqb_neq _ 0)) by lia. cbn [negb]. unfold put_sem. kred.
    simpl in E1. rewrite E1. kred. destruct Hw as [_ Hlw]. destruct (Hlw w) as (Hlv & _); [by left|].
    rewrite parent_wait_node by (by eapply live_pos).
    match type of E2 with _ ?z = _ =>
      match goal with |- context [task_set_ready w ?z'] => change z' with z end end.
    rewrite E2. kred. exact Hsw.
Qed.

(** A change of the semaphore's count alone. *)
Lemma semaphore_inv_put s v a x y x' :
  semaphore_inv s v a x -> k_sem s !! a = Some y -> x_waiters x' = x_waiters x -> sem_wf x' ->
  semaphore_inv (set_k_sem (<[a := set_s_count (x_count x') y]> (k_sem s)) s) v a x' /\
  forall ws, sem_step a ws s (set_k_sem (<[a := set_s_count (x_count x') y]> (k_sem s)) s).
Proof.
  intros [Hi (z & Hz & _ & Hd) Hw _] Hy Hws Hwf. rewrite Hy in Hz. injection Hz as <-. split.
  - split; [by apply sched_inv_sem | | by rewrite Hws | done].
    exists (set_s_count (x_count x') y). simpl. by rewrite lookup_insert_eq, Hws.
  - intros ws. split_and!; [apply wait_step_sem | done |]. intros b Hb. simpl. by apply lookup_insert_ne.
Qed.

Lemma sem_wait_run s v a x :
  semaphore_inv s v a x -> v_curr v ∈ v_ready v ->
  let '(v', x') := a_wait v x in
  exists s', sem_step a (x_waiters x') s s' /\ semaphore_inv s' v' a x' /\
    switched (k_if s) tt v v' (sem_wait a s) s'.
Proof.
  intros Hl Hc. pose proof Hl as [Hi (y & Hy & Ec & Hd) Hw [Hcc Hpos]]. unfold a_wait.
  destruct (Z.gtb_spec (x_count x) 0) as [Hgt|Hle].
  - destruct (semaphore_inv_put s v a x y (ASem (x_count x - 1) (x_waiters x))) as [Hl' Hs]; try done.
    { split; simpl; [lia | intros; apply Hpos; lia]. }
    eexists. split_and!; [apply Hs | exact Hl' |]. left. split; [done|].
    unfold sem_wait, get_sem. kred. rewrite Hy. kred. rewrite Ec, Z.gtb_ltb, (proj2 (Z.ltb_lt _ _)) by lia.
    unfold put_sem. kred. by destruct s.
  - assert (x_count x = 0) as Hz by lia. rewrite Hz. by apply sem_wait_blocks.
Qed.

Lemma sem_notify_run s v a x :
  semaphore_inv s v a x -> x_count x < 2 ^ 31 - 1 ->
  let '(v', x') := a_notify v x in
  exists s', sem_step a (x_waiters x) s s' /\ semaphore_inv s' v' a x' /\
    switched (k_if s) tt v v' (sem_notify a s) s'.
Proof.
  intros Hl Hlt. unfold a_notify. destruct (x_waiters x) as [|w ws] eqn:Ew; [|by apply sem_notify_wakes].
  pose proof Hl as [Hi (y & Hy & Ec & Hd) Hw [Hcc Hpos]].
  destruct (semaphore_inv_put s v a x y (ASem (x_count x + 1) [])) as [Hl' Hs]; try done.
  { split; simpl; [lia | done]. }
  eexists. split_and!; [apply Hs | exact Hl' |]. left. split; [done|]. rewrite Ew in Hd.
  unfold sem_notify, get_sem. kred. rewrite Hy. kred.
  rewrite (dlist_list_size _ _ _ Hd). cbn [fmap list_fmap length Z.of_nat Z.eqb negb]. unfold put_sem. kred.
  rewrite Ec, i32_small by lia. by destruct s.
Qed.

Lemma sem_count_run s v a x :
  semaphore_inv s v a x -> sem_count a s = Done (x_count x) s.
Proof.
  intros [Hi (y & Hy & Ec & Hd) Hw [Hcc Hpos]]. unfold sem_count, get_sem. kred. rewrite Hy. kred.
  rewrite Ec. by destruct s.
Qed.

(** ** Uncontended critical sections, as the kernel's own data have them *)
Definition mutex_free (s : kst) (a : Z) : Prop :=
  exists m, k_mutex s !! a = Some m /\ m_locked_count m = 0 /\ m_owner m = 0 /\
    list_size (m_wait_list m) = 0.

(** The zeroed memory [mutex_init] is called on. *)
Definition cold_mutex (s : kst) (a : Z) : Prop :=
  exists m, k_mutex s !! a = Some m /\ hd 1 (m_name m) = 0.

Lemma mutex_init_run s a name :
  cold_mutex s a ->
  exists m, mutex_init a name s = Done tt (set_k_mutex (<[a := m]> (k_mutex s)) s) /\
    mutex_free (set_k_mutex (<[a := m]> (k_mutex s)) s) a.
Proof.
  intros (m & Hm & Hn). exists (Mutex (m_name m) 0 0 list_init). split.
  - unfold mutex_init, get_mutex, put_mutex. kred. rewrite Hm. kred.
    destruct (m_name m) as [|c r]; simpl in Hn; [done|]. by subst c.
  - eexists. kproj. by rewrite lookup_insert_eq.
Qed.

(** [s] with the mutex [a] taken once by the running task. *)
Definition locked (a : Z) (s : kst) : kst :=
  set_k_mutex (alter (set_m_lock (curr_task (k_tm s)) 1) a (k_mutex s)) s.

Lemma acquire_locked s a : mutex_free s a -> mutex_acquire a s = Done tt (locked a s).
Proof.
  intros (m & Hm & Hc & _). erewrite mutex_acquire_free by done. unfold locked. do 2 f_equal.
  apply map_eq. intros b. destruct (decide (a = b)) as [<-|].
  - by rewrite lookup_insert_eq, lookup_alter_eq, Hm.
  - by rewrite lookup_insert_ne, lookup_alter_ne.
Qed.

(** Whatever else the section changed, the mutex is as before. *)
Lemma release_locked s s' a :
  mutex_free s a -> k_mutex s' = k_mutex (locked a s) -> curr_task (k_tm s') = curr_task (k_tm s) ->
  mutex_release a s' = Done tt (set_k_mutex (k_mutex s) s').
Proof.
  intros (m & Hm & Hc & Ho & Hl) Es Et.
  assert (k_mutex s' !! a = Some (set_m_lock (curr_task (k_tm s)) 1 m)) as Hm'.
  { rewrite Es. unfold locked. kproj. by rewrite lookup_alter_eq, Hm. }
  erewrite mutex_release_last; [|exact Hm' | by simpl | done | done]. do 2 f_equal.
  apply map_eq. intros b. destruct (decide (a = b)) as [<-|].
  - rewrite lookup_insert_eq, Hm. f_equal. unfold set_m_lock. simpl. destruct m; simpl in *; by subst.
  - rewrite lookup_insert_ne, Es by done. unfold locked. kproj. by rewrite lookup_alter_ne.
Qed.


(** * Nested critical sections *)
Fixpoint times (n : nat) (x : K unit) : K unit :=
  match n with
  | O => mret tt
  | S n => x;; times n x
  end.

Lemma times_acquire s a x n c :
  k_mutex s !! a = Some (set_m_lock (curr_task (k_tm s)) c x) -> 0 < c -> c + Z.of_nat n < 2 ^ 31 ->
  times n (mutex_acquire a) s =
    Done tt (set_k_mutex (<[a := set_m_lock (curr_task (k_tm s)) (c + Z.of_nat n) x]> (k_mutex s)) s).
Proof.
  revert s c. induction n as [|n IH]; intros s c Hx Hc Hn; simpl.
  { rewrite Z.add_0_r, insert_id by done. by destruct s. }
  kred. erewrite mutex_acquire_again; [|exact Hx | simpl; lia | done]. kred. simpl.
  rewrite i32_small by lia. erewrite (IH _ (c + 1)); kproj; [|apply lookup_insert_eq | lia | lia].
  rewrite insert_insert_eq. replace (c + 1 + Z.of_nat n) with (c + Z.of_nat (S n)) by lia. by destruct s.
Qed.

Lemma times_release s a x n :
  k_mutex s !! a = Some (set_m_lock (curr_task (k_tm s)) (Z.of_nat (S n)) x) ->
  Z.of_nat (S n) < 2 ^ 31 -> list_size (m_wait_list x) = 0 ->
  times (S n) (mutex_release a) s =
    Done tt (set_k_mutex (<[a := set_m_lock 0 0 x]> (k_mutex s)) s).
Proof.
  revert s. induction n as [|n IH]; intros s Hx Hn Hl.
  { simpl. kred. erewrite mutex_release_last; [|exact Hx | done | done | done]. kred. done. }
  cbn [times]. kred. erewrite mutex_release_nested; [|exact Hx | done |]; simpl m_locked_count;
    replace (Z.of_nat (S (S n)) - 1) with (Z.of_nat (S n)) by lia; rewrite i32_small by lia; [|lia].
  kred. change (times n ?y ≫= ?f) with (times n y ≫= f).
  match goal with |- obind _ (mutex_release a ?s1) = _ => pose proof (IH s1) as IH' end.
  cbn [times] in IH'. kred. autorewrite with krun in IH'. rewrite IH'; kproj.
  - rewrite insert_insert_eq. by destruct s.
  - apply lookup_insert_eq.
  - lia.
  - done.
Qed.

(** * Runs of semaphore operations by whichever task has the CPU *)
Inductive sem_op := OpWait | OpNotify.

Definition run_sem_op (a : Z) (o : sem_op) : K unit :=
  match o with OpWait => sem_wait a | OpNotify => sem_notify a end.

Definition op_delta (o : sem_op) : Z := match o with OpWait => -1 | OpNotify => 1 end.

Inductive sem_trace (a : Z) : kst -> list sem_op -> kst -> Prop :=
  | sem_trace_nil s : sem_trace a s [] s
  | sem_trace_cons s o s1 ops s2 :
      (o = OpWait -> curr_task (k_tm s) <> idle_task) ->
      leaves (run_sem_op a o s) = Some s1 -> sem_trace a s1 ops s2 ->
      sem_trace a s (o :: ops) s2.

(** The units left, minus the tasks that wait for one. *)
Definition sem_balance (x : asem) : Z := x_count x - Z.of_nat (length (x_waiters x)).

Lemma semaphore_inv_regs s v a x b c r :
  semaphore_inv s v a x -> semaphore_inv (set_k_if b (set_k_cr3 c (set_k_tr r s))) v a x.
Proof. intros [Hi Hs Hw Hwf]. split; [by apply sched_inv_regs | done | done | done]. Qed.

Lemma switched_leaves {A} b (a : A) v v' o s1 s2 :
  switched b a v v' o s1 -> leaves o = Some s2 ->
  s2 = s1 \/ exists task, s2 = enter_task task s1.
Proof.
  intros [[_ ->]|[_ (task & _ & _ & ->)]]; simpl; intros [= <-]; [by left | right; by exists task].
Qed.

Lemma dispatched_ready v : dispatched v -> v_curr v <> idle_task -> v_curr v ∈ v_ready v.
Proof.
  unfold dispatched, a_next. intros Hd Hid. destruct (v_ready v); simpl in *; [done|]. rewrite Hd. by left.
Qed.

Lemma sem_op_step s v a x o s1 :
  semaphore_inv s v a x -> dispatched v -> x_count x < 2 ^ 31 - 1 ->
  (o = OpWait -> curr_task (k_tm s) <> idle_task) -> leaves (run_sem_op a o s) = Some s1 ->
  exists v1 x1, semaphore_inv s1 v1 a x1 /\ dispatched v1 /\
    sem_balance x1 = sem_balance x + op_delta o /\ x_count x1 <= x_count x + 1.
Proof.
  intros Hx Hv Hb Ho Hl. destruct o; simpl in Hl.
  - assert (v_curr v ∈ v_ready v) as Hc.
    { apply dispatched_ready; [done|]. rewrite <- (si_curr s v (xi_sched _ _ _ _ Hx)). by apply Ho. }
    pose proof (sem_wait_run s v a x Hx Hc) as Hr. destruct (a_wait v x) as [v1 x1] eqn:E.
    destruct Hr as (s' & _ & Hi & Hsw). exists v1, x1. unfold a_wait in E. split_and!.
    + eapply switched_leaves in Hsw as [->|(task & ->)]; [done | by apply semaphore_inv_regs | done].
    + destruct (x_count x >? 0); injection E as <- <-; done.
    + unfold sem_balance. destruct (x_count x >? 0); injection E as <- <-; simpl; rewrite ?length_app; simpl; lia.
    + destruct (x_count x >? 0); injection E as <- <-; simpl; lia.
  - pose proof (sem_notify_run s v a x Hx Hb) as Hr. destruct (a_notify v x) as [v1 x1] eqn:E.
    destruct Hr as (s' & _ & Hi & Hsw). exists v1, x1. unfold a_notify in E. split_and!.
    + eapply switched_leaves in Hsw as [->|(task & ->)]; [done | by apply semaphore_inv_regs | done].
    + destruct (x_waiters x); injection E as <- <-; done.
    + unfold sem_balance. destruct (x_waiters x); injection E as <- <-; simpl; lia.
    + destruct (x_waiters x); injection E as <- <-; simpl; lia.
Qed.

Lemma sem_trace_balance a s ops s' :
  sem_trace a s ops s' -> forall v x,
  semaphore_inv s v a x -> dispatched v -> x_count x + Z.of_nat (length ops) < 2 ^ 31 ->
  exists v' x', semaphore_inv s' v' a x' /\ dispatched v' /\
    sem_balance x' = sem_balance x + foldr (fun o n => op_delta o + n) 0 ops.
Proof.
  induction 1 as [s|s o s1 ops s2 Ho Hl _ IH]; intros v x Hx Hv Hb.
  { exists v, x. simpl. rewrite Z.add_0_r. done. }
  cbn [length] in Hb.
  destruct (sem_op_step s v a x o s1 Hx Hv ltac:(lia) Ho Hl) as (v1 & x1 & Hx1 & Hv1 & Hb1 & Hc1).
  destruct (IH v1 x1 Hx1 Hv1 ltac:(lia)) as (v2 & x2 & Hx2 & Hv2 & Hb2).
  exists v2, x2. split_and!; [done | done |]. rewrite Hb2, Hb1. simpl. lia.
Qed.

(** * Runs of mutex operations by whichever task has the CPU *)
Inductive mutex_op := OpAcquire | OpRelease.

Definition run_mutex_op (a : Z) (o : mutex_op) : K unit :=
  match o with OpAcquire => mutex_acquire a | OpRelease => mutex_release a end.

Definition a_mutex_op (o : mutex_op) : sview -> amutex -> sview * amutex :=
  match o with OpAcquire => a_acquire | OpRelease => a_release end.

(** What may happen between two operations: yields, sleeps, and ticks within a slice. *)
Inductive lock_op := LockOp (o : mutex_op) | LockYield | LockSleep (ms : Z) | LockTick.

Definition run_lock_op (a : Z) (o : lock_op) : K unit :=
  match o with
  | LockOp o => run_mutex_op a o
  | LockYield => _ ← sys_sched_yield; mret tt
  | LockSleep ms => sys_sleep ms
  | LockTick => task_time_tick
  end.

Definition lock_op_ok (o : lock_op) (s : kst) : Prop :=
  match o with
  | LockTick => exists t, k_tasks s !! curr_task (k_tm s) = Some t /\ i32 (t_slice_ticks t - 1) <> 0
  | _ => curr_task (k_tm s) <> idle_task
  end.

(** The owner runs and has taken the mutex once: its next release is the last. *)
Definition gives_up (a : Z) (s : kst) : bool :=
  match k_mutex s !! a with
  | Some x => (m_owner x =? curr_task (k_tm s)) && (m_locked_count x =? 1)
  | None => false
  end.

Definition last_release (a : Z) (o : lock_op) (s : kst) : bool :=
  match o with LockOp OpRelease => gives_up a s | _ => false end.

(** [n] operations, [k] of which were last releases. *)
Inductive lock_trace (a : Z) : kst -> nat -> nat -> kst -> Prop :=
  | lock_trace_nil s : lock_trace a s 0 0 s
  | lock_trace_cons s o s1 n k s2 :
      lock_op_ok o s -> leaves (run_lock_op a o s) = Some s1 -> lock_trace a s1 n k s2 ->
      lock_trace a s (S n) ((if last_release a o s then 1 else 0) + k) s2.

Lemma lock_inv_regs s v a m b c r :
  lock_inv s v a m -> lock_inv (set_k_if b (set_k_cr3 c (set_k_tr r s))) v a m.
Proof. intros [Hi Hm Hw Hwf]. split; [by apply sched_inv_regs | done | done | done]. Qed.

(** A call of the scheduler that queues no other task leaves the lock as it is. *)
Lemma resched_lock {A} s v v' a m (x : A) o s2 :
  lock_inv s v a m -> resched s x v v' o -> leaves o = Some s2 ->
  (forall t, t ∈ v_ready v' ++ (v_sleep v').*1 -> t ∈ v_ready v ++ (v_sleep v).*1) ->
  lock_inv s2 v' a m.
Proof.
  intros [Hi (y & Hy & Ho & Hc & Hd) Hw Hwf] (s1 & Hs & Hi1 & Hr) Hl Hsub.
  assert (lock_inv s1 v' a m) as H1.
  { split; [done | | | done].
    - exists y. split_and!; [by destruct Hs as (? & ? & ? & -> & _) | done | done |].
      eapply (wait_list_sched s s1 v); [done | | done | done]. intros t. by apply (waiting_dom s v).
    - split; [apply Hw|]. intros t Ht. destruct (proj2 Hw t Ht) as (Hlv & Hid & Hn).
      split_and!; [by eapply sched_step_live | done |]. by intros ?%Hsub. }
  destruct Hr as [[_ ->]|[_ (task & _ & _ & ->)]]; simpl in Hl; injection Hl as <-; [done|].
  by apply lock_inv_regs.
Qed.

Lemma a_asleep_in t l : t ∈ (a_asleep l).*1 -> t ∈ l.*1.
Proof.
  unfold a_asleep. rewrite <- list_fmap_compose.
  intros ([t' n] & -> & [_ Hin]%list_elem_of_filter)%list_elem_of_fmap. by apply (list_elem_of_fmap_2 fst _ (t', n)).
Qed.

Lemma a_awake_in t l : t ∈ a_awake l -> t ∈ l.*1.
Proof.
  unfold a_awake. intros ([t' n] & -> & [_ Hin]%list_elem_of_filter)%list_elem_of_fmap.
  by apply (list_elem_of_fmap_2 fst _ (t', n)).
Qed.

(** The scheduler's calls queue only tasks that were queued. *)
Lemma a_yield_in v t :
  v_curr v ∈ v_ready v -> t ∈ v_ready (a_yield v) ++ (v_sleep (a_yield v)).*1 -> t ∈ v_ready v ++ (v_sleep v).*1.
Proof.
  intros Hc. unfold a_yield. destruct (_ <? _)%nat; [|done].
  simpl. rewrite !elem_of_app, list_elem_of_filter, list_elem_of_singleton. naive_solver.
Qed.

Lemma a_sleep_in v n t :
  v_curr v ∈ v_ready v -> t ∈ v_ready (a_sleep n v) ++ (v_sleep (a_sleep n v)).*1 -> t ∈ v_ready v ++ (v_sleep v).*1.
Proof.
  intros Hc. unfold a_sleep. simpl. rewrite fmap_app, !elem_of_app, list_elem_of_filter.
  destruct (n =? 0); simpl; rewrite ?list_elem_of_singleton, ?elem_of_nil; naive_solver.
Qed.

Lemma a_tick_in v t :
  t ∈ v_ready (a_tick_sleepers v) ++ (v_sleep (a_tick_sleepers v)).*1 -> t ∈ v_ready v ++ (v_sleep v).*1.
Proof.
  simpl. rewrite !elem_of_app. intros [[?|?%a_awake_in]|?%a_asleep_in]; tauto.
Qed.

(** The queue after a step: the head is gone if it was handed the mutex, and others may
    have joined behind. *)
Definition queue_step (handed : bool) (m m1 : amutex) : Prop :=
  a_count m1 <= a_count m + 1 /\
  if handed then AMutex (a_owner m1) (a_count m1) (a_waiters m1) =
      match a_waiters m with [] => AMutex 0 0 [] | w :: ws => AMutex w 1 ws end
  else a_waiters m `prefix_of` a_waiters m1.

Lemma gives_up_spec s v a m :
  lock_inv s v a m -> gives_up a s = (a_owner m =? v_curr v) && (a_count m =? 1).
Proof.
  intros [Hi (x & Hx & Ho & Hc & _) _ _]. unfold gives_up. by rewrite Hx, Ho, Hc, (si_curr s v Hi).
Qed.

Lemma release_leaves s v a m :
  lock_inv s v a m -> v_curr v ∈ v_ready v -> exists s1, leaves (mutex_release a s) = Some s1.
Proof.
  intros Hm Hc. pose proof (mutex_release_run s v a m Hm Hc) as Hr. destruct (a_release v m).
  destruct Hr as (s1 & _ & _ & [[_ ->]|[_ (task & _ & _ & ->)]]); by eexists.
Qed.

Lemma mutex_op_step s v a m o s1 :
  lock_inv s v a m -> dispatched v -> v_curr v ∈ v_ready v -> a_count m < 2 ^ 31 - 1 ->
  leaves (run_mutex_op a o s) = Some s1 ->
  exists v1 m1, lock_inv s1 v1 a m1 /\ dispatched v1 /\ queue_step (last_release a (LockOp o) s) m m1 /\
    (v1, m1) = a_mutex_op o v m.
Proof.
  intros Hm Hv Hc Hlt Hl. destruct (li_wf _ _ _ _ Hm) as (Hcc & H0 & Hwz & _).
  destruct o; cbn [run_mutex_op last_release a_mutex_op] in *.
  - pose proof (mutex_acquire_run s v a m Hm Hc Hlt) as Hr. destruct (a_acquire v m) as [v1 m1] eqn:E.
    destruct Hr as (s' & _ & Hi & Hsw). exists v1, m1. unfold a_acquire in E. split_and!; [| | |done].
    + destruct (switched_leaves _ _ _ _ _ _ _ Hsw Hl) as [->|(task & ->)]; [done | by apply lock_inv_regs].
    + repeat case_match; injection E as <- <-; done.
    + unfold queue_step. destruct (Z.eqb_spec (a_count m) 0) as [Hz|]; [|destruct (a_owner m =? v_curr v)]; injection E as <- <-;
        simpl; (split; [lia|]); [by rewrite Hwz | done | by apply prefix_app_r].
  - pose proof (mutex_release_run s v a m Hm Hc) as Hr. destruct (a_release v m) as [v1 m1] eqn:E.
    destruct Hr as (s' & _ & Hi & Hsw). exists v1, m1. unfold a_release in E. rewrite (gives_up_spec s v a m Hm).
    pose proof (li_curr_pos _ _ _ _ Hm Hc). split_and!; [| | |done].
    + destruct (switched_leaves _ _ _ _ _ _ _ Hsw Hl) as [->|(task & ->)]; [done | by apply lock_inv_regs].
    + repeat case_match; injection E as <- <-; done.
    + unfold queue_step. destruct (Z.eqb_spec (a_owner m) (v_curr v)) as [Eo|]; cbn [negb andb] in *;
        [|injection E as <- <-; simpl; split; [lia | done]].
      destruct (Z.gtb_spec (a_count m) 1), (Z.eqb_spec (a_count m) 1); try lia; destruct (a_waiters m);
        injection E as <- <-; simpl; (split; [lia | done]).
Qed.

Lemma lock_op_step s v a m o s1 :
  lock_inv s v a m -> dispatched v -> a_count m < 2 ^ 31 - 1 -> lock_op_ok o s ->
  leaves (run_lock_op a o s) = Some s1 ->
  exists v1 m1, lock_inv s1 v1 a m1 /\ dispatched v1 /\ queue_step (last_release a o s) m m1.
Proof.
  intros Hm Hv Hlt Ho Hl. pose proof (li_sched _ _ _ _ Hm) as Hi.
  assert (queue_step false m m) as Hq by (split; [lia | done]).
  assert (curr_task (k_tm s) <> idle_task -> v_curr v ∈ v_ready v) as Hc.
  { rewrite (si_curr s v Hi). by apply dispatched_ready. }
  destruct o as [o| | |]; cbn [run_lock_op last_release lock_op_ok] in *.
  - destruct (mutex_op_step s v a m o s1 Hm Hv (Hc Ho) Hlt Hl) as (v1 & m1 & ? & ? & ? & _). by exists v1, m1.
  - specialize (Hc Ho). exists (a_yield v), m. split_and!; [|by apply (dispatched_call CallYield)|done].
    eapply resched_lock; [done | eapply (resched_return s 0 tt), sys_sched_yield_resched; done | done | intros t; by apply a_yield_in].
  - specialize (Hc Ho). exists (a_sleep (sleep_ticks_of_ms ms) v), m. split_and!; [|done|done].
    eapply resched_lock; [done | by apply sys_sleep_resched | done | intros t; by apply a_sleep_in].
  - destruct Ho as (t & Ht & Hs). rewrite (si_curr s v Hi) in Ht. exists (a_dispatch (a_tick_sleepers v)), m. split_and!; [|done|done].
    eapply resched_lock; [done | by eapply task_time_tick_slice | done | intros t'; by apply a_tick_in].
Qed.

Lemma lock_trace_queue a s n k s' :
  lock_trace a s n k s' -> forall v m i w,
  lock_inv s v a m -> dispatched v -> a_count m + Z.of_nat n < 2 ^ 31 -> a_waiters m !! i = Some w -> (k <= i)%nat ->
  exists v' m', lock_inv s' v' a m' /\ dispatched v' /\ a_count m' <= a_count m + Z.of_nat n /\
    a_waiters m' !! (i - k)%nat = Some w.
Proof.
  induction 1 as [s|s o s1 n k s2 Ho Hl _ IH]; intros v m i w Hm Hv Hb Hw Hk.
  { exists v, m. rewrite Nat.sub_0_r. split_and!; [done | done | lia | done]. }
  destruct (lock_op_step s v a m o s1 Hm Hv ltac:(lia) Ho Hl) as (v1 & m1 & Hm1 & Hv1 & Hc1 & Hq).
  destruct (last_release a o s).
  - destruct i as [|i]; [lia|]. destruct (a_waiters m) as [|x ws]; [done|]. injection Hq as _ _ Eq.
    destruct (IH v1 m1 i w Hm1 Hv1) as (v' & m' & ? & ? & ? & Hw'); [lia | by rewrite Eq | lia |].
    exists v', m'. split_and!; [done | done | lia | exact Hw'].
  - destruct (IH v1 m1 i w Hm1 Hv1) as (v' & m' & ? & ? & ? & Hw'); [lia | by eapply prefix_lookup_Some | lia |].
    exists v', m'. split_and!; [done | done | lia | exact Hw'].
Qed.

(** * Properties *)

(** C5: [mutex_acquire] and [mutex_release] by a ready task implement the
    recursive first-come-first-served lock: they change the owner, the count and
    the queue of waiters as the abstract lock says, block the caller or wake the
    first waiter in the scheduler accordingly, keep the lock's invariant, and
    touch no other mutex and no semaphore. *)
Theorem mutex_refines s v a m o :
  lock_inv s v a m -> v_curr v ∈ v_ready v -> a_count m < 2 ^ 31 - 1 ->
  let '(v', m') := a_mutex_op o v m in
  exists s', mutex_step a (a_waiters m ++ a_waiters m') s s' /\ lock_inv s' v' a m' /\
    switched (k_if s) tt v v' (run_mutex_op a o s) s'.
Proof.
  intros Hl Hc Hlt. assert (forall ws ws' s s', ws ⊆ ws' -> mutex_step a ws s s' -> mutex_step a ws' s s') as Hmono.
  { intros ws ws' s1 s2 Hsub ((tm & h & ts & mx & sm & E & ? & ? & ? & Hn & ? & ?) & ? & ?).
    split_and!; [|done|done]. exists tm, h, ts, mx, sm. split_and!; try done.
    intros n Hr Hw. apply Hn; [done|]. intros (t & -> & Ht)%list_elem_of_fmap. apply Hw.
    by apply wait_node_fmap_in, Hsub. }
  destruct o; simpl.
  - pose proof (mutex_acquire_run s v a m Hl Hc Hlt) as Hr. destruct (a_acquire v m) as [v' m'].
    destruct Hr as (s' & Hs & ? & ?). exists s'. split_and!; [|done|done]. eapply Hmono; [|exact Hs]. set_solver.
  - pose proof (mutex_release_run s v a m Hl Hc) as Hr. destruct (a_release v m) as [v' m'].
    destruct Hr as (s' & Hs & ? & ?). exists s'. split_and!; [|done|done]. eapply Hmono; [|exact Hs]. set_solver.
Qed.

(** A task that takes a free mutex [n] times (fewer than 2^31) and releases
    it [n] times leaves the whole machine state as it found it, whatever [n]. *)
Theorem nested_critical_sections s a x n :
  k_mutex s !! a = Some x -> m_locked_count x = 0 -> m_owner x = 0 -> list_size (m_wait_list x) = 0 ->
  Z.of_nat n < 2 ^ 31 ->
  (times n (mutex_acquire a);; times n (mutex_release a)) s = Done tt s.
Proof.
  intros Hx Hc Ho Hl Hn. destruct n as [|n]; [done|].
  cbn [times]. kred. erewrite mutex_acquire_free by done. kred.
  erewrite (times_acquire _ a x n 1); kproj; [|apply lookup_insert_eq | lia | lia]. kred.
  match goal with |- obind _ (mutex_release a ?s1) = _ => pose proof (times_release s1 a x n) as Hr end.
  cbn [times] in Hr. autorewrite with krun in Hr. rewrite Hr; kproj.
  - rewrite !insert_insert_eq. unfold set_m_lock; simpl. rewrite insert_id; [by destruct s|].
    rewrite Hx. destruct x; simpl in *; subst. done.
  - rewrite lookup_insert_eq. do 2 f_equal. lia.
  - lia.
  - done.
Qed.

(** C25: a mutex is handed on first come first served, whoever else takes or releases it
    meanwhile: through any sequence of its operations, of yields, sleeps and ticks within a slice, a task
    with [i] waiters before it advances by one place at each last release of an owner
    and by nothing else, is not the owner until the [i+1]-th, and then owns the mutex, once,
    and is ready to run. *)
Theorem mutex_first_come s v a m i w n k s' :
  lock_inv s v a m -> dispatched v -> a_waiters m !! i = Some w -> a_count m + Z.of_nat n < 2 ^ 31 - 1 ->
  lock_trace a s n k s' -> (k <= i)%nat ->
  exists v' m', lock_inv s' v' a m' /\ dispatched v' /\ a_waiters m' !! (i - k)%nat = Some w /\ a_owner m' <> w /\
    (k = i -> curr_task (k_tm s') <> idle_task -> gives_up a s' = true ->
      exists s2 v2 m2, leaves (mutex_release a s') = Some s2 /\ lock_inv s2 v2 a m2 /\ a_owner m2 = w /\ a_count m2 = 1 /\ w ∈ v_ready v2).
Proof.
  intros Hm Hv Hw Hb Ht Hk. destruct (lock_trace_queue a s n k s' Ht v m i w Hm Hv ltac:(lia) Hw Hk) as (v' & m' & Hm' & Hv' & Hc' & Hw').
  exists v', m'. split_and!; [done | done | done | |].
  { destruct (li_wf _ _ _ _ Hm') as (_ & _ & _ & Hn). intros E. apply Hn. rewrite E. by eapply list_elem_of_lookup_2. }
  intros -> Hid Hg. rewrite Nat.sub_diag in Hw'. rewrite (si_curr s' v' (li_sched _ _ _ _ Hm')) in Hid.
  destruct (release_leaves s' v' a m' Hm' (dispatched_ready v' Hv' Hid)) as (s2 & Hl).
  destruct (mutex_op_step s' v' a m' OpRelease s2 Hm' Hv' (dispatched_ready v' Hv' Hid) ltac:(lia) Hl)
    as (v2 & m2 & Hm2 & _ & _ & E).
  exists s2, v2, m2. rewrite (gives_up_spec s' v' a m' Hm') in Hg. apply andb_prop in Hg as [Ho%Z.eqb_eq Hc%Z.eqb_eq].
  cbn [a_mutex_op] in E. unfold a_release in E. rewrite (proj2 (Z.eqb_eq _ _) Ho), Hc in E. cbn [negb] in E.
  change (1 >? 1) with false in E. destruct (a_waiters m') as [|x ws]; [done|]. injection Hw' as ->. injection E as -> ->.
  split_and!; [done | done | done | done |]. simpl. set_solver.
Qed.

Definition a_sem_op (o : sem_op) : sview -> asem -> sview * asem :=
  match o with OpWait => a_wait | OpNotify => a_notify end.

(** C6: [sem_wait] and [sem_notify] implement the counting semaphore: a wait takes
    a unit or blocks the caller at the tail of the queue, a notify wakes the head
    of the queue or adds a unit; the invariant is kept, and no other semaphore and
    no mutex is touched.  [sem_count] returns the number of units. *)
Theorem sem_refines s v a x o :
  semaphore_inv s v a x -> (o = OpWait -> v_curr v ∈ v_ready v) -> x_count x < 2 ^ 31 - 1 ->
  let '(v', x') := a_sem_op o v x in
  sem_count a s = Done (x_count x) s /\
  exists s' ws, sem_step a ws s s' /\ semaphore_inv s' v' a x' /\
    switched (k_if s) tt v v' (run_sem_op a o s) s'.
Proof.
  intros Hx Hc Hlt. destruct o; simpl.
  - pose proof (sem_wait_run s v a x Hx (Hc eq_refl)) as Hr. destruct (a_wait v x).
    split; [by eapply sem_count_run|]. destruct Hr as (s' & Hr). eauto.
  - pose proof (sem_notify_run s v a x Hx Hlt) as Hr. destruct (a_notify v x).
    split; [by eapply sem_count_run|]. destruct Hr as (s' & Hr). eauto.
Qed.

(** C24: whatever tasks run, units are neither lost nor made: after any sequence
    of waits and notifies the units left minus the tasks waiting is the initial
    value plus the notifies minus the waits, and tasks only wait when no unit is
    left (so no more waits have succeeded than there were units). *)
Theorem sem_conservation a s ops s' v x :
  sem_trace a s ops s' -> semaphore_inv s v a x -> dispatched v ->
  x_count x + Z.of_nat (length ops) < 2 ^ 31 ->
  exists v' x', semaphore_inv s' v' a x' /\ dispatched v' /\
    sem_balance x' = sem_balance x + foldr (fun o n => op_delta o + n) 0 ops.
Proof. intros Ht Hx Hv Hb. by eapply sem_trace_balance. Qed.

(** [mutex_init] does not store the name of a mutex in zeroed memory:
    [kstrcpy] stops where the destination's string ends. *)
Theorem mutex_init_drops_name s a m name :
  k_mutex s !! a = Some m -> hd 1 (m_name m) = 0 ->
  mutex_init a name s =
    Done tt (set_k_mutex (<[a := Mutex (m_name m) 0 0 list_init]> (k_mutex s)) s).
Proof.
  intros Hm Hn. unfold mutex_init, get_mutex. kred. rewrite Hm. kred.
  destruct (m_name m) as [|d r] eqn:E; simpl in Hn; [done|]. subst d. cbn [strcpy_array Z.eqb negb andb]. kred.
  done.
Qed.

End Ipc.
