(* ===== verification/Log.v ===== *)
(** The serial log of kernel/tools/log.c and the assertion handler of
    kernel/tools/klib.c. *)
From S2P Require Import Prelude DList Machine MachineFacts Klib Format Sched Ipc.

(** A C string of the current address space, as [kvsprintf] reads it for %s. *)
Fixpoint read_bytes (n : nat) (p : Z) : MM (list Z) :=
  match n with
  | O => mret []
  | S n => b ← load8 p; bs ← read_bytes n (p + 1); mret (b :: bs)
  end.

Definition read_cstr (p : Z) : MM (list Z) :=
  n ← kstrlen p; read_bytes (Z.to_nat n) p.

Definition deref (s : kst) (p : Z) : option (list Z) :=
  fst <$> read_cstr p (k_cr3 s) (k_mem s).

Section Log.
Context `{Layout} `{Device}.

Definition COM1_PORT : Z := 0x3f8.
Definition LOG_BUF_SIZE : nat := 128.

Definition log_init : K unit :=
  mutex_init log_mutex (cs "log");;
  outb (COM1_PORT + 1) 0x00;;
  outb (COM1_PORT + 3) 0x80;;
  outb (COM1_PORT + 0) 0x03;;
  outb (COM1_PORT + 1) 0x00;;
  outb (COM1_PORT + 3) 0x03;;
  outb (COM1_PORT + 2) 0xc7;;
  outb (COM1_PORT + 4) 0x0f.

(** [while ( *p != 0)] over the buffer; running off its end is undefined. *)
Fixpoint log_send (p : list Z) : K unit :=
  match p with
  | [] => kfault
  | c :: p =>
      if c =? 0 then mret tt
      else
        poll port_patience (COM1_PORT + 5) (Z.shiftl 1 6) (Z.shiftl 1 6);;
        outb COM1_PORT c;;
        log_send p
  end.

Definition log_printf (fmt : list Z) (args : list varg) : K unit :=
  s ← gets id;
  str_buf ← kopt (kvsprintf (deref s) (replicate LOG_BUF_SIZE 0) fmt args);
  mutex_acquire log_mutex;;
  log_send str_buf;;
  outb COM1_PORT 0x0d;;
  outb COM1_PORT 0x0a;;
  mutex_release log_mutex.

(** klib.c *)
Definition pannic (file : list Z) (line : Z) (func cond : list Z) : K unit :=
  log_printf (cs "assert failed! %s") [VStr cond];;
  log_printf (cs "file %s" ++ nl ++ cs "line: %d" ++ nl ++ cs "func: %s" ++ nl)
    [VStr (source_root ++ file); VInt line; VStr func];;
  hlt_forever.

(** klib.h: [ASSERT] *)
Definition ASSERT (expr : bool) (file : list Z) (line : Z) (func cond : list Z) : K unit :=
  if negb expr then pannic file line func cond else mret tt.

(** * The log line on the serial port *)

(** The transmitter is always ready. *)
Definition com1_ready : Prop :=
  (0 < port_patience)%nat /\ forall n, Z.land (u8 (port_in (COM1_PORT + 5) n)) 0x40 = 0x40.

Definition log_free (s : kst) : Prop := mutex_free s log_mutex.

(** [s] after the bytes [bs] went out on COM1, each after one read of the status. *)
Definition after_send (bs : list Z) (s : kst) : kst :=
  set_k_reads (length bs + k_reads s) (set_k_out (reverse (pair COM1_PORT <$> bs) ++ k_out s) s).

Lemma poll_ready s : com1_ready ->
  poll port_patience (COM1_PORT + 5) (Z.shiftl 1 6) (Z.shiftl 1 6) s = Done tt (set_k_reads (S (k_reads s)) s).
Proof.
  intros [Hp Hr]. destruct port_patience as [|n]; [lia|]. cbn [poll]. unfold inb. kred.
  change (Z.shiftl 1 6) with 0x40. rewrite Hr, Z.eqb_refl. by kred.
Qed.

Lemma log_send_run bs r : forall s,
  com1_ready -> str_bytes bs -> log_send (bs ++ 0 :: r) s = Done tt (after_send bs s).
Proof.
  induction bs as [|b bs IH]; intros s Hr Hb; cbn [log_send app].
  { change (0 =? 0) with true. kred. by destruct s. }
  apply Forall_cons in Hb as [Hb Hbs]. rewrite (proj2 (Z.eqb_neq b 0)) by lia. kred.
  rewrite poll_ready by done. unfold outb. kred. rewrite IH by done.
  unfold after_send. kproj. rewrite u8_small by lia. f_equal. rewrite fmap_cons, reverse_cons, <- app_assoc.
  cbn [length app]. by rewrite Nat.add_succ_r.
Qed.

Lemma log_printf_run s fmt args txt :
  com1_ready -> log_free s -> format_text (deref s) fmt false args = Some txt ->
  str_bytes txt -> (length txt < LOG_BUF_SIZE)%nat ->
  log_printf fmt args s =
    Done tt (set_k_reads (length txt + k_reads s)
      (set_k_out ((COM1_PORT, 0x0a) :: (COM1_PORT, 0x0d) :: reverse (pair COM1_PORT <$> txt) ++ k_out s) s)).
Proof.
  intros Hr (m & Hm & Hc & Ho & Hl) Et Hb Hlen. unfold log_printf. kred. cbn [id].
  rewrite (kvsprintf_text (deref s) fmt args txt LOG_BUF_SIZE Et Hlen). kred.
  erewrite mutex_acquire_free by done. kred.
  replace (LOG_BUF_SIZE - length txt)%nat with (S (LOG_BUF_SIZE - length txt - 1)) by lia.
  cbn [replicate]. rewrite log_send_run by done. unfold after_send, outb. kred.
  erewrite mutex_release_last; kproj; [|apply lookup_insert_eq|done|done|done].
  rewrite insert_insert_eq. unfold set_m_lock; simpl. rewrite insert_id; [by destruct s|].
  rewrite Hm. destruct m; simpl in *; subst. done.
Qed.

(** ** Logging without looking at the text *)

(** [s'] is [s] after some output on the serial line. *)
Definition logged (s s' : kst) : Prop := exists n o, s' = set_k_reads n (set_k_out o s).

Lemma logged_trans s1 s2 s3 : logged s1 s2 -> logged s2 s3 -> logged s1 s3.
Proof. intros (n & o & ->) (n' & o' & ->). exists n', o'. by destruct s1. Qed.

Lemma logged_free s s' : logged s s' -> log_free s -> log_free s'.
Proof. by intros (n & o & ->). Qed.

Lemma log_printf_room s fmt args n :
  com1_ready -> log_free s -> fmt_room fmt false args = Some n -> (n < LOG_BUF_SIZE)%nat ->
  exists s', log_printf fmt args s = Done tt s' /\ logged s s'.
Proof.
  intros Hr Hf En Hn. destruct (fmt_room_spec (deref s) fmt false args n En) as (txt & Et & Hb & Hl).
  eexists. split; [apply (log_printf_run s fmt args txt); try done; lia|]. by eexists _, _.
Qed.

Lemma log_bind {A} s fmt args n (k : unit -> K A) :
  com1_ready -> log_free s -> fmt_room fmt false args = Some n -> (n < LOG_BUF_SIZE)%nat ->
  exists s', (log_printf fmt args ≫= k) s = k tt s' /\ log_free s'.
Proof.
  intros Hr Hf En Hn. destruct (log_printf_room s fmt args n Hr Hf En Hn) as (s' & E & Hl).
  exists s'. rewrite run_bind, E. split; [done | by eapply logged_free].
Qed.

(** * Properties *)

(** [log_printf] sends the formatted text over COM1, byte by byte and in order,
    each byte after the transmitter was seen ready, then CR and LF, and changes
    nothing else, when the text has no 0 byte and fits its 128-byte buffer. *)
Theorem log_printf_sends_text s fmt args txt :
  com1_ready -> log_free s -> format_text (deref s) fmt false args = Some txt ->
  str_bytes txt -> (length txt < LOG_BUF_SIZE)%nat ->
  exists n, log_printf fmt args s =
    Done tt (set_k_reads n
      (set_k_out (reverse (pair COM1_PORT <$> txt ++ [0x0d; 0x0a]) ++ k_out s) s)).
Proof.
  intros. eexists. erewrite log_printf_run by done. do 2 f_equal. f_equal.
  by rewrite fmap_app, reverse_app.
Qed.

(** a failed assertion never returns: after its two log lines the kernel halts;
    an assertion that holds does nothing. *)
Lemma assert_halts s file line func cond t1 t2 :
  com1_ready -> log_free s ->
  format_text (deref s) (cs "assert failed! %s") false [VStr cond] = Some t1 ->
  format_text (deref s) (cs "file %s" ++ nl ++ cs "line: %d" ++ nl ++ cs "func: %s" ++ nl) false
    [VStr (source_root ++ file); VInt line; VStr func] = Some t2 ->
  str_bytes t1 -> str_bytes t2 -> (length t1 < LOG_BUF_SIZE)%nat -> (length t2 < LOG_BUF_SIZE)%nat ->
  (exists s', ASSERT false file line func cond s = Halted s') /\
  ASSERT true file line func cond s = Done tt s.
Proof.
  intros Hr Hf E1 E2 Hb1 Hb2 Hl1 Hl2. split; [|done].
  unfold ASSERT, pannic. cbn [negb]. kred. erewrite log_printf_run by done. kred.
  erewrite log_printf_run; [|done | | | exact Hb2 | done]; kproj; [|exact Hf | exact E2].
  kred. by eexists.
Qed.


End Log.

(** One log line of a computation, its text bounded by evaluation. *)
Ltac log_line :=
  match goal with
  | Hr : com1_ready, Hf : log_free ?s |- context [(log_printf ?fmt ?args ≫= ?k) ?s] =>
      let s' := fresh "s" in let E := fresh "E" in let Hf' := fresh "Hf" in
      edestruct (fun n => log_bind s fmt args n k Hr Hf) as (s' & E & Hf'); [reflexivity | unfold LOG_BUF_SIZE; simpl; lia |];
      rewrite E; clear E Hf
  end.
