(* ===== verification/Cpu.v ===== *)
(** Segment and gate descriptors, and the GDT, of kernel/cpu/cpu.c. *)
From S2P Require Import Prelude DList Machine MachineFacts Klib Sched Ipc.

(** os_cfg.h *)
Definition GDT_TABLE_SIZE : nat := 256.
Definition KERNEL_SELECTOR_CS : Z := 1 * 8.
Definition KERNEL_SELECTOR_DS : Z := 2 * 8.
Definition SELECTOR_SYSCALL : Z := 3 * 8.

(** cpu.h *)
Definition EFLAGS_DEFAULT : Z := Z.shiftl 1 1.
Definition EFLAGS_IF : Z := Z.shiftl 1 9.
Definition SEG_G : Z := Z.shiftl 1 15.
Definition SEG_D : Z := Z.shiftl 1 14.
Definition SEG_P_PRESENT : Z := Z.shiftl 1 7.
Definition SEG_DPL0 : Z := Z.shiftl 0 5.
Definition SEG_DPL3 : Z := Z.shiftl 3 5.
Definition SEG_RPL3 : Z := Z.shiftl 3 0.
Definition SEG_S_SYSTEM : Z := Z.shiftl 0 4.
Definition SEG_S_NORMAL : Z := Z.shiftl 1 4.
Definition SEG_TYPE_CODE : Z := Z.shiftl 1 3.
Definition SEG_TYPE_DATA : Z := Z.shiftl 0 3.
Definition SEG_TYPE_TSS : Z := Z.shiftl 9 0.
Definition SEG_TYPE_RW : Z := Z.shiftl 1 1.
Definition GATE_P_PRESENT : Z := Z.shiftl 1 15.
Definition GATE_DPL0 : Z := Z.shiftl 0 13.
Definition GATE_DPL3 : Z := Z.shiftl 3 13.
Definition GATE_TYPE_INT : Z := Z.shiftl 0xE 8.
Definition GATE_TYPE_SYSCALL : Z := Z.shiftl 0xC 8.

(** syscall.h *)
Definition SYSCALL_PARAM_COUNT : Z := 5.

(** The or of a list of flags. *)
Definition flags (l : list Z) : Z := foldr Z.lor 0 l.

Definition ATTR_KERNEL_DATA : Z :=
  flags [SEG_P_PRESENT; SEG_DPL0; SEG_S_NORMAL; SEG_TYPE_DATA; SEG_TYPE_RW; SEG_D].
Definition ATTR_KERNEL_CODE : Z :=
  flags [SEG_P_PRESENT; SEG_DPL0; SEG_S_NORMAL; SEG_TYPE_CODE; SEG_TYPE_RW; SEG_D].
Definition ATTR_USER_DATA : Z :=
  flags [SEG_P_PRESENT; SEG_DPL3; SEG_S_NORMAL; SEG_TYPE_DATA; SEG_TYPE_RW; SEG_D].
Definition ATTR_USER_CODE : Z :=
  flags [SEG_P_PRESENT; SEG_DPL3; SEG_S_NORMAL; SEG_TYPE_CODE; SEG_TYPE_RW; SEG_D].
Definition ATTR_TSS : Z := flags [SEG_P_PRESENT; SEG_DPL0; SEG_TYPE_TSS].
Definition ATTR_SYSCALL : Z :=
  flags [GATE_P_PRESENT; GATE_DPL3; GATE_TYPE_SYSCALL; SYSCALL_PARAM_COUNT].
Definition ATTR_INT : Z := flags [GATE_P_PRESENT; GATE_DPL0; GATE_TYPE_INT].

(** The fields [segment_desc_set] writes. *)
Definition segment_desc (base limit attr : Z) : segment_desc_t :=
  let '(attr, limit) :=
    if limit >? 0xfffff then (u16 (Z.lor attr SEG_G), limit / 0x1000) else (attr, limit) in
  SegmentDesc (u16 (Z.land limit 0xffff)) (u16 (Z.land base 0xffff))
    (u8 (Z.land (Z.shiftr base 16) 0xff))
    (u16 (Z.lor attr (Z.shiftl (Z.land (Z.shiftr limit 16) 0xf) 8)))
    (u8 (Z.land (Z.shiftr base 24) 0xff)).

(** The fields [gate_desc_set] writes. *)
Definition gate_desc (selector offset attr : Z) : gate_desc_t :=
  GateDesc (u16 (Z.land offset 0xffff)) (u16 selector) (u16 attr)
    (u16 (Z.land (Z.shiftr offset 16) 0xffff)).

(** The eight bytes of a gate, read as a segment descriptor. *)
Definition segment_of_gate (g : gate_desc_t) : segment_desc_t :=
  SegmentDesc (gd_offset15_0 g) (gd_selector g) (u8 (gd_attr g))
    (gd_attr g / 2 ^ 8 + 2 ^ 8 * u8 (gd_offset31_16 g)) (gd_offset31_16 g / 2 ^ 8).

(** [gdt_table[i] = d]; outside the table, undefined. *)
Definition gdt_put (i : Z) (d : segment_desc_t) : K unit :=
  t ← gets k_gdt;
  if i <? Z.of_nat (length t) then modify (set_k_gdt (<[Z.to_nat i := d]> t)) else kfault.

(** [selector / sizeof(segment_desc_t)] is an unsigned division. *)
Definition gdt_index (selector : Z) : Z := u32 selector / 8.

Definition segment_desc_set (selector base limit attr : Z) : K unit :=
  gdt_put (gdt_index selector) (segment_desc base limit attr).

Section Cpu.
Context `{Layout}.

Fixpoint init_gdt_loop (n : nat) (i : Z) : K unit :=
  match n with
  | O => mret tt
  | S n => segment_desc_set (i * 8) 0 0 0;; init_gdt_loop n (i + 1)
  end.

Definition init_gdt : K unit :=
  init_gdt_loop GDT_TABLE_SIZE 0;;
  segment_desc_set KERNEL_SELECTOR_DS 0 0xffffffff ATTR_KERNEL_DATA;;
  segment_desc_set KERNEL_SELECTOR_CS 0 0xffffffff ATTR_KERNEL_CODE;;
  gdt_put (Z.shiftr SELECTOR_SYSCALL 3)
    (segment_of_gate (gate_desc KERNEL_SELECTOR_CS exception_handler_syscall ATTR_SYSCALL));;
  lgdt gdt_table (Z.of_nat GDT_TABLE_SIZE * 8).

Definition cpu_init : K unit :=
  mutex_init gdt_mutex (cs "cpu: gdt");;
  init_gdt.

(** The first free entry from index [i] on. *)
Fixpoint gdt_find (t : list segment_desc_t) (i : Z) : Z :=
  match t with
  | [] => -1
  | d :: t => if sd_attr d =? 0 then i * 8 else gdt_find t (i + 1)
  end.

(** The loop starts at entry 1. *)
Definition gdt_alloc_desc : K Z :=
  mutex_acquire gdt_mutex;;
  t ← gets k_gdt;
  let sel := gdt_find (tail t) 1 in
  mutex_release gdt_mutex;;
  mret sel.

Definition gdt_free_sel (sel : Z) : K unit :=
  mutex_acquire gdt_mutex;;
  t ← gets k_gdt;
  d ← kopt (t !! Z.to_nat (gdt_index sel));
  gdt_put (gdt_index sel) (set_sd_attr 0 d);;
  mutex_release gdt_mutex.

(** * The descriptor as the processor reads it *)

(** The limit in bytes: in 4 KiB units when the G bit is set. *)
Definition desc_limit (d : segment_desc_t) : Z :=
  let l := sd_limit15_0 d + 2 ^ 16 * (sd_attr d / 2 ^ 8 mod 2 ^ 4) in
  if Z.testbit (sd_attr d) 15 then l * 4096 + 4095 else l.

(** The bytes of a segment descriptor, read as a gate. *)
Definition gate_of_segment (d : segment_desc_t) : gate_desc_t :=
  GateDesc (sd_limit15_0 d) (sd_base15_0 d) (sd_base23_16 d + 2 ^ 8 * (sd_attr d mod 2 ^ 8))
    (sd_attr d / 2 ^ 8 + 2 ^ 8 * sd_base31_24 d).

Definition gate_offset (g : gate_desc_t) : Z := gd_offset15_0 g + 2 ^ 16 * gd_offset31_16 g.

(** The attribute bits without those that hold the limit and G. *)
Definition desc_attr (d : segment_desc_t) : Z := Z.land (sd_attr d) 0x70ff.

Lemma land_16 x : Z.land x 0xffff = x mod 2 ^ 16.
Proof. apply (land_ones_mod x 16). lia. Qed.

Lemma land_8 x : Z.land x 0xff = x mod 2 ^ 8.
Proof. apply (land_ones_mod x 8). lia. Qed.

Lemma land_4 x : Z.land x 0xf = x mod 2 ^ 4.
Proof. apply (land_ones_mod x 4). lia. Qed.

Lemma segment_desc_base base limit attr :
  0 <= base < 2 ^ 32 -> desc_base (segment_desc base limit attr) = base.
Proof.
  intros Hb. unfold desc_base, segment_desc. destruct (limit >? 0xfffff); cbn [sd_base15_0 sd_base23_16 sd_base31_24];
    rewrite land_16, !land_8, !Z.shiftr_div_pow2 by lia; unfold u16, u8;
    rewrite !Z.mod_mod by lia; pose proof (bytes_of_word base) as Hw; rewrite u32_small in Hw by done;
    unfold u8 in Hw; change (2 ^ 8) with 256 in *; change (2 ^ 16) with 65536 in *;
    change (2 ^ 24) with 16777216 in *; zdiv.
Qed.

Lemma gate_of_segment_of_gate sel a attr :
  gate_of_segment (segment_of_gate (gate_desc sel a attr)) = gate_desc sel a attr.
Proof.
  unfold gate_of_segment, segment_of_gate, gate_desc. cbn. rewrite !land_16. unfold u16, u8.
  change (2 ^ 8) with 256. change (2 ^ 16) with 65536. f_equal; zdiv.
Qed.

Lemma gate_offset_desc sel a attr : 0 <= a < 2 ^ 32 -> gate_offset (gate_desc sel a attr) = a.
Proof.
  intros Ha. unfold gate_offset, gate_desc. cbn [gd_offset15_0 gd_offset31_16].
  rewrite !land_16, Z.shiftr_div_pow2 by lia. unfold u16. change (2 ^ 16) with 65536. zdiv.
Qed.

(** Packing [n < 16] into bits 8 to 11 of an attribute word that has none of them. *)
Lemma attr_pack attr n :
  0 <= attr < 2 ^ 16 -> Z.land attr 0x0f00 = 0 -> 0 <= n < 16 ->
  let a := u16 (Z.lor attr (Z.shiftl n 8)) in
  a / 2 ^ 8 mod 2 ^ 4 = n /\ Z.testbit a 15 = Z.testbit attr 15 /\ Z.land a 0x70ff = Z.land attr 0x70ff.
Proof.
  intros Ha H0 Hn a.
  assert (Z.shiftl n 8 < 2 ^ 16) by (rewrite Z.shiftl_mul_pow2; lia).
  assert (forall k, 0 <= k -> Z.testbit a k = Z.testbit attr k || Z.testbit (Z.shiftl n 8) k) as Hbit.
  { intros k Hk. unfold a, u16. destruct (decide (k < 16)).
    - rewrite Z.mod_pow2_bits_low by lia. apply Z.lor_spec.
    - rewrite Z.mod_pow2_bits_high by lia. symmetry. apply orb_false_iff.
      split; rewrite <- (Z.mod_small _ (2 ^ 16)) by (rewrite ?Z.shiftl_mul_pow2 in *; lia);
        apply Z.mod_pow2_bits_high; lia. }
  assert (forall k, Z.testbit n k = true -> 0 <= k < 4) as Hnk.
  { intros k Hk. destruct (decide (0 <= k)); [|by rewrite Z.testbit_neg_r in Hk by lia].
    split; [done|]. destruct (decide (k < 4)); [done|].
    rewrite <- (Z.mod_small n (2 ^ 4)) in Hk by lia. by rewrite Z.mod_pow2_bits_high in Hk by lia. }
  assert (forall k, 0 <= k -> Z.testbit (Z.shiftl n 8) k = Z.testbit n (k - 8)) as Hsh.
  { intros k Hk. apply Z.shiftl_spec. done. }
  assert (forall k, 8 <= k < 12 -> Z.testbit attr k = false) as Hlow.
  { intros k Hk. pose proof (f_equal (fun z => Z.testbit z k) H0) as E. simpl in E.
    rewrite Z.land_spec, Z.bits_0 in E.
    assert (Z.testbit 3840 k = true) as Ek.
    { assert (k = 8 \/ k = 9 \/ k = 10 \/ k = 11) as [->|[->|[->| ->]]] by lia; done. }
    rewrite Ek, andb_true_r in E. done. }
  split_and!.
  - apply Z.bits_inj'. intros k Hk. destruct (decide (k < 4)).
    + rewrite Z.mod_pow2_bits_low, Z.div_pow2_bits by lia. rewrite Hbit, Hlow, Hsh by lia. simpl. f_equal. lia.
    + rewrite Z.mod_pow2_bits_high by lia. destruct (Z.testbit n k) eqn:E; [|done]. apply Hnk in E. lia.
  - rewrite Hbit, Hsh by lia. destruct (Z.testbit n (15 - 8)) eqn:E; [|by rewrite orb_false_r].
    apply Hnk in E. lia.
  - apply Z.bits_inj'. intros k Hk. rewrite !Z.land_spec, Hbit, Hsh by lia.
    destruct (Z.testbit n (k - 8)) eqn:E; [|by rewrite orb_false_r]. apply Hnk in E.
    assert (Z.testbit 28927 k = false) as ->; [|by rewrite !andb_false_r].
    assert (k = 8 \/ k = 9 \/ k = 10 \/ k = 11) as [->|[->|[->| ->]]] by lia; done.
Qed.

(** Setting G. *)
Lemma attr_granular attr :
  0 <= attr < 2 ^ 16 -> Z.land attr 0x0f00 = 0 ->
  let a := u16 (Z.lor attr SEG_G) in
  0 <= a < 2 ^ 16 /\ Z.land a 0x0f00 = 0 /\ Z.testbit a 15 = true /\ Z.land a 0x70ff = Z.land attr 0x70ff.
Proof.
  intros Ha H0 a. assert (0 <= Z.lor attr SEG_G < 2 ^ 16) as Hr.
  { assert (0 < SEG_G) by done. assert (0 <= Z.lor attr SEG_G) by (apply Z.lor_nonneg; lia). split; [done|].
    destruct (decide (Z.lor attr SEG_G = 0)) as [->|Hne]; [lia|].
    apply Z.log2_lt_pow2; [lia|]. rewrite Z.log2_lor by lia. change (Z.log2 SEG_G) with 15.
    destruct (decide (attr = 0)) as [->|]; [done|]. apply Z.max_lub_lt; [apply Z.log2_lt_pow2; lia | lia]. }
  assert (a = Z.lor attr SEG_G) as -> by (by apply Z.mod_small).
  split_and!; [lia | lia | | |].
  - by rewrite Z.land_lor_distr_l, H0.
  - rewrite Z.lor_spec. apply orb_true_r.
  - rewrite Z.land_lor_distr_l. apply Z.lor_0_r.
Qed.

(** * The table *)
Lemma gdt_put_run s i d :
  i < Z.of_nat (length (k_gdt s)) -> gdt_put i d s = Done tt (set_k_gdt (<[Z.to_nat i := d]> (k_gdt s)) s).
Proof. intros Hi. unfold gdt_put. kred. by rewrite (proj2 (Z.ltb_lt _ _)) by done. Qed.

Lemma gdt_find_spec t : forall i,
  0 <= i ->
  (gdt_find t i = -1 /\ Forall (fun d => sd_attr d <> 0) t) \/
  exists k d, gdt_find t i = (i + Z.of_nat k) * 8 /\ t !! k = Some d /\ sd_attr d = 0 /\
    Forall (fun d => sd_attr d <> 0) (take k t).
Proof.
  induction t as [|d t IH]; intros i Hi; cbn [gdt_find]; [by left; split|].
  destruct (Z.eqb_spec (sd_attr d) 0) as [E|E].
  - right. exists O, d. split_and!; [lia | done | done | constructor].
  - destruct (IH (i + 1) ltac:(lia)) as [[-> Hf]|(k & d' & -> & Hk & Hd & Hf)].
    + left. split; [done|]. by constructor.
    + right. exists (S k), d'. split_and!; [lia | done | done |]. simpl. by constructor.
Qed.

Lemma gdt_alloc_desc_run s :
  mutex_free s gdt_mutex -> gdt_alloc_desc s = Done (gdt_find (tail (k_gdt s)) 1) s.
Proof.
  intros Hf. unfold gdt_alloc_desc. kred. rewrite acquire_locked by done. kred.
  rewrite (release_locked s) by done. kred. unfold locked. by destruct s.
Qed.

Lemma gdt_free_sel_run s sel d :
  mutex_free s gdt_mutex -> k_gdt s !! Z.to_nat (gdt_index sel) = Some d ->
  gdt_free_sel sel s = Done tt (set_k_gdt (<[Z.to_nat (gdt_index sel) := set_sd_attr 0 d]> (k_gdt s)) s).
Proof.
  intros Hf Hd. unfold gdt_free_sel. kred. rewrite acquire_locked by done. kred.
  unfold locked at 1. kproj. rewrite Hd. kred. rewrite gdt_put_run.
  - kred. rewrite (release_locked s) by done. unfold locked. by destruct s.
  - apply lookup_lt_Some in Hd. unfold locked. kproj.
    pose proof (Z.div_pos (u32 sel) 8 ltac:(apply u32_range) ltac:(lia)). unfold gdt_index in *. lia.
Qed.

Lemma segment_desc_set_run s sel base limit attr :
  0 <= gdt_index sel < Z.of_nat (length (k_gdt s)) ->
  segment_desc_set sel base limit attr s =
    Done tt (set_k_gdt (<[Z.to_nat (gdt_index sel) := segment_desc base limit attr]> (k_gdt s)) s).
Proof. intros. unfold segment_desc_set. by rewrite gdt_put_run by lia. Qed.

Lemma gdt_index_sel i : 0 <= i -> i * 8 < 2 ^ 32 -> gdt_index (i * 8) = i.
Proof. intros. unfold gdt_index. rewrite u32_small by lia. apply Z.div_mul. lia. Qed.

Lemma init_gdt_loop_run n : forall i s,
  0 <= i -> i + Z.of_nat n <= Z.of_nat (length (k_gdt s)) -> Z.of_nat (length (k_gdt s)) <= 2 ^ 16 ->
  init_gdt_loop n i s =
    Done tt (set_k_gdt (take (Z.to_nat i) (k_gdt s) ++ replicate n (segment_desc 0 0 0)
                          ++ drop (Z.to_nat i + n) (k_gdt s)) s).
Proof.
  induction n as [|n IH]; intros i s Hi Hn Hl; cbn [init_gdt_loop].
  { kred. cbn [replicate app]. rewrite Nat.add_0_r, take_drop. by destruct s. }
  kred. unfold segment_desc_set. rewrite gdt_index_sel by lia. rewrite gdt_put_run by lia. kred.
  rewrite IH by (kproj; rewrite ?length_insert; lia). kproj.
  match goal with |- Done tt (set_k_gdt ?x _) = Done tt (set_k_gdt ?y _) => enough (x = y) as ->; [done|] end.
  replace (Z.to_nat (i + 1)) with (S (Z.to_nat i)) by lia.
  rewrite (take_S_r _ _ (segment_desc 0 0 0)) by (apply list_lookup_insert_eq; lia).
  rewrite take_insert_ge, drop_insert_lt by lia. rewrite <- app_assoc. cbn [replicate app].
  do 4 f_equal. lia.
Qed.

Lemma descriptor_fields base limit attr :
  0 <= base < 2 ^ 32 -> 0 <= limit < 2 ^ 32 -> 0 <= attr < 2 ^ 16 -> Z.land attr 0x8f00 = 0 ->
  let d := segment_desc base limit attr in
  desc_base d = base /\
  desc_limit d = (if limit >? 0xfffff then limit / 4096 * 4096 + 4095 else limit) /\
  desc_attr d = Z.land attr 0x70ff.
Proof.
  intros Hb Hl Ha H0 d. split; [by apply segment_desc_base|].
  assert (Z.land attr 0x0f00 = 0) as H1.
  { change 0x0f00 with (Z.land 0x8f00 0x0f00). by rewrite Z.land_assoc, H0. }
  assert (Z.testbit attr 15 = false) as H15.
  { pose proof (f_equal (fun z => Z.testbit z 15) H0) as E. cbn beta in E. rewrite Z.land_spec, Z.bits_0 in E.
    change (Z.testbit 36608 15) with true in E. by rewrite andb_true_r in E. }
  unfold desc_limit, desc_attr, d, segment_desc. destruct (Z.gtb_spec limit 0xfffff) as [Hgt|Hle];
    cbn [sd_limit15_0 sd_attr].
  - destruct (attr_granular attr Ha H1) as (HG1 & HG2 & HG3 & HG4).
    destruct (attr_pack (u16 (Z.lor attr SEG_G)) (Z.land (Z.shiftr (limit / 0x1000) 16) 0xf)) as (E1 & E2 & E3); try done.
    { rewrite land_4. apply Z.mod_pos_bound. lia. }
    rewrite E1, E2, E3, HG3, HG4, land_16, land_4, Z.shiftr_div_pow2 by lia. split; [|done].
    unfold u16. rewrite Z.mod_mod by lia. change 0x1000 with 4096. zdiv.
  - destruct (attr_pack attr (Z.land (Z.shiftr limit 16) 0xf)) as (E1 & E2 & E3); try done.
    { rewrite land_4. apply Z.mod_pos_bound. lia. }
    rewrite E1, E2, E3, H15, land_16, land_4, Z.shiftr_div_pow2 by lia. split; [|done].
    unfold u16. rewrite Z.mod_mod by lia. zdiv.
Qed.

(** A descriptor with some attribute bit set is not a free entry. *)
Lemma segment_desc_used base limit attr :
  0 <= base < 2 ^ 32 -> 0 <= limit < 2 ^ 32 -> 0 <= attr < 2 ^ 16 -> Z.land attr 0x8f00 = 0 ->
  Z.land attr 0x70ff <> 0 -> sd_attr (segment_desc base limit attr) <> 0.
Proof.
  intros Hb Hl Ha H0 Hne E. apply Hne.
  destruct (descriptor_fields base limit attr Hb Hl Ha H0) as (_ & _ & <-).
  unfold desc_attr. by rewrite E.
Qed.

(** The search as a function of the entries in use. *)
Lemma gdt_find_insert_used t k d i :
  sd_attr d <> 0 -> 0 <= i -> (k < length t)%nat -> gdt_find (<[k := d]> t) i <> (i + Z.of_nat k) * 8.
Proof.
  intros Hd Hi Hk E.
  destruct (gdt_find_spec (<[k := d]> t) i Hi) as [[E' _]|(k' & d' & E' & Hl & H0 & _)]; rewrite E in E'; [lia|].
  assert (k' = k) as -> by lia. rewrite list_lookup_insert_eq in Hl by done. congruence.
Qed.

Lemma gdt_find_insert_free t k d i :
  sd_attr d = 0 -> 0 <= i -> (k < length t)%nat -> Forall (fun d => sd_attr d <> 0) (take k t) ->
  gdt_find (<[k := d]> t) i = (i + Z.of_nat k) * 8.
Proof.
  intros Hd. revert t i. induction k as [|k IH]; intros t i Hi Hk Hf; (destruct t as [|x t]; [simpl in Hk; lia|]).
  - simpl. rewrite Hd. simpl. lia.
  - simpl in Hf |- *. apply Forall_cons in Hf as [Hx Hf]. rewrite (proj2 (Z.eqb_neq _ 0)) by done.
    rewrite IH by (done || simpl in Hk; lia). lia.
Qed.

Lemma tail_insert_S {A} (t : list A) k x : tail (<[S k := x]> t) = <[k := x]> (tail t).
Proof. by destruct t. Qed.

(** The table [init_gdt] leaves. *)
Definition syscall_gate : segment_desc_t :=
  segment_of_gate (gate_desc KERNEL_SELECTOR_CS exception_handler_syscall ATTR_SYSCALL).

Definition boot_gdt : list segment_desc_t :=
  segment_desc 0 0 0 :: segment_desc 0 0xffffffff ATTR_KERNEL_CODE :: segment_desc 0 0xffffffff ATTR_KERNEL_DATA ::
  syscall_gate :: replicate 252 (segment_desc 0 0 0).

Lemma init_gdt_run s :
  length (k_gdt s) = GDT_TABLE_SIZE -> init_gdt s = Done tt (set_k_gdtr (gdt_table, 2047) (set_k_gdt boot_gdt s)).
Proof.
  intros Hl. unfold init_gdt. kred. rewrite init_gdt_loop_run by (rewrite ?Hl; done).
  change (Z.to_nat 0) with 0%nat. rewrite take_0, drop_ge by (rewrite Hl; done). cbn [app]. rewrite app_nil_r.
  kred. rewrite segment_desc_set_run by done. kred. rewrite segment_desc_set_run by done. kred.
  by rewrite gdt_put_run by done.
Qed.

Lemma cpu_init_run s :
  cold_mutex s gdt_mutex -> length (k_gdt s) = GDT_TABLE_SIZE ->
  exists m, mutex_free (set_k_mutex (<[gdt_mutex := m]> (k_mutex s)) s) gdt_mutex /\
    cpu_init s = Done tt (set_k_gdtr (gdt_table, 2047) (set_k_gdt boot_gdt (set_k_mutex (<[gdt_mutex := m]> (k_mutex s)) s))).
Proof.
  intros Hc Hl. destruct (mutex_init_run s gdt_mutex (cs "cpu: gdt") Hc) as (m & E & Hm). exists m. split; [done|].
  unfold cpu_init. rewrite run_bind, E. cbn [obind]. by rewrite init_gdt_run.
Qed.

(** * Properties *)

(** C35: a descriptor goes into the GDT, and only there, at its selector's index, and what
    [segment_desc_set] packs is what the processor unpacks: the base is the one given;
    the limit is the one given up to 1 MiB, and above the last byte of the 4 KiB page
    it lies in; the other attribute bits are unchanged.  A gate stored in an entry as
    [init_gdt] stores the system call's keeps its selector, its offset and its
    attributes. *)
Theorem descriptor_round_trip s sel base limit attr :
  0 <= gdt_index sel < Z.of_nat (length (k_gdt s)) ->
  0 <= base < 2 ^ 32 -> 0 <= limit < 2 ^ 32 -> 0 <= attr < 2 ^ 16 ->
  let i := Z.to_nat (gdt_index sel) in
  let stored run d := exists t, run s = Done tt (set_k_gdt t s) /\ length t = length (k_gdt s) /\
    t !! i = Some d /\ forall j, j <> i -> t !! j = k_gdt s !! j in
  (Z.land attr 0x8f00 = 0 -> exists d, stored (segment_desc_set sel base limit attr) d /\
    desc_base d = base /\
    desc_limit d = (if limit >? 0xfffff then limit / 4096 * 4096 + 4095 else limit) /\
    desc_attr d = Z.land attr 0x70ff) /\
  forall selector, 0 <= selector < 2 ^ 16 ->
    exists d, stored (gdt_put (gdt_index sel) (segment_of_gate (gate_desc selector base attr))) d /\
      gd_selector (gate_of_segment d) = selector /\ gate_offset (gate_of_segment d) = base /\
      gd_attr (gate_of_segment d) = attr.
Proof.
  intros Hi Hb Hl Ha i stored.
  assert (forall run d, run s = Done tt (set_k_gdt (<[i := d]> (k_gdt s)) s) -> stored run d) as Hst.
  { intros run d E. exists (<[i := d]> (k_gdt s)). split_and!; [done | apply length_insert | |].
    - apply list_lookup_insert_eq. unfold i. lia.
    - intros j Hj. by rewrite list_lookup_insert_ne. }
  split.
  - intros H0. eexists. split; [apply Hst; by apply segment_desc_set_run | by apply descriptor_fields].
  - intros selector Hs. eexists. split; [apply Hst, gdt_put_run; lia|].
    rewrite gate_of_segment_of_gate, gate_offset_desc by done. unfold gate_desc. cbn [gd_selector gd_attr].
    unfold u16. split_and!; [by apply Z.mod_small | done | by apply Z.mod_small].
Qed.

(** [gdt_alloc_desc] returns the selector of the first free entry after entry 0
    (which is never handed out), or -1 when there is none, and changes nothing: the
    entry is not reserved, so until [segment_desc_set] writes it the same selector is
    returned again. *)
Theorem gdt_alloc_first_free s :
  mutex_free s gdt_mutex ->
  exists sel, gdt_alloc_desc s = Done sel s /\
    (gdt_alloc_desc;; gdt_alloc_desc) s = Done sel s /\
    ((sel = -1 /\ Forall (fun d => sd_attr d <> 0) (tail (k_gdt s))) \/
     exists i d, (0 < i)%nat /\ sel = Z.of_nat i * 8 /\ k_gdt s !! i = Some d /\ sd_attr d = 0 /\
       forall j d', (0 < j < i)%nat -> k_gdt s !! j = Some d' -> sd_attr d' <> 0).
Proof.
  intros Hf. eexists. split_and!; [by apply gdt_alloc_desc_run | |].
  { kred. rewrite gdt_alloc_desc_run by done. kred. by rewrite gdt_alloc_desc_run. }
  destruct (gdt_find_spec (tail (k_gdt s)) 1 ltac:(lia)) as [Hnone|(k & d & -> & Hk & Hd & Hu)]; [by left|].
  right. exists (S k), d. split_and!; [lia | lia | | done |].
  - destruct (k_gdt s); [done|]. exact Hk.
  - intros j d' Hj Hd'. destruct j as [|j]; [lia|]. destruct (k_gdt s) as [|x t]; [done|]. simpl in *.
    apply (Forall_lookup_1 (fun d => sd_attr d <> 0) _ j _ Hu). by rewrite lookup_take_lt by lia.
Qed.

(** A descriptor written into the entry [gdt_alloc_desc] found is not handed
    out again, and after [gdt_free_sel] it is the first to be handed out. *)
Theorem gdt_alloc_set_free s sel base limit attr :
  mutex_free s gdt_mutex -> gdt_alloc_desc s = Done sel s -> 0 <= sel -> (length (k_gdt s) <= GDT_TABLE_SIZE)%nat ->
  0 <= base < 2 ^ 32 -> 0 <= limit < 2 ^ 32 -> 0 <= attr < 2 ^ 16 -> Z.land attr 0x8f00 = 0 ->
  Z.land attr 0x70ff <> 0 ->
  exists s1, segment_desc_set sel base limit attr s = Done tt s1 /\
    (exists sel2, gdt_alloc_desc s1 = Done sel2 s1 /\ sel2 <> sel) /\
    exists s2, gdt_free_sel sel s1 = Done tt s2 /\ gdt_alloc_desc s2 = Done sel s2.
Proof.
  intros Hf Ea Hsel Hlen Hb Hl Ha H0 Hne. rewrite gdt_alloc_desc_run in Ea by done. injection Ea as Ea.
  destruct (gdt_find_spec (tail (k_gdt s)) 1 ltac:(lia)) as [[E _]|(k & d & E & Hk & Hd & Hu)]; [lia|].
  pose proof (lookup_lt_Some _ _ _ Hk) as Hkl. assert (S k < length (k_gdt s))%nat as Hkl'.
  { destruct (k_gdt s); simpl in *; lia. }
  unfold GDT_TABLE_SIZE in Hlen.
  assert (gdt_index sel = Z.of_nat (S k)) as Ei by (rewrite <- Ea, E, gdt_index_sel; lia).
  set (x := segment_desc base limit attr). assert (sd_attr x <> 0) as Hx by (by apply segment_desc_used).
  eexists. split; [unfold segment_desc_set; rewrite gdt_put_run by (rewrite Ei; lia); done|].
  rewrite Ei, Nat2Z.id. split.
  - eexists. split; [by apply gdt_alloc_desc_run|]. kproj. rewrite tail_insert_S, <- Ea, E.
    by apply gdt_find_insert_used; [|lia|].
  - eexists. split; [apply (gdt_free_sel_run _ sel x); [done|]; rewrite Ei, Nat2Z.id; kproj; by apply list_lookup_insert_eq|].
    rewrite gdt_alloc_desc_run by done. kproj. rewrite Ei, Nat2Z.id.
    f_equal. rewrite list_insert_insert_eq, tail_insert_S, <- Ea, E. apply gdt_find_insert_free; [done | lia | done | done].
Qed.

(** after [cpu_init] the GDT holds the null descriptor, the kernel's flat code
    and data segments (base 0, limit 4 GiB - 1) at their selectors, the system call
    gate at its own, and free entries from there on; GDTR points to it. *)
Theorem cpu_init_table s m :
  k_mutex s !! gdt_mutex = Some m -> hd 1 (m_name m) = 0 -> length (k_gdt s) = GDT_TABLE_SIZE ->
  exists s' code data gate, cpu_init s = Done tt s' /\
    k_gdt s' = segment_desc 0 0 0 :: code :: data :: gate :: replicate 252 (segment_desc 0 0 0) /\
    desc_base code = 0 /\ desc_limit code = 2 ^ 32 - 1 /\ desc_attr code = ATTR_KERNEL_CODE /\
    desc_base data = 0 /\ desc_limit data = 2 ^ 32 - 1 /\ desc_attr data = ATTR_KERNEL_DATA /\
    gate = segment_of_gate (gate_desc KERNEL_SELECTOR_CS exception_handler_syscall ATTR_SYSCALL) /\
    k_gdtr s' = (gdt_table, 2047).
Proof.
  intros Hm Hn Hl. destruct (cpu_init_run s (ex_intro _ m (conj Hm Hn)) Hl) as (m' & _ & E).
  eexists _, _, _, _. split_and!; [exact E | reflexivity | done..].
Qed.

End Cpu.
