(* ===== verification/Alloc.v ===== *)
(** The physical page allocator of kernel/core/memory.c.

    The abstract state is the list of the free frames in increasing order: an
    allocation takes its head, a release puts a frame back. *)
From S2P Require Import Prelude DList Bitmap Machine MachineFacts Klib Sched Ipc.

Section Alloc.
Context `{Layout}.

(** The bitmap storage [bits] is the array the caller passes; its length is the
    room there is. *)
Definition addr_alloc_init (bits : list Z) (start size page_size : Z) : K unit :=
  mutex_init paddr_alloc (cs "addr_alloc_t");;
  bm ← kopt (bitmap_init bits (size / page_size) 0);
  modify (set_k_alloc (AddrAlloc bm start size page_size)).

Definition addr_alloc_page (page_count : Z) : K Z :=
  mutex_acquire paddr_alloc;;
  alloc ← gets k_alloc;
  '(page_index, bm) ← kopt (bitmap_alloc_nbits (al_bitmap alloc) 0 page_count);
  modify (set_k_alloc (set_al_bitmap bm alloc));;
  let addr :=
    if page_index >=? 0 then u32 (al_start alloc + page_index * al_page_size alloc) else 0 in
  mutex_release paddr_alloc;;
  mret addr.

Definition addr_free_page (addr page_count : Z) : K unit :=
  mutex_acquire paddr_alloc;;
  alloc ← gets k_alloc;
  let pg_index := u32 (addr - al_start alloc) / al_page_size alloc in
  bm ← kopt (bitmap_set_bit (al_bitmap alloc) (i32 pg_index) page_count 0);
  modify (set_k_alloc (set_al_bitmap bm alloc));;
  mutex_release paddr_alloc.

Definition memory_alloc_page : K Z := addr_alloc_page 1.

Definition kalloc : K Z := addr_alloc_page 1.

Definition kfree (addr : Z) : K unit := addr_free_page addr 1.

(** * The free frames *)
Definition frame_addr (a : addr_alloc_t) (i : Z) : Z := al_start a + i * al_page_size a.

Definition free_indices (bm : bitmap_t) : list Z :=
  filter (fun i => bget bm i = false) (seqZ 0 (bit_count bm)).

Definition free_frames (a : addr_alloc_t) : list Z := map (frame_addr a) (free_indices (al_bitmap a)).

(** Every frame the allocator manages. *)
Definition all_frames (a : addr_alloc_t) : list Z := map (frame_addr a) (seqZ 0 (bit_count (al_bitmap a))).

(** The frames lie above 1 MiB and end below 4 GiB. *)
Record alloc_wf (a : addr_alloc_t) : Prop := {
  aw_bits : bitmap_wf (al_bitmap a);
  aw_size : al_page_size a = MEM_PAGE_SIZE;
  aw_start : MEM_EXT_START <= al_start a /\ al_start a mod MEM_PAGE_SIZE = 0;
  aw_end : al_start a + bit_count (al_bitmap a) * MEM_PAGE_SIZE <= 2 ^ 32
}.

(** The allocators of the same region. *)
Definition same_region (a a' : addr_alloc_t) : Prop :=
  al_start a' = al_start a /\ al_page_size a' = al_page_size a /\
  bit_count (al_bitmap a') = bit_count (al_bitmap a).

Lemma same_region_refl a : same_region a a.
Proof. done. Qed.

Lemma same_region_trans a b c : same_region a b -> same_region b c -> same_region a c.
Proof. unfold same_region. intuition congruence. Qed.

Lemma all_frames_region a a' : same_region a a' -> all_frames a' = all_frames a.
Proof.
  intros (E1 & E2 & E3). unfold all_frames. rewrite E3. apply map_ext. intros i.
  unfold frame_addr. by rewrite E1, E2.
Qed.

Lemma alloc_wf_region a a' :
  same_region a a' -> bitmap_wf (al_bitmap a') -> alloc_wf a -> alloc_wf a'.
Proof. intros (E1 & E2 & E3) Hb [_ ? ? ?]. constructor; [done | congruence | by rewrite E1 | by rewrite E1, E3]. Qed.

Lemma elem_of_free_indices bm i :
  i ∈ free_indices bm <-> 0 <= i < bit_count bm /\ bget bm i = false.
Proof. unfold free_indices. rewrite list_elem_of_filter, elem_of_seqZ. naive_solver lia. Qed.

Lemma elem_of_free_frames a p :
  p ∈ free_frames a <->
  exists i, 0 <= i < bit_count (al_bitmap a) /\ p = frame_addr a i /\ bget (al_bitmap a) i = false.
Proof.
  unfold free_frames. rewrite list_elem_of_In, in_map_iff. setoid_rewrite <- list_elem_of_In.
  setoid_rewrite elem_of_free_indices. naive_solver.
Qed.

Lemma elem_of_all_frames a p :
  p ∈ all_frames a <-> exists i, 0 <= i < bit_count (al_bitmap a) /\ p = frame_addr a i.
Proof.
  unfold all_frames. rewrite list_elem_of_In, in_map_iff. setoid_rewrite <- list_elem_of_In.
  setoid_rewrite elem_of_seqZ. split; intros (i & ? & ?); exists i; (split; [lia || done | lia || done]).
Qed.

Lemma free_frames_all a p : p ∈ free_frames a -> p ∈ all_frames a.
Proof. rewrite elem_of_free_frames, elem_of_all_frames. naive_solver. Qed.

(** A frame is a page above 1 MiB, so its address is not the null pointer. *)
Lemma frame_bounds a p :
  alloc_wf a -> p ∈ all_frames a -> MEM_EXT_START <= p /\ p + MEM_PAGE_SIZE <= 2 ^ 32 /\ p mod MEM_PAGE_SIZE = 0.
Proof.
  intros [_ Hs [Ha Hm] He] (i & Hi & ->)%elem_of_all_frames. unfold frame_addr. rewrite Hs.
  unfold MEM_PAGE_SIZE in *. rewrite Z_mod_plus_full. lia.
Qed.

(** The least free index is the head of the list. *)
Lemma free_indices_alloc bm bm' r :
  0 <= r < bit_count bm -> bit_count bm' = bit_count bm -> bget bm r = false ->
  (forall j, 0 <= j < r -> bget bm j = true) ->
  (forall j, 0 <= j -> bget bm' j = if j =? r then true else bget bm j) ->
  free_indices bm = r :: free_indices bm'.
Proof.
  intros Hr Hc Hf Hl Hb. unfold free_indices. rewrite Hc.
  assert (seqZ 0 (bit_count bm) = seqZ 0 r ++ r :: seqZ (r + 1) (bit_count bm - r - 1)) as ->.
  { replace (bit_count bm) with (r + (bit_count bm - r)) at 1 by lia. rewrite seqZ_app by lia.
    rewrite (seqZ_cons (0 + r)) by lia. do 2 f_equal; lia || f_equal; lia. }
  rewrite !filter_app, !filter_cons. rewrite decide_True by done.
  rewrite decide_False by (rewrite Hb, Z.eqb_refl by lia; done).
  rewrite !(filter_none _ (seqZ 0 r)); cbn [app].
  - f_equal. apply filter_ext_in. intros j Hj%elem_of_seqZ. rewrite Hb by lia. by rewrite (proj2 (Z.eqb_neq _ _)) by lia.
  - intros j Hj%elem_of_seqZ. rewrite Hb by lia. rewrite (proj2 (Z.eqb_neq _ _)), Hl by lia. done.
  - intros j Hj%elem_of_seqZ. by rewrite Hl by lia.
Qed.

Lemma free_frames_NoDup a : alloc_wf a -> NoDup (free_frames a).
Proof.
  intros [_ Hs _ _]. unfold free_frames. apply NoDup_fmap_2_strong.
  - intros i j _ _. unfold frame_addr. rewrite Hs. unfold MEM_PAGE_SIZE. lia.
  - apply list.NoDup_filter, NoDup_seqZ.
Qed.

(** ** Allocation and release *)
Lemma addr_alloc_page_run s :
  mutex_free s paddr_alloc -> alloc_wf (k_alloc s) ->
  (free_frames (k_alloc s) = [] /\ addr_alloc_page 1 s = Done 0 s) \/
  exists p a', addr_alloc_page 1 s = Done p (set_k_alloc a' s) /\ alloc_wf a' /\
    same_region (k_alloc s) a' /\ free_frames (k_alloc s) = p :: free_frames a'.
Proof.
  intros Hf Hwf. unfold addr_alloc_page. kred. rewrite acquire_locked by done. kred.
  change (k_alloc (locked paddr_alloc s)) with (k_alloc s).
  destruct (bitmap_alloc_one (al_bitmap (k_alloc s)) (aw_bits _ Hwf)) as (r & bm & -> & Hb & Hc & Hcase). kred.
  rewrite (release_locked s) by done. kred.
  destruct Hcase as [(-> & -> & Hall)|(Hr & Hfree & Hlow & Hset)].
  - left. split.
    + unfold free_frames, free_indices. rewrite filter_none; [done|].
      intros i Hi%elem_of_seqZ. rewrite Hall by lia. done.
    + cbn. unfold locked. by destruct s as [????????? []].
  - right. assert ((r >=? 0) = true) as -> by lia.
    assert (same_region (k_alloc s) (set_al_bitmap bm (k_alloc s))) as Hsr by done.
    eexists _, (set_al_bitmap bm (k_alloc s)). split_and!.
    + unfold locked. destruct s. reflexivity.
    + by apply (alloc_wf_region (k_alloc s)).
    + done.
    + unfold free_frames at 1. rewrite (free_indices_alloc _ bm r) by done. cbn [map]. f_equal.
      destruct Hwf as [_ Hs [Hst _] He]. unfold frame_addr. rewrite Hs in *. rewrite u32_small; [done|].
      unfold MEM_PAGE_SIZE, MEM_EXT_START in *. lia.
Qed.

Lemma addr_free_page_run s p :
  mutex_free s paddr_alloc -> alloc_wf (k_alloc s) -> p ∈ all_frames (k_alloc s) ->
  exists a', addr_free_page p 1 s = Done tt (set_k_alloc a' s) /\ alloc_wf a' /\
    same_region (k_alloc s) a' /\ forall q, q ∈ free_frames a' <-> q = p \/ q ∈ free_frames (k_alloc s).
Proof.
  intros Hf Hwf (i & Hi & ->)%elem_of_all_frames. unfold addr_free_page. kred. rewrite acquire_locked by done. kred.
  change (k_alloc (locked paddr_alloc s)) with (k_alloc s).
  pose proof Hwf as [_ Hs [Hst _] He]. unfold MEM_PAGE_SIZE, MEM_EXT_START in *.
  assert (i32 (u32 (frame_addr (k_alloc s) i - al_start (k_alloc s)) / al_page_size (k_alloc s)) = i) as ->.
  { unfold frame_addr. rewrite Hs. rewrite u32_small by lia.
    replace (al_start (k_alloc s) + i * 4096 - al_start (k_alloc s)) with (i * 4096) by lia.
    rewrite Z.div_mul by lia. apply i32_small. lia. }
  destruct (bitmap_set_bit_spec (al_bitmap (k_alloc s)) i 1 0 (aw_bits _ Hwf) ltac:(lia)) as (bm & -> & Hb & Hc & Hg).
  kred. rewrite (release_locked s) by done.
  assert (same_region (k_alloc s) (set_al_bitmap bm (k_alloc s))) as Hsr by done.
  exists (set_al_bitmap bm (k_alloc s)). split_and!.
  - unfold locked. by destruct s.
  - by apply (alloc_wf_region (k_alloc s)).
  - done.
  - intros q. rewrite !elem_of_free_frames. cbn [al_bitmap set_al_bitmap].
    change (frame_addr (set_al_bitmap bm (k_alloc s))) with (frame_addr (k_alloc s)). rewrite Hc. split.
    + intros (j & Hj & -> & Ej). rewrite Hg in Ej by lia. destruct (decide (j = i)) as [->|]; [by left|].
      right. exists j. split_and!; [lia | lia | done |].
      replace ((i <=? j) && (j <? Z.min (i + 1) (bit_count (al_bitmap (k_alloc s))))) with false in Ej by lia. done.
    + intros [->|(j & Hj & -> & Ej)]; [exists i | exists j]; (split_and!; [lia | lia | done |]); rewrite Hg by lia.
      * by replace ((i <=? i) && (i <? Z.min (i + 1) (bit_count (al_bitmap (k_alloc s))))) with true by lia.
      * by destruct ((i <=? j) && (j <? Z.min (i + 1) (bit_count (al_bitmap (k_alloc s))))).
Qed.

Lemma mutex_free_alloc s a a' : mutex_free s a -> mutex_free (set_k_alloc a' s) a.
Proof. done. Qed.

(** ** Sequences of calls *)
Inductive frame_op :=
  | FrameAlloc
  | FrameFree (k : nat).  (* give back the [k]-th frame held *)

(** The frames held, the last one obtained first. *)
Definition frame_step (op : frame_op) (held : list Z) : K (list Z) :=
  match op with
  | FrameAlloc => p ← kalloc; mret (if p =? 0 then held else p :: held)
  | FrameFree k =>
      match held !! k with
      | Some p => kfree p;; mret (take k held ++ drop (S k) held)
      | None => mret held
      end
  end.

Fixpoint run_frames (ops : list frame_op) (held : list Z) : K (list Z) :=
  match ops with
  | [] => mret held
  | op :: ops => held ← frame_step op held; run_frames ops held
  end.

(** The frames held and the free frames are all the frames, each once. *)
Definition partition (a : addr_alloc_t) (held : list Z) : Prop :=
  alloc_wf a /\ held ++ free_frames a ≡ₚ all_frames a.

Lemma all_frames_NoDup a : alloc_wf a -> NoDup (all_frames a).
Proof.
  intros [_ Hs _ _]. unfold all_frames. apply NoDup_fmap_2_strong; [|apply NoDup_seqZ].
  intros i j _ _. unfold frame_addr. rewrite Hs. unfold MEM_PAGE_SIZE. lia.
Qed.

Lemma frame_step_run s op held :
  mutex_free s paddr_alloc -> partition (k_alloc s) held ->
  exists held' a', frame_step op held s = Done held' (set_k_alloc a' s) /\ partition a' held' /\
    all_frames a' = all_frames (k_alloc s).
Proof.
  intros Hf [Hwf Hp]. destruct op as [|k]; simpl.
  - destruct (addr_alloc_page_run s Hf Hwf) as [[Hnil E]|(p & a' & E & Hwf' & Hr & Hcons)];
      unfold kalloc; kred; rewrite E; kred.
    + exists held, (k_alloc s). rewrite set_k_alloc_id. by split_and!.
    + assert (p ∈ all_frames (k_alloc s)) as Hin by (apply free_frames_all; rewrite Hcons; by left).
      destruct (frame_bounds _ _ Hwf Hin) as [Hb _]. unfold MEM_EXT_START in Hb.
      rewrite (proj2 (Z.eqb_neq p 0)) by lia. exists (p :: held), a'. rewrite (all_frames_region _ _ Hr).
      split_and!; [done | | done]. split; [done|]. rewrite (all_frames_region _ _ Hr), <- Hp, Hcons.
      cbn [app]. apply Permutation_middle.
  - destruct (held !! k) as [p|] eqn:Ek; [|exists held, (k_alloc s); rewrite set_k_alloc_id; by split_and!].
    pose proof (take_drop_middle _ _ _ Ek) as Eh.
    assert (p ∈ held) as Hin by (by eapply list_elem_of_lookup_2).
    destruct (addr_free_page_run s p Hf Hwf) as (a' & E & Hwf' & Hr & Hfree).
    { rewrite <- Hp. apply elem_of_app. by left. }
    unfold kfree. kred. rewrite E. kred. exists (take k held ++ drop (S k) held), a'.
    rewrite (all_frames_region _ _ Hr). split_and!; [done | | done]. split; [done|].
    rewrite (all_frames_region _ _ Hr), <- Hp.
    pose proof (all_frames_NoDup _ Hwf) as Hnd. rewrite <- Hp in Hnd. apply NoDup_app in Hnd as (_ & Hdis & Hnd).
    assert (free_frames a' ≡ₚ p :: free_frames (k_alloc s)) as ->.
    { apply NoDup_Permutation; [by apply free_frames_NoDup | | intros q; rewrite Hfree; set_solver].
      apply NoDup_cons. split; [by apply Hdis | done]. }
    trans ((take k held ++ p :: drop (S k) held) ++ free_frames (k_alloc s)); [|by rewrite Eh].
    rewrite <- !app_assoc. cbn [app]. apply Permutation_app_head. symmetry. apply Permutation_middle.
Qed.

Lemma run_frames_run ops : forall s held,
  mutex_free s paddr_alloc -> partition (k_alloc s) held ->
  exists held' a', run_frames ops held s = Done held' (set_k_alloc a' s) /\ partition a' held' /\
    all_frames a' = all_frames (k_alloc s).
Proof.
  induction ops as [|op ops IH]; intros s held Hf Hp; simpl.
  { exists held, (k_alloc s). rewrite set_k_alloc_id. by split_and!. }
  destruct (frame_step_run s op held Hf Hp) as (h1 & a1 & E1 & Hp1 & Ea1).
  destruct (IH (set_k_alloc a1 s) h1 Hf Hp1) as (h2 & a2 & E2 & Hp2 & Ea2).
  exists h2, a2. kred. rewrite E1. kred. rewrite E2. split_and!; [by destruct s | done | by rewrite Ea2].
Qed.

Lemma addr_alloc_init_run bits start size s :
  cold_mutex s paddr_alloc ->
  MEM_EXT_START <= start -> start mod MEM_PAGE_SIZE = 0 -> 0 <= size -> start + size <= 2 ^ 32 ->
  Forall (fun b => 0 <= b < 256) bits -> size / MEM_PAGE_SIZE <= 8 * Z.of_nat (length bits) ->
  exists mx a, let s1 := set_k_alloc a (set_k_mutex (<[paddr_alloc := mx]> (k_mutex s)) s) in
    addr_alloc_init bits start size MEM_PAGE_SIZE s = Done tt s1 /\ mutex_free s1 paddr_alloc /\
    partition a [] /\ al_size a = size /\
    all_frames a = map (fun i => start + i * MEM_PAGE_SIZE) (seqZ 0 (size / MEM_PAGE_SIZE)).
Proof.
  intros Hc Hst Hal Hsz Hend Hb Hl. destruct (mutex_init_run s paddr_alloc (cs "addr_alloc_t") Hc) as (mx & Em & Hmx).
  unfold MEM_PAGE_SIZE in *.
  assert (exists bm, bitmap_init bits (size / 4096) 0 = Some bm) as [bm Ebm].
  { unfold bitmap_init, bitmap_byte_count. rewrite Z.quot_div_nonneg by zdiv.
    assert (Z.to_nat ((size / 4096 + 8 - 1) / 8) <= length bits)%nat as Hle by zdiv.
    rewrite (proj2 (Nat.leb_le _ _) Hle). by eexists. }
  destruct (bitmap_init_spec bits (size / 4096) 0 bm ltac:(zdiv) Hb Ebm) as (Hwf & Hcnt & Hz).
  assert (alloc_wf (AddrAlloc bm start size 4096)) as Haw.
  { constructor; cbn [al_bitmap al_page_size al_start]; [done | done | done |]. rewrite Hcnt. unfold MEM_PAGE_SIZE. zdiv. }
  exists mx, (AddrAlloc bm start size 4096). split_and!; [| done | | done |].
  - unfold addr_alloc_init. rewrite run_bind, Em. cbn [obind]. rewrite Ebm. by kred.
  - split; [exact Haw|]. cbn [app]. unfold free_frames, all_frames, free_indices.
    cbn [al_bitmap]. rewrite filter_all; [done|]. intros i Hi%elem_of_seqZ. rewrite Hz by lia. done.
  - unfold all_frames, frame_addr. cbn [al_bitmap al_start al_page_size]. by rewrite Hcnt.
Qed.

(** * Properties *)

(** C19: [kalloc] takes the lowest free frame, a page-aligned address above 1 MiB, and
    returns 0 exactly when no frame is free; [kfree] of a frame makes that frame free
    and no other.  Both leave everything but the allocator as it was. *)
Theorem frame_allocator_refines s :
  mutex_free s paddr_alloc -> alloc_wf (k_alloc s) ->
  match free_frames (k_alloc s) with
  | [] => kalloc s = Done 0 s
  | p :: frames => exists a', kalloc s = Done p (set_k_alloc a' s) /\ alloc_wf a' /\ free_frames a' = frames /\
      MEM_EXT_START <= p /\ p mod MEM_PAGE_SIZE = 0
  end /\
  forall p, p ∈ all_frames (k_alloc s) -> exists a', kfree p s = Done tt (set_k_alloc a' s) /\ alloc_wf a' /\
    forall q, q ∈ free_frames a' <-> q = p \/ q ∈ free_frames (k_alloc s).
Proof.
  intros Hf Hwf. split.
  - destruct (addr_alloc_page_run s Hf Hwf) as [[-> E]|(p & a' & E & Hwf' & Hr & Hcons)]; [exact E|].
    rewrite Hcons. exists a'. assert (p ∈ all_frames (k_alloc s)) as Hin by (apply free_frames_all; rewrite Hcons; by left).
    destruct (frame_bounds _ _ Hwf Hin) as (? & _ & ?). by split_and!.
  - intros p Hp. destruct (addr_free_page_run s p Hf Hwf Hp) as (a' & E & Hwf' & _ & Hq). by exists a'.
Qed.

(** C20: from [addr_alloc_init] on, after any sequence of allocations and releases of
    frames that are held, the frames held together with the free ones are the whole
    region cut into pages, each frame once: no frame is handed out twice and none is
    lost. *)
Theorem frames_partition bits start size s m ops :
  k_mutex s !! paddr_alloc = Some m -> hd 1 (m_name m) = 0 ->
  MEM_EXT_START <= start -> start mod MEM_PAGE_SIZE = 0 -> 0 <= size -> start + size <= 2 ^ 32 ->
  Forall (fun b => 0 <= b < 256) bits -> size / MEM_PAGE_SIZE <= 8 * Z.of_nat (length bits) ->
  exists s1 held a, addr_alloc_init bits start size MEM_PAGE_SIZE s = Done tt s1 /\
    run_frames ops [] s1 = Done held (set_k_alloc a s1) /\ NoDup (held ++ free_frames a) /\
    held ++ free_frames a ≡ₚ map (fun i => start + i * MEM_PAGE_SIZE) (seqZ 0 (size / MEM_PAGE_SIZE)).
Proof.
  intros Hm Hn Hst Hal Hsz Hend Hb Hl.
  destruct (addr_alloc_init_run bits start size s (ex_intro _ m (conj Hm Hn)) Hst Hal Hsz Hend Hb Hl)
    as (mx & a1 & E1 & Hf & Hp & _ & Ea).
  destruct (run_frames_run ops _ [] Hf Hp) as (held & a & E2 & [Hwf Hpart] & Ea').
  change (k_alloc (set_k_alloc a1 _)) with a1 in Ea'. eexists _, held, a. rewrite <- Ea, <- Ea'. split_and!; [done | done | | done].
  rewrite Hpart. by apply all_frames_NoDup.
Qed.

End Alloc.
