(* ===== verification/Paging.v ===== *)
(** Page tables: kernel/include/cpu/mmu.h and kernel/core/memory.c. *)
From S2P Require Import Prelude DList Bitmap Machine MachineFacts Klib Format Sched Ipc Log Alloc.

(** * mmu.h *)
Definition PTE_P : Z := Z.shiftl 1 0.
Definition PDE_P : Z := Z.shiftl 1 0.
Definition PTE_W : Z := Z.shiftl 1 1.
Definition PTE_U : Z := Z.shiftl 1 2.
Definition PDE_CNT : nat := 1024.
Definition PTE_CNT : nat := 1024.

(** The bit field [present] of an entry. *)
Definition present (v : Z) : bool := Z.testbit v 0.

Definition pde_index (vaddr : Z) : Z := Z.shiftr vaddr 22.

(** [phy_pt_addr << 12]: the field is the high 20 bits of the entry. *)
Definition pde_paddr (v : Z) : Z := Z.shiftl (Z.shiftr v 12) 12.

Definition pte_index (vaddr : Z) : Z := Z.land (Z.shiftr vaddr 12) 0x3FF.

Definition pte_paddr (v : Z) : Z := Z.shiftl (Z.shiftr v 12) 12.

Definition mmu_set_page_dir (paddr : Z) : K unit := write_cr3 paddr.

Definition get_pte_perm (v : Z) : Z := Z.land v 0x3ff.

(** boot_info.h *)
Record boot_info_t := BootInfo {
  ram_region_cfg : list (Z * Z);  (* start, size *)
  ram_region_count : Z
}.

Section Paging.
Context `{Layout} `{Device}.

(** * memory.c *)
Definition memory_c : list Z := cs "core/memory.c".

Fixpoint show_mem_regions (l : list (Z * Z)) (i : Z) : K unit :=
  match l with
  | [] => mret tt
  | (start, size) :: l =>
      log_printf (cs "[%d]: %x - %x") [VInt i; VInt start; VInt size];;
      show_mem_regions l (i + 1)
  end.

Definition show_mem_info (boot_info : boot_info_t) : K unit :=
  log_printf (cs "mem region:") [];;
  show_mem_regions (take (Z.to_nat (ram_region_count boot_info)) (ram_region_cfg boot_info)) 0;;
  log_printf nl [].

(** [int mem_size] added up, returned as [uint32_t]. *)
Definition total_mem_size (boot_info : boot_info_t) : Z :=
  u32 (foldl (fun n r => i32 (n + snd r)) 0
         (take (Z.to_nat (ram_region_count boot_info)) (ram_region_cfg boot_info))).

Definition find_pte (page_dir vaddr alloc : Z) : K Z :=
  let pde := u32 (page_dir + 4 * pde_index vaddr) in
  v ← lift (load32 pde);
  if present v then mret (u32 (pde_paddr v + 4 * pte_index vaddr))
  else if alloc =? 0 then mret 0
  else
    pg_paddr ← addr_alloc_page 1;
    if pg_paddr =? 0 then mret 0
    else
      lift (store32 pde (Z.lor (Z.lor (Z.lor pg_paddr PDE_P) PTE_W) PTE_U));;
      lift (kmemset pg_paddr 0 MEM_PAGE_SIZE);;
      mret (u32 (pg_paddr + 4 * pte_index vaddr)).

(** The loop of [memory_create_map]; true when a page table was missing. *)
Fixpoint create_map_loop (n : nat) (page_dir vaddr paddr perm : Z) : K bool :=
  match n with
  | O => mret false
  | S n =>
      pte ← find_pte page_dir vaddr 1;
      if pte =? 0 then mret true
      else
        v ← lift (load32 pte);
        ASSERT (negb (present v)) memory_c 165 (cs "memory_create_map") (cs "pte->present == 0");;
        lift (store32 pte (Z.lor (Z.lor paddr perm) PTE_P));;
        create_map_loop n page_dir (u32 (vaddr + MEM_PAGE_SIZE)) (u32 (paddr + MEM_PAGE_SIZE)) perm
  end.

(** There is no return statement after the loop; in the image of
    build/source/kernel the caller finds the loop counter in EAX. *)
Definition memory_create_map (page_dir vaddr paddr count perm : Z) : K Z :=
  failed ← create_map_loop (Z.to_nat count) page_dir vaddr paddr perm;
  mret (if failed : bool then -1 else Z.max 0 count).

(** [kernel_map]: vstart, vend, pstart, perm. *)
Definition kernel_map : list (Z * Z * Z * Z) :=
  [ (kernel_base, s_text, kernel_base, PTE_W);
    (s_text, e_text, s_text, 0);
    (s_data, MEM_EBDA_START - 1, s_data, PTE_W);
    (MEM_EXT_START, MEM_EXT_END, MEM_EXT_START, PTE_W) ].

Fixpoint create_kernel_maps (l : list (Z * Z * Z * Z)) : K unit :=
  match l with
  | [] => mret tt
  | (vstart, vend, pstart, perm) :: l =>
      let vstart := i32 (down2 vstart MEM_PAGE_SIZE) in
      let vend := i32 (up2 vend MEM_PAGE_SIZE) in
      let paddr := i32 (down2 pstart MEM_PAGE_SIZE) in
      let page_count := (vend - vstart) ÷ MEM_PAGE_SIZE in
      _ ← memory_create_map kernel_page_dir (u32 vstart) (u32 paddr) page_count perm;
      create_kernel_maps l
  end.

Definition create_kernel_table : K unit :=
  lift (kmemset kernel_page_dir 0 (4 * Z.of_nat PDE_CNT));;
  create_kernel_maps kernel_map.

(** [page_dir[i].v = kernel_page_dir[i].v] for [n] entries from [i] on. *)
Fixpoint copy_kernel_pdes (n : nat) (i page_dir : Z) : MM unit :=
  match n with
  | O => mret tt
  | S n =>
      v ← load32 (kernel_page_dir + 4 * i);
      store32 (page_dir + 4 * i) v;;
      copy_kernel_pdes n (i + 1) page_dir
  end.

Definition memory_create_uvm : K Z :=
  page_dir ← addr_alloc_page 1;
  if page_dir =? 0 then mret 0
  else
    lift (kmemset page_dir 0 MEM_PAGE_SIZE);;
    lift (copy_kernel_pdes (Z.to_nat (pde_index MEMORY_TASK_BASE)) 0 page_dir);;
    mret page_dir.

(** [bits] is the RAM from [mem_free_start] on, where the bitmap is put. *)
Definition memory_init (bits : list Z) (boot_info : boot_info_t) : K unit :=
  log_printf (cs "mem init.") [];;
  show_mem_info boot_info;;
  let mem_up1MB_free := u32 (total_mem_size boot_info - MEM_EXT_START) in
  let mem_up1MB_free := down2 mem_up1MB_free MEM_PAGE_SIZE in
  log_printf (cs "Free memory: %x, size: %x") [VInt MEM_EXT_START; VInt mem_up1MB_free];;
  addr_alloc_init bits MEM_EXT_START mem_up1MB_free MEM_PAGE_SIZE;;
  alloc ← gets k_alloc;
  let mem_free := mem_free_start + bitmap_byte_count (al_size alloc / MEM_PAGE_SIZE) in
  ASSERT (mem_free <? MEM_EBDA_START) memory_c 256 (cs "memory_init")
    (cs "mem_free < (uint8_t *)MEM_EBDA_START");;
  create_kernel_table;;
  mmu_set_page_dir kernel_page_dir.

Definition memory_get_paddr (page_dir vaddr : Z) : K Z :=
  pte ← find_pte page_dir vaddr 0;
  if pte =? 0 then mret 0
  else
    v ← lift (load32 pte);
    mret (u32 (pte_paddr v + Z.land vaddr (MEM_PAGE_SIZE - 1))).

(** Each round but the first and the last copies a whole page. *)
Fixpoint copy_uvm_data_loop (fuel : nat) (to page_dir from size : Z) : K Z :=
  if size >? 0 then
    match fuel with
    | O => kfault
    | S fuel =>
        to_paddr ← memory_get_paddr page_dir to;
        if to_paddr =? 0 then mret (-1)
        else
          let offset_in_page := Z.land to_paddr (MEM_PAGE_SIZE - 1) in
          let curr_size := MEM_PAGE_SIZE - offset_in_page in
          let curr_size := if curr_size >? size then size else curr_size in
          lift (kmemcpy to_paddr from curr_size);;
          copy_uvm_data_loop fuel (u32 (to + curr_size)) page_dir (u32 (from + curr_size)) (size - curr_size)
    end
  else mret 0.

Definition memory_copy_uvm_data (to page_dir from size : Z) : K Z :=
  copy_uvm_data_loop (Z.to_nat (size / MEM_PAGE_SIZE + 2)) to page_dir from size.

Fixpoint alloc_for_loop (n : nat) (i page_dir vaddr curr_vaddr perm : Z) : K Z :=
  match n with
  | O => mret 0
  | S n =>
      paddr ← addr_alloc_page 1;
      if paddr =? 0 then
        log_printf (cs "mem alloc failed. out of memory") [];;
        mret 0
      else
        err ← memory_create_map page_dir curr_vaddr paddr 1 perm;
        if err <? 0 then
          log_printf (cs "mem alloc failed in mem_create_map(), out of memory") [];;
          addr_free_page vaddr i;;
          mret 0
        else alloc_for_loop n (i + 1) page_dir vaddr (u32 (curr_vaddr + MEM_PAGE_SIZE)) perm
  end.

Definition memory_alloc_for_page_dir (page_dir vaddr size perm : Z) : K Z :=
  let page_count := up2 size MEM_PAGE_SIZE / MEM_PAGE_SIZE in
  alloc_for_loop (Z.to_nat page_count) 0 page_dir vaddr vaddr perm.

Definition curr_page_dir : K Z :=
  curr ← task_current; t ← get_task curr; mret (tss_cr3 (t_tss t)).

Definition memory_alloc_page_for (vaddr size perm : Z) : K Z :=
  curr ← task_current;
  t ← get_task curr;
  memory_alloc_for_page_dir (tss_cr3 (t_tss t)) vaddr size perm.

Definition memory_free_page (vaddr : Z) : K unit :=
  if vaddr <? MEMORY_TASK_BASE then addr_free_page vaddr 1
  else
    page_dir ← curr_page_dir;
    pte ← find_pte page_dir vaddr 0;
    ok ← (if pte =? 0 then v ← lift (load32 pte); mret (present v) else mret false);
    ASSERT ok memory_c 365 (cs "memory_free_page") (cs "pte == (pte_t*)0 && pte->present");;
    v ← lift (load32 pte);
    addr_free_page (pte_paddr v) 1;;
    lift (store32 pte 0).

(** ** Destroying an address space *)
Fixpoint free_ptes (n : nat) (pte : Z) : K unit :=
  match n with
  | O => mret tt
  | S n =>
      v ← lift (load32 pte);
      (if negb (present v) then mret tt else kfree (pte_paddr v));;
      free_ptes n (pte + 4)
  end.

Fixpoint free_pdes (n : nat) (pde : Z) : K unit :=
  match n with
  | O => mret tt
  | S n =>
      v ← lift (load32 pde);
      (if negb (present v) then mret tt
       else free_ptes PTE_CNT (pde_paddr v);; kfree (pde_paddr v));;
      free_pdes n (pde + 4)
  end.

Definition memory_destroy_uvm (page_dir : Z) : K unit :=
  let user_pde_start := pde_index page_dir in
  ASSERT (negb (page_dir =? 0)) memory_c 392 (cs "memory_destroy_uvm") (cs "page_dir != 0");;
  free_pdes (Z.to_nat (Z.of_nat PDE_CNT - user_pde_start)) (page_dir + 4 * user_pde_start);;
  kfree page_dir.

(** ** Copying an address space: the loops return true on failure. *)
Fixpoint copy_ptes (n : nat) (to i j pte : Z) : K bool :=
  match n with
  | O => mret false
  | S n =>
      v ← lift (load32 pte);
      if negb (present v) then copy_ptes n to i (j + 1) (pte + 4)
      else
        page ← addr_alloc_page 1;
        if page =? 0 then mret true
        else
          let vaddr := Z.lor (u32 (Z.shiftl i 22)) (Z.shiftl j 12) in
          v ← lift (load32 pte);
          err ← memory_create_map to vaddr page 1 (get_pte_perm v);
          if err <? 0 then mret true
          else
            lift (kmemcpy page vaddr MEM_PAGE_SIZE);;
            copy_ptes n to i (j + 1) (pte + 4)
  end.

Fixpoint copy_pdes (n : nat) (to i pde : Z) : K bool :=
  match n with
  | O => mret false
  | S n =>
      v ← lift (load32 pde);
      if negb (present v) then copy_pdes n to (i + 1) (pde + 4)
      else
        failed ← copy_ptes PTE_CNT to i 0 (pde_paddr v);
        if failed : bool then mret true else copy_pdes n to (i + 1) (pde + 4)
  end.

(** [user_pde_start .. PDE_CNT - 1] of [page_dir], into [to]. *)
Definition copy_user_pdes (page_dir to : Z) : K bool :=
  let user_pde_start := pde_index MEMORY_TASK_BASE in
  copy_pdes (Z.to_nat (Z.of_nat PDE_CNT - user_pde_start)) to user_pde_start
    (page_dir + 4 * user_pde_start).

Definition memory_copy_uvm (page_dir : Z) : K Z :=
  to_page_dir ← memory_create_uvm;
  if to_page_dir =? 0 then mret (u32 (-1))
  else
    failed ← copy_user_pdes page_dir to_page_dir;
    if failed : bool then memory_destroy_uvm to_page_dir;; mret (u32 (-1))
    else mret to_page_dir.

Definition memory_copy_uvm2 (from to : Z) : K Z :=
  if to =? 0 then mret (u32 (-1))
  else
    failed ← copy_user_pdes from to;
    if failed : bool then memory_destroy_uvm to;; mret (u32 (-1)) else mret to.

End Paging.
