(* ===== verification/AddrSpace.v ===== *)
(** Address spaces: what the page tables of kernel/core/memory.c make the
    processor do.  A page directory denotes a partial function on addresses
    ([mmu_walk]); the functions of memory.c are related to operations on it. *)
From S2P Require Import Prelude DList Bitmap Machine MachineFacts Klib Format Sched Ipc Log Alloc Paging.

(** * Pages and entries *)
Definition page_of (a : Z) : Z := a / 4096 * 4096.

(** A page the kernel can reach at its own address. *)
Definition page_ok (p : Z) : Prop := p mod 4096 = 0 /\ kmapped p = true.

Lemma page_of_offset p k : p mod 4096 = 0 -> 0 <= k < 4096 -> page_of (p + k) = p.
Proof. unfold page_of. intros. zdiv. Qed.

Lemma page_of_aligned p : p mod 4096 = 0 -> page_of p = p.
Proof. unfold page_of. intros. zdiv. Qed.

Lemma page_ok_bounds p : page_ok p -> 0 <= p < 133169152.
Proof. intros [_ Hk%kmapped_spec]. lia. Qed.

Lemma page_ok_block p : page_ok p -> kblock p 4096.
Proof.
  intros [Ha Hk%kmapped_spec] i Hi. apply kmapped_spec. zdiv.
Qed.

Lemma page_ok_word p k : page_ok p -> 0 <= k < 4096 -> kmapped (p + k) = true.
Proof. intros Hp Hk. by apply page_ok_block. Qed.

Lemma shift_page v : Z.shiftl (Z.shiftr v 12) 12 = page_of v.
Proof. unfold page_of. rewrite Z.shiftr_div_pow2, Z.shiftl_mul_pow2 by lia. done. Qed.

Lemma pde_index_div va : pde_index va = va / 2 ^ 22.
Proof. unfold pde_index. by rewrite Z.shiftr_div_pow2 by lia. Qed.

Lemma pte_index_div va : pte_index va = va / 2 ^ 12 mod 2 ^ 10.
Proof.
  unfold pte_index. rewrite Z.shiftr_div_pow2 by lia. change 0x3FF with (Z.ones 10).
  by rewrite Z.land_ones by lia.
Qed.

Lemma pte_index_range va : 0 <= pte_index va < 1024.
Proof. rewrite pte_index_div. apply (Z.mod_pos_bound _ (2 ^ 10)). lia. Qed.

Lemma pde_index_range va : 0 <= va < 2 ^ 32 -> 0 <= pde_index va < 1024.
Proof. rewrite pde_index_div. intros. zdiv. Qed.

(** An address is its two indices and its offset. *)
Lemma indices_page x y :
  pde_index x = pde_index y -> pte_index x = pte_index y -> page_of x = page_of y.
Proof.
  rewrite !pde_index_div, !pte_index_div. unfold page_of.
  change (2 ^ 22) with 4194304. change (2 ^ 12) with 4096. change (2 ^ 10) with 1024. intros. zdiv.
Qed.

Lemma page_indices x y :
  page_of x = page_of y -> pde_index x = pde_index y /\ pte_index x = pte_index y.
Proof.
  rewrite !pde_index_div, !pte_index_div. unfold page_of.
  change (2 ^ 22) with 4194304. change (2 ^ 12) with 4096. change (2 ^ 10) with 1024. intros. zdiv.
Qed.

(** What [memory_create_map] and [find_pte] write: a page address with flags. *)
Lemma entry_flags p f :
  p mod 4096 = 0 -> 0 <= f < 4096 -> Z.testbit f 0 = true ->
  page_of (Z.lor p f) = p /\ present (Z.lor p f) = true.
Proof.
  intros Hp Hf Hb. rewrite (lor_add_low p f 12) by done. split; [by apply page_of_offset|].
  unfold present. rewrite <- (lor_add_low p f 12) by done. by rewrite Z.lor_spec, Hb, orb_true_r.
Qed.

Lemma lor_flags f g : 0 <= f < 4096 -> 0 <= g < 4096 -> 0 <= Z.lor f g < 4096.
Proof.
  intros Hf Hg. assert (Z.lor f g = Z.lor f g mod 2 ^ 12) as ->.
  { apply Z.bits_inj'. intros n Hn. destruct (decide (n < 12)) as [Hl|Hl].
    - by rewrite Z.mod_pow2_bits_low by done.
    - rewrite Z.mod_pow2_bits_high by lia. rewrite Z.lor_spec.
      rewrite <- (Z.mod_small f (2 ^ 12)), <- (Z.mod_small g (2 ^ 12)) by done.
      by rewrite !Z.mod_pow2_bits_high by lia. }
  apply (Z.mod_pos_bound _ (2 ^ 12)). lia.
Qed.

(** * The tables of a directory *)
Definition table_of (m : gmap Z Z) (d i : Z) : option Z :=
  let v := ld32 m (d + 4 * i) in
  if present v then Some (pde_paddr v) else None.

(** The frame an entry of a table names, if it is present. *)
Definition leaf (m : gmap Z Z) (t j : Z) : option Z :=
  let v := ld32 m (t + 4 * j) in
  if present v then Some (pte_paddr v) else None.

(** The processor's walk, in these terms. *)
Lemma walk_tables d m va :
  d mod 4096 = 0 ->
  mmu_walk d m va = t ← table_of m d (pde_index va); p ← leaf m t (pte_index va); Some (p + va mod 4096).
Proof.
  intros Hd. unfold mmu_walk, table_of, leaf, present, pde_paddr, pte_paddr.
  change (d / 4096 * 4096) with (page_of d). rewrite page_of_aligned by done.
  rewrite pde_index_div, pte_index_div, !shift_page.
  case_match; [|done]. cbn [mbind option_bind]. rewrite shift_page. unfold page_of.
  by case_match.
Qed.

(** The pages that make up a directory and its tables. *)
Definition pt_page (m : gmap Z Z) (d p : Z) : Prop :=
  p = d \/ exists i, 0 <= i < 1024 /\ table_of m d i = Some p.

(** A directory over a set of frames in use: [F] are the free frames. *)
Record dir_wf (m : gmap Z Z) (F : list Z) (d : Z) : Prop := {
  dw_dir : page_ok d;
  dw_dir_used : d ∉ F;
  dw_table : forall i t, 0 <= i < 1024 -> table_of m d i = Some t ->
    page_ok t /\ MEM_EXT_START <= t /\ (t ∉ F) /\ t <> d;
  dw_inj : forall i j t, 0 <= i < 1024 -> 0 <= j < 1024 ->
    table_of m d i = Some t -> table_of m d j = Some t -> i = j
}.

(** [m'] has the bytes of [m] in page [p]. *)
Definition same_page (m m' : gmap Z Z) (p : Z) : Prop :=
  forall a, page_of a = p -> mget m' a = mget m a.

Lemma same_page_word m m' p k :
  p mod 4096 = 0 -> same_page m m' p -> 0 <= k < 1024 -> ld32 m' (p + 4 * k) = ld32 m (p + 4 * k).
Proof.
  intros Hp Hs Hk. apply ld32_ext. intros b Hb. apply Hs.
  replace b with (p + (b - p)) by lia. apply page_of_offset; [done | lia].
Qed.

Lemma table_of_ext m m' d i :
  d mod 4096 = 0 -> same_page m m' d -> 0 <= i < 1024 -> table_of m' d i = table_of m d i.
Proof. intros Hd Hs Hi. unfold table_of. by rewrite (same_page_word m m'). Qed.

Lemma leaf_ext m m' t j :
  t mod 4096 = 0 -> same_page m m' t -> 0 <= j < 1024 -> leaf m' t j = leaf m t j.
Proof. intros Ht Hs Hj. unfold leaf. by rewrite (same_page_word m m'). Qed.

Lemma dir_wf_ext m m' F d : dir_wf m F d -> same_page m m' d -> dir_wf m' F d.
Proof.
  intros [Hd Hdf Ht Hi] Hs.
  constructor; [done | done | |].
  - intros i t Hir. rewrite (table_of_ext m m') by (done || apply Hd). by apply Ht.
  - intros i k t Hir Hk. rewrite !(table_of_ext m m') by (done || apply Hd). by apply Hi.
Qed.

(** The walk of a directory reads only its pages. *)
Lemma walk_ext m m' F d va :
  dir_wf m F d -> (forall p, pt_page m d p -> same_page m m' p) -> 0 <= va < 2 ^ 32 ->
  mmu_walk d m' va = mmu_walk d m va.
Proof.
  intros [[Hd _] _ Ht _] Hs Hva. pose proof (pde_index_range va Hva) as Hi.
  rewrite !walk_tables by done. rewrite (table_of_ext m m') by (done || apply Hs; by left).
  destruct (table_of m d (pde_index va)) as [t|] eqn:Et; [|done]. cbn [mbind option_bind].
  destruct (Ht _ _ Hi Et) as ([Hta _] & _).
  rewrite (leaf_ext m m'); [done | done | | apply pte_index_range].
  apply Hs. right. by exists (pde_index va).
Qed.

(** A word written in a page leaves the other pages alone. *)
Lemma st32_same_page m p k v q :
  p mod 4096 = 0 -> 0 <= k < 1024 -> q <> p -> same_page m (st32 m (p + 4 * k) v) q.
Proof.
  intros Hp Hk Hq a Ha. apply mget_st32_ne.
  destruct (decide (a < p + 4 * k)); [by left|]. destruct (decide (p + 4 * k + 4 <= a)); [by right|].
  exfalso. apply Hq. rewrite <- Ha. replace a with (p + (a - p)) by lia. apply page_of_offset; [done | lia].
Qed.

Lemma same_outside_page p m m' q :
  p mod 4096 = 0 -> same_outside p 4096 m m' -> q <> p -> same_page m m' q.
Proof.
  intros Hp Hs Hq a Ha. apply Hs. intros Hin. apply Hq. rewrite <- Ha.
  replace a with (p + (a - p)) by lia. apply page_of_offset; [done | lia].
Qed.

Lemma same_page_trans m1 m2 m3 p : same_page m1 m2 p -> same_page m2 m3 p -> same_page m1 m3 p.
Proof. intros H1 H2 a Ha. by rewrite H2, H1. Qed.

(** ** Writing entries *)
Lemma table_of_set m d i v k :
  d mod 4096 = 0 -> 0 <= i < 1024 -> 0 <= k < 1024 ->
  table_of (st32 m (d + 4 * i) v) d k =
    if k =? i then (if present (u32 v) then Some (pde_paddr (u32 v)) else None) else table_of m d k.
Proof.
  intros Hd Hi Hk. unfold table_of. destruct (Z.eqb_spec k i) as [->|].
  - by rewrite ld32_st32_eq.
  - by rewrite ld32_st32_ne by lia.
Qed.

Lemma leaf_set m t j v k :
  leaf (st32 m (t + 4 * j) v) t k =
    if k =? j then (if present (u32 v) then Some (pte_paddr (u32 v)) else None) else leaf m t k.
Proof.
  unfold leaf. destruct (Z.eqb_spec k j) as [->|].
  - by rewrite ld32_st32_eq.
  - by rewrite ld32_st32_ne by lia.
Qed.

(** A zeroed table maps nothing. *)
Lemma leaf_zero m t j :
  t mod 4096 = 0 -> 0 <= j < 1024 -> (forall a, page_of a = t -> mget m a = 0) -> leaf m t j = None.
Proof.
  intros Ht Hj Hz. unfold leaf.
  assert (ld32 m (t + 4 * j) = 0) as ->; [|done]. unfold ld32.
  rewrite !Hz by (rewrite <- ?Z.add_assoc; apply page_of_offset; [done | lia]). lia.
Qed.

(** A leaf of a table changes the translation of one page. *)
Lemma walk_set_leaf m F d i t j v x :
  dir_wf m F d -> 0 <= i < 1024 -> 0 <= j < 1024 -> table_of m d i = Some t -> present (u32 v) = true ->
  0 <= x < 2 ^ 32 ->
  mmu_walk d (st32 m (t + 4 * j) v) x =
    if (pde_index x =? i) && (pte_index x =? j) then Some (page_of (u32 v) + x mod 4096) else mmu_walk d m x.
Proof.
  intros [[Hd Hdk] Hdf Htab Hinj] Hi Hj Et Hp Hx.
  destruct (Htab _ _ Hi Et) as ([Hta Htk] & _ & _ & Htd). pose proof (pde_index_range x Hx) as Hxi.
  pose proof (pte_index_range x) as Hxj. rewrite !walk_tables by done.
  rewrite (table_of_ext m) by (done || by apply st32_same_page).
  destruct (Z.eqb_spec (pde_index x) i) as [->|Hne]; simpl.
  - rewrite Et. cbn [mbind option_bind]. rewrite leaf_set, Hp. unfold pte_paddr at 1. rewrite shift_page.
    by case_match.
  - destruct (table_of m d (pde_index x)) as [t'|] eqn:Et'; [|done]. cbn [mbind option_bind].
    assert (t' <> t) as Htt by (intros ->; apply Hne; by apply (Hinj _ _ t)).
    destruct (Htab _ _ Hxi Et') as ([Hta' _] & _). by rewrite (leaf_ext m) by (done || by apply st32_same_page).
Qed.

Lemma dir_wf_set_leaf m F d i t j v :
  dir_wf m F d -> 0 <= i < 1024 -> 0 <= j < 1024 -> table_of m d i = Some t ->
  dir_wf (st32 m (t + 4 * j) v) F d /\
  forall k, 0 <= k < 1024 -> table_of (st32 m (t + 4 * j) v) d k = table_of m d k.
Proof.
  intros [[Hd Hdk] Hdf Htab Hinj] Hi Hj Et. destruct (Htab _ _ Hi Et) as ([Hta Htk] & _ & _ & Htd).
  assert (forall k, 0 <= k < 1024 -> table_of (st32 m (t + 4 * j) v) d k = table_of m d k) as E.
  { intros k Hk. apply table_of_ext; [done | by apply st32_same_page | done]. }
  split; [|done]. constructor; [done | done | |].
  - intros k t' Hk. rewrite E by done. by apply Htab.
  - intros k l t' Hk Hl. rewrite !E by done. by apply Hinj.
Qed.

(** A fresh zeroed page becomes a table: no translation changes. *)
Lemma dir_add_table m m' F d i t :
  dir_wf m (t :: F) d -> t ∉ F -> page_ok t -> MEM_EXT_START <= t -> 0 <= i < 1024 -> table_of m d i = None ->
  (forall k, 0 <= k < 1024 -> table_of m' d k = if k =? i then Some t else table_of m d k) ->
  (forall a, page_of a = t -> mget m' a = 0) ->
  (forall p, p <> d -> p <> t -> same_page m m' p) ->
  dir_wf m' F d /\ forall x, 0 <= x < 2 ^ 32 -> mmu_walk d m' x = mmu_walk d m x.
Proof.
  intros [[Hd Hdk] Hdf Htab Hinj] HtF Hta Hte Hi En E Hz Hsame.
  apply not_elem_of_cons in Hdf as [Hdt HdF]. split.
  - constructor; [done | done | |].
    + intros k t' Hk. rewrite E by done. destruct (Z.eqb_spec k i) as [->|]; [by intros [= <-]|].
      intros Et'. destruct (Htab _ _ Hk Et') as (? & ? & ?%not_elem_of_cons & ?). by destruct_and!.
    + intros k l t' Hk Hl. rewrite !E by done.
      destruct (Z.eqb_spec k i) as [->|], (Z.eqb_spec l i) as [->|]; try done.
      * intros [= <-] Et'. destruct (Htab _ _ Hl Et') as (_ & _ & []%not_elem_of_cons & _). done.
      * intros Et' [= <-]. destruct (Htab _ _ Hk Et') as (_ & _ & []%not_elem_of_cons & _). done.
      * by apply Hinj.
  - intros x Hx. pose proof (pde_index_range x Hx) as Hxi. pose proof (pte_index_range x) as Hxj.
    rewrite !walk_tables by done. rewrite E by done. destruct (Z.eqb_spec (pde_index x) i) as [->|].
    + rewrite En. cbn [mbind option_bind]. by rewrite leaf_zero by (done || apply Hta).
    + destruct (table_of m d (pde_index x)) as [t'|] eqn:Et'; [|done]. cbn [mbind option_bind].
      destruct (Htab _ _ Hxi Et') as ([Hta' _] & _ & []%not_elem_of_cons & ?).
      by rewrite (leaf_ext m) by (done || by apply Hsame).
Qed.

Section AddrSpace.
Context `{Layout} `{Device}.

(** * States in which page tables can be worked on *)
Definition frames (s : kst) : list Z := free_frames (k_alloc s).

(** The allocator is at rest, and its frames are within the kernel's mapping. *)
Record paging_ok (s : kst) : Prop := {
  po_mutex : mutex_free s paddr_alloc;
  po_alloc : alloc_wf (k_alloc s);
  po_frames : forall p, p ∈ all_frames (k_alloc s) -> page_ok p
}.

(** [s'] is [s] with other page tables for [d]: only RAM and the allocator changed;
    frames were taken to be tables or are the data pages [ds], and none was given
    back; the tables of [d] are still its tables; nothing but the pages of [d] and
    the data pages was written. *)
Record map_step (d : Z) (ds : list Z) (s s' : kst) : Prop := {
  ms_state : exists m a, s' = set_k_alloc a (set_k_mem m s);
  ms_ok : paging_ok s';
  ms_dir : dir_wf (k_mem s') (frames s') d;
  ms_taken : exists ps, frames s = ps ++ frames s' /\ forall p, p ∈ ps -> pt_page (k_mem s') d p \/ p ∈ ds;
  ms_data : forall p, p ∈ ds -> p ∈ frames s /\ (p ∉ frames s') /\ ~ pt_page (k_mem s') d p;
  ms_tables : forall i t, 0 <= i < 1024 -> table_of (k_mem s) d i = Some t -> table_of (k_mem s') d i = Some t;
  ms_new : forall p, pt_page (k_mem s') d p -> pt_page (k_mem s) d p \/ p ∈ frames s;
  ms_frame : forall p, ~ pt_page (k_mem s') d p -> p ∉ ds -> same_page (k_mem s) (k_mem s') p;
  ms_region : all_frames (k_alloc s') = all_frames (k_alloc s)
}.

Lemma pt_page_mono d ds s s' p : map_step d ds s s' -> pt_page (k_mem s) d p -> pt_page (k_mem s') d p.
Proof.
  intros [_ _ _ _ _ Ht _ _ _] [->|(i & Hi & Et)]; [by left|]. right. exists i. split; [done|]. by apply Ht.
Qed.

Lemma map_step_refl d s : paging_ok s -> dir_wf (k_mem s) (frames s) d -> map_step d [] s s.
Proof.
  intros Hok Hd. constructor; try done; [| |by intros p ?%not_elem_of_nil|by left].
  - exists (k_mem s), (k_alloc s). by destruct s.
  - exists []. split; [done|]. by intros p ?%not_elem_of_nil.
Qed.

Lemma map_step_trans d ds ds' s1 s2 s3 :
  map_step d ds s1 s2 -> map_step d ds' s2 s3 -> map_step d (ds ++ ds') s1 s3.
Proof.
  intros H12 H23. pose proof (fun p => pt_page_mono d ds' s2 s3 p H23) as Hmono.
  destruct H12 as [(m & a & ->) Ho Hd (ps & Ef & Hps) Hda Ht Hn Hf Hr].
  destruct H23 as [(m' & a' & ->) Ho' Hd' (ps' & Ef' & Hps') Hda' Ht' Hn' Hf' Hr'].
  constructor; try done.
  - exists m', a'. by destruct s1.
  - exists (ps ++ ps'). rewrite Ef, Ef'. split; [by rewrite app_assoc|]. setoid_rewrite elem_of_app.
    intros p [Hp|Hp]; [destruct (Hps p Hp) | destruct (Hps' p Hp)]; auto.
  - intros p [Hp|Hp]%elem_of_app.
    + destruct (Hda p Hp) as (H1 & H2 & H3). split_and!; [done | | intros [?|?]%Hn'; done].
      intros Hp'. apply H2. rewrite Ef'. apply elem_of_app. by right.
    + destruct (Hda' p Hp) as (H1 & H2 & H3). split_and!; [|done|done]. rewrite Ef. apply elem_of_app. by right.
  - intros i t Hi Et. apply Ht'; [done|]. by apply Ht.
  - intros p [Hp|Hp]%Hn'; [by apply Hn|]. right. rewrite Ef. apply elem_of_app. by right.
  - intros p Hp [Hp1 Hp2]%not_elem_of_app. apply (same_page_trans _ (k_mem (set_k_alloc a (set_k_mem m s1)))).
    + apply Hf; [|done]. intros Hp'. by apply Hp, Hmono.
    + by apply Hf'.
  - by rewrite Hr'.
Qed.

Lemma paging_ok_mem s m : paging_ok s -> paging_ok (set_k_mem m s).
Proof. by intros [? ? ?]. Qed.

(** ** A frame taken for a table *)
Lemma paging_alloc s :
  paging_ok s ->
  (frames s = [] /\ addr_alloc_page 1 s = Done 0 s) \/
  exists p a, addr_alloc_page 1 s = Done p (set_k_alloc a s) /\ paging_ok (set_k_alloc a s) /\
    frames s = p :: free_frames a /\ (p ∉ free_frames a) /\ page_ok p /\ MEM_EXT_START <= p /\
    all_frames a = all_frames (k_alloc s).
Proof.
  intros [Hm Hwf Hfr]. destruct (addr_alloc_page_run s Hm Hwf) as [?|(p & a & E & Hwf' & Hr & Ef)]; [by left|].
  right. exists p, a. unfold frames. rewrite Ef. pose proof (free_frames_NoDup _ Hwf) as Hnd.
  rewrite Ef in Hnd. apply NoDup_cons in Hnd as [Hp _].
  assert (p ∈ all_frames (k_alloc s)) as Hin by (apply free_frames_all; rewrite Ef; by left).
  split_and!; [done | | done | done | by apply Hfr | by apply (frame_bounds (k_alloc s)) | by apply all_frames_region].
  constructor; [done | done |]. kproj. intros q. rewrite (all_frames_region _ _ Hr). apply Hfr.
Qed.

(** ** find_pte *)
Lemma find_pte_present s d va t alloc :
  dir_wf (k_mem s) (frames s) d -> 0 <= va < 2 ^ 32 -> table_of (k_mem s) d (pde_index va) = Some t ->
  find_pte d va alloc s = Done (t + 4 * pte_index va) s.
Proof.
  intros [Hd _ Ht _] Hva Et. pose proof (pde_index_range va Hva) as Hi. pose proof (pte_index_range va) as Hj.
  destruct (Ht _ _ Hi Et) as (Hta & _). pose proof (page_ok_bounds _ Hd). pose proof (page_ok_bounds _ Hta).
  unfold find_pte. rewrite u32_small by lia. kred.
  erewrite lift_done by (apply load32_kernel, page_ok_word; [done | lia]). kred.
  rewrite set_k_mem_id. unfold table_of in Et. destruct (present _); [|done]. injection Et as Et.
  kred. rewrite Et, u32_small by lia. done.
Qed.

Lemma find_pte_missing s d va :
  dir_wf (k_mem s) (frames s) d -> 0 <= va < 2 ^ 32 -> table_of (k_mem s) d (pde_index va) = None ->
  find_pte d va 0 s = Done 0 s.
Proof.
  intros [Hd _ _ _] Hva Et. pose proof (pde_index_range va Hva) as Hi.
  pose proof (page_ok_bounds _ Hd). unfold find_pte. rewrite u32_small by lia. kred.
  erewrite lift_done by (apply load32_kernel, page_ok_word; [done | lia]). kred.
  rewrite set_k_mem_id. unfold table_of in Et. destruct (present _); [done|]. by kred.
Qed.

(** The frames a mapping under the directory entry [i] takes: one when its table is missing. *)
Definition new_table (m : gmap Z Z) (d i : Z) : nat :=
  match table_of m d i with Some _ => 0 | None => 1 end.

Lemma new_table_le m d i : (new_table m d i <= 1)%nat.
Proof. unfold new_table. destruct (table_of m d i); lia. Qed.

Lemma new_table_mapped m d x pa : d mod 4096 = 0 -> mmu_walk d m x = Some pa -> new_table m d (pde_index x) = 0%nat.
Proof. intros Hd. rewrite walk_tables by done. unfold new_table. by destruct (table_of m d (pde_index x)). Qed.

(** A directory entry for the table [p], and the zeroed table. *)
Lemma new_table_run s d i p :
  dir_wf (k_mem s) (p :: frames s) d -> paging_ok s -> p ∉ frames s -> page_ok p -> MEM_EXT_START <= p ->
  0 <= i < 1024 -> table_of (k_mem s) d i = None ->
  exists m1 m, lift (store32 (d + 4 * i) (Z.lor (Z.lor (Z.lor p PDE_P) PTE_W) PTE_U)) s = Done tt (set_k_mem m1 s) /\
    lift (kmemset p 0 MEM_PAGE_SIZE) (set_k_mem m1 s) = Done tt (set_k_mem m s) /\
    dir_wf m (frames s) d /\ (forall x, 0 <= x < 2 ^ 32 -> mmu_walk d m x = mmu_walk d (k_mem s) x) /\
    (forall k, 0 <= k < 1024 -> table_of m d k = if k =? i then Some p else table_of (k_mem s) d k) /\
    (forall q, q <> d -> q <> p -> same_page (k_mem s) m q).
Proof.
  intros Hd Hok Hpf Hp Hpe Hi En. pose proof (dw_dir _ _ _ Hd) as Hdok.
  pose proof (page_ok_bounds _ Hp) as Hpb. pose proof (dw_dir_used _ _ _ Hd) as [Hdp _]%not_elem_of_cons.
  rewrite <- !Z.lor_assoc. change (Z.lor PDE_P (Z.lor PTE_W PTE_U)) with 7.
  destruct (entry_flags p 7 (proj1 Hp) ltac:(lia) eq_refl) as [Ee Ep].
  assert (u32 (Z.lor p 7) = Z.lor p 7) as Eu.
  { rewrite (lor_add_low p 7 12) by (try apply Hp; lia). apply u32_small. lia. }
  set (m1 := st32 (k_mem s) (d + 4 * i) (Z.lor p 7)).
  destruct (kmemset_spec p 0 4096 (k_cr3 s) m1) as (m & Em & Hout & Hz);
    [unfold MEM_EXT_START in Hpe; lia | lia | by apply page_ok_block |].
  assert (same_page m1 m d) as Hmd by (by apply (same_outside_page p); [apply Hp | |]).
  assert (forall k, 0 <= k < 1024 -> table_of m d k = if k =? i then Some p else table_of (k_mem s) d k) as Et.
  { intros k Hk. rewrite (table_of_ext m1 m d) by (done || apply Hdok). unfold m1.
    rewrite table_of_set by (done || apply Hdok). rewrite Eu, Ep. unfold pde_paddr. by rewrite shift_page, Ee. }
  assert (forall q, q <> d -> q <> p -> same_page (k_mem s) m q) as Hsame.
  { intros q Hqd Hqp. apply (same_page_trans _ m1).
    - by apply st32_same_page; [apply Hdok | |].
    - by apply (same_outside_page p); [apply Hp | |]. }
  assert (forall a, page_of a = p -> mget m a = 0) as Hzero.
  { intros a Ha. apply (Hz a). rewrite <- Ha. unfold page_of. zdiv. }
  exists m1, m. split_and!; [| | | | exact Et | exact Hsame].
  - by erewrite lift_done by (apply store32_kernel, page_ok_word; [done | lia]).
  - by erewrite lift_done by exact Em.
  - by apply (dir_add_table (k_mem s) m (frames s) d i p).
  - by apply (dir_add_table (k_mem s) m (frames s) d i p).
Qed.

Lemma find_pte_alloc s d va :
  paging_ok s -> dir_wf (k_mem s) (frames s) d -> 0 <= va < 2 ^ 32 ->
  (frames s = [] /\ table_of (k_mem s) d (pde_index va) = None /\ find_pte d va 1 s = Done 0 s) \/
  exists s' t, find_pte d va 1 s = Done (t + 4 * pte_index va) s' /\ map_step d [] s s' /\
    table_of (k_mem s') d (pde_index va) = Some t /\
    (length (frames s) <= new_table (k_mem s) d (pde_index va) + length (frames s'))%nat /\
    forall x, 0 <= x < 2 ^ 32 -> mmu_walk d (k_mem s') x = mmu_walk d (k_mem s) x.
Proof.
  intros Hok Hd Hva. pose proof (pde_index_range va Hva) as Hi. pose proof (pte_index_range va) as Hj.
  destruct (table_of (k_mem s) d (pde_index va)) as [t|] eqn:Et.
  { right. exists s, t. split_and!; [by apply find_pte_present | by apply map_step_refl | done | lia | done]. }
  pose proof (page_ok_bounds _ (dw_dir _ _ _ Hd)) as Hdb.
  assert (exists r, find_pte d va 1 s = (pg_paddr ← addr_alloc_page 1; r pg_paddr) s /\ r = fun pg_paddr =>
      if pg_paddr =? 0 then mret 0
      else
        lift (store32 (d + 4 * pde_index va) (Z.lor (Z.lor (Z.lor pg_paddr PDE_P) PTE_W) PTE_U));;
        lift (kmemset pg_paddr 0 MEM_PAGE_SIZE);;
        mret (u32 (pg_paddr + 4 * pte_index va))) as (r & E & ->).
  { eexists. split; [|reflexivity]. unfold find_pte. rewrite u32_small by lia. rewrite (run_bind (lift _)).
    erewrite lift_done by (apply load32_kernel, page_ok_word; [apply Hd | lia]). cbn [obind].
    rewrite set_k_mem_id. unfold table_of in Et. by destruct (present _). }
  rewrite E. clear E.
  destruct (paging_alloc s Hok) as [[Hnil Ea]|(p & a & Ea & Hok' & Ef & Hpf & Hp & Hpe & Hall)].
  { left. split_and!; [done | done |]. kred. rewrite Ea. by kred. }
  right. pose proof (page_ok_bounds _ Hp). rewrite Ef in Hd.
  destruct (new_table_run (set_k_alloc a s) d (pde_index va) p) as (m1 & m & Em1 & Em & Hdm & Hw & Ht & Hsame); try done.
  exists (set_k_mem m (set_k_alloc a s)), p. split_and!; [| |by rewrite Ht, Z.eqb_refl | unfold new_table, frames in *; by rewrite Et, Ef | done].
  - kred. rewrite Ea. kred. unfold MEM_EXT_START in Hpe. rewrite (proj2 (Z.eqb_neq p 0)) by lia.
    kred. rewrite Em1. kred. rewrite Em. kred. by rewrite u32_small by lia.
  - assert (forall q, pt_page m d q <-> pt_page (k_mem s) d q \/ q = p) as Hpt.
    { intros q. unfold pt_page. split.
      - intros [->|(i & Hik & Eq)]; [by left; left|]. rewrite Ht in Eq by done.
        destruct (Z.eqb_spec i (pde_index va)); [right; congruence | left; right; by exists i].
      - intros [[->|(i & Hik & Eq)]| ->]; [by left | right; exists i | right; exists (pde_index va)]; (split; [done|]); rewrite Ht by done.
        + destruct (Z.eqb_spec i (pde_index va)) as [->|]; [congruence | done].
        + by rewrite Z.eqb_refl. }
    constructor; kproj.
    + exists m, a. by destruct s.
    + by apply paging_ok_mem.
    + exact Hdm.
    + exists [p]. unfold frames. kproj. split; [done|]. intros q ->%list_elem_of_singleton. left. apply Hpt. by right.
    + by intros q ?%not_elem_of_nil.
    + intros i t Hik Eq. rewrite Ht by done. destruct (Z.eqb_spec i (pde_index va)) as [->|]; [congruence | done].
    + intros q [Hq| ->]%Hpt; [by left|]. right. rewrite Ef. by left.
    + intros q Hq _. apply Hsame; intros ->; apply Hq, Hpt; [left; by left | by right].
    + exact Hall.
Qed.

(** ** One page mapped *)
Lemma create_map_step s d va pa perm n :
  paging_ok s -> dir_wf (k_mem s) (frames s) d -> 0 <= va < 2 ^ 32 -> va mod 4096 = 0 ->
  0 <= pa < 2 ^ 32 -> pa mod 4096 = 0 -> 0 <= perm < 4096 -> mmu_walk d (k_mem s) va = None ->
  (frames s = [] /\ new_table (k_mem s) d (pde_index va) = 1%nat /\ create_map_loop (S n) d va pa perm s = Done true s) \/
  exists s', create_map_loop (S n) d va pa perm s =
      create_map_loop n d (u32 (va + MEM_PAGE_SIZE)) (u32 (pa + MEM_PAGE_SIZE)) perm s' /\ map_step d [] s s' /\
    (length (frames s) <= new_table (k_mem s) d (pde_index va) + length (frames s'))%nat /\
    forall x, 0 <= x < 2 ^ 32 -> mmu_walk d (k_mem s') x =
      if page_of x =? va then Some (pa + x mod 4096) else mmu_walk d (k_mem s) x.
Proof.
  intros Hok Hd Hva Hvm Hpa Hpm Hperm Hnone. pose proof (pde_index_range va Hva) as Hi. pose proof (pte_index_range va) as Hj.
  cbn [create_map_loop].
  destruct (find_pte_alloc s d va Hok Hd Hva) as [(Hnil & En & E)|(s1 & t & E & Hs1 & Et & Hlen & Hw)].
  { left. split_and!; [done | unfold new_table; by rewrite En |]. kred. rewrite E. by kred. }
  right. pose proof (ms_dir _ _ _ _ Hs1) as Hd1. destruct (dw_table _ _ _ Hd1 _ _ Hi Et) as (Hta & Hte & Htf & Htd).
  rewrite <- Hw, walk_tables, Et in Hnone by (done || apply Hd1). cbn [mbind option_bind] in Hnone.
  destruct (leaf (k_mem s1) t (pte_index va)) as [|] eqn:El; [done|]. unfold leaf in El.
  destruct (present (ld32 (k_mem s1) (t + 4 * pte_index va))) eqn:Epres; [done|].
  set (v := Z.lor (Z.lor pa perm) PTE_P). set (m := st32 (k_mem s1) (t + 4 * pte_index va) v).
  assert (0 <= Z.lor perm PTE_P < 4096) as Hfl by (apply lor_flags; [done | by compute]).
  destruct (entry_flags pa (Z.lor perm PTE_P) Hpm Hfl) as [Ev Ep]; [by rewrite Z.lor_spec, orb_true_r|].
  rewrite Z.lor_assoc in Ev, Ep.
  assert (u32 v = v) as Eu.
  { apply u32_small. unfold v. rewrite <- Z.lor_assoc, (lor_add_low pa _ 12) by done. zdiv. }
  exists (set_k_mem m s1). split_and!; [| |exact Hlen|].
  - kred. rewrite E. kred. unfold MEM_EXT_START in Hte. rewrite (proj2 (Z.eqb_neq _ 0)) by lia. kred.
    erewrite lift_done by (apply load32_kernel, page_ok_word; [done | lia]). kred. rewrite set_k_mem_id, Epres.
    unfold ASSERT. cbn [negb]. kred. erewrite lift_done by (apply store32_kernel, page_ok_word; [done | lia]). by kred.
  - change [] with ([] ++ [] : list Z). apply (map_step_trans _ _ _ _ _ _ Hs1). destruct (dir_wf_set_leaf (k_mem s1) _ d _ t (pte_index va) v Hd1 Hi Hj Et) as [Hdm Ht].
    assert (forall q, pt_page m d q <-> pt_page (k_mem s1) d q) as Hpt.
    { intros q. unfold pt_page. split; (intros [->|(i & Hik & Eq)]; [by left|]; right; exists i; split; [done|]);
        [by rewrite <- Ht | by unfold m; rewrite Ht]. }
    constructor; kproj.
    + exists m, (k_alloc s1). by destruct s1.
    + apply paging_ok_mem, Hs1.
    + exact Hdm.
    + exists []. split; [done|]. by intros q ?%not_elem_of_nil.
    + by intros q ?%not_elem_of_nil.
    + intros i t' Hik Eq. unfold m. by rewrite Ht.
    + intros q Hq%Hpt. by left.
    + intros q Hq _. apply st32_same_page; [apply Hta | done |]. intros ->. apply Hq, Hpt. right. by exists (pde_index va).
    + done.
  - intros x Hx. kproj. unfold m. rewrite (walk_set_leaf _ _ _ _ _ _ _ _ Hd1 Hi Hj Et) by (done || by rewrite Eu).
    rewrite Eu, Hw by done. unfold v. rewrite Ev. destruct (Z.eqb_spec (page_of x) va) as [Ex|Hne].
    + assert (page_of x = page_of va) as [-> ->]%page_indices by (by rewrite (page_of_aligned va)).
      by rewrite !Z.eqb_refl.
    + destruct (Z.eqb_spec (pde_index x) (pde_index va)) as [Ei|], (Z.eqb_spec (pte_index x) (pte_index va)) as [Ej|];
        try done. exfalso. apply Hne. by rewrite (indices_page x va Ei Ej), page_of_aligned.
Qed.

(** ** A run of pages mapped *)

(** The address space [f] with [n] pages at [va] mapped to the frames from [pa] on. *)
Definition map_pages (va pa : Z) (n : nat) (f : Z -> option Z) (x : Z) : option Z :=
  if decide (va <= x < va + Z.of_nat n * 4096) then Some (pa + (x - va)) else f x.

Lemma map_pages_0 va pa f x : map_pages va pa 0 f x = f x.
Proof. unfold map_pages. case_decide; [lia | done]. Qed.

Lemma map_pages_S va pa n f x :
  va mod 4096 = 0 ->
  map_pages (va + 4096) (pa + 4096) n (fun x => if page_of x =? va then Some (pa + x mod 4096) else f x) x =
    map_pages va pa (S n) f x.
Proof.
  intros Ha. unfold map_pages, page_of.
  destruct (Z.eqb_spec (x / 4096 * 4096) va) as [Ex|Hx]; repeat case_decide; try done; try f_equal; zdiv.
Qed.

Lemma create_map_loop_run n : forall s d va pa perm,
  paging_ok s -> dir_wf (k_mem s) (frames s) d -> 0 <= perm < 4096 ->
  0 <= va -> va mod 4096 = 0 -> va + Z.of_nat n * 4096 <= 2 ^ 32 ->
  0 <= pa -> pa mod 4096 = 0 -> pa + Z.of_nat n * 4096 <= 2 ^ 32 ->
  (forall x, va <= x < va + Z.of_nat n * 4096 -> mmu_walk d (k_mem s) x = None) ->
  exists failed s' k, create_map_loop n d va pa perm s = Done failed s' /\ map_step d [] s s' /\
    (failed = false /\ k = n \/ failed = true /\ (k < n)%nat /\ frames s' = []) /\
    forall x, 0 <= x < 2 ^ 32 -> mmu_walk d (k_mem s') x = map_pages va pa k (mmu_walk d (k_mem s)) x.
Proof.
  induction n as [|n IH]; intros s d va pa perm Hok Hd Hperm Hva Hvm Hve Hpa Hpm Hpe Hnone.
  { exists false, s, 0%nat. split_and!; [done | by apply map_step_refl | by left |]. intros. by rewrite map_pages_0. }
  destruct (create_map_step s d va pa perm n) as [(Hnil & _ & E)|(s1 & E & Hs1 & _ & Hw)]; try done; [lia | lia | apply Hnone; lia | |].
  { exists true, s, 0%nat. split_and!; [done | by apply map_step_refl | right; split_and!; [done | lia | done] |].
    intros. by rewrite map_pages_0. }
  rewrite E. change MEM_PAGE_SIZE with 4096. destruct n as [|n].
  { exists false, s1, 1%nat. cbn [create_map_loop]. split_and!; [done | done | by left |].
    intros x Hx. rewrite <- map_pages_S, map_pages_0 by done. by apply Hw. }
  rewrite !u32_small by lia.
  destruct (IH s1 d (va + 4096) (pa + 4096) perm) as (failed & s' & k & E' & Hs' & Hk & Hw'); try lia; try done.
  - apply Hs1.
  - apply Hs1.
  - zdiv.
  - zdiv.
  - intros x Hx. rewrite Hw by lia. unfold page_of. destruct (Z.eqb_spec (x / 4096 * 4096) va); [zdiv|]. apply Hnone. lia.
  - exists failed, s', (S k). split_and!; [done | by apply (map_step_trans d [] [] s s1 s') | |].
    + destruct Hk as [[-> ->]|(-> & ? & ?)]; [by left | right; split_and!; [done | lia | done]].
    + intros x Hx. rewrite Hw' by done. rewrite <- map_pages_S by done. unfold map_pages. by rewrite Hw.
Qed.

(** ** A new address space *)
Lemma copy_kernel_pdes_run n : forall i p cr3 m,
  page_ok kernel_page_dir -> page_ok p -> p <> kernel_page_dir -> 0 <= i -> i + Z.of_nat n <= 1024 ->
  exists m', copy_kernel_pdes n i p cr3 m = Some (tt, m') /\ (forall q, q <> p -> same_page m m' q) /\
    forall k, 0 <= k < 1024 -> ld32 m' (p + 4 * k) =
      if decide (i <= k < i + Z.of_nat n) then ld32 m (kernel_page_dir + 4 * k) else ld32 m (p + 4 * k).
Proof.
  induction n as [|n IH]; intros i p cr3 m Hk Hp Hne Hi Hn; cbn [copy_kernel_pdes].
  { exists m. split_and!; [done | done |]. intros k Hkr. rewrite decide_False by lia. done. }
  erewrite mm_bind_some by (apply load32_kernel, page_ok_word; [done | lia]).
  erewrite mm_bind_some by (apply store32_kernel, page_ok_word; [done | lia]).
  set (m1 := st32 m (p + 4 * i) (ld32 m (kernel_page_dir + 4 * i))).
  assert (forall q, q <> p -> same_page m m1 q) as Hs1 by (intros q Hq; apply st32_same_page; [apply Hp | lia | done]).
  destruct (IH (i + 1) p cr3 m1 Hk Hp Hne ltac:(lia) ltac:(lia)) as (m' & E & Hs & Hv).
  exists m'. split_and!; [exact E | intros q Hq; apply (same_page_trans _ m1); auto |].
  intros k Hkr. rewrite Hv by done.
  rewrite (same_page_word m m1 kernel_page_dir k) by (done || apply Hk || by apply Hs1).
  repeat case_decide; try done; try lia; unfold m1.
  - assert (k = i) as -> by lia. rewrite ld32_st32_eq. apply u32_small, ld32_range.
  - rewrite ld32_st32_ne by lia. done.
Qed.

Lemma memory_create_uvm_run s :
  paging_ok s -> dir_wf (k_mem s) (frames s) kernel_page_dir ->
  (frames s = [] /\ memory_create_uvm s = Done 0 s) \/
  exists d m a, memory_create_uvm s = Done d (set_k_mem m (set_k_alloc a s)) /\
    paging_ok (set_k_mem m (set_k_alloc a s)) /\ frames s = d :: free_frames a /\ MEM_EXT_START <= d /\
    all_frames a = all_frames (k_alloc s) /\ dir_wf m (free_frames a) d /\
    (forall i, 0 <= i < 1024 -> table_of m d i = if i <? 512 then table_of (k_mem s) kernel_page_dir i else None) /\
    (forall q, q <> d -> same_page (k_mem s) m q).
Proof.
  intros Hok Hkd. unfold memory_create_uvm.
  destruct (paging_alloc s Hok) as [[Hnil Ea]|(p & a & Ea & Hok' & Ef & Hpf & Hp & Hpe & Hall)].
  { left. split; [done|]. kred. rewrite Ea. by kred. }
  right. rewrite Ef in Hkd. destruct Hkd as [Hkok [Hkp Hkf]%not_elem_of_cons Hkt Hki].
  destruct (kmemset_spec p 0 4096 (k_cr3 s) (k_mem s)) as (m1 & Em & Hout & Hz);
    [unfold MEM_EXT_START in Hpe; lia | lia | by apply page_ok_block |].
  destruct (copy_kernel_pdes_run 512 0 p (k_cr3 s) m1 Hkok Hp ltac:(done) ltac:(lia) ltac:(lia)) as (m & Ec & Hs & Hv).
  assert (forall q, q <> p -> same_page (k_mem s) m1 q) as Hs1 by (intros q Hq; apply (same_outside_page p); [apply Hp | done..]).
  assert (forall i, 0 <= i < 1024 -> table_of m p i = if i <? 512 then table_of (k_mem s) kernel_page_dir i else None) as Ht.
  { intros i Hi. unfold table_of. rewrite Hv by done. destruct (Z.ltb_spec i 512); [rewrite decide_True by lia | rewrite decide_False by lia].
    - by rewrite (same_page_word (k_mem s) m1) by (done || apply Hkok || by apply Hs1).
    - assert (ld32 m1 (p + 4 * i) = 0) as ->; [|done]. unfold ld32. rewrite !Hz by lia. reflexivity. }
  exists p, m, a. split_and!; [| |done | done | exact Hall | |exact Ht|].
  - kred. rewrite Ea. kred. unfold MEM_EXT_START in Hpe. rewrite (proj2 (Z.eqb_neq p 0)) by lia. kred.
    erewrite lift_done by exact Em. kred. change (Z.to_nat (pde_index MEMORY_TASK_BASE)) with 512%nat.
    erewrite lift_done by exact Ec. by kred.
  - by apply paging_ok_mem.
  - constructor; [done | done | |].
    + intros i t Hi. rewrite Ht by done. destruct (i <? 512); [|done]. intros Et.
      destruct (Hkt _ _ Hi Et) as (? & ? & []%not_elem_of_cons & ?). by split_and!.
    + intros i j t Hi Hj. rewrite !Ht by done. destruct (i <? 512), (j <? 512); try done. by apply Hki.
  - intros q Hq. apply (same_page_trans _ m1); [by apply Hs1 | by apply Hs].
Qed.

(** The lower half of a new space is the kernel's, the upper half is empty. *)
Lemma uvm_walk s d m a x :
  dir_wf (k_mem s) (d :: free_frames a) kernel_page_dir -> d mod 4096 = 0 ->
  (forall i, 0 <= i < 1024 -> table_of m d i = if i <? 512 then table_of (k_mem s) kernel_page_dir i else None) ->
  (forall q, q <> d -> same_page (k_mem s) m q) -> 0 <= x < 2 ^ 32 ->
  mmu_walk d m x = if x <? MEMORY_TASK_BASE then mmu_walk kernel_page_dir (k_mem s) x else None.
Proof.
  intros [Hkok _ Hkt _] Hd Ht Hs Hx. pose proof (pde_index_range x Hx) as Hi.
  rewrite !walk_tables by (done || apply Hkok). rewrite Ht by done.
  assert ((pde_index x <? 512) = (x <? MEMORY_TASK_BASE)) as ->.
  { rewrite pde_index_div. change (2 ^ 22) with 4194304. unfold MEMORY_TASK_BASE.
    destruct (Z.ltb_spec (x / 4194304) 512), (Z.ltb_spec x 2147483648); try done; zdiv. }
  destruct (x <? MEMORY_TASK_BASE); [|done].
  destruct (table_of (k_mem s) kernel_page_dir (pde_index x)) as [t|] eqn:Et; [|done]. cbn [mbind option_bind].
  destruct (Hkt _ _ Hi Et) as ([Hta _] & _ & []%not_elem_of_cons & _).
  rewrite (leaf_ext (k_mem s)); [done | done | by apply Hs | apply pte_index_range].
Qed.

(** ** memory_get_paddr *)
Lemma memory_get_paddr_run s d va :
  dir_wf (k_mem s) (frames s) d -> 0 <= va < 2 ^ 32 ->
  memory_get_paddr d va s = Done
    (match table_of (k_mem s) d (pde_index va) with
     | None => 0
     | Some t => page_of (ld32 (k_mem s) (t + 4 * pte_index va)) + va mod 4096
     end) s.
Proof.
  intros Hd Hva. pose proof (pde_index_range va Hva) as Hi. pose proof (pte_index_range va) as Hj.
  unfold memory_get_paddr. destruct (table_of (k_mem s) d (pde_index va)) as [t|] eqn:Et.
  - destruct (dw_table _ _ _ Hd _ _ Hi Et) as (Hta & Hte & _). unfold MEM_EXT_START in Hte.
    kred. rewrite (find_pte_present _ _ _ t) by done. kred. rewrite (proj2 (Z.eqb_neq _ 0)) by lia. kred.
    erewrite lift_done by (apply load32_kernel, page_ok_word; [done | lia]). kred. rewrite set_k_mem_id.
    unfold pte_paddr. rewrite shift_page. change (MEM_PAGE_SIZE - 1) with (2 ^ 12 - 1). rewrite land_ones_mod by lia.
    change (2 ^ 12) with 4096. f_equal. apply u32_small.
    pose proof (ld32_range (k_mem s) (t + 4 * pte_index va)). unfold page_of. zdiv.
  - kred. rewrite find_pte_missing by done. by kred.
Qed.

(** ** Copying into another address space *)
Section CopyUvm.
(** The destination [to .. to + size) of the space [d]: [ph] is where the bytes are
    in RAM, in pages that are not page tables, each page mapped once.  [src i] is
    where the [i]-th byte of the source is, seen from the current space. *)
Variables (s : kst) (d to from size : Z) (ph src : Z -> Z).

Definition target (p : Z) : Prop := exists i, 0 <= i < size /\ p = page_of (ph (to + i)).

Record copy_ok : Prop := {
  co_dir : dir_wf (k_mem s) (frames s) d;
  co_to : 0 <= to /\ to + size <= 2 ^ 32;
  co_from : 0 < from /\ from + size <= 2 ^ 32;
  co_walk : forall i, 0 <= i < size -> mmu_walk d (k_mem s) (to + i) = Some (ph (to + i));
  co_frame : forall i, 0 <= i < size -> page_ok (page_of (ph (to + i))) /\ MEM_EXT_START <= ph (to + i);
  co_data : forall p, target p -> ~ pt_page (k_mem s) d p;
  co_once : forall i j, 0 <= i < size -> 0 <= j < size -> page_of (ph (to + i)) = page_of (ph (to + j)) ->
    page_of (to + i) = page_of (to + j);
  co_source : forall m i, (forall p, ~ target p -> same_page (k_mem s) m p) -> 0 <= i < size ->
    translate (k_cr3 s) m (from + i) = Some (src i) /\ ~ target (page_of (src i))
}.

Hypothesis Hok : copy_ok.

(** [m] after the first [j] bytes. *)
Definition copied (j : Z) (m : gmap Z Z) : Prop :=
  (forall i, 0 <= i < j -> mget m (ph (to + i)) = mget (k_mem s) (src i)) /\
  forall a, (forall i, 0 <= i < j -> a <> ph (to + i)) -> mget m a = mget (k_mem s) a.

Lemma copied_same_page j m p : j <= size -> copied j m -> ~ target p -> same_page (k_mem s) m p.
Proof.
  intros Hj [_ Ho] Hp a Ha. apply Ho. intros i Hi ->. apply Hp. exists i. split; [lia | done].
Qed.

Lemma copied_walk j m x :
  j <= size -> copied j m -> 0 <= x < 2 ^ 32 -> mmu_walk d m x = mmu_walk d (k_mem s) x.
Proof.
  intros Hj Hc. apply (walk_ext _ _ (frames s)); [apply Hok|]. intros p Hp. apply (copied_same_page j); [done..|].
  intros Ht. by apply (co_data Hok p Ht).
Qed.

Lemma copied_dir j m : j <= size -> copied j m -> dir_wf m (frames s) d.
Proof.
  intros Hj Hc. apply (dir_wf_ext (k_mem s)); [apply Hok|]. apply (copied_same_page j); [done..|].
  intros Htd. apply (co_data Hok d Htd). by left.
Qed.

(** Bytes of one page of the destination are next to each other. *)
Lemma ph_same_page i k : 0 <= i < size -> 0 <= i + k < size -> page_of (to + (i + k)) = page_of (to + i) ->
  ph (to + (i + k)) = ph (to + i) + k.
Proof.
  intros Hi Hk Ep. pose proof (co_walk Hok i Hi) as E1. pose proof (co_walk Hok (i + k) Hk) as E2.
  destruct (page_indices _ _ Ep) as [Ei Ej]. pose proof (proj1 (dw_dir _ _ _ (co_dir Hok))) as Hd.
  rewrite walk_tables in E1, E2 by done. rewrite Ei, Ej in E2.
  destruct (table_of _ _ _); [|done]. cbn [mbind option_bind] in *. destruct (leaf _ _ _); [|done].
  cbn [mbind option_bind] in *. injection E1 as <-. injection E2 as <-. unfold page_of in Ep. zdiv.
Qed.

Lemma ph_offset i : 0 <= i < size -> ph (to + i) mod 4096 = (to + i) mod 4096.
Proof.
  intros Hi. pose proof (co_walk Hok i Hi) as E1. rewrite walk_tables in E1 by apply (dw_dir _ _ _ (co_dir Hok)).
  destruct (table_of _ _ _); [|done]. cbn [mbind option_bind] in *.
  unfold leaf in E1. destruct (present _); [|done]. cbn [mbind option_bind] in *. injection E1 as <-.
  unfold pte_paddr. rewrite shift_page. unfold page_of. zdiv.
Qed.

(** One round: [c] bytes that stay in one page. *)
Lemma copy_chunk j c m :
  0 <= j -> 0 < c -> j + c <= size -> (to + j) mod 4096 + c <= 4096 -> copied j m ->
  exists m', kmemcpy (ph (to + j)) (from + j) c (k_cr3 s) m = Some (tt, m') /\ copied (j + c) m'.
Proof.
  intros Hj Hc Hjc Hpg Hm. pose proof Hok as [_ [Hto Hte] [Hf Hfe] _ Hfr _ _ Hsrc].
  assert (forall k, 0 <= k < c -> ph (to + (j + k)) = ph (to + j) + k) as Hlin.
  { intros k Hk. apply ph_same_page; [lia | lia |]. unfold page_of. zdiv. }
  destruct (Hfr j ltac:(lia)) as [Hpok Hpe]. pose proof (ph_offset j ltac:(lia)) as Hoff.
  assert (forall a, ph (to + j) <= a < ph (to + j) + c -> page_of a = page_of (ph (to + j))) as Hin.
  { intros a Ha. unfold page_of. zdiv. }
  destruct (kmemcpy_spec (ph (to + j)) (from + j) c (k_cr3 s) m (fun i => src (j + i))) as (m' & E & Hout & Hcp).
  - unfold MEM_EXT_START in Hpe. lia.
  - lia.
  - lia.
  - intros i Hi. replace (ph (to + j) + i) with (page_of (ph (to + j)) + ((to + j) mod 4096 + i)) by (unfold page_of; zdiv).
    apply page_ok_block; [done|]. pose proof (Z.mod_pos_bound (to + j) 4096). lia.
  - intros m2 i Hs2 Hi. replace (from + j + i) with (from + (j + i)) by lia. apply Hsrc; [|lia].
    intros p Hp a Ha. rewrite Hs2.
    + by apply (copied_same_page j m p ltac:(lia) Hm Hp).
    + intros Ha'. apply Hp. exists j. split; [lia|]. rewrite <- Ha. by apply Hin.
  - intros i Hi Ha. destruct (Hsrc m (j + i) (fun p => copied_same_page j m p ltac:(lia) Hm) ltac:(lia)) as [_ Hn].
    apply Hn. exists j. split; [lia|]. by apply Hin.
  - exists m'. split; [exact E|]. split.
    + intros i Hi. destruct (decide (i < j)) as [Hlt|Hge].
      * rewrite Hout; [by apply Hm; lia|]. intros Ha.
        assert (page_of (to + i) = page_of (to + j)) as Ep by (apply (co_once Hok); [lia | lia |]; by apply Hin).
        pose proof (ph_same_page j (i - j) ltac:(lia) ltac:(lia)) as El.
        replace (j + (i - j)) with i in El by lia. rewrite El in Ha by done. lia.
      * replace i with (j + (i - j)) by lia. rewrite Hlin, Hcp by lia.
        destruct Hm as [_ Hm]. apply Hm. intros k Hk Ek.
        destruct (Hsrc (k_mem s) (j + (i - j)) (fun p _ a _ => eq_refl) ltac:(lia)) as [_ Hn].
        apply Hn. exists k. split; [lia|]. by rewrite Ek.
    + intros a Ha. rewrite Hout.
      * apply Hm. intros i Hi. apply Ha. lia.
      * intros Hr. apply (Ha (j + (a - ph (to + j)))); [lia|]. rewrite Hlin by lia. lia.
Qed.

Lemma copy_loop_run fuel : forall j m,
  0 <= j -> j <= size -> size <= j \/ ((to + j) mod 4096 + (size - j) + 4095) / 4096 <= Z.of_nat fuel ->
  copied j m ->
  exists m', copy_uvm_data_loop fuel (u32 (to + j)) d (u32 (from + j)) (size - j) (set_k_mem m s) =
    Done 0 (set_k_mem m' s) /\ copied size m'.
Proof.
  induction fuel as [|fuel IH]; intros j m Hj Hjs Hfu Hm; cbn [copy_uvm_data_loop];
    (destruct (Z.gtb_spec (size - j) 0) as [Hgt|Hle]; [|exists m; split; [done|]; by replace size with j at 1 by lia]).
  { exfalso. zdiv. }
  pose proof Hok as [_ [Hto Hte] [Hf Hfe] Hw _ _ _ _]. rewrite !u32_small by lia.
  destruct (co_frame Hok j ltac:(lia)) as [Hpok Hpe]. unfold MEM_EXT_START in Hpe.
  assert (memory_get_paddr d (to + j) (set_k_mem m s) = Done (ph (to + j)) (set_k_mem m s)) as Eg.
  { pose proof (copied_dir j m Hjs Hm) as Hdm. rewrite memory_get_paddr_run by (done || lia). f_equal. kproj.
    pose proof (Hw j ltac:(lia)) as E. rewrite <- (copied_walk j m) in E by (done || lia).
    rewrite walk_tables in E by apply Hdm. destruct (table_of m d _) as [t|]; [|done]. cbn [mbind option_bind] in E.
    unfold leaf in E. destruct (present _); [|done]. cbn [mbind option_bind] in E. injection E as <-.
    unfold pte_paddr. by rewrite shift_page. }
  kred. rewrite Eg. kred. rewrite (proj2 (Z.eqb_neq _ 0)) by lia.
  change (MEM_PAGE_SIZE - 1) with (2 ^ 12 - 1). rewrite land_ones_mod by lia. change (2 ^ 12) with 4096.
  rewrite ph_offset by lia. change MEM_PAGE_SIZE with 4096.
  set (c := if (4096 - (to + j) mod 4096) >? (size - j) then size - j else 4096 - (to + j) mod 4096).
  assert (0 < c /\ j + c <= size /\ (to + j) mod 4096 + c <= 4096 /\ (j + c = size \/ (to + j + c) mod 4096 = 0)) as (Hc & Hjc & Hpg & Hend).
  { pose proof (Z.mod_pos_bound (to + j) 4096 ltac:(lia)) as Hmb. unfold c.
    destruct (Z.gtb_spec (4096 - (to + j) mod 4096) (size - j)); split_and!; try lia.
    right. clear. zdiv. }
  destruct (copy_chunk j c m Hj Hc Hjc Hpg Hm) as (m1 & Ec & Hm1).
  kred. erewrite lift_done by exact Ec. kred.
  replace (to + j + c) with (to + (j + c)) by lia. replace (from + j + c) with (from + (j + c)) by lia.
  replace (size - j - c) with (size - (j + c)) by lia.
  destruct (IH (j + c) m1 ltac:(lia) Hjc) as (m' & E & Hm'); [|done|].
  - replace (to + j + c) with (to + (j + c)) in Hend by lia. destruct Hend as [->|Hend]; [left; lia | right].
    destruct Hfu as [Hfu|Hfu]; [lia|]. clear - Hfu Hend Hpg Hc.
    assert ((to + j) mod 4096 + c = 4096) as Er by zdiv. clear Hend Hpg. zdiv.
  - exists m'. split; [|done]. rewrite <- E. by destruct s.
Qed.

End CopyUvm.

Lemma memory_copy_uvm_data_run s d to from size ph src :
  0 <= size -> copy_ok s d to from size ph src ->
  exists m', memory_copy_uvm_data to d from size s = Done 0 (set_k_mem m' s) /\ copied s to ph src size m'.
Proof.
  intros Hsz Hok. destruct (co_to _ _ _ _ _ _ _ Hok). destruct (co_from _ _ _ _ _ _ _ Hok).
  destruct (copy_loop_run s d to from size ph src Hok (Z.to_nat (size / MEM_PAGE_SIZE + 2)) 0 (k_mem s))
    as (m' & E & Hc); [done | done | right; unfold MEM_PAGE_SIZE; zdiv | split; [lia | done] |].
  exists m'. split; [|done].
  unfold memory_copy_uvm_data. rewrite <- E, !Z.add_0_r, Z.sub_0_r, set_k_mem_id.
  destruct (decide (size = 0)) as [->|]; [|by rewrite !u32_small by lia].
  by destruct (Z.to_nat (0 / MEM_PAGE_SIZE + 2)).
Qed.

(** ** memory_alloc_for_page_dir *)

(** [f] with the pages from [va] on mapped to the frames [ps]. *)
Definition map_frames (va : Z) (ps : list Z) (f : Z -> option Z) (x : Z) : option Z :=
  if decide (va <= x < va + Z.of_nat (length ps) * 4096)
  then p ← ps !! Z.to_nat ((x - va) / 4096); Some (p + (x - va) mod 4096)
  else f x.

Lemma map_frames_nil va f x : map_frames va [] f x = f x.
Proof. unfold map_frames. case_decide; [simpl in *; lia | done]. Qed.

Lemma map_frames_cons va p ps f x :
  map_frames (va + 4096) ps (fun x => if decide (va <= x < va + 4096) then Some (p + (x - va)) else f x) x =
    map_frames va (p :: ps) f x.
Proof.
  unfold map_frames. cbn [length].
  destruct (decide (va <= x < va + 4096)) as [Hin|Hout].
  - rewrite decide_False by lia. rewrite decide_True by lia. rewrite (Z.div_small (x - va)), (Z.mod_small (x - va)) by lia. done.
  - repeat case_decide; try done; try lia.
    replace (Z.to_nat ((x - va) / 4096)) with (S (Z.to_nat ((x - (va + 4096)) / 4096))) by zdiv.
    cbn [lookup list_lookup]. by replace ((x - va) mod 4096) with ((x - (va + 4096)) mod 4096) by zdiv.
Qed.

Lemma dir_wf_weaken m F F' d : (forall p, p ∈ F' -> p ∈ F) -> dir_wf m F d -> dir_wf m F' d.
Proof.
  intros Hs [? ? Ht ?]. constructor; try done; [by intros ?%Hs|].
  intros i t Hi Et. destruct (Ht i t Hi Et) as (? & ? & Hn & ?). split_and!; try done. by intros ?%Hs.
Qed.

(** A frame taken for data. *)
Lemma take_frame s d :
  paging_ok s -> dir_wf (k_mem s) (frames s) d ->
  (frames s = [] /\ addr_alloc_page 1 s = Done 0 s) \/
  exists p s1, addr_alloc_page 1 s = Done p s1 /\ map_step d [p] s s1 /\ k_mem s1 = k_mem s /\ k_cr3 s1 = k_cr3 s /\
    page_ok p /\ MEM_EXT_START <= p /\ frames s = p :: frames s1.
Proof.
  intros Hok Hd. destruct (paging_alloc s Hok) as [?|(p & a & Ea & Hok' & Ef & Hpf & Hp & Hpe & Hall)]; [by left|].
  right. exists p, (set_k_alloc a s). split_and!; try done. constructor; try done.
  - exists (k_mem s), a. by destruct s.
  - apply (dir_wf_weaken _ (frames s)); [|done]. rewrite Ef. intros q Hq. by right.
  - exists [p]. split; [done|]. intros q ->%list_elem_of_singleton. right. by left.
  - intros q ->%list_elem_of_singleton. split_and!; [rewrite Ef; by left | done |].
    intros [->|(k & Hk & Et)]; [apply (dw_dir_used _ _ _ Hd); rewrite Ef; by left|].
    destruct (dw_table _ _ _ Hd k p Hk Et) as (_ & _ & Hn & _). apply Hn. rewrite Ef. by left.
  - by left.
Qed.

(** A frame [p] mapped at [va] by [memory_create_map]. *)
Lemma map_frame s d va perm p :
  paging_ok s -> dir_wf (k_mem s) (frames s) d -> 0 <= va < 2 ^ 32 -> va mod 4096 = 0 -> 0 <= perm < 4096 ->
  page_ok p -> mmu_walk d (k_mem s) va = None ->
  (frames s = [] /\ new_table (k_mem s) d (pde_index va) = 1%nat /\ memory_create_map d va p 1 perm s = Done (-1) s) \/
  exists s', memory_create_map d va p 1 perm s = Done 1 s' /\ map_step d [] s s' /\
    (length (frames s) <= new_table (k_mem s) d (pde_index va) + length (frames s'))%nat /\
    forall x, 0 <= x < 2 ^ 32 -> mmu_walk d (k_mem s') x =
      if decide (va <= x < va + 4096) then Some (p + (x - va)) else mmu_walk d (k_mem s) x.
Proof.
  intros Hok Hd Hva Hvm Hperm Hp Hnone. pose proof (page_ok_bounds _ Hp).
  destruct (create_map_step s d va p perm 0 Hok Hd) as [(Hnil & Hnt & E)|(s' & E & Hs' & Hlen' & Hw)];
    [done | done | lia | apply Hp | done | done | |].
  - left. split_and!; [done | done |]. unfold memory_create_map. change (Z.to_nat 1) with 1%nat. kred. rewrite E. by kred.
  - right. exists s'. split_and!; [|done|done|].
    + unfold memory_create_map. change (Z.to_nat 1) with 1%nat. kred. rewrite E. cbn [create_map_loop]. by kred.
    + intros x Hx. rewrite Hw by done. unfold page_of.
      destruct (Z.eqb_spec (x / 4096 * 4096) va); case_decide; try done; try zdiv. f_equal. zdiv.
Qed.

(** A frame allocated and mapped at [va]. *)
Lemma alloc_map_page s d va perm n i v0 :
  paging_ok s -> dir_wf (k_mem s) (frames s) d -> 0 <= va < 2 ^ 32 -> va mod 4096 = 0 -> 0 <= perm < 4096 ->
  mmu_walk d (k_mem s) va = None -> (2 <= length (frames s))%nat ->
  exists p s', alloc_for_loop (S n) i d v0 va perm s =
      alloc_for_loop n (i + 1) d v0 (u32 (va + MEM_PAGE_SIZE)) perm s' /\ map_step d [p] s s' /\
    (length (frames s) <= 2 + length (frames s'))%nat /\
    forall x, 0 <= x < 2 ^ 32 -> mmu_walk d (k_mem s') x =
      if decide (va <= x < va + 4096) then Some (p + (x - va)) else mmu_walk d (k_mem s) x.
Proof.
  intros Hok Hd Hva Hvm Hperm Hnone Hlen. cbn [alloc_for_loop].
  destruct (take_frame s d Hok Hd) as [[Hnil _]|(p & s1 & Ea & Hs1 & Em & _ & Hp & Hpe & Ef)].
  { rewrite Hnil in Hlen. simpl in Hlen. lia. }
  rewrite Ef in Hlen. cbn [length] in Hlen.
  destruct (map_frame s1 d va perm p) as [[Hnil _]|(s' & E & Hs' & Hlen' & Hw)]; try done;
    [apply Hs1 | apply Hs1 | by rewrite Em | rewrite Hnil in Hlen; simpl in Hlen; lia |].
  pose proof (new_table_le (k_mem s1) d (pde_index va)).
  exists p, s'. split_and!; [| exact (map_step_trans d [p] [] s s1 s' Hs1 Hs') | rewrite Ef; cbn [length]; lia | by rewrite <- Em].
  kred. rewrite Ea. kred. unfold MEM_EXT_START in Hpe. rewrite (proj2 (Z.eqb_neq p 0)) by lia. kred.
  rewrite E. by kred.
Qed.

Lemma alloc_for_loop_run n : forall i s d v0 va perm,
  paging_ok s -> dir_wf (k_mem s) (frames s) d -> 0 <= va -> va + Z.of_nat n * 4096 <= 2 ^ 32 -> va mod 4096 = 0 ->
  0 <= perm < 4096 -> (forall x, va <= x < va + Z.of_nat n * 4096 -> mmu_walk d (k_mem s) x = None) ->
  (2 * n <= length (frames s))%nat ->
  exists ps s', alloc_for_loop n i d v0 va perm s = Done 0 s' /\ length ps = n /\ NoDup ps /\ map_step d ps s s' /\
    (length (frames s) <= 2 * n + length (frames s'))%nat /\
    forall x, 0 <= x < 2 ^ 32 -> mmu_walk d (k_mem s') x = map_frames va ps (mmu_walk d (k_mem s)) x.
Proof.
  induction n as [|n IH]; intros i s d v0 va perm Hok Hd Hva Hve Hvm Hperm Hnone Hlen.
  { exists [], s. split_and!; [done | done | constructor | by apply map_step_refl | lia |]. intros. by rewrite map_frames_nil. }
  destruct (alloc_map_page s d va perm n i v0) as (p & s1 & E & Hs1 & Hlen1 & Hw); try done; [lia | apply Hnone; lia | lia |].
  assert (exists ps s', alloc_for_loop n (i + 1) d v0 (u32 (va + MEM_PAGE_SIZE)) perm s1 = Done 0 s' /\ length ps = n /\
    NoDup ps /\ map_step d ps s1 s' /\ (length (frames s1) <= 2 * n + length (frames s'))%nat /\ forall x, 0 <= x < 2 ^ 32 ->
      mmu_walk d (k_mem s') x = map_frames (va + 4096) ps (mmu_walk d (k_mem s1)) x)
    as (ps & s' & E' & Hl & Hnd & Hs' & Hlen' & Hw').
  { destruct n as [|n].
    { exists [], s1. split_and!; [done | done | constructor | by apply map_step_refl; apply Hs1 | lia |].
      intros. by rewrite map_frames_nil. }
    change MEM_PAGE_SIZE with 4096. rewrite u32_small by lia.
    apply IH; [apply Hs1 | apply Hs1 | lia | lia | zdiv | done | | lia].
    intros x Hx. rewrite Hw by lia. rewrite decide_False by lia. apply Hnone. lia. }
  exists (p :: ps), s'. rewrite E, E'. split_and!; [done | simpl; lia | | by apply (map_step_trans d [p] ps s s1 s') | lia |].
  - apply NoDup_cons. split; [|done]. intros Hp. destruct (ms_data _ _ _ _ Hs' p Hp) as [Hin _].
    destruct (ms_data _ _ _ _ Hs1 p ltac:(by left)) as (_ & Hn & _). done.
  - intros x Hx. rewrite Hw' by done. rewrite <- map_frames_cons. unfold map_frames. by rewrite Hw by done.
Qed.

Lemma memory_alloc_for_page_dir_run s d vaddr size perm :
  let n := (size + 4095) / 4096 in
  paging_ok s -> dir_wf (k_mem s) (frames s) d -> 0 <= size -> size + 4095 < 2 ^ 32 ->
  0 <= vaddr -> vaddr mod 4096 = 0 -> vaddr + n * 4096 <= 2 ^ 32 -> 0 <= perm < 4096 ->
  (forall x, vaddr <= x < vaddr + n * 4096 -> mmu_walk d (k_mem s) x = None) ->
  2 * n <= Z.of_nat (length (frames s)) ->
  exists ps s', memory_alloc_for_page_dir d vaddr size perm s = Done 0 s' /\
    Z.of_nat (length ps) = n /\ NoDup ps /\ map_step d ps s s' /\
    Z.of_nat (length (frames s)) <= 2 * n + Z.of_nat (length (frames s')) /\
    forall x, 0 <= x < 2 ^ 32 -> mmu_walk d (k_mem s') x = map_frames vaddr ps (mmu_walk d (k_mem s)) x.
Proof.
  intros n Hok Hd Hsz Hsm Hva Hvm Hve Hperm Hnone Hlen.
  assert (0 <= n) as Hn by (unfold n; zdiv).
  destruct (alloc_for_loop_run (Z.to_nat n) 0 s d vaddr vaddr perm) as (ps & s' & E & Hl & Hnd & Hs' & Hlen' & Hw);
    rewrite ?Z2Nat.id by lia; try done; [lia|].
  exists ps, s'. split_and!; [| lia | done | done | lia | done].
  unfold memory_alloc_for_page_dir. change MEM_PAGE_SIZE with (2 ^ 12). rewrite up2_spec by (done || lia).
  replace ((size + 2 ^ 12 - 1) / 2 ^ 12 * 2 ^ 12 / 2 ^ 12) with n; [done|].
  rewrite Z.div_mul by done. unfold n. f_equal. lia.
Qed.

(** * Properties *)

(** [memory_create_map] makes the processor translate the [count] pages from
    [vaddr] on to the frames from [paddr] on, and every other address as before.  It
    allocates frames only for page tables and writes only pages of this directory.
    When the frames run out it answers -1 with the first [k] pages mapped and left so. *)
Theorem memory_create_map_maps s d vaddr paddr count perm :
  paging_ok s -> dir_wf (k_mem s) (frames s) d -> 0 <= count -> 0 <= perm < 4096 ->
  0 <= vaddr -> vaddr mod 4096 = 0 -> vaddr + count * 4096 <= 2 ^ 32 ->
  0 <= paddr -> paddr mod 4096 = 0 -> paddr + count * 4096 <= 2 ^ 32 ->
  (forall x, vaddr <= x < vaddr + count * 4096 -> mmu_walk d (k_mem s) x = None) ->
  exists r s' k, memory_create_map d vaddr paddr count perm s = Done r s' /\ map_step d [] s s' /\
    (r = count /\ Z.of_nat k = count \/ r = -1 /\ Z.of_nat k < count /\ frames s' = []) /\
    forall x, 0 <= x < 2 ^ 32 ->
      mmu_walk d (k_mem s') x = map_pages vaddr paddr k (mmu_walk d (k_mem s)) x.
Proof.
  intros Hok Hd Hc Hperm Hva Hvm Hve Hpa Hpm Hpe Hnone.
  destruct (create_map_loop_run (Z.to_nat count) s d vaddr paddr perm) as (failed & s' & k & E & Hs' & Hk & Hw);
    rewrite ?Z2Nat.id by lia; try done.
  exists (if failed then -1 else Z.max 0 count), s', k. split_and!; [|done | |done].
  - unfold memory_create_map. kred. rewrite E. by kred.
  - destruct Hk as [[-> ->]|(-> & ? & ?)]; [left; lia | right; split_and!; [done | lia | done]].
Qed.

(** [memory_create_uvm] takes a frame for a new directory, in which the lower half
    of the address space is translated as in the kernel's directory (through the
    kernel's own tables) and the upper half is empty; no other page is written.
    Without a free frame it answers 0. *)
Theorem memory_create_uvm_shares_kernel s :
  paging_ok s -> dir_wf (k_mem s) (frames s) kernel_page_dir ->
  (frames s = [] /\ memory_create_uvm s = Done 0 s) \/
  exists d s', memory_create_uvm s = Done d s' /\ d <> 0 /\ frames s = d :: frames s' /\ paging_ok s' /\
    dir_wf (k_mem s') (frames s') d /\
    (forall x, 0 <= x < 2 ^ 32 -> mmu_walk d (k_mem s') x =
       if x <? MEMORY_TASK_BASE then mmu_walk kernel_page_dir (k_mem s) x else None) /\
    (forall x, 0 <= x < 2 ^ 32 -> mmu_walk kernel_page_dir (k_mem s') x = mmu_walk kernel_page_dir (k_mem s) x) /\
    forall p, p <> d -> same_page (k_mem s) (k_mem s') p.
Proof.
  intros Hok Hkd. destruct (memory_create_uvm_run s Hok Hkd) as [?|(d & m & a & E & Hok' & Ef & Hde & Hall & Hd & Ht & Hs)]; [by left|].
  right. exists d, (set_k_mem m (set_k_alloc a s)). rewrite Ef in Hkd. unfold MEM_EXT_START in Hde.
  split_and!; try done; [lia | |].
  - intros x Hx. apply (uvm_walk s d m a); try done. apply Hd.
  - intros x Hx. apply (walk_ext _ _ (d :: free_frames a)); try done. intros p Hp. apply Hs. intros ->.
    destruct Hp as [->|(i & Hi & Et)]; [apply (dw_dir_used _ _ _ Hkd); by left|].
    destruct (dw_table _ _ _ Hkd i d Hi Et) as (_ & _ & Hn & _). apply Hn. by left.
Qed.

(** [memory_get_paddr] answers the physical address of every mapped address and 0
    where the directory has no table; it does not look at the present bit of the
    page's entry, so that for a cleared entry of an existing table it answers the
    offset in the page. *)
Lemma memory_get_paddr_translates s d va :
  dir_wf (k_mem s) (frames s) d -> 0 <= va < 2 ^ 32 ->
  exists r, memory_get_paddr d va s = Done r s /\
    (forall pa, mmu_walk d (k_mem s) va = Some pa -> r = pa) /\
    (table_of (k_mem s) d (pde_index va) = None -> r = 0) /\
    (forall t, table_of (k_mem s) d (pde_index va) = Some t -> ld32 (k_mem s) (t + 4 * pte_index va) = 0 ->
       mmu_walk d (k_mem s) va = None /\ r = va mod 4096).
Proof.
  intros Hd Hva. eexists. split; [by apply memory_get_paddr_run|].
  rewrite walk_tables by apply Hd. split_and!.
  - intros pa. destruct (table_of _ _ _) as [t|]; [|done]. cbn [mbind option_bind]. unfold leaf.
    destruct (present _); [|done]. cbn [mbind option_bind]. unfold pte_paddr. rewrite shift_page. congruence.
  - by intros ->.
  - intros t -> E. cbn [mbind option_bind]. unfold leaf. rewrite E. by split.
Qed.

(** [memory_copy_uvm_data] copies [size] bytes into another address space: the
    byte at each offset of the source is where that space maps the offset of the
    destination, whatever the alignment and however the frames lie; no other byte of
    RAM changes, and the rounds it needs are bounded by the pages it touches. *)
Lemma memory_copy_uvm_data_copies s d to from size ph src :
  0 <= size -> copy_ok s d to from size ph src ->
  exists m', memory_copy_uvm_data to d from size s = Done 0 (set_k_mem m' s) /\
    (forall i, 0 <= i < size -> mget m' (ph (to + i)) = mget (k_mem s) (src i)) /\
    (forall a, (forall i, 0 <= i < size -> a <> ph (to + i)) -> mget m' a = mget (k_mem s) a) /\
    forall x, 0 <= x < 2 ^ 32 -> mmu_walk d m' x = mmu_walk d (k_mem s) x.
Proof.
  intros Hsz Hok. destruct (memory_copy_uvm_data_run s d to from size ph src Hsz Hok) as (m' & E & Hc).
  exists m'. split_and!; [done | apply Hc | apply Hc |].
  intros x Hx. by apply (copied_walk s d to from size ph src Hok size m').
Qed.

(** C21: [memory_alloc_for_page_dir] maps the pages that cover [size] bytes from a page
    boundary on to frames that were free, all different and none of them a page
    table, provided two frames per page are free; the rest of the space is as
    before. *)
Theorem memory_alloc_for_page_dir_maps s d vaddr size perm :
  let n := (size + 4095) / 4096 in
  paging_ok s -> dir_wf (k_mem s) (frames s) d -> 0 <= size -> size + 4095 < 2 ^ 32 ->
  0 <= vaddr -> vaddr mod 4096 = 0 -> vaddr + n * 4096 <= 2 ^ 32 -> 0 <= perm < 4096 ->
  (forall x, vaddr <= x < vaddr + n * 4096 -> mmu_walk d (k_mem s) x = None) ->
  2 * n <= Z.of_nat (length (frames s)) ->
  exists ps s', memory_alloc_for_page_dir d vaddr size perm s = Done 0 s' /\
    Z.of_nat (length ps) = n /\ NoDup ps /\ map_step d ps s s' /\
    forall x, 0 <= x < 2 ^ 32 -> mmu_walk d (k_mem s') x = map_frames vaddr ps (mmu_walk d (k_mem s)) x.
Proof.
  intros n Hok Hd Hsz Hsm Hva Hvm Hve Hperm Hnone Hlen.
  destruct (memory_alloc_for_page_dir_run s d vaddr size perm) as (ps & s' & E & Hl & Hnd & Hs' & _ & Hw); try done.
  by exists ps, s'.
Qed.

End AddrSpace.
