(* ===== verification/KernelMap.v ===== *)
(** The kernel's own page table, [create_kernel_table] of kernel/core/memory.c: it
    maps one to one what [kmapped] says, which is how Machine translates kernel
    addresses. *)
From S2P Require Import Prelude DList Bitmap Machine MachineFacts Klib Format Sched Ipc Log Alloc Paging AddrSpace.

Section KernelMap.
Context `{Layout} `{Device}.

(** What kernel.lds makes of the kernel's sections: they start at page boundaries,
    the data right behind the text, below the EBDA. *)
Record layout_ok : Prop := {
  lo_base : kernel_base = 0;
  lo_text : 0 <= s_text <= e_text /\ s_text mod 4096 = 0;
  lo_data : s_data = (e_text + 4095) / 4096 * 4096 /\ s_data < MEM_EBDA_START;
  lo_dir : 0 < kernel_page_dir < MEM_EBDA_START /\ kernel_page_dir mod 4096 = 0
}.

(** ** Frames taken for tables *)
Lemma tables_bound m F d ps :
  dir_wf m F d -> NoDup ps -> (forall p, p ∈ ps -> pt_page m d p /\ p <> d) -> (length ps <= 1024)%nat.
Proof.
  intros Hd Hnd Hps.
  trans (length (map (fun i => default 0 (table_of m d i)) (seqZ 0 1024))); [|by rewrite length_map, length_seqZ].
  apply submseteq_length, NoDup_submseteq; [done|]. intros p Hp.
  destruct (Hps p Hp) as [[->|(i & Hi & Et)] Hne]; [done|].
  apply list_elem_of_In, in_map_iff. exists i. rewrite Et. split; [done|].
  apply list_elem_of_In, elem_of_seqZ. lia.
Qed.

(** The tables of a directory take at most as many frames as it has entries. *)
Lemma frames_spent d s s' :
  map_step d [] s s' -> dir_wf (k_mem s) (frames s) d -> alloc_wf (k_alloc s) ->
  (length (frames s) <= 1024 + length (frames s'))%nat.
Proof.
  intros [_ _ Hd' (ps & Ef & Hps) _ _ _ _] Hd Hwf.
  pose proof (free_frames_NoDup _ Hwf) as Hnd. change (NoDup (frames s)) in Hnd.
  rewrite Ef in Hnd. apply NoDup_app in Hnd as (Hnd & Hdis & _). rewrite Ef, length_app.
  enough (length ps <= 1024)%nat by lia.
  apply (tables_bound (k_mem s') (frames s') d); [done..|]. intros p Hp. split.
  - destruct (Hps p Hp) as [?|?%not_elem_of_nil]; done.
  - intros ->. apply (dw_dir_used _ _ _ Hd). rewrite Ef. apply elem_of_app. by left.
Qed.

(** With more frames than that, tables never run out of them. *)
Lemma frames_left d s s' :
  map_step d [] s s' -> dir_wf (k_mem s) (frames s) d -> alloc_wf (k_alloc s) -> (1024 < length (frames s))%nat ->
  frames s' <> [].
Proof. intros Hs Hd Hwf Hlen Hnil. pose proof (frames_spent d s s' Hs Hd Hwf) as H1. rewrite Hnil in H1. simpl in H1. lia. Qed.

(** ** One region of [kernel_map] *)
Lemma region_run s0 s lo hi vstart vend perm l :
  map_step kernel_page_dir [] s0 s -> dir_wf (k_mem s0) (frames s0) kernel_page_dir -> alloc_wf (k_alloc s0) ->
  (1024 < length (frames s0))%nat -> 0 <= perm < 4096 ->
  0 <= vstart -> 0 <= vend -> vend + 4095 < 2 ^ 31 -> lo = vstart / 4096 * 4096 -> hi = (vend + 4095) / 4096 * 4096 ->
  lo <= hi -> (forall x, lo <= x < hi -> mmu_walk kernel_page_dir (k_mem s) x = None) ->
  exists s', create_kernel_maps ((vstart, vend, vstart, perm) :: l) s = create_kernel_maps l s' /\
    map_step kernel_page_dir [] s0 s' /\
    forall x, 0 <= x < 2 ^ 32 -> mmu_walk kernel_page_dir (k_mem s') x =
      if decide (lo <= x < hi) then Some x else mmu_walk kernel_page_dir (k_mem s) x.
Proof.
  intros Hs Hd0 Hwf0 Hlen Hperm Hvs Hve Hvm Elo Ehi Hle Hnone.
  assert (vstart < 2 ^ 32) as Hvs' by zdiv.
  assert (down2 vstart MEM_PAGE_SIZE = lo) as Ed.
  { change MEM_PAGE_SIZE with (2 ^ 12). rewrite down2_spec by lia. change (2 ^ 12) with 4096. zdiv. }
  assert (up2 vend MEM_PAGE_SIZE = hi) as Eu.
  { change MEM_PAGE_SIZE with (2 ^ 12). rewrite up2_spec by lia. change (2 ^ 12) with 4096. rewrite Ehi. do 2 f_equal. lia. }
  assert (0 <= lo /\ hi < 2 ^ 31 /\ exists n, hi = lo + n * 4096 /\ 0 <= n) as (Hlo & Hhi & n & En & Hn).
  { split; [zdiv|]. split; [zdiv|]. exists ((vend + 4095) / 4096 - vstart / 4096). zdiv. }
  cbn [create_kernel_maps]. rewrite Ed, Eu, !i32_small, !u32_small by lia.
  assert ((hi - lo) ÷ MEM_PAGE_SIZE = n) as ->.
  { rewrite Z.quot_div_nonneg by (unfold MEM_PAGE_SIZE; lia). unfold MEM_PAGE_SIZE. zdiv. }
  destruct (create_map_loop_run (Z.to_nat n) s kernel_page_dir lo lo perm) as (failed & s' & k & E & Hs' & Hk & Hw);
    rewrite ?Z2Nat.id by lia; try lia; try done; [apply Hs | apply Hs | zdiv | zdiv | intros; apply Hnone; lia |].
  pose proof (map_step_trans _ [] [] _ _ _ Hs Hs') as Hs0. exists s'. split_and!; [|done|].
  - unfold memory_create_map. kred. rewrite E. by kred.
  - intros x Hx. rewrite Hw by done. destruct Hk as [[_ ->]|(_ & _ & Hnil)].
    + unfold map_pages. rewrite Z2Nat.id, En by lia. case_decide; [f_equal; lia | done].
    + by destruct (frames_left _ _ _ Hs0 Hd0 Hwf0 Hlen).
Qed.

(** ** The zeroed directory *)
Lemma zero_dir_run s :
  layout_ok -> paging_ok s ->
  exists m, lift (kmemset kernel_page_dir 0 (4 * Z.of_nat PDE_CNT)) s = Done tt (set_k_mem m s) /\
    dir_wf m (frames s) kernel_page_dir /\ (forall i, 0 <= i < 1024 -> table_of m kernel_page_dir i = None) /\
    (forall x, 0 <= x < 2 ^ 32 -> mmu_walk kernel_page_dir m x = None) /\ same_outside kernel_page_dir 4096 (k_mem s) m.
Proof.
  intros [_ _ _ [Hdir Hal]] Hok. unfold MEM_EBDA_START in Hdir.
  assert (page_ok kernel_page_dir) as Hp by (split; [done|]; apply kmapped_spec; lia).
  destruct (kmemset_spec kernel_page_dir 0 4096 (k_cr3 s) (k_mem s)) as (m & E & Hout & Hz);
    [lia | lia | by apply page_ok_block |].
  assert (forall i, 0 <= i < 1024 -> table_of m kernel_page_dir i = None) as Hnone.
  { intros i Hi. apply (leaf_zero m kernel_page_dir i Hal Hi). intros a Ha. apply (Hz a). rewrite <- Ha.
    unfold page_of. zdiv. }
  exists m. split_and!; [by erewrite lift_done by exact E | | done | |done].
  - constructor; [done | | |].
    + intros Hin%free_frames_all. destruct (frame_bounds _ _ (po_alloc _ Hok) Hin) as [Hb _].
      unfold MEM_EXT_START in Hb. lia.
    + intros i t Hi. by rewrite Hnone.
    + intros i j t Hi. by rewrite Hnone.
  - intros x Hx. rewrite walk_tables by done. by rewrite Hnone by (by apply pde_index_range).
Qed.

(** The state [create_kernel_table] leaves: RAM and the allocator are all that changed,
    and of the memory below 1 MiB only the directory. *)
Record kernel_table (s s' : kst) : Prop := {
  kt_state : exists m a, s' = set_k_alloc a (set_k_mem m s);
  kt_paging : paging_ok s';
  kt_dir : dir_wf (k_mem s') (frames s') kernel_page_dir;
  kt_walk : forall x, 0 <= x < 2 ^ 32 ->
    mmu_walk kernel_page_dir (k_mem s') x = if kmapped x then Some x else None;
  kt_spent : (length (frames s) <= 1024 + length (frames s'))%nat;
  kt_low : forall x, 0 <= x < MEM_EXT_START -> page_of x <> kernel_page_dir -> mget (k_mem s') x = mget (k_mem s) x
}.

Lemma kernel_table_intro s m s' :
  paging_ok s -> dir_wf m (frames s) kernel_page_dir -> same_outside kernel_page_dir 4096 (k_mem s) m ->
  (forall i, 0 <= i < 1024 -> table_of m kernel_page_dir i = None) ->
  map_step kernel_page_dir [] (set_k_mem m s) s' ->
  (forall x, 0 <= x < 2 ^ 32 -> mmu_walk kernel_page_dir (k_mem s') x = if kmapped x then Some x else None) ->
  kernel_table s s'.
Proof.
  intros Hok Hd Hout Hnone Hs Hw. pose proof (frames_spent _ _ _ Hs Hd (po_alloc _ Hok)) as Hsp.
  destruct Hs as [(m' & a & ->) Ho Hd' _ _ _ Hn Hf _].
  constructor; [by exists m', a | done | done | done | exact Hsp |]. intros x Hx Hne.
  assert (~ pt_page m' kernel_page_dir (page_of x)) as Hnp.
  { intros [[?|(i & Hi & Et)]|Hin%free_frames_all]%Hn; [done | |].
    - change (table_of m kernel_page_dir i = Some (page_of x)) in Et. by rewrite Hnone in Et.
    - destruct (frame_bounds _ _ (po_alloc _ Hok) Hin) as [Hb _]. unfold page_of, MEM_EXT_START in *. zdiv. }
  rewrite (Hf _ Hnp ltac:(by intros ?%not_elem_of_nil) x eq_refl).
  apply (same_outside_page kernel_page_dir (k_mem s) m (page_of x)); [apply Hd | done | done | done].
Qed.

Lemma create_kernel_table_run s :
  layout_ok -> paging_ok s -> (1024 < length (frames s))%nat ->
  exists s', create_kernel_table s = Done tt s' /\ kernel_table s s'.
Proof.
  intros Hlo Hok Hlen. destruct (zero_dir_run s Hlo Hok) as (m & E & Hd & Hnone & Hw0 & Hout).
  destruct Hlo as [Hbase [Htext Hta] [Hdata Hdl] _]. unfold MEM_EBDA_START in Hdl.
  set (s0 := set_k_mem m s) in *. assert (paging_ok s0) as Hok0 by (by apply paging_ok_mem).
  assert (alloc_wf (k_alloc s0)) as Hwf0 by apply Hok0.
  unfold create_kernel_table. kred. rewrite E. kred. fold s0. unfold kernel_map. rewrite Hbase.
  destruct (region_run s0 s0 0 s_text 0 s_text PTE_W
    [(s_text, e_text, s_text, 0); (s_data, MEM_EBDA_START - 1, s_data, PTE_W); (MEM_EXT_START, MEM_EXT_END, MEM_EXT_START, PTE_W)])
    as (s1 & E1 & Hs1 & Hw1); try done; try zdiv; [by apply map_step_refl | intros; apply Hw0; zdiv |].
  destruct (region_run s0 s1 s_text s_data s_text e_text 0
    [(s_data, MEM_EBDA_START - 1, s_data, PTE_W); (MEM_EXT_START, MEM_EXT_END, MEM_EXT_START, PTE_W)])
    as (s2 & E2 & Hs2 & Hw2); try done; try zdiv.
  { intros x Hx. rewrite Hw1 by zdiv. rewrite decide_False by lia. apply Hw0. zdiv. }
  destruct (region_run s0 s2 s_data 524288 s_data (MEM_EBDA_START - 1) PTE_W [(MEM_EXT_START, MEM_EXT_END, MEM_EXT_START, PTE_W)])
    as (s3 & E3 & Hs3 & Hw3); try done; try zdiv.
  { intros x Hx. rewrite Hw2, Hw1 by zdiv. rewrite !decide_False by zdiv. apply Hw0. zdiv. }
  destruct (region_run s0 s3 1048576 133169152 MEM_EXT_START MEM_EXT_END PTE_W []) as (s4 & E4 & Hs4 & Hw4); try done.
  { intros x Hx. rewrite Hw3, Hw2, Hw1 by zdiv. rewrite !decide_False by zdiv. apply Hw0. zdiv. }
  exists s4. split; [by rewrite E1, E2, E3, E4|]. apply (kernel_table_intro s m); try done.
  intros x Hx. rewrite Hw4, Hw3, Hw2, Hw1, Hw0 by done.
  destruct (kmapped x) eqn:Ek; [apply kmapped_spec in Ek | assert (~ kmapped x = true) as Hk by congruence; rewrite kmapped_spec in Hk];
    repeat case_decide; try done; zdiv.
Qed.

(** * Properties *)

(** C18: after [create_kernel_table] the processor translates by the kernel's page table
    exactly the addresses [0 .. 512K) and [1M .. 127M), each to itself, provided more
    frames are free than a directory has entries. *)
Theorem create_kernel_table_identity s :
  layout_ok -> paging_ok s -> (1024 < length (frames s))%nat ->
  exists s', create_kernel_table s = Done tt s' /\ paging_ok s' /\ dir_wf (k_mem s') (frames s') kernel_page_dir /\
    forall x, 0 <= x < 2 ^ 32 ->
      mmu_walk kernel_page_dir (k_mem s') x = if kmapped x then Some x else None.
Proof.
  intros Hlo Hok Hlen. destruct (create_kernel_table_run s Hlo Hok Hlen) as (s' & E & Hk).
  exists s'. split_and!; [done | apply Hk | apply Hk | apply Hk].
Qed.

End KernelMap.
