(* ===== verification/FreeSpace.v ===== *)
(** Destroying an address space, [memory_destroy_uvm] of kernel/core/memory.c: which
    frames are free afterwards. *)
From S2P Require Import Prelude DList Bitmap Machine MachineFacts Klib Format Sched Ipc Log Alloc Paging AddrSpace.

Section FreeSpace.
Context `{Layout} `{Device}.

(** [s'] is [s] with the frames [P] free too. *)
Definition freed (P : Z -> Prop) (s s' : kst) : Prop :=
  exists a, s' = set_k_alloc a s /\ paging_ok s' /\ all_frames a = all_frames (k_alloc s) /\
    forall q, q ∈ free_frames a <-> q ∈ frames s \/ (q ∈ all_frames (k_alloc s) /\ P q).

Lemma freed_none s P : paging_ok s -> (forall q, q ∈ all_frames (k_alloc s) -> ~ P q) -> freed P s s.
Proof.
  intros Hok HP. exists (k_alloc s). split_and!; [by destruct s | done | done |].
  intros q. unfold frames. naive_solver.
Qed.

Lemma freed_trans (P Q : Z -> Prop) s1 s2 s3 : freed P s1 s2 -> freed Q s2 s3 -> freed (fun q => P q \/ Q q) s1 s3.
Proof.
  intros (a & -> & _ & Ea & Hq) (a' & -> & Hok & Ea' & Hq'). exists a'. split_and!; [by destruct s1 | done | by rewrite Ea' |].
  intros q. rewrite Hq'. unfold frames in *. kproj. simpl in *. rewrite Hq, Ea. tauto.
Qed.

Lemma freed_iff (P Q : Z -> Prop) s s' : (forall q, P q <-> Q q) -> freed P s s' -> freed Q s s'.
Proof. intros HPQ (a & ? & ? & ? & Hq). exists a. split_and!; try done. intros q. by rewrite Hq, HPQ. Qed.

Lemma freed_mem P s s' : freed P s s' -> k_mem s' = k_mem s /\ k_cr3 s' = k_cr3 s /\ paging_ok s'.
Proof. intros (a & -> & Hok & _). done. Qed.

(** An address outside the region of the allocator is not an index of its bitmap:
    releasing it does nothing. *)
Lemma kfree_any s p :
  paging_ok s -> 0 <= p < 2 ^ 32 -> p mod 4096 = 0 ->
  exists s', kfree p s = Done tt s' /\ freed (fun q => q = p) s s'.
Proof.
  intros [Hm Hwf Hfr] Hp Hpm. destruct (decide (p ∈ all_frames (k_alloc s))) as [Hin|Hout].
  { destruct (addr_free_page_run s p Hm Hwf Hin) as (a & E & Hwf' & Hr & Hq). exists (set_k_alloc a s).
    split; [exact E|]. pose proof (all_frames_region _ _ Hr) as Ea. exists a. split_and!; [done | | done |].
    - constructor; [done | done |]. kproj. intros q. rewrite Ea. apply Hfr.
    - intros q. rewrite Hq. unfold frames. naive_solver. }
  exists s. split; [|apply freed_none; [done|]; by intros q Hq ->].
  unfold kfree, addr_free_page. kred. rewrite acquire_locked by done. kred.
  change (k_alloc (locked paddr_alloc s)) with (k_alloc s).
  destruct Hwf as [Hb Hs [Hst Hsm] He]. rewrite Hs. unfold MEM_PAGE_SIZE, MEM_EXT_START in *.
  set (i := u32 (p - al_start (k_alloc s)) / 4096).
  assert (0 <= i < 2 ^ 20 /\ bit_count (al_bitmap (k_alloc s)) <= i) as [Hi Hge].
  { destruct (decide (al_start (k_alloc s) <= p)).
    - unfold i. rewrite u32_small by lia. split; [zdiv|].
      destruct (decide (bit_count (al_bitmap (k_alloc s)) <= (p - al_start (k_alloc s)) / 4096)); [done|].
      exfalso. apply Hout. apply elem_of_all_frames. exists ((p - al_start (k_alloc s)) / 4096).
      unfold frame_addr. rewrite Hs. unfold MEM_PAGE_SIZE. zdiv.
    - assert (u32 (p - al_start (k_alloc s)) = p - al_start (k_alloc s) + 2 ^ 32) as Eu.
      { unfold u32. rewrite <- (Z.mod_add _ 1) by lia. rewrite Z.mul_1_l. apply Z.mod_small. destruct Hb. lia. }
      unfold i. rewrite Eu. destruct Hb. zdiv. }
  rewrite i32_small by lia. unfold bitmap_set_bit. change (Z.to_nat 1) with 1%nat. cbn [bitmap_set_loop].
  rewrite (proj2 (Z.ltb_ge i _)) by done. kred. rewrite (release_locked s) by done. unfold locked.
  f_equal. destruct s as [????????? [[]]]. reflexivity.
Qed.

(** ** The loops *)
Lemma free_ptes_run n : forall s t j,
  paging_ok s -> page_ok t -> 0 <= j -> j + Z.of_nat n <= 1024 ->
  exists s', free_ptes n (t + 4 * j) s = Done tt s' /\
    freed (fun q => exists k, j <= k < j + Z.of_nat n /\ leaf (k_mem s) t k = Some q) s s'.
Proof.
  induction n as [|n IH]; intros s t j Hok Ht Hj Hn; cbn [free_ptes].
  { exists s. split; [done|]. apply freed_none; [done|]. intros q _ (k & Hk & _). lia. }
  kred. erewrite lift_done by (apply load32_kernel, page_ok_word; [done | lia]). kred. rewrite set_k_mem_id.
  replace (t + 4 * j + 4) with (t + 4 * (j + 1)) by lia.
  assert (exists s1, (if negb (present (ld32 (k_mem s) (t + 4 * j))) then mret tt
      else kfree (pte_paddr (ld32 (k_mem s) (t + 4 * j)))) s = Done tt s1 /\
      freed (fun q => leaf (k_mem s) t j = Some q) s s1) as (s1 & E1 & Hf1).
  { unfold leaf. destruct (present _); cbn [negb].
    - pose proof (ld32_range (k_mem s) (t + 4 * j)) as Hr. unfold pte_paddr. rewrite shift_page.
      destruct (kfree_any s (page_of (ld32 (k_mem s) (t + 4 * j))) Hok) as (s1 & E1 & Hf1); [unfold page_of; zdiv | unfold page_of; zdiv |].
      exists s1. split; [done|]. eapply freed_iff; [|exact Hf1]. intros q. simpl. split; congruence.
    - exists s. split; [done|]. by apply freed_none. }
  rewrite E1. kred. destruct (freed_mem _ _ _ Hf1) as (Em & _ & Hok1).
  destruct (IH s1 t (j + 1) Hok1 Ht) as (s' & E & Hf); [lia | lia |].
  exists s'. split; [done|]. eapply freed_iff; [|by eapply freed_trans]. rewrite Em. intros q. split.
  - intros [E'|(k & Hk & E')]; [exists j | exists k]; (split; [lia | done]).
  - intros (k & Hk & E'). destruct (decide (k = j)) as [->|]; [by left|]. right. exists k. split; [lia | done].
Qed.

(** The frames below the entries [i .. i + n - 1] of a directory. *)
Definition below (m : gmap Z Z) (d i n : Z) (q : Z) : Prop :=
  exists k t, i <= k < i + n /\ table_of m d k = Some t /\
    (q = t \/ exists j, 0 <= j < 1024 /\ leaf m t j = Some q).

Lemma free_pdes_run n : forall s d i,
  paging_ok s -> page_ok d -> (forall k t, 0 <= k < 1024 -> table_of (k_mem s) d k = Some t -> page_ok t) ->
  0 <= i -> i + Z.of_nat n <= 1024 ->
  exists s', free_pdes n (d + 4 * i) s = Done tt s' /\ freed (below (k_mem s) d i (Z.of_nat n)) s s'.
Proof.
  induction n as [|n IH]; intros s d i Hok Hd Ht Hi Hn; cbn [free_pdes].
  { exists s. split; [done|]. apply freed_none; [done|]. intros q _ (k & t & Hk & _). lia. }
  kred. erewrite lift_done by (apply load32_kernel, page_ok_word; [done | lia]). kred. rewrite set_k_mem_id.
  replace (d + 4 * i + 4) with (d + 4 * (i + 1)) by lia.
  assert (exists s1, (if negb (present (ld32 (k_mem s) (d + 4 * i))) then mret tt
      else free_ptes PTE_CNT (pde_paddr (ld32 (k_mem s) (d + 4 * i)));; kfree (pde_paddr (ld32 (k_mem s) (d + 4 * i)))) s
        = Done tt s1 /\ freed (below (k_mem s) d i 1) s s1) as (s1 & E1 & Hf1).
  { destruct (table_of (k_mem s) d i) as [t|] eqn:Et; pose proof Et as Et'; unfold table_of in Et';
      destruct (present _); try done; cbn [negb].
    - injection Et' as Et'. rewrite Et'. pose proof (Ht i t ltac:(lia) Et) as Htp. pose proof (page_ok_bounds _ Htp).
      destruct (free_ptes_run PTE_CNT s t 0 Hok Htp) as (s1 & E1 & Hf1); [lia | unfold PTE_CNT; lia |].
      destruct (freed_mem _ _ _ Hf1) as (Em & _ & Hok1).
      destruct (kfree_any s1 t Hok1) as (s2 & E2 & Hf2); [lia | apply Htp |].
      exists s2. rewrite Z.add_0_r in E1. split; [kred; rewrite E1; by kred|].
      eapply freed_iff; [|by eapply freed_trans]. intros q. unfold below. split.
      + intros [(k & Hk & El)| ->]; exists i, t; (split; [lia|]; split; [done|]); [right; by exists k | by left].
      + intros (k & t' & Hk & Et2 & Hq). assert (k = i) as -> by lia. rewrite Et in Et2. injection Et2 as <-.
        destruct Hq as [->|(j & Hj & El)]; [by right | left; by exists j].
    - exists s. split; [done|]. apply freed_none; [done|]. intros q _ (k & t & Hk & Et2 & _).
      assert (k = i) as -> by lia. congruence. }
  kred. rewrite E1. kred. destruct (freed_mem _ _ _ Hf1) as (Em & _ & Hok1).
  destruct (IH s1 d (i + 1) Hok1 Hd) as (s' & E & Hf); [by rewrite Em | lia | lia |].
  exists s'. split; [done|]. eapply freed_iff; [|by eapply freed_trans]. rewrite Em. intros q. unfold below. split.
  - intros [(k & t & Hk & ?)|(k & t & Hk & ?)]; exists k, t; (split; [lia | done]).
  - intros (k & t & Hk & ?). destruct (decide (k = i)) as [->|]; [left | right]; [exists i, t | exists k, t]; (split; [lia | done]).
Qed.

Lemma memory_destroy_uvm_run s d :
  paging_ok s -> dir_wf (k_mem s) [] d -> 0 < d ->
  exists s', memory_destroy_uvm d s = Done tt s' /\
    freed (fun q => q = d \/ below (k_mem s) d (pde_index d) (1024 - pde_index d) q) s s'.
Proof.
  intros Hok [Hd _ Ht _] Hpos. pose proof (page_ok_bounds _ Hd) as Hb.
  pose proof (pde_index_range d ltac:(lia)) as Hi.
  unfold memory_destroy_uvm. kred. rewrite (proj2 (Z.eqb_neq d 0)) by lia. unfold ASSERT. cbn [negb]. kred.
  change (Z.of_nat PDE_CNT) with 1024.
  destruct (free_pdes_run (Z.to_nat (1024 - pde_index d)) s d (pde_index d)) as (s1 & E1 & Hf1); try done; [|lia|lia|].
  { intros k t Hk Et. by apply (Ht k t). }
  destruct (freed_mem _ _ _ Hf1) as (_ & _ & Hok1).
  destruct (kfree_any s1 d Hok1) as (s2 & E2 & Hf2); [lia | apply Hd |].
  exists s2. rewrite E1. kred. split; [done|]. eapply freed_iff; [|by eapply freed_trans]. intros q.
  rewrite Z2Nat.id by lia. simpl. tauto.
Qed.

(** * Properties *)

(** C23: [memory_destroy_uvm] makes free the directory, the tables of its entries from
    index [page_dir >> 22] on, and the frames these tables map, as far as the allocator
    manages them; it frees nothing else and writes nothing.  (The index is that of the
    directory's own address, where the index of [MEMORY_TASK_BASE] is meant.) *)
Theorem memory_destroy_uvm_frees s d :
  paging_ok s -> dir_wf (k_mem s) [] d -> 0 < d ->
  exists s', memory_destroy_uvm d s = Done tt s' /\
    freed (fun q => q = d \/ below (k_mem s) d (pde_index d) (1024 - pde_index d) q) s s'.
Proof. apply memory_destroy_uvm_run. Qed.

(** C38: [memory_destroy_uvm] of a space that has the kernel's mapping of the frames, as every
    space of the kernel does, makes free every frame of the allocator from the first one on
    that the directory's own index covers, whoever holds it: the page tables of the kernel,
    its stacks and the memory of every other task. *)
Theorem destroy_uvm_frees_live_memory s d :
  paging_ok s -> dir_wf (k_mem s) [] d -> 0 < d ->
  (forall p, p ∈ all_frames (k_alloc s) -> mmu_walk d (k_mem s) p = Some p) ->
  exists s', memory_destroy_uvm d s = Done tt s' /\
    forall p, p ∈ all_frames (k_alloc s) -> pde_index d <= pde_index p -> p ∈ frames s'.
Proof.
  intros Hok Hd Hpos Hid. destruct (memory_destroy_uvm_run s d Hok Hd Hpos) as (s' & E & a & -> & _ & _ & Hq).
  exists (set_k_alloc a s). split; [exact E|]. intros p Hp Hi.
  apply Hq. right. split; [done|]. right.
  pose proof (po_frames _ Hok p Hp) as Hpok. pose proof (page_ok_bounds _ Hpok). pose proof (pde_index_range p ltac:(lia)).
  pose proof (Hid p Hp) as Hw. rewrite walk_tables in Hw by apply Hd.
  destruct (table_of (k_mem s) d (pde_index p)) as [t|] eqn:Et; [|done]. cbn [mbind option_bind] in Hw.
  destruct (leaf (k_mem s) t (pte_index p)) as [q|] eqn:El; [|done]. cbn in Hw. injection Hw as Hw.
  exists (pde_index p), t. split_and!; [lia | lia | done |]. right. exists (pte_index p).
  split; [apply pte_index_range|]. rewrite El. f_equal. destruct Hpok as [Hm _]. lia.
Qed.

End FreeSpace.
