(* ===== verification/CopySpace.v ===== *)
(** Copying an address space, [memory_copy_uvm2] of kernel/core/memory.c: what a
    forked task finds in its memory. *)
From S2P Require Import Prelude DList Bitmap Machine MachineFacts Klib Format Sched Ipc Log Alloc Paging AddrSpace.
From S2P Require Import FreeSpace.

(** * Addresses by their indices *)
Definition vaddr_of (i j : Z) : Z := i * 2 ^ 22 + j * 4096.

Lemma vaddr_lor i j :
  0 <= i < 1024 -> 0 <= j < 1024 -> Z.lor (u32 (Z.shiftl i 22)) (Z.shiftl j 12) = vaddr_of i j.
Proof.
  intros Hi Hj. rewrite !Z.shiftl_mul_pow2 by lia. rewrite u32_small by lia.
  rewrite (lor_add_low _ _ 22); [done | lia | lia |]. apply Z.mod_mul. lia.
Qed.

Lemma vaddr_indices i j :
  0 <= i < 1024 -> 0 <= j < 1024 -> pde_index (vaddr_of i j) = i /\ pte_index (vaddr_of i j) = j.
Proof.
  intros Hi Hj. rewrite pde_index_div, pte_index_div. unfold vaddr_of.
  change (2 ^ 22) with 4194304. change (2 ^ 12) with 4096. change (2 ^ 10) with 1024. zdiv.
Qed.

(** The addresses of user programs. *)
Definition user (x : Z) : Prop := MEMORY_TASK_BASE <= x < 2 ^ 32.

(** A page is translated as a whole. *)
Lemma walk_page d m v x :
  d mod 4096 = 0 -> v mod 4096 = 0 -> v <= x < v + 4096 ->
  mmu_walk d m x = (fun pa => pa + (x - v)) <$> mmu_walk d m v.
Proof.
  intros Hd Hv Hx. rewrite !walk_tables by done.
  assert (page_of x = page_of v) as [-> ->]%page_indices by (unfold page_of; zdiv).
  destruct (table_of m d _) as [t|]; [|done]. cbn [mbind option_bind]. destruct (leaf m t _) as [p|]; [|done].
  cbn. f_equal. zdiv.
Qed.

Lemma walk_aligned d m v pa : d mod 4096 = 0 -> v mod 4096 = 0 -> mmu_walk d m v = Some pa -> pa mod 4096 = 0.
Proof.
  intros Hd Hv. rewrite walk_tables by done. destruct (table_of m d _) as [t|]; [|done]. cbn [mbind option_bind].
  unfold leaf. destruct (present _); [|done]. cbn [mbind option_bind]. unfold pte_paddr. rewrite shift_page.
  intros [= <-]. unfold page_of. zdiv.
Qed.

(** * The frames a copy takes *)

(** The pages mapped by [n] entries of the table [t], from the entry [j] on. *)
Fixpoint leaves_at (m : gmap Z Z) (t : Z) (n : nat) (j : Z) : nat :=
  match n with
  | O => 0
  | S n => (match leaf m t j with Some _ => 1 | None => 0 end) + leaves_at m t n (j + 1)
  end.

(** [k] pages under one directory entry take a frame each, and [nt] for their table. *)
Definition pages_need (k nt : nat) : nat := match k with O => 0 | S _ => k + nt end.

Fixpoint tables_need (m : gmap Z Z) (d : Z) (n : nat) (i : Z) : nat :=
  match n with
  | O => 0
  | S n => (match table_of m d i with Some t => pages_need (leaves_at m t PTE_CNT 0) 1 | None => 0 end) +
      tables_need m d n (i + 1)
  end.

(** One frame for every page of the user half of the space [d], and one for every
    table that maps such a page. *)
Definition copy_need (m : gmap Z Z) (d : Z) : nat := tables_need m d 512 512.

Lemma pages_need_mono k x y : (x <= y)%nat -> (pages_need k x <= pages_need k y)%nat.
Proof. destruct k; simpl; lia. Qed.

Lemma leaves_at_ext m m' t n : forall j,
  t mod 4096 = 0 -> same_page m m' t -> 0 <= j -> j + Z.of_nat n <= 1024 -> leaves_at m' t n j = leaves_at m t n j.
Proof.
  induction n as [|n IH]; intros j Ht Hs Hj Hn; cbn [leaves_at]; [done|].
  rewrite (leaf_ext m), IH by (done || lia). done.
Qed.

Lemma tables_need_ext m m' F d n : forall i,
  dir_wf m F d -> (forall p, p = d \/ (exists i, 512 <= i < 1024 /\ table_of m d i = Some p) -> same_page m m' p) ->
  512 <= i -> i + Z.of_nat n <= 1024 -> tables_need m' d n i = tables_need m d n i.
Proof.
  induction n as [|n IH]; intros i Hd Hs Hi Hn; cbn [tables_need]; [done|].
  rewrite (table_of_ext m), IH by (apply Hd || (apply Hs; by left) || done || lia). f_equal.
  destruct (table_of m d i) as [t|] eqn:Et; [|done]. destruct (dw_table _ _ _ Hd i t ltac:(lia) Et) as ([Hta _] & _).
  by rewrite (leaves_at_ext m) by (done || (apply Hs; right; exists i; split; [lia | done]) || (unfold PTE_CNT; lia)).
Qed.

Section CopySpace.
Context `{Layout} `{Device}.

(** What a run spends of a budget of [n] frames: it fails only on fewer. *)
Definition spent (n : nat) (s : kst) (failed : bool) (s' : kst) : Prop :=
  if failed then (length (frames s) < n)%nat else (length (frames s) <= n + length (frames s'))%nat.

Lemma spent_refl n s : spent n s false s.
Proof. unfold spent. lia. Qed.

Lemma spent_trans n n' s s' failed s'' :
  (length (frames s) <= n + length (frames s'))%nat -> spent n' s' failed s'' -> spent (n + n') s failed s''.
Proof. unfold spent. destruct failed; lia. Qed.

Lemma spent_mono n n' s failed s' : (n <= n')%nat -> spent n s failed s' -> spent n' s failed s'.
Proof. unfold spent. destruct failed; lia. Qed.

(** Writing data pages. *)
Lemma write_pages d ds s s' m :
  map_step d ds s s' -> (forall a, page_of a ∉ ds -> mget m a = mget (k_mem s') a) ->
  map_step d ds s (set_k_mem m s') /\
  forall x, 0 <= x < 2 ^ 32 -> mmu_walk d m x = mmu_walk d (k_mem s') x.
Proof.
  intros [(m1 & a & ->) Ho Hd Hps Hda Ht Hn Hf Hr] Hs.
  set (s1 := set_k_alloc a (set_k_mem m1 s)) in *.
  assert (forall q, q ∉ ds -> same_page (k_mem s1) m q) as Hsame by (intros q Hq b Hb; apply Hs; by rewrite Hb).
  assert (forall q, pt_page (k_mem s1) d q -> q ∉ ds) as Hnd by (intros q Hq Hin; by destruct (Hda q Hin) as (_ & _ & Hnp)).
  assert (forall i, 0 <= i < 1024 -> table_of m d i = table_of (k_mem s1) d i) as E.
  { intros i Hi. apply table_of_ext; [apply Hd | apply Hsame, Hnd; by left | done]. }
  assert (forall q, pt_page m d q <-> pt_page (k_mem s1) d q) as Hpt.
  { intros q. unfold pt_page. split; (intros [->|(i & Hi & Eq)]; [by left|]; right; exists i; split; [done|]);
      [by rewrite <- E | by rewrite E]. }
  split.
  - constructor; kproj.
    + exists m, a. by destruct s.
    + by apply paging_ok_mem.
    + apply (dir_wf_ext (k_mem s1)); [done|]. apply Hsame, Hnd. by left.
    + destruct Hps as (ps & Ef & Hps). exists ps. split; [done|]. intros q Hq. rewrite Hpt. by apply Hps.
    + intros q Hq. rewrite Hpt. by apply Hda.
    + intros i t Hi Et. rewrite E by done. by apply Ht.
    + intros q Hq%Hpt. by apply Hn.
    + intros q Hq Hqd. apply (same_page_trans _ (k_mem s1)); [apply Hf; [by rewrite <- Hpt | done] | by apply Hsame].
    + exact Hr.
  - intros x Hx. apply (walk_ext (k_mem s1) m (frames s1)); [done | | done]. intros q Hq. by apply Hsame, Hnd.
Qed.

Lemma write_data d ds s s' p m :
  map_step d ds s s' -> p ∈ ds -> p mod 4096 = 0 -> same_outside p 4096 (k_mem s') m ->
  map_step d ds s (set_k_mem m s') /\
  forall x, 0 <= x < 2 ^ 32 -> mmu_walk d m x = mmu_walk d (k_mem s') x.
Proof.
  intros Hm Hp Hpm Hs. apply write_pages; [done|]. intros a Ha.
  apply (same_outside_page p (k_mem s') m (page_of a)); [done | done | | done]. by intros E; rewrite E in Ha.
Qed.

(** [kmemcpy] from kernel memory to pages of the current address space: byte [i] of the
    block goes to the physical address [ph i]. *)
Record user_block (d : Z) (ds : list Z) (s : kst) (v src n : Z) (ph : Z -> Z) : Prop := {
  ub_addr : MEMORY_TASK_BASE <= v /\ v + n <= 2 ^ 32;
  ub_src : 0 < src /\ kblock src n /\ forall i, 0 <= i < n -> page_of (src + i) ∉ ds;
  ub_walk : forall i, 0 <= i < n -> mmu_walk d (k_mem s) (v + i) = Some (ph i) /\ page_of (ph i) ∈ ds;
  ub_inj : forall i j, 0 <= i < n -> 0 <= j < n -> ph i = ph j -> i = j
}.

Lemma kmemcpy_user_loop d ds s0 s v src n ph :
  map_step d ds s0 s -> user_block d ds s v src n ph -> 0 <= n -> forall k j m,
  0 <= j -> j + Z.of_nat k = n ->
  (forall a, page_of a ∉ ds -> mget m a = mget (k_mem s) a) ->
  (forall i, 0 <= i < j -> mget m (ph i) = mget (k_mem s) (src + i)) ->
  exists m', kmemcpy_loop k (v + j) (src + j) d m = Some (tt, m') /\
    (forall a, page_of a ∉ ds -> mget m' a = mget (k_mem s) a) /\
    forall i, 0 <= i < n -> mget m' (ph i) = mget (k_mem s) (src + i).
Proof.
  intros Hs [[Hv Hvn] (Hs0 & Hsb & Hsd) Hw Hi] Hn. induction k as [|k IH]; intros j m Hj Hjk Hout Hdone; cbn [kmemcpy_loop].
  { exists m. split_and!; [done | done |]. intros i Hi'. apply Hdone. lia. }
  erewrite mm_bind_some by (apply load8_kernel, Hsb; lia).
  destruct (write_pages d ds s0 s m Hs Hout) as [_ Hwm]. destruct (Hw j ltac:(lia)) as [Hwj Hpj].
  assert (store8 (v + j) (mget m (src + j)) d m = Some (tt, mset m (ph j) (mget m (src + j)))) as Est.
  { unfold store8, translate. unfold MEMORY_TASK_BASE in *. rewrite (proj2 (Z.ltb_ge _ _)), (proj2 (Z.ltb_lt _ _)) by lia.
    by rewrite Hwm, Hwj by lia. }
  erewrite mm_bind_some by exact Est.
  destruct (IH (j + 1) (mset m (ph j) (mget m (src + j)))) as (m' & E & Ho & Hd'); [lia | lia | | |].
  - intros a Ha. rewrite mget_mset. destruct (Z.eqb_spec (ph j) a) as [<-|]; [done | by apply Hout].
  - intros i Hi'. rewrite mget_mset. destruct (Z.eqb_spec (ph j) (ph i)) as [Eij|Hne].
    + apply Hi in Eij as <-; [|lia..]. rewrite u8_small by apply mget_range. apply Hout, Hsd. lia.
    + apply Hdone. destruct (decide (i = j)) as [->|]; [done | lia].
  - exists m'. by rewrite <- !Z.add_assoc.
Qed.

Lemma kmemcpy_user d ds s0 s v src n ph :
  map_step d ds s0 s -> user_block d ds s v src n ph -> 0 <= n < 2 ^ 32 -> k_cr3 s = d ->
  exists m, lift (kmemcpy v src n) s = Done tt (set_k_mem m s) /\
    (forall a, page_of a ∉ ds -> mget m a = mget (k_mem s) a) /\
    forall i, 0 <= i < n -> mget m (ph i) = mget (k_mem s) (src + i).
Proof.
  intros Hs Hub Hn <-. pose proof (ub_addr _ _ _ _ _ _ _ Hub) as [Hv _]. pose proof (ub_src _ _ _ _ _ _ _ Hub) as (Hsrc & _ & _).
  destruct (kmemcpy_user_loop (k_cr3 s) ds s0 s v src n ph Hs Hub ltac:(lia) (Z.to_nat n) 0 (k_mem s)) as (m & E & Ho & Hb);
    [lia | lia | done | lia |].
  exists m. split_and!; [|done|done]. apply lift_done. unfold kmemcpy. unfold MEMORY_TASK_BASE in Hv.
  rewrite (proj2 (Z.eqb_neq v 0)), (proj2 (Z.eqb_neq src 0)) by lia. cbn [orb].
  destruct (Z.eqb_spec n 0) as [->|]; [injection E as <-; done|]. rewrite u32_small by lia. by rewrite !Z.add_0_r in E.
Qed.

(** ** The two spaces *)
Variables (s0 : kst) (from to : Z).

(** The pages that make up the user half of the space [from]. *)
Definition own (p : Z) : Prop :=
  p = from \/ (exists i, 512 <= i < 1024 /\ table_of (k_mem s0) from i = Some p) \/
  exists x pa, user x /\ mmu_walk from (k_mem s0) x = Some pa /\ p = page_of pa.

Lemma user_index x : user x -> 512 <= pde_index x < 1024.
Proof. intros [Hx1 Hx2]. unfold MEMORY_TASK_BASE in Hx1. rewrite pde_index_div. change (2 ^ 22) with 4194304. zdiv. Qed.

Lemma user_walk_same F m x :
  dir_wf (k_mem s0) F from ->
  (forall p, own p -> same_page (k_mem s0) m p) -> user x -> mmu_walk from m x = mmu_walk from (k_mem s0) x.
Proof.
  intros [Hd _ Ht _] Hs Hx. pose proof (user_index x Hx) as Hi.
  rewrite !walk_tables by apply Hd. rewrite (table_of_ext (k_mem s0)) by (apply Hd || lia || (apply Hs; by left)).
  destruct (table_of (k_mem s0) from (pde_index x)) as [t|] eqn:Et; [|done]. cbn [mbind option_bind].
  destruct (Ht (pde_index x) t ltac:(lia) Et) as ([Hta _] & _).
  rewrite (leaf_ext (k_mem s0)); [done | done | | apply pte_index_range].
  apply Hs. right; left. by exists (pde_index x).
Qed.

(** The running task has the space [from]; [to] is new. *)
Record fork_ok : Prop := {
  fo_paging : paging_ok s0;
  fo_cr3 : k_cr3 s0 = from;
  fo_from : dir_wf (k_mem s0) (frames s0) from;
  fo_to : dir_wf (k_mem s0) (frames s0) to;
  fo_own : forall p, own p -> ~ pt_page (k_mem s0) to p /\ p ∉ frames s0;
  fo_empty : forall x, user x -> mmu_walk to (k_mem s0) x = None
}.

Hypothesis Hok : fork_ok.

(** At [x] the space [to] has a copy of what [from] has, in one of the frames [ds]. *)
Definition copied_at (m : gmap Z Z) (ds : list Z) (x : Z) : Prop :=
  match mmu_walk from (k_mem s0) x with
  | None => mmu_walk to m x = None
  | Some pa => exists pa', mmu_walk to m x = Some pa' /\ page_of pa' ∈ ds /\ mget m pa' = mget (k_mem s0) pa
  end.

(** The pages below [v] are copied, those from [v] on still empty. *)
Record fork_inv (v : Z) (ds : list Z) (s : kst) : Prop := {
  fi_step : map_step to ds s0 s;
  fi_copied : forall x, user x -> x < v -> copied_at (k_mem s) ds x;
  fi_empty : forall x, user x -> v <= x -> mmu_walk to (k_mem s) x = None;
  fi_once : forall x y pa pb, user x -> user y -> mmu_walk to (k_mem s) x = Some pa -> mmu_walk to (k_mem s) y = Some pb ->
    page_of pa = page_of pb -> page_of x = page_of y
}.

Lemma fork_inv_init : fork_inv MEMORY_TASK_BASE [] s0.
Proof.
  destruct Hok as [Hp _ _ Ht _ He]. constructor.
  - by apply map_step_refl.
  - intros x [Hx _] ?. lia.
  - intros x Hx _. by apply He.
  - intros x y pa pb Hx _ E. by rewrite He in E.
Qed.

(** Nothing writes the pages of [from]. *)
Lemma kept_same ds s p :
  map_step to ds s0 s -> ~ pt_page (k_mem s0) to p -> p ∉ frames s0 -> same_page (k_mem s0) (k_mem s) p.
Proof.
  intros Hs Hnt Hnf. apply Hs.
  - intros Hq%(ms_new _ _ _ _ Hs). destruct Hq; done.
  - intros Hq. by destruct (ms_data _ _ _ _ Hs p Hq).
Qed.

Lemma own_same ds s p : map_step to ds s0 s -> own p -> same_page (k_mem s0) (k_mem s) p.
Proof. intros Hs Hp. destruct (fo_own Hok p Hp) as [Hnt Hnf]. by apply (kept_same ds). Qed.

Lemma own_walk m x :
  (forall p, own p -> same_page (k_mem s0) m p) -> user x -> mmu_walk from m x = mmu_walk from (k_mem s0) x.
Proof. apply (user_walk_same (frames s0)), Hok. Qed.

(** A page of [from] that is not mapped. *)
Lemma fork_inv_skip v w ds s :
  fork_inv v ds s -> v <= w -> (forall x, user x -> v <= x < w -> mmu_walk from (k_mem s0) x = None) ->
  fork_inv w ds s.
Proof.
  intros [Hs Hc He Ho] Hw Hn. constructor; try done.
  - intros x Hx Hxw. destruct (decide (x < v)); [by apply Hc|]. unfold copied_at.
    rewrite Hn by (done || lia). apply He; [done | lia].
  - intros x Hx Hxw. apply He; [done | lia].
Qed.

(** ** One page *)

(** The bytes of the page [v] of [from], read through the running task's tables, in
    the data frame [p]. *)
Lemma copy_page_bytes ds s p v pa :
  map_step to ds s0 s -> p ∈ ds -> page_ok p -> MEM_EXT_START <= p ->
  user v -> v mod 4096 = 0 -> v + 4096 <= 2 ^ 32 -> mmu_walk from (k_mem s0) v = Some pa ->
  exists m, kmemcpy p v MEM_PAGE_SIZE (k_cr3 s) (k_mem s) = Some (tt, m) /\ same_outside p 4096 (k_mem s) m /\
    forall k, 0 <= k < 4096 -> mget m (p + k) = mget (k_mem s0) (pa + k).
Proof.
  intros Hs Hpd Hp Hpe [Hv1 Hv2] Hvm Hve Epa. unfold MEMORY_TASK_BASE, MEM_EXT_START in *.
  destruct (ms_data _ _ _ _ Hs p Hpd) as (Hpf & _ & _).
  pose proof (proj1 (dw_dir _ _ _ (fo_from Hok))) as Hfd.
  pose proof (walk_aligned _ _ _ _ Hfd Hvm Epa) as Hpam.
  assert (own (page_of pa)) as Hown by (right; right; exists v, pa; split; [by split | done]).
  assert (page_of pa <> p) as Hpne by (intros E; destruct (fo_own Hok _ Hown) as [_ Hn]; by rewrite E in Hn).
  assert (k_cr3 s = from) as Ecr by (destruct (ms_state _ _ _ _ Hs) as (? & ? & ->); apply (fo_cr3 Hok)).
  assert (forall k, 0 <= k < 4096 -> page_of (pa + k) = page_of pa) as Hpk.
  { intros k Hk. rewrite (page_of_aligned pa) by done. by apply page_of_offset. }
  destruct (kmemcpy_spec p v 4096 (k_cr3 s) (k_mem s) (fun i => pa + i)) as (m & Em & Hout & Hcp);
    [lia | lia | lia | by apply page_ok_block | | |].
  - intros m' i Hm' Hi. rewrite Ecr. unfold translate.
    rewrite (proj2 (Z.ltb_ge (v + i) MEMORY_TASK_BASE)) by (unfold MEMORY_TASK_BASE; lia).
    rewrite (proj2 (Z.ltb_lt (v + i) (2 ^ 32))) by lia. rewrite own_walk; [| |split; unfold MEMORY_TASK_BASE; lia].
    + rewrite (walk_page _ _ v) by (done || lia). rewrite Epa. cbn. f_equal. lia.
    + intros q Hq. apply (same_page_trans _ (k_mem s)); [by apply (own_same _ _ _ Hs)|].
      apply (same_outside_page p); [apply Hp | done |]. intros ->. destruct (fo_own Hok _ Hq) as [_ Hn]. done.
  - intros i Hi Hin. apply Hpne. rewrite <- (Hpk i Hi).
    replace (pa + i) with (p + (pa + i - p)) by lia. apply page_of_offset; [apply Hp | lia].
  - exists m. split_and!; [exact Em | exact Hout |]. intros k Hk. rewrite Hcp by done.
    apply (own_same _ _ _ Hs Hown). by apply Hpk.
Qed.

(** The frame [p], mapped at [v] in [to], gets the bytes of the page [v] of [from]. *)
Lemma fork_inv_page v ds s s1 s2 p pa :
  fork_inv v ds s -> user v -> v mod 4096 = 0 -> v + 4096 <= 2 ^ 32 -> mmu_walk from (k_mem s0) v = Some pa ->
  map_step to [p] s s1 -> page_ok p -> MEM_EXT_START <= p -> map_step to [] s1 s2 ->
  (forall x, 0 <= x < 2 ^ 32 -> mmu_walk to (k_mem s2) x =
     if decide (v <= x < v + 4096) then Some (p + (x - v)) else mmu_walk to (k_mem s1) x) ->
  (forall x, 0 <= x < 2 ^ 32 -> mmu_walk to (k_mem s1) x = mmu_walk to (k_mem s) x) ->
  exists m, kmemcpy p v MEM_PAGE_SIZE (k_cr3 s2) (k_mem s2) = Some (tt, m) /\
    fork_inv (v + 4096) (ds ++ [p]) (set_k_mem m s2).
Proof.
  intros [Hs Hc He Ho] Hv Hvm Hve Epa Hs1 Hp Hpe Hs2 Hw Hw1.
  pose proof (map_step_trans _ _ _ _ _ _ Hs1 Hs2) as H12. rewrite app_nil_r in H12.
  pose proof (map_step_trans _ _ _ _ _ _ Hs H12) as H02.
  assert (p ∈ ds ++ [p]) as Hpd by (apply elem_of_app; right; by left).
  destruct (copy_page_bytes (ds ++ [p]) s2 p v pa) as (m & Em & Hout & Hcp); try done.
  assert (p ∉ ds) as Hpds.
  { intros Hq. destruct (ms_data _ _ _ _ Hs p Hq) as (_ & Hn & _). apply Hn. by apply (ms_data _ _ _ _ H12 p ltac:(by left)). }
  destruct Hv as [Hv1 Hv2]. unfold MEMORY_TASK_BASE in *. exists m. split; [exact Em|].
  destruct (write_data to (ds ++ [p]) s0 s2 p m H02) as [Hstep Hwm]; [done | apply Hp | done |].
  assert (forall x, 0 <= x < 2 ^ 32 -> mmu_walk to m x =
     if decide (v <= x < v + 4096) then Some (p + (x - v)) else mmu_walk to (k_mem s) x) as Hwx.
  { intros x Hx. rewrite Hwm, Hw by done. case_decide; [done|]. by apply Hw1. }
  assert (forall q, q ∈ ds -> same_page (k_mem s) m q) as Hold.
  { intros q Hq. assert (q <> p) as Hqp by (by intros ->).
    destruct (ms_data _ _ _ _ H02 q) as (_ & _ & Hqt); [apply elem_of_app; by left|].
    apply (same_page_trans _ (k_mem s2)); [|by apply (same_outside_page p); [apply Hp | |]].
    apply (ms_frame _ _ _ _ H12 q Hqt). by intros ->%list_elem_of_singleton. }
  constructor; [exact Hstep | | |]; kproj.
  - intros x Hx Hxv. pose proof Hx as [Hx1 Hx2]. unfold MEMORY_TASK_BASE in Hx1. destruct (decide (x < v)) as [Hlt|Hge].
    + specialize (Hc x Hx Hlt). unfold copied_at in *. destruct (mmu_walk from (k_mem s0) x) as [pb|].
      * destruct Hc as (pa' & E & Hin & Eb). exists pa'. rewrite Hwx, decide_False by lia. split_and!; [done | |].
        -- apply elem_of_app. by left.
        -- rewrite <- Eb. by apply (Hold (page_of pa')).
      * rewrite Hwx, decide_False by lia. done.
    + unfold copied_at. rewrite (walk_page _ _ v) by (lia || apply (dw_dir _ _ _ (fo_from Hok)) || done). rewrite Epa. cbn.
      exists (p + (x - v)). rewrite Hwx, decide_True by lia. split_and!; [done | |].
      * rewrite page_of_offset by (apply Hp || lia). apply elem_of_app. right. by left.
      * apply Hcp. lia.
  - intros x Hx Hxv. pose proof Hx as [Hx1 Hx2]. unfold MEMORY_TASK_BASE in Hx1.
    rewrite Hwx, decide_False by lia. apply He; [done | lia].
  - assert (forall x pb, user x -> ~ v <= x < v + 4096 -> mmu_walk to (k_mem s) x = Some pb -> page_of pb ∈ ds) as Hds.
    { intros x pb Hx Hxv Eb. destruct (decide (x < v)) as [Hlt|Hge]; [|rewrite He in Eb by (done || lia); done].
      specialize (Hc x Hx Hlt). unfold copied_at in Hc. destruct (mmu_walk from (k_mem s0) x); [|congruence].
      destruct Hc as (pa' & E & Hin & _). congruence. }
    intros x y pb pc Hx Hy Ex Ey Epg. pose proof Hx as [Hx1 Hx2]. pose proof Hy as [Hy1 Hy2]. unfold MEMORY_TASK_BASE in Hx1, Hy1.
    rewrite Hwx in Ex by lia. rewrite Hwx in Ey by lia.
    destruct (decide (v <= x < v + 4096)), (decide (v <= y < v + 4096)).
    + unfold page_of. zdiv.
    + exfalso. injection Ex as <-. rewrite page_of_offset in Epg by (apply Hp || lia).
      apply Hpds. rewrite Epg. by apply (Hds y pc).
    + exfalso. injection Ey as <-. rewrite (page_of_offset p) in Epg by (apply Hp || lia).
      apply Hpds. rewrite <- Epg. by apply (Hds x pb).
    + by apply (Ho x y pb pc).
Qed.

(** ** The loops *)
Lemma vaddr_next i j : vaddr_of i (j + 1) = vaddr_of i j + 4096.
Proof. unfold vaddr_of. lia. Qed.

Lemma vaddr_user i j : 512 <= i < 1024 -> 0 <= j < 1024 ->
  user (vaddr_of i j) /\ vaddr_of i j mod 4096 = 0 /\ vaddr_of i j + 4096 <= 2 ^ 32.
Proof. intros Hi Hj. unfold user, vaddr_of, MEMORY_TASK_BASE. change (2 ^ 22) with (1024 * 4096). zdiv. Qed.

(** What [from] maps at [vaddr_of i j], in terms of the entry. *)
Lemma from_walk i j t :
  512 <= i < 1024 -> 0 <= j < 1024 -> table_of (k_mem s0) from i = Some t ->
  mmu_walk from (k_mem s0) (vaddr_of i j) = leaf (k_mem s0) t j.
Proof.
  intros Hi Hj Et. rewrite walk_tables by apply (fo_from Hok).
  destruct (vaddr_indices i j ltac:(lia) Hj) as [-> ->]. rewrite Et. cbn [mbind option_bind].
  destruct (vaddr_user i j Hi Hj) as (_ & -> & _). destruct (leaf _ _ _); [|done]. cbn. f_equal. lia.
Qed.

(** How a loop ends: with a failure, when no frame is left, or at [v]. *)
Definition loop_ends (v : Z) (failed : bool) (s : kst) : Prop :=
  exists ds, map_step to ds s0 s /\ if failed then frames s = [] else fork_inv v ds s.

Lemma get_pte_perm_range v : 0 <= get_pte_perm v < 4096.
Proof.
  unfold get_pte_perm. change 0x3ff with (Z.ones 10). rewrite Z.land_ones by lia.
  pose proof (Z.mod_pos_bound v (2 ^ 10)). lia.
Qed.

Lemma copy_ptes_step n i j t ds s :
  fork_inv (vaddr_of i j) ds s -> 512 <= i < 1024 -> 0 <= j < 1024 -> table_of (k_mem s0) from i = Some t ->
  (exists s' pa, copy_ptes (S n) to i j (t + 4 * j) s = Done true s' /\ loop_ends 0 true s' /\
    leaf (k_mem s0) t j = Some pa /\ (length (frames s) < S (new_table (k_mem s) to i))%nat) \/
  exists ds' s', copy_ptes (S n) to i j (t + 4 * j) s = copy_ptes n to i (j + 1) (t + 4 * (j + 1)) s' /\
    fork_inv (vaddr_of i (j + 1)) ds' s' /\
    match leaf (k_mem s0) t j with
    | None => s' = s
    | Some _ => (length (frames s) <= S (new_table (k_mem s) to i) + length (frames s'))%nat /\
        new_table (k_mem s') to i = 0%nat
    end.
Proof.
  intros Hinv Hi Hj Et. pose proof (fi_step _ _ _ Hinv) as Hs. destruct (vaddr_user i j Hi Hj) as (Hv & Hvm & Hve).
  destruct (dw_table _ _ _ (fo_from Hok) i t ltac:(lia) Et) as (Hta & _).
  assert (forall s', map_step to ds s0 s' -> ld32 (k_mem s') (t + 4 * j) = ld32 (k_mem s0) (t + 4 * j)) as Hpte.
  { intros s' Hs'. apply same_page_word; [apply Hta | | done]. apply (own_same ds); [done|]. right; left. by exists i. }
  assert (forall s', lift (load32 (t + 4 * j)) s' = Done (ld32 (k_mem s') (t + 4 * j)) s') as Hload.
  { intros s'. erewrite lift_done by (apply load32_kernel, page_ok_word; [done | lia]). by rewrite set_k_mem_id. }
  cbn [copy_ptes]. replace (t + 4 * j + 4) with (t + 4 * (j + 1)) by lia.
  kred. rewrite Hload. kred. rewrite (Hpte s Hs), vaddr_next. pose proof (from_walk i j t Hi Hj Et) as Ew.
  destruct (leaf (k_mem s0) t j) as [pa|] eqn:El; unfold leaf in El; destruct (present _); try done; cbn [negb].
  2:{ right. exists ds, s. split_and!; [done | | done]. apply (fork_inv_skip (vaddr_of i j)); [done | lia |].
      intros x Hx Hxv. rewrite (walk_page _ _ (vaddr_of i j)) by (apply (fo_from Hok) || done || lia). by rewrite Ew. }
  kred. destruct (take_frame s to) as [[Hnil E]|(p & s1 & E & Hs1 & Em & _ & Hp & Hpe & Ef)]; [apply Hs | apply Hs | |].
  { left. exists s, pa. rewrite E. kred. split_and!; [done | by exists ds | done | rewrite Hnil; simpl; lia]. }
  rewrite E. kred. unfold MEM_EXT_START in Hpe. rewrite (proj2 (Z.eqb_neq p 0)) by lia. kred. rewrite Hload. kred.
  rewrite vaddr_lor by lia. pose proof (map_step_trans _ _ _ _ _ _ Hs Hs1) as H01.
  destruct (vaddr_indices i j ltac:(lia) Hj) as [Eix _].
  destruct (map_frame s1 to (vaddr_of i j) (get_pte_perm (ld32 (k_mem s1) (t + 4 * j))) p)
    as [(Hnil & Hnt & Ec)|(s2 & Ec & Hs2 & Hlen & Hw)]; try done; [apply Hs1 | apply Hs1 | destruct Hv; unfold MEMORY_TASK_BASE in *; lia
    | apply get_pte_perm_range | rewrite Em; apply (fi_empty _ _ _ Hinv); [done | lia] | |].
  { left. exists s1, pa. rewrite Ec. kred. change (-1 <? 0) with true. kred. rewrite Em, Eix in Hnt.
    split_and!; [done | by exists (ds ++ [p]) | done | rewrite Ef, Hnil, Hnt; simpl; lia]. }
  right. rewrite Ec. kred. change (1 <? 0) with false. kred.
  destruct (fork_inv_page (vaddr_of i j) ds s s1 s2 p pa) as (m & Ek & Hinv'); try done; [intros; by rewrite Em|].
  exists (ds ++ [p]), (set_k_mem m s2). erewrite lift_done by exact Ek. split_and!; [by kred | done | |].
  - unfold frames in *. kproj. rewrite Em, Eix in Hlen. rewrite Ef. cbn [length]. lia.
  - pose proof (fi_copied _ _ _ Hinv' (vaddr_of i j) Hv ltac:(lia)) as Hcp. unfold copied_at in Hcp. rewrite Ew in Hcp.
    destruct Hcp as (pa' & Ew' & _). rewrite <- Eix. eapply new_table_mapped; [|exact Ew']. apply (fo_to Hok).
Qed.

Lemma copy_ptes_run n : forall i j t ds s,
  fork_inv (vaddr_of i j) ds s -> 512 <= i < 1024 -> 0 <= j -> j + Z.of_nat n <= 1024 ->
  table_of (k_mem s0) from i = Some t ->
  exists failed s', copy_ptes n to i j (t + 4 * j) s = Done failed s' /\
    loop_ends (vaddr_of i (j + Z.of_nat n)) failed s' /\
    spent (pages_need (leaves_at (k_mem s0) t n j) (new_table (k_mem s) to i)) s failed s'.
Proof.
  induction n as [|n IH]; intros i j t ds s Hinv Hi Hj Hn Et.
  { exists false, s. rewrite Z.add_0_r. split_and!; [done | | by apply spent_refl]. exists ds. split; [apply Hinv | done]. }
  cbn [leaves_at].
  destruct (copy_ptes_step n i j t ds s Hinv Hi ltac:(lia) Et) as [(s' & pa & E & Hend & -> & Hlt)|(ds' & s' & E & Hinv' & Hsp)]; rewrite E.
  { exists true, s'. split_and!; [done | done |]. cbn. lia. }
  replace (j + Z.of_nat (S n)) with (j + 1 + Z.of_nat n) by lia.
  destruct (IH i (j + 1) t ds' s') as (failed & s'' & E' & Hend & Hsp'); try (done || lia).
  exists failed, s''. split_and!; [done | done |].
  destruct (leaf (k_mem s0) t j); [destruct Hsp as [Hle Hz] | by subst s'].
  rewrite Hz in Hsp'. eapply spent_mono, spent_trans, Hsp'; [|exact Hle].
  destruct (leaves_at _ t n (j + 1)); simpl; lia.
Qed.

Lemma copy_pdes_run n : forall i ds s,
  fork_inv (vaddr_of i 0) ds s -> 512 <= i -> i + Z.of_nat n <= 1024 ->
  exists failed s', copy_pdes n to i (from + 4 * i) s = Done failed s' /\
    loop_ends (vaddr_of (i + Z.of_nat n) 0) failed s' /\ spent (tables_need (k_mem s0) from n i) s failed s'.
Proof.
  induction n as [|n IH]; intros i ds s Hinv Hi Hn.
  { exists false, s. rewrite Z.add_0_r. split_and!; [done | | by apply spent_refl]. exists ds. split; [apply Hinv | done]. }
  cbn [tables_need].
  pose proof (fi_step _ _ _ Hinv) as Hs. destruct (fo_from Hok) as [Hd _ _ _].
  cbn [copy_pdes]. kred. erewrite lift_done by (apply load32_kernel, page_ok_word; [done | lia]). kred.
  rewrite set_k_mem_id, (same_page_word (k_mem s0) (k_mem s)) by (apply Hd || lia || (apply (own_same ds); [done | by left])).
  replace (from + 4 * i + 4) with (from + 4 * (i + 1)) by lia.
  replace (i + Z.of_nat (S n)) with (i + 1 + Z.of_nat n) by lia.
  assert (vaddr_of i 1024 = vaddr_of (i + 1) 0) as Ev by (unfold vaddr_of; lia).
  destruct (table_of (k_mem s0) from i) as [t|] eqn:Et; pose proof Et as Et'; unfold table_of in Et';
    destruct (present _); try done; cbn [negb].
  - injection Et' as ->. destruct (copy_ptes_run PTE_CNT i 0 t ds s Hinv) as (failed & s' & E & (ds' & Hs' & Hend) & Hsp);
      [lia | lia | unfold PTE_CNT; lia | done |].
    apply (spent_mono _ _ _ _ _ (pages_need_mono _ _ _ (new_table_le (k_mem s) to i))) in Hsp.
    rewrite Z.add_0_r in E. kred. rewrite E. kred. destruct failed.
    + exists true, s'. split_and!; [done | by exists ds' |]. unfold spent in *. lia.
    + change (0 + Z.of_nat PTE_CNT) with 1024 in Hend. rewrite Ev in Hend.
      destruct (IH (i + 1) ds' s') as (failed & s'' & E' & Hend' & Hsp'); try (done || lia).
      exists failed, s''. split_and!; [done | done |]. by apply (spent_trans _ _ s s').
  - apply (IH (i + 1) ds); [|lia|lia]. rewrite <- Ev. apply (fork_inv_skip (vaddr_of i 0)); [done | unfold vaddr_of; lia |].
    intros x Hx Hxv. rewrite walk_tables by apply Hd. unfold vaddr_of in Hxv. change (2 ^ 22) with 4194304 in Hxv.
    assert (pde_index x = i) as -> by (rewrite pde_index_div; change (2 ^ 22) with 4194304; zdiv). by rewrite Et.
Qed.

Lemma copy_user_pdes_run :
  exists failed s', copy_user_pdes from to s0 = Done failed s' /\ loop_ends (2 ^ 32) failed s' /\
    spent (copy_need (k_mem s0) from) s0 failed s'.
Proof.
  unfold copy_user_pdes. change (pde_index MEMORY_TASK_BASE) with 512.
  destruct (copy_pdes_run 512 512 [] s0) as (failed & s' & E & Hend & Hsp); [exact fork_inv_init | lia | lia |].
  exists failed, s'. split_and!; [exact E | exact Hend | exact Hsp].
Qed.

End CopySpace.

Section CopyProperties.
Context `{Layout} `{Device}.

Lemma map_step_freed d ds P s s1 s' :
  map_step d ds s s1 -> freed P s1 s' -> exists m a, s' = set_k_alloc a (set_k_mem m s).
Proof. intros [(m & a & ->) _ _ _ _ _ _ _ _] (a' & -> & _). exists m, a'. by destruct s. Qed.

Lemma memory_copy_uvm2_run s from to :
  fork_ok s from to -> 0 < to ->
  exists r s', memory_copy_uvm2 from to s = Done r s' /\ (exists m a, s' = set_k_alloc a (set_k_mem m s)) /\ paging_ok s' /\
    (forall x, user x -> mmu_walk from (k_mem s') x = mmu_walk from (k_mem s) x) /\
    (forall p, ~ pt_page (k_mem s) to p -> p ∉ frames s -> same_page (k_mem s) (k_mem s') p) /\
    ((r = to /\ exists ds, map_step to ds s s' /\ (forall x, user x -> copied_at s from to (k_mem s') ds x) /\
        forall x y pa pb, user x -> user y -> mmu_walk to (k_mem s') x = Some pa -> mmu_walk to (k_mem s') y = Some pb ->
          page_of pa = page_of pb -> page_of x = page_of y) \/
     (r = 2 ^ 32 - 1 /\ (to ∈ all_frames (k_alloc s) -> to ∈ frames s') /\
      (length (frames s) < copy_need (k_mem s) from)%nat)).
Proof.
  intros Hok Hto. unfold memory_copy_uvm2. rewrite (proj2 (Z.eqb_neq to 0)) by lia.
  destruct (copy_user_pdes_run s from to Hok) as (failed & s1 & E & (ds & Hs & Hend) & Hsp).
  assert (forall p, ~ pt_page (k_mem s) to p -> p ∉ frames s -> same_page (k_mem s) (k_mem s1) p) as Hkept
    by (intros; by apply (kept_same s to ds)).
  assert (forall x, user x -> mmu_walk from (k_mem s1) x = mmu_walk from (k_mem s) x) as Hw
    by (intros; apply (own_walk s from to Hok); [intros; by apply (own_same s from to Hok ds) | done]).
  destruct failed.
  - destruct (memory_destroy_uvm_run s1 to) as (s' & Ed & Hf); [apply Hs | | lia |].
    { apply (dir_wf_weaken _ (frames s1)); [by intros p ?%not_elem_of_nil | apply Hs]. }
    destruct (freed_mem _ _ _ Hf) as (Em & _ & Hok'). exists (2 ^ 32 - 1), s'. rewrite Em.
    split_and!; [kred; rewrite E; kred; rewrite Ed; by kred | exact (map_step_freed _ _ _ _ _ _ Hs Hf) | done | done | done |]. right. split_and!; [done | | done].
    destruct Hf as (a & -> & _ & _ & Hq). intros Hin. apply Hq. right. rewrite (ms_region _ _ _ _ Hs). split; [done | by left].
  - exists to, s1. destruct Hend as [_ Hc _ Ho].
    split_and!; [kred; rewrite E; by kred | apply Hs | apply Hs | done | done |]. left. split; [done|]. exists ds.
    split_and!; [done | intros x Hx; apply Hc; [done | apply Hx] | done].
Qed.

(** C16: [memory_copy_uvm2] gives the space [to] a private copy of the user half of the
    running task's space [from]: the same addresses are mapped, each to a byte of the
    same value in a frame that was free, no two pages to the same frame; neither the
    contents nor the translation of [from] changes.  It does so whenever the free
    frames suffice, one for every page of [from] and one for every table that maps one;
    it can fail only on fewer, and then destroys [to] and answers -1, as an unsigned
    number. *)
Theorem memory_copy_uvm2_copies s from to :
  fork_ok s from to -> 0 < to ->
  exists r s', memory_copy_uvm2 from to s = Done r s' /\ paging_ok s' /\
    (forall x, user x -> mmu_walk from (k_mem s') x = mmu_walk from (k_mem s) x) /\
    (forall p, own s from p -> same_page (k_mem s) (k_mem s') p) /\
    ((r = to /\ exists ds, map_step to ds s s' /\ (forall x, user x -> copied_at s from to (k_mem s') ds x) /\
        forall x y pa pb, user x -> user y -> mmu_walk to (k_mem s') x = Some pa -> mmu_walk to (k_mem s') y = Some pb ->
          page_of pa = page_of pb -> page_of x = page_of y) \/
     (r = 2 ^ 32 - 1 /\ (to ∈ all_frames (k_alloc s) -> to ∈ frames s') /\
      (length (frames s) < copy_need (k_mem s) from)%nat)).
Proof.
  intros Hok Hto. destruct (memory_copy_uvm2_run s from to Hok Hto) as (r & s' & E & _ & Hp & Hw & Hs & H').
  exists r, s'. split_and!; try done. intros p Hp'. by destruct (fo_own s from to Hok p Hp') as [? ?]; apply Hs.
Qed.

End CopyProperties.
