(* ===== verification/Irq.v ===== *)
(** Interrupts and exceptions: kernel/cpu/irq.c.  (The critical sections
    [irq_enter_protection] and [irq_leave_protection] are in Machine.) *)
From S2P Require Import Prelude DList Machine MachineFacts Klib Format Sched Ipc Log Cpu.

(** irq.h *)
Definition IDT_TABLE_NO : nat := 128.
Definition IRQ0_TIMER : Z := 0x20.
Definition PIC0_ICW1 : Z := 0x20.
Definition PIC0_ICW2 : Z := 0x21.
Definition PIC0_ICW3 : Z := 0x21.
Definition PIC0_ICW4 : Z := 0x21.
Definition PIC0_IMR : Z := 0x21.
Definition PIC0_OCW2 : Z := 0x20.
Definition PIC1_ICW1 : Z := 0xa0.
Definition PIC1_ICW2 : Z := 0xa1.
Definition PIC1_ICW3 : Z := 0xa1.
Definition PIC1_ICW4 : Z := 0xa1.
Definition PIC1_IMR : Z := 0xa1.
Definition PIC1_OCW2 : Z := 0xa0.
Definition PIC_ICW1_ALWAYS_1 : Z := Z.shiftl 1 4.
Definition PIC_ICW1_ICW4 : Z := Z.shiftl 1 0.
Definition PIC_ICW4_8086 : Z := Z.shiftl 1 0.
Definition PIC_OCW2_EOI : Z := Z.shiftl 1 5.
Definition IRQ_PIC_START : Z := 0x20.
Definition ERR_PAGE_P : Z := Z.shiftl 1 0.
Definition ERR_PAGE_WR : Z := Z.shiftl 1 1.
Definition ERR_PAGE_US : Z := Z.shiftl 1 1.
Definition ERR_EXT : Z := Z.shiftl 1 0.
Definition ERR_IDT : Z := Z.shiftl 1 1.

(** [exception_frame_t]: what the stub of start_kernel.S pushed. *)
Record exception_frame_t := ExceptionFrame {
  f_gs : Z;
  f_fs : Z;
  f_es : Z;
  f_ds : Z;
  f_edi : Z;
  f_esi : Z;
  f_ebp : Z;
  f_esp : Z;
  f_ebx : Z;
  f_edx : Z;
  f_ecx : Z;
  f_eax : Z;
  f_num : Z;
  f_error_code : Z;
  f_eip : Z;
  f_cs : Z;
  f_eflags : Z;
  f_esp3 : Z;
  f_ss3 : Z
}.

(** A test [x & mask] in a condition. *)
Definition has (x mask : Z) : bool := negb (Z.land x mask =? 0).

Section Irq.
Context `{Layout} `{Device}.

(** ** Exception handlers: they log the frame and stop. *)
Definition dump_core_regs (frame : exception_frame_t) : K unit :=
  let '(ss, esp) :=
    if has (f_cs frame) 0x7 then (f_ds frame, f_esp frame) else (f_ss3 frame, f_esp3 frame) in
  log_printf (cs "IRQ: %d, Error Code: %d") [VInt (f_num frame); VInt (f_error_code frame)];;
  log_printf (cs "cs: %d" ++ nl ++ cs "ds: %d" ++ nl ++ cs "es: %d" ++ nl ++ cs "ss: %d" ++ nl
              ++ cs "fs: %d" ++ nl ++ cs "gs: %d" ++ nl)
    (VInt <$> [f_cs frame; f_ds frame; f_es frame; ss; f_fs frame; f_gs frame]);;
  log_printf (cs "eax: %x" ++ nl ++ cs "ebx: %x" ++ nl ++ cs "edx: %x" ++ nl ++ cs "edi: %x" ++ nl
              ++ cs "esi: %x" ++ nl ++ cs "ebp: %x" ++ nl ++ cs "esp: %x" ++ nl)
    (VInt <$> [f_eax frame; f_ebx frame; f_edx frame; f_edi frame; f_esi frame; f_ebp frame; esp]);;
  log_printf (cs "eip: %x" ++ nl ++ cs "eflags: %x" ++ nl) [VInt (f_eip frame); VInt (f_eflags frame)].

Definition do_default_handler (frame : exception_frame_t) (message : list Z) : K unit :=
  log_printf (cs "------------------------------------------") [];;
  log_printf (cs "IRQ/Exception: %s") [VStr message];;
  dump_core_regs frame;;
  hlt_forever.

Definition do_handler_unknown (frame : exception_frame_t) : K unit :=
  do_default_handler frame (cs "unknown exception").

Definition do_handler_divide_error (frame : exception_frame_t) : K unit :=
  do_default_handler frame (cs "Exception: Divide by zero").

Definition do_handler_debug_exception (frame : exception_frame_t) : K unit :=
  do_default_handler frame (cs "Exception: Debug exception").

Definition do_handler_nmi_interrupt (frame : exception_frame_t) : K unit :=
  do_default_handler frame (cs "Exception: NMI interrupt").

Definition do_handler_breakpoint (frame : exception_frame_t) : K unit :=
  do_default_handler frame (cs "Exception: Breakpoint").

Definition do_handler_overflow (frame : exception_frame_t) : K unit :=
  do_default_handler frame (cs "Exception: Overflow").

Definition do_handler_bound_range_exceed (frame : exception_frame_t) : K unit :=
  do_default_handler frame (cs "Exception: Bound range exceed").

Definition do_handler_invalid_opcode (frame : exception_frame_t) : K unit :=
  do_default_handler frame (cs "Exception: Invalid opcode").

Definition do_handler_device_not_found (frame : exception_frame_t) : K unit :=
  do_default_handler frame (cs "Exception: Device not found").

Definition do_handler_double_fault (frame : exception_frame_t) : K unit :=
  do_default_handler frame (cs "Exception: Double fault").

Definition do_handler_invalid_tss (frame : exception_frame_t) : K unit :=
  do_default_handler frame (cs "Exception: Invalid tss").

Definition do_handler_segment_not_present (frame : exception_frame_t) : K unit :=
  do_default_handler frame (cs "Exception: Segment not present").

Definition do_handler_stack_segment_fault (frame : exception_frame_t) : K unit :=
  do_default_handler frame (cs "Exception: Stack segment fault").

Definition do_handler_general_protection (frame : exception_frame_t) : K unit :=
  log_printf (cs "--------------------------------") [];;
  log_printf (cs "IRQ/Exception happend: General Protection.") [];;
  (if has (f_error_code frame) ERR_EXT then
     log_printf (cs "the exception occurred during delivery of an " ++
                 cs "event external to the program, such as an interrupt" ++
                 cs "or an earlier exception.") []
   else
     log_printf (cs "the exception occurred during delivery of a" ++
                 cs "software interrupt (INT n, INT3, or INTO).") []);;
  (if has (f_error_code frame) ERR_IDT then
     log_printf (cs "the index portion of the error code refers " ++
                 cs "to a gate descriptor in the IDT") []
   else log_printf (cs "the index refers to a descriptor in the GDT") []);;
  log_printf (cs "segment index: %d") [VInt (Z.land (f_error_code frame) 0xFFF8)];;
  dump_core_regs frame;;
  hlt_forever.

(** The messages of [do_handler_page_fault] start with a tab. *)
Definition tab : list Z := [9].

Definition do_handler_page_fault (frame : exception_frame_t) : K unit :=
  log_printf (cs "--------------------------------") [];;
  log_printf (cs "IRQ/Exception: Page fault.") [];;
  (if has (f_error_code frame) ERR_PAGE_P then
     cr2 ← read_cr2;
     log_printf (tab ++ cs "page-level protection violation: %x.") [VInt cr2]
   else
     cr2 ← read_cr2;
     log_printf (tab ++ cs "The fault was caused by a non-present page. %x") [VInt cr2]);;
  (if has (f_error_code frame) ERR_PAGE_WR then
     log_printf (tab ++ cs "The access causing the fault was a read.") []
   else log_printf (tab ++ cs "The access causing the fault was a write.") []);;
  (if has (f_error_code frame) ERR_PAGE_US then
     log_printf (tab ++ cs "A supervisor-mode access caused the fault.") []
   else log_printf (tab ++ cs "A user-mode access caused the fault.") []);;
  dump_core_regs frame;;
  hlt_forever.

Definition do_handler_floating_point_error (frame : exception_frame_t) : K unit :=
  do_default_handler frame (cs "Exception: Floating point error").

Definition do_handler_aligment_check (frame : exception_frame_t) : K unit :=
  do_default_handler frame (cs "Exception: Aligment check").

Definition do_handler_machine_check (frame : exception_frame_t) : K unit :=
  do_default_handler frame (cs "Exception: Machine check").

Definition do_handler_simd_floating_point_exception (frame : exception_frame_t) : K unit :=
  do_default_handler frame (cs "Exception: SIMD floating point exception").

Definition do_handler_virtualization_exception (frame : exception_frame_t) : K unit :=
  do_default_handler frame (cs "Exception: Virtualization exception").

Definition do_handler_control_protection_exception (frame : exception_frame_t) : K unit :=
  do_default_handler frame (cs "Exception: Control protection exception").

(** ** The interrupt controllers *)
Definition init_pic : K unit :=
  outb PIC0_ICW1 (Z.lor PIC_ICW1_ALWAYS_1 PIC_ICW1_ICW4);;
  outb PIC0_ICW2 IRQ_PIC_START;;
  outb PIC0_ICW3 (Z.shiftl 1 2);;
  outb PIC0_ICW4 PIC_ICW4_8086;;
  outb PIC1_ICW1 (Z.lor PIC_ICW1_ALWAYS_1 PIC_ICW1_ICW4);;
  outb PIC1_ICW2 (IRQ_PIC_START + 8);;
  outb PIC1_ICW3 2;;
  outb PIC1_ICW4 PIC_ICW4_8086;;
  outb PIC0_IMR (Z.land 0xff (Z.lnot (Z.shiftl 1 2)));;
  outb PIC1_IMR 0xff.

(** [idt_table[i] = g]; outside the table, undefined. *)
Definition idt_put (i : Z) (g : gate_desc_t) : K unit :=
  t ← gets k_idt;
  if (0 <=? i) && (i <? Z.of_nat (length t))
  then modify (set_k_idt (<[Z.to_nat i := g]> t)) else kfault.

(** [Some (-1)] for a number out of range; there is no other return statement,
    and no caller looks at the result. *)
Definition irq_install (irq_num handler : Z) : K (option Z) :=
  if irq_num >=? Z.of_nat IDT_TABLE_NO then mret (Some (-1))
  else idt_put irq_num (gate_desc KERNEL_SELECTOR_CS handler ATTR_INT);; mret None.

Fixpoint irq_init_loop (n : nat) (i : Z) : K unit :=
  match n with
  | O => mret tt
  | S n =>
      idt_put i (gate_desc KERNEL_SELECTOR_CS exception_handler_unknown ATTR_INT);;
      irq_init_loop n (i + 1)
  end.

(** The exception numbers [irq_init] installs a stub for, in its order:
    all of 0 .. 21 but 9 and 15, which are reserved. *)
Definition irq_exceptions : list Z :=
  [0; 1; 2; 3; 4; 5; 6; 7; 8; 10; 11; 12; 13; 14; 16; 17; 18; 19; 20; 21].

Fixpoint irq_install_all (l : list Z) : K unit :=
  match l with
  | [] => mret tt
  | i :: l => _ ← irq_install i (exception_handler i); irq_install_all l
  end.

Definition irq_init : K unit :=
  irq_init_loop IDT_TABLE_NO 0;;
  irq_install_all irq_exceptions;;
  lidt idt_table (Z.of_nat IDT_TABLE_NO * 8);;
  init_pic.

Definition irq_enable (irq_num : Z) : K unit :=
  if irq_num <? IRQ_PIC_START then mret tt
  else
    let irq_num := irq_num - IRQ_PIC_START in
    if irq_num <? 8 then
      v ← inb PIC0_IMR;
      outb PIC0_IMR (u8 (Z.land v (Z.lnot (Z.shiftl 1 irq_num))))
    else
      let irq_num := irq_num - 8 in
      v ← inb PIC1_IMR;
      outb PIC1_IMR (u8 (Z.land v (Z.lnot (Z.shiftl 1 irq_num)))).

Definition irq_disable (irq_num : Z) : K unit :=
  if irq_num <? IRQ_PIC_START then mret tt
  else
    let irq_num := irq_num - IRQ_PIC_START in
    if irq_num <? 8 then
      v ← inb PIC0_IMR;
      outb PIC0_IMR (u8 (Z.lor v (Z.shiftl 1 irq_num)))
    else
      let irq_num := irq_num - 8 in
      v ← inb PIC1_IMR;
      outb PIC1_IMR (u8 (Z.lor v (Z.shiftl 1 irq_num))).

Definition pic_send_eoi (irq_num : Z) : K unit :=
  let irq_num := irq_num - IRQ_PIC_START in
  (if irq_num >=? 8 then outb PIC1_OCW2 PIC_OCW2_EOI else mret tt);;
  outb PIC0_OCW2 PIC_OCW2_EOI.

(** * Lemmas *)
Lemma dump_core_regs_run {A} s frame (k : unit -> K A) :
  com1_ready -> log_free s -> exists s', (dump_core_regs frame ≫= k) s = k tt s' /\ log_free s'.
Proof.
  intros Hr Hf. unfold dump_core_regs.
  destruct (if has (f_cs frame) 0x7 then _ else _) as [ss esp].
  rewrite run_bind. cbn [fmap list_fmap].
  do 3 log_line.
  match goal with Hf : log_free ?s |- context [log_printf ?f ?a ?s] =>
    edestruct (log_printf_room s f a) as (s' & E & Hl); [exact Hr | exact Hf | reflexivity | unfold LOG_BUF_SIZE; simpl; lia |] end.
  rewrite E. exists s'. split; [done | by eapply logged_free].
Qed.

Lemma dump_then_halt s frame :
  com1_ready -> log_free s -> exists s', (dump_core_regs frame ;; hlt_forever) s = Halted s'.
Proof.
  intros Hr Hf. destruct (dump_core_regs_run s frame (fun _ => hlt_forever) Hr Hf) as (s' & E & _).
  exists s'. by rewrite E.
Qed.

(** A message of a default handler: it fits the log buffer behind its prefix. *)
Definition short_message (message : list Z) : Prop :=
  forallb is_byte message = true /\ (length message < 100)%nat.

Lemma do_default_handler_halts s frame message :
  com1_ready -> log_free s -> short_message message -> exists s', do_default_handler frame message s = Halted s'.
Proof.
  intros Hr Hf [Hb Hl]. unfold do_default_handler. log_line.
  match goal with Hf : log_free ?s |- context [(log_printf ?f ?a ≫= ?k) ?s] =>
    destruct (log_bind s f a (15 + (length message + 0)) k Hr Hf) as (s2 & E2 & Hf2) end;
    [cbn; by rewrite Hb | unfold LOG_BUF_SIZE; lia |].
  rewrite E2. by apply dump_then_halt.
Qed.

Lemma idt_put_run s i g :
  0 <= i < Z.of_nat (length (k_idt s)) ->
  idt_put i g s = Done tt (set_k_idt (<[Z.to_nat i := g]> (k_idt s)) s).
Proof.
  intros Hi. unfold idt_put. kred. by rewrite (proj2 (Z.leb_le 0 i)), (proj2 (Z.ltb_lt i _)) by lia.
Qed.

(** The table with the gates of [f] at the indices [l]. *)
Definition install (f : Z -> gate_desc_t) (l : list Z) (t : list gate_desc_t) : list gate_desc_t :=
  foldl (fun t i => <[Z.to_nat i := f i]> t) t l.

Lemma length_install f l t : length (install f l t) = length t.
Proof. revert t. induction l as [|i l IH]; intros t; [done|]. etransitivity; [apply (IH (<[Z.to_nat i := f i]> t)) | apply length_insert]. Qed.

Lemma lookup_install f l : forall t i,
  Forall (fun k => 0 <= k) l -> (i < length t)%nat ->
  install f l t !! i = if decide (Z.of_nat i ∈ l) then Some (f (Z.of_nat i)) else t !! i.
Proof.
  induction l as [|k l IH]; intros t i Hl Hi; cbn [install foldl].
  { rewrite decide_False; [done|]. by apply not_elem_of_nil. }
  apply Forall_cons in Hl as [Hk Hl]. fold (install f l (<[Z.to_nat k := f k]> t)). rewrite IH by (rewrite ?length_insert; done).
  destruct (decide (Z.of_nat i ∈ l)) as [Hin|Hout]; [rewrite decide_True by (by right); done|].
  destruct (decide (Z.of_nat i = k)) as [<-|Hne].
  - rewrite decide_True by (by left). by rewrite Nat2Z.id, list_lookup_insert_eq.
  - rewrite decide_False by (intros [?|?]%elem_of_cons; done). apply list_lookup_insert_ne. lia.
Qed.

Lemma irq_init_loop_run n : forall i s,
  0 <= i -> i + Z.of_nat n <= Z.of_nat (length (k_idt s)) ->
  irq_init_loop n i s =
    Done tt (set_k_idt (install (fun _ => gate_desc KERNEL_SELECTOR_CS exception_handler_unknown ATTR_INT)
                          (seqZ i (Z.of_nat n)) (k_idt s)) s).
Proof.
  induction n as [|n IH]; intros i s Hi Hn; cbn [irq_init_loop]; [by destruct s|].
  kred. rewrite idt_put_run by lia. kred. rewrite IH by (kproj; rewrite ?length_insert; lia). kproj.
  rewrite (seqZ_cons i) by lia. replace (Z.pred (Z.of_nat (S n))) with (Z.of_nat n) by lia. by destruct s.
Qed.

Lemma irq_install_all_run l : forall s,
  Forall (fun i => 0 <= i < 128) l -> length (k_idt s) = IDT_TABLE_NO ->
  irq_install_all l s =
    Done tt (set_k_idt (install (fun i => gate_desc KERNEL_SELECTOR_CS (exception_handler i) ATTR_INT) l (k_idt s)) s).
Proof.
  induction l as [|i l IH]; intros s Hl Hn; cbn [irq_install_all]; [by destruct s|].
  apply Forall_cons in Hl as [Hi Hl]. unfold irq_install. change (Z.of_nat IDT_TABLE_NO) with 128.
  replace (i >=? 128) with false by lia. kred. rewrite idt_put_run by (rewrite Hn; unfold IDT_TABLE_NO; lia). kred.
  rewrite IH by (kproj; rewrite ?length_insert; done). by destruct s.
Qed.

(** The bytes [init_pic] sends, first one first. *)
Definition pic_writes : list (Z * Z) :=
  [(0x20, 0x11); (0x21, 0x20); (0x21, 0x04); (0x21, 0x01);
   (0xa0, 0x11); (0xa1, 0x28); (0xa1, 0x02); (0xa1, 0x01);
   (0x21, 0xfb); (0xa1, 0xff)].

(** The gate [irq_init] leaves at index [i]. *)
Definition idt_gate (i : Z) : gate_desc_t :=
  gate_desc KERNEL_SELECTOR_CS
    (if decide (i ∈ irq_exceptions) then exception_handler i else exception_handler_unknown) ATTR_INT.

Lemma irq_exceptions_range : Forall (fun i => 0 <= i < 128) irq_exceptions.
Proof. by apply (bool_decide_unpack _). Qed.

Lemma init_pic_run s : init_pic s = Done tt (set_k_out (reverse pic_writes ++ k_out s) s).
Proof. unfold init_pic, outb. kred. by destruct s. Qed.

(** The mask register of the line [irq_num]: the master's for the first eight. *)
Definition mask_port (irq_num : Z) : Z := if irq_num <? 40 then PIC0_IMR else PIC1_IMR.

Definition mask_line (irq_num : Z) : Z := (irq_num - 32) `mod` 8.

(** One read and one write back of a mask register. *)
Definition remask (irq_num : Z) (f : Z -> Z) (s : kst) : kst :=
  let port := mask_port irq_num in
  set_k_out ((port, u8 (f (u8 (port_in port (k_reads s))))) :: k_out s) (set_k_reads (S (k_reads s)) s).


Ltac mask_cases n :=
  change IRQ_PIC_START with 32; replace (n <? 32) with false by lia; unfold remask, mask_port, mask_line;
  destruct (Z.ltb_spec n 40);
  [ replace (n - 32 <? 8) with true by lia; rewrite (Z.mod_small (n - 32)) by lia
  | replace (n - 32 <? 8) with false by lia; replace ((n - 32) `mod` 8) with (n - 32 - 8) by zdiv ];
  unfold inb, outb; kred; by rewrite u8_u8.

Lemma irq_enable_run s n :
  32 <= n < 48 ->
  irq_enable n s = Done tt (remask n (fun v => Z.land v (Z.lnot (Z.shiftl 1 (mask_line n)))) s).
Proof. intros Hn. unfold irq_enable. mask_cases n. Qed.

Lemma irq_disable_run s n :
  32 <= n < 48 -> irq_disable n s = Done tt (remask n (fun v => Z.lor v (Z.shiftl 1 (mask_line n))) s).
Proof. intros Hn. unfold irq_disable. mask_cases n. Qed.

Lemma testbit_u8 z b : 0 <= b < 8 -> Z.testbit (u8 z) b = Z.testbit z b.
Proof. intros Hb. unfold u8. change 256 with (2 ^ 8). by rewrite Z.mod_pow2_bits_low by lia. Qed.

Lemma testbit_line l b : 0 <= l -> 0 <= b -> Z.testbit (Z.shiftl 1 l) b = (b =? l).
Proof. intros Hl Hb. rewrite Z.shiftl_1_l. rewrite Z.pow2_bits_eqb by done. lia. Qed.

Lemma irq_init_run s :
  length (k_idt s) = IDT_TABLE_NO ->
  exists idt, irq_init s =
    Done tt (set_k_out (reverse pic_writes ++ k_out s) (set_k_idtr (idt_table, 1023) (set_k_idt idt s))) /\
    length idt = IDT_TABLE_NO /\
    forall i, (i < IDT_TABLE_NO)%nat -> idt !! i = Some (idt_gate (Z.of_nat i)).
Proof.
  intros Hn. unfold irq_init. kred. rewrite irq_init_loop_run by (rewrite ?Hn; unfold IDT_TABLE_NO; lia). kred.
  rewrite irq_install_all_run by (apply irq_exceptions_range || (kproj; by rewrite length_install)). kred.
  unfold lidt. kred. rewrite init_pic_run. kproj.
  eexists. split; [by destruct s|]. rewrite !length_install. split; [done|]. intros i Hi.
  assert (Forall (fun k => 0 <= k) irq_exceptions) as Hex
    by (eapply Forall_impl; [apply irq_exceptions_range | by intros ? []]).
  rewrite lookup_install by (rewrite ?length_install, ?Hn; done). unfold idt_gate.
  destruct (decide _); [done|].
  rewrite lookup_install, decide_True; [done | apply elem_of_seqZ; lia | | by rewrite Hn].
  apply Forall_seqZ. lia.
Qed.

Lemma exception_handlers_run s frame :
  com1_ready -> log_free s ->
  Forall (fun handler : exception_frame_t -> K unit => exists s', handler frame s = Halted s')
    [do_handler_unknown; do_handler_divide_error; do_handler_debug_exception; do_handler_nmi_interrupt;
     do_handler_breakpoint; do_handler_overflow; do_handler_bound_range_exceed; do_handler_invalid_opcode;
     do_handler_device_not_found; do_handler_double_fault; do_handler_invalid_tss; do_handler_segment_not_present;
     do_handler_stack_segment_fault; do_handler_general_protection; do_handler_page_fault;
     do_handler_floating_point_error; do_handler_aligment_check; do_handler_machine_check;
     do_handler_simd_floating_point_exception; do_handler_virtualization_exception;
     do_handler_control_protection_exception].
Proof.
  intros Hr Hf.
  repeat (apply List.Forall_cons; [try (apply do_default_handler_halts; [done | done | split; [done | simpl; lia]]) |]);
    [.. | by apply List.Forall_nil].
  - unfold do_handler_general_protection. log_line. log_line.
    destruct (has (f_error_code frame) ERR_EXT), (has (f_error_code frame) ERR_IDT);
      (do 3 log_line; by apply dump_then_halt).
  - unfold do_handler_page_fault. log_line. log_line.
    unfold read_cr2.
    destruct (has (f_error_code frame) ERR_PAGE_P); rewrite run_bind, (run_bind (gets _)), run_gets;
      cbn [obind]; rewrite <- run_bind;
      destruct (has (f_error_code frame) ERR_PAGE_WR), (has (f_error_code frame) ERR_PAGE_US);
      (do 3 log_line; by apply dump_then_halt).
Qed.

(** * Properties *)

(** [irq_init] fills the whole table. Entry [i] becomes an interrupt gate to the
    stub of exception [i] for the twenty exceptions the kernel names and to the stub
    for unknown ones everywhere else, IDTR covers the table, and the two controllers
    are programmed in the order their data sheet asks for, with every line but the
    cascade masked. *)
Theorem irq_init_table s :
  length (k_idt s) = IDT_TABLE_NO ->
  exists idt, irq_init s =
    Done tt (set_k_out (reverse pic_writes ++ k_out s) (set_k_idtr (idt_table, 1023) (set_k_idt idt s))) /\
    length idt = IDT_TABLE_NO /\
    forall i, (i < IDT_TABLE_NO)%nat -> idt !! i = Some (idt_gate (Z.of_nat i)).
Proof. apply irq_init_run. Qed.

(** [irq_enable] and [irq_disable] touch one line: they read the mask register of
    the controller the line hangs on and write it back with the bit of that line
    cleared or set and the seven others as they were. Numbers below the first line
    are ignored. *)
Theorem irq_mask_one_line s n :
  (n < 32 -> irq_enable n s = Done tt s /\ irq_disable n s = Done tt s) /\
  (32 <= n < 48 -> exists on off,
     let v := port_in (mask_port n) (k_reads s) in
     let after w := set_k_out ((mask_port n, w) :: k_out s) (set_k_reads (S (k_reads s)) s) in
     irq_enable n s = Done tt (after on) /\ irq_disable n s = Done tt (after off) /\
     0 <= on < 256 /\ 0 <= off < 256 /\
     forall b, 0 <= b < 8 ->
       Z.testbit on b = Z.testbit v b && negb (b =? mask_line n) /\
       Z.testbit off b = Z.testbit v b || (b =? mask_line n)).
Proof.
  split.
  { intros Hn. unfold irq_enable, irq_disable. change IRQ_PIC_START with 32. by replace (n <? 32) with true by lia. }
  intros Hn. assert (0 <= mask_line n < 8) as Hl by (apply Z.mod_pos_bound; lia).
  eexists _, _. cbn zeta. rewrite irq_enable_run, irq_disable_run by done. unfold remask.
  split_and!; [reflexivity | reflexivity | apply Z.mod_pos_bound; lia | apply Z.mod_pos_bound; lia
    | apply Z.mod_pos_bound; lia | apply Z.mod_pos_bound; lia |].
  intros b Hb. rewrite !testbit_u8 by done. rewrite Z.land_spec, Z.lor_spec, Z.lnot_spec by lia.
  by rewrite testbit_line, testbit_u8 by lia.
Qed.

End Irq.
