(* ===== verification/Timer.v ===== *)
(** The tick of kernel/dev/timer.c. *)
From S2P Require Import Prelude DList Machine MachineFacts Klib Sched Ipc Cpu Irq.

(** timer.h *)
Definition PIT_OSC_FREQ : Z := 1193182.
Definition PIT_COMMAND_MODE_PORT : Z := 0x43.
Definition PIT_CHANNEL0_DATA_PORT : Z := 0x40.
Definition PIT_CHANNEL : Z := Z.shiftl 0 6.
Definition PIT_LOAD_LOHI : Z := Z.shiftl 3 4.
Definition PIT_MODE3 : Z := Z.shiftl 3 1.

Section Timer.
Context `{Layout} `{Device}.

Definition do_handler_timer : K unit :=
  modify (fun s => set_k_sys_tick (u32 (k_sys_tick s + 1)) s);;
  pic_send_eoi IRQ0_TIMER;;
  task_time_tick.

Definition init_pit : K unit :=
  let reload_count := PIT_OSC_FREQ * OS_TICKS_MS / 1000 in
  outb PIT_COMMAND_MODE_PORT (Z.lor (Z.lor PIT_CHANNEL PIT_LOAD_LOHI) PIT_MODE3);;
  outb PIT_CHANNEL0_DATA_PORT (Z.land reload_count 0xff);;
  outb PIT_CHANNEL0_DATA_PORT (Z.land (Z.shiftr reload_count 8) 0xff);;
  _ ← irq_install IRQ0_TIMER exception_handler_timer;
  irq_enable IRQ0_TIMER.

Definition timer_init : K unit :=
  modify (set_k_sys_tick 0);;
  init_pit.

(** * Lemmas *)

(** The state the scheduler's tick starts from. *)
Definition acknowledged (s : kst) : kst :=
  set_k_out ((PIC0_OCW2, PIC_OCW2_EOI) :: k_out s) (set_k_sys_tick (u32 (k_sys_tick s + 1)) s).

Lemma do_handler_timer_run s : do_handler_timer s = task_time_tick (acknowledged s).
Proof. reflexivity. Qed.

Lemma acknowledged_inv s v : sched_inv s v -> sched_inv (acknowledged s) v.
Proof. intros []. by split. Qed.

(** [timer_init] touches the timer, the gate of its line and its mask bit. *)
Definition timer_gate : gate_desc_t := gate_desc KERNEL_SELECTOR_CS exception_handler_timer ATTR_INT.

Definition unmask_timer (v : Z) : Z := Z.land v (Z.lnot (Z.shiftl 1 (mask_line IRQ0_TIMER))).

Definition timer_ready (s : kst) : kst :=
  remask IRQ0_TIMER unmask_timer
    (set_k_idt (<[32%nat := timer_gate]> (k_idt s))
      (set_k_out ((0x40, 0x2e) :: (0x40, 0x9b) :: (0x43, 0x36) :: k_out s) (set_k_sys_tick 0 s))).

Lemma timer_init_run s : length (k_idt s) = IDT_TABLE_NO -> timer_init s = Done tt (timer_ready s).
Proof.
  intros Hl. unfold timer_init, init_pit. kred. unfold outb at 1 2 3. kred.
  unfold irq_install. change (IRQ0_TIMER >=? Z.of_nat IDT_TABLE_NO) with false. cbn iota.
  kred. rewrite idt_put_run by (kproj; rewrite Hl; done). kred.
  by rewrite irq_enable_run by done.
Qed.

(** * Properties *)

(** C28: a timer interrupt is acknowledged before anything else: whether the handler
    returns or leaves the CPU to another task in its middle, by then the controller has
    got its one end-of-interrupt and the tick counter has advanced modulo 2^32.  At the end
    of the slice of a task that is not alone the CPU goes to the next one, which starts
    from a state that differs from that only in the queues and the scheduling fields of
    tasks, and the handler is left suspended before the walk of the sleep queue; at any other tick the handler does what the abstract scheduler says of a
    tick. *)
Theorem timer_tick_acknowledged s v :
  sched_inv s v -> dispatched v ->
  (exists s', leaves (do_handler_timer s) = Some s' /\
     k_out s' = (PIC0_OCW2, PIC_OCW2_EOI) :: k_out s /\ k_sys_tick s' = u32 (k_sys_tick s + 1)) /\
  if tick_preempts s v then
    exists s1 to k, sched_step (acknowledged s) s1 /\ sched_inv s1 (a_dispatch (a_slice_end v)) /\
      k_tasks s1 !! a_next (a_slice_end v) = Some to /\ t_state to = TASK_RUNNING /\
      do_handler_timer s = Susp (enter_task to s1) k /\ forall s2, k s2 = tick_rest (set_k_if (k_if s) s2)
  else resched (acknowledged s) tt v (a_dispatch (a_tick_sleepers v)) (do_handler_timer s).
Proof.
  intros Hi Hv. pose proof (acknowledged_inv s v Hi) as Ha. rewrite do_handler_timer_run.
  change (tick_preempts s v) with (tick_preempts (acknowledged s) v).
  destruct (tick_preempts (acknowledged s) v) eqn:Hp.
  - pose proof (task_time_tick_preempts (acknowledged s) v Ha Hv Hp) as Hr. split; [|exact Hr].
    destruct Hr as (s1 & to & k & (tm & h & ts & -> & _) & _ & _ & _ & -> & _). by eexists.
  - pose proof (task_time_tick_stays (acknowledged s) v Ha Hv Hp) as Hr. split; [|exact Hr].
    destruct Hr as (s1 & (tm & h & ts & -> & _) & _ & [[_ ->]|(_ & to & _ & _ & ->)]); by eexists.
Qed.

(** [timer_init] sets the timer for one interrupt every 11931 periods of its
    1193182 Hz clock, the [OS_TICKS_MS] of the scheduler up to one part in ten thousand,
    low byte first; it installs the stub at the vector of the first line, leaves the other
    entries alone, and unmasks that line only. *)
Theorem timer_init_period s :
  length (k_idt s) = IDT_TABLE_NO ->
  exists s' lo hi mask, timer_init s = Done tt s' /\ k_sys_tick s' = 0 /\
    k_out s' = [(0x21, mask); (0x40, hi); (0x40, lo); (0x43, 0x36)] ++ k_out s /\
    lo + 256 * hi = 11931 /\ Z.abs (1193182 * OS_TICKS_MS - 1000 * (lo + 256 * hi)) * 10000 <= 1193182 * OS_TICKS_MS /\
    k_idt s' = <[32%nat := gate_desc KERNEL_SELECTOR_CS exception_handler_timer ATTR_INT]> (k_idt s) /\
    forall b, 0 <= b < 8 -> Z.testbit mask b = Z.testbit (port_in 0x21 (k_reads s)) b && negb (b =? 0).
Proof.
  intros Hl. rewrite timer_init_run by done. eexists _, 0x9b, 0x2e, _. split; [reflexivity|].
  unfold timer_ready, remask, unmask_timer. kproj. split_and!; try done. intros b Hb.
  change (mask_port IRQ0_TIMER) with 0x21. change (mask_line IRQ0_TIMER) with 0.
  rewrite !testbit_u8 by done. by rewrite Z.land_spec, Z.lnot_spec, testbit_line, testbit_u8 by lia.
Qed.

End Timer.
