(* ===== verification/Fs.v ===== *)
(** The one-file "file system" of kernel/fs/fs.c, and the sector reader it
    shares with loader/loader_32.c. *)
From S2P Require Import Prelude DList Machine MachineFacts Klib Sched.

(** boot_info.h *)
Definition SECTOR_SIZE : Z := 512.

Section ReadDisk.
Context `{Device}.

(** How the reader's address space stores a byte. *)
Variable put8 : Z -> Z -> K unit.

(** [*data_buf++ = inw(0x1f0)], [n] times. *)
Fixpoint read_words (n : nat) (data_buf : Z) : K unit :=
  match n with
  | O => mret tt
  | S n =>
      v ← inw 0x1f0;
      put8 data_buf v;;
      put8 (data_buf + 1) (v / 2 ^ 8);;
      read_words n (data_buf + 2)
  end.

Fixpoint read_sectors (n : nat) (data_buf : Z) : K unit :=
  match n with
  | O => mret tt
  | S n =>
      poll port_patience 0x1f7 0x88 0x08;;
      read_words (Z.to_nat (SECTOR_SIZE / 2)) data_buf;;
      read_sectors n (data_buf + SECTOR_SIZE)
  end.

Definition read_disk (sector sector_count buf : Z) : K unit :=
  outb 0x1f6 0xE0;;
  outb 0x1f2 (u8 (Z.shiftr sector_count 8));;
  outb 0x1f3 (u8 (Z.shiftr sector 24));;
  outb 0x1f4 0;;
  outb 0x1f5 0;;
  outb 0x1f2 (u8 sector_count);;
  outb 0x1f3 (u8 sector);;
  outb 0x1f4 (u8 (Z.shiftr sector 8));;
  outb 0x1f5 (u8 (Z.shiftr sector 16));;
  outb 0x1f7 0x24;;
  read_sectors (Z.to_nat (u32 sector_count)) buf.

End ReadDisk.

(** * Reading sectors *)
Section DiskFacts.
Context `{Device}.

(** The disk has data whenever it is asked. *)
Definition disk_ready : Prop :=
  (0 < port_patience)%nat /\ forall n, Z.land (u8 (port_in 0x1f7 n)) 0x88 = 0x08.

(** [put8] stores a byte of the block in memory. *)
Definition puts_block (put8 : Z -> Z -> K unit) (lo n : Z) : Prop :=
  forall a v s, lo <= a < lo + n -> put8 a v s = Done tt (set_k_mem (mset (k_mem s) a v) s).

(** The [j]-th word after the [k]-th read of a port. *)
Definition disk_word (k : nat) (j : Z) : Z := u16 (port_in 0x1f0 (k + Z.to_nat j)).

(** Byte [x] of a transfer that starts after [k] reads: the low byte of a word comes
    first, and one read of the status precedes the 256 words of every sector. *)
Definition disk_byte (k : nat) (x : Z) : Z :=
  u8 (disk_word k (x / 512 * 257 + 1 + x mod 512 / 2) / 2 ^ (8 * (x mod 2))).

Lemma read_words_run put8 n : forall buf s,
  puts_block put8 buf (2 * Z.of_nat n) ->
  exists m, read_words put8 n buf s = Done tt (set_k_reads (k_reads s + n) (set_k_mem m s)) /\
    same_outside buf (2 * Z.of_nat n) (k_mem s) m /\
    forall x, 0 <= x < 2 * Z.of_nat n ->
      mget m (buf + x) = u8 (disk_word (k_reads s) (x / 2) / 2 ^ (8 * (x mod 2))).
Proof.
  induction n as [|n IH]; intros buf s Hp; cbn [read_words].
  { exists (k_mem s). rewrite Nat.add_0_r. split_and!; [by destruct s | done | lia]. }
  unfold inw. kred. rewrite Hp by lia. kred. rewrite Hp by lia. kred.
  set (w := u16 (port_in 0x1f0 (k_reads s))).
  destruct (IH (buf + 2) (set_k_mem (mset (mset (k_mem s) buf w) (buf + 1) (w / 2 ^ 8)) (set_k_reads (S (k_reads s)) s)))
    as (m & E & Ho & Hb). { intros a v s' Ha. apply Hp. lia. }
  exists m. split_and!.
  - match type of E with _ ?a = _ => match goal with |- _ ?b = _ => change b with a end end.
    rewrite E. kproj. rewrite Nat.add_succ_r. by destruct s.
  - intros a Ha. rewrite Ho by lia. kproj. by rewrite !mget_mset_ne by lia.
  - intros x Hx. destruct (decide (x < 2)).
    + rewrite Ho by lia. kproj. unfold disk_word. replace (x / 2) with 0 by zdiv. rewrite Nat.add_0_r. fold w.
      destruct (decide (x = 0)) as [->|]; [rewrite Z.add_0_r, mget_mset_ne, mget_mset_eq by lia | replace x with 1 by lia; rewrite mget_mset_eq].
      * by rewrite Z.div_1_r.
      * done.
    + replace (buf + x) with (buf + 2 + (x - 2)) by lia. rewrite Hb by lia. kproj. unfold disk_word.
      replace (x mod 2) with ((x - 2) mod 2) by zdiv.
      replace (k_reads s + Z.to_nat (x / 2))%nat with (S (k_reads s) + Z.to_nat ((x - 2) / 2))%nat by zdiv. done.
Qed.

Lemma disk_poll s : disk_ready -> poll port_patience 0x1f7 0x88 0x08 s = Done tt (set_k_reads (S (k_reads s)) s).
Proof.
  intros [Hp Hr]. destruct port_patience as [|n]; [lia|]. cbn [poll]. unfold inb. kred. by rewrite Hr.
Qed.

Lemma read_sectors_run put8 n : forall buf s,
  disk_ready -> puts_block put8 buf (512 * Z.of_nat n) ->
  exists m, read_sectors put8 n buf s = Done tt (set_k_reads (k_reads s + 257 * n) (set_k_mem m s)) /\
    same_outside buf (512 * Z.of_nat n) (k_mem s) m /\
    forall x, 0 <= x < 512 * Z.of_nat n -> mget m (buf + x) = disk_byte (k_reads s) x.
Proof.
  induction n as [|n IH]; intros buf s Hr Hp; cbn [read_sectors].
  { exists (k_mem s). rewrite Nat.add_0_r. split_and!; [by destruct s | done | lia]. }
  rewrite run_bind, disk_poll by done. cbn [obind]. rewrite run_bind.
  change (Z.to_nat (SECTOR_SIZE / 2)) with 256%nat. change SECTOR_SIZE with 512.
  destruct (read_words_run put8 256 buf (set_k_reads (S (k_reads s)) s)) as (m1 & E1 & Ho1 & Hb1).
  { intros a v s' Ha. apply Hp. lia. }
  rewrite E1. cbn [obind]. kproj.
  destruct (IH (buf + 512) (set_k_reads (S (k_reads s) + 256) (set_k_mem m1 (set_k_reads (S (k_reads s)) s))) Hr)
    as (m & E & Ho & Hb). { intros a v s' Ha. apply Hp. lia. }
  exists m. rewrite E. kproj. split_and!.
  - replace (S (k_reads s) + 256 + 257 * n)%nat with (k_reads s + 257 * S n)%nat by lia. by destruct s.
  - intros a Ha. rewrite Ho by lia. kproj. apply Ho1. lia.
  - intros x Hx. unfold disk_byte, disk_word in *. destruct (decide (x < 512)).
    + rewrite Ho by lia. kproj. rewrite Hb1 by lia. kproj. unfold disk_word.
      replace (S (k_reads s) + Z.to_nat (x / 2))%nat with (k_reads s + Z.to_nat (x / 512 * 257 + 1 + x mod 512 / 2))%nat by zdiv.
      done.
    + replace (buf + x) with (buf + 512 + (x - 512)) by lia. rewrite Hb by lia. kproj.
      replace ((x - 512) mod 2) with (x mod 2) by zdiv.
      replace (S (k_reads s) + 256 + Z.to_nat ((x - 512) / 512 * 257 + 1 + (x - 512) mod 512 / 2))%nat
        with (k_reads s + Z.to_nat (x / 512 * 257 + 1 + x mod 512 / 2))%nat by zdiv.
      done.
Qed.

(** The 48-bit block address, high bytes first, and the command to read. *)
Definition lba48 (sector count : Z) : list (Z * Z) :=
  [(0x1f6, 0xe0); (0x1f2, u8 (count / 2 ^ 8)); (0x1f3, u8 (sector / 2 ^ 24)); (0x1f4, 0); (0x1f5, 0);
   (0x1f2, u8 count); (0x1f3, u8 sector); (0x1f4, u8 (sector / 2 ^ 8)); (0x1f5, u8 (sector / 2 ^ 16)); (0x1f7, 0x24)].

Lemma read_disk_run put8 sector count buf s :
  disk_ready -> 0 <= count < 2 ^ 32 -> puts_block put8 buf (512 * count) ->
  exists m, read_disk put8 sector count buf s =
      Done tt (set_k_reads (k_reads s + 257 * Z.to_nat count)
        (set_k_out (reverse (lba48 sector count) ++ k_out s) (set_k_mem m s))) /\
    same_outside buf (512 * count) (k_mem s) m /\
    forall x, 0 <= x < 512 * count -> mget m (buf + x) = disk_byte (k_reads s) x.
Proof.
  intros Hr Hc Hp. unfold read_disk, outb. kred. rewrite u32_small by done.
  match goal with |- context [read_sectors _ _ _ ?s1] =>
    destruct (read_sectors_run put8 (Z.to_nat count) buf s1 Hr) as (m & E & Ho & Hb) end; rewrite ?Z2Nat.id in * by lia; [done|].
  exists m. split_and!; [|done..]. rewrite E. unfold lba48. rewrite !u8_u8, !Z.shiftr_div_pow2 by done. by destruct s.
Qed.

End DiskFacts.

Section Fs.
Context `{Layout} `{Device}.

Definition TEMP_FD : Z := 100.

(** Sectors 5000 .. 5079 of the disk become the file. *)
Definition sys_open (name flags : Z) : K Z :=
  c ← lift (load8 name);
  if c =? 0x2f then
    read_disk (fun a v => lift (store8 a v)) 5000 80 TEMP_ADDR;;
    modify (set_k_temp_pos TEMP_ADDR);;
    mret TEMP_FD
  else mret (-1).

Definition sys_read (fd ptr len : Z) : K Z :=
  if fd =? TEMP_FD then
    temp_pos ← gets k_temp_pos;
    lift (kmemcpy ptr temp_pos len);;
    modify (set_k_temp_pos (u32 (temp_pos + len)));;
    mret len
  else mret (-1).

Definition sys_write (fd ptr len : Z) : K Z := mret (-1).

Definition sys_lseek (fd offset dir : Z) : K Z :=
  if fd =? TEMP_FD then
    modify (set_k_temp_pos (u32 (TEMP_ADDR + offset)));;
    mret 0
  else mret (-1).

Definition sys_close (fd : Z) : K Z := mret 0.

(** The image of the file in the kernel. *)
Definition file_block : Prop := 0 < TEMP_ADDR /\ TEMP_ADDR + 40960 < 2 ^ 32 /\ kblock TEMP_ADDR 40960.

Lemma sys_open_run s name flags :
  disk_ready -> file_block -> load8 name (k_cr3 s) (k_mem s) = Some (0x2f, k_mem s) ->
  exists m rd, sys_open name flags s =
      Done TEMP_FD (set_k_temp_pos TEMP_ADDR (set_k_reads rd (set_k_out (reverse (lba48 5000 80) ++ k_out s) (set_k_mem m s)))) /\
    same_outside TEMP_ADDR 40960 (k_mem s) m /\
    forall x, 0 <= x < 40960 -> mget m (TEMP_ADDR + x) = disk_byte (k_reads s) x.
Proof.
  intros Hr (Hpos & Hend & Hblk) Hn. unfold sys_open. kred.
  rewrite (lift_done _ _ _ _ Hn), set_k_mem_id. kred. change (0x2f =? 0x2f) with true. kred.
  destruct (read_disk_run (fun a v => lift (store8 a v)) 5000 80 TEMP_ADDR s Hr) as (m & E & Ho & Hb); [lia | |].
  { intros a v s' Ha. erewrite lift_done by (apply store8_kernel; replace a with (TEMP_ADDR + (a - TEMP_ADDR)) by lia; apply Hblk; lia).
    done. }
  rewrite E. kred. eexists m, _. by split_and!.
Qed.

(** * Properties *)

(** opening a path, moving to [off] and reading [len] bytes gives the bytes
    [off .. off + len) of the disk's sectors from 5000 on, in the order the disk sent
    them, and leaves the file position behind them, for a range within the eighty sectors
    and a buffer apart from the file; the disk has been sent the 48-bit address. *)
Lemma file_read_at s name flags off dir ptr len m0 :
  disk_ready -> file_block -> load8 name (k_cr3 s) (k_mem s) = Some (0x2f, m0) -> m0 = k_mem s ->
  0 <= off -> 0 <= len -> off + len <= 40960 -> ptr <> 0 -> kblock ptr len ->
  ptr + len <= TEMP_ADDR \/ TEMP_ADDR + 40960 <= ptr ->
  exists s', (fd ← sys_open name flags; _ ← sys_lseek fd off dir; sys_read fd ptr len) s = Done len s' /\
    (forall i, 0 <= i < len -> mget (k_mem s') (ptr + i) = disk_byte (k_reads s) (off + i)) /\
    k_temp_pos s' = TEMP_ADDR + off + len /\ k_out s' = reverse (lba48 5000 80) ++ k_out s.
Proof.
  intros Hr Hfb Hn -> Hoff Hlen Hmax Hptr Hkp Hdis. pose proof Hfb as (Hpos & Hend & Hblk).
  destruct (sys_open_run s name flags Hr Hfb Hn) as (m & rd & E & Ho & Hb). rewrite run_bind, E. cbn [obind].
  unfold sys_lseek. change (TEMP_FD =? TEMP_FD) with true. kred. unfold sys_read.
  change (TEMP_FD =? TEMP_FD) with true. kred. rewrite (u32_small (TEMP_ADDR + off)) by lia.
  assert (kblock (TEMP_ADDR + off) len) as Hks by (intros i Hi; rewrite <- Z.add_assoc; apply Hblk; lia).
  destruct (kmemcpy_spec ptr (TEMP_ADDR + off) len (k_cr3 s) m (fun i => TEMP_ADDR + off + i)) as (m' & E' & Ho' & Hb');
    [done | lia | lia | done | by apply readable_kernel | intros; lia |].
  erewrite lift_done by exact E'. kred. rewrite u32_small by lia. eexists. split_and!; [done | | done | done].
  kproj. intros i Hi. rewrite Hb' by done. rewrite <- Z.add_assoc. apply Hb. lia.
Qed.

End Fs.
