(* ===== verification/Task.v ===== *)
(** The life of a task, kernel/core/task.c: TSS set-up, creation and
    destruction, the task table, fork. *)
From S2P Require Import Prelude DList Machine MachineFacts Klib Format Sched Ipc Log Cpu Alloc Paging.

(** task.h *)
Definition TASK_NAME_SIZE : Z := 32.
Definition TASK_TIME_SLICE_DEFAULT : Z := 10.
Definition IDLE_TASK_SIZE : Z := 1024.
Definition TASK_FLAGS_USER : Z := 0.
Definition TASK_FLAGS_SYSTEM : Z := Z.shiftl 1 0.
Definition SIZEOF_TSS : Z := 104.

(** os_cfg.h *)
Definition TASK_NR : nat := 128.

(** A TSS and a task of zero bytes. *)
Definition zero_tss : tss_t := Tss 0 0 0 0 0 0 0 0 0 0 0 0 0 0 0 0 0 0 0 0 0 0 0 0 0 0.

Definition zero_task : task_t :=
  Task TASK_CREATED (replicate (Z.to_nat TASK_NAME_SIZE) 0) 0 0 0 0 0 zero_tss 0.

(** [kstrncpy(task->name, name, TASK_NAME_SIZE)]: behind the array comes [pid],
    whose low byte gets the terminator of a name of 32 characters or more. *)
Definition word_bytes (v : Z) : list Z := [u8 v; u8 (v / 2 ^ 8); u8 (v / 2 ^ 16); u8 (v / 2 ^ 24)].

Definition word_of_bytes (bs : list Z) : Z := foldr (fun b v => b + 2 ^ 8 * v) 0 bs.

Definition task_set_name (name : list Z) (t : task_t) : option task_t :=
  d ← strncpy_array (t_name t ++ word_bytes (t_pid t)) name TASK_NAME_SIZE;
  Some (set_t_pid (i32 (word_of_bytes (drop (length (t_name t)) d)))
          (set_t_name (take (length (t_name t)) d) t)).

(** The C string an array starts with; that of [task->name] ends in [pid] when
    the name fills the array. *)
Fixpoint until0 (bs : list Z) : list Z :=
  match bs with
  | [] => []
  | b :: bs => if b =? 0 then [] else b :: until0 bs
  end.

(** The registers [tss_init] sets, on a zeroed TSS. *)
Definition tss_start (entry esp esp0 code_sel data_sel cr3 : Z) : tss_t :=
  {| tss_pre_link := 0; tss_esp0 := esp0; tss_ss0 := KERNEL_SELECTOR_DS;
     tss_esp1 := 0; tss_ss1 := 0; tss_esp2 := 0; tss_ss2 := 0; tss_cr3 := cr3;
     tss_eip := entry; tss_eflags := Z.lor EFLAGS_IF EFLAGS_DEFAULT;
     tss_eax := 0; tss_ecx := 0; tss_edx := 0; tss_ebx := 0; tss_esp := esp;
     tss_ebp := 0; tss_esi := 0; tss_edi := 0; tss_es := data_sel; tss_cs := code_sel;
     tss_ss := data_sel; tss_ds := data_sel; tss_fs := data_sel; tss_gs := data_sel;
     tss_ldt := 0; tss_iomap := 0 |}.

(** The registers [sys_fork] takes from the parent's system call frame. *)
Definition tss_forked (x : tss_t) (eax ebx ecx edx esi edi ebp cs ds es fs gs eflags : Z) : tss_t :=
  {| tss_pre_link := tss_pre_link x; tss_esp0 := tss_esp0 x; tss_ss0 := tss_ss0 x;
     tss_esp1 := tss_esp1 x; tss_ss1 := tss_ss1 x; tss_esp2 := tss_esp2 x; tss_ss2 := tss_ss2 x;
     tss_cr3 := tss_cr3 x; tss_eip := tss_eip x; tss_eflags := eflags;
     tss_eax := eax; tss_ecx := ecx; tss_edx := edx; tss_ebx := ebx; tss_esp := tss_esp x;
     tss_ebp := ebp; tss_esi := esi; tss_edi := edi; tss_es := es; tss_cs := cs;
     tss_ss := tss_ss x; tss_ds := ds; tss_fs := fs; tss_gs := gs;
     tss_ldt := tss_ldt x; tss_iomap := tss_iomap x |}.

Section Task.
Context `{Layout} `{Device}.

Definition task_c : list Z := cs "core/task.c".

(** ** tss_init

    Its failure exit gives back the descriptor and the kernel stack, if it got one. *)
Definition tss_init_failed (tss_sel kernel_stack : Z) : K Z :=
  gdt_free_sel tss_sel;;
  (if negb (kernel_stack =? 0) then memory_free_page kernel_stack else mret tt);;
  mret (-1).

Definition tss_init (task flag entry esp : Z) : K Z :=
  tss_sel ← gdt_alloc_desc;
  if tss_sel <? 0 then
    log_printf (cs "alloc tss failed" ++ nl) [];;
    mret (-1)
  else
    segment_desc_set tss_sel (u32 (task + TSS_OFF)) SIZEOF_TSS ATTR_TSS;;
    upd_task task (set_t_tss zero_tss);;
    kernel_stack ← memory_alloc_page;
    if kernel_stack =? 0 then tss_init_failed tss_sel kernel_stack
    else
      tm ← gets k_tm;
      let '(code_sel, data_sel) :=
        if negb (Z.land flag TASK_FLAGS_SYSTEM =? 0)
        then (KERNEL_SELECTOR_CS, KERNEL_SELECTOR_DS)
        else (Z.lor (app_code_sel tm) SEG_RPL3, Z.lor (app_data_sel tm) SEG_RPL3) in
      upd_task task (set_t_tss (tss_start entry esp (u32 (kernel_stack + MEM_PAGE_SIZE)) code_sel data_sel 0));;
      uvm_pgtbl ← memory_create_uvm;
      if uvm_pgtbl =? 0 then tss_init_failed tss_sel kernel_stack
      else
        upd_task task (fun t => set_t_tss (set_tss_cr3 uvm_pgtbl (t_tss t)) t);;
        upd_task task (set_t_tss_sel tss_sel);;
        mret 0.

(** ** task_init: the result of [tss_init] is dropped. *)
Definition task_init_nodes (task : Z) : K unit :=
  modify (fun s => set_k_nodes (list_node_init (k_nodes s) (all_node task)) s);;
  modify (fun s => set_k_nodes (list_node_init (k_nodes s) (run_node task)) s);;
  modify (fun s => set_k_nodes (list_node_init (k_nodes s) (wait_node task)) s).

(** What follows the call of [tss_init]. *)
Definition task_init_fields (task : Z) (name : list Z) : K Z :=
  t ← get_task task;
  named ← kopt (task_set_name name t);
  upd_task task (fun _ => named);;
  upd_task task (set_t_state TASK_CREATED);;
  upd_task task (set_t_sleep_ticks 0);;
  upd_task task (set_t_time_ticks TASK_TIME_SLICE_DEFAULT);;
  upd_task task (fun t => set_t_slice_ticks (t_time_ticks t) t);;
  upd_task task (set_t_parent 0);;
  task_init_nodes task;;
  state ← irq_enter_protection;
  upd_task task (set_t_pid (i32 task));;
  tm ← gets k_tm;
  l ← on_list (fun h l => list_insert_back h l (all_node task)) (task_list tm);
  modify_tm (set_task_list l);;
  irq_leave_protection state;;
  mret 0.

Definition task_init (task : Z) (name : list Z) (flag entry esp : Z) : K Z :=
  ASSERT (negb (task =? 0)) task_c 89 (cs "task_init") (cs "task != (task_t*)0");;
  _ ← tss_init task flag entry esp;
  task_init_fields task name.

(** [kmemset(task, 0, sizeof(task_t))], list nodes included. *)
Definition zero_task_struct (task : Z) : K unit :=
  upd_task task (fun _ => zero_task);;
  task_init_nodes task.

Definition task_uninit (task : Z) : K unit :=
  t ← get_task task;
  (if negb (t_tss_sel t =? 0) then gdt_free_sel (t_tss_sel t) else mret tt);;
  t ← get_task task;
  (if negb (tss_esp0 (t_tss t) =? 0)
   then memory_free_page (u32 (tss_esp0 (t_tss t) - MEM_PAGE_SIZE)) else mret tt);;
  t ← get_task task;
  (if negb (tss_cr3 (t_tss t) =? 0) then memory_destroy_uvm (tss_cr3 (t_tss t)) else mret tt);;
  zero_task_struct task.

(** [while (1) { hlt(); }] *)
Definition idle_task_entry_code : K unit := hlt_forever.

(** ** The task table *)
Definition task_table_at (i : Z) : Z := task_table + SIZEOF_TASK * i.

(** [kmemset(task_table, 0, sizeof(task_table))] *)
Fixpoint zero_task_table (n : nat) (i : Z) : K unit :=
  match n with
  | O => mret tt
  | S n => zero_task_struct (task_table_at i);; zero_task_table n (i + 1)
  end.

Definition task_manager_init : K unit :=
  zero_task_table TASK_NR 0;;
  mutex_init task_table_mutex (cs "task_table");;
  sel ← gdt_alloc_desc;
  segment_desc_set sel 0 0xFFFFFFFF ATTR_USER_DATA;;
  modify_tm (set_app_data_sel sel);;
  sel ← gdt_alloc_desc;
  segment_desc_set sel 0 0xFFFFFFFF ATTR_USER_CODE;;
  modify_tm (set_app_code_sel sel);;
  modify_tm (set_ready_list list_init);;
  modify_tm (set_task_list list_init);;
  modify_tm (set_sleep_list list_init);;
  modify_tm (set_curr_task 0);;
  _ ← task_init idle_task (cs "idle_task") TASK_FLAGS_SYSTEM idle_task_entry
        (u32 (idle_task_stack + IDLE_TASK_SIZE));
  task_start idle_task.

Definition task_first_init : K unit :=
  let copy_size := u32 (e_first_task - s_first_task) in
  let alloc_size := 10 * MEM_PAGE_SIZE in
  ASSERT (copy_size <? alloc_size) task_c 208 (cs "task_first_init") (cs "copy_size < alloc_size");;
  let first_start := first_task_entry in
  _ ← task_init first_task (cs "first task") TASK_FLAGS_USER first_start (u32 (first_start + alloc_size));
  t ← get_task first_task;
  write_tr (t_tss_sel t);;
  modify_tm (set_curr_task first_task);;
  mmu_set_page_dir (tss_cr3 (t_tss t));;
  _ ← memory_alloc_page_for first_start alloc_size (Z.lor (Z.lor PTE_P PTE_W) PTE_U);
  lift (kmemcpy first_start s_first_task copy_size);;
  task_start first_task.

(** [name[0] == 0] for the [n] entries from [i] on. *)
Fixpoint find_free_task (n : nat) (i : Z) : K Z :=
  match n with
  | O => mret 0
  | S n =>
      t ← get_task (task_table_at i);
      if hd 0 (t_name t) =? 0 then mret (task_table_at i) else find_free_task n (i + 1)
  end.

Definition alloc_task : K Z :=
  mutex_acquire task_table_mutex;;
  task ← find_free_task TASK_NR 0;
  mutex_release task_table_mutex;;
  mret task.

Definition free_task (task : Z) : K unit :=
  mutex_acquire task_table_mutex;;
  upd_task task (fun t => set_t_name (<[0%nat := 0]> (t_name t)) t);;
  mutex_release task_table_mutex.

(** ** Fork *)

(** syscall.h: the frame on the kernel stack, by the offsets of its members. *)
Definition SIZEOF_SYSCALL_FRAME : Z := 88.
Definition fr_eflags : Z := 0.
Definition fr_gs : Z := 4.
Definition fr_fs : Z := 8.
Definition fr_es : Z := 12.
Definition fr_ds : Z := 16.
Definition fr_edi : Z := 20.
Definition fr_esi : Z := 24.
Definition fr_ebp : Z := 28.
Definition fr_ebx : Z := 36.
Definition fr_edx : Z := 40.
Definition fr_ecx : Z := 44.
Definition fr_eax : Z := 48.
Definition fr_eip : Z := 52.
Definition fr_cs : Z := 56.
Definition fr_func_id : Z := 60.
Definition fr_arg0 : Z := 64.
Definition fr_arg1 : Z := 68.
Definition fr_arg2 : Z := 72.
Definition fr_arg3 : Z := 76.
Definition fr_esp : Z := 80.

Definition fork_failed (child_task : Z) : K Z :=
  (if negb (child_task =? 0) then task_uninit child_task;; free_task child_task else mret tt);;
  mret (-1).

(** [task->name] as a string. *)
Definition task_name (t : task_t) : list Z := t_name t.

(** The registers of the child, from the frame and the parent. *)
Definition fork_regs (child_task frame : Z) : K unit :=
  ebx ← lift (load32 (frame + fr_ebx));
  ecx ← lift (load32 (frame + fr_ecx));
  edx ← lift (load32 (frame + fr_edx));
  esi ← lift (load32 (frame + fr_esi));
  edi ← lift (load32 (frame + fr_edi));
  ebp ← lift (load32 (frame + fr_ebp));
  cs ← lift (load32 (frame + fr_cs));
  ds ← lift (load32 (frame + fr_ds));
  es ← lift (load32 (frame + fr_es));
  fs ← lift (load32 (frame + fr_fs));
  gs ← lift (load32 (frame + fr_gs));
  eflags ← lift (load32 (frame + fr_eflags));
  upd_task child_task (fun t =>
    set_t_tss (tss_forked (t_tss t) 0 ebx ecx edx esi edi ebp cs ds es fs gs eflags) t).

(** [(tss->cr3 = memory_copy_uvm2(...)) < 0]: [cr3] is unsigned. *)
Definition sys_fork : K Z :=
  parent_task ← task_current;
  child_task ← alloc_task;
  if child_task =? 0 then fork_failed child_task
  else
    parent ← get_task parent_task;
    let frame := u32 (tss_esp0 (t_tss parent) - SIZEOF_SYSCALL_FRAME) in
    eip ← lift (load32 (frame + fr_eip));
    esp ← lift (load32 (frame + fr_esp));
    err ← task_init child_task (task_name parent) TASK_FLAGS_USER eip
            (u32 (esp + 4 * SYSCALL_PARAM_COUNT));
    if err <? 0 then fork_failed child_task
    else
      fork_regs child_task frame;;
      upd_task child_task (set_t_parent parent_task);;
      parent ← get_task parent_task;
      child ← get_task child_task;
      cr3 ← memory_copy_uvm2 (tss_cr3 (t_tss parent)) (tss_cr3 (t_tss child));
      upd_task child_task (fun t => set_t_tss (set_tss_cr3 cr3 (t_tss t)) t);;
      if u32 cr3 <? 0 then fork_failed child_task
      else
        task_start child_task;;
        child ← get_task child_task;
        mret (t_pid child).

End Task.
