(* ===== verification/TaskLife.v ===== *)
(** Tasks come to life, kernel/core/task.c: what [tss_init] and [task_init] leave for
    the scheduler and for the processor's task switch. *)
From S2P Require Import Prelude DList Bitmap Machine MachineFacts Klib Format Sched Ipc Log Cpu Alloc Paging AddrSpace Task.

Section TaskLife.
Context `{Layout} `{Device}.

(** The segment selectors of a task by its flag. *)
Definition task_sels (flag : Z) (s : kst) : Z * Z :=
  if negb (Z.land flag TASK_FLAGS_SYSTEM =? 0) then (KERNEL_SELECTOR_CS, KERNEL_SELECTOR_DS)
  else (Z.lor (app_code_sel (k_tm s)) SEG_RPL3, Z.lor (app_data_sel (k_tm s)) SEG_RPL3).

(** The selector found by [gdt_alloc_desc], as an index of the table. *)
Lemma gdt_alloc_index s sel :
  mutex_free s gdt_mutex -> gdt_alloc_desc s = Done sel s -> 0 <= sel -> (length (k_gdt s) <= GDT_TABLE_SIZE)%nat ->
  exists k d, sel = Z.of_nat (S k) * 8 /\ (S k < length (k_gdt s))%nat /\ gdt_index sel = Z.of_nat (S k) /\
    k_gdt s !! S k = Some d /\ sd_attr d = 0.
Proof.
  intros Hf Ea Hsel Hlen. rewrite gdt_alloc_desc_run in Ea by done. injection Ea as Ea.
  destruct (gdt_find_spec (tail (k_gdt s)) 1 ltac:(lia)) as [[E _]|(k & d & E & Hk & Hd & Hu)]; [lia|].
  assert (k_gdt s !! S k = Some d) as Hg by (destruct (k_gdt s); [done | exact Hk]).
  pose proof (lookup_lt_Some _ _ _ Hg). unfold GDT_TABLE_SIZE in *. exists k, d.
  assert (sel = Z.of_nat (S k) * 8) as -> by lia. split_and!; [done | done | | done | done].
  apply gdt_index_sel; lia.
Qed.

(** What [tss_init] changes, apart from RAM and the allocator. *)
Definition with_tss (task : Z) (t : task_t) (k : nat) (s : kst) : kst :=
  set_k_tasks (<[task := t]> (k_tasks s))
    (set_k_gdt (<[k := segment_desc (task + TSS_OFF) SIZEOF_TSS ATTR_TSS]> (k_gdt s)) s).

Lemma with_tss_paging task t k s : paging_ok s -> paging_ok (with_tss task t k s).
Proof. by intros [? ? ?]. Qed.

Lemma with_tss_owner task t k s sel :
  0 <= task -> task + TSS_OFF < 2 ^ 32 -> sel = Z.of_nat k * 8 -> (k < length (k_gdt s))%nat ->
  tss_owner (with_tss task t k s) sel = Some (task, t).
Proof.
  intros Ht He -> Hk. unfold tss_owner, with_tss. kproj. rewrite Z.div_mul, Nat2Z.id by lia.
  rewrite list_lookup_insert_eq by done. cbn [mbind option_bind].
  rewrite segment_desc_base by (unfold TSS_OFF in *; lia).
  replace (task + TSS_OFF - TSS_OFF) with task by lia. by rewrite lookup_insert_eq.
Qed.

(** ** Names *)
Lemma until0_bytes bs : Forall (fun b => 0 <= b < 256) bs -> str_bytes (until0 bs).
Proof.
  induction 1 as [|b bs Hb _ IH]; cbn [until0]; [constructor|]. destruct (Z.eqb_spec b 0); [constructor|].
  constructor; [lia | done].
Qed.

Lemma until0_length bs : (length (until0 bs) <= length bs)%nat.
Proof. induction bs as [|b bs IH]; cbn [until0]; [done|]. destruct (b =? 0); simpl; lia. Qed.

Lemma strncpy_array_loop_until0 src : forall dest i size,
  strncpy_array_loop dest i src size = strncpy_array_loop dest i (until0 src) size.
Proof.
  induction src as [|c src IH]; intros dest i size; [done|]. cbn [strncpy_array_loop until0].
  destruct (c =? 0) eqn:Ec; [by rewrite andb_false_r|]. cbn [strncpy_array_loop]. rewrite Ec.
  destruct (size >? 0); [|done]. cbn [negb andb]. destruct (poke dest i c); [|done]. apply IH.
Qed.

Lemma task_set_name_until0 name t : task_set_name name t = task_set_name (until0 name) t.
Proof. unfold task_set_name, strncpy_array. by rewrite strncpy_array_loop_until0. Qed.

(** ** tss_init *)
Definition tss_ready (s : kst) (flag entry esp stack dir : Z) : tss_t :=
  let '(code_sel, data_sel) := task_sels flag s in
  tss_start entry esp (u32 (stack + MEM_PAGE_SIZE)) code_sel data_sel dir.

Lemma tss_init_prefix s task flag entry esp t0 sel k :
  mutex_free s gdt_mutex -> gdt_alloc_desc s = Done sel s -> 0 <= sel -> gdt_index sel = Z.of_nat k ->
  (k < length (k_gdt s))%nat -> k_tasks s !! task = Some t0 -> 0 <= task -> task + TSS_OFF < 2 ^ 32 ->
  tss_init task flag entry esp s =
    (kernel_stack ← memory_alloc_page;
     if kernel_stack =? 0 then tss_init_failed sel kernel_stack
     else
       tm ← gets k_tm;
       let '(code_sel, data_sel) :=
         if negb (Z.land flag TASK_FLAGS_SYSTEM =? 0)
         then (KERNEL_SELECTOR_CS, KERNEL_SELECTOR_DS)
         else (Z.lor (app_code_sel tm) SEG_RPL3, Z.lor (app_data_sel tm) SEG_RPL3) in
       upd_task task (set_t_tss (tss_start entry esp (u32 (kernel_stack + MEM_PAGE_SIZE)) code_sel data_sel 0));;
       uvm_pgtbl ← memory_create_uvm;
       if uvm_pgtbl =? 0 then tss_init_failed sel kernel_stack
       else
         upd_task task (fun t => set_t_tss (set_tss_cr3 uvm_pgtbl (t_tss t)) t);;
         upd_task task (set_t_tss_sel sel);;
         mret 0) (with_tss task (set_t_tss zero_tss t0) k s).
Proof.
  intros Hf Ea Hsel Hk Hlen Ht Ht0 Ht1. unfold tss_init. rewrite (run_bind gdt_alloc_desc), Ea. cbn [obind].
  rewrite (proj2 (Z.ltb_ge sel 0)) by done.
  rewrite (run_bind (segment_desc_set _ _ _ _)), segment_desc_set_run by (rewrite Hk; lia). cbn [obind].
  rewrite (run_bind (upd_task _ _)). erewrite upd_task_run by (kproj; exact Ht). cbn [obind].
  rewrite Hk, Nat2Z.id. unfold with_tss. by rewrite u32_small by (unfold TSS_OFF in *; lia).
Qed.

Lemma with_tss_again task t t' k s :
  upd_task task (fun _ => t') (with_tss task t k s) = Done tt (with_tss task t' k s).
Proof.
  unfold with_tss. erewrite upd_task_run by (kproj; apply lookup_insert_eq). kproj. by rewrite insert_insert_eq.
Qed.

(** The address space [dir] made for a new task, next to its kernel stack: RAM [m], the
    allocator [a]. *)
Record new_space (s : kst) (stack dir : Z) (m : gmap Z Z) (a : addr_alloc_t) : Prop := {
  ns_frames : frames s = stack :: dir :: free_frames a;
  ns_paging : paging_ok (set_k_mem m (set_k_alloc a s));
  ns_dir : dir_wf m (free_frames a) dir /\ 0 < dir;
  ns_region : all_frames a = all_frames (k_alloc s);
  ns_tables : forall i, 0 <= i < 1024 ->
    table_of m dir i = if i <? 512 then table_of (k_mem s) kernel_page_dir i else None;
  ns_same : forall q, q <> dir -> same_page (k_mem s) m q
}.

Lemma new_space_walk s stack dir m a x :
  new_space s stack dir m a -> dir_wf (k_mem s) (frames s) kernel_page_dir -> 0 <= x < 2 ^ 32 ->
  mmu_walk dir m x = if x <? MEMORY_TASK_BASE then mmu_walk kernel_page_dir (k_mem s) x else None.
Proof.
  intros [Ef _ [[Hd _ _ _] _] _ Ht Hs] Hk Hx. apply (uvm_walk s dir m a); try done; [|apply Hd].
  apply (dir_wf_weaken _ (frames s)); [|done]. rewrite Ef. intros q Hq. by right.
Qed.

Lemma tss_init_run s task flag entry esp t0 sel k :
  mutex_free s gdt_mutex -> gdt_alloc_desc s = Done sel s -> 0 <= sel -> gdt_index sel = Z.of_nat k ->
  (k < length (k_gdt s))%nat -> k_tasks s !! task = Some t0 -> 0 <= task -> task + TSS_OFF < 2 ^ 32 ->
  paging_ok s -> dir_wf (k_mem s) (frames s) kernel_page_dir -> (2 <= length (frames s))%nat ->
  exists stack dir m a, new_space s stack dir m a /\
    tss_init task flag entry esp s = Done 0
      (with_tss task (set_t_tss_sel sel (set_t_tss (tss_ready s flag entry esp stack dir) t0)) k
        (set_k_mem m (set_k_alloc a s))).
Proof.
  intros Hf Ea Hsel Hk Hlen Ht Ht0 Ht1 Hok Hd Hfr.
  rewrite (tss_init_prefix s task flag entry esp t0 sel k) by done.
  set (sB := with_tss task (set_t_tss zero_tss t0) k s). assert (paging_ok sB) as HokB by (by apply with_tss_paging).
  destruct (paging_alloc sB HokB) as [[Hnil _]|(p & a1 & E1 & Hok1 & Ef1 & Hpf & Hp & Hpe & Hall)].
  { change (frames sB) with (frames s) in Hnil. rewrite Hnil in Hfr. simpl in Hfr. lia. }
  change (frames sB) with (frames s) in Ef1. rewrite Ef1 in Hfr. unfold MEM_EXT_START in Hpe.
  unfold memory_alloc_page. rewrite run_bind, E1. cbn [obind]. rewrite (proj2 (Z.eqb_neq p 0)) by lia.
  rewrite (run_bind (gets k_tm)), run_gets. cbn [obind].
  change (k_tm (set_k_alloc a1 sB)) with (k_tm s). unfold tss_ready, task_sels.
  destruct (if negb (Z.land flag TASK_FLAGS_SYSTEM =? 0) then _ else _) as [csel dsel].
  set (st := tss_start entry esp (u32 (p + MEM_PAGE_SIZE)) csel dsel).
  set (sD := with_tss task (set_t_tss (st 0) t0) k (set_k_alloc a1 s)).
  assert (upd_task task (set_t_tss (st 0)) (set_k_alloc a1 sB) = Done tt sD) as EB.
  { unfold sB, sD, with_tss. erewrite upd_task_run by (kproj; apply lookup_insert_eq). kproj. by rewrite insert_insert_eq. }
  rewrite (run_bind (upd_task _ _)), EB. cbn [obind].
  assert (dir_wf (k_mem sD) (frames sD) kernel_page_dir) as HdD.
  { change (dir_wf (k_mem s) (free_frames a1) kernel_page_dir). apply (dir_wf_weaken _ (frames s)); [|done].
    rewrite Ef1. intros q Hq. by right. }
  assert (paging_ok sD) as HokD by (apply with_tss_paging; by destruct Hok1).
  destruct (memory_create_uvm_run sD HokD HdD)
    as [[Hnil _]|(d & m & a & E2 & Hok2 & Ef2 & Hde & Hall2 & Hdd & Htab & Hsame)].
  { change (frames sD) with (free_frames a1) in Hnil. rewrite Hnil in Hfr. simpl in Hfr. lia. }
  unfold MEM_EXT_START in Hde. exists p, d, m, a. change (frames sD) with (free_frames a1) in *. split.
  - constructor; [by rewrite Ef1, Ef2 | by destruct Hok2 | split; [done | lia] | | done | done].
    rewrite Hall2. exact Hall.
  - rewrite run_bind, E2. cbn [obind]. rewrite (proj2 (Z.eqb_neq d 0)) by lia.
    unfold sD, with_tss. rewrite run_bind. erewrite upd_task_run by (kproj; apply lookup_insert_eq). cbn [obind].
    rewrite run_bind. erewrite upd_task_run by (kproj; apply lookup_insert_eq). cbn [obind]. kproj.
    rewrite !insert_insert_eq. done.
Qed.

(** Without a frame for the kernel stack [tss_init] gives the descriptor back. *)
Lemma tss_init_no_frame s task flag entry esp t0 sel k :
  mutex_free s gdt_mutex -> gdt_alloc_desc s = Done sel s -> 0 <= sel -> gdt_index sel = Z.of_nat k ->
  (k < length (k_gdt s))%nat -> k_tasks s !! task = Some t0 -> 0 <= task -> task + TSS_OFF < 2 ^ 32 ->
  paging_ok s -> frames s = [] ->
  tss_init task flag entry esp s = Done (-1)
    (set_k_gdt (<[k := set_sd_attr 0 (segment_desc (task + TSS_OFF) SIZEOF_TSS ATTR_TSS)]> (k_gdt s))
      (set_k_tasks (<[task := set_t_tss zero_tss t0]> (k_tasks s)) s)).
Proof.
  intros Hf Ea Hsel Hk Hlen Ht Ht0 Ht1 Hok Hnil. rewrite (tss_init_prefix s task flag entry esp t0 sel k) by done.
  set (sB := with_tss task (set_t_tss zero_tss t0) k s). assert (paging_ok sB) as HokB by (by apply with_tss_paging).
  destruct (paging_alloc sB HokB) as [[_ E1]|(p & a1 & _ & _ & Ef1 & _)]; [|change (frames sB) with (frames s) in Ef1; congruence].
  unfold memory_alloc_page. rewrite run_bind, E1. cbn [obind]. change (0 =? 0) with true.
  unfold tss_init_failed. rewrite run_bind.
  rewrite (gdt_free_sel_run sB sel (segment_desc (task + TSS_OFF) SIZEOF_TSS ATTR_TSS));
    [|done|rewrite Hk, Nat2Z.id; unfold sB, with_tss; kproj; by apply list_lookup_insert_eq].
  change (0 =? 0) with true. kred. rewrite Hk, Nat2Z.id. unfold sB, with_tss. kproj. by rewrite list_insert_insert_eq.
Qed.

(** ** task_init *)

(** The members a new task starts with; the TSS is [tss_init]'s. *)
Record fresh_task (task : Z) (name : list Z) (t1 t : task_t) : Prop := {
  ft_state : t_state t = TASK_CREATED;
  ft_name : let kept := strncpy_kept (until0 name) 32 in
    t_name t = take 32 (kept ++ 0 :: drop (S (length kept)) (t_name t1));
  ft_pid : t_pid t = i32 task;
  ft_parent : t_parent t = 0;
  ft_ticks : t_sleep_ticks t = 0 /\ t_time_ticks t = TASK_TIME_SLICE_DEFAULT /\ t_slice_ticks t = TASK_TIME_SLICE_DEFAULT;
  ft_tss : t_tss t = t_tss t1 /\ t_tss_sel t = t_tss_sel t1
}.

Lemma task_set_name_run name t :
  str_bytes name -> length (t_name t) = 32%nat ->
  exists t', task_set_name name t = Some t' /\ t_tss t' = t_tss t /\ t_tss_sel t' = t_tss_sel t /\
    t_name t' = take 32 (strncpy_kept name 32 ++ 0 :: drop (S (length (strncpy_kept name 32))) (t_name t)).
Proof.
  intros Hn Hl. unfold task_set_name. change TASK_NAME_SIZE with (Z.of_nat 32).
  rewrite strncpy_array_spec by (try done; rewrite length_app; simpl; lia). cbn [mbind option_bind].
  eexists. split_and!; [done | done | done |]. cbn [t_name set_t_name set_t_pid]. rewrite Hl.
  set (k := strncpy_kept name 32). assert (length k <= 32)%nat as Hk.
  { unfold k, strncpy_kept. destruct (Nat.leb_spec 32 (length name)), (Nat.eqb_spec (length name) (32 - 1));
      rewrite ?length_take; lia. }
  destruct (decide (length k = 32%nat)) as [E|].
  - by rewrite !take_app_length' by done.
  - rewrite drop_app_le, app_comm_cons, app_assoc, take_app_le by (rewrite ?length_app; simpl; rewrite ?length_drop; lia).
    done.
Qed.

(** Setting the members of one task, one after the other. *)
Lemma upd_task_again s a t f :
  upd_task a f (set_k_tasks (<[a := t]> (k_tasks s)) s) = Done tt (set_k_tasks (<[a := f t]> (k_tasks s)) s).
Proof. erewrite upd_task_run by (kproj; apply lookup_insert_eq). kproj. by rewrite insert_insert_eq. Qed.

Lemma task_init_fields_run s task name t1 ns :
  k_tasks s !! task = Some t1 -> 0 < task -> str_bytes (until0 name) -> length (t_name t1) = 32%nat ->
  dlist (k_nodes s) (task_list (k_tm s)) ns -> all_node task ∉ ns -> run_node task ∉ ns -> wait_node task ∉ ns ->
  exists t h l, task_init_fields task name s =
      Done 0 (set_k_tm (set_task_list l (k_tm s)) (set_k_nodes h (set_k_tasks (<[task := t]> (k_tasks s)) s))) /\
    fresh_task task name t1 t /\ dlist h l (ns ++ [all_node task]) /\
    is_Some (h !! run_node task) /\ is_Some (h !! all_node task) /\ is_Some (h !! wait_node task) /\
    forall n, n <> run_node task -> n <> wait_node task -> n ∉ ns ++ [all_node task] -> h !! n = k_nodes s !! n.
Proof.
  intros Ht Hpos Hname Hlen Hl Ha Hr Hw.
  destruct (task_set_name_run (until0 name) t1 Hname Hlen) as (t2 & En & Etss & Esel & Enm).
  set (h0 := <[wait_node task := Node 0 0]> (<[run_node task := Node 0 0]> (<[all_node task := Node 0 0]> (k_nodes s)))).
  assert (dlist h0 (task_list (k_tm s)) ns) as Hl0 by (by repeat apply dlist_insert_ne).
  assert (run_node task <> all_node task /\ wait_node task <> all_node task /\ run_node task <> wait_node task) as (N1 & N2 & N3)
    by (unfold run_node, all_node, wait_node, RUN_NODE_OFF, ALL_NODE_OFF, WAIT_NODE_OFF; lia).
  assert (is_Some (h0 !! all_node task)) as Ha0 by (unfold h0; rewrite !lookup_insert_ne, lookup_insert_eq by done; eauto).
  destruct (list_insert_back_spec h0 (task_list (k_tm s)) ns (all_node task)) as (h & l & Ei & Hl' & Hto & Hdom); try done.
  { unfold all_node, ALL_NODE_OFF. lia. }
  assert (forall n, is_Some (h0 !! n) -> is_Some (h !! n)) as Hs by (intros n; rewrite <- !elem_of_dom, Hdom; done).
  eexists _, h, l. split_and!.
  - unfold task_init_fields. rewrite run_bind, (get_task_run _ _ t1) by done. cbn [obind].
    rewrite task_set_name_until0, En. kred. erewrite upd_task_run by exact Ht. kred.
    repeat (rewrite upd_task_again; kred).
    unfold task_init_nodes. kred. fold h0.
    erewrite upd_task_run by (kproj; apply lookup_insert_eq). kred.
    erewrite run_on_list by (kproj; exact Ei). kred. rewrite insert_insert_eq. by destruct s.
  - by constructor.
  - done.
  - apply Hs. unfold h0. rewrite lookup_insert_ne, lookup_insert_eq by done. eauto.
  - by apply Hs.
  - apply Hs. unfold h0. rewrite lookup_insert_eq. eauto.
  - intros n Hn1 Hn2 Hn3. rewrite Hto by done. unfold h0. apply not_elem_of_app in Hn3 as [_ Hn3].
    rewrite !lookup_insert_ne by (done || (intros <-; apply Hn3; by left)). done.
Qed.

(** A state in which [task_init] can be called for the slot [task]: [t0] is what the
    slot holds, [sel] the selector that is free, [ns] the nodes of the task list. *)
Record slot_ok (s : kst) (task : Z) (name : list Z) (t0 : task_t) (sel : Z) (ns : list Z) : Prop := {
  so_task : 0 < task /\ task + TSS_OFF < 2 ^ 32;
  so_slot : k_tasks s !! task = Some t0 /\ length (t_name t0) = 32%nat;
  so_name : str_bytes (until0 name);
  so_gdt : mutex_free s gdt_mutex /\ (length (k_gdt s) <= GDT_TABLE_SIZE)%nat;
  so_sel : gdt_alloc_desc s = Done sel s /\ 0 <= sel;
  so_list : dlist (k_nodes s) (task_list (k_tm s)) ns;
  so_nodes : (all_node task ∉ ns) /\ (run_node task ∉ ns) /\ (wait_node task ∉ ns);
  so_paging : paging_ok s
}.

Lemma task_init_after s task name flag entry esp r s1 :
  task <> 0 -> tss_init task flag entry esp s = Done r s1 ->
  task_init task name flag entry esp s = task_init_fields task name s1.
Proof.
  intros Ht E. unfold task_init, ASSERT. rewrite (proj2 (Z.eqb_neq task 0)) by done. cbn [negb].
  rewrite run_bind, run_ret. cbn [obind]. by rewrite run_bind, E.
Qed.

(** The state after [task_init]: descriptor [k], RAM [m], allocator [a], nodes [h] and
    task list [l]. *)
Definition after_init (task : Z) (t : task_t) (k : nat) (m : gmap Z Z) (a : addr_alloc_t) (h : heap) (l : list_t) (s : kst) : kst :=
  set_k_tm (set_task_list l (k_tm s)) (set_k_nodes h (with_tss task t k (set_k_mem m (set_k_alloc a s)))).

(** The selector [sel] designates the free descriptor [k]. *)
Definition sel_free (s : kst) (sel : Z) (k : nat) : Prop :=
  sel = Z.of_nat k * 8 /\ (k < length (k_gdt s))%nat /\ exists d, k_gdt s !! k = Some d /\ sd_attr d = 0.

(** The nodes of the new task, and those that are as before. *)
Record nodes_init (s : kst) (task : Z) (ns : list Z) (h : heap) (l : list_t) : Prop := {
  ni_list : dlist h l (ns ++ [all_node task]);
  ni_nodes : is_Some (h !! run_node task) /\ is_Some (h !! all_node task) /\ is_Some (h !! wait_node task);
  ni_same : forall n, n <> run_node task -> n <> wait_node task -> n ∉ ns ++ [all_node task] -> h !! n = k_nodes s !! n
}.

Lemma task_init_run s task name flag entry esp t0 sel ns :
  slot_ok s task name t0 sel ns -> dir_wf (k_mem s) (frames s) kernel_page_dir -> (2 <= length (frames s))%nat ->
  exists k stack dir m a t h l, task_init task name flag entry esp s = Done 0 (after_init task t k m a h l s) /\
    new_space s stack dir m a /\ sel_free s sel k /\ nodes_init s task ns h l /\
    fresh_task task name (set_t_tss_sel sel (set_t_tss (tss_ready s flag entry esp stack dir) t0)) t.
Proof.
  intros [[Hpos Hbd] [Ht Hlen] Hname [Hf Hg] [Ea Hsel] Hl (Ha & Hr & Hw) Hok] Hd Hfr.
  destruct (gdt_alloc_index s sel Hf Ea Hsel Hg) as (k & dd & Esel & Hk & Ei & Edd & Hdd).
  destruct (tss_init_run s task flag entry esp t0 sel (S k)) as (stack & dir & m & a & Hns & Et); try done; [lia|].
  set (t1 := set_t_tss_sel sel _) in *. set (s1 := with_tss _ _ _ _) in Et.
  destruct (task_init_fields_run s1 task name t1 ns) as (t & h & l & E & Hft & Hl' & Hn1 & Hn2 & Hn3 & Hsame); try done.
  { unfold s1, with_tss. kproj. apply lookup_insert_eq. }
  exists (S k), stack, dir, m, a, t, h, l. split_and!; [| done | | by constructor | done].
  - rewrite (task_init_after _ _ _ _ _ _ 0 s1), E by (done || lia).
    unfold s1, after_init, with_tss. kproj. by rewrite insert_insert_eq.
  - split_and!; [done | done |]. by exists dd.
Qed.

Lemma after_init_owner task t k m a h l s sel :
  0 < task -> task + TSS_OFF < 2 ^ 32 -> sel_free s sel k -> tss_owner (after_init task t k m a h l s) sel = Some (task, t).
Proof.
  intros Hpos Hbd (Esel & Hk & _).
  exact (with_tss_owner task t k (set_k_mem m (set_k_alloc a s)) sel ltac:(lia) Hbd Esel Hk).
Qed.

Lemma after_init_live task t k m a h l s sel ns :
  0 < task -> task + TSS_OFF < 2 ^ 32 -> sel_free s sel k -> nodes_init s task ns h l -> t_tss_sel t = sel ->
  live (after_init task t k m a h l s) task.
Proof.
  intros Hpos Hbd Hsel [_ (Hn1 & Hn2 & Hn3) _] Et. split; [done|]. split_and!; [done | done | done |].
  exists t. split; [apply lookup_insert_eq|]. by rewrite Et, (after_init_owner _ _ _ _ _ _ _ s sel).
Qed.

(** * Properties *)

(** C17: with two frames free [task_init] makes a task the scheduler and the processor
    can use: its selector designates its own TSS ([live]), it is at the end of the task
    list, and the switch to that selector starts it at [entry] with the stack [esp], its
    own kernel stack and interrupts on, in a new address space that has the kernel's
    lower half and an empty upper half. *)
Theorem task_init_live s task name flag entry esp t0 sel ns :
  slot_ok s task name t0 sel ns -> dir_wf (k_mem s) (frames s) kernel_page_dir -> (2 <= length (frames s))%nat ->
  exists s' t stack dir, task_init task name flag entry esp s = Done 0 s' /\
    k_tasks s' !! task = Some t /\ t_tss t = tss_ready s flag entry esp stack dir /\ t_tss_sel t = sel /\
    t_state t = TASK_CREATED /\ t_pid t = i32 task /\
    live s' task /\ dlist (k_nodes s') (task_list (k_tm s')) (ns ++ [all_node task]) /\
    frames s = stack :: dir :: frames s' /\ paging_ok s' /\
    (exists k, far_jump_tss sel s' = Susp (set_k_if true (set_k_cr3 dir (set_k_tr sel s'))) k) /\
    forall x, 0 <= x < 2 ^ 32 -> mmu_walk dir (k_mem s') x =
      if x <? MEMORY_TASK_BASE then mmu_walk kernel_page_dir (k_mem s) x else None.
Proof.
  intros Hso Hd Hfr. pose proof (so_task _ _ _ _ _ _ Hso) as [Hpos Hbd].
  destruct (task_init_run s task name flag entry esp t0 sel ns Hso Hd Hfr)
    as (k & stack & dir & m & a & t & h & l & E & Hns & Hsel & Hni & [Hst _ Hpid _ _ [Htss Htsel]]).
  exists (after_init task t k m a h l s), t, stack, dir. split_and!; try done.
  - apply lookup_insert_eq.
  - by apply (after_init_live _ _ _ _ _ _ _ _ sel ns).
  - apply Hni.
  - apply Hns.
  - by destruct (ns_paging _ _ _ _ _ Hns).
  - unfold far_jump_tss. rewrite (after_init_owner _ _ _ _ _ _ _ s sel) by done. rewrite Htss. unfold tss_ready, task_sels.
    eexists. by destruct (negb (Z.land flag TASK_FLAGS_SYSTEM =? 0)).
  - intros x Hx. by apply (new_space_walk s stack dir m a).
Qed.

(** when no frame is free [tss_init] fails, but [task_init] drops its result: it
    answers 0 all the same and puts the task in the task list, with a TSS of zeros and
    the selector the slot had before, while the descriptor is free again. *)
Lemma task_init_hides_failure s task name flag entry esp t0 sel ns :
  slot_ok s task name t0 sel ns -> frames s = [] ->
  (exists s1, tss_init task flag entry esp s = Done (-1) s1) /\
  exists s' t d, task_init task name flag entry esp s = Done 0 s' /\
    k_tasks s' !! task = Some t /\ t_tss t = zero_tss /\ t_tss_sel t = t_tss_sel t0 /\ t_state t = TASK_CREATED /\
    dlist (k_nodes s') (task_list (k_tm s')) (ns ++ [all_node task]) /\
    k_gdt s' !! Z.to_nat (sel / 8) = Some d /\ sd_attr d = 0.
Proof.
  intros [[Hpos Hbd] [Ht Hlen] Hname [Hf Hg] [Ea Hsel] Hl (Ha & Hr & Hw) Hok] Hnil.
  destruct (gdt_alloc_index s sel Hf Ea Hsel Hg) as (k & dd & Esel & Hk & Ei & _ & _).
  pose proof (tss_init_no_frame s task flag entry esp t0 sel (S k) Hf Ea Hsel Ei Hk Ht ltac:(lia) Hbd Hok Hnil) as E1.
  set (s1 := set_k_gdt _ _) in E1. split; [by exists s1|].
  destruct (task_init_fields_run s1 task name (set_t_tss zero_tss t0) ns) as (t & h & l & E & Hft & Hl' & _); try done.
  { unfold s1. kproj. apply lookup_insert_eq. }
  destruct Hft as [Hst _ _ _ _ [Htss Htsel]]. eexists _, t, _.
  rewrite (task_init_after _ _ _ _ _ _ (-1) s1) by (done || lia).
  split_and!; [exact E | kproj; apply lookup_insert_eq | done | done | done | done | |].
  - unfold s1. kproj. rewrite Esel, Z.div_mul, Nat2Z.id by lia. by apply list_lookup_insert_eq.
  - done.
Qed.

End TaskLife.
