(* ===== verification/Exec.v ===== *)
(** Loading a program into a new address space, kernel/core/task.c:
    [load_phdr], [load_elf_file], [copy_args], [sys_execve]. *)
From S2P Require Import Prelude DList Machine MachineFacts Klib Format Sched Ipc Log Cpu Alloc Paging Fs Task.

(** * elf.h: the packed headers, by the offsets of their members *)
Definition ELF_MAGIC : Z := 0x7F.
Definition PT_LOAD : Z := 1.
Definition SIZEOF_EHDR : Z := 52.
Definition e_ident : Z := 0.
Definition e_entry : Z := 24.
Definition e_phoff : Z := 28.
Definition e_phentsize : Z := 42.
Definition e_phnum : Z := 44.
Definition SIZEOF_PHDR : Z := 32.
Definition p_type : Z := 0.
Definition p_offset : Z := 4.
Definition p_vaddr : Z := 8.
Definition p_paddr : Z := 12.
Definition p_filesz : Z := 16.
Definition p_memsz : Z := 20.

(** A [uint16_t] in RAM. *)
Definition load16 (a : Z) : MM Z := lo ← load8 a; hi ← load8 (a + 1); mret (lo + 2 ^ 8 * hi).

(** [e_ident] starts with the ELF magic number. *)
Definition elf_magic_ok (hdr : Z) : MM bool :=
  a ← load8 hdr;
  b ← load8 (hdr + 1);
  c ← load8 (hdr + 2);
  d ← load8 (hdr + 3);
  mret ((a =? ELF_MAGIC) && (b =? 0x45) && (c =? 0x4c) && (d =? 0x46)).

(** memory.h *)
Definition MEM_TASK_STACK_TOP : Z := 0xE0000000.
Definition MEM_TASK_STACK_SIZE : Z := MEM_PAGE_SIZE * 500.
Definition MEM_TASK_ARG_SIZE : Z := MEM_PAGE_SIZE * 16.

(** task.h: [struct _task_args_t]: ret_addr, argc, argv. *)
Definition SIZEOF_TASK_ARGS : Z := 12.

Section Exec.
Context `{Layout} `{Device}.

(** The address of a local of the running task's kernel stack. *)
Definition stack_local (off : Z) : K Z :=
  curr ← task_current; t ← get_task curr; mret (u32 (tss_esp0 (t_tss t) - off)).

(** ** load_phdr

    Every round but the last reads a whole page. *)
Fixpoint load_phdr_loop (fuel : nat) (fd page_dir vaddr size : Z) : K Z :=
  if size >? 0 then
    match fuel with
    | O => kfault
    | S fuel =>
        let curr_size := if size >? MEM_PAGE_SIZE then MEM_PAGE_SIZE else size in
        paddr ← memory_get_paddr page_dir vaddr;
        n ← sys_read fd paddr curr_size;
        if n <? curr_size then
          log_printf (cs "read file failed") [];;
          mret (-1)
        else load_phdr_loop fuel fd page_dir (u32 (vaddr + curr_size)) (size - curr_size)
    end
  else mret 0.

Definition load_phdr (fd phdr page_dir : Z) : K Z :=
  vaddr ← lift (load32 (phdr + p_vaddr));
  memsz ← lift (load32 (phdr + p_memsz));
  err ← memory_alloc_for_page_dir page_dir vaddr memsz (Z.lor (Z.lor PTE_P PTE_U) PTE_W);
  if err <? 0 then
    log_printf (cs "load_phdr: no memory") [];;
    mret (-1)
  else
    off ← lift (load32 (phdr + p_offset));
    r ← sys_lseek fd off 0;
    if r <? 0 then
      log_printf (cs "load_phdr: read file failed") [];;
      mret (-1)
    else
      vaddr ← lift (load32 (phdr + p_vaddr));
      size ← lift (load32 (phdr + p_filesz));
      load_phdr_loop (Z.to_nat (size / MEM_PAGE_SIZE + 1)) fd page_dir vaddr size.

(** ** load_elf_file *)
Definition load_failed (fd : Z) : K Z :=
  (if fd >=? 0 then _ ← sys_close fd; mret tt else mret tt);;
  mret (u32 (-1)).

(** The loop over the [n] program headers left. *)
Fixpoint load_phdrs (n : nat) (fd elf_hdr elf_phdr phoff page_dir : Z) : K Z :=
  match n with
  | O => mret 0
  | S n =>
      r ← sys_lseek fd phoff 0;
      if r <? 0 then
        log_printf (cs "read file failed") [];;
        load_failed fd
      else
        cnt ← sys_read fd elf_phdr SIZEOF_PHDR;
        if u32 cnt <? SIZEOF_PHDR then
          log_printf (cs "read file failed") [];;
          load_failed fd
        else
          type ← lift (load32 (elf_phdr + p_type));
          vaddr ← lift (load32 (elf_phdr + p_vaddr));
          phentsize ← lift (load16 (elf_hdr + e_phentsize));
          if negb (type =? PT_LOAD) || (vaddr <? MEMORY_TASK_BASE)
          then load_phdrs n fd elf_hdr elf_phdr (u32 (phoff + phentsize)) page_dir
          else
            err ← load_phdr fd elf_phdr page_dir;
            if err <? 0 then
              log_printf (cs "load program hdr failed") [];;
              load_failed fd
            else
              _ ← sys_close fd;
              lift (load32 (elf_hdr + e_entry))
  end.

Definition load_elf_file (task name page_dir : Z) : K Z :=
  elf_hdr ← stack_local stk_elf_hdr;
  elf_phdr ← stack_local stk_elf_phdr;
  fd ← sys_open name 0;
  if fd <? 0 then
    log_printf (cs "open failed: %s") [VInt name];;
    load_failed fd
  else
    cnt ← sys_read fd elf_hdr SIZEOF_EHDR;
    if u32 cnt <? SIZEOF_EHDR then
      log_printf (cs "elf hdr smaller than sizeof(Elf32_Ehdr). size = %d") [VInt cnt];;
      load_failed fd
    else
      ok ← lift (elf_magic_ok (elf_hdr + e_ident));
      if negb ok then
        log_printf (cs "check elf indent failed.") [];;
        load_failed fd
      else
        phentsize ← lift (load16 (elf_hdr + e_phentsize));
        phoff ← lift (load32 (elf_hdr + e_phoff));
        if (phentsize =? 0) || (phoff =? 0) then
          log_printf (cs "none programe header") [];;
          load_failed fd
        else
          phnum ← lift (load16 (elf_hdr + e_phnum));
          load_phdrs (Z.to_nat phnum) fd elf_hdr elf_phdr phoff page_dir.

(** ** copy_args *)
Fixpoint copy_args_loop (n : nat) (i page_dir argv dest_argv_tb dest_arg : Z) : K unit :=
  match n with
  | O => mret tt
  | S n =>
      from ← lift (load32 (u32 (argv + 4 * i)));
      len ← lift (kstrlen from);
      let len := len + 1 in
      err ← memory_copy_uvm_data dest_arg page_dir from len;
      ASSERT (err >=? 0) task_c 614 (cs "copy_args") (cs "err >= 0");;
      lift (store32 (u32 (dest_argv_tb + 4 * i)) dest_arg);;
      copy_args_loop n (i + 1) page_dir argv dest_argv_tb (u32 (dest_arg + len))
  end.

Definition copy_args (to page_dir argc argv : Z) : K Z :=
  task_args ← stack_local stk_task_args;
  lift (store32 (task_args + 4) argc);;
  lift (store32 (task_args + 8) (u32 (to + SIZEOF_TASK_ARGS)));;
  let dest_arg := u32 (to + SIZEOF_TASK_ARGS + 4 * argc) in
  dest_argv_tb ← memory_get_paddr page_dir (u32 (to + SIZEOF_TASK_ARGS));
  ASSERT (negb (dest_argv_tb =? 0)) task_c 608 (cs "copy_args") (cs "dest_argv_tb != 0");;
  copy_args_loop (Z.to_nat argc) 0 page_dir argv dest_argv_tb dest_arg;;
  memory_copy_uvm_data to page_dir task_args SIZEOF_TASK_ARGS.

(** ** sys_execve *)

(** Of the source [kstrncpy(.., TASK_NAME_SIZE)] reads at most 32 characters. *)
Fixpoint read_upto (n : nat) (p : Z) : MM (list Z) :=
  match n with
  | O => mret []
  | S n => b ← load8 p; if b =? 0 then mret [] else bs ← read_upto n (p + 1); mret (b :: bs)
  end.

Definition execve_failed (task old_page_dir new_page_dir : Z) : K Z :=
  (if negb (new_page_dir =? 0) then
     upd_task task (fun t => set_t_tss (set_tss_cr3 old_page_dir (t_tss t)) t);;
     mmu_set_page_dir old_page_dir;;
     memory_destroy_uvm new_page_dir
   else mret tt);;
  mret (-1).

(** The frame the system call returns through. *)
Definition execve_frame (frame entry stack_top : Z) : MM unit :=
  store32 (frame + fr_eip) entry;;
  store32 (frame + fr_eax) 0;;
  store32 (frame + fr_ebx) 0;;
  store32 (frame + fr_ecx) 0;;
  store32 (frame + fr_edx) 0;;
  store32 (frame + fr_esi) 0;;
  store32 (frame + fr_edi) 0;;
  store32 (frame + fr_ebp) 0;;
  store32 (frame + fr_eflags) (Z.lor EFLAGS_DEFAULT EFLAGS_IF);;
  store32 (frame + fr_esp) (u32 (stack_top - 4 * SYSCALL_PARAM_COUNT)).

Definition sys_execve (name argv env : Z) : K Z :=
  task ← task_current;
  file_name ← lift (get_file_name name);
  chars ← lift (read_upto (Z.to_nat TASK_NAME_SIZE) file_name);
  t ← get_task task;
  named ← kopt (task_set_name chars t);
  upd_task task (fun _ => named);;
  let old_page_dir := tss_cr3 (t_tss t) in
  new_page_dir ← memory_create_uvm;
  if new_page_dir =? 0 then execve_failed task old_page_dir new_page_dir
  else
    entry ← load_elf_file task name new_page_dir;
    if entry =? 0 then execve_failed task old_page_dir new_page_dir
    else
      let stack_top := MEM_TASK_STACK_TOP - MEM_TASK_ARG_SIZE in
      err ← memory_alloc_for_page_dir new_page_dir (MEM_TASK_STACK_TOP - MEM_TASK_STACK_SIZE)
              MEM_TASK_STACK_SIZE (Z.lor (Z.lor PTE_P PTE_U) PTE_W);
      if err <? 0 then execve_failed task old_page_dir new_page_dir
      else
        argc ← lift (strings_count argv);
        err ← copy_args stack_top new_page_dir argc argv;
        if err <? 0 then execve_failed task old_page_dir new_page_dir
        else
          t ← get_task task;
          let frame := u32 (tss_esp0 (t_tss t) - SIZEOF_SYSCALL_FRAME) in
          lift (execve_frame frame entry stack_top);;
          upd_task task (fun t => set_t_tss (set_tss_cr3 new_page_dir (t_tss t)) t);;
          mmu_set_page_dir new_page_dir;;
          memory_destroy_uvm old_page_dir;;
          mret 0.

End Exec.
