(* ===== verification/ProgLoad.v ===== *)
(** Loading one segment of a program, [load_phdr] of kernel/core/task.c: from the image
    of the file through the new page tables to the addresses of the program. *)
From S2P Require Import Prelude DList Bitmap Machine MachineFacts Klib Format Sched Ipc Log Alloc Paging AddrSpace.
From S2P Require Import CopySpace Fs Task Exec.

Section ProgLoad.
Context `{Layout} `{Device}.

Lemma get_paddr_mapped s d va pa :
  dir_wf (k_mem s) (frames s) d -> 0 <= va < 2 ^ 32 -> mmu_walk d (k_mem s) va = Some pa ->
  memory_get_paddr d va s = Done pa s.
Proof.
  intros Hd Hva Hw. rewrite memory_get_paddr_run by done. rewrite walk_tables in Hw by apply Hd.
  destruct (table_of _ d _) as [t|]; [|done]. cbn [mbind option_bind] in Hw. unfold leaf in Hw.
  destruct (present _); [|done]. cbn [mbind option_bind] in Hw. injection Hw as <-.
  unfold pte_paddr. by rewrite shift_page.
Qed.

(** One read from the file image into a page. *)
Lemma sys_read_run s p c :
  p <> 0 -> k_temp_pos s <> 0 -> 0 <= k_temp_pos s -> k_temp_pos s + c < 2 ^ 32 -> 0 <= c < 2 ^ 32 -> kblock p c -> kblock (k_temp_pos s) c ->
  p + c <= k_temp_pos s \/ k_temp_pos s + c <= p ->
  exists m, sys_read TEMP_FD p c s = Done c (set_k_temp_pos (k_temp_pos s + c) (set_k_mem m s)) /\
    same_outside p c (k_mem s) m /\ forall i, 0 <= i < c -> mget m (p + i) = mget (k_mem s) (k_temp_pos s + i).
Proof.
  intros Hp Hs Hs0 Hse Hc Hbp Hbs Hdis.
  destruct (kmemcpy_spec p (k_temp_pos s) c (k_cr3 s) (k_mem s) (fun i => k_temp_pos s + i)) as (m & E & Ho & Hb);
    [done | done | done | done | by apply readable_kernel | intros; lia |].
  exists m. split_and!; [|done|done]. unfold sys_read. change (TEMP_FD =? TEMP_FD) with true. kred.
  erewrite lift_done by exact E. kred. by rewrite u32_small by lia.
Qed.

(** ** The pages of a segment

    [s] is the state before the frames [ps] were mapped at [vaddr] in the space [d]. *)
Section Segment.
Variables (s : kst) (d vaddr file filesz : Z) (ps : list Z) (f : Z -> option Z).

Record segment_pre : Prop := {
  sp_paging : paging_ok s;
  sp_vaddr : 0 <= vaddr /\ vaddr mod 4096 = 0 /\ vaddr + filesz < 2 ^ 32;
  sp_pages : 0 <= filesz <= Z.of_nat (length ps) * 4096 /\ NoDup ps;
  sp_file : 0 < file /\ file + filesz < 2 ^ 32 /\ kblock file filesz;
  sp_apart : forall i, 0 <= i < filesz -> (page_of (file + i) ∉ frames s) /\ ~ pt_page (k_mem s) d (page_of (file + i))
}.

Hypothesis Hpre : segment_pre.

(** The page tables are those of the segment. *)
Definition mapped (s1 : kst) : Prop :=
  map_step d ps s s1 /\ forall x, 0 <= x < 2 ^ 32 -> mmu_walk d (k_mem s1) x = map_frames vaddr ps f x.

Lemma mapped_page s1 o :
  mapped s1 -> 0 <= o < filesz ->
  exists p, ps !! Z.to_nat (o / 4096) = Some p /\ page_ok p /\ p ∈ ps /\ p ∈ frames s /\
    mmu_walk d (k_mem s1) (vaddr + o) = Some (p + o mod 4096).
Proof.
  intros [Hs Hw] Ho. destruct Hpre as [Hok (Hv & Hvm & Hve) [Hf _] _ _].
  destruct (lookup_lt_is_Some_2 ps (Z.to_nat (o / 4096))) as [p Ep]; [zdiv|].
  assert (p ∈ ps) as Hp by (by eapply list_elem_of_lookup_2). destruct (ms_data _ _ _ _ Hs p Hp) as [Hpf _].
  exists p. split_and!; try done.
  - apply (po_frames _ Hok). by apply free_frames_all.
  - rewrite Hw by lia. unfold map_frames. rewrite decide_True by lia. replace (vaddr + o - vaddr) with o by lia. by rewrite Ep.
Qed.

Lemma file_byte_kept s1 i : mapped s1 -> 0 <= i < filesz -> mget (k_mem s1) (file + i) = mget (k_mem s) (file + i).
Proof.
  intros [Hs _] Hi. destruct (sp_apart Hpre i Hi) as [Hf Hp]. apply (ms_frame _ _ _ _ Hs (page_of (file + i))); [| |done].
  - intros Hq. by destruct (ms_new _ _ _ _ Hs _ Hq).
  - intros Hq. by destruct (ms_data _ _ _ _ Hs _ Hq).
Qed.

(** The bytes [lo .. hi) of the segment are in place. *)
Definition loaded_upto (s1 : kst) (hi : Z) : Prop :=
  forall i pa, 0 <= i < hi -> mmu_walk d (k_mem s1) (vaddr + i) = Some pa -> mget (k_mem s1) pa = mget (k_mem s) (file + i).

(** One round: [c] bytes from offset [o] on, a page or the rest. *)
Lemma load_round s1 o c :
  mapped s1 -> loaded_upto s1 o -> o mod 4096 = 0 -> 0 <= o -> 0 < c <= 4096 -> o + c <= filesz ->
  exists s2 paddr, memory_get_paddr d (vaddr + o) (set_k_temp_pos (file + o) s1) = Done paddr (set_k_temp_pos (file + o) s1) /\
    sys_read TEMP_FD paddr c (set_k_temp_pos (file + o) s1) = Done c (set_k_temp_pos (file + (o + c)) s2) /\
    mapped s2 /\ loaded_upto s2 (o + c) /\ frames s2 = frames s1.
Proof.
  intros Hm Hl Hom Ho Hc Hoc. pose proof Hm as [Hs Hw]. destruct Hpre as [Hok (Hv & Hvm & Hve) [Hf Hnd] (Hfp & Hfe & Hfb) Hap].
  destruct (mapped_page s1 o Hm) as (p & Ep & Hpok & Hp & Hpf & Hwp); [lia|].
  rewrite Hom, Z.add_0_r in Hwp. pose proof (page_ok_bounds _ Hpok) as Hpb. pose proof Hpok as [Hpm _].
  assert (kblock p c) as Hbp by (intros i Hi; apply page_ok_word; [done | lia]).
  assert (kblock (file + o) c) as Hbf by (intros i Hi; rewrite <- Z.add_assoc; apply Hfb; lia).
  assert (p + c <= file + o \/ file + o + c <= p) as Hdis.
  { destruct (decide (file + o + c <= p)); [by right|]. destruct (decide (p + c <= file + o)); [by left|]. exfalso.
    set (i := Z.max p (file + o) - file). assert (0 <= i < filesz) as Hi by (unfold i; lia).
    destruct (Hap i Hi) as [Hn _]. apply Hn. replace (page_of (file + i)) with p; [done|]. unfold page_of, i. zdiv. }
  assert (p <> 0) as Hp0.
  { intros ->. destruct (frame_bounds _ _ (po_alloc _ Hok) (free_frames_all _ _ Hpf)) as [Hb _]. unfold MEM_EXT_START in Hb. lia. }
  destruct (sys_read_run (set_k_temp_pos (file + o) s1) p c) as (m & E & Hout & Hb); kproj; try done; try lia.
  change (k_temp_pos (set_k_temp_pos (file + o) s1)) with (file + o) in *.
  change (k_mem (set_k_temp_pos (file + o) s1)) with (k_mem s1) in *.
  assert (same_outside p 4096 (k_mem s1) m) as Hout' by (intros x Hx; apply Hout; lia).
  destruct (write_data d ps s s1 p m Hs Hp Hpm Hout') as [Hs2 Hw2].
  exists (set_k_mem m s1), p. split_and!.
  - apply (get_paddr_mapped (set_k_temp_pos (file + o) s1)); [apply Hs | lia | exact Hwp].
  - rewrite E. kproj. rewrite Z.add_assoc. by destruct s1.
  - split; [done|]. intros x Hx. kproj. by rewrite Hw2, Hw.
  - intros i pa Hi. kproj. rewrite Hw2 by lia. intros Hpa. destruct (decide (i < o)) as [Hio|Hio].
    + destruct (mapped_page s1 i Hm) as (q & Eq & Hqok & _ & _ & Hwq); [lia|].
      rewrite Hout; [apply Hl; [lia | done]|]. assert (pa = q + i mod 4096) as -> by congruence. intros Hin. pose proof Hqok as [Hqm _].
      assert (q = p) as -> by zdiv. pose proof (NoDup_lookup _ _ _ _ Hnd Eq Ep) as Ei. zdiv.
    + rewrite (walk_page d _ (vaddr + o)) in Hpa; [|apply (dw_dir _ _ _ (ms_dir _ _ _ _ Hs)) | zdiv | lia]. rewrite Hwp in Hpa. cbn in Hpa. injection Hpa as <-.
      replace (p + (vaddr + i - (vaddr + o))) with (p + (i - o)) by lia. rewrite Hb by lia.
      replace (file + o + (i - o)) with (file + i) by lia. apply (file_byte_kept s1 i Hm). lia.
  - done.
Qed.

Lemma load_phdr_loop_run fuel : forall o s1,
  mapped s1 -> loaded_upto s1 o -> o mod 4096 = 0 \/ o = filesz -> 0 <= o <= filesz -> filesz - o <= 4096 * Z.of_nat fuel ->
  exists s2, load_phdr_loop fuel TEMP_FD d (vaddr + o) (filesz - o) (set_k_temp_pos (file + o) s1) =
      Done 0 (set_k_temp_pos (file + filesz) s2) /\ mapped s2 /\ loaded_upto s2 filesz /\ frames s2 = frames s1.
Proof.
  destruct Hpre as [Hok (Hv & Hvm & Hve) [Hf Hnd] (Hfp & Hfe & Hfb) Hap].
  induction fuel as [|fuel IH]; intros o s1 Hm Hl Hom Ho Hfu.
  { assert (o = filesz) as -> by lia. exists s1. split; [|done]. rewrite Z.sub_diag. reflexivity. }
  cbn [load_phdr_loop]. destruct (Z.gtb_spec (filesz - o) 0) as [Hgt|Hle].
  2: { assert (o = filesz) as -> by lia. by exists s1. }
  destruct Hom as [Hom| ->]; [|lia].
  set (c := if filesz - o >? MEM_PAGE_SIZE then MEM_PAGE_SIZE else filesz - o).
  assert (0 < c <= 4096 /\ o + c <= filesz /\ (c = 4096 \/ o + c = filesz)) as (Hc & Hoc & Hend).
  { unfold c, MEM_PAGE_SIZE. destruct (Z.gtb_spec (filesz - o) 4096); lia. }
  destruct (load_round s1 o c Hm Hl Hom ltac:(lia) Hc Hoc) as (s2 & paddr & E1 & E2 & Hm2 & Hl2 & Ef2).
  rewrite run_bind, E1. cbn [obind]. rewrite run_bind, E2. cbn [obind]. rewrite Z.ltb_irrefl.
  rewrite u32_small by lia. replace (vaddr + o + c) with (vaddr + (o + c)) by lia.
  replace (filesz - o - c) with (filesz - (o + c)) by lia. rewrite <- Ef2. apply IH; [done | done | | lia | lia].
  destruct Hend as [->|]; [left; zdiv | by right].
Qed.

End Segment.

(** A program header in the kernel, apart from the frames and the tables of the space. *)
Definition header_ok (s : kst) (d phdr : Z) : Prop :=
  forall off, 0 <= off < SIZEOF_PHDR -> kmapped (phdr + off) = true /\ (page_of (phdr + off) ∉ frames s) /\
    ~ pt_page (k_mem s) d (page_of (phdr + off)).

Lemma header_word s d phdr off :
  header_ok s d phdr -> 0 <= off -> off + 4 <= SIZEOF_PHDR ->
  lift (load32 (phdr + off)) s = Done (ld32 (k_mem s) (phdr + off)) s.
Proof.
  intros Hh Ho Ho4. erewrite lift_done by (apply load32_kernel, Hh; lia). by rewrite set_k_mem_id.
Qed.

Lemma header_kept s s1 d phdr off ps :
  header_ok s d phdr -> map_step d ps s s1 -> 0 <= off -> off + 4 <= SIZEOF_PHDR ->
  ld32 (k_mem s1) (phdr + off) = ld32 (k_mem s) (phdr + off) /\
  forall tp, lift (load32 (phdr + off)) (set_k_temp_pos tp s1) = Done (ld32 (k_mem s) (phdr + off)) (set_k_temp_pos tp s1).
Proof.
  intros Hh Hs Ho Ho4. assert (ld32 (k_mem s1) (phdr + off) = ld32 (k_mem s) (phdr + off)) as E.
  { apply ld32_ext. intros b Hb. destruct (Hh (b - phdr)) as (_ & Hf & Hp); [lia|].
    replace (phdr + (b - phdr)) with b in * by lia. apply (ms_frame _ _ _ _ Hs (page_of b)); [| |done].
    - intros Hq. by destruct (ms_new _ _ _ _ Hs _ Hq).
    - intros Hq. by destruct (ms_data _ _ _ _ Hs _ Hq). }
  split; [done|]. intros tp. erewrite lift_done by (apply load32_kernel, Hh; lia). kproj. rewrite E. by destruct s1.
Qed.

(** What a loadable segment needs: [n] pages of the space free, two frames for each, and
    its bytes inside the kernel's image of the file. *)
Record loadable (s : kst) (d phdr vaddr memsz off filesz : Z) : Prop := {
  la_paging : paging_ok s;
  la_dir : dir_wf (k_mem s) (frames s) d;
  la_header : header_ok s d phdr;
  la_words : ld32 (k_mem s) (phdr + p_vaddr) = vaddr /\ ld32 (k_mem s) (phdr + p_memsz) = memsz /\
    ld32 (k_mem s) (phdr + p_offset) = off /\ ld32 (k_mem s) (phdr + p_filesz) = filesz;
  la_sizes : filesz <= memsz /\ vaddr mod 4096 = 0 /\ vaddr + memsz + 4095 < 2 ^ 32;
  la_empty : forall x, vaddr <= x < vaddr + (memsz + 4095) / 4096 * 4096 -> mmu_walk d (k_mem s) x = None;
  la_room : 2 * ((memsz + 4095) / 4096) <= Z.of_nat (length (frames s));
  la_file : 0 < TEMP_ADDR /\ TEMP_ADDR + off + filesz < 2 ^ 32 /\ kblock (TEMP_ADDR + off) filesz;
  la_apart : forall i, 0 <= i < filesz -> (page_of (TEMP_ADDR + off + i) ∉ frames s) /\
    ~ pt_page (k_mem s) d (page_of (TEMP_ADDR + off + i))
}.

Lemma load_phdr_run s d phdr vaddr memsz off filesz :
  loadable s d phdr vaddr memsz off filesz ->
  exists ps s', load_phdr TEMP_FD phdr d s = Done 0 (set_k_temp_pos (TEMP_ADDR + off + filesz) s') /\
    Z.of_nat (length ps) = (memsz + 4095) / 4096 /\ NoDup ps /\ map_step d ps s s' /\
    Z.of_nat (length (frames s)) <= 2 * ((memsz + 4095) / 4096) + Z.of_nat (length (frames s')) /\
    (forall x, 0 <= x < 2 ^ 32 -> mmu_walk d (k_mem s') x = map_frames vaddr ps (mmu_walk d (k_mem s)) x) /\
    forall i, 0 <= i < filesz -> exists pa, mmu_walk d (k_mem s') (vaddr + i) = Some pa /\
      mget (k_mem s') pa = mget (k_mem s) (TEMP_ADDR + off + i).
Proof.
  intros [Hok Hd Hh (Ev & Em & Eo & Ef) (Hfm & Hvm & Hve) Hemp Hroom (Ht0 & Hte & Htb) Hap].
  pose proof (ld32_range (k_mem s) (phdr + p_vaddr)). pose proof (ld32_range (k_mem s) (phdr + p_memsz)).
  pose proof (ld32_range (k_mem s) (phdr + p_offset)). pose proof (ld32_range (k_mem s) (phdr + p_filesz)).
  destruct (memory_alloc_for_page_dir_run s d vaddr memsz (Z.lor (Z.lor PTE_P PTE_U) PTE_W) Hok Hd)
    as (ps & s1 & E & Hl & Hnd & Hs & Hlen & Hw); [lia | lia | lia | done | zdiv | done | done | done |].
  assert (segment_pre s d vaddr (TEMP_ADDR + off) filesz ps) as Hpre.
  { split; [done | lia | split; [rewrite Hl; zdiv | done] | split_and!; [lia | lia | done] | done]. }
  assert (mapped s d vaddr ps (mmu_walk d (k_mem s)) s1) as Hm by done.
  destruct (load_phdr_loop_run s d vaddr (TEMP_ADDR + off) filesz ps _ Hpre (Z.to_nat (filesz / MEM_PAGE_SIZE + 1)) 0 s1 Hm)
    as (s2 & E2 & [Hs2 Hw2] & Hb & Ef2); [intros i pa Hi; lia | by left | lia | unfold MEM_PAGE_SIZE; zdiv |].
  exists ps, s2. split_and!; try done; [| by rewrite Ef2 |].
  - assert (forall o, 0 <= o -> o + 4 <= SIZEOF_PHDR -> _) as Hk by (intros o; exact (header_kept s s1 d phdr o ps Hh Hs)).
    assert (forall tp o, 0 <= o -> o + 4 <= SIZEOF_PHDR ->
      lift (load32 (phdr + o)) (set_k_temp_pos tp s1) = Done (ld32 (k_mem s) (phdr + o)) (set_k_temp_pos tp s1)) as Hk'
      by (intros tp o Ho Ho4; by apply (Hk o Ho Ho4)).
    unfold load_phdr. rewrite run_bind, (header_word s d) by done. cbn [obind]. rewrite Ev.
    rewrite run_bind, (header_word s d) by done. cbn [obind]. rewrite Em.
    rewrite run_bind, E. cbn [obind]. change (0 <? 0) with false. cbn iota.
    assert (set_k_temp_pos (k_temp_pos s1) s1 = s1) as <- by (by destruct s1).
    rewrite run_bind, Hk' by done. cbn [obind]. rewrite Eo.
    unfold sys_lseek. change (TEMP_FD =? TEMP_FD) with true. cbn iota. rewrite run_bind, run_bind, run_modify. cbn [obind].
    rewrite run_ret. cbn [obind]. change (0 <? 0) with false. cbn iota. rewrite u32_small by lia.
    change (set_k_temp_pos (TEMP_ADDR + off) (set_k_temp_pos (k_temp_pos s1) s1)) with (set_k_temp_pos (TEMP_ADDR + off) s1).
    rewrite run_bind, Hk' by done. cbn [obind]. rewrite Ev. rewrite run_bind, Hk' by done. cbn [obind]. rewrite Ef.
    rewrite !Z.add_0_r, Z.sub_0_r in E2. exact E2.
  - intros i Hi. destruct (mapped_page s d vaddr (TEMP_ADDR + off) filesz ps _ Hpre s2 i (conj Hs2 Hw2) Hi)
      as (p & _ & _ & _ & _ & Hp).
    exists (p + i mod 4096). split; [done|]. by apply Hb.
Qed.

(** * Properties *)

(** C22: [load_phdr] maps the [memsz] bytes of a segment to frames that were free, leaves
    the rest of the space as it was, and puts the [filesz] bytes of the file at the
    program's addresses, page by page: the loop ends, after [filesz / 4096 + 1] rounds at
    most, and the processor finds byte [i] of the segment at [vaddr + i].  (What a page
    holds behind these bytes is not cleared.) *)
Theorem load_phdr_loads s d phdr vaddr memsz off filesz :
  loadable s d phdr vaddr memsz off filesz ->
  exists ps s', load_phdr TEMP_FD phdr d s = Done 0 (set_k_temp_pos (TEMP_ADDR + off + filesz) s') /\
    Z.of_nat (length ps) = (memsz + 4095) / 4096 /\ NoDup ps /\ map_step d ps s s' /\
    (forall x, 0 <= x < 2 ^ 32 -> mmu_walk d (k_mem s') x = map_frames vaddr ps (mmu_walk d (k_mem s)) x) /\
    forall i, 0 <= i < filesz -> exists pa, mmu_walk d (k_mem s') (vaddr + i) = Some pa /\
      mget (k_mem s') pa = mget (k_mem s) (TEMP_ADDR + off + i).
Proof.
  intros Hl. destruct (load_phdr_run s d phdr vaddr memsz off filesz Hl) as (ps & s' & E & Hn & Hnd & Hs & _ & Hw & Hb).
  by exists ps, s'.
Qed.

End ProgLoad.
