(* ===== verification/ExecSpace.v ===== *)
(** What [sys_execve] of kernel/core/task.c does to RAM while it builds the new space [d]:
    it maps frames, writes the pages it mapped, and writes the kernel's own buffers. *)
From S2P Require Import Prelude DList Bitmap Machine MachineFacts Klib Format Sched Ipc Log Alloc Paging AddrSpace.
From S2P Require Import CopySpace.

Section ExecSpace.
Context `{Layout} `{Device}.

(** The new page directory, and the addresses of the kernel's buffers. *)
Variables (d : Z) (scratch : Z -> Prop).

Record scratch_ok (s : kst) : Prop := {
  so_kernel : forall x, scratch x -> kmapped x = true;
  so_frames : forall x, scratch x -> page_of x ∉ frames s;
  so_tables : forall x, scratch x -> ~ pt_page (k_mem s) d (page_of x)
}.

(** [s'] is [s] with the frames [ds] mapped in [d]: besides RAM and the allocator, the file
    position and the disk's ports may have moved. *)
Record exec_step (ds : list Z) (s s' : kst) : Prop := {
  es_state : exists m a tp rd o, s' = set_k_out o (set_k_reads rd (set_k_temp_pos tp (set_k_alloc a (set_k_mem m s))));
  es_ok : paging_ok s';
  es_dir : dir_wf (k_mem s') (frames s') d;
  es_frames : forall p, p ∈ frames s' -> p ∈ frames s;
  es_data : forall p, p ∈ ds -> p ∈ frames s /\ (p ∉ frames s') /\ ~ pt_page (k_mem s') d p;
  es_new : forall p, pt_page (k_mem s') d p -> pt_page (k_mem s) d p \/ p ∈ frames s;
  es_old : forall p, pt_page (k_mem s) d p -> pt_page (k_mem s') d p;
  es_frame : forall x, ~ pt_page (k_mem s') d (page_of x) -> page_of x ∉ ds -> ~ scratch x ->
    mget (k_mem s') x = mget (k_mem s) x;
  es_region : all_frames (k_alloc s') = all_frames (k_alloc s)
}.

Lemma exec_refl s : paging_ok s -> dir_wf (k_mem s) (frames s) d -> exec_step [] s s.
Proof.
  intros Hok Hd. constructor; try done; [| by intros p ?%not_elem_of_nil | by left].
  exists (k_mem s), (k_alloc s), (k_temp_pos s), (k_reads s), (k_out s). by destruct s.
Qed.

Lemma exec_map ds s s' : map_step d ds s s' -> exec_step ds s s'.
Proof.
  intros Hs. pose proof (fun p => pt_page_mono d ds s s' p Hs) as Hmono.
  destruct Hs as [(m & a & ->) Ho Hd (ps & Ef & Hps) Hda Ht Hn Hf Hr].
  constructor; try done.
  - exists m, a, (k_temp_pos s), (k_reads s), (k_out s). by destruct s.
  - intros p Hp. rewrite Ef. apply elem_of_app. by right.
  - intros x Hx Hxd _. by apply (Hf (page_of x)).
Qed.

Lemma exec_trans ds ds' s1 s2 s3 : exec_step ds s1 s2 -> exec_step ds' s2 s3 -> exec_step (ds ++ ds') s1 s3.
Proof.
  intros [(m & a & tp & rd & o & ->) Ho Hd Hf Hda Hn Hold Hfr Hr] [(m' & a' & tp' & rd' & o' & ->) Ho' Hd' Hf' Hda' Hn' Hold' Hfr' Hr'].
  constructor; try done; [| auto | | | auto | | by rewrite Hr'].
  - exists m', a', tp', rd', o'. by destruct s1.
  - intros p [Hp|Hp]%elem_of_app.
    + destruct (Hda p Hp) as (H1 & H2 & H3). split_and!; [done | naive_solver | naive_solver].
    + destruct (Hda' p Hp) as (H1 & H2 & H3). split_and!; [naive_solver | done | done].
  - intros p [Hp|Hp]%Hn'; [by apply Hn|]. right. by apply Hf.
  - intros x Hx [Hx1 Hx2]%not_elem_of_app Hs. rewrite Hfr' by done. apply Hfr; [|done|done]. naive_solver.
Qed.

Lemma exec_scratch ds s s' : exec_step ds s s' -> scratch_ok s -> scratch_ok s'.
Proof.
  intros [_ _ _ Hf _ Hn _ _ _] [Hk Hsf Hst]. constructor; [done | |].
  - intros x Hx Hin%Hf. by apply (Hsf x).
  - intros x Hx [Hin|Hin]%Hn; [by apply (Hst x) | by apply (Hsf x)].
Qed.

(** Writing pages mapped before, or buffers; the disk and the file position move. *)
Lemma exec_write ds s s' m tp rd o :
  exec_step ds s s' -> scratch_ok s ->
  (forall x, page_of x ∉ ds -> ~ scratch x -> mget m x = mget (k_mem s') x) ->
  exec_step ds s (set_k_out o (set_k_reads rd (set_k_temp_pos tp (set_k_mem m s')))) /\
  forall x, 0 <= x < 2 ^ 32 -> mmu_walk d m x = mmu_walk d (k_mem s') x.
Proof.
  intros Hs Hsc Hm. pose proof (exec_scratch _ _ _ Hs Hsc) as Hsc'.
  destruct Hs as [(m1 & a & tp1 & rd1 & o1 & ->) Ho Hd Hf Hda Hn Hold Hfr Hr].
  set (s1 := set_k_out o1 (set_k_reads rd1 (set_k_temp_pos tp1 (set_k_alloc a (set_k_mem m1 s))))) in *.
  assert (forall p, pt_page (k_mem s1) d p -> same_page (k_mem s1) m p) as Hsame.
  { intros p Hp x <-. apply Hm; [intros Hin; by destruct (Hda _ Hin) as (_ & _ & ?)|].
    intros Hx. by apply (so_tables _ Hsc' x). }
  assert (forall i, 0 <= i < 1024 -> table_of m d i = table_of (k_mem s1) d i) as E.
  { intros i Hi. apply table_of_ext; [apply Hd | apply Hsame; by left | done]. }
  assert (forall q, pt_page m d q <-> pt_page (k_mem s1) d q) as Hpt.
  { intros q. unfold pt_page. split; (intros [->|(i & Hi & Eq)]; [by left|]; right; exists i; split; [done|]);
      [by rewrite <- E | by rewrite E]. }
  split; [|intros x Hx; by apply (walk_ext (k_mem s1) m (frames s1))].
  constructor; try done.
  - exists m, a, tp, rd, o. by destruct s.
  - by destruct Ho.
  - apply (dir_wf_ext (k_mem s1)); [done|]. apply Hsame. by left.
  - intros p Hp. kproj. rewrite Hpt. by apply Hda.
  - intros p Hp%Hpt. by apply Hn.
  - intros p Hp%Hold. by apply Hpt.
  - intros x Hx Hxd Hxs. kproj. rewrite Hm by done. apply Hfr; [|done|done]. intros Hp%Hpt. done.
Qed.

(** A page of something else. *)
Definition foreign (s : kst) (p : Z) : Prop :=
  (p ∉ frames s) /\ ~ pt_page (k_mem s) d p /\ forall x, page_of x = p -> ~ scratch x.

Lemma exec_foreign ds s s' p : exec_step ds s s' -> foreign s p -> same_page (k_mem s) (k_mem s') p.
Proof.
  intros Hs (Hf & Hp & Hx) x <-. apply (es_frame _ _ _ Hs); [| |by apply Hx].
  - intros [?|?]%(es_new _ _ _ Hs); done.
  - intros Hin. by destruct (es_data _ _ _ Hs _ Hin).
Qed.

(** Words of a buffer. *)
Lemma scratch_load s x :
  scratch_ok s -> scratch x -> lift (load32 x) s = Done (ld32 (k_mem s) x) s.
Proof.
  intros Hsc Hx. erewrite lift_done by (apply load32_kernel, (so_kernel _ Hsc), Hx). by rewrite set_k_mem_id.
Qed.

Lemma exec_kept ds s s' x :
  exec_step ds s s' -> (page_of x ∉ frames s) -> ~ pt_page (k_mem s) d (page_of x) -> ~ scratch x ->
  mget (k_mem s') x = mget (k_mem s) x.
Proof.
  intros Hs Hf Hp Hx. apply (es_frame _ _ _ Hs); [| |done].
  - intros [?|?]%(es_new _ _ _ Hs); done.
  - intros Hin. by destruct (es_data _ _ _ Hs _ Hin).
Qed.

(** While frames are mapped the buffers stay. *)
Lemma map_scratch ds s s' x : scratch_ok s -> map_step d ds s s' -> scratch x -> mget (k_mem s') x = mget (k_mem s) x.
Proof.
  intros Hsc Hs Hx. pose proof (exec_scratch _ _ _ (exec_map _ _ _ Hs) Hsc) as Hsc'.
  apply (ms_frame _ _ _ _ Hs (page_of x)); [by apply (so_tables _ Hsc') | | done].
  intros Hin. destruct (ms_data _ _ _ _ Hs _ Hin) as (Hf & _). by apply (so_frames _ Hsc x).
Qed.

End ExecSpace.
