(* ===== verification/LoadElf.v ===== *)
(** Reading a program from the file, [load_elf_file] of kernel/core/task.c: the header, the
    program headers up to the first one that can be loaded, and its segment. *)
From S2P Require Import Prelude DList Bitmap Machine MachineFacts Klib Format Sched Ipc Log Alloc Paging AddrSpace.
From S2P Require Import CopySpace Fs Task TaskLife Exec ProgLoad ExecSpace.

(** Words of a file given by its bytes. *)
Definition word16 (f : Z -> Z) (o : Z) : Z := f o + 2 ^ 8 * f (o + 1).
Definition word32 (f : Z -> Z) (o : Z) : Z := f o + 2 ^ 8 * f (o + 1) + 2 ^ 16 * f (o + 2) + 2 ^ 24 * f (o + 3).

(** The position of a program header. *)
Definition phdr_at (f : Z -> Z) (i : Z) : Z := word32 f e_phoff + word16 f e_phentsize * i.

(** The first program header that [load_elf_file] loads, the [n]-th, describes a segment at
    [vaddr]: [filesz] bytes from [off] on in the first 40 KiB of the file. *)
Record elf_program (f : Z -> Z) (n vaddr memsz off filesz : Z) : Prop := {
  ep_magic : f 0 = ELF_MAGIC /\ f 1 = 0x45 /\ f 2 = 0x4c /\ f 3 = 0x46;
  ep_phdrs : 0 < word16 f e_phentsize /\ 0 < word32 f e_phoff /\ 0 <= n < word16 f e_phnum;
  ep_room : phdr_at f n + SIZEOF_PHDR <= 40960;
  ep_skipped : forall i, 0 <= i < n ->
    word32 f (phdr_at f i + p_type) <> PT_LOAD \/ word32 f (phdr_at f i + p_vaddr) < MEMORY_TASK_BASE;
  ep_type : word32 f (phdr_at f n + p_type) = PT_LOAD;
  ep_words : word32 f (phdr_at f n + p_vaddr) = vaddr /\ word32 f (phdr_at f n + p_memsz) = memsz /\
    word32 f (phdr_at f n + p_offset) = off /\ word32 f (phdr_at f n + p_filesz) = filesz;
  ep_sizes : MEMORY_TASK_BASE <= vaddr /\ vaddr mod 4096 = 0 /\ filesz <= memsz /\ vaddr + memsz + 4095 < 2 ^ 32;
  ep_bytes : off + filesz <= 40960
}.

Lemma word16_range f o : (forall i, 0 <= f i < 256) -> 0 <= word16 f o < 65536.
Proof. intros Hf. unfold word16. pose proof (Hf o). pose proof (Hf (o + 1)). lia. Qed.

Lemma word32_range f o : (forall i, 0 <= f i < 256) -> 0 <= word32 f o < 2 ^ 32.
Proof.
  intros Hf. unfold word32. pose proof (Hf o). pose proof (Hf (o + 1)). pose proof (Hf (o + 2)). pose proof (Hf (o + 3)). lia.
Qed.

(** A word of a file that is at [p] in memory. *)
Lemma file_word32 m p f o lo n :
  (forall i, lo <= i < n -> mget m (p + i) = f i) -> lo <= o -> o + 4 <= n -> ld32 m (p + o) = word32 f o.
Proof.
  intros Hm Ho Hn. unfold ld32, word32. rewrite <- !Z.add_assoc, !Hm by lia. lia.
Qed.

Section LoadElf.
Context `{Layout} `{Device}.

(** The buffers of [load_elf_file]: its two headers, and the image of the file. *)
Record load_buffers (scratch : Z -> Prop) (hdr phdr : Z) : Prop := {
  lb_file : 0 < TEMP_ADDR /\ TEMP_ADDR + 40960 < 2 ^ 32 /\ forall i, 0 <= i < 40960 -> scratch (TEMP_ADDR + i);
  lb_hdr : 0 < hdr /\ forall i, 0 <= i < SIZEOF_EHDR -> scratch (hdr + i);
  lb_phdr : 0 < phdr /\ forall i, 0 <= i < SIZEOF_PHDR -> scratch (phdr + i);
  lb_apart : (hdr + SIZEOF_EHDR <= TEMP_ADDR \/ TEMP_ADDR + 40960 <= hdr) /\
    (phdr + SIZEOF_PHDR <= TEMP_ADDR \/ TEMP_ADDR + 40960 <= phdr) /\
    (hdr + SIZEOF_EHDR <= phdr \/ phdr + SIZEOF_PHDR <= hdr)
}.

Section Reading.
Variables (d : Z) (scratch : Z -> Prop) (hdr phdr : Z) (s : kst) (file : Z -> Z).
Hypothesis Hbuf : load_buffers scratch hdr phdr.
Hypothesis Hsc : scratch_ok d scratch s.
Hypothesis Hbytes : forall i, 0 <= file i < 256.

(** The file and its header have been read; nothing is mapped yet. *)
Record reading (s1 : kst) : Prop := {
  rd_step : exec_step d scratch [] s s1;
  rd_walk : forall x, 0 <= x < 2 ^ 32 -> mmu_walk d (k_mem s1) x = mmu_walk d (k_mem s) x;
  rd_frames : frames s1 = frames s;
  rd_file : forall i, 0 <= i < 40960 -> mget (k_mem s1) (TEMP_ADDR + i) = file i;
  rd_hdr : forall i, 0 <= i < SIZEOF_EHDR -> mget (k_mem s1) (hdr + i) = file i
}.

Lemma buffer_block p n s1 : exec_step d scratch [] s s1 -> (forall i, 0 <= i < n -> scratch (p + i)) -> kblock p n.
Proof. intros Hs Hp i Hi. apply (so_kernel _ _ _ Hsc). by apply Hp. Qed.

(** Reading [c] bytes of the file at offset [o] to a buffer. *)
Lemma read_buffer s1 p o c :
  exec_step d scratch [] s s1 -> (forall i, 0 <= i < 40960 -> mget (k_mem s1) (TEMP_ADDR + i) = file i) ->
  k_temp_pos s1 = TEMP_ADDR + o -> 0 < p -> 0 <= o -> 0 <= c -> o + c <= 40960 -> (forall i, 0 <= i < c -> scratch (p + i)) ->
  p + c <= TEMP_ADDR \/ TEMP_ADDR + 40960 <= p ->
  exists s2, sys_read TEMP_FD p c s1 = Done c s2 /\ exec_step d scratch [] s s2 /\
    (forall x, 0 <= x < 2 ^ 32 -> mmu_walk d (k_mem s2) x = mmu_walk d (k_mem s1) x) /\ frames s2 = frames s1 /\
    same_outside p c (k_mem s1) (k_mem s2) /\ forall i, 0 <= i < c -> mget (k_mem s2) (p + i) = file (o + i).
Proof.
  intros Hs Hfile Hpos Hp Ho Hc Hoc Hps Hap. destruct (lb_file _ _ _ Hbuf) as (Ht & Hte & Hts).
  destruct (sys_read_run s1 p c) as (m & E & Hout & Hb); rewrite ?Hpos; try lia.
  - by apply (buffer_block p c s1).
  - intros i Hi. rewrite <- Z.add_assoc. apply (so_kernel _ _ _ Hsc), Hts. lia.
  - rewrite Hpos in E, Hb.
    destruct (exec_write d scratch [] s s1 m (TEMP_ADDR + o + c) (k_reads s1) (k_out s1) Hs Hsc) as [Hs2 Hw2].
    { intros x _ Hx. apply Hout. intros Hin. apply Hx. replace x with (p + (x - p)) by lia. apply Hps. lia. }
    replace (set_k_out (k_out s1) (set_k_reads (k_reads s1) (set_k_temp_pos (TEMP_ADDR + o + c) (set_k_mem m s1))))
      with (set_k_temp_pos (TEMP_ADDR + o + c) (set_k_mem m s1)) in Hs2 by (by destruct s1).
    eexists. split_and!; [exact E | exact Hs2 | exact Hw2 | done | exact Hout |].
    intros i Hi. kproj. rewrite Hb by done. rewrite <- Z.add_assoc. apply Hfile. lia.
Qed.

Lemma lseek_run s1 o : 0 <= o < 40960 ->
  sys_lseek TEMP_FD o 0 s1 = Done 0 (set_k_temp_pos (TEMP_ADDR + o) s1).
Proof.
  intros Ho. destruct (lb_file _ _ _ Hbuf) as (Ht & Hte & _). unfold sys_lseek. change (TEMP_FD =? TEMP_FD) with true.
  kred. by rewrite u32_small by lia.
Qed.

Lemma lseek_step s1 tp : exec_step d scratch [] s s1 -> exec_step d scratch [] s (set_k_temp_pos tp s1).
Proof.
  intros Hs. destruct (exec_write d scratch [] s s1 (k_mem s1) tp (k_reads s1) (k_out s1) Hs Hsc) as [Hs2 _]; [done|].
  by replace (set_k_temp_pos tp s1) with (set_k_out (k_out s1) (set_k_reads (k_reads s1) (set_k_temp_pos tp (set_k_mem (k_mem s1) s1))))
    by (by destruct s1).
Qed.

(** The program header at [o]. *)
Lemma read_phdr s1 o :
  reading s1 -> 0 <= o -> o + SIZEOF_PHDR <= 40960 ->
  exists s2, sys_lseek TEMP_FD o 0 s1 = Done 0 (set_k_temp_pos (TEMP_ADDR + o) s1) /\
    sys_read TEMP_FD phdr SIZEOF_PHDR (set_k_temp_pos (TEMP_ADDR + o) s1) = Done SIZEOF_PHDR s2 /\ reading s2 /\
    forall i, 0 <= i < SIZEOF_PHDR -> mget (k_mem s2) (phdr + i) = file (o + i).
Proof.
  intros [Hs Hw Hfr Hfile Hhdr] Ho Hoe. destruct Hbuf as [_ _ (Hp & Hps) (Hap1 & Hap2 & Hap3)]. unfold SIZEOF_PHDR, SIZEOF_EHDR in *.
  destruct (read_buffer (set_k_temp_pos (TEMP_ADDR + o) s1) phdr o 32) as (s2 & E & Hs2 & Hw2 & Hf2 & Hout & Hb);
    try done; [by apply lseek_step|].
  exists s2. split_and!; [apply lseek_run; lia | exact E | | exact Hb]. constructor; [done | | by rewrite Hf2 | |].
  - intros x Hx. by rewrite Hw2, <- Hw.
  - intros i Hi. rewrite Hout by lia. by apply Hfile.
  - intros i Hi. unfold SIZEOF_EHDR in Hi. rewrite Hout by lia. by apply Hhdr.
Qed.

(** Words of the headers in the buffers. *)
Lemma hdr_word s1 o :
  reading s1 -> 0 <= o -> o + 4 <= SIZEOF_EHDR -> lift (load32 (hdr + o)) s1 = Done (word32 file o) s1.
Proof.
  intros Hrd Ho Hoe. pose proof (exec_scratch _ _ _ _ _ (rd_step _ Hrd) Hsc) as Hsc1.
  erewrite (scratch_load d scratch) by (done || apply (lb_hdr _ _ _ Hbuf); lia).
  by rewrite (file_word32 _ hdr file o 0 SIZEOF_EHDR) by (done || apply Hrd).
Qed.

Lemma hdr_half s1 o :
  reading s1 -> 0 <= o -> o + 2 <= SIZEOF_EHDR -> lift (load16 (hdr + o)) s1 = Done (word16 file o) s1.
Proof.
  intros Hrd Ho Hoe. destruct (lb_hdr _ _ _ Hbuf) as [_ Hh].
  assert (forall k, 0 <= k < 52 -> kmapped (hdr + k) = true) as Hk by (intros k Hk'; apply (so_kernel _ _ _ Hsc), Hh; done).
  unfold SIZEOF_EHDR in Hoe. erewrite lift_done.
  2:{ unfold load16. erewrite mm_bind_some by (apply load8_kernel, Hk; lia).
      erewrite mm_bind_some by (rewrite <- Z.add_assoc; apply load8_kernel, Hk; lia). reflexivity. }
  rewrite !(rd_hdr _ Hrd) by (unfold SIZEOF_EHDR; lia). by rewrite set_k_mem_id.
Qed.

Lemma phdr_word s1 h o :
  reading s1 -> (forall i, 0 <= i < SIZEOF_PHDR -> mget (k_mem s1) (phdr + i) = file (h + i)) ->
  0 <= o -> o + 4 <= SIZEOF_PHDR ->
  ld32 (k_mem s1) (phdr + o) = word32 file (h + o) /\ lift (load32 (phdr + o)) s1 = Done (word32 file (h + o)) s1.
Proof.
  intros Hrd Hm Ho Hoe. pose proof (exec_scratch _ _ _ _ _ (rd_step _ Hrd) Hsc) as Hsc1.
  assert (ld32 (k_mem s1) (phdr + o) = word32 file (h + o)) as E.
  { rewrite (file_word32 _ phdr (fun i => file (h + i)) o 0 SIZEOF_PHDR) by done. unfold word32. by rewrite !Z.add_assoc. }
  split; [exact E|]. by erewrite (scratch_load d scratch), E by (done || apply (lb_phdr _ _ _ Hbuf); lia).
Qed.

(** ** The loop over the program headers *)
Variables (n vaddr memsz off filesz : Z).
Hypothesis Helf : elf_program file n vaddr memsz off filesz.

Lemma phdr_at_bounds i : 0 <= i <= n -> 0 < phdr_at file i /\ phdr_at file i + SIZEOF_PHDR <= 40960.
Proof.
  intros Hi. destruct (ep_phdrs _ _ _ _ _ _ Helf) as (Hs & Ho & _). pose proof (ep_room _ _ _ _ _ _ Helf) as Hr.
  unfold phdr_at in *. split; nia.
Qed.

Lemma phdr_at_next i : 0 <= i < n -> u32 (phdr_at file i + word16 file e_phentsize) = phdr_at file (i + 1).
Proof.
  intros Hi. pose proof (phdr_at_bounds (i + 1)) as Hb. unfold SIZEOF_PHDR in Hb. unfold phdr_at in *.
  rewrite u32_small; nia.
Qed.

(** A header that is not loaded. *)
Lemma load_phdrs_skip k i s1 :
  reading s1 -> 0 <= i < n ->
  exists s2, load_phdrs (S k) TEMP_FD hdr phdr (phdr_at file i) d s1 =
      load_phdrs k TEMP_FD hdr phdr (phdr_at file (i + 1)) d s2 /\ reading s2.
Proof.
  intros Hrd Hi. destruct (phdr_at_bounds i ltac:(lia)) as [Hpos Hend].
  destruct (read_phdr s1 (phdr_at file i) Hrd ltac:(lia) Hend) as (s2 & E1 & E2 & Hrd2 & Hm).
  exists s2. split; [|done]. cbn [load_phdrs].
  rewrite run_bind, E1. cbn [obind]. change (0 <? 0) with false. cbn iota.
  rewrite run_bind, E2. cbn [obind]. change (u32 SIZEOF_PHDR <? SIZEOF_PHDR) with false. cbn iota.
  destruct (phdr_word s2 _ p_type Hrd2 Hm) as [_ Et]; [done | done |].
  destruct (phdr_word s2 _ p_vaddr Hrd2 Hm) as [_ Ev]; [done | done |].
  rewrite run_bind, Et. cbn [obind]. rewrite run_bind, Ev. cbn [obind].
  rewrite run_bind, (hdr_half s2 e_phentsize Hrd2) by done. cbn [obind].
  assert (negb (word32 file (phdr_at file i + p_type) =? PT_LOAD) ||
    (word32 file (phdr_at file i + p_vaddr) <? MEMORY_TASK_BASE) = true) as ->.
  { destruct (ep_skipped _ _ _ _ _ _ Helf i Hi) as [Hn|Hl].
    - by rewrite (proj2 (Z.eqb_neq _ _)).
    - rewrite (proj2 (Z.ltb_lt _ _)) by done. apply orb_true_r. }
  by rewrite phdr_at_next.
Qed.

(** The segment is in place: in frames that were free, mapped at [vaddr]. *)
Record segment_loaded (ps : list Z) (s' : kst) : Prop := {
  sl_step : exec_step d scratch ps s s';
  sl_pages : Z.of_nat (length ps) = (memsz + 4095) / 4096 /\ NoDup ps;
  sl_frames : Z.of_nat (length (frames s)) <= 2 * ((memsz + 4095) / 4096) + Z.of_nat (length (frames s'));
  sl_walk : forall x, 0 <= x < 2 ^ 32 -> mmu_walk d (k_mem s') x = map_frames vaddr ps (mmu_walk d (k_mem s)) x;
  sl_bytes : forall i, 0 <= i < filesz -> exists pa, mmu_walk d (k_mem s') (vaddr + i) = Some pa /\
    mget (k_mem s') pa = file (off + i)
}.

Hypothesis Hempty : forall x, vaddr <= x < vaddr + (memsz + 4095) / 4096 * 4096 -> mmu_walk d (k_mem s) x = None.
Hypothesis Hroom : 2 * ((memsz + 4095) / 4096) <= Z.of_nat (length (frames s)).

Lemma segment_loadable s1 :
  reading s1 -> (forall i, 0 <= i < SIZEOF_PHDR -> mget (k_mem s1) (phdr + i) = file (phdr_at file n + i)) ->
  loadable s1 d phdr vaddr memsz off filesz.
Proof.
  intros Hrd Hm. pose proof (exec_scratch _ _ _ _ _ (rd_step _ Hrd) Hsc) as [Hk Hf Ht].
  destruct Helf as [_ _ _ _ _ (Ev & Em & Eo & Ef) (Hv & Hvm & Hfm & Hve) Hb].
  pose proof (word32_range file (phdr_at file n + p_offset) Hbytes) as Hor.
  pose proof (word32_range file (phdr_at file n + p_filesz) Hbytes) as Hfr. rewrite Eo in Hor. rewrite Ef in Hfr.
  destruct (lb_file _ _ _ Hbuf) as (Hpos & Hend & Hfs). destruct (lb_phdr _ _ _ Hbuf) as [_ Hps].
  constructor.
  - apply (rd_step _ Hrd).
  - apply (rd_step _ Hrd).
  - intros o Ho. pose proof (Hps o Ho). split_and!; auto.
  - split_and!; [rewrite <- Ev | rewrite <- Em | rewrite <- Eo | rewrite <- Ef]; by apply phdr_word.
  - done.
  - intros x Hx. rewrite (rd_walk _ Hrd); [by apply Hempty|]. unfold MEMORY_TASK_BASE in Hv. zdiv.
  - by rewrite (rd_frames _ Hrd).
  - split_and!; [done | lia |]. intros i Hi. rewrite <- Z.add_assoc. apply Hk, Hfs. lia.
  - intros i Hi. rewrite <- Z.add_assoc. split; [apply Hf | apply Ht]; apply Hfs; lia.
Qed.

(** The header that is loaded. *)
Lemma load_phdrs_load k s1 :
  reading s1 ->
  exists ps s', load_phdrs (S k) TEMP_FD hdr phdr (phdr_at file n) d s1 = Done (word32 file e_entry) s' /\ segment_loaded ps s'.
Proof.
  intros Hrd. pose proof (ep_phdrs _ _ _ _ _ _ Helf) as (_ & _ & Hn). destruct (phdr_at_bounds n ltac:(lia)) as [Hpos Hend].
  destruct (read_phdr s1 (phdr_at file n) Hrd ltac:(lia) Hend) as (s2 & E1 & E2 & Hrd2 & Hm).
  destruct (load_phdr_run s2 d phdr vaddr memsz off filesz (segment_loadable s2 Hrd2 Hm))
    as (ps & s3 & E3 & Hl & Hnd & Hs3 & Hlen & Hw & Hb).
  set (tp := TEMP_ADDR + off + filesz) in *. exists ps, (set_k_temp_pos tp s3).
  pose proof (exec_scratch _ _ _ _ _ (rd_step _ Hrd2) Hsc) as Hsc2.
  pose proof (exec_trans _ _ _ _ _ _ _ (rd_step _ Hrd2) (exec_map d scratch _ _ _ Hs3)) as Hs. cbn [app] in Hs.
  destruct (exec_write d scratch ps s s3 (k_mem s3) tp (k_reads s3) (k_out s3) Hs Hsc) as [Hs' _]; [done|].
  replace (set_k_out (k_out s3) (set_k_reads (k_reads s3) (set_k_temp_pos tp (set_k_mem (k_mem s3) s3))))
    with (set_k_temp_pos tp s3) in Hs' by (by destruct s3).
  destruct Helf as [_ _ _ _ Et (Ev & _ & Eo & Ef) (Hv & _) Hob]. split.
  - cbn [load_phdrs]. rewrite run_bind, E1. cbn [obind]. change (0 <? 0) with false. cbn iota.
    rewrite run_bind, E2. cbn [obind]. change (u32 SIZEOF_PHDR <? SIZEOF_PHDR) with false. cbn iota.
    destruct (phdr_word s2 _ p_type Hrd2 Hm) as [_ Et']; [done | done |].
    destruct (phdr_word s2 _ p_vaddr Hrd2 Hm) as [_ Ev']; [done | done |].
    rewrite run_bind, Et'. cbn [obind]. rewrite run_bind, Ev'. cbn [obind].
    rewrite run_bind, (hdr_half s2 e_phentsize Hrd2) by done. cbn [obind].
    rewrite Et, Ev, Z.eqb_refl, (proj2 (Z.ltb_ge _ _)) by done. cbn [negb orb].
    rewrite run_bind, E3. cbn [obind]. change (0 <? 0) with false. cbn iota.
    unfold sys_close. rewrite run_bind, run_ret. cbn [obind].
    erewrite (scratch_load d scratch);
      [| by apply (exec_scratch _ _ _ _ _ Hs') | apply (lb_hdr _ _ _ Hbuf); done].
    f_equal. rewrite (file_word32 _ hdr file e_entry 0 SIZEOF_EHDR) by
      (try done; intros i Hi; kproj; rewrite (map_scratch d scratch ps s2 s3) by (done || by apply (lb_hdr _ _ _ Hbuf)); by apply Hrd2).
    done.
  - constructor; [done | by split | by rewrite <- (rd_frames _ Hrd2) | |].
    + intros x Hx. kproj. rewrite Hw by done. unfold map_frames. by rewrite (rd_walk _ Hrd2) by done.
    + intros i Hi. destruct (Hb i Hi) as (pa & Ep & Em). exists pa. split; [done|]. kproj. rewrite Em, <- Z.add_assoc.
      apply Hrd2. pose proof (word32_range file (phdr_at file n + p_offset) Hbytes). lia.
Qed.

Lemma load_phdrs_run k : forall i s1,
  reading s1 -> 0 <= i -> i + Z.of_nat k = n ->
  exists ps s', load_phdrs (Z.to_nat (word16 file e_phnum - i)) TEMP_FD hdr phdr (phdr_at file i) d s1 =
    Done (word32 file e_entry) s' /\ segment_loaded ps s'.
Proof.
  pose proof (ep_phdrs _ _ _ _ _ _ Helf) as (_ & _ & Hn).
  induction k as [|k IH]; intros i s1 Hrd Hi Hk; (replace (Z.to_nat (word16 file e_phnum - i))
    with (S (Z.to_nat (word16 file e_phnum - (i + 1)))) by lia).
  - replace i with n by lia. by apply load_phdrs_load.
  - destruct (load_phdrs_skip (Z.to_nat (word16 file e_phnum - (i + 1))) i s1 Hrd ltac:(lia)) as (s2 & E & Hrd2).
    rewrite E. apply (IH (i + 1) s2 Hrd2); lia.
Qed.

End Reading.

(** ** load_elf_file *)
Lemma stack_local_run s cur t off :
  curr_task (k_tm s) = cur -> k_tasks s !! cur = Some t -> stack_local off s = Done (u32 (tss_esp0 (t_tss t) - off)) s.
Proof.
  intros <- Ht. unfold stack_local, task_current. kred. by rewrite (get_task_run _ _ t Ht).
Qed.

Lemma disk_byte_range k x : 0 <= disk_byte k x < 256.
Proof. apply u8_range. Qed.

(** What opening the file and reading its header leave. *)
Lemma open_program d scratch hdr phdr s name :
  load_buffers scratch hdr phdr -> scratch_ok d scratch s -> paging_ok s -> dir_wf (k_mem s) (frames s) d ->
  disk_ready -> load8 name (k_cr3 s) (k_mem s) = Some (0x2f, k_mem s) ->
  exists s1 s2, sys_open name 0 s = Done TEMP_FD s1 /\ sys_read TEMP_FD hdr SIZEOF_EHDR s1 = Done SIZEOF_EHDR s2 /\
    reading d scratch hdr s (disk_byte (k_reads s)) s2.
Proof.
  intros Hbuf Hsc Hok Hd Hdisk Hname. pose proof Hbuf as [(Ht & Hte & Hts) (Hh & Hhs) _ (Hap & _)].
  destruct (sys_open_run s name 0 Hdisk) as (m & rd & E & Ho & Hb); [split_and!; [done | done |] | done |].
  { intros i Hi. by apply (so_kernel _ _ _ Hsc), Hts. }
  destruct (exec_write d scratch [] s s m TEMP_ADDR rd (reverse (lba48 5000 80) ++ k_out s)) as [Hs1 Hw1];
    [by apply exec_refl | done | |].
  { intros x _ Hx. apply Ho. intros Hin. apply Hx. replace x with (TEMP_ADDR + (x - TEMP_ADDR)) by lia. apply Hts. lia. }
  set (s1 := set_k_temp_pos TEMP_ADDR (set_k_reads rd (set_k_out (reverse (lba48 5000 80) ++ k_out s) (set_k_mem m s)))) in E.
  change (set_k_out _ _) with s1 in Hs1.
  destruct (read_buffer d scratch hdr phdr s (disk_byte (k_reads s)) Hbuf Hsc s1 hdr 0 SIZEOF_EHDR) as (s2 & E2 & Hs2 & Hw2 & Hf2 & Hout & Hb2);
    try done.
  { unfold s1. kproj. lia. }
  exists s1, s2. split_and!; [done | done |]. constructor; [done | | by rewrite Hf2 | |].
  - intros x Hx. by rewrite Hw2, <- Hw1.
  - intros i Hi. unfold SIZEOF_EHDR in *. rewrite Hout by lia. by apply Hb.
  - exact Hb2.
Qed.

Lemma magic_run d scratch hdr phdr s file s2 n vaddr memsz off filesz :
  load_buffers scratch hdr phdr -> scratch_ok d scratch s -> reading d scratch hdr s file s2 ->
  elf_program file n vaddr memsz off filesz -> lift (elf_magic_ok (hdr + e_ident)) s2 = Done true s2.
Proof.
  intros Hbuf Hsc Hrd [(M0 & M1 & M2 & M3) _ _ _ _ _ _ _]. destruct (lb_hdr _ _ _ Hbuf) as [_ Hh].
  assert (forall k, 0 <= k < 52 -> kmapped (hdr + k) = true) as Hk by (intros k Hk'; apply (so_kernel _ _ _ Hsc), Hh; done).
  erewrite lift_done.
  2:{ unfold elf_magic_ok, e_ident. rewrite <- !Z.add_assoc. cbn [Z.add].
      do 4 (erewrite mm_bind_some by (apply load8_kernel, Hk; lia)). reflexivity. }
  rewrite !(rd_hdr _ _ _ _ _ _ Hrd) by (unfold SIZEOF_EHDR; lia). change (0 + 1) with 1. change (0 + 2) with 2. change (0 + 3) with 3. by rewrite M0, M1, M2, M3, set_k_mem_id.
Qed.

Lemma load_elf_file_run d scratch hdr phdr s task name t n vaddr memsz off filesz :
  let file := disk_byte (k_reads s) in
  load_buffers scratch hdr phdr -> scratch_ok d scratch s -> paging_ok s -> dir_wf (k_mem s) (frames s) d ->
  disk_ready -> load8 name (k_cr3 s) (k_mem s) = Some (0x2f, k_mem s) ->
  k_tasks s !! curr_task (k_tm s) = Some t ->
  u32 (tss_esp0 (t_tss t) - stk_elf_hdr) = hdr -> u32 (tss_esp0 (t_tss t) - stk_elf_phdr) = phdr ->
  elf_program file n vaddr memsz off filesz ->
  (forall x, vaddr <= x < vaddr + (memsz + 4095) / 4096 * 4096 -> mmu_walk d (k_mem s) x = None) ->
  2 * ((memsz + 4095) / 4096) <= Z.of_nat (length (frames s)) ->
  exists ps s', load_elf_file task name d s = Done (word32 file e_entry) s' /\
    segment_loaded d scratch s file vaddr memsz off filesz ps s'.
Proof.
  intros file Hbuf Hsc Hok Hd Hdisk Hname Ht Ehdr Ephdr Helf Hempty Hroom.
  destruct (open_program d scratch hdr phdr s name Hbuf Hsc Hok Hd Hdisk Hname) as (s1 & s2 & E1 & E2 & Hrd). fold file in Hrd.
  destruct (load_phdrs_run d scratch hdr phdr s file Hbuf Hsc (disk_byte_range _) n vaddr memsz off filesz Helf Hempty Hroom
    (Z.to_nat n) 0 s2 Hrd) as (ps & s' & E & Hl); [lia | pose proof (ep_phdrs _ _ _ _ _ _ Helf); lia |].
  exists ps, s'. split; [|done]. unfold load_elf_file.
  rewrite run_bind, (stack_local_run _ _ _ _ eq_refl Ht), Ehdr. cbn [obind].
  rewrite run_bind, (stack_local_run _ _ _ _ eq_refl Ht), Ephdr. cbn [obind].
  rewrite run_bind, E1. cbn [obind]. change (TEMP_FD <? 0) with false. cbn iota.
  rewrite run_bind, E2. cbn [obind]. change (u32 SIZEOF_EHDR <? SIZEOF_EHDR) with false. cbn iota.
  rewrite run_bind, (magic_run d scratch hdr phdr s file s2 _ _ _ _ _ Hbuf Hsc Hrd Helf). cbn [obind negb].
  rewrite run_bind, (hdr_half d scratch hdr phdr s file Hbuf Hsc s2) by done. cbn [obind].
  rewrite run_bind, (hdr_word d scratch hdr phdr s file Hbuf Hsc s2) by done. cbn [obind].
  destruct (ep_phdrs _ _ _ _ _ _ Helf) as (Hz & Ho & _). rewrite !(proj2 (Z.eqb_neq _ 0)) by lia. cbn [orb].
  rewrite run_bind, (hdr_half d scratch hdr phdr s file Hbuf Hsc s2) by done. cbn [obind].
  rewrite Z.sub_0_r in E. rewrite <- E. unfold phdr_at. by rewrite Z.mul_0_r, Z.add_0_r.
Qed.

End LoadElf.
