(* ===== verification/CopyArgs.v ===== *)
(** The arguments of a program, [copy_args] of kernel/core/task.c: from the caller's space
    to the top of the new stack. *)
From S2P Require Import Prelude DList Bitmap Machine MachineFacts Klib Format Sched Ipc Log Alloc Paging AddrSpace.
From S2P Require Import CopySpace Fs Task Exec ProgLoad ExecSpace LoadElf.

(** Byte [j] of a string with its terminator. *)
Definition str_byte (str : list Z) (j : Z) : Z := nth (Z.to_nat j) (str ++ [0]) 0.

Lemma cstr_byte cr3 m str : forall p j a,
  cstr cr3 m p str -> 0 <= j <= Z.of_nat (length str) -> translate cr3 m (p + j) = Some a -> mget m a = str_byte str j.
Proof.
  assert (forall p a v, load8 p cr3 m = Some (v, m) -> translate cr3 m p = Some a -> mget m a = v) as Hl.
  { intros p a v El Et. unfold load8 in El. rewrite Et in El. by injection El. }
  induction str as [|c str IH]; intros p j a Hc Hj Et; cbn [length] in Hj.
  - assert (j = 0) as -> by lia. rewrite Z.add_0_r in Et. exact (Hl p a 0 Hc Et).
  - destruct Hc as (_ & El & Hc). unfold str_byte. destruct (decide (j = 0)) as [->|].
    + rewrite Z.add_0_r in Et. exact (Hl p a c El Et).
    + replace (Z.to_nat j) with (S (Z.to_nat (j - 1))) by lia. cbn [app nth]. apply (IH (p + 1)); [done | lia |].
      by replace (p + 1 + (j - 1)) with (p + j) by lia.
Qed.

Lemma cstr_nonzero cr3 m str : forall p, cstr cr3 m p str -> Forall (fun c => c <> 0) str.
Proof.
  induction str as [|c str IH]; intros p Hc; constructor; [apply Hc|]. apply (IH (p + 1)). by destruct Hc as (_ & _ & Hc).
Qed.

Lemma cstr_of_bytes cr3 m str : forall p (a : Z -> Z),
  Forall (fun c => c <> 0) str ->
  (forall j, 0 <= j <= Z.of_nat (length str) -> translate cr3 m (p + j) = Some (a j) /\ mget m (a j) = str_byte str j) ->
  cstr cr3 m p str.
Proof.
  assert (forall p v b, translate cr3 m p = Some b -> mget m b = v -> load8 p cr3 m = Some (v, m)) as Hl.
  { intros p v b Et <-. unfold load8. by rewrite Et. }
  induction str as [|c str IH]; intros p a Hn Hb; cbn [length] in Hb.
  - destruct (Hb 0 ltac:(lia)) as [Et Em]. rewrite Z.add_0_r in Et. exact (Hl _ _ _ Et Em).
  - apply Forall_cons in Hn as [Hc Hn]. destruct (Hb 0 ltac:(lia)) as [Et Em]. rewrite Z.add_0_r in Et.
    split; [done|]. split; [exact (Hl _ _ _ Et Em)|]. apply (IH (p + 1) (fun j => a (j + 1)) Hn).
    intros j Hj. destruct (Hb (j + 1) ltac:(lia)) as [Ej Emj]. replace (p + 1 + j) with (p + (j + 1)) by lia.
    split; [done|]. rewrite Emj. unfold str_byte. by replace (Z.to_nat (j + 1)) with (S (Z.to_nat j)) by lia.
Qed.

(** The bytes the strings take, with their terminators. *)
Definition strings_size (strs : list (list Z)) : Z := foldr (fun str z => Z.of_nat (length str) + 1 + z) 0 strs.

Lemma strings_size_pos strs : 0 <= strings_size strs.
Proof. induction strs; simpl; [done | lia]. Qed.

(** What a program finds in its space at [to]: [argc], [argv], and the strings. *)
Definition args_at (d : Z) (m : gmap Z Z) (to : Z) (strs : list (list Z)) : Prop :=
  load32 (to + 4) d m = Some (Z.of_nat (length strs), m) /\
  load32 (to + 8) d m = Some (to + SIZEOF_TASK_ARGS, m) /\
  forall i str, strs !! i = Some str -> exists p,
    load32 (to + SIZEOF_TASK_ARGS + 4 * Z.of_nat i) d m = Some (p, m) /\ cstr d m p str.

Section CopyArgs.
Context `{Layout} `{Device}.

(** The stack: [n] bytes from [to] on in the space [d], at the physical addresses [ph]. *)
Record stack_ok (s : kst) (d to n : Z) (ph : Z -> Z) : Prop := {
  sk_dir : dir_wf (k_mem s) (frames s) d;
  sk_to : MEMORY_TASK_BASE <= to /\ to mod 4096 = 0 /\ to + n < 2 ^ 32;
  sk_walk : forall x, to <= x < to + n -> mmu_walk d (k_mem s) x = Some (ph x);
  sk_page : forall x, to <= x < to + n -> page_ok (page_of (ph x)) /\ MEM_EXT_START <= ph x /\
    ~ pt_page (k_mem s) d (page_of (ph x));
  sk_once : forall x y, to <= x < to + n -> to <= y < to + n -> page_of (ph x) = page_of (ph y) -> page_of x = page_of y
}.

Section Args.
Variables (s : kst) (d to n ta : Z) (ph : Z -> Z).
Hypothesis Hstack : stack_ok s d to n ph.

Definition stack_page (p : Z) : Prop := exists x, to <= x < to + n /\ p = page_of (ph x).

(** [m] differs from the memory of [s] in pages of the stack and in the local [task_args]. *)
Definition untouched (m : gmap Z Z) : Prop :=
  forall a, ~ stack_page (page_of a) -> ~ (ta <= a < ta + SIZEOF_TASK_ARGS) -> mget m a = mget (k_mem s) a.

Hypothesis Hta : 0 < ta /\ ta + SIZEOF_TASK_ARGS <= 2 ^ 32 /\ forall i, 0 <= i < SIZEOF_TASK_ARGS ->
  kmapped (ta + i) = true /\ ~ pt_page (k_mem s) d (page_of (ta + i)) /\ ~ stack_page (page_of (ta + i)).

Lemma untouched_table m p : untouched m -> pt_page (k_mem s) d p -> same_page (k_mem s) m p.
Proof.
  intros Hm Hp x <-. apply Hm.
  - intros (y & Hy & E). apply (sk_page _ _ _ _ _ Hstack y Hy). by rewrite <- E.
  - intros Hx. destruct Hta as (_ & _ & Ht). destruct (Ht (x - ta)) as (_ & Hn & _); [lia|]. apply Hn.
    by replace (ta + (x - ta)) with x by lia.
Qed.

Lemma untouched_walk m x : untouched m -> 0 <= x < 2 ^ 32 -> mmu_walk d m x = mmu_walk d (k_mem s) x.
Proof.
  intros Hm. apply (walk_ext _ _ (frames s)); [apply Hstack|]. intros p Hp. by apply untouched_table.
Qed.

Lemma untouched_dir m : untouched m -> dir_wf m (frames s) d.
Proof. intros Hm. apply (dir_wf_ext (k_mem s)); [apply Hstack|]. apply untouched_table; [done | by left]. Qed.

Lemma untouched_pt m p : untouched m -> pt_page m d p -> pt_page (k_mem s) d p.
Proof.
  intros Hm [->|(i & Hi & E)]; [by left | right]. exists i. split; [done|].
  rewrite (table_of_ext (k_mem s)) in E; [done | apply Hstack | | done]. apply untouched_table; [done | by left].
Qed.

(** Addresses of one page are next to each other in RAM. *)
Lemma ph_page x y : to <= x < to + n -> to <= y < to + n -> page_of x = page_of y -> ph y = ph x + (y - x).
Proof.
  intros Hx Hy Ep. pose proof (sk_walk _ _ _ _ _ Hstack x Hx) as Ex. pose proof (sk_walk _ _ _ _ _ Hstack y Hy) as Ey.
  pose proof (dw_dir _ _ _ (sk_dir _ _ _ _ _ Hstack)) as [Hd _].
  destruct (page_indices _ _ Ep) as [Ei Ej]. rewrite !walk_tables in * by done. rewrite Ei, Ej in Ex.
  destruct (table_of _ _ _); [|done]. cbn [mbind option_bind] in *. destruct (leaf _ _ _); [|done]. cbn in *.
  injection Ex as <-. injection Ey as <-. unfold page_of in Ep. zdiv.
Qed.

Lemma ph_inj x y : to <= x < to + n -> to <= y < to + n -> ph x = ph y -> x = y.
Proof.
  intros Hx Hy E. pose proof (sk_once _ _ _ _ _ Hstack x y Hx Hy ltac:(by rewrite E)) as Ep.
  pose proof (ph_page x y Hx Hy Ep). lia.
Qed.

Lemma stack_offset x : to <= x < to + n -> ph x mod 4096 = x mod 4096.
Proof.
  intros Hx. pose proof (sk_walk _ _ _ _ _ Hstack x Hx) as Ex. pose proof (dw_dir _ _ _ (sk_dir _ _ _ _ _ Hstack)) as [Hd _].
  rewrite walk_tables in Ex by done. destruct (table_of _ _ _); [|done]. cbn [mbind option_bind] in *.
  unfold leaf in Ex. destruct (present _); [|done]. cbn in Ex. injection Ex as <-. unfold pte_paddr. rewrite shift_page.
  unfold page_of. zdiv.
Qed.

Lemma ph_kernel x : to <= x < to + n -> kmapped (ph x) = true.
Proof.
  intros Hx. destruct (sk_page _ _ _ _ _ Hstack x Hx) as (Hp & _).
  replace (ph x) with (page_of (ph x) + ph x mod 4096) by (unfold page_of; zdiv).
  apply page_ok_word; [done | zdiv].
Qed.

(** ** Copying a block to the stack *)
Lemma copy_to_stack m dest from size src :
  untouched m -> to <= dest -> 0 <= size -> dest + size <= to + n -> 0 < from -> from + size <= 2 ^ 32 ->
  (forall m' i, untouched m' -> 0 <= i < size -> translate (k_cr3 s) m' (from + i) = Some (src i) /\ ~ stack_page (page_of (src i))) ->
  exists m', memory_copy_uvm_data dest d from size (set_k_mem m s) = Done 0 (set_k_mem m' s) /\ untouched m' /\
    (forall i, 0 <= i < size -> mget m' (ph (dest + i)) = mget m (src i)) /\
    forall a, (forall i, 0 <= i < size -> a <> ph (dest + i)) -> mget m' a = mget m a.
Proof.
  intros Hm Hd Hsz Hde Hf Hfe Hsrc. destruct (sk_to _ _ _ _ _ Hstack) as (Ht & _ & Hte). unfold MEMORY_TASK_BASE in Ht.
  assert (forall p, target dest size ph p -> stack_page p) as Htg.
  { intros p (i & Hi & ->). exists (dest + i). split; [lia | done]. }
  destruct (memory_copy_uvm_data_run (set_k_mem m s) d dest from size ph src Hsz) as (m' & E & Hb & Ho).
  { constructor; kproj.
    - by apply untouched_dir.
    - lia.
    - lia.
    - intros i Hi. rewrite untouched_walk by (done || lia). apply (sk_walk _ _ _ _ _ Hstack). lia.
    - intros i Hi. destruct (sk_page _ _ _ _ _ Hstack (dest + i)) as (? & ? & _); [lia | done].
    - intros p (x & Hx & ->)%Htg Hp%untouched_pt; [|done]. by apply (sk_page _ _ _ _ _ Hstack x Hx).
    - intros i j Hi Hj. apply (sk_once _ _ _ _ _ Hstack); lia.
    - intros m1 i Hs1 Hi. destruct (Hsrc m1 i) as [E1 E2]; [| done |].
      + intros a Ha Ha'. rewrite (Hs1 (page_of a)); [by apply Hm | | done]. intros Hp%Htg. done.
      + split; [done|]. intros Hp%Htg. done. }
  exists m'. kproj. split_and!; [by rewrite E | | done | done].
  intros a Ha Ha'. rewrite Ho; [by apply Hm|]. intros i Hi ->. apply Ha. exists (dest + i). split; [lia | done].
Qed.

(** ** The strings *)
Variable argv : Z.

(** The [i]-th argument of the caller. *)
Record arg_ok (i from : Z) (str : list Z) : Prop := {
  ao_ptr : forall m, untouched m -> load32 (u32 (argv + 4 * i)) (k_cr3 s) m = Some (from, m);
  ao_range : 0 < from /\ from + Z.of_nat (length str) + 1 <= 2 ^ 32;
  ao_str : forall m, untouched m -> cstr (k_cr3 s) m from str;
  ao_src : exists src, forall m j, untouched m -> 0 <= j <= Z.of_nat (length str) ->
    translate (k_cr3 s) m (from + j) = Some (src j) /\ ~ stack_page (page_of (src j))
}.

(** The entries from the [i]-th on of the table at [to + 12] and their strings from [dest] on. *)
Fixpoint args_placed (m : gmap Z Z) (i dest : Z) (strs : list (list Z)) : Prop :=
  match strs with
  | [] => True
  | str :: strs =>
      ld32 m (ph (to + SIZEOF_TASK_ARGS + 4 * i)) = dest /\
      (forall j, 0 <= j <= Z.of_nat (length str) -> mget m (ph (dest + j)) = str_byte str j) /\
      args_placed m (i + 1) (dest + (Z.of_nat (length str) + 1)) strs
  end.

Lemma table_word i : 0 <= i -> SIZEOF_TASK_ARGS + 4 * i + 4 <= 4096 -> 4096 <= n -> forall k, 0 <= k < 4 ->
  ph (to + SIZEOF_TASK_ARGS + 4 * i + k) = ph (to + SIZEOF_TASK_ARGS) + 4 * i + k.
Proof.
  intros Hi Hi4 Hn k Hk. unfold SIZEOF_TASK_ARGS in *. destruct (sk_to _ _ _ _ _ Hstack) as (_ & Htm & _).
  rewrite (ph_page (to + 12)); [lia | lia | lia |]. unfold page_of. zdiv.
Qed.

Lemma args_placed_kept m m' strs : forall i dest,
  0 <= i -> SIZEOF_TASK_ARGS + 4 * (i + Z.of_nat (length strs)) <= 4096 -> 4096 <= n ->
  (forall x, to + SIZEOF_TASK_ARGS + 4 * i <= x < to + SIZEOF_TASK_ARGS + 4 * (i + Z.of_nat (length strs)) \/
    dest <= x < dest + strings_size strs -> mget m' (ph x) = mget m (ph x)) ->
  args_placed m i dest strs -> args_placed m' i dest strs.
Proof.
  induction strs as [|str strs IH]; intros i dest Hi Hfit Hn Hk; [done|]. cbn [args_placed length strings_size foldr] in *.
  fold (strings_size strs) in Hk. pose proof (strings_size_pos strs).
  intros (Ep & Eb & Er). split_and!.
  - rewrite <- Ep. pose proof (table_word i Hi ltac:(lia) Hn 0 ltac:(lia)) as E0. rewrite Z.add_0_r in E0.
    apply ld32_ext. intros a Ha.
    assert (exists o, 0 <= o < 4 /\ a = ph (to + SIZEOF_TASK_ARGS + 4 * i + o)) as (o & Ho & ->).
    { exists (a - ph (to + SIZEOF_TASK_ARGS + 4 * i)). split; [lia|]. rewrite table_word by lia. lia. }
    apply Hk. left. lia.
  - intros j Hj. rewrite Hk by (right; lia). by apply Eb.
  - apply (IH (i + 1) _ ltac:(lia)); [lia | done | | exact Er]. intros x Hx. apply Hk. lia.
Qed.

(** An entry of the table is written. *)
Lemma store_entry m i v :
  untouched m -> 0 <= i -> SIZEOF_TASK_ARGS + 4 * i + 4 <= 4096 -> 4096 <= n -> 0 <= v < 2 ^ 32 ->
  exists m', lift (store32 (u32 (ph (to + SIZEOF_TASK_ARGS) + 4 * i)) v) (set_k_mem m s) = Done tt (set_k_mem m' s) /\
    untouched m' /\ ld32 m' (ph (to + SIZEOF_TASK_ARGS + 4 * i)) = v /\
    forall a, (forall k, 0 <= k < 4 -> a <> ph (to + SIZEOF_TASK_ARGS + 4 * i + k)) -> mget m' a = mget m a.
Proof.
  intros Hm Hi Hfit Hn Hv. pose proof (table_word i Hi Hfit Hn) as Htw.
  pose proof (Htw 0 ltac:(lia)) as E0. rewrite !Z.add_0_r in E0.
  assert (to <= to + SIZEOF_TASK_ARGS + 4 * i < to + n) as Hin by (unfold SIZEOF_TASK_ARGS in *; lia).
  destruct (sk_page _ _ _ _ _ Hstack _ Hin) as (Hp & _). pose proof (ph_kernel _ Hin) as Hk.
  pose proof (proj1 (kmapped_spec _) Hk) as Hkb.
  assert (forall a, (forall k, 0 <= k < 4 -> a <> ph (to + SIZEOF_TASK_ARGS + 4 * i + k)) ->
    mget (st32 m (ph (to + SIZEOF_TASK_ARGS + 4 * i)) v) a = mget m a) as Hout.
  { intros a Ha. apply mget_st32_ne. destruct (decide (a < ph (to + SIZEOF_TASK_ARGS + 4 * i))); [by left | right].
    destruct (decide (ph (to + SIZEOF_TASK_ARGS + 4 * i) + 4 <= a)); [done|]. exfalso.
    apply (Ha (a - ph (to + SIZEOF_TASK_ARGS + 4 * i))); [lia|]. rewrite Htw by lia. lia. }
  exists (st32 m (ph (to + SIZEOF_TASK_ARGS + 4 * i)) v). rewrite <- E0. split_and!.
  - rewrite u32_small by lia. by erewrite lift_done by (by apply store32_kernel).
  - intros a Ha Hx. rewrite Hout; [by apply Hm|]. intros k Hk4 ->. apply Ha. eexists. split; [|done].
    unfold SIZEOF_TASK_ARGS in *. lia.
  - by rewrite ld32_st32_eq, u32_small.
  - exact Hout.
Qed.

(** One argument. *)
Lemma copy_arg k i dest m from str :
  untouched m -> arg_ok i from str -> 0 <= i -> SIZEOF_TASK_ARGS + 4 * (i + 1) <= 4096 -> 4096 <= n ->
  to + SIZEOF_TASK_ARGS + 4 * (i + 1) <= dest -> dest + (Z.of_nat (length str) + 1) <= to + n ->
  exists m', copy_args_loop (S k) i d argv (ph (to + SIZEOF_TASK_ARGS)) dest (set_k_mem m s) =
      copy_args_loop k (i + 1) d argv (ph (to + SIZEOF_TASK_ARGS)) (dest + (Z.of_nat (length str) + 1)) (set_k_mem m' s) /\
    untouched m' /\ ld32 m' (ph (to + SIZEOF_TASK_ARGS + 4 * i)) = dest /\
    (forall j, 0 <= j <= Z.of_nat (length str) -> mget m' (ph (dest + j)) = str_byte str j) /\
    forall a, (forall x, to + SIZEOF_TASK_ARGS + 4 * i <= x < to + SIZEOF_TASK_ARGS + 4 * (i + 1) \/
      dest <= x < dest + (Z.of_nat (length str) + 1) -> a <> ph x) -> mget m' a = mget m a.
Proof.
  intros Hm [Hptr [Hf Hfe] Hstr (src & Hsrc)] Hi Hfit Hn Hd Hde. unfold SIZEOF_TASK_ARGS in *.
  destruct (sk_to _ _ _ _ _ Hstack) as (Ht & _ & Hte). unfold MEMORY_TASK_BASE in Ht.
  destruct (copy_to_stack m dest from (Z.of_nat (length str) + 1) src Hm) as (m1 & E1 & Hm1 & Hb1 & Ho1); try lia.
  { intros m1 j Hm1 Hj. apply Hsrc; [done | lia]. }
  destruct (store_entry m1 i dest Hm1 Hi) as (m2 & E2 & Hm2 & Hw2 & Ho2); [unfold SIZEOF_TASK_ARGS; lia | done | lia |].
  unfold SIZEOF_TASK_ARGS in *. exists m2. split_and!; [| done | done | |].
  - cbn [copy_args_loop]. rewrite run_bind. erewrite lift_done by (kproj; by apply Hptr). cbn [obind].
    rewrite run_bind. erewrite lift_done by (kproj; apply kstrlen_spec; [lia | by apply Hstr | lia]). cbn [obind]. kproj.
    change (set_k_mem m (set_k_mem m (set_k_mem m s))) with (set_k_mem m s).
    rewrite run_bind, E1. cbn [obind]. unfold ASSERT. change (negb (0 >=? 0)) with false. cbn iota. rewrite run_bind, run_ret. cbn [obind].
    rewrite run_bind, E2. cbn [obind]. by rewrite u32_small by lia.
  - intros j Hj. rewrite Ho2.
    + rewrite Hb1 by lia. destruct (Hsrc m j Hm Hj) as [Et _]. eapply cstr_byte; [by apply Hstr | done | exact Et].
    + intros k' Hk' E%ph_inj; lia.
  - intros a Ha. rewrite Ho2 by (intros k' Hk'; apply Ha; lia). apply Ho1. intros j Hj. apply Ha. lia.
Qed.

Lemma copy_args_loop_run (args : list (Z * list Z)) : forall i dest m,
  untouched m -> 0 <= i -> SIZEOF_TASK_ARGS + 4 * (i + Z.of_nat (length args)) <= 4096 -> 4096 <= n ->
  to + SIZEOF_TASK_ARGS + 4 * (i + Z.of_nat (length args)) <= dest -> dest + strings_size (snd <$> args) <= to + n ->
  (forall k a, args !! k = Some a -> arg_ok (i + Z.of_nat k) a.1 a.2) ->
  exists m', copy_args_loop (length args) i d argv (ph (to + SIZEOF_TASK_ARGS)) dest (set_k_mem m s) = Done tt (set_k_mem m' s) /\
    untouched m' /\ args_placed m' i dest (snd <$> args) /\
    forall a, (forall x, to + SIZEOF_TASK_ARGS + 4 * i <= x < to + SIZEOF_TASK_ARGS + 4 * (i + Z.of_nat (length args)) \/
      dest <= x < dest + strings_size (snd <$> args) -> a <> ph x) -> mget m' a = mget m a.
Proof.
  unfold SIZEOF_TASK_ARGS. induction args as [|[from str] args IH]; intros i dest m Hm Hi Hfit Hn Hd Hde Hargs; [by exists m|].
  cbn [length fmap list_fmap strings_size foldr fst snd] in *. fold (strings_size (snd <$> args)) in *.
  pose proof (strings_size_pos (snd <$> args)) as Hpos. pose proof (Hargs 0%nat _ eq_refl) as Ha. rewrite Z.add_0_r in Ha. cbn [fst snd] in Ha.
  destruct (copy_arg (length args) i dest m from str Hm Ha Hi) as (m1 & E1 & Hm1 & Hw1 & Hb1 & Ho1);
    unfold SIZEOF_TASK_ARGS in *; [lia..|].
  destruct (IH (i + 1) (dest + (Z.of_nat (length str) + 1)) m1 Hm1) as (m' & E & Hm' & Hpl & Ho); [lia | lia | lia | lia | lia | |].
  { intros k a Hk. replace (i + 1 + Z.of_nat k) with (i + Z.of_nat (S k)) by lia. by apply Hargs. }
  exists m'. split_and!; [by rewrite E1 | done | |].
  - cbn [args_placed]. unfold SIZEOF_TASK_ARGS. split_and!; [| | done].
    + rewrite <- Hw1. apply ld32_ext. intros a Ha'. apply Ho. intros x Hx ->.
      pose proof (table_word i Hi) as Htw. unfold SIZEOF_TASK_ARGS in Htw.
      pose proof (Htw ltac:(lia) Hn 0 ltac:(lia)) as E0. rewrite Z.add_0_r in E0.
      pose proof (Htw ltac:(lia) Hn (ph x - ph (to + 12 + 4 * i)) ltac:(lia)) as Ek.
      assert (ph x = ph (to + 12 + 4 * i + (ph x - ph (to + 12 + 4 * i)))) as Ex by lia.
      apply ph_inj in Ex; lia.
    + intros j Hj. rewrite Ho; [by apply Hb1|]. intros x Hx E'%ph_inj; lia.
  - intros a Ha'. rewrite Ho; [apply Ho1|]; intros x Hx; apply Ha'; lia.
Qed.

(** ** What the program finds *)
Lemma args_placed_lookup m strs : forall i dest k str,
  args_placed m i dest strs -> strs !! k = Some str ->
  exists p, ld32 m (ph (to + SIZEOF_TASK_ARGS + 4 * (i + Z.of_nat k))) = p /\
    dest <= p /\ p + (Z.of_nat (length str) + 1) <= dest + strings_size strs /\
    forall j, 0 <= j <= Z.of_nat (length str) -> mget m (ph (p + j)) = str_byte str j.
Proof.
  induction strs as [|str0 strs IH]; intros i dest k str Hpl Hk; [done|].
  destruct Hpl as (Ep & Eb & Er). cbn [strings_size foldr]. fold (strings_size strs). pose proof (strings_size_pos strs).
  destruct k as [|k]; cbn [lookup list_lookup] in Hk.
  - injection Hk as ->. exists dest. rewrite Z.add_0_r. split_and!; [done | lia | lia | done].
  - destruct (IH (i + 1) _ k str Er Hk) as (p & E & Hp1 & Hp2 & Hb). exists p.
    replace (i + Z.of_nat (S k)) with (i + 1 + Z.of_nat k) by lia. split_and!; [done | lia | lia | done].
Qed.

(** [m] has the stack where it was. *)
Definition stack_at (m : gmap Z Z) : Prop := forall x, to <= x < to + n -> mmu_walk d m x = Some (ph x).

Lemma stack_load m x : stack_at m -> to <= x < to + n -> translate d m x = Some (ph x).
Proof.
  intros Hm Hx. destruct (sk_to _ _ _ _ _ Hstack) as (Ht & _ & Hte). unfold translate, MEMORY_TASK_BASE in *.
  rewrite (proj2 (Z.ltb_ge _ _)), (proj2 (Z.ltb_lt _ _)) by lia. by apply Hm.
Qed.

Lemma args_placed_at m strs :
  stack_at m -> SIZEOF_TASK_ARGS + 4 * Z.of_nat (length strs) <= 4096 -> 4096 <= n ->
  SIZEOF_TASK_ARGS + 4 * Z.of_nat (length strs) + strings_size strs <= n -> Forall (Forall (fun c => c <> 0)) strs ->
  ld32 m (ph (to + 4)) = Z.of_nat (length strs) -> ld32 m (ph (to + 8)) = to + SIZEOF_TASK_ARGS ->
  args_placed m 0 (to + SIZEOF_TASK_ARGS + 4 * Z.of_nat (length strs)) strs -> args_at d m to strs.
Proof.
  intros Hm Hfit Hn Hroom Hnz E4 E8 Hpl. unfold SIZEOF_TASK_ARGS in *. pose proof (strings_size_pos strs).
  assert (forall x, to <= x < to + n -> load32 x d m = Some (ld32 m (ph x), m)) as Hld.
  { intros x Hx. unfold load32. by rewrite stack_load. }
  split_and!; [by rewrite Hld, E4 by lia | by rewrite Hld, E8 by (unfold SIZEOF_TASK_ARGS; lia) |].
  intros i str Hi. pose proof (lookup_lt_Some _ _ _ Hi) as Hil. unfold SIZEOF_TASK_ARGS.
  destruct (args_placed_lookup m strs 0 _ i str Hpl Hi) as (p & Ep & Hp1 & Hp2 & Hb). unfold SIZEOF_TASK_ARGS in Ep.
  exists p. split; [by rewrite Hld, <- Ep by lia|]. apply (cstr_of_bytes _ _ _ p (fun j => ph (p + j))).
  - by apply (Forall_lookup_1 _ strs i str Hnz).
  - intros j Hj. split; [apply stack_load; [done | lia] | by apply Hb].
Qed.

Lemma copy_args_run (args : list (Z * list Z)) t :
  k_tasks s !! curr_task (k_tm s) = Some t -> u32 (tss_esp0 (t_tss t) - stk_task_args) = ta ->
  SIZEOF_TASK_ARGS + 4 * Z.of_nat (length args) <= 4096 -> 4096 <= n ->
  SIZEOF_TASK_ARGS + 4 * Z.of_nat (length args) + strings_size (snd <$> args) <= n ->
  (forall k a, args !! k = Some a -> arg_ok (Z.of_nat k) a.1 a.2) ->
  exists m', copy_args to d (Z.of_nat (length args)) argv s = Done 0 (set_k_mem m' s) /\ untouched m' /\
    forall m, stack_at m -> (forall x, to <= x < to + n -> mget m (ph x) = mget m' (ph x)) -> args_at d m to (snd <$> args).
Proof.
  intros Ht Eta Hfit Hn Hroom Hargs. unfold SIZEOF_TASK_ARGS in Hfit, Hroom. pose proof (strings_size_pos (snd <$> args)) as Hpos.
  destruct (sk_to _ _ _ _ _ Hstack) as (Hto & Htm & Hte). unfold MEMORY_TASK_BASE in Hto. pose proof Hta as (Hta0 & Htae & Htk).
  unfold SIZEOF_TASK_ARGS in Hta0, Htae, Htk.
  set (m0 := st32 (st32 (k_mem s) (ta + 4) (Z.of_nat (length args))) (ta + 8) (to + SIZEOF_TASK_ARGS)).
  assert (untouched m0) as Hm0.
  { intros a Ha Hx. unfold SIZEOF_TASK_ARGS in Hx. unfold m0. by rewrite !mget_st32_ne by lia. }
  destruct (sk_page _ _ _ _ _ Hstack (to + 12)) as (_ & Htb & _); [lia|]. unfold MEM_EXT_START in Htb.
  destruct (copy_args_loop_run args 0 (to + 12 + 4 * Z.of_nat (length args)) m0 Hm0) as (m1 & E1 & Hm1 & Hpl & Ho1);
    unfold SIZEOF_TASK_ARGS in *; try lia; [done|].
  destruct (copy_to_stack m1 to ta 12 (fun i => ta + i) Hm1) as (m2 & E2 & Hm2 & Hb2 & Ho2); try lia.
  { intros m' i _ Hi. destruct (Htk i Hi) as (Hk & _ & Hns). split; [by apply translate_kernel | done]. }
  assert (forall i, 0 <= i < 12 -> mget m2 (ph (to + i)) = mget m0 (ta + i)) as Hhead.
  { intros i Hi. rewrite Hb2 by done. apply Ho1. intros x Hx E. destruct (Htk i Hi) as (_ & _ & Hns). apply Hns.
    exists x. split; [lia | by rewrite E]. }
  assert (forall o, 0 <= o -> o + 4 <= 12 -> ld32 m2 (ph (to + o)) = ld32 m0 (ta + o)) as Hword.
  { intros o Ho Ho4. unfold ld32. assert (forall k, 0 <= k < 4 -> ph (to + o) + k = ph (to + (o + k))) as Hk.
    { intros k Hk. rewrite (ph_page (to + o) (to + (o + k))); [lia | lia | lia | unfold page_of; zdiv]. }
    by rewrite !Hk, !Hhead, !Z.add_assoc by lia. }
  exists m2. split_and!; [| done |].
  - unfold copy_args. rewrite run_bind, (stack_local_run _ _ _ _ eq_refl Ht), Eta. cbn [obind].
    rewrite run_bind. erewrite lift_done by (by apply store32_kernel, Htk). cbn [obind].
    rewrite run_bind. erewrite lift_done by (by apply store32_kernel, Htk). cbn [obind]. kproj.
    unfold SIZEOF_TASK_ARGS. rewrite !(u32_small (to + 12)) by lia. rewrite (u32_small (to + 12 + _)) by lia.
    change (set_k_mem _ (set_k_mem _ s)) with (set_k_mem m0 s).
    rewrite run_bind. erewrite get_paddr_mapped; [| by apply untouched_dir | lia |].
    2:{ kproj. rewrite untouched_walk by (done || lia). apply (sk_walk _ _ _ _ _ Hstack). lia. }
    cbn [obind]. unfold ASSERT. rewrite (proj2 (Z.eqb_neq _ 0)) by lia. cbn [negb]. rewrite run_bind, run_ret. cbn [obind].
    rewrite Nat2Z.id, run_bind, E1. exact E2.
  - intros m Hst Hm. assert (forall o, 0 <= o -> o + 4 <= 12 -> ld32 m (ph (to + o)) = ld32 m0 (ta + o)) as Hword'.
    { intros o Ho Ho4. rewrite <- Hword by done. apply ld32_ext. intros a Ha.
      replace a with (ph (to + (o + (a - ph (to + o))))); [apply Hm; lia|].
      rewrite (ph_page (to + o)); [lia | lia | lia | unfold page_of; zdiv]. }
    apply args_placed_at; rewrite ?length_fmap; unfold SIZEOF_TASK_ARGS; try done.
    + apply Forall_fmap, Forall_lookup. intros k a Hk. destruct (Hargs k a Hk) as [_ _ Hs _]. by eapply cstr_nonzero, (Hs m2).
    + rewrite Hword' by lia. unfold m0. rewrite ld32_st32_ne by lia. rewrite ld32_st32_eq. apply u32_small. lia.
    + rewrite Hword' by lia. unfold m0. rewrite ld32_st32_eq. unfold SIZEOF_TASK_ARGS. apply u32_small. lia.
    + apply (args_placed_kept m1); rewrite ?length_fmap; unfold SIZEOF_TASK_ARGS; try lia; [|done].
      intros x Hx. rewrite Hm by lia. apply Ho2. intros i Hi E%ph_inj; lia.
Qed.

End Args.

End CopyArgs.
