(* ===== verification/ExecRun.v ===== *)
(** A program takes the place of another, [sys_execve] of kernel/core/task.c as a whole. *)
From S2P Require Import Prelude DList Bitmap Machine MachineFacts Klib Format Sched Ipc Log Cpu Alloc Paging AddrSpace.
From S2P Require Import FreeSpace CopySpace Fs Task TaskLife Exec ProgLoad ExecSpace LoadElf CopyArgs.

(** * The caller's memory *)
Section Caller.
Context `{Layout} `{Device}.
Variables (s : kst) (old : Z).

(** [m] has the caller's pages as they are. *)
Definition keeps (m : gmap Z Z) : Prop := forall p, own s old p -> same_page (k_mem s) m p.

Hypothesis Hold : dir_wf (k_mem s) [] old.

Lemma keeps_translate m x : keeps m -> user x -> translate old m x = mmu_walk old (k_mem s) x.
Proof.
  intros Hm Hx. pose proof Hx as [H1 H2]. unfold translate. rewrite (proj2 (Z.ltb_ge _ _)), (proj2 (Z.ltb_lt _ _)) by lia.
  by apply (user_walk_same s old []).
Qed.

Lemma keeps_self : keeps (k_mem s).
Proof. by intros p _ a _. Qed.

Lemma keeps_byte m x pa : keeps m -> user x -> mmu_walk old (k_mem s) x = Some pa -> mget m pa = mget (k_mem s) pa.
Proof. intros Hm Hx Ew. apply (Hm (page_of pa)); [|done]. right; right. by exists x, pa. Qed.

Lemma keeps_load8 m x v : keeps m -> user x -> load8 x old (k_mem s) = Some (v, k_mem s) -> load8 x old m = Some (v, m).
Proof.
  intros Hm Hx. unfold load8. rewrite (keeps_translate m) by done. rewrite (keeps_translate (k_mem s)) by (done || apply keeps_self).
  destruct (mmu_walk old (k_mem s) x) as [pa|] eqn:E; [|done]. cbn. intros [= <-]. by rewrite (keeps_byte m x pa).
Qed.

Lemma keeps_load32 m x v :
  keeps m -> user x -> x mod 4 = 0 -> load32 x old (k_mem s) = Some (v, k_mem s) -> load32 x old m = Some (v, m).
Proof.
  intros Hm Hx Hx4. unfold load32. rewrite (keeps_translate m) by done. rewrite (keeps_translate (k_mem s)) by (done || apply keeps_self).
  destruct (mmu_walk old (k_mem s) x) as [pa|] eqn:E; [|done]. cbn. intros [= <-].
  rewrite (ld32_ext (k_mem s) m); [done|]. intros b Hb. apply (Hm (page_of pa)); [right; right; by exists x, pa|].
  pose proof (walk_page old (k_mem s) (page_of x) x (proj1 (dw_dir _ _ _ Hold)) ltac:(unfold page_of; zdiv) ltac:(unfold page_of; zdiv)) as Ew.
  destruct (mmu_walk old (k_mem s) (page_of x)) as [q|] eqn:Eq; [|by rewrite E in Ew].
  pose proof (walk_aligned old (k_mem s) (page_of x) q (proj1 (dw_dir _ _ _ Hold)) ltac:(unfold page_of; zdiv) Eq) as Hq.
  rewrite E in Ew. cbn in Ew. injection Ew as ->. unfold page_of in *. zdiv.
Qed.

Lemma keeps_cstr m str : keeps m -> forall p,
  MEMORY_TASK_BASE <= p -> p + Z.of_nat (length str) < 2 ^ 32 -> cstr old (k_mem s) p str -> cstr old m p str.
Proof.
  intros Hm. induction str as [|c str IH]; intros p Hp Hpe Hc; cbn [length] in Hpe.
  - apply keeps_load8; [done | split; lia | done].
  - destruct Hc as (Hz & Hl & Hc). split; [done|]. split; [apply keeps_load8; [done | split; lia | done]|].
    apply IH; [lia | lia | done].
Qed.

Lemma keeps_argv m ps : keeps m -> forall p,
  MEMORY_TASK_BASE <= p -> p mod 4 = 0 -> p + 4 * Z.of_nat (length ps) < 2 ^ 32 -> argv_at old (k_mem s) p ps -> argv_at old m p ps.
Proof.
  intros Hm. induction ps as [|v ps IH]; intros p Hp Hp4 Hpe Ha; cbn [length] in Hpe.
  - apply keeps_load32; [done | split; lia | done | done].
  - destruct Ha as (Hz & Hl & Ha). split; [done|]. split; [apply keeps_load32; [done | split; lia | done | done]|].
    apply IH; [lia | zdiv | lia | done].
Qed.

Lemma argv_lookup cr3 m ps : forall p k v, argv_at cr3 m p ps -> ps !! k = Some v -> load32 (p + 4 * Z.of_nat k) cr3 m = Some (v, m).
Proof.
  induction ps as [|w ps IH]; intros p k v Ha Hk; [done|]. destruct Ha as (_ & Hl & Ha).
  destruct k as [|k]; cbn [lookup list_lookup] in Hk; [injection Hk as <-; by rewrite Z.add_0_r|].
  replace (p + 4 * Z.of_nat (S k)) with (p + 4 + 4 * Z.of_nat k) by lia. by apply IH.
Qed.

Lemma cstr_walk str : forall p j,
  MEMORY_TASK_BASE <= p -> p + Z.of_nat (length str) < 2 ^ 32 -> cstr old (k_mem s) p str -> 0 <= j <= Z.of_nat (length str) ->
  exists pa, mmu_walk old (k_mem s) (p + j) = Some pa.
Proof.
  assert (forall x v, user x -> load8 x old (k_mem s) = Some (v, k_mem s) -> exists pa, mmu_walk old (k_mem s) x = Some pa) as Hl.
  { intros x v Hx. unfold load8. rewrite (keeps_translate (k_mem s)) by (done || apply keeps_self).
    destruct (mmu_walk old (k_mem s) x) as [pa|]; [by exists pa | done]. }
  induction str as [|c str IH]; intros p j Hp Hpe Hc Hj; cbn [length] in *.
  - replace (p + j) with p by lia. apply (Hl p 0); [split; lia | done].
  - destruct Hc as (_ & El & Hc). destruct (decide (j = 0)) as [->|]; [rewrite Z.add_0_r; apply (Hl p c); [split; lia | done]|].
    replace (p + j) with (p + 1 + (j - 1)) by lia. apply IH; [lia | lia | done | lia].
Qed.

Lemma keeps_dir m F : keeps m -> dir_wf (k_mem s) F old -> dir_wf m F old.
Proof. intros Hm Hd. apply (dir_wf_ext (k_mem s)); [done|]. apply Hm. by left. Qed.

End Caller.

Lemma cstr_bytes cr3 m str : forall p, cstr cr3 m p str -> str_bytes str.
Proof.
  induction str as [|c str IH]; intros p Hc; constructor.
  - destruct Hc as (Hz & Hl & _). unfold load8 in Hl. destruct (translate cr3 m p) as [pa|]; [|done]. cbn in Hl.
    injection Hl as <-. pose proof (mget_range m pa). lia.
  - apply (IH (p + 1)). by destruct Hc as (_ & _ & Hc).
Qed.

Lemma read_upto_run cr3 m str : forall n p, cstr cr3 m p str -> read_upto n p cr3 m = Some (take n str, m).
Proof.
  induction str as [|c str IH]; intros [|n] p Hc; cbn [read_upto take]; try done.
  - by erewrite mm_bind_some by exact Hc.
  - destruct Hc as (Hz & Hl & Hc). erewrite mm_bind_some by exact Hl. rewrite (proj2 (Z.eqb_neq c 0)) by done.
    by erewrite mm_bind_some by (by apply IH).
Qed.

(** * The registers the call returns with *)
Definition execve_words (entry esp : Z) : list (Z * Z) :=
  [(fr_eip, entry); (fr_eax, 0); (fr_ebx, 0); (fr_ecx, 0); (fr_edx, 0); (fr_esi, 0); (fr_edi, 0); (fr_ebp, 0);
   (fr_eflags, 0x202); (fr_esp, esp)].

(** [m'] is [m] with the words [ws] of the frame. *)
Record words_set (m m' : gmap Z Z) (frame : Z) (ws : list (Z * Z)) : Prop := {
  ws_set : forall o v, (o, v) ∈ ws -> ld32 m' (frame + o) = v;
  ws_kept : forall a, (forall o v, (o, v) ∈ ws -> a < frame + o \/ frame + o + 4 <= a) -> mget m' a = mget m a
}.

Fixpoint st_words (m : gmap Z Z) (frame : Z) (ws : list (Z * Z)) : gmap Z Z :=
  match ws with [] => m | (o, v) :: ws => st_words (st32 m (frame + o) v) frame ws end.

Lemma st_words_kept frame ws : forall m a,
  (forall o v, (o, v) ∈ ws -> a < frame + o \/ frame + o + 4 <= a) -> mget (st_words m frame ws) a = mget m a.
Proof.
  induction ws as [|[o v] ws IH]; intros m a Ha; [done|]. cbn [st_words]. rewrite IH.
  - apply mget_st32_ne. apply (Ha o v). by left.
  - intros o' v' Hin. apply (Ha o' v'). by right.
Qed.

(** Words apart from each other, each of 32 bits. *)
Fixpoint words_apart (ws : list (Z * Z)) : bool :=
  match ws with
  | [] => true
  | (o, _) :: ws => forallb (fun w => (w.1 + 4 <=? o) || (o + 4 <=? w.1)) ws && words_apart ws
  end.

Lemma st_words_set frame ws : forall m,
  words_apart ws = true -> Forall (fun w => 0 <= w.2 < 2 ^ 32) ws -> words_set m (st_words m frame ws) frame ws.
Proof.
  intros m Hap Hv. split; [|intros a; apply st_words_kept]. revert m Hap Hv.
  induction ws as [|[o v] ws IH]; intros m Hap Hv o' v'; [by intros ?%not_elem_of_nil|].
  cbn [words_apart] in Hap. apply andb_true_iff in Hap as [Hap1 Hap2]. apply Forall_cons in Hv as [Hv0 Hv]. cbn [snd] in Hv0.
  cbn [st_words]. intros [[= -> ->]|Hin]%elem_of_cons; [|by apply IH].
  rewrite (ld32_ext (st32 m (frame + o) v)); [by rewrite ld32_st32_eq, u32_small|].
  intros b Hb. apply st_words_kept. intros o' v' Hin. rewrite forallb_forall in Hap1.
  specialize (Hap1 (o', v') (proj1 (list_elem_of_In _ _) Hin)). cbn [fst] in Hap1. lia.
Qed.

Lemma read_cstr_run cr3 m p str :
  p <> 0 -> Z.of_nat (length str) < 2 ^ 32 -> cstr cr3 m p str -> read_cstr p cr3 m = Some (str, m).
Proof.
  intros Hp Hl Hc. unfold read_cstr. erewrite mm_bind_some by (by apply kstrlen_spec). rewrite Nat2Z.id. clear Hp Hl.
  revert p Hc. induction str as [|c str IH]; intros p Hc; cbn [read_bytes length]; [done|].
  destruct Hc as (_ & Hl & Hc). erewrite mm_bind_some by exact Hl. by erewrite mm_bind_some by (by apply IH).
Qed.

Section ExecRun.
Context `{Layout} `{Device}.

Lemma execve_frame_run frame entry stack_top cr3 m :
  (forall i, 0 <= i < SIZEOF_SYSCALL_FRAME -> kmapped (frame + i) = true) ->
  0 <= entry < 2 ^ 32 -> 20 <= stack_top < 2 ^ 32 ->
  exists m', execve_frame frame entry stack_top cr3 m = Some (tt, m') /\ words_set m m' frame (execve_words entry (stack_top - 20)).
Proof.
  intros Hk He Hs. exists (st_words m frame (execve_words entry (stack_top - 20))). split.
  - unfold execve_frame. change (4 * SYSCALL_PARAM_COUNT) with 20. rewrite u32_small by lia.
    do 9 (erewrite mm_bind_some by (apply store32_kernel, Hk; done)). apply store32_kernel, Hk. done.
  - apply st_words_set; [done|]. repeat constructor; cbn [snd]; lia.
Qed.

(** * The call up to its first page table *)

(** The kernel's buffers during the call: the image of the file, and on the kernel stack
    below [top] the two headers and [task_args]. *)
Definition exec_buffer (top x : Z) : Prop :=
  TEMP_ADDR <= x < TEMP_ADDR + 40960 \/ top - stk_elf_hdr <= x < top - stk_elf_hdr + SIZEOF_EHDR \/
  top - stk_elf_phdr <= x < top - stk_elf_phdr + SIZEOF_PHDR \/ top - stk_task_args <= x < top - stk_task_args + SIZEOF_TASK_ARGS.

(** The frame of the system call, at the top of the stack, with the two words below it that
    belong to the call of its handler. *)
Definition call_frame (top x : Z) : Prop := top - SIZEOF_SYSCALL_FRAME - 8 <= x < top.

Definition exec_area (top x : Z) : Prop := exec_buffer top x \/ call_frame top x.

(** The running task's kernel stack is the page below [top]; the locals lie below the
    frame, the two headers beside each other. *)
Record kstack_layout (top : Z) : Prop := {
  kl_top : 4096 < top < 2 ^ 32;
  kl_hdr : SIZEOF_SYSCALL_FRAME + 8 + SIZEOF_EHDR <= stk_elf_hdr <= 4096;
  kl_phdr : SIZEOF_SYSCALL_FRAME + 8 + SIZEOF_PHDR <= stk_elf_phdr <= 4096;
  kl_args : SIZEOF_SYSCALL_FRAME + 8 + SIZEOF_TASK_ARGS <= stk_task_args <= 4096;
  kl_apart : stk_elf_phdr + SIZEOF_EHDR <= stk_elf_hdr \/ stk_elf_hdr + SIZEOF_PHDR <= stk_elf_phdr;
  kl_file : 0 < TEMP_ADDR /\ TEMP_ADDR + 40960 < 2 ^ 32 /\ (top <= TEMP_ADDR \/ TEMP_ADDR + 40960 <= top - 4096)
}.

(** What the call finds: the running task, in its own space; its pages, the buffers, the
    free frames and the kernel's page tables are apart; the name and the arguments are
    strings of the caller. *)
Record exec_call (s : kst) (t : task_t) (name : Z) (dir f : list Z) (sep : Z) (argv : Z) (args : list (Z * list Z)) : Prop := {
  xc_task : k_tasks s !! curr_task (k_tm s) = Some t /\ length (t_name t) = 32%nat;
  xc_space : k_cr3 s = tss_cr3 (t_tss t) /\ dir_wf (k_mem s) [] (k_cr3 s) /\ 0 < k_cr3 s;
  xc_paging : paging_ok s;
  xc_kernel : dir_wf (k_mem s) (frames s) kernel_page_dir;
  xc_own : forall p, own s (k_cr3 s) p -> (p ∉ frames s) /\ ~ pt_page (k_mem s) kernel_page_dir p /\
    forall x, page_of x = p -> ~ exec_area (tss_esp0 (t_tss t)) x;
  xc_layout : kstack_layout (tss_esp0 (t_tss t));
  xc_scratch : forall x, exec_area (tss_esp0 (t_tss t)) x ->
    kmapped x = true /\ (page_of x ∉ frames s) /\ ~ pt_page (k_mem s) kernel_page_dir (page_of x);
  xc_name : MEMORY_TASK_BASE <= name /\ name + Z.of_nat (length (dir ++ sep :: f)) < 2 ^ 32 /\
    cstr (k_cr3 s) (k_mem s) name (dir ++ sep :: f) /\ is_sep sep = true /\ Forall (fun c => is_sep c = false) f;
  xc_argv : MEMORY_TASK_BASE <= argv /\ argv mod 4 = 0 /\ argv + 4 * Z.of_nat (length args) < 2 ^ 32 /\
    argv_at (k_cr3 s) (k_mem s) argv (fst <$> args);
  xc_args : Forall (fun a => MEMORY_TASK_BASE <= a.1 /\ a.1 + Z.of_nat (length a.2) < 2 ^ 32 /\
    cstr (k_cr3 s) (k_mem s) a.1 a.2) args;
  xc_fit : SIZEOF_TASK_ARGS + 4 * Z.of_nat (length args) <= 4096 /\
    SIZEOF_TASK_ARGS + 4 * Z.of_nat (length args) + strings_size (snd <$> args) <= MEM_TASK_ARG_SIZE
}.

(** The new space [d]: the kernel's half only. *)
Record exec_space (s : kst) (top : Z) (named : task_t) (d : Z) (s2 : kst) : Prop := {
  xs_state : exists m a, s2 = set_k_mem m (set_k_alloc a (set_k_tasks (<[curr_task (k_tm s) := named]> (k_tasks s)) s));
  xs_paging : paging_ok s2;
  xs_dir : dir_wf (k_mem s2) (frames s2) d;
  xs_frames : frames s = d :: frames s2 /\ d ∉ frames s2;
  xs_region : all_frames (k_alloc s2) = all_frames (k_alloc s);
  xs_walk : forall x, 0 <= x < 2 ^ 32 ->
    mmu_walk d (k_mem s2) x = if x <? MEMORY_TASK_BASE then mmu_walk kernel_page_dir (k_mem s) x else None;
  xs_same : forall q, q <> d -> same_page (k_mem s) (k_mem s2) q;
  xs_tables : forall p, pt_page (k_mem s2) d p -> p = d \/ pt_page (k_mem s) kernel_page_dir p;
  xs_scratch : scratch_ok d (exec_area top) s2
}.

(** What follows the new directory. *)
Definition execve_load (task name argv old_page_dir new_page_dir : Z) : K Z :=
  entry ← load_elf_file task name new_page_dir;
  if entry =? 0 then execve_failed task old_page_dir new_page_dir
  else
    let stack_top := MEM_TASK_STACK_TOP - MEM_TASK_ARG_SIZE in
    err ← memory_alloc_for_page_dir new_page_dir (MEM_TASK_STACK_TOP - MEM_TASK_STACK_SIZE)
            MEM_TASK_STACK_SIZE (Z.lor (Z.lor PTE_P PTE_U) PTE_W);
    if err <? 0 then execve_failed task old_page_dir new_page_dir
    else
      argc ← lift (strings_count argv);
      err ← copy_args stack_top new_page_dir argc argv;
      if err <? 0 then execve_failed task old_page_dir new_page_dir
      else
        t ← get_task task;
        let frame := u32 (tss_esp0 (t_tss t) - SIZEOF_SYSCALL_FRAME) in
        lift (execve_frame frame entry stack_top);;
        upd_task task (fun t => set_t_tss (set_tss_cr3 new_page_dir (t_tss t)) t);;
        mmu_set_page_dir new_page_dir;;
        memory_destroy_uvm old_page_dir;;
        mret 0.

Lemma get_file_name_run s t name dir f sep argv args :
  exec_call s t name dir f sep argv args ->
  exists fn, get_file_name name (k_cr3 s) (k_mem s) = Some (fn, k_mem s) /\ cstr (k_cr3 s) (k_mem s) fn f.
Proof.
  intros [_ _ _ _ _ _ _ (Hb & He & Hc & Hsep & Hf) _ _ _]. unfold MEMORY_TASK_BASE in Hb.
  exists (name + Z.of_nat (length dir) + 1). split; [|by apply (cstr_app _ _ dir name) in Hc as (_ & _ & Hc)].
  unfold get_file_name.
  erewrite mm_bind_some by (eapply mwhile_exit; [by apply file_name_end | lia]).
  erewrite mm_bind_some; [done|]. eapply mwhile_exit; [by eapply file_name_back|].
  rewrite length_app in He. simpl in He. lia.
Qed.

Lemma exec_space_run s t name dir f sep argv env args :
  exec_call s t name dir f sep argv args -> frames s <> [] ->
  exists named d s2, task_set_name (take 32 f) t = Some named /\ t_tss named = t_tss t /\
    exec_space s (tss_esp0 (t_tss t)) named d s2 /\
    sys_execve name argv env s = execve_load (curr_task (k_tm s)) name argv (k_cr3 s) d s2.
Proof.
  intros Hx Hne. destruct (get_file_name_run _ _ _ _ _ _ _ _ Hx) as (fn & Efn & Hfn).
  destruct Hx as [(Ht & Hl) (Ecr3 & _) Hok Hkd _ _ Hsc _ _ _ _].
  destruct (task_set_name_run (take 32 f) t) as (named & En & Etss & _ & _); [|done|].
  { apply Forall_take. by eapply cstr_bytes. }
  set (s1 := set_k_tasks (<[curr_task (k_tm s) := named]> (k_tasks s)) s).
  assert (paging_ok s1) as Hok1 by (by destruct Hok).
  destruct (memory_create_uvm_run s1 Hok1 Hkd) as [[? _]|(d & m & a & E & Hok' & Ef & Hde & Hall & Hd & Htb & Hs)]; [done|].
  unfold MEM_EXT_START in Hde. change (frames s1) with (frames s) in Ef. change (k_mem s1) with (k_mem s) in *.
  pose proof (free_frames_NoDup _ (po_alloc _ Hok)) as Hnd. change (free_frames (k_alloc s)) with (frames s) in Hnd.
  rewrite Ef in Hnd. apply NoDup_cons in Hnd as [Hdf _].
  assert (forall p, pt_page m d p -> p = d \/ pt_page (k_mem s) kernel_page_dir p) as Hpt.
  { intros p [->|(i & Hi & Et)]; [by left | right; right]. rewrite Htb in Et by done. destruct (i <? 512); [by exists i | done]. }
  exists named, d, (set_k_mem m (set_k_alloc a s1)). split_and!; [done | done | |].
  - constructor; kproj; try done.
    + by exists m, a.
    + rewrite Ef in Hkd. intros x Hx. by apply (uvm_walk s d m a); [| apply Hd | ..].
    + constructor; kproj; [apply Hsc | |].
      * intros x Hx. destruct (Hsc x Hx) as (_ & Hxf & _). rewrite Ef in Hxf. by apply not_elem_of_cons in Hxf as [_ ?].
      * intros x Hx Hp. destruct (Hsc x Hx) as (_ & Hxf & Hxk). apply Hpt in Hp as [Hp|Hp]; [|done].
        apply Hxf. rewrite Ef, Hp. by left.
  - unfold sys_execve, task_current. rewrite run_bind, run_bind, run_gets. cbn [obind]. rewrite run_ret. cbn [obind].
    rewrite run_bind, (lift_done _ _ _ _ Efn). cbn [obind]. rewrite set_k_mem_id.
    rewrite run_bind. erewrite lift_done by (by apply read_upto_run). cbn [obind]. rewrite set_k_mem_id.
    change (Z.to_nat TASK_NAME_SIZE) with 32%nat.
    rewrite run_bind, (get_task_run _ _ _ Ht). cbn [obind]. rewrite run_bind, En, run_kopt. cbn [obind].
    rewrite run_bind. erewrite upd_task_run by exact Ht. cbn [obind]. fold s1.
    rewrite run_bind, E. cbn [obind]. rewrite (proj2 (Z.eqb_neq d 0)) by lia. by rewrite Ecr3.
Qed.

(** * The stack of the new program *)
Lemma mapped_stack s s' d base ps f to n :
  map_step d ps s s' -> paging_ok s -> NoDup ps -> base mod 4096 = 0 ->
  (forall x, 0 <= x < 2 ^ 32 -> mmu_walk d (k_mem s') x = map_frames base ps f x) ->
  MEMORY_TASK_BASE <= base <= to -> to mod 4096 = 0 -> to + n <= base + Z.of_nat (length ps) * 4096 -> to + n < 2 ^ 32 ->
  let ph := fun x => default 0 (mmu_walk d (k_mem s') x) in
  stack_ok s' d to n ph /\ forall x, to <= x < to + n -> page_of (ph x) ∈ ps.
Proof.
  intros Hs Hok Hnd Hbm Hw Hb Htm Hn He ph. unfold MEMORY_TASK_BASE in Hb.
  assert (forall x, to <= x < to + n -> exists p, ps !! Z.to_nat ((x - base) / 4096) = Some p /\ page_ok p /\ MEM_EXT_START <= p /\
    (p ∈ ps) /\ mmu_walk d (k_mem s') x = Some (p + (x - base) mod 4096)) as Hp.
  { intros x Hx. destruct (lookup_lt_is_Some_2 ps (Z.to_nat ((x - base) / 4096))) as [p Ep]; [zdiv|].
    assert (p ∈ ps) as Hin by (by eapply list_elem_of_lookup_2). destruct (ms_data _ _ _ _ Hs p Hin) as (Hf%free_frames_all & _).
    exists p. split_and!; [done | by apply (po_frames _ Hok) | by apply (frame_bounds _ _ (po_alloc _ Hok) Hf) | done |].
    rewrite Hw by lia. unfold map_frames. rewrite decide_True by lia. by rewrite Ep. }
  assert (forall x, to <= x < to + n -> exists p, ps !! Z.to_nat ((x - base) / 4096) = Some p /\ page_ok p /\ MEM_EXT_START <= p /\
    (p ∈ ps) /\ ph x = p + (x - base) mod 4096 /\ page_of (ph x) = p) as Hph.
  { intros x Hx. destruct (Hp x Hx) as (p & Ep & Hpok & Hpe & Hin & Ew). exists p. unfold ph. rewrite Ew. cbn [default].
    split_and!; try done. apply page_of_offset; [apply Hpok | zdiv]. }
  split; [|intros x Hx; destruct (Hph x Hx) as (p & _ & _ & _ & Hin & _ & ->); done].
  constructor; [apply Hs | unfold MEMORY_TASK_BASE; lia | | |].
  - intros x Hx. destruct (Hp x Hx) as (p & _ & _ & _ & _ & Ew). unfold ph. by rewrite Ew.
  - intros x Hx. destruct (Hph x Hx) as (p & _ & Hpok & Hpe & Hin & Ex & Epg). rewrite Epg.
    destruct (ms_data _ _ _ _ Hs p Hin) as (_ & _ & Hnp). split_and!; [done | rewrite Ex; zdiv | done].
  - intros x y Hx Hy E. destruct (Hph x Hx) as (p & Ep & _ & _ & _ & _ & Epx). destruct (Hph y Hy) as (q & Eq & _ & _ & _ & _ & Epy).
    assert (p = q) as -> by congruence. pose proof (NoDup_lookup _ _ _ _ Hnd Ep Eq) as Ei. unfold page_of. zdiv.
Qed.

(** * The call from its first page table on *)
Section Load.
Variables (s : kst) (t : task_t) (name : Z) (dir f : list Z) (sep argv : Z) (args : list (Z * list Z)).
Variables (named : task_t) (d : Z) (s2 : kst).
Hypothesis Hx : exec_call s t name dir f sep argv args.
Hypothesis Hsp : exec_space s (tss_esp0 (t_tss t)) named d s2.
Hypothesis Hnamed : t_tss named = t_tss t.

Local Abbreviation old := (k_cr3 s).
Local Abbreviation top := (tss_esp0 (t_tss t)).

Lemma buffers_ok : scratch_ok d (exec_buffer top) s2.
Proof.
  destruct (xs_scratch _ _ _ _ _ Hsp) as [Hk Hf Ht]. split; intros x Hb; [apply Hk | apply Hf | apply Ht]; by left.
Qed.

(** The caller's pages stay while only buffers, new frames and tables of [d] are written. *)
Lemma keeps_step ds s3 m :
  exec_step d (exec_area top) ds s2 s3 ->
  (forall a, page_of a ∉ ds -> ~ exec_area top a -> mget m a = mget (k_mem s3) a) -> keeps s old m.
Proof.
  intros Hs Hm p Hp a Ha. destruct (xc_own _ _ _ _ _ _ _ _ Hx p Hp) as (Hf & Hk & Hb).
  destruct (xs_frames _ _ _ _ _ Hsp) as [Ef _]. rewrite Ef in Hf. apply not_elem_of_cons in Hf as [Hpd Hf].
  rewrite Hm; [| rewrite Ha; intros Hin; by destruct (es_data _ _ _ _ _ Hs _ Hin) | by apply Hb].
  rewrite (exec_foreign d (exec_area top) ds s2 s3 p Hs) by
    (done || (split_and!; [done | intros [?|?]%(xs_tables _ _ _ _ _ Hsp); done | done])).
  by apply (xs_same _ _ _ _ _ Hsp p).
Qed.

Lemma task_at s3 ds : exec_step d (exec_area top) ds s2 s3 ->
  k_tasks s3 = <[curr_task (k_tm s) := named]> (k_tasks s) /\ curr_task (k_tm s3) = curr_task (k_tm s) /\ k_cr3 s3 = old.
Proof.
  intros Hs. destruct (es_state _ _ _ _ _ Hs) as (m & a & tp & rd & o & ->). destruct (xs_state _ _ _ _ _ Hsp) as (m2 & a2 & ->). done.
Qed.

Lemma exec_step_mono (P Q : Z -> Prop) ds s3 s4 : (forall x, P x -> Q x) -> exec_step d P ds s3 s4 -> exec_step d Q ds s3 s4.
Proof. intros HPQ [? ? ? ? ? ? ? ? ?]. constructor; try done. naive_solver. Qed.

(** ** The arguments *)
Lemma args_ok s4 ds ph to n :
  exec_step d (exec_area top) ds s2 s4 -> stack_ok s4 d to n ph -> (forall x, to <= x < to + n -> page_of (ph x) ∈ ds) ->
  forall k a, args !! k = Some a -> arg_ok s4 to n (u32 (top - stk_task_args)) ph argv (Z.of_nat k) a.1 a.2.
Proof.
  intros Hs Hst Hin k a Hk. destruct (xc_argv _ _ _ _ _ _ _ _ Hx) as (Ha1 & Ha4 & Hae & Hav). unfold MEMORY_TASK_BASE in Ha1.
  pose proof (proj1 (Forall_lookup _ _) (xc_args _ _ _ _ _ _ _ _ Hx) k a Hk) as (Hb & Hbe & Hc). unfold MEMORY_TASK_BASE in Hb.
  pose proof (xc_space _ _ _ _ _ _ _ _ Hx) as (_ & Hd & _). destruct (task_at s4 ds Hs) as (_ & _ & Ecr).
  assert (forall m, untouched s4 to n (u32 (top - stk_task_args)) ph m -> keeps s old m) as Hkeep.
  { intros m Hm. apply (keeps_step ds s4 m Hs). intros x Hxd Hxs. apply Hm.
    - intros (y & Hy & E). apply Hxd. rewrite E. by apply Hin.
    - intros Hr. apply Hxs. left. destruct (xc_layout _ _ _ _ _ _ _ _ Hx) as [? _ _ ? _ _].
      unfold SIZEOF_SYSCALL_FRAME, SIZEOF_TASK_ARGS in *. rewrite u32_small in Hr by lia. by do 3 right. }
  pose proof (lookup_lt_Some _ _ _ Hk) as Hkl.
  constructor; rewrite ?Ecr.
  - intros m Hm%Hkeep. rewrite u32_small by lia.
    apply (argv_lookup _ m (fst <$> args) argv k a.1); [|by rewrite list_lookup_fmap, Hk].
    apply (keeps_argv s old Hd m); rewrite ?length_fmap; unfold MEMORY_TASK_BASE; try done; lia.
  - lia.
  - intros m Hm%Hkeep. by apply (keeps_cstr s old Hd m); unfold MEMORY_TASK_BASE.
  - exists (fun j => default 0 (mmu_walk old (k_mem s) (a.1 + j))). intros m j Hm%Hkeep Hj.
    assert (user (a.1 + j)) as Hu by (unfold user, MEMORY_TASK_BASE; lia).
    destruct (cstr_walk s old Hd a.2 a.1 j) as (pa & Ew); unfold MEMORY_TASK_BASE; try done.
    rewrite (keeps_translate s old Hd m) by done. rewrite Ew. cbn [default]. split; [done|].
    intros (y & Hy & E). destruct (xc_own _ _ _ _ _ _ _ _ Hx (page_of pa)) as (Hf & _); [right; right; by exists (a.1 + j), pa|].
    destruct (xs_frames _ _ _ _ _ Hsp) as [Ef _]. rewrite Ef in Hf. apply not_elem_of_cons in Hf as [_ Hf]. apply Hf.
    change (id pa) with pa in E. rewrite E. apply (es_data _ _ _ _ _ Hs), Hin, Hy.
Qed.

(** ** The stack and the arguments *)
Definition stack_base : Z := MEM_TASK_STACK_TOP - MEM_TASK_STACK_SIZE.
Definition stack_top : Z := MEM_TASK_STACK_TOP - MEM_TASK_ARG_SIZE.

(** Nothing is mapped at the stack, and a frame for each page and its table is left. *)
Definition stack_free (s3 : kst) : Prop :=
  (forall x, stack_base <= x < MEM_TASK_STACK_TOP -> mmu_walk d (k_mem s3) x = None) /\ 1000 <= Z.of_nat (length (frames s3)).

Lemma step_scratch ds s3 : exec_step d (exec_buffer top) ds s2 s3 -> exec_step d (exec_area top) ds s2 s3.
Proof. apply exec_step_mono. intros x Hb. by left. Qed.

Lemma task_args_buffer i : 0 <= i < SIZEOF_TASK_ARGS ->
  u32 (top - stk_task_args) = top - stk_task_args /\ exec_buffer top (top - stk_task_args + i).
Proof.
  intros Hi. destruct (xc_layout _ _ _ _ _ _ _ _ Hx) as [? _ _ ? _ _]. unfold SIZEOF_SYSCALL_FRAME, SIZEOF_TASK_ARGS in *.
  split; [apply u32_small; lia|]. do 3 right. unfold SIZEOF_TASK_ARGS. lia.
Qed.

Lemma copy_args_ready s4 ds ph :
  exec_step d (exec_buffer top) ds s2 s4 -> stack_ok s4 d stack_top MEM_TASK_ARG_SIZE ph ->
  (forall x, stack_top <= x < stack_top + MEM_TASK_ARG_SIZE -> page_of (ph x) ∈ ds) ->
  exists m5, lift (strings_count argv) s4 = Done (Z.of_nat (length args)) s4 /\
    copy_args stack_top d (Z.of_nat (length args)) argv s4 = Done 0 (set_k_mem m5 s4) /\
    (forall a, page_of a ∉ ds -> ~ exec_buffer top a -> mget m5 a = mget (k_mem s4) a) /\
    (forall a, (forall x, stack_top <= x < stack_top + MEM_TASK_ARG_SIZE -> page_of a <> page_of (ph x)) ->
      ~ exec_buffer top a -> mget m5 a = mget (k_mem s4) a) /\
    forall m, (forall x, stack_top <= x < stack_top + MEM_TASK_ARG_SIZE -> mmu_walk d m x = Some (ph x) /\ mget m (ph x) = mget m5 (ph x)) ->
      args_at d m stack_top (snd <$> args).
Proof.
  intros Hs Hst Hin. pose proof (step_scratch _ _ Hs) as Hs'. destruct (task_at s4 ds Hs') as (Etk & Ecur & Ecr).
  destruct (task_args_buffer 0 ltac:(done)) as [Eta _]. set (ta := u32 (top - stk_task_args)) in *.
  pose proof (exec_scratch _ _ _ _ _ Hs buffers_ok) as [Hk Hf Ht]. destruct (xc_fit _ _ _ _ _ _ _ _ Hx) as [Hfit Hroom].
  pose proof (kl_args _ (xc_layout _ _ _ _ _ _ _ _ Hx)) as Hla. pose proof (kl_top _ (xc_layout _ _ _ _ _ _ _ _ Hx)) as Hlt.
  unfold SIZEOF_SYSCALL_FRAME, SIZEOF_TASK_ARGS in Hla.
  assert (0 < ta /\ ta + SIZEOF_TASK_ARGS <= 2 ^ 32 /\ forall i, 0 <= i < SIZEOF_TASK_ARGS -> kmapped (ta + i) = true /\
    ~ pt_page (k_mem s4) d (page_of (ta + i)) /\ ~ stack_page stack_top MEM_TASK_ARG_SIZE ph (page_of (ta + i))) as Hta.
  { unfold SIZEOF_TASK_ARGS. split_and!; [lia | lia |]. intros i Hi. destruct (task_args_buffer i Hi) as [_ Hb]. rewrite Eta.
    split_and!; [by apply Hk | by apply Ht |]. intros (x & Hxr & E). apply (so_frames _ _ _ buffers_ok _ Hb).
    rewrite E. apply (es_data _ _ _ _ _ Hs), Hin, Hxr. }
  destruct (copy_args_run s4 d stack_top MEM_TASK_ARG_SIZE ta ph Hst Hta argv args named) as (m5 & E & Hm5 & Hat); try done.
  - rewrite Etk, Ecur. apply lookup_insert_eq.
  - by rewrite Hnamed.
  - exact (args_ok s4 ds ph _ _ Hs' Hst Hin).
  - exists m5. split_and!; [| exact E | | |].
    + destruct (xc_argv _ _ _ _ _ _ _ _ Hx) as (Ha1 & Ha4 & Hae & Hav). unfold MEMORY_TASK_BASE in Ha1.
      pose proof (xc_space _ _ _ _ _ _ _ _ Hx) as (_ & Hd & _).
      erewrite lift_done; [by rewrite set_k_mem_id|]. unfold strings_count. rewrite (proj2 (Z.eqb_neq argv 0)) by lia. cbn [negb].
      rewrite Ecr. replace (length args) with (length (fst <$> args)) by apply length_fmap.
      assert (argv_at old (k_mem s4) argv (fst <$> args)) as Hav4.
      { apply (keeps_argv s old Hd); rewrite ?length_fmap; unfold MEMORY_TASK_BASE; try done. by apply (keeps_step ds s4 _ Hs'). }
      eapply mwhile_exit; [exact (strings_count_loop _ _ _ _ 0 Hav4) | rewrite length_fmap; lia].
    + intros a Hd Hb. apply Hm5; [intros (x & Hxr & E'); apply Hd; rewrite E'; by apply Hin|].
      intros Hr. apply Hb. replace a with (top - stk_task_args + (a - ta)) by lia. by apply task_args_buffer; lia.
    + intros a Hd Hb. apply Hm5; [intros (x & Hxr & E'); by apply (Hd x)|].
      intros Hr. apply Hb. replace a with (top - stk_task_args + (a - ta)) by lia. by apply task_args_buffer; lia.
    + intros m Hm. apply Hat; intros x Hxr; by apply Hm.
Qed.

(** ** The return to the new program *)

(** What the call leaves: the task in its new space, the arguments on the stack, the frame it
    returns through, and the caller's space given back. *)
Record program_entered (entry : Z) (s' : kst) : Prop := {
  pe_paging : paging_ok s';
  pe_cr3 : k_cr3 s' = d;
  pe_tm : k_tm s' = k_tm s;
  pe_tasks : k_tasks s' = <[curr_task (k_tm s) := set_t_tss (set_tss_cr3 d (t_tss named)) named]> (k_tasks s);
  pe_args : args_at d (k_mem s') stack_top (snd <$> args);
  pe_frame : forall o v, (o, v) ∈ execve_words entry (stack_top - 20) -> ld32 (k_mem s') (top - SIZEOF_SYSCALL_FRAME + o) = v;
  pe_kept : forall a, call_frame top a -> (forall o v, (o, v) ∈ execve_words entry (stack_top - 20) ->
      a < top - SIZEOF_SYSCALL_FRAME + o \/ top - SIZEOF_SYSCALL_FRAME + o + 4 <= a) ->
    mget (k_mem s') a = mget (k_mem s) a;
  pe_freed : forall p, own s old p -> p ∈ all_frames (k_alloc s) -> p ∈ frames s'
}.

Lemma words_in_frame entry esp a :
  ~ call_frame top a -> forall o v, (o, v) ∈ execve_words entry esp ->
  a < top - SIZEOF_SYSCALL_FRAME + o \/ top - SIZEOF_SYSCALL_FRAME + o + 4 <= a.
Proof.
  intros Ha o v Hin.
  assert (Forall (fun w : Z * Z => 0 <= w.1 /\ w.1 + 4 <= SIZEOF_SYSCALL_FRAME) (execve_words entry esp)) as Hall
    by (repeat constructor; done).
  destruct (proj1 (Forall_forall _ _) Hall (o, v) Hin) as [Ho Ho4]. cbn [fst] in *.
  unfold call_frame in Ha. lia.
Qed.

(** The frame lies off the buffers. *)
Lemma frame_apart a : call_frame top a -> ~ exec_buffer top a.
Proof.
  destruct (xc_layout _ _ _ _ _ _ _ _ Hx) as [Ht Hh Hp Ha _ (_ & _ & Hf)].
  unfold call_frame, exec_buffer, SIZEOF_SYSCALL_FRAME, SIZEOF_EHDR, SIZEOF_PHDR, SIZEOF_TASK_ARGS in *. lia.
Qed.

(** The caller's pages are free once its space is destroyed. *)
Lemma own_freed s7 s' p :
  dir_wf (k_mem s) [] old -> keeps s old (k_mem s7) -> all_frames (k_alloc s7) = all_frames (k_alloc s) ->
  freed (fun q => q = old \/ below (k_mem s7) old (pde_index old) (1024 - pde_index old) q) s7 s' ->
  own s old p -> p ∈ all_frames (k_alloc s) -> p ∈ frames s'.
Proof.
  intros Hd Hk Hall (a & -> & _ & _ & Hq) Hp Hin. apply Hq. right. rewrite Hall. split; [done|].
  pose proof (page_ok_bounds _ (dw_dir _ _ _ Hd)) as Hb.
  assert (0 <= pde_index old <= 512) as Hi by (rewrite pde_index_div; change (2 ^ 22) with 4194304; zdiv).
  assert (forall i, 0 <= i < 1024 -> table_of (k_mem s7) old i = table_of (k_mem s) old i) as Et.
  { intros i Hir. apply table_of_ext; [apply Hd | apply Hk; by left | done]. }
  destruct Hp as [->|[(i & Hir & E)|(x & pa & Hux & Ew & ->)]]; [by left | right; exists i, p | right].
  - split_and!; [lia | lia | by rewrite Et by lia | by left].
  - pose proof (user_index x Hux) as Hxi. pose proof Ew as Ew'. rewrite walk_tables in Ew' by apply Hd.
    destruct (table_of (k_mem s) old (pde_index x)) as [tb|] eqn:E; [|done]. cbn [mbind option_bind] in Ew'.
    destruct (leaf (k_mem s) tb (pte_index x)) as [q|] eqn:El; [|done]. cbn in Ew'. injection Ew' as <-.
    destruct (dw_table _ _ _ Hd (pde_index x) tb ltac:(lia) E) as (Hta & _).
    exists (pde_index x), tb. split_and!; [lia | lia | by rewrite Et by lia | right]. exists (pte_index x).
    split; [apply pte_index_range|]. rewrite (leaf_ext (k_mem s)); [| apply Hta | | apply pte_index_range].
    + rewrite El. f_equal. unfold leaf in El. destruct (present _); [|done]. injection El as <-. unfold pte_paddr.
      rewrite shift_page. unfold page_of. zdiv.
    + apply Hk. right; left. exists (pde_index x). by split.
Qed.

(** The registers are set: only the frame changes. *)
Lemma frame_step ds s5 entry :
  exec_step d (exec_buffer top) ds s2 s5 -> 0 <= entry < 2 ^ 32 ->
  exists m6, lift (execve_frame (u32 (top - SIZEOF_SYSCALL_FRAME)) entry stack_top) s5 = Done tt (set_k_mem m6 s5) /\
    exec_step d (exec_area top) ds s2 (set_k_mem m6 s5) /\
    (forall x, 0 <= x < 2 ^ 32 -> mmu_walk d m6 x = mmu_walk d (k_mem s5) x) /\
    words_set (k_mem s5) m6 (top - SIZEOF_SYSCALL_FRAME) (execve_words entry (stack_top - 20)).
Proof.
  intros Hs He. pose proof (step_scratch _ _ Hs) as Hs'. pose proof (xs_scratch _ _ _ _ _ Hsp) as Hsc.
  pose proof (kl_top _ (xc_layout _ _ _ _ _ _ _ _ Hx)) as Ht. rewrite u32_small by (unfold SIZEOF_SYSCALL_FRAME; lia).
  destruct (execve_frame_run (top - SIZEOF_SYSCALL_FRAME) entry stack_top (k_cr3 s5) (k_mem s5)) as (m6 & E & Hw); [| done | done |].
  { intros i Hi. apply (so_kernel _ _ _ Hsc). right. unfold call_frame. lia. }
  exists m6. destruct (exec_write d (exec_area top) ds s2 s5 m6 (k_temp_pos s5) (k_reads s5) (k_out s5) Hs' Hsc) as [Hs6 Hw6].
  { intros x _ Hxs. apply (ws_kept _ _ _ _ Hw). apply words_in_frame. intros Hc. apply Hxs. by right. }
  replace (set_k_out (k_out s5) (set_k_reads (k_reads s5) (set_k_temp_pos (k_temp_pos s5) (set_k_mem m6 s5))))
    with (set_k_mem m6 s5) in Hs6 by (by destruct s5).
  split_and!; [by erewrite lift_done by exact E | done | done | done].
Qed.

(** The caller's space is destroyed, with the new one in use. *)
Lemma leave_old s6 ds :
  exec_step d (exec_area top) ds s2 s6 -> keeps s old (k_mem s6) ->
  let named' := set_t_tss (set_tss_cr3 d (t_tss named)) named in
  exists s', (upd_task (curr_task (k_tm s)) (fun t => set_t_tss (set_tss_cr3 d (t_tss t)) t);; mmu_set_page_dir d;;
      memory_destroy_uvm old;; mret 0) s6 = Done 0 s' /\
    k_cr3 s' = d /\ k_tm s' = k_tm s /\ k_tasks s' = <[curr_task (k_tm s) := named']> (k_tasks s) /\ k_mem s' = k_mem s6 /\ paging_ok s' /\
    forall p, own s old p -> p ∈ all_frames (k_alloc s) -> p ∈ frames s'.
Proof.
  intros Hs Hk named'. destruct (xc_space _ _ _ _ _ _ _ _ Hx) as (_ & Hd & Hpos). destruct (task_at s6 ds Hs) as (Etk & _ & _).
  set (s7 := set_k_cr3 d (set_k_tasks (<[curr_task (k_tm s) := named']> (k_tasks s6)) s6)).
  assert (paging_ok s7) as Hok7 by (destruct (es_ok _ _ _ _ _ Hs); by split).
  assert (all_frames (k_alloc s7) = all_frames (k_alloc s)) as Hall.
  { change (k_alloc s7) with (k_alloc s6). by rewrite (es_region _ _ _ _ _ Hs), (xs_region _ _ _ _ _ Hsp). }
  destruct (memory_destroy_uvm_run s7 old Hok7) as (s' & E & Hf); [by apply (keeps_dir s) | done |].
  pose proof (own_freed s7 s' ) as Hown. destruct (freed_mem _ _ _ Hf) as (Em & Ecr & Hok').
  exists s'. split_and!; try done.
  - rewrite run_bind. erewrite upd_task_run by (rewrite Etk; apply lookup_insert_eq). cbn [obind].
    rewrite run_bind. unfold mmu_set_page_dir, write_cr3. rewrite run_modify. cbn [obind]. fold named' s7. by rewrite run_bind, E.
  - destruct Hf as (a & -> & _). destruct (es_state _ _ _ _ _ Hs) as (m & a' & tp & rd & o & ->). by destruct (xs_state _ _ _ _ _ Hsp) as (m2 & a2 & ->).
  - destruct Hf as (a & -> & _). unfold s7. kproj. rewrite Etk. apply insert_insert_eq.
  - intros p. by apply Hown.
Qed.

(** The stack is mapped and the arguments are on it. *)
Lemma stack_run s3 ps1 :
  exec_step d (exec_buffer top) ps1 s2 s3 -> stack_free s3 ->
  exists ps2 s4 m5,
    memory_alloc_for_page_dir d stack_base MEM_TASK_STACK_SIZE (Z.lor (Z.lor PTE_P PTE_U) PTE_W) s3 = Done 0 s4 /\
    lift (strings_count argv) s4 = Done (Z.of_nat (length args)) s4 /\
    copy_args stack_top d (Z.of_nat (length args)) argv s4 = Done 0 (set_k_mem m5 s4) /\
    exec_step d (exec_buffer top) (ps1 ++ ps2) s2 (set_k_mem m5 s4) /\ Z.of_nat (length ps2) = 500 /\
    (forall x, 0 <= x < 2 ^ 32 -> mmu_walk d m5 x = map_frames stack_base ps2 (mmu_walk d (k_mem s3)) x) /\
    (forall a, page_of a ∈ ps1 -> mget m5 a = mget (k_mem s3) a) /\
    forall m, (forall x, 0 <= x < 2 ^ 32 -> mmu_walk d m x = mmu_walk d m5 x) ->
      (forall a, ~ call_frame top a -> mget m a = mget m5 a) -> args_at d m stack_top (snd <$> args).
Proof.
  intros Hs3 [Hfree Hroom].
  destruct (memory_alloc_for_page_dir_run s3 d stack_base MEM_TASK_STACK_SIZE (Z.lor (Z.lor PTE_P PTE_U) PTE_W)
    (es_ok _ _ _ _ _ Hs3) (es_dir _ _ _ _ _ Hs3)) as (ps2 & s4 & E4 & Hl2 & Hnd2 & Hs4 & _ & Hw4); try done.
  change ((MEM_TASK_STACK_SIZE + 4095) / 4096) with 500 in Hl2.
  destruct (mapped_stack s3 s4 d stack_base ps2 _ stack_top MEM_TASK_ARG_SIZE Hs4 (es_ok _ _ _ _ _ Hs3) Hnd2 eq_refl Hw4)
    as [Hst Hin]; [done | done | by rewrite Hl2 | done |].
  set (ph := fun x => default 0 (mmu_walk d (k_mem s4) x)) in *.
  pose proof (exec_trans _ _ _ _ _ _ _ Hs3 (exec_map d (exec_buffer top) _ _ _ Hs4)) as Hs24.
  destruct (copy_args_ready s4 (ps1 ++ ps2) ph Hs24 Hst) as (m5 & Ec & E5 & Ho5 & Hb5 & Hat).
  { intros x Hxr. apply elem_of_app. right. by apply Hin. }
  destruct (exec_write d (exec_buffer top) (ps1 ++ ps2) s2 s4 m5 (k_temp_pos s4) (k_reads s4) (k_out s4) Hs24 buffers_ok Ho5) as [Hs5 Hw5].
  replace (set_k_out (k_out s4) (set_k_reads (k_reads s4) (set_k_temp_pos (k_temp_pos s4) (set_k_mem m5 s4))))
    with (set_k_mem m5 s4) in Hs5 by (by destruct s4).
  exists ps2, s4, m5. split_and!; try done.
  - intros x Hxr. rewrite Hw5 by done. by apply Hw4.
  - intros a Ha. destruct (es_data _ _ _ _ _ Hs24 (page_of a)) as (Haf & _ & Hap); [apply elem_of_app; by left|].
    destruct (es_data _ _ _ _ _ Hs3 (page_of a) Ha) as (_ & Ha3 & _).
    assert (page_of a ∉ ps2) as Ha2 by (intros Hi2; by destruct (ms_data _ _ _ _ Hs4 _ Hi2)).
    rewrite Hb5; [by apply (ms_frame _ _ _ _ Hs4 (page_of a)) | |].
    + intros x Hxr E. apply Ha2. rewrite E. by apply Hin.
    + intros Hb. by apply (so_frames _ _ _ buffers_ok a Hb).
  - intros m Hwm Hm. apply Hat. intros x Hxr. split.
    + rewrite Hwm, Hw5 by (unfold stack_top, MEM_TASK_ARG_SIZE, MEM_TASK_STACK_TOP, MEM_PAGE_SIZE in *; lia).
      by apply (sk_walk _ _ _ _ _ Hst).
    + apply Hm. intros Hc. apply (so_frames _ _ _ (xs_scratch _ _ _ _ _ Hsp) (ph x)); [by right|].
      apply (es_data _ _ _ _ _ Hs24). apply elem_of_app. right. by apply Hin.
Qed.

Lemma execve_load_run s3 ps1 entry :
  load_elf_file (curr_task (k_tm s)) name d s2 = Done entry s3 -> entry <> 0 -> 0 <= entry < 2 ^ 32 ->
  exec_step d (exec_buffer top) ps1 s2 s3 -> stack_free s3 ->
  exists ps2 s', execve_load (curr_task (k_tm s)) name argv old d s2 = Done 0 s' /\ program_entered entry s' /\
    Z.of_nat (length ps2) = 500 /\ (forall a, page_of a ∈ ps1 -> mget (k_mem s') a = mget (k_mem s3) a) /\
    forall x, 0 <= x < 2 ^ 32 -> mmu_walk d (k_mem s') x = map_frames stack_base ps2 (mmu_walk d (k_mem s3)) x.
Proof.
  intros El Hne He Hs3 Hfree.
  destruct (stack_run s3 ps1 Hs3 Hfree) as (ps2 & s4 & m5 & E4 & Ec & E5 & Hs5 & Hl2 & Hw5 & Hpr & Hat).
  set (s5 := set_k_mem m5 s4) in *. destruct (frame_step (ps1 ++ ps2) s5 entry Hs5 He) as (m6 & E6 & Hs6 & Hw6 & Hws).
  assert (forall a, ~ call_frame top a -> mget m6 a = mget m5 a) as Ho6.
  { intros a Ha. apply (ws_kept _ _ _ _ Hws). by apply words_in_frame. }
  destruct (leave_old (set_k_mem m6 s5) (ps1 ++ ps2) Hs6) as (s' & E & Ecr & Etm & Etk & Em & Hok' & Hfreed).
  { apply (keeps_step _ _ m6 Hs6). by intros. }
  assert (forall a, mget (k_mem s') a = mget m6 a) as Em' by (intros; by rewrite Em).
  exists ps2, s'. split_and!; [| | done | |].
  - unfold execve_load. rewrite run_bind, El. cbn [obind]. rewrite (proj2 (Z.eqb_neq entry 0)) by done.
    rewrite run_bind. fold stack_base. rewrite E4. cbn [obind]. change (0 <? 0) with false. cbn iota.
    rewrite run_bind, Ec. cbn [obind]. fold stack_top. rewrite run_bind, E5. cbn [obind]. change (0 <? 0) with false. cbn iota.
    destruct (task_at s5 _ (step_scratch _ _ Hs5)) as (Etk5 & _ & _).
    rewrite run_bind. erewrite get_task_run by (rewrite Etk5; apply lookup_insert_eq). cbn [obind].
    rewrite Hnamed, run_bind, E6. cbn [obind]. exact E.
  - constructor; try done.
    + rewrite Em. kproj. apply Hat; done.
    + rewrite Em. exact (ws_set _ _ _ _ Hws).
    + intros a Ha Haw. rewrite Em', (ws_kept _ _ _ _ Hws a Haw). pose proof (frame_apart a Ha) as Hb.
      destruct (xc_scratch _ _ _ _ _ _ _ _ Hx a) as (_ & Haf & Hap); [by right|].
      destruct (xs_frames _ _ _ _ _ Hsp) as [Ef _]. rewrite Ef in Haf. apply not_elem_of_cons in Haf as [Had Haf].
      rewrite (exec_kept _ _ _ _ _ a Hs5) by (try done; by intros [?|?]%(xs_tables _ _ _ _ _ Hsp)).
      by apply (xs_same _ _ _ _ _ Hsp (page_of a)).
  - intros a Ha. rewrite Em'. rewrite Ho6; [by apply Hpr|]. intros Hc.
    apply (so_frames _ _ _ (xs_scratch _ _ _ _ _ Hsp) a); [by right|].
    apply (es_data _ _ _ _ _ Hs5). apply elem_of_app. by left.
  - intros x Hxr. rewrite Em. kproj. rewrite Hw6 by done. by apply Hw5.
Qed.

End Load.

(** The locals of [load_elf_file] are among the buffers. *)
Lemma exec_load_buffers top :
  kstack_layout top -> load_buffers (exec_buffer top) (top - stk_elf_hdr) (top - stk_elf_phdr).
Proof.
  intros [Ht Hh Hp Ha Hap (Hf0 & Hf1 & Hf)]. unfold SIZEOF_SYSCALL_FRAME, SIZEOF_EHDR, SIZEOF_PHDR, SIZEOF_TASK_ARGS in *.
  split.
  - split_and!; [done | done |]. intros i Hi. left. lia.
  - split; [lia|]. intros i Hi. right; left. lia.
  - split; [lia|]. intros i Hi. right; right; left. lia.
  - unfold SIZEOF_EHDR, SIZEOF_PHDR. lia.
Qed.

Lemma map_frames_some vaddr ps g x pa :
  (forall p, p ∈ ps -> p mod 4096 = 0) -> vaddr <= x < vaddr + Z.of_nat (length ps) * 4096 ->
  map_frames vaddr ps g x = Some pa -> page_of pa ∈ ps.
Proof.
  intros Hp Hx. unfold map_frames. rewrite decide_True by done. destruct (ps !! _) as [p|] eqn:Ep; [|done]. cbn. intros [= <-].
  assert (p ∈ ps) as Hin by (by eapply list_elem_of_lookup_2). rewrite page_of_offset; [done | by apply Hp | zdiv].
Qed.

(** A format with one string at its end. *)
Lemma format_string_last dr lit p str :
  Forall (fun c => 0 < c < 256 /\ c <> 0x25) lit -> dr (u32 p) = Some str -> str_bytes str ->
  format_text dr (lit ++ [0x25; 0x73]) false [VInt p] = Some (lit ++ str).
Proof.
  intros Hl Hp Hs. induction Hl as [|c lit [Hc Hc'] _ IH].
  - cbn. rewrite Hp. cbn. rewrite app_nil_r. f_equal. clear Hp. induction Hs as [|b str Hb _ IH]; [done|].
    cbn [map]. rewrite u8_small by lia. by rewrite IH.
  - cbn [app format_text negb]. rewrite (proj2 (Z.eqb_neq c 0x25)) by done. rewrite IH. cbn. by rewrite u8_small by lia.
Qed.

(** [load_elf_file] of a path the file system does not open: the log says so. *)
Lemma load_missing s t name dir f sep argv args named d s2 :
  exec_call s t name dir f sep argv args -> exec_space s (tss_esp0 (t_tss t)) named d s2 ->
  hd 0 (dir ++ sep :: f) <> 0x2f -> com1_ready -> log_free s -> (length (dir ++ sep :: f) < 100)%nat ->
  exists s3, load_elf_file (curr_task (k_tm s)) name d s2 = Done (2 ^ 32 - 1) s3 /\ logged s2 s3 /\
    exec_step d (exec_buffer (tss_esp0 (t_tss t))) [] s2 s3.
Proof.
  intros Hx Hsp Hhd Hcom Hlog Hlen.
  assert (exec_step d (exec_buffer (tss_esp0 (t_tss t))) [] s2 s2) as Hrefl
    by (apply exec_refl; [apply (xs_paging _ _ _ _ _ Hsp) | apply (xs_dir _ _ _ _ _ Hsp)]).
  assert (keeps s (k_cr3 s) (k_mem s2)) as Hkeep.
  { apply (keeps_step s t name dir f sep argv args named d s2 Hx Hsp [] s2); [by apply step_scratch | done]. }
  destruct (xc_name _ _ _ _ _ _ _ _ Hx) as (Hn1 & Hn2 & Hc & _). destruct (xc_space _ _ _ _ _ _ _ _ Hx) as (_ & Hd & _).
  pose proof (keeps_cstr s _ Hd _ _ Hkeep name Hn1 Hn2 Hc) as Hc2. unfold MEMORY_TASK_BASE in Hn1.
  set (path := dir ++ sep :: f) in *.
  assert (k_cr3 s2 = k_cr3 s /\ log_free s2 /\ curr_task (k_tm s2) = curr_task (k_tm s) /\
    k_tasks s2 !! curr_task (k_tm s) = Some named) as (Ecr & Hlog2 & Ecur & Etk).
  { destruct (xs_state _ _ _ _ _ Hsp) as (m2 & a2 & ->). split_and!; try done. apply lookup_insert_eq. }
  assert (exists c, load8 name (k_cr3 s) (k_mem s2) = Some (c, k_mem s2) /\ c <> 0x2f) as (c & Hl & Hne).
  { unfold path in *. destruct (dir ++ sep :: f) as [|c r]; [exists 0; by split | exists c; by split; [apply Hc2|]]. }
  assert (deref s2 (u32 name) = Some path) as Ed.
  { unfold deref. rewrite u32_small, Ecr, (read_cstr_run _ _ name path) by (done || lia). done. }
  pose proof (cstr_bytes _ _ _ _ Hc) as Hpb.
  eexists. split_and!.
  - unfold load_elf_file. rewrite run_bind, (stack_local_run _ _ named _ Ecur Etk). cbn [obind].
    rewrite run_bind, (stack_local_run _ _ named _ Ecur Etk). cbn [obind].
    unfold sys_open. rewrite run_bind, run_bind. erewrite lift_done by (rewrite Ecr; exact Hl). cbn [obind]. rewrite set_k_mem_id.
    rewrite (proj2 (Z.eqb_neq c 0x2f)) by done. rewrite run_ret. cbn [obind]. change (-1 <? 0) with true. cbn iota.
    rewrite run_bind, (log_printf_run s2 (cs "open failed: %s") [VInt name] (cs "open failed: " ++ path)); try done.
    + change (cs "open failed: %s") with (cs "open failed: " ++ [0x25; 0x73]). apply format_string_last; [|done|done].
      repeat constructor; done.
    + apply Forall_app. split; [|done]. repeat constructor.
    + rewrite length_app. unfold LOG_BUF_SIZE. change (length (cs "open failed: ")) with 13%nat. lia.
  - by eexists _, _.
  - pose proof (exec_write d (exec_buffer (tss_esp0 (t_tss t))) [] s2 s2 (k_mem s2) (k_temp_pos s2)
      (length (cs "open failed: " ++ path) + k_reads s2)
      ((COM1_PORT, 0x0a) :: (COM1_PORT, 0x0d) :: reverse (pair COM1_PORT <$> (cs "open failed: " ++ path)) ++ k_out s2)
      Hrefl (buffers_ok s t named d s2 Hsp)) as [Hs _]; [done|].
    by destruct s2.
Qed.


(** The new space above the kernel's half, and what of the state is as it was. *)
Lemma exec_space_empty s top named d s2 x : exec_space s top named d s2 -> 0x80000000 <= x < 2 ^ 32 -> mmu_walk d (k_mem s2) x = None.
Proof.
  intros Hsp Hx. rewrite (xs_walk _ _ _ _ _ Hsp) by lia. unfold MEMORY_TASK_BASE. by rewrite (proj2 (Z.ltb_ge _ _)) by lia.
Qed.

Lemma exec_space_state s top named d s2 : exec_space s top named d s2 ->
  k_reads s2 = k_reads s /\ k_cr3 s2 = k_cr3 s /\ k_tm s2 = k_tm s /\ k_tasks s2 = <[curr_task (k_tm s) := named]> (k_tasks s).
Proof. intros Hsp. by destruct (xs_state _ _ _ _ _ Hsp) as (m2 & a2 & ->). Qed.

(** The pages of a segment, from the size its header gives. *)
Lemma elf_pages k n vaddr memsz off filesz :
  elf_program (disk_byte k) n vaddr memsz off filesz ->
  0 <= memsz /\ 0 <= (memsz + 4095) / 4096 /\ 0x80000000 <= vaddr /\ vaddr + (memsz + 4095) / 4096 * 4096 <= 2 ^ 32 /\
  filesz <= (memsz + 4095) / 4096 * 4096.
Proof.
  intros [_ _ _ _ _ (_ & <- & _) (Hv & Hvm & Hfm & Hve) _]. unfold MEMORY_TASK_BASE in Hv.
  pose proof (word32_range (disk_byte k) (phdr_at (disk_byte k) n + p_memsz) (disk_byte_range _)) as Hr. split_and!; zdiv.
Qed.

(** The program is loaded into the new space, away from the stack. *)
Lemma program_loads s t name dir f sep argv args named d s2 n vaddr memsz off filesz :
  exec_call s t name dir f sep argv args -> exec_space s (tss_esp0 (t_tss t)) named d s2 -> t_tss named = t_tss t ->
  hd 0 (dir ++ sep :: f) = 0x2f -> disk_ready -> elf_program (disk_byte (k_reads s)) n vaddr memsz off filesz ->
  vaddr + (memsz + 4095) / 4096 * 4096 <= stack_base \/ MEM_TASK_STACK_TOP <= vaddr ->
  1000 + 2 * ((memsz + 4095) / 4096) <= Z.of_nat (length (frames s2)) ->
  exists ps1 s3, load_elf_file (curr_task (k_tm s)) name d s2 = Done (word32 (disk_byte (k_reads s)) e_entry) s3 /\
    segment_loaded d (exec_buffer (tss_esp0 (t_tss t))) s2 (disk_byte (k_reads s)) vaddr memsz off filesz ps1 s3 /\ stack_free d s3.
Proof.
  intros Hx Hsp Etss Hhd Hdisk Helf Hap Hroom. destruct (elf_pages _ _ _ _ _ _ Helf) as (Hm & Hq & Hv & Hve & Hfq).
  destruct (exec_space_state _ _ _ _ _ Hsp) as (Erd & Ecr & Etm & Etk).
  pose proof (xc_layout _ _ _ _ _ _ _ _ Hx) as Hlay. pose proof (kl_top _ Hlay) as Htop.
  pose proof (kl_hdr _ Hlay) as Hlh. pose proof (kl_phdr _ Hlay) as Hlp. unfold SIZEOF_SYSCALL_FRAME, SIZEOF_EHDR, SIZEOF_PHDR in Hlh, Hlp.
  destruct (load_elf_file_run d (exec_buffer (tss_esp0 (t_tss t))) _ _ s2 (curr_task (k_tm s)) name named n vaddr memsz off filesz
    (exec_load_buffers _ Hlay) (buffers_ok s t named d s2 Hsp) (xs_paging _ _ _ _ _ Hsp) (xs_dir _ _ _ _ _ Hsp) Hdisk) as (ps1 & s3 & El & Hl);
    rewrite ?Erd, ?Ecr, ?Etm, ?Etk, ?Etss; try done; [| apply lookup_insert_eq | apply u32_small; lia | apply u32_small; lia | | lia |].
  - destruct (xc_name _ _ _ _ _ _ _ _ Hx) as (Hn1 & Hn2 & Hc & _). destruct (xc_space _ _ _ _ _ _ _ _ Hx) as (_ & Hd & _).
    apply (keeps_load8 s _ Hd); [| unfold MEMORY_TASK_BASE in Hn1; split; [done | lia] |].
    + apply (keeps_step s t name dir f sep argv args named d s2 Hx Hsp [] s2); [|done].
      apply exec_refl; [apply (xs_paging _ _ _ _ _ Hsp) | apply (xs_dir _ _ _ _ _ Hsp)].
    + destruct (dir ++ sep :: f) as [|c r]; [done|]. cbn [hd] in Hhd. subst c. apply Hc.
  - intros x Hxr. apply (exec_space_empty _ _ _ _ _ _ Hsp). lia.
  - rewrite Erd in El, Hl. exists ps1, s3. split_and!; [done | done |]. destruct Hl as [_ (Hl1 & _) Hlen Hw3 _].
    split; [|lia]. intros x Hxr. unfold stack_base, MEM_TASK_STACK_TOP, MEM_TASK_STACK_SIZE, MEM_PAGE_SIZE in *.
    rewrite Hw3 by lia. unfold map_frames. rewrite decide_False by lia. apply (exec_space_empty _ _ _ _ _ _ Hsp). lia.
Qed.

(** The whole call; see [sys_execve_enters_program]. *)
Lemma sys_execve_run s t name dir f sep argv env args n vaddr memsz off filesz :
  let file := disk_byte (k_reads s) in
  exec_call s t name dir f sep argv args -> hd 0 (dir ++ sep :: f) = 0x2f -> disk_ready ->
  elf_program file n vaddr memsz off filesz -> word32 file e_entry <> 0 ->
  vaddr + (memsz + 4095) / 4096 * 4096 <= stack_base \/ MEM_TASK_STACK_TOP <= vaddr ->
  1001 + 2 * ((memsz + 4095) / 4096) <= Z.of_nat (length (frames s)) ->
  exists named d ps1 ps2 s', task_set_name (take 32 f) t = Some named /\ sys_execve name argv env s = Done 0 s' /\
    program_entered s t args named d (word32 file e_entry) s' /\
    Z.of_nat (length ps1) = (memsz + 4095) / 4096 /\ Z.of_nat (length ps2) = 500 /\
    (forall x, 0 <= x < 2 ^ 32 -> mmu_walk d (k_mem s') x = map_frames stack_base ps2 (map_frames vaddr ps1 (fun x =>
       if x <? MEMORY_TASK_BASE then mmu_walk kernel_page_dir (k_mem s) x else None)) x) /\
    forall i, 0 <= i < filesz -> exists pa, mmu_walk d (k_mem s') (vaddr + i) = Some pa /\ mget (k_mem s') pa = file (off + i).
Proof.
  intros file Hx Hhd Hdisk Helf Hne Hap Hroom. destruct (elf_pages _ _ _ _ _ _ Helf) as (Hm & Hq & Hv & Hve & Hfq).
  destruct (exec_space_run s t name dir f sep argv env args Hx) as (named & d & s2 & En & Etss & Hsp & Eex).
  { intros E. rewrite E in Hroom. cbn [length] in Hroom. lia. }
  destruct (xs_frames _ _ _ _ _ Hsp) as [Ef _]. rewrite Ef in Hroom. cbn [length] in Hroom.
  destruct (program_loads s t name dir f sep argv args named d s2 n vaddr memsz off filesz Hx Hsp Etss Hhd Hdisk Helf Hap)
    as (ps1 & s3 & El & [Hs3 (Hl1 & _) _ Hw3 Hb3] & Hfree); [lia|]. fold file in El, Hb3.
  destruct (execve_load_run s t name dir f sep argv args named d s2 Hx Hsp Etss s3 ps1 (word32 file e_entry))
    as (ps2 & s' & E & Hpe & Hl2 & Hpr & Hw); [done | done | apply word32_range, disk_byte_range | done | done |].
  exists named, d, ps1, ps2, s'. split_and!; [done | by rewrite Eex | done | done | done | |].
  - intros x Hxr. rewrite Hw by done. unfold map_frames. case_decide; [done|]. rewrite Hw3 by done. unfold map_frames.
    case_decide; [done|]. by apply (xs_walk _ _ _ _ _ Hsp).
  - intros i Hi. destruct (Hb3 i Hi) as (pa & Ep & Eb). exists pa.
    unfold stack_base, MEM_TASK_STACK_TOP, MEM_TASK_STACK_SIZE, MEM_PAGE_SIZE in *. split.
    + rewrite Hw by lia. unfold map_frames. rewrite decide_False by lia. done.
    + rewrite Hpr; [done|]. rewrite Hw3 in Ep by lia. eapply (map_frames_some vaddr ps1 _ (vaddr + i)); [|lia|exact Ep].
      intros p Hp. destruct (es_data _ _ _ _ _ Hs3 p Hp) as (Hpf%free_frames_all & _).
      by apply (po_frames _ (xs_paging _ _ _ _ _ Hsp)).
Qed.

(** * Properties *)

(** C14: [sys_execve] of a path the file system opens, whose file has a segment to load, puts
    the program in the caller's place: it returns 0 to a frame whose EIP is the entry point,
    with zeroed registers, interrupts on and ESP below the arguments (the rest of the frame
    is as it was); the task, under the program's name, and CR3 have a new space, in which
    the bytes of the file are at the segment's addresses, 500 pages at the stack, [argc],
    [argv] and the strings at the stack's top, and nothing else above the kernel's half; and
    every page of the caller's space is free again. *)
Theorem sys_execve_enters_program s t name dir f sep argv env args n vaddr memsz off filesz :
  let file := disk_byte (k_reads s) in
  exec_call s t name dir f sep argv args -> hd 0 (dir ++ sep :: f) = 0x2f -> disk_ready ->
  elf_program file n vaddr memsz off filesz -> word32 file e_entry <> 0 ->
  vaddr + (memsz + 4095) / 4096 * 4096 <= stack_base \/ MEM_TASK_STACK_TOP <= vaddr ->
  1001 + 2 * ((memsz + 4095) / 4096) <= Z.of_nat (length (frames s)) ->
  exists named d ps1 ps2 s', task_set_name (take 32 f) t = Some named /\ sys_execve name argv env s = Done 0 s' /\
    program_entered s t args named d (word32 file e_entry) s' /\
    Z.of_nat (length ps1) = (memsz + 4095) / 4096 /\ Z.of_nat (length ps2) = 500 /\
    (forall x, 0 <= x < 2 ^ 32 -> mmu_walk d (k_mem s') x = map_frames stack_base ps2 (map_frames vaddr ps1 (fun x =>
       if x <? MEMORY_TASK_BASE then mmu_walk kernel_page_dir (k_mem s) x else None)) x) /\
    forall i, 0 <= i < filesz -> exists pa, mmu_walk d (k_mem s') (vaddr + i) = Some pa /\ mget (k_mem s') pa = file (off + i).
Proof. apply sys_execve_run. Qed.

(** C39: [sys_execve] of a path the file system does not open reports success: it returns 0 to
    EIP 0xFFFFFFFF, where the new space maps nothing; the caller's space is given back. The
    new space maps the kernel's half as the kernel's own directory does and a stack of
    exactly 500 pages, with the arguments at its top, and nothing else. *)
Theorem sys_execve_missing_file s t name dir f sep argv env args :
  exec_call s t name dir f sep argv args -> hd 0 (dir ++ sep :: f) <> 0x2f ->
  com1_ready -> log_free s -> (length (dir ++ sep :: f) < 100)%nat -> 1001 <= Z.of_nat (length (frames s)) ->
  exists named d ps s', sys_execve name argv env s = Done 0 s' /\ program_entered s t args named d 0xFFFFFFFF s' /\
    mmu_walk d (k_mem s') 0xFFFFFFFF = None /\
    length ps = 500%nat /\
    forall x, 0 <= x < 2 ^ 32 -> mmu_walk d (k_mem s') x = map_frames stack_base ps (fun x =>
      if x <? MEMORY_TASK_BASE then mmu_walk kernel_page_dir (k_mem s) x else None) x.
Proof.
  intros Hx Hhd Hcom Hlog Hlen Hroom.
  destruct (exec_space_run s t name dir f sep argv env args Hx) as (named & d & s2 & En & Etss & Hsp & Eex).
  { intros E. rewrite E in Hroom. cbn in Hroom. lia. }
  destruct (load_missing s t name dir f sep argv args named d s2 Hx Hsp Hhd Hcom Hlog Hlen) as (s3 & El & (rd & o & ->) & Hs3).
  set (s3 := set_k_reads rd (set_k_out o s2)) in *. destruct (xs_frames _ _ _ _ _ Hsp) as [Ef _]. rewrite Ef in Hroom. cbn [length] in Hroom.
  destruct (execve_load_run s t name dir f sep argv args named d s2 Hx Hsp Etss s3 [] (2 ^ 32 - 1)) as (ps2 & s' & E & Hpe & Hl2 & _ & Hw);
    [done | done | lia | done | |].
  { split; [|change (frames s3) with (frames s2); lia]. intros x Hxr. apply (exec_space_empty _ _ _ _ _ _ Hsp).
    unfold stack_base, MEM_TASK_STACK_TOP, MEM_TASK_STACK_SIZE, MEM_PAGE_SIZE in *. lia. }
  exists named, d, ps2, s'. split_and!; [by rewrite Eex | done | | lia |].
  - rewrite Hw by done. unfold map_frames.
    rewrite decide_False by (rewrite Hl2; unfold stack_base, MEM_TASK_STACK_TOP, MEM_TASK_STACK_SIZE, MEM_PAGE_SIZE; lia).
    by apply (exec_space_empty _ _ _ _ _ _ Hsp).
  - intros x Hxr. rewrite Hw by done. unfold map_frames. case_decide; [done|]. by apply (xs_walk _ _ _ _ _ Hsp).
Qed.

End ExecRun.
