(* ===== verification/Syscall.v ===== *)
(** System calls: kernel/core/syscall.c. *)
From S2P Require Import Prelude DList Bitmap Machine MachineFacts Klib Format Sched Ipc Log Cpu Alloc Paging Irq Timer.
From S2P Require Import Fs Task TaskLife Exec.

(** syscall.h *)
Definition SYS_sleep : Z := 0.
Definition SYS_getpid : Z := 1.
Definition SYS_print_msg : Z := 2.
Definition SYS_fork : Z := 3.
Definition SYS_execve : Z := 4.
Definition SYS_exit : Z := 5.

Section Syscall.
Context `{Layout} `{Device}.

Definition sys_print_msg (fmt arg : Z) : K unit :=
  f ← lift (read_cstr fmt);
  log_printf f [VInt arg].

(** [sys_table[func_id]] applied; for a [void] handler the result is what it
    leaves in EAX. *)
Definition sys_table (func_id arg0 arg1 arg2 arg3 : Z) : option (K Z) :=
  if func_id =? SYS_sleep then Some (sys_sleep (u32 arg0);; mret (void_eax func_id))
  else if func_id =? SYS_getpid then Some sys_getpid
  else if func_id =? SYS_print_msg then Some (sys_print_msg arg0 arg1;; mret (void_eax func_id))
  else if func_id =? SYS_fork then Some sys_fork
  else if func_id =? SYS_execve then Some (sys_execve arg0 arg1 arg2)
  else if func_id =? SYS_exit then Some (sys_exit arg0)
  else None.

(** [frame] is the address of the frame on the kernel stack. *)
Definition do_handler_syscall (frame : Z) : K unit :=
  func_id ← lift (load32 (frame + fr_func_id));
  arg0 ← lift (load32 (frame + fr_arg0));
  arg1 ← lift (load32 (frame + fr_arg1));
  arg2 ← lift (load32 (frame + fr_arg2));
  arg3 ← lift (load32 (frame + fr_arg3));
  match (if func_id <? 6 then sys_table func_id arg0 arg1 arg2 arg3 else None) with
  | Some handler =>
      ret ← handler;
      lift (store32 (frame + fr_eax) ret)
  | None =>
      curr ← task_current;
      task ← get_task curr;
      log_printf (cs "task: %s, Unknown syscall: %d")
        [VStr (until0 (t_name task ++ word_bytes (t_pid task))); VInt func_id];;
      lift (store32 (frame + fr_eax) (-1))
  end.

(** * Lemmas *)

(** The frame lies on a kernel stack. *)
Definition frame_ok (frame : Z) : Prop :=
  forall off, 0 <= off < SIZEOF_SYSCALL_FRAME -> kmapped (frame + off) = true.

Lemma frame_load s frame off :
  frame_ok frame -> 0 <= off < SIZEOF_SYSCALL_FRAME ->
  lift (load32 (frame + off)) s = Done (ld32 (k_mem s) (frame + off)) s.
Proof.
  intros Hf Ho. erewrite lift_done by (apply load32_kernel; by apply Hf). by rewrite set_k_mem_id.
Qed.

Lemma frame_store s frame off v :
  frame_ok frame -> 0 <= off < SIZEOF_SYSCALL_FRAME ->
  lift (store32 (frame + off) v) s = Done tt (set_k_mem (st32 (k_mem s) (frame + off) v) s).
Proof. intros Hf Ho. by erewrite lift_done by (apply store32_kernel; by apply Hf). Qed.

(** The handler of a frame, applied to the arguments the frame holds. *)
Definition frame_call (m : gmap Z Z) (frame : Z) : option (K Z) :=
  let w off := ld32 m (frame + off) in
  if w fr_func_id <? 6
  then sys_table (w fr_func_id) (w fr_arg0) (w fr_arg1) (w fr_arg2) (w fr_arg3) else None.

Lemma do_handler_syscall_known s frame handler :
  frame_ok frame -> frame_call (k_mem s) frame = Some handler ->
  do_handler_syscall frame s = (ret ← handler; lift (store32 (frame + fr_eax) ret)) s.
Proof.
  intros Hf E. unfold do_handler_syscall. do 5 (rewrite run_bind, frame_load by done; cbn [obind]).
  unfold frame_call in E. cbn zeta in E. by rewrite E.
Qed.

(** Every known number has a handler. *)
Lemma frame_call_none m frame :
  frame_call m frame = None <-> 6 <= ld32 m (frame + fr_func_id).
Proof.
  pose proof (ld32_range m (frame + fr_func_id)). unfold frame_call, sys_table.
  unfold SYS_sleep, SYS_getpid, SYS_print_msg, SYS_fork, SYS_execve, SYS_exit.
  destruct (Z.ltb_spec (ld32 m (frame + fr_func_id)) 6); [|naive_solver].
  split; [|lia]. repeat (bcase; [done|]). lia.
Qed.

Lemma str_bytes_is_byte bs : str_bytes bs -> forallb is_byte bs = true.
Proof. induction 1 as [|b bs Hb _ IH]; [done|]. cbn [forallb]. by rewrite IH, (proj2 (is_byte_spec b)). Qed.

Lemma task_name_room task :
  Forall (fun b => 0 <= b < 256) (t_name task) -> length (t_name task) = 32%nat ->
  let name := until0 (t_name task ++ word_bytes (t_pid task)) in
  forallb is_byte name = true /\ (length name <= 36)%nat.
Proof.
  intros Hb Hl name. split.
  - apply str_bytes_is_byte, until0_bytes, Forall_app. split; [done|]. unfold word_bytes, u8. repeat constructor; apply Z.mod_pos_bound; lia.
  - unfold name. etransitivity; [apply until0_length|]. rewrite length_app, Hl. done.
Qed.

Lemma unknown_line_room name id :
  forallb is_byte name = true ->
  fmt_room (cs "task: %s, Unknown syscall: %d") false [VStr name; VInt id] = Some (6 + (length name + 30))%nat.
Proof.
  intros Hn. lazy -[forallb is_byte length Nat.add]. rewrite Hn. reflexivity.
Qed.

(** A task that goes to sleep gives up the CPU. *)
Lemma a_sleep_switches s v n : sched_inv s v -> v_curr v ∈ v_ready v -> v_curr (a_sleep n v) <> v_curr v.
Proof.
  intros Hi Hc E. assert (v_curr v <> idle_task) as Hid by (apply (queue_ready_ne_idle s v); [done | set_solver]).
  assert (v_curr (a_sleep n v) ∈ idle_task :: v_ready (a_sleep n v)) as Hin.
  { unfold a_sleep, a_dispatch, a_next. cbn [v_curr v_ready].
    destruct (v_ready (a_set_blocked _ _)); [by left | right; by left]. }
  rewrite E in Hin. apply elem_of_cons in Hin as [?|Hin]; [done|]. revert Hin.
  unfold a_sleep, a_dispatch. cbn [v_ready]. apply a_set_blocked_not_in.
Qed.

(** Calls that are answered at once. *)
Lemma syscall_answers_run s frame task :
  frame_ok frame -> k_tasks s !! curr_task (k_tm s) = Some task ->
  let id := ld32 (k_mem s) (frame + fr_func_id) in
  let answer v s' := set_k_mem (st32 (k_mem s) (frame + fr_eax) v) s' in
  (id = SYS_getpid -> do_handler_syscall frame s = Done tt (answer (t_pid task) s)) /\
  (6 <= id -> com1_ready -> log_free s -> Forall (fun b => 0 <= b < 256) (t_name task) ->
   length (t_name task) = 32%nat ->
   exists s', do_handler_syscall frame s = Done tt (answer (-1) s') /\ logged s s').
Proof.
  intros Hf Ht id answer. split.
  - intros Eid. erewrite do_handler_syscall_known; [|done | unfold frame_call; cbn zeta; fold id; rewrite Eid; reflexivity].
    unfold sys_getpid, task_current. kred. rewrite (get_task_run _ _ _ Ht). kred. by rewrite frame_store.
  - intros Hid Hr Hlf Hb Hl. destruct (task_name_room task Hb Hl) as [Hn Hnl]. cbn zeta in Hn, Hnl.
    unfold do_handler_syscall. do 5 (rewrite run_bind, frame_load by done; cbn [obind]).
    fold id. rewrite (proj2 (Z.ltb_ge id 6)) by done. unfold task_current. kred. rewrite (get_task_run _ _ _ Ht). kred.
    destruct (log_printf_room s _ _ _ Hr Hlf (unknown_line_room _ id Hn)) as (s' & E & Hlog); [unfold LOG_BUF_SIZE; lia|].
    rewrite E. kred. exists s'. split; [|done]. rewrite frame_store by done. destruct Hlog as (n & o & ->). done.
Qed.

(** * Properties *)

(** C29: the system call for sleeping takes its milliseconds from the frame and puts the
    caller in the sleep queue for that many ticks (for none, in no queue at all:
    [sys_sleep_loses_task]); the next ready task runs, and only when
    the caller is dispatched again is the result written to the EAX of its own frame,
    with its interrupt flag restored. *)
Theorem syscall_sleep_suspends s v frame :
  sched_inv s v -> v_curr v ∈ v_ready v -> frame_ok frame -> ld32 (k_mem s) (frame + fr_func_id) = SYS_sleep ->
  let v' := a_sleep (sleep_ticks_of_ms (ld32 (k_mem s) (frame + fr_arg0))) v in
  exists s1 task k, sched_step s s1 /\ sched_inv s1 v' /\ k_tasks s1 !! v_curr v' = Some task /\
    v_curr v' <> v_curr v /\ do_handler_syscall frame s = Susp (enter_task task s1) k /\
    forall s2, k s2 =
      Done tt (set_k_mem (st32 (k_mem s2) (frame + fr_eax) (void_eax SYS_sleep)) (set_k_if (k_if s) s2)).
Proof.
  intros Hi Hc Hf Eid v'. pose proof (ld32_range (k_mem s) (frame + fr_arg0)).
  erewrite do_handler_syscall_known; [|done | unfold frame_call; cbn zeta; rewrite Eid; reflexivity].
  rewrite u32_small by lia. rewrite run_bind, run_bind.
  destruct (sys_sleep_resched s v (ld32 (k_mem s) (frame + fr_arg0)) Hi Hc) as (s1 & Hs & Hi1 & Ho).
  destruct Ho as [[Hsame _]|(Hne & task & Ht & _ & ->)]; [by destruct (a_sleep_switches s v _ Hi Hc Hsame)|].
  eexists s1, task, _. split_and!; try done. cbn [obind]. intros s2. rewrite run_ret. cbn [obind].
  by rewrite frame_store.
Qed.

End Syscall.
