(* ===== verification/Fork.v ===== *)
(** [sys_fork] of kernel/core/task.c from the system call's frame to the ready queue:
    the task table, the new task, its registers and its copy of the address space. *)
From S2P Require Import Prelude DList Bitmap Machine MachineFacts Klib Format Sched Ipc Log Cpu Alloc Paging AddrSpace.
From S2P Require Import CopySpace Irq Timer Fs Task TaskLife Exec Syscall.

Section Fork.
Context `{Layout} `{Device}.

(** ** The task table *)
Lemma find_free_task_ext n : forall i s s' c,
  k_tasks s' = k_tasks s -> find_free_task n i s = Done c s -> find_free_task n i s' = Done c s'.
Proof.
  induction n as [|n IH]; intros i s s' c Ht E; cbn [find_free_task] in *; [by injection E as <-|].
  rewrite run_bind in E |- *. unfold get_task in *. rewrite run_bind, run_gets in E |- *. cbn [obind] in E |- *.
  rewrite Ht. destruct (k_tasks s !! task_table_at i) as [t|]; [|done].
  rewrite run_kopt in E |- *. cbn [obind] in E |- *.
  destruct (hd 0 (t_name t) =? 0); [by injection E as <- | by apply (IH (i + 1) s)].
Qed.

Lemma alloc_task_run s c :
  mutex_free s task_table_mutex -> find_free_task TASK_NR 0 s = Done c s -> alloc_task s = Done c s.
Proof.
  intros Hm E. unfold alloc_task. rewrite run_bind, acquire_locked by done. cbn [obind].
  rewrite run_bind, (find_free_task_ext _ _ s (locked task_table_mutex s) c) by done. cbn [obind].
  rewrite run_bind, (release_locked s) by done. cbn [obind]. unfold locked. rewrite run_ret. by destruct s.
Qed.

(** ** The registers *)
Definition forked_tss (m : gmap Z Z) (frame : Z) (x : tss_t) : tss_t :=
  let w off := ld32 m (frame + off) in
  tss_forked x 0 (w fr_ebx) (w fr_ecx) (w fr_edx) (w fr_esi) (w fr_edi) (w fr_ebp)
    (w fr_cs) (w fr_ds) (w fr_es) (w fr_fs) (w fr_gs) (w fr_eflags).

Lemma fork_regs_run s child frame t :
  frame_ok frame -> k_tasks s !! child = Some t ->
  fork_regs child frame s =
    Done tt (set_k_tasks (<[child := set_t_tss (forked_tss (k_mem s) frame (t_tss t)) t]> (k_tasks s)) s).
Proof.
  intros Hf Ht. unfold fork_regs. do 12 (rewrite run_bind, frame_load by done; cbn [obind]).
  by erewrite upd_task_run by exact Ht.
Qed.

(** ** What the scheduler sees of a new task *)
Lemma nodes_apart ts a b o1 o2 :
  tasks_apart ts -> a ∈ dom ts -> b ∈ dom ts -> 0 <= o1 < SIZEOF_TASK -> 0 <= o2 < SIZEOF_TASK -> a <> b ->
  a + o1 <> b + o2.
Proof. intros Hap Ha Hb Ho1 Ho2 Hne. specialize (Hap a b Ha Hb Hne). lia. Qed.

Definition queued (v : sview) : list Z := idle_task :: v_ready v ++ (v_sleep v).*1.

(** No queued task has a selector whose descriptor is free. *)
Definition sels_used (s : kst) (v : sview) : Prop :=
  forall x tx d, x ∈ queued v -> k_tasks s !! x = Some tx -> k_gdt s !! Z.to_nat (t_tss_sel tx / 8) = Some d -> sd_attr d <> 0.

Lemma queued_dom s v x : sched_inv s v -> x ∈ queued v -> x ∈ dom (k_tasks s).
Proof. intros Hi Hx. destruct (si_live s v Hi x Hx) as (_ & _ & _ & _ & t & Ht & _). by apply elem_of_dom_2 in Ht. Qed.

(** The nodes of the queued tasks survive [task_init]. *)
Lemma nodes_init_queued s v child ts h l x :
  sched_inv s v -> nodes_init s child (all_node <$> ts) h l ->
  (forall t, t ∈ ts -> t ∈ dom (k_tasks s)) -> child ∈ dom (k_tasks s) -> x ∈ queued v -> x <> child ->
  h !! run_node x = k_nodes s !! run_node x /\ h !! wait_node x = k_nodes s !! wait_node x /\
  is_Some (h !! all_node x).
Proof.
  intros Hi [Hl _ Hsame] Hts Hc Hx Hne. pose proof (queued_dom s v x Hi Hx) as Hxd. pose proof (si_apart s v Hi) as Hap.
  assert (forall o, o = RUN_NODE_OFF \/ o = WAIT_NODE_OFF -> x + o ∉ (all_node <$> ts) ++ [all_node child]) as Hnin.
  { intros o Ho. rewrite <- (fmap_app _ ts [child] : _ = _ ++ [all_node child]).
    intros (t & E & Ht)%list_elem_of_fmap. unfold all_node in E.
    assert (t ∈ dom (k_tasks s)) as Htd by (apply elem_of_app in Ht as [?| ->%list_elem_of_singleton]; auto).
    destruct (decide (x = t)) as [->|Hxt].
    - unfold RUN_NODE_OFF, WAIT_NODE_OFF, ALL_NODE_OFF in *. lia.
    - revert E. apply (nodes_apart (k_tasks s)); unfold RUN_NODE_OFF, WAIT_NODE_OFF, ALL_NODE_OFF, SIZEOF_TASK in *; try done; lia. }
  assert (forall o o', 0 <= o < SIZEOF_TASK -> 0 <= o' < SIZEOF_TASK -> x + o <> child + o') as Hcne
    by (intros; by apply (nodes_apart (k_tasks s))).
  split_and!.
  - apply Hsame; [apply Hcne | apply Hcne | apply Hnin; by left]; unfold RUN_NODE_OFF, WAIT_NODE_OFF, SIZEOF_TASK; lia.
  - apply Hsame; [apply Hcne | apply Hcne | apply Hnin; by right]; unfold RUN_NODE_OFF, WAIT_NODE_OFF, SIZEOF_TASK; lia.
  - destruct (decide (all_node x ∈ (all_node <$> ts) ++ [all_node child])) as [Hin|Hout]; [by apply (dlist_lookup h l _ _ Hl)|].
    rewrite Hsame by (done || (apply Hcne; unfold ALL_NODE_OFF, RUN_NODE_OFF, WAIT_NODE_OFF, SIZEOF_TASK; lia)).
    by destruct (si_live s v Hi x Hx) as (_ & _ & ? & _).
Qed.

(** Tasks other than [child] are live when the tables changed for [child] only. *)
Lemma live_other s s' x child t' tx :
  live s x -> x <> child -> k_tasks s !! x = Some tx ->
  is_Some (k_nodes s' !! run_node x) -> is_Some (k_nodes s' !! all_node x) -> is_Some (k_nodes s' !! wait_node x) ->
  k_tasks s' = <[child := t']> (k_tasks s) ->
  k_gdt s' !! Z.to_nat (t_tss_sel tx / 8) = k_gdt s !! Z.to_nat (t_tss_sel tx / 8) -> live s' x.
Proof.
  intros (Hpos & _ & _ & _ & t & Ht & Ho) Hne Hx Hr Ha Hw Ets Eg. rewrite Ht in Hx. injection Hx as ->.
  split_and!; try done. exists tx. rewrite Ets, lookup_insert_ne by done. split; [done|].
  unfold tss_owner in *. rewrite Eg, Ets. destruct (k_gdt s !! _) as [d|]; [|done]. cbn [mbind option_bind] in *.
  destruct (decide (desc_base d - TSS_OFF = child)) as [Ec|].
  - exfalso. rewrite Ec in Ho. destruct (k_tasks s !! child); [|done]. apply Hne. by injection Ho as ->.
  - by rewrite lookup_insert_ne.
Qed.

(** The queues do not notice changes of the entry of a task that is in none of them. *)
Lemma sched_inv_other s s' v child t' :
  sched_inv s v -> child ∉ queued v -> child ∈ dom (k_tasks s) ->
  curr_task (k_tm s') = curr_task (k_tm s) -> ready_list (k_tm s') = ready_list (k_tm s) ->
  sleep_list (k_tm s') = sleep_list (k_tm s) -> k_tasks s' = <[child := t']> (k_tasks s) ->
  (forall x, x ∈ queued v -> k_nodes s' !! run_node x = k_nodes s !! run_node x) ->
  (forall x, x ∈ queued v -> live s' x) -> sched_inv s' v.
Proof.
  intros [Hc Hr Hsl Hnd Hid Hl Ht Hap] Hout Hdom Ec Er Es Ets Hn Hlive. split; try done.
  - by rewrite Ec.
  - rewrite Er. apply (dlist_frame (k_nodes s)); [|done]. intros n (x & -> & Hx)%list_elem_of_fmap. apply Hn. unfold queued. set_solver.
  - rewrite Es. apply (dlist_frame (k_nodes s)); [|done]. intros n (x & -> & Hx)%list_elem_of_fmap. apply Hn. unfold queued. set_solver.
  - intros x n Hx. rewrite Ets, lookup_insert_ne; [by apply Ht|]. intros <-. apply Hout. unfold queued.
    apply (list_elem_of_fmap_2 fst) in Hx. simpl in Hx. set_solver.
  - intros a b Ha Hb. rewrite Ets in *. apply Hap; set_solver.
Qed.

Lemma sched_inv_entry s v child t t' :
  sched_inv s v -> child ∉ queued v -> k_tasks s !! child = Some t ->
  sched_inv (set_k_tasks (<[child := t']> (k_tasks s)) s) v.
Proof.
  intros Hi Hout Ht. apply (sched_inv_other s _ v child t'); try done; [by apply elem_of_dom_2 in Ht|].
  intros x Hx. pose proof (si_live s v Hi x Hx) as Hl. pose proof Hl as (_ & Hr & Ha & Hw & tx & Hx' & _).
  apply (live_other s _ x child t' tx); try done. by intros ->.
Qed.

Lemma live_entry s child t t' :
  live s child -> k_tasks s !! child = Some t -> t_tss_sel t' = t_tss_sel t ->
  live (set_k_tasks (<[child := t']> (k_tasks s)) s) child.
Proof.
  intros (Hpos & Hr & Ha & Hw & tx & Hx & Ho) Ht Es. rewrite Ht in Hx. injection Hx as <-. split_and!; try done.
  exists t'. kproj. rewrite lookup_insert_eq. split; [done|]. rewrite Es. unfold tss_owner in *. kproj.
  destruct (k_gdt s !! _) as [d|]; [|done]. cbn [mbind option_bind] in *.
  destruct (decide (desc_base d - TSS_OFF = child)) as [Ec|].
  - by rewrite Ec, lookup_insert_eq in *.
  - by rewrite lookup_insert_ne.
Qed.

(** [task_init] for a task that is in no queue. *)
Lemma after_init_inv s v child t k m a h l sel ts :
  sched_inv s v -> sels_used s v -> child ∉ queued v -> child ∈ dom (k_tasks s) ->
  sel_free s sel k -> nodes_init s child (all_node <$> ts) h l -> (forall x, x ∈ ts -> x ∈ dom (k_tasks s)) ->
  sched_inv (after_init child t k m a h l s) v.
Proof.
  intros Hi Hu Hout Hdom (Esel & Hk & d & Hd & Hda) Hni Hts.
  apply (sched_inv_other s _ v child t); try done.
  - intros x Hx. apply (nodes_init_queued s v child ts h l x Hi Hni Hts Hdom Hx). by intros ->.
  - intros x Hx. assert (x <> child) as Hne by (by intros ->).
    destruct (nodes_init_queued s v child ts h l x Hi Hni Hts Hdom Hx Hne) as (Er & Ew & Ha).
    pose proof (si_live s v Hi x Hx) as Hl. pose proof Hl as (_ & Hr & _ & Hw & tx & Htx & _).
    apply (live_other s _ x child t tx); try done.
    + unfold after_init, with_tss. kproj. by rewrite Er.
    + unfold after_init, with_tss. kproj. by rewrite Ew.
    + unfold after_init, with_tss. kproj. destruct (decide (Z.to_nat (t_tss_sel tx / 8) = k)) as [E|]; [|by rewrite list_lookup_insert_ne].
      exfalso. rewrite <- E in Hd. by apply (Hu x tx d).
Qed.

Lemma task_start_run s v child t :
  sched_inv s v -> live s child -> child ∉ queued v -> k_tasks s !! child = Some t ->
  exists s', task_start child s = Done tt s' /\ sched_inv s' (a_set_ready child v) /\ sched_step s s' /\
    k_tasks s' = <[child := set_t_state TASK_READY t]> (k_tasks s).
Proof.
  intros Hi Hl Hout Ht. unfold task_start. kred.
  destruct (task_set_ready_run (set_k_if false s) v child) as (s' & t' & Ht' & E & Hs & Hi' & Ets);
    [by apply sched_inv_if | done | intros ->; apply Hout; by left | intros Hin; apply Hout; by right |].
  kproj. assert (t' = t) as -> by (change (k_tasks s !! child = Some t') in Ht'; congruence).
  rewrite E. kred. eexists. split_and!; [done | by apply sched_inv_if | | exact Ets].
  destruct Hs as (tm & h & ts & -> & Hs). exists tm, h, ts. split; [by destruct s | exact Hs].
Qed.

(** ** The two address spaces *)

(** The state in which a task forks: [pt] is its entry, [child] the free slot, [t0] what
    the slot holds, [sel] the free selector, [ts] the tasks in the task list. *)
Record fork_pre (s : kst) (v : sview) (child : Z) (pt t0 : task_t) (sel : Z) (ts : list Z) : Prop := {
  fp_inv : sched_inv s v;
  fp_parent : k_tasks s !! v_curr v = Some pt;
  fp_free : find_free_task TASK_NR 0 s = Done child s /\ mutex_free s task_table_mutex;
  fp_child : child ∉ v_curr v :: queued v;
  fp_slot : slot_ok s child (t_name pt) t0 sel (all_node <$> ts);
  fp_listed : forall x, x ∈ ts -> x ∈ dom (k_tasks s);
  fp_sels : sels_used s v;
  fp_frame : let frame := u32 (tss_esp0 (t_tss pt) - SIZEOF_SYSCALL_FRAME) in
    frame_ok frame /\ forall off, 0 <= off < SIZEOF_SYSCALL_FRAME -> page_of (frame + off) ∉ frames s;
  fp_cr3 : k_cr3 s = tss_cr3 (t_tss pt);
  fp_kernel : dir_wf (k_mem s) (frames s) kernel_page_dir;
  fp_space : dir_wf (k_mem s) (frames s) (k_cr3 s);
  fp_own : forall p, own s (k_cr3 s) p -> (p ∉ frames s) /\ ~ pt_page (k_mem s) kernel_page_dir p;
  fp_room : (2 <= length (frames s))%nat
}.

Section Spaces.
Variables (s : kst) (v : sview) (child : Z) (pt t0 : task_t) (sel : Z) (ts : list Z).
Hypothesis Hpre : fork_pre s v child pt t0 sel ts.
Variables (stack dir : Z) (m : gmap Z Z) (a : addr_alloc_t).
Hypothesis Hns : new_space s stack dir m a.

Lemma dir_free : dir ∈ frames s.
Proof. rewrite (ns_frames _ _ _ _ _ Hns). right. by left. Qed.

Lemma own_same_new p : own s (k_cr3 s) p -> same_page (k_mem s) m p.
Proof.
  intros Hp. apply (ns_same _ _ _ _ _ Hns). intros ->. destruct (fp_own _ _ _ _ _ _ _ Hpre _ Hp) as [Hf _]. by apply Hf, dir_free.
Qed.

Lemma user_walk_new x : user x -> mmu_walk (k_cr3 s) m x = mmu_walk (k_cr3 s) (k_mem s) x.
Proof. apply (user_walk_same s (k_cr3 s) (frames s) m x (fp_space _ _ _ _ _ _ _ Hpre)), own_same_new. Qed.

(** The copy takes as many frames as it would have taken before the child's frames were
    allotted, and two are gone. *)
Lemma copy_need_new : copy_need m (k_cr3 s) = copy_need (k_mem s) (k_cr3 s).
Proof.
  apply (tables_need_ext _ _ (frames s)); [apply (fp_space _ _ _ _ _ _ _ Hpre) | | lia | lia].
  intros p Hp. apply own_same_new. destruct Hp as [->|Hp]; [by left | right; by left].
Qed.

(** The pages of the parent's space are those it had before. *)
Lemma own_new s1 p : k_mem s1 = m -> own s1 (k_cr3 s) p -> own s (k_cr3 s) p.
Proof.
  intros Em [->|[(i & Hi & Et)|(x & pa & Hx & Ew & ->)]]; [by left | right; left | right; right].
  - exists i. split; [done|]. rewrite Em in Et. rewrite <- Et. symmetry. apply table_of_ext; [apply (fp_space _ _ _ _ _ _ _ Hpre) | | lia].
    apply own_same_new. by left.
  - exists x, pa. rewrite Em, user_walk_new in Ew by done. done.
Qed.

Lemma fork_space_ok s1 :
  paging_ok s1 -> k_mem s1 = m -> k_alloc s1 = a -> k_cr3 s1 = (k_cr3 s) -> fork_ok s1 (k_cr3 s) dir.
Proof.
  intros Hok Em Ea Ec. destruct Hns as [Ef _ [Hdd Hdpos] _ Htab Hsame].
  assert (frames s1 = free_frames a) as Efr by (unfold frames; by rewrite Ea).
  assert (forall q, q ∈ frames s1 -> q ∈ frames s) as Hsub by (intros q Hq; rewrite Ef; right; right; by rewrite <- Efr).
  split; rewrite ?Em, ?Efr; try done.
  - apply (dir_wf_ext (k_mem s)); [|apply own_same_new; by left].
    apply (dir_wf_weaken _ (frames s)); [by rewrite <- Efr | apply Hpre].
  - intros p Hp%own_new; [|done]. destruct (fp_own _ _ _ _ _ _ _ Hpre _ Hp) as [Hf Hk]. split.
    + intros [->|(i & Hi & Et)]; [by apply Hf, dir_free|]. rewrite Htab in Et by done.
      destruct (i <? 512); [|done]. apply Hk. right. by exists i.
    + rewrite <- Efr. intros Hq. by apply Hf, Hsub.
  - intros x Hx. unfold user in Hx. rewrite (new_space_walk s stack dir m a) by (done || apply Hpre || (unfold MEMORY_TASK_BASE in Hx; lia)).
    by rewrite (proj2 (Z.ltb_ge x _)) by lia.
Qed.

Lemma frame_word_new frame off :
  (forall off, 0 <= off < SIZEOF_SYSCALL_FRAME -> page_of (frame + off) ∉ frames s) ->
  0 <= off -> off + 4 <= SIZEOF_SYSCALL_FRAME -> ld32 m (frame + off) = ld32 (k_mem s) (frame + off).
Proof.
  intros Hf Ho Ho4. apply ld32_ext. intros b Hb. apply (ns_same _ _ _ _ _ Hns (page_of b)); [|done].
  intros E. apply (Hf (b - frame)); [lia|]. replace (frame + (b - frame)) with b by lia. rewrite E. apply dir_free.
Qed.

End Spaces.

(** What the child's space has at [x] when the parent's had [pa] there. *)
Definition child_copy (s s' : kst) (dir x : Z) : Prop :=
  match mmu_walk (k_cr3 s) (k_mem s) x with
  | None => mmu_walk dir (k_mem s') x = None
  | Some pa => exists pa', mmu_walk dir (k_mem s') x = Some pa' /\ page_of pa' ∈ frames s /\
      mget (k_mem s') pa' = mget (k_mem s) pa /\ mget (k_mem s') pa = mget (k_mem s) pa
  end.

(** The copy, made in the state [s1], seen from the state before the fork. *)
Lemma fork_copies s v child pt t0 sel ts stack dir m a s1 :
  fork_pre s v child pt t0 sel ts -> new_space s stack dir m a ->
  paging_ok s1 -> k_mem s1 = m -> k_alloc s1 = a -> k_cr3 s1 = k_cr3 s ->
  exists r m2 a2, memory_copy_uvm2 (k_cr3 s) dir s1 = Done r (set_k_alloc a2 (set_k_mem m2 s1)) /\
    (forall x, user x -> mmu_walk (k_cr3 s) m2 x = mmu_walk (k_cr3 s) (k_mem s) x) /\
    (forall p, p ∉ frames s -> ~ pt_page (k_mem s) kernel_page_dir p -> same_page (k_mem s) m2 p) /\
    ((r = dir /\ forall s', k_mem s' = m2 -> forall x, user x -> child_copy s s' dir x) \/
     (r = 2 ^ 32 - 1 /\ (length (frames s) < 2 + copy_need (k_mem s) (k_cr3 s))%nat)).
Proof.
  intros Hpre Hns Hok Em Ea Ec.
  pose proof (fork_space_ok s v child pt t0 sel ts Hpre stack dir m a Hns s1 Hok Em Ea Ec) as Hfo.
  destruct (memory_copy_uvm2_run s1 (k_cr3 s) dir Hfo) as (r & s2 & E & (m2 & a2 & ->) & _ & Hw & Hp & Hr); [apply Hns|].
  assert (forall q, q ∈ frames s1 -> q ∈ frames s) as Hsub
    by (intros q Hq; rewrite (ns_frames _ _ _ _ _ Hns); unfold frames in Hq; rewrite Ea in Hq; by do 2 right).
  exists r, m2, a2. split_and!; [done | | |].
  - intros x Hx. change (mmu_walk (k_cr3 s) m2 x) with (mmu_walk (k_cr3 s) (k_mem (set_k_alloc a2 (set_k_mem m2 s1))) x).
    rewrite Hw, Em by done. by apply (user_walk_new s v child pt t0 sel ts Hpre stack dir m a).
  - intros p Hpf Hpk b Hb. assert (p <> dir) as Hpd by (intros ->; by apply Hpf, (dir_free s stack dir m a Hns)).
    transitivity (mget m b); [|by apply (ns_same _ _ _ _ _ Hns p)]. rewrite <- Em. apply (Hp p); [| by intros ?%Hsub | done].
    rewrite Em. intros [->|(i & Hi & Et)]; [done|]. rewrite (ns_tables _ _ _ _ _ Hns) in Et by done.
    destruct (i <? 512); [|done]. apply Hpk. right. by exists i.
  - destruct Hr as [(-> & ds & Hms & Hcp & _)|(-> & _ & Hlt)]; [left; split; [done|] | right; split; [done|]].
    2:{ rewrite Em, (copy_need_new s v child pt t0 sel ts Hpre stack dir m a Hns) in Hlt. unfold frames in Hlt.
      rewrite Ea in Hlt. rewrite (ns_frames _ _ _ _ _ Hns). cbn [length]. lia. }
    intros s' Es x Hx. unfold child_copy. specialize (Hcp x Hx). unfold copied_at in Hcp. rewrite Em in Hcp.
    rewrite (user_walk_new s v child pt t0 sel ts Hpre stack dir m a) in Hcp by done.
    destruct (mmu_walk (k_cr3 s) (k_mem s) x) as [pa|] eqn:Epa; [|by rewrite Es].
    destruct Hcp as (pa' & Ew & Hin & Hv). exists pa'. rewrite Es. kproj.
    assert (own s (k_cr3 s) (page_of pa)) as Hown by (right; right; by exists x, pa).
    assert (mget m pa = mget (k_mem s) pa) as Hmg
      by (by apply (own_same_new s v child pt t0 sel ts Hpre stack dir m a Hns (page_of pa))).
    split_and!; [done | | by rewrite <- Hmg |].
    + destruct (ms_data _ _ _ _ Hms _ Hin) as [Hf _]. rewrite (ns_frames _ _ _ _ _ Hns). right; right.
      unfold frames in Hf. by rewrite Ea in Hf.
    + rewrite <- Hmg, <- Em. destruct (fo_own _ _ _ Hfo (page_of pa)) as [Hnt Hnf]; [|by apply (Hp (page_of pa))].
      right; right. exists x, pa. split_and!; [done | | done]. rewrite Em.
      by rewrite (user_walk_new s v child pt t0 sel ts Hpre stack dir m a).
Qed.

(** ** Putting it together *)
Lemma tss_ready_cr3 s flag entry esp stack dir : tss_cr3 (tss_ready s flag entry esp stack dir) = dir.
Proof. unfold tss_ready. by destruct (task_sels flag s). Qed.

Lemma forked_tss_new s stack dir m a frame x :
  new_space s stack dir m a -> (forall off, 0 <= off < SIZEOF_SYSCALL_FRAME -> page_of (frame + off) ∉ frames s) ->
  forked_tss m frame x = forked_tss (k_mem s) frame x.
Proof.
  intros Hns Hf. unfold forked_tss. cbn zeta.
  assert (forall off, 0 <= off -> off + 4 <= SIZEOF_SYSCALL_FRAME -> ld32 m (frame + off) = ld32 (k_mem s) (frame + off)) as E
    by (intros; by apply (frame_word_new s stack dir m a)).
  by rewrite !E.
Qed.

(** The child's entry before its address space is copied. *)
Definition child_entry (m : gmap Z Z) (frame parent : Z) (t : task_t) : task_t :=
  set_t_parent parent (set_t_tss (forked_tss m frame (t_tss t)) t).

(** Up to the copy of the address space. *)
Lemma fork_prefix s v child pt t0 sel ts :
  fork_pre s v child pt t0 sel ts ->
  let frame := u32 (tss_esp0 (t_tss pt) - SIZEOF_SYSCALL_FRAME) in
  let w off := ld32 (k_mem s) (frame + off) in
  exists k stack dir m a t h l,
    let s1 := after_init child t k m a h l s in
    let t2 := child_entry m frame (v_curr v) t in
    sys_fork s = (cr3 ← memory_copy_uvm2 (k_cr3 s) dir;
      upd_task child (fun t => set_t_tss (set_tss_cr3 cr3 (t_tss t)) t);;
      if u32 cr3 <? 0 then fork_failed child
      else task_start child;; c ← get_task child; mret (t_pid c)) (set_k_tasks (<[child := t2]> (k_tasks s1)) s1) /\
    new_space s stack dir m a /\ sel_free s sel k /\ nodes_init s child (all_node <$> ts) h l /\
    fresh_task child (t_name pt)
      (set_t_tss_sel sel (set_t_tss (tss_ready s TASK_FLAGS_USER (w fr_eip) (u32 (w fr_esp + 20)) stack dir) t0)) t.
Proof.
  intros Hpre frame w. pose proof Hpre as [Hi Hpt _ Hout Hso _ _ [Hfr Hfp] Hc3 Hk _ _ Hroom]. fold frame in Hfr, Hfp.
  destruct (task_init_run s child (t_name pt) TASK_FLAGS_USER (w fr_eip) (u32 (w fr_esp + 20)) t0 sel _ Hso Hk Hroom)
    as (k & stack & dir & m & a & t & h & l & E & Hns & Hsel & Hni & Hft).
  exists k, stack, dir, m, a, t, h, l. cbn zeta. split_and!; try done.
  pose proof (so_task _ _ _ _ _ _ Hso) as [Hcpos _].
  assert (v_curr v <> child) as Hne by (intros E'; apply Hout; rewrite E'; by left).
  assert (task_current s = Done (v_curr v) s) as Ecur by (unfold task_current; kred; by rewrite (si_curr s v Hi)).
  destruct (fp_free _ _ _ _ _ _ _ Hpre) as [Hff Hfm].
  unfold sys_fork at 1. rewrite (run_bind task_current), Ecur. cbn [obind].
  rewrite (run_bind alloc_task), (alloc_task_run s child Hfm Hff). cbn [obind].
  rewrite (proj2 (Z.eqb_neq child 0)) by lia.
  rewrite run_bind, (get_task_run _ _ _ Hpt). cbn [obind]. fold frame.
  do 2 (rewrite run_bind, frame_load by done; cbn [obind]).
  change (4 * SYSCALL_PARAM_COUNT) with 20. unfold task_name. rewrite run_bind. fold (w fr_eip) (w fr_esp). rewrite E. cbn [obind].
  change (0 <? 0) with false. cbn iota. rewrite run_bind.
  erewrite fork_regs_run by (done || apply lookup_insert_eq). cbn [obind].
  rewrite run_bind. erewrite upd_task_run by (kproj; apply lookup_insert_eq). cbn [obind]. kproj. rewrite insert_insert_eq.
  rewrite run_bind. erewrite get_task_run.
  2: { kproj. rewrite lookup_insert_ne by done. unfold after_init, with_tss. kproj. by rewrite lookup_insert_ne. }
  cbn [obind]. rewrite run_bind. erewrite get_task_run by (kproj; apply lookup_insert_eq). cbn [obind].
  rewrite Hc3. destruct (ft_tss _ _ _ _ Hft) as [Htss _].
  assert (tss_cr3 (t_tss (child_entry m frame (v_curr v) t)) = dir) as Ed.
  { unfold child_entry, forked_tss, tss_forked. cbn [t_tss set_t_parent set_t_tss tss_cr3]. rewrite Htss. apply tss_ready_cr3. }
  change (k_mem (after_init child t k m a h l s)) with m. fold (child_entry m frame (v_curr v) t). by rewrite Ed.
Qed.

(** The whole call, and what it leaves alone. *)
Lemma sys_fork_run s v child pt t0 sel ts :
  fork_pre s v child pt t0 sel ts ->
  let frame := u32 (tss_esp0 (t_tss pt) - SIZEOF_SYSCALL_FRAME) in
  let w off := ld32 (k_mem s) (frame + off) in
  exists s' t stack dir r, sys_fork s = Done (i32 child) s' /\ sched_inv s' (a_set_ready child v) /\
    k_tasks s' = <[child := t]> (k_tasks s) /\ t_state t = TASK_READY /\ t_parent t = v_curr v /\
    t_tss_sel t = sel /\ stack ∈ frames s /\
    t_tss t = set_tss_cr3 r (forked_tss (k_mem s) frame
      (tss_ready s TASK_FLAGS_USER (w fr_eip) (u32 (w fr_esp + 20)) stack dir)) /\
    (forall x, user x -> mmu_walk (k_cr3 s) (k_mem s') x = mmu_walk (k_cr3 s) (k_mem s) x) /\
    (forall p, p ∉ frames s -> ~ pt_page (k_mem s) kernel_page_dir p -> same_page (k_mem s) (k_mem s') p) /\
    ((r = dir /\ forall x, user x -> child_copy s s' dir x) \/
     (r = 0xFFFFFFFF /\ (length (frames s) < 2 + copy_need (k_mem s) (k_cr3 s))%nat)).
Proof.
  intros Hpre frame w. pose proof Hpre as [Hi Hpt _ Hout Hso Hts Hsu [_ Hfp] _ _ _ _ _]. fold frame in Hfp.
  destruct (fork_prefix s v child pt t0 sel ts Hpre) as (k & stack & dir & m & a & t & h & l & E & Hns & Hsel & Hni & Hft).
  fold frame in E, Hft. set (t2 := child_entry m frame (v_curr v) t) in E.
  pose proof (so_task _ _ _ _ _ _ Hso) as [Hcpos Hcb]. pose proof (so_slot _ _ _ _ _ _ Hso) as [Ht0 _].
  assert (child ∉ queued v) as Hq by (intros Hin; apply Hout; by right).
  assert (child ∈ dom (k_tasks s)) as Hcd by (by apply elem_of_dom_2 in Ht0).
  set (s1 := after_init child t k m a h l s) in *.
  assert (k_tasks s1 !! child = Some t) as Ht1 by apply lookup_insert_eq.
  assert (sched_inv s1 v) as Hi1 by (by apply (after_init_inv _ _ _ _ _ _ _ _ _ sel ts)).
  destruct (ft_tss _ _ _ _ Hft) as [Htss Htsel].
  assert (live s1 child) as Hl1 by (by apply (after_init_live _ _ _ _ _ _ _ _ sel (all_node <$> ts))).
  set (s2 := set_k_tasks (<[child := t2]> (k_tasks s1)) s1) in E.
  destruct (fork_copies s v child pt t0 sel ts stack dir m a s2 Hpre Hns) as (r & m2 & a2 & Ec & Hw & Hk & Hr); try done.
  { by destruct (ns_paging _ _ _ _ _ Hns). }
  rewrite E, run_bind, Ec. cbn [obind]. set (s3 := set_k_alloc a2 _).
  set (t3 := set_t_tss (set_tss_cr3 r (t_tss t2)) t2).
  set (s4 := set_k_tasks (<[child := t3]> (k_tasks s1)) s3).
  assert (sched_inv s4 v) as Hi4.
  { pose proof (sched_inv_entry s1 v child t t3 Hi1 Hq Ht1) as []. by split. }
  assert (live s4 child) as Hl4 by exact (live_entry s1 child t t3 Hl1 Ht1 eq_refl).
  destruct (task_start_run s4 v child t3 Hi4 Hl4 Hq) as (s5 & E5 & Hi5 & Hst5 & Et5); [apply lookup_insert_eq|].
  assert (k_mem s5 = m2) as Em5 by (by destruct Hst5 as (? & ? & ? & -> & _)).
  assert (k_tasks s5 = <[child := set_t_state TASK_READY t3]> (k_tasks s)) as Ets.
  { rewrite Et5. unfold s4, s1, after_init, with_tss. kproj. by rewrite !insert_insert_eq. }
  exists s5, (set_t_state TASK_READY t3), stack, dir, r. split_and!; try done.
  - erewrite run_bind, upd_task_run by (unfold s3, s2; kproj; apply lookup_insert_eq). cbn [obind].
    unfold s3, s2. kproj. rewrite insert_insert_eq. fold t3. pose proof (u32_range r). rewrite (proj2 (Z.ltb_ge (u32 r) 0)) by lia.
    rewrite run_bind. change (set_k_tasks _ _) with s4. rewrite E5. cbn [obind].
    rewrite run_bind, (get_task_run _ _ (set_t_state TASK_READY t3)) by (rewrite Ets; apply lookup_insert_eq). cbn [obind].
    rewrite run_ret. f_equal. exact (ft_pid _ _ _ _ Hft).
  - rewrite (ns_frames _ _ _ _ _ Hns). by left.
  - cbn [t_tss set_t_state t3 t2 child_entry set_t_tss set_t_parent]. rewrite (forked_tss_new s stack dir m a), Htss by done. done.
  - intros x Hx. rewrite Em5. exact (Hw x Hx).
  - intros p Hp Hpk. rewrite Em5. by apply Hk.
  - destruct Hr as [[-> Hc]|[-> Hlt]]; [left | by right]. split; [done|]. intros x Hx. apply Hc; [|done]. exact Em5.
Qed.

(** * Properties *)

(** C15: A task that forks, with a slot, a selector and two frames free, gets the number
    of a new task, which is at the end of the ready queue: it resumes where the parent
    made the call, with the parent's registers but 0 in EAX, its own kernel stack, and the
    stack pointer behind the call's arguments.  The parent's space stays as it was.  When
    the free frames suffice - one for the child's stack, one for its directory, one for
    every page of the parent's space and one for every table that maps one - the child's
    space maps what the parent's maps, to frames that were free, with the same bytes.
    The copy can fail only on fewer: then the call succeeds all the same, and the child is
    ready with [0xFFFFFFFF] for an address space. *)
Theorem sys_fork_makes_child s v child pt t0 sel ts :
  fork_pre s v child pt t0 sel ts ->
  let frame := u32 (tss_esp0 (t_tss pt) - SIZEOF_SYSCALL_FRAME) in
  let w off := ld32 (k_mem s) (frame + off) in
  exists s' t stack dir r, sys_fork s = Done (i32 child) s' /\ sched_inv s' (a_set_ready child v) /\
    k_tasks s' = <[child := t]> (k_tasks s) /\ t_state t = TASK_READY /\ t_parent t = v_curr v /\
    t_tss_sel t = sel /\ stack ∈ frames s /\
    t_tss t = set_tss_cr3 r (forked_tss (k_mem s) frame
      (tss_ready s TASK_FLAGS_USER (w fr_eip) (u32 (w fr_esp + 20)) stack dir)) /\
    (forall x, user x -> mmu_walk (k_cr3 s) (k_mem s') x = mmu_walk (k_cr3 s) (k_mem s) x) /\
    ((r = dir /\ forall x, user x -> child_copy s s' dir x) \/
     (r = 0xFFFFFFFF /\ (length (frames s) < 2 + copy_need (k_mem s) (k_cr3 s))%nat)).
Proof.
  intros Hpre. destruct (sys_fork_run s v child pt t0 sel ts Hpre) as (s' & t & stack & dir & r & E & Hi & Et & H1 & H2 & H3 & H4 & H5 & H6 & _ & H7).
  by exists s', t, stack, dir, r.
Qed.

End Fork.
