(* ===== verification/User.v ===== *)
(** The programs of user mode: the call wrappers of applib/lib_syscall.h, the start-up
    code applib/cstart.c, the shell and the first task.

    A program is an interaction tree: its events are system calls, answered by the
    number the kernel leaves in EAX.  The five words of a call go through the call gate
    to the kernel stack, where [do_handler_syscall] finds them. *)
From S2P Require Import Prelude DList Machine MachineFacts Klib Format Sched Ipc Log Task TaskLife Exec Syscall.
From ITree Require Import ITree ITreeFacts.

(** lib_syscall.h *)
Record syscall_args_t := SyscallArgs {
  sa_id : Z; sa_arg0 : Z; sa_arg1 : Z; sa_arg2 : Z; sa_arg3 : Z
}.

Variant userE : Type -> Type := CallGate (args : syscall_args_t) : userE Z.

Definition program : Type -> Type := itree userE.

#[export] Instance program_ret : MRet program := fun A a => Ret a.
#[export] Instance program_bind : MBind program := fun A B f t => ITree.bind t f.

Section Calls.
(** What the members of [args] hold that a wrapper does not set. *)
Variable unset : Z -> Z.

Definition getpid_args : syscall_args_t := SyscallArgs SYS_getpid (unset 0) (unset 1) (unset 2) (unset 3).
Definition msleep_args (ms : Z) : syscall_args_t := SyscallArgs SYS_sleep ms (unset 1) (unset 2) (unset 3).
Definition print_msg_args (fmt arg : Z) : syscall_args_t := SyscallArgs SYS_print_msg fmt arg (unset 2) (unset 3).
Definition fork_args : syscall_args_t := SyscallArgs SYS_fork (unset 0) (unset 1) (unset 2) (unset 3).
Definition execve_args (name argv env : Z) : syscall_args_t := SyscallArgs SYS_execve name argv env (unset 3).
Definition exit_args (status : Z) : syscall_args_t := SyscallArgs SYS_exit status (unset 1) (unset 2) (unset 3).

Definition syscall (args : syscall_args_t) : program Z := ITree.trigger (CallGate args).

Definition msleep (ms : Z) : program unit :=
  if ms <=? 0 then mret tt else _ ← syscall (msleep_args ms); mret tt.

Definition getpid : program Z := syscall getpid_args.

Definition print_msg (fmt arg : Z) : program unit := _ ← syscall (print_msg_args fmt arg); mret tt.

Definition fork : program Z := syscall fork_args.

Definition execve (name argv env : Z) : program Z := syscall (execve_args name argv env).

Definition exit (status : Z) : program unit := _ ← syscall (exit_args status); mret tt.

(** ** Programs; [lit] is where the linker put a string literal, [argv] the argument
    vector. *)
Variable lit : list Z -> Z.

(** [for (int i = 0; i < argc; i++) print_msg(fmt, argv[i])] *)
Definition print_argv (fmt argc : Z) (argv : Z -> Z) : program unit :=
  ITree.iter (fun i =>
    if i <? argc then print_msg fmt (argv i);; mret (inl (i + 1)) else mret (inr tt)) 0.

Definition cstart (main : Z -> (Z -> Z) -> program Z) (argc : Z) (argv : Z -> Z) : program unit :=
  print_argv (lit (cs "arg = %s")) argc argv;;
  ret ← main argc argv;
  exit ret.

(** shell/main.c: the loop returns in its first round. *)
Definition shell_main (argc : Z) (argv : Z -> Z) : program Z :=
  print_argv (lit (cs "[arg]: %s")) argc argv;;
  _ ← fork;
  ITree.iter (fun _ : unit =>
    pid ← getpid;
    print_msg (lit (cs "main.c: %d")) pid;;
    msleep 3000;;
    mret (inr 0)) tt.

(** init/first_task.c; [argv] is the array on its stack. *)
Definition first_task_round (pid count : Z) : program Z :=
  if pid <? 0 then print_msg (lit (cs "create child proc failed.")) 0;; mret count
  else if pid =? 0 then
    let count := i32 (count + 10) in
    print_msg (lit (cs "child: %d")) count;; mret count
  else
    let count := i32 (count + 1) in
    print_msg (lit (cs "child task id=%d")) pid;;
    print_msg (lit (cs "parent: %d")) count;; mret count.

Definition first_task_main (argv : Z) : program Z :=
  pid ← getpid;
  print_msg (lit (cs "first task id=%d")) pid;;
  pid ← fork;
  count ← first_task_round pid 3;
  (if pid =? 0 then _ ← execve (lit (cs "/shell.elf")) argv 0; mret tt else mret tt);;
  ITree.iter (fun count =>
    count ← first_task_round pid count;
    msleep 1000;;
    mret (inl count)) count.

End Calls.

(** * Through the call gate

    The gate copies the five words the program pushed to the kernel stack, where they
    are the last members of the frame but two. *)
Definition gate_words (m : gmap Z Z) (frame : Z) (args : syscall_args_t) : gmap Z Z :=
  st32 (st32 (st32 (st32 (st32 m (frame + fr_func_id) (sa_id args)) (frame + fr_arg0) (sa_arg0 args))
    (frame + fr_arg1) (sa_arg1 args)) (frame + fr_arg2) (sa_arg2 args)) (frame + fr_arg3) (sa_arg3 args).

Lemma gate_words_read m frame args :
  let w off := ld32 (gate_words m frame args) (frame + off) in
  w fr_func_id = u32 (sa_id args) /\ w fr_arg0 = u32 (sa_arg0 args) /\ w fr_arg1 = u32 (sa_arg1 args) /\
  w fr_arg2 = u32 (sa_arg2 args) /\ w fr_arg3 = u32 (sa_arg3 args).
Proof.
  unfold gate_words, fr_func_id, fr_arg0, fr_arg1, fr_arg2, fr_arg3. cbn zeta.
  split_and!; rewrite ?ld32_st32_ne by lia; apply ld32_st32_eq.
Qed.

(** ** Straight-line programs *)
Fixpoint print_list (unset : Z -> Z) (fmt : Z) (args : list Z) : program unit :=
  match args with
  | [] => mret tt
  | a :: args => print_msg unset fmt a;; print_list unset fmt args
  end.

Lemma print_argv_list unset fmt argc argv n : forall i,
  i + Z.of_nat n = argc ->
  eutt eq
    (ITree.iter (fun i => if i <? argc then print_msg unset fmt (argv i);; mret (inl (i + 1)) else mret (inr tt)) i : program unit)
    (print_list unset fmt (argv <$> seqZ i (Z.of_nat n))).
Proof.
  unfold mret, program_ret, mbind, program_bind.
  induction n as [|n IH]; intros i Hi; rewrite unfold_iter.
  - replace (i <? argc) with false by lia. rewrite bind_ret_l. reflexivity.
  - replace (i <? argc) with true by lia. rewrite seqZ_cons by lia.
    replace (Z.pred (Z.of_nat (S n))) with (Z.of_nat n) by lia. replace (Z.succ i) with (i + 1) by lia.
    cbn [fmap list_fmap print_list]. unfold mbind, program_bind. rewrite bind_bind.
    eapply eutt_clo_bind; [reflexivity|]. intros [] [] _. rewrite bind_ret_l, tau_eutt. apply IH. lia.
Qed.

(** * Properties *)
Section UserProperties.
Context `{Layout} `{Device}.

(** C31: A call made through any wrapper of the library reaches the kernel's handler of that
    name with the arguments the program gave: whatever the wrapper left unset in the
    arguments, and whatever the frame held, decides nothing. *)
Theorem wrappers_reach_handlers unset m frame ms fmt arg name argv env status :
  0 < ms < 2 ^ 31 -> 0 <= fmt < 2 ^ 32 -> 0 <= arg < 2 ^ 32 -> 0 <= name < 2 ^ 32 ->
  0 <= argv < 2 ^ 32 -> 0 <= env < 2 ^ 32 -> 0 <= status < 2 ^ 31 ->
  let reaches args handler := frame_call (gate_words m frame args) frame = Some handler in
  reaches (msleep_args unset ms) (sys_sleep ms;; mret (void_eax SYS_sleep)) /\
  reaches (getpid_args unset) sys_getpid /\
  reaches (print_msg_args unset fmt arg) (sys_print_msg fmt arg;; mret (void_eax SYS_print_msg)) /\
  reaches (fork_args unset) sys_fork /\
  reaches (execve_args unset name argv env) (sys_execve name argv env) /\
  reaches (exit_args unset status) (sys_exit status).
Proof.
  intros Hms Hfmt Harg Hname Hargv Henv Hst reaches.
  assert (forall args, reaches args = fun handler =>
    (if u32 (sa_id args) <? 6 then sys_table (u32 (sa_id args)) (u32 (sa_arg0 args)) (u32 (sa_arg1 args)) (u32 (sa_arg2 args)) (u32 (sa_arg3 args))
     else None) = Some handler) as E.
  { intros args. unfold reaches, frame_call. cbn zeta.
    destruct (gate_words_read m frame args) as (-> & -> & -> & -> & ->). done. }
  rewrite !E. cbn [sa_id sa_arg0 sa_arg1 sa_arg2 msleep_args getpid_args print_msg_args fork_args execve_args exit_args].
  rewrite !(u32_small ms), !(u32_small fmt), !(u32_small arg), !(u32_small name), !(u32_small argv), !(u32_small env), !(u32_small status) by lia.
  unfold sys_table. rewrite (u32_small ms) by lia. done.
Qed.

(** C32: The shell, started with [n] arguments, is the straight-line program that prints
    them twice, forks, prints its process number, sleeps three seconds and exits with
    status 0, in the parent and in the child alike: its [while (1)] never goes round. *)
Theorem shell_is_straight_line unset lit n argv :
  eutt eq (cstart unset lit (shell_main unset lit) (Z.of_nat n) argv)
    (print_list unset (lit (cs "arg = %s")) (argv <$> seqZ 0 (Z.of_nat n));;
     print_list unset (lit (cs "[arg]: %s")) (argv <$> seqZ 0 (Z.of_nat n));;
     _ ← syscall (fork_args unset);
     pid ← syscall (getpid_args unset);
     print_msg unset (lit (cs "main.c: %d")) pid;;
     _ ← syscall (msleep_args unset 3000);
     exit unset 0 : program unit).
Proof.
  unfold cstart, shell_main, print_argv, mret, program_ret, mbind, program_bind.
  eapply eutt_clo_bind; [apply (print_argv_list _ _ _ _ n); lia|]. intros [] [] _.
  rewrite bind_bind. eapply eutt_clo_bind; [apply (print_argv_list _ _ _ _ n); lia|]. intros [] [] _.
  rewrite bind_bind. eapply eutt_clo_bind; [reflexivity|]. intros ? _ _.
  rewrite unfold_iter, !bind_bind. eapply eutt_clo_bind; [reflexivity|]. intros pid ? <-.
  rewrite !bind_bind. eapply eutt_clo_bind; [reflexivity|]. intros [] [] _.
  unfold msleep. change (3000 <=? 0) with false. cbn iota. unfold mbind, program_bind, mret, program_ret.
  rewrite !bind_bind. eapply eutt_clo_bind; [reflexivity|]. intros ? _ _.
  rewrite !bind_ret_l. reflexivity.
Qed.

End UserProperties.
