(* ===== verification/Init.v ===== *)
(** Start-up: kernel/init/init.c, with its tests. *)
From S2P Require Import Prelude DList Bitmap Machine MachineFacts Klib Format Sched Ipc Log Cpu Alloc Paging Irq Timer.
From S2P Require Import Fs Task.

Definition init_c : list Z := cs "init/init.c".

(** os_cfg.h *)
Definition OS_VERSION : list Z := cs "1.0.0".

Section Init.
Context `{Layout} `{Device}.

Definition kernel_init (bits : list Z) (boot_info : boot_info_t) : K unit :=
  ASSERT (negb (ram_region_count boot_info =? 0)) init_c 18 (cs "kernel_init")
    (cs "boot_info->ram_region_count != 0");;
  cpu_init;;
  log_init;;
  memory_init bits boot_info;;
  irq_init;;
  timer_init;;
  task_manager_init.

(** What the final [iret] pops: ss, esp, eflags, cs, eip. *)
Definition move_to_first_task : K (Z * Z * Z * Z * Z) :=
  curr ← task_current;
  ASSERT (negb (curr =? 0)) init_c 104 (cs "move_to_first_task") (cs "curr != 0");;
  t ← get_task curr;
  let tss := t_tss t in
  mret (tss_ss tss, tss_esp tss, tss_eflags tss, tss_cs tss, tss_eip tss).

Definition init_main : K (Z * Z * Z * Z * Z) :=
  log_printf (cs "Kernel is running ...") [];;
  log_printf (cs "Version: %s %s") [VStr OS_VERSION; VStr (cs "test")];;
  log_printf (cs "%d %d %x %c") [VInt 12345; VInt (-123); VInt 0x123456; VInt 0x61];;
  _ ← sys_sched_yield;
  task_first_init;;
  move_to_first_task.

(** ** Tests, which nothing calls *)

(** One of the loops of [link_test] that put nodes into the list, at the round [i]. *)
Fixpoint link_test_insert (insert : gmap Z list_node_t -> list_t -> Z -> option (gmap Z list_node_t * list_t))
    (i : Z) (nodes : list Z) (l : list_t) : K list_t :=
  match nodes with
  | [] => mret l
  | node :: nodes =>
      log_printf (cs "%d, %x" ++ [0x0a]) [VInt i; VInt node];;
      l ← on_list (fun h l => insert h l node) l;
      link_test_insert insert (i + 1) nodes l
  end.

Fixpoint link_test_remove (n : nat) (l : list_t) : K list_t :=
  match n with
  | O => mret l
  | S n =>
      h ← gets k_nodes;
      '(_, h, l) ← kopt (list_remove_front h l);
      modify (set_k_nodes h);;
      log_printf (cs "[%d]") [VInt (list_size l)];;
      link_test_remove n l
  end.

(** [nodes] and [v] are locals; the node of [v] is its second member. *)
Definition link_test (nodes : list Z) (v : Z) : K unit :=
  let l := list_init in
  log_printf (cs "list: first = %x, last = %x, count = %d" ++ [0x0a]) [VInt (list_first l); VInt (list_last l); VInt (list_size l)];;
  l ← link_test_insert list_insert_front 0 nodes l;
  _ ← link_test_remove 5 l;
  let l := list_init in
  _ ← link_test_insert list_insert_back 0 nodes l;
  lift (store32 v 0x123456);;
  let v_node := v + 4 in
  let p := list_node_parent v_node 4 in
  i ← lift (load32 p);
  if negb (i =? 0x123456) then log_printf (cs "error!") [] else mret tt.

(** The demo tasks run forever; these are their first rounds. *)
Fixpoint test_task_rounds (fmt : list Z) (rounds : nat) (count : Z) : K unit :=
  match rounds with
  | O => mret tt
  | S rounds =>
      log_printf fmt [VInt count];;
      let count := i32 (count + 1) in
      sys_sleep 1000;;
      test_task_rounds fmt rounds count
  end.

Definition test_task1 (rounds : nat) : K unit := test_task_rounds (cs "test_task1: %d") rounds 0.

Definition test_task2 (rounds : nat) : K unit := test_task_rounds (cs "test_task2: %d") rounds 0.

End Init.
