(* ===== verification/Boot.v ===== *)
(** Start-up, kernel/init/init.c: from the zeroed memory the loader hands over to the
    first user task.  The operations are those of Init; here is what [kernel_init] and
    [init_main] establish for the rest of the kernel. *)
From S2P Require Import Prelude DList Bitmap Machine MachineFacts Klib Format Sched Ipc Log Cpu Alloc Paging AddrSpace.
From S2P Require Import KernelMap CopySpace Irq Timer Fs Task TaskLife Exec Syscall Fork Init.

Lemma log_bind_logged `{Layout} `{Device} {A} s fmt args n (k : unit -> K A) :
  com1_ready -> log_free s -> fmt_room fmt false args = Some n -> (n < LOG_BUF_SIZE)%nat ->
  exists s', (log_printf fmt args ≫= k) s = k tt s' /\ logged s s'.
Proof.
  intros Hr Hf En Hn. destruct (log_printf_room s fmt args n Hr Hf En Hn) as (s' & E & Hl).
  exists s'. by rewrite run_bind, E.
Qed.

(** One log line of a computation; the new state and its relation to the old one are
    named. *)
Ltac log_step s' Hl :=
  match goal with
  | Hr : com1_ready, Hf : log_free ?s |- context [(log_printf ?fmt ?args ≫= ?k) ?s] =>
      let E := fresh "E" in
      edestruct (fun n => log_bind_logged s fmt args n k Hr Hf) as (s' & E & Hl);
        [reflexivity | unfold LOG_BUF_SIZE; simpl; lia |]; rewrite E; clear E
  end.

Section Boot.
Context `{Layout} `{Device}.

(** ** Log lines *)
Lemma logged_refl s : logged s s.
Proof. exists (k_reads s), (k_out s). by destruct s. Qed.

Lemma show_mem_regions_run l : forall i s,
  com1_ready -> log_free s -> exists s', show_mem_regions l i s = Done tt s' /\ logged s s'.
Proof.
  induction l as [|[start size] l IH]; intros i s Hr Hf; cbn [show_mem_regions].
  { exists s. split; [done | apply logged_refl]. }
  log_step s1 Hl1. destruct (IH (i + 1) s1 Hr (logged_free _ _ Hl1 Hf)) as (s2 & E2 & Hl2).
  exists s2. split; [done | by apply (logged_trans s s1)].
Qed.

Lemma show_mem_info_run bi s :
  com1_ready -> log_free s -> exists s', show_mem_info bi s = Done tt s' /\ logged s s'.
Proof.
  intros Hr Hf. unfold show_mem_info. log_step s1 Hl1. pose proof (logged_free _ _ Hl1 Hf) as Hf1.
  edestruct show_mem_regions_run as (s2 & E2 & Hl2); [done | exact Hf1 |]. rewrite run_bind, E2. cbn [obind].
  edestruct (log_printf_room s2 nl []) as (s3 & E3 & Hl3);
    [done | by eapply logged_free | reflexivity | unfold LOG_BUF_SIZE; simpl; lia |].
  exists s3. split; [done|]. apply (logged_trans s s1); [done | by apply (logged_trans s1 s2)].
Qed.

(** ** memory_init *)

(** The memory the BIOS reported: it ends below [MEM_EXT_END] and holds more frames
    than the kernel's page directory has entries; [bits], from [mem_free_start] on, has
    room for the bitmap and stays below the EBDA. *)
Record ram_ok (bits : list Z) (bi : boot_info_t) : Prop := {
  rm_count : ram_region_count bi <> 0;
  rm_total : MEM_EXT_START + 1100 * MEM_PAGE_SIZE <= total_mem_size bi <= MEM_EXT_END;
  rm_bits : Forall (fun b => 0 <= b < 256) bits;
  rm_room : (total_mem_size bi - MEM_EXT_START) / MEM_PAGE_SIZE <= 8 * Z.of_nat (length bits);
  rm_ebda : mem_free_start + bitmap_byte_count ((total_mem_size bi - MEM_EXT_START) / MEM_PAGE_SIZE) < MEM_EBDA_START
}.

(** The allocator after [addr_alloc_init]: all its frames are free. *)
Lemma alloc_init_run bits size s :
  cold_mutex s paddr_alloc -> 0 <= size -> MEM_EXT_START + size <= MEM_EXT_END ->
  Forall (fun b => 0 <= b < 256) bits -> size / MEM_PAGE_SIZE <= 8 * Z.of_nat (length bits) ->
  exists mx a, let s1 := set_k_alloc a (set_k_mutex (<[paddr_alloc := mx]> (k_mutex s)) s) in
    addr_alloc_init bits MEM_EXT_START size MEM_PAGE_SIZE s = Done tt s1 /\ paging_ok s1 /\
    al_size a = size /\ Z.of_nat (length (frames s1)) = size / MEM_PAGE_SIZE.
Proof.
  intros Hc Hsz Hend Hb Hl.
  destruct (addr_alloc_init_run bits MEM_EXT_START size s) as (mx & a & E & Hf & [Hwf Hp] & Es & Ea); try done.
  { unfold MEM_EXT_END in Hend. lia. }
  exists mx, a. cbn zeta. split_and!; [done | | done |].
  - constructor; [done | done |]. kproj. rewrite Ea. intros p (i & <- & Hi)%list_elem_of_In%in_map_iff.
    apply list_elem_of_In, elem_of_seqZ in Hi. unfold MEM_EXT_START, MEM_EXT_END, MEM_PAGE_SIZE in *. split.
    + zdiv.
    + apply kmapped_spec. right. zdiv.
  - unfold frames. kproj. cbn [app] in Hp. rewrite (Permutation_length Hp), Ea, length_map, length_seqZ.
    unfold MEM_PAGE_SIZE. zdiv.
Qed.

Lemma down2_page x : 0 <= x < 2 ^ 32 -> down2 x MEM_PAGE_SIZE = x / MEM_PAGE_SIZE * MEM_PAGE_SIZE.
Proof. intros Hx. change MEM_PAGE_SIZE with (2 ^ 12). rewrite down2_spec by (done || lia). change (2 ^ 12) with 4096. zdiv. Qed.

(** Memory management is up: the kernel's own page table is in use. *)
Record memory_ready (s s' : kst) : Prop := {
  mr_state : exists mx n o m a, s' = set_k_cr3 kernel_page_dir (set_k_alloc a (set_k_mem m
    (set_k_mutex (<[paddr_alloc := mx]> (k_mutex s)) (set_k_reads n (set_k_out o s)))));
  mr_paging : paging_ok s';
  mr_dir : dir_wf (k_mem s') (frames s') kernel_page_dir;
  mr_walk : forall x, 0 <= x < 2 ^ 32 -> mmu_walk kernel_page_dir (k_mem s') x = if kmapped x then Some x else None;
  mr_frames : (76 <= length (frames s'))%nat;
  mr_low : forall x, 0 <= x < MEM_EXT_START -> page_of x <> kernel_page_dir -> mget (k_mem s') x = mget (k_mem s) x
}.

Lemma memory_init_run bits bi s :
  com1_ready -> log_free s -> cold_mutex s paddr_alloc -> layout_ok -> ram_ok bits bi ->
  exists s', memory_init bits bi s = Done tt s' /\ memory_ready s s'.
Proof.
  intros Hr Hf Hc Hlo [_ Ht Hb Hroom Heb]. unfold memory_init. set (T := total_mem_size bi) in *.
  assert (0 <= T - MEM_EXT_START < 2 ^ 32) as Hrng by (unfold MEM_EXT_START, MEM_EXT_END, MEM_PAGE_SIZE in *; lia).
  rewrite u32_small, down2_page by done. set (n := (T - MEM_EXT_START) / MEM_PAGE_SIZE) in *.
  assert (1100 <= n /\ MEM_EXT_START + n * MEM_PAGE_SIZE <= MEM_EXT_END) as [Hn Hend].
  { unfold n, MEM_EXT_START, MEM_EXT_END, MEM_PAGE_SIZE in *. split; zdiv. }
  log_step s1 Hl1. pose proof (logged_free _ _ Hl1 Hf) as Hf1.
  destruct (show_mem_info_run bi s1 Hr Hf1) as (s2 & E2 & Hl2). rewrite run_bind, E2. cbn [obind].
  pose proof (logged_free _ _ Hl2 Hf1) as Hf2. log_step s3 Hl3.
  destruct (logged_trans _ _ _ Hl1 (logged_trans _ _ _ Hl2 Hl3)) as (rd & o & ->). clear s1 s2 Hl1 Hl2 Hl3 E2 Hf1 Hf2.
  set (s3 := set_k_reads rd (set_k_out o s)).
  destruct (alloc_init_run bits (n * MEM_PAGE_SIZE) s3) as (mx & a & E & Hok & Es & Hlen); try done.
  { unfold MEM_PAGE_SIZE. lia. }
  { rewrite Z.div_mul by done. exact Hroom. }
  rewrite run_bind, E. cbn [obind]. rewrite run_bind, run_gets. cbn [obind]. kproj. rewrite Es.
  rewrite Z.div_mul in Hlen |- * by done. unfold ASSERT. rewrite (proj2 (Z.ltb_lt _ _)) by done. cbn [negb].
  rewrite run_bind, run_ret. cbn [obind].
  set (s4 := set_k_alloc a _) in *.
  destruct (create_kernel_table_run s4 Hlo Hok ltac:(lia)) as (s5 & E5 & [(m & a' & ->) H1 H2 H3 H4 H5]).
  rewrite run_bind, E5. cbn [obind]. eexists. split; [reflexivity|]. constructor; try done.
  - exists mx, rd, o, m, a'. by destruct s.
  - by destruct H1.
  - change (76 <= length (frames (set_k_alloc a' (set_k_mem m s4))))%nat. lia.
Qed.

(** ** The processor, the log, memory and interrupts *)

(** The kernel's static objects as the loader leaves them, zeroed. *)
Record cold_hw (s : kst) : Prop := {
  ch_mutex : NoDup [gdt_mutex; log_mutex; paddr_alloc; task_table_mutex] /\
    forall a, a ∈ [gdt_mutex; log_mutex; paddr_alloc; task_table_mutex] -> cold_mutex s a;
  ch_gdt : length (k_gdt s) = GDT_TABLE_SIZE;
  ch_idt : length (k_idt s) = IDT_TABLE_NO
}.

(** The gate of vector [i] once the timer is set up. *)
Definition boot_gate (i : Z) : gate_desc_t := if i =? IRQ0_TIMER then timer_gate else idt_gate i.

Record hardware_ready (s s' : kst) : Prop := {
  hr_gdt : k_gdt s' = boot_gdt /\ k_gdtr s' = (gdt_table, 2047);
  hr_idt : k_idtr s' = (idt_table, 1023) /\
    forall i, (i < IDT_TABLE_NO)%nat -> k_idt s' !! i = Some (boot_gate (Z.of_nat i));
  hr_tick : k_sys_tick s' = 0;
  hr_mutex : forall a, a ∈ [gdt_mutex; log_mutex; paddr_alloc] -> mutex_free s' a;
  hr_table_mutex : cold_mutex s' task_table_mutex;
  hr_cr3 : k_cr3 s' = kernel_page_dir;
  hr_paging : paging_ok s';
  hr_dir : dir_wf (k_mem s') (frames s') kernel_page_dir;
  hr_walk : forall x, 0 <= x < 2 ^ 32 -> mmu_walk kernel_page_dir (k_mem s') x = if kmapped x then Some x else None;
  hr_frames : (76 <= length (frames s'))%nat;
  hr_low : forall x, 0 <= x < MEM_EXT_START -> page_of x <> kernel_page_dir -> mget (k_mem s') x = mget (k_mem s) x;
  hr_tasks : k_tasks s' = k_tasks s /\ k_if s' = k_if s
}.

Lemma cold_mutex_other s s' a b m :
  cold_mutex s a -> k_mutex s' = <[b := m]> (k_mutex s) -> a <> b -> cold_mutex s' a.
Proof. intros (x & Hx & Hn) E Hne. exists x. by rewrite E, lookup_insert_ne. Qed.

Lemma mutex_free_other s s' a b m :
  mutex_free s a -> k_mutex s' = <[b := m]> (k_mutex s) -> a <> b -> mutex_free s' a.
Proof. intros (x & Hx & Hn) E Hne. exists x. by rewrite E, lookup_insert_ne. Qed.

Lemma mutex_free_same s s' a : mutex_free s a -> k_mutex s' = k_mutex s -> mutex_free s' a.
Proof. intros (x & Hx & Hn) E. exists x. by rewrite E. Qed.

(** The bytes [log_init] sends: no interrupts, the divisor for 38400 baud, 8N1, FIFOs
    on, RTS and DTR. *)
Definition uart_writes : list (Z * Z) :=
  [(0x3f9, 0x00); (0x3fb, 0x80); (0x3f8, 0x03); (0x3f9, 0x00); (0x3fb, 0x03); (0x3fa, 0xc7); (0x3fc, 0x0f)].

Lemma log_init_run s :
  cold_mutex s log_mutex ->
  exists mx, let s' := set_k_out (reverse uart_writes ++ k_out s) (set_k_mutex (<[log_mutex := mx]> (k_mutex s)) s) in
    log_init s = Done tt s' /\ mutex_free s' log_mutex.
Proof.
  intros Hc. destruct (mutex_init_run s log_mutex (cs "log") Hc) as (mx & E & Hf).
  exists mx. cbn zeta. split; [|exact Hf]. unfold log_init. rewrite run_bind, E. cbn [obind].
  unfold outb. kred. by destruct s.
Qed.

Lemma kernel_init_prefix bits bi s :
  com1_ready -> cold_hw s -> layout_ok -> ram_ok bits bi ->
  exists s', kernel_init bits bi s = task_manager_init s' /\ hardware_ready s s'.
Proof.
  intros Hr [[Hnd Hc] Hg Hi] Hlo Hram. unfold kernel_init, ASSERT.
  rewrite (proj2 (Z.eqb_neq _ 0)) by apply Hram. cbn [negb]. rewrite run_bind, run_ret. cbn [obind].
  assert (gdt_mutex <> log_mutex /\ gdt_mutex <> paddr_alloc /\ gdt_mutex <> task_table_mutex /\ log_mutex <> paddr_alloc /\
    log_mutex <> task_table_mutex /\ paddr_alloc <> task_table_mutex) as (N1 & N2 & N3 & N4 & N5 & N6)
    by (rewrite !NoDup_cons, !not_elem_of_cons in Hnd; tauto).
  destruct (cpu_init_run s (Hc gdt_mutex ltac:(set_solver)) Hg) as (m1 & F1 & E1). rewrite run_bind, E1. cbn [obind].
  set (s1 := set_k_gdtr _ _).
  destruct (log_init_run s1) as (m2 & E2 & F2).
  { by apply (cold_mutex_other s s1 _ gdt_mutex m1); [apply Hc; set_solver | done | congruence]. }
  rewrite run_bind, E2. cbn [obind]. set (s2 := set_k_out _ _) in *.
  destruct (memory_init_run bits bi s2 Hr F2) as (s3 & E3 & [(m3 & n & o & m & a & Es3) R1 R2 R3 R4 R5]); [|done|done|].
  { apply (cold_mutex_other s1 s2 _ log_mutex m2); [|done|congruence].
    by apply (cold_mutex_other s s1 _ gdt_mutex m1); [apply Hc; set_solver | done | congruence]. }
  subst s3. set (s3 := set_k_cr3 _ _) in *. rewrite run_bind, E3. cbn [obind].
  destruct (irq_init_run s3) as (idt & E4 & Hil & Hidt); [done|]. rewrite run_bind, E4. cbn [obind].
  rewrite run_bind, timer_init_run by done. cbn [obind]. set (s4 := set_k_out _ _).
  exists (timer_ready s4). split; [done|].
  constructor; try done.
  - split; [done|]. intros i Hi'. unfold timer_ready, remask. kproj. unfold boot_gate.
    destruct (Z.eqb_spec (Z.of_nat i) IRQ0_TIMER) as [Ei|Ei].
    + assert (i = 32%nat) as -> by (unfold IRQ0_TIMER in Ei; lia). apply (list_lookup_insert_eq idt). rewrite Hil. unfold IDT_TABLE_NO. lia.
    + rewrite list_lookup_insert_ne by (unfold IRQ0_TIMER in Ei; lia). by apply Hidt.
  - intros x Hx. rewrite !elem_of_cons in Hx.
    assert (k_mutex (timer_ready s4) = <[paddr_alloc := m3]> (k_mutex s2)) as Em by done.
    assert (mutex_free s1 gdt_mutex) as F1' by (by apply (mutex_free_same _ _ _ F1)).
    destruct Hx as [->|[->|[->|?%not_elem_of_nil]]]; [| | |done].
    + apply (mutex_free_other s2 _ _ paddr_alloc m3); [|done|done]. by apply (mutex_free_other s1 s2 _ log_mutex m2).
    + by apply (mutex_free_other s2 _ _ paddr_alloc m3).
    + apply (mutex_free_same s3); [by destruct R1 | done].
  - apply (cold_mutex_other s2 _ _ paddr_alloc m3); [|done|congruence].
    apply (cold_mutex_other s1 _ _ log_mutex m2); [|done|congruence].
    by apply (cold_mutex_other s s1 _ gdt_mutex m1); [apply Hc; set_solver | |congruence].
  - by destruct R1.
Qed.

(** ** Descriptors handed out one after the other *)
Definition null_desc : segment_desc_t := segment_desc 0 0 0.

Definition in_use (d : segment_desc_t) : Prop := sd_attr d <> 0.

(** The table with the entries [used] behind entry 0, and free ones after them. *)
Definition gdt_with (used : list segment_desc_t) : list segment_desc_t :=
  null_desc :: used ++ replicate (255 - length used) null_desc.

Lemma gdt_find_used used : forall n i,
  Forall in_use used -> gdt_find (used ++ replicate (S n) null_desc) i = (i + Z.of_nat (length used)) * 8.
Proof.
  induction used as [|d used IH]; intros n i Hu.
  { cbn [gdt_find app length replicate]. change (sd_attr null_desc =? 0) with true. cbn iota. lia. }
  apply Forall_cons in Hu as [Hd Hu]. cbn [gdt_find app length]. rewrite (proj2 (Z.eqb_neq _ 0)) by done. rewrite IH by done. lia.
Qed.

Lemma gdt_with_next used d :
  (length used < 255)%nat -> <[S (length used) := d]> (gdt_with used) = gdt_with (used ++ [d]).
Proof.
  intros Hl. unfold gdt_with. rewrite length_app. cbn [length].
  replace (255 - length used)%nat with (S (255 - (length used + 1))) by lia.
  cbn [replicate]. change (<[S (length used) := d]> (null_desc :: used ++ null_desc :: replicate (255 - (length used + 1)) null_desc))
    with (null_desc :: <[length used := d]> (used ++ null_desc :: replicate (255 - (length used + 1)) null_desc)).
  rewrite insert_app_r_alt, Nat.sub_diag by done. cbn [list_insert]. by rewrite <- app_assoc.
Qed.

Lemma gdt_alloc_with s used :
  mutex_free s gdt_mutex -> k_gdt s = gdt_with used -> Forall in_use used -> (length used < 255)%nat ->
  gdt_alloc_desc s = Done (8 * (1 + Z.of_nat (length used))) s.
Proof.
  intros Hf Hg Hu Hl. rewrite gdt_alloc_desc_run by done. rewrite Hg. unfold gdt_with. cbn [tail].
  replace (255 - length used)%nat with (S (254 - length used)) by lia. rewrite gdt_find_used by done. f_equal. lia.
Qed.

Lemma segment_set_with s used base limit attr :
  k_gdt s = gdt_with used -> (length used < 255)%nat ->
  segment_desc_set (8 * (1 + Z.of_nat (length used))) base limit attr s =
    Done tt (set_k_gdt (gdt_with (used ++ [segment_desc base limit attr])) s).
Proof.
  intros Hg Hl. assert (gdt_index (8 * (1 + Z.of_nat (length used))) = 1 + Z.of_nat (length used)) as Ei
    by (rewrite Z.mul_comm; apply gdt_index_sel; lia).
  rewrite segment_desc_set_run; rewrite Ei; [|rewrite Hg; unfold gdt_with; cbn [length]; rewrite length_app, length_replicate; lia].
  rewrite Hg. replace (Z.to_nat (1 + Z.of_nat (length used))) with (S (length used)) by lia.
  by rewrite gdt_with_next.
Qed.

(** What [init_gdt] and [task_manager_init] put there. *)
Definition kernel_segments : list segment_desc_t :=
  [segment_desc 0 0xffffffff ATTR_KERNEL_CODE; segment_desc 0 0xffffffff ATTR_KERNEL_DATA; syscall_gate].

Definition user_segments : list segment_desc_t :=
  [segment_desc 0 0xffffffff ATTR_USER_DATA; segment_desc 0 0xffffffff ATTR_USER_CODE].

Definition tss_segment (task : Z) : segment_desc_t := segment_desc (task + TSS_OFF) SIZEOF_TSS ATTR_TSS.

Lemma boot_gdt_with : boot_gdt = gdt_with kernel_segments.
Proof. reflexivity. Qed.

Lemma syscall_gate_used : in_use syscall_gate.
Proof.
  unfold in_use, syscall_gate, segment_of_gate, gate_desc. cbn [sd_attr gd_attr gd_offset31_16].
  change (u16 ATTR_SYSCALL / 2 ^ 8) with 0xec. pose proof (u8_range (u16 (Z.land (Z.shiftr exception_handler_syscall 16) 0xffff))). lia.
Qed.

Lemma tss_segment_used task : 0 <= task -> task + TSS_OFF < 2 ^ 32 -> in_use (tss_segment task).
Proof. intros. apply segment_desc_used; try done. unfold TSS_OFF in *. lia. Qed.

Lemma kernel_segments_used : Forall in_use kernel_segments.
Proof. repeat constructor; [done | done | apply syscall_gate_used]. Qed.

(** ** The task table *)
Record cold_tasks (s : kst) : Prop := {
  ct_table : forall k, 0 <= k < Z.of_nat TASK_NR -> task_table_at k ∈ dom (k_tasks s);
  ct_embedded : forall t, t ∈ [idle_task; first_task] -> 0 < t /\ t + TSS_OFF < 2 ^ 32 /\
    (forall k, 0 <= k < Z.of_nat TASK_NR -> task_table_at k <> t) /\
    exists x, k_tasks s !! t = Some x /\ length (t_name x) = 32%nat;
  ct_apart : tasks_apart (k_tasks s)
}.

(** The table is free from entry [i] on. *)
Definition slots_free (ts : gmap Z task_t) (i : Z) (n : nat) : Prop :=
  forall k, i <= k < i + Z.of_nat n -> ts !! task_table_at k = Some zero_task.

Lemma zero_task_table_run n : forall i s,
  (forall k, i <= k < i + Z.of_nat n -> task_table_at k ∈ dom (k_tasks s)) ->
  exists h ts, zero_task_table n i s = Done tt (set_k_nodes h (set_k_tasks ts s)) /\ dom ts = dom (k_tasks s) /\
    slots_free ts i n /\
    forall t, (forall k, i <= k < i + Z.of_nat n -> task_table_at k <> t) -> ts !! t = k_tasks s !! t.
Proof.
  induction n as [|n IH]; intros i s Hd; cbn [zero_task_table].
  { exists (k_nodes s), (k_tasks s). split_and!; [by destruct s | done | intros k Hk; lia | done]. }
  pose proof (Hd i ltac:(lia)) as [x Hx]%elem_of_dom.
  unfold zero_task_struct. rewrite !run_bind. erewrite upd_task_run by exact Hx. cbn [obind].
  unfold task_init_nodes. kred. set (s1 := set_k_nodes _ _).
  assert (k_tasks s1 = <[task_table_at i := zero_task]> (k_tasks s)) as Es by done.
  destruct (IH (i + 1) s1) as (h & ts & E & Hdom & Hz & Hs).
  { intros k Hk. rewrite Es, dom_insert_L. apply elem_of_union. right. apply Hd. lia. }
  rewrite Es in *. exists h, ts. split_and!.
  - rewrite E. unfold s1. by destruct s.
  - rewrite Hdom, dom_insert_L. apply elem_of_dom_2 in Hx. set_solver.
  - intros k Hk. destruct (decide (k = i)) as [->|]; [|apply Hz; lia].
    rewrite Hs; [by rewrite lookup_insert_eq|]. intros k Hk'. unfold task_table_at, SIZEOF_TASK. lia.
  - intros t Ht. rewrite Hs by (intros k Hk; apply Ht; lia). apply lookup_insert_ne, Ht. lia.
Qed.

(** [task_manager_init] up to the idle task. *)
Definition manager_start (s : kst) (mx : mutex_t) (h : heap) (ts : gmap Z task_t) : kst :=
  set_k_tm (TaskManager 0 list_init list_init list_init 40 32)
    (set_k_gdt (gdt_with (kernel_segments ++ user_segments))
      (set_k_mutex (<[task_table_mutex := mx]> (k_mutex s)) (set_k_nodes h (set_k_tasks ts s)))).

Lemma task_manager_prefix s :
  cold_tasks s -> mutex_free s gdt_mutex -> cold_mutex s task_table_mutex -> gdt_mutex <> task_table_mutex ->
  k_gdt s = boot_gdt ->
  exists mx h ts, let s1 := manager_start s mx h ts in
    task_manager_init s =
      (_ ← task_init idle_task (cs "idle_task") TASK_FLAGS_SYSTEM idle_task_entry (u32 (idle_task_stack + IDLE_TASK_SIZE));
       task_start idle_task) s1 /\
    mutex_free s1 task_table_mutex /\ dom ts = dom (k_tasks s) /\ slots_free ts 0 TASK_NR /\
    forall t, t ∈ [idle_task; first_task] -> ts !! t = k_tasks s !! t.
Proof.
  intros [Ht He _] Hf Hc Hne Hg. unfold task_manager_init.
  destruct (zero_task_table_run TASK_NR 0 s Ht) as (h & ts & E & Hd & Hz & Hs). rewrite run_bind, E. cbn [obind].
  set (s1 := set_k_nodes h _).
  destruct (mutex_init_run s1 task_table_mutex (cs "task_table") Hc) as (mx & Em & Hmx). rewrite run_bind, Em. cbn [obind].
  set (s2 := set_k_mutex _ _) in *.
  assert (mutex_free s2 gdt_mutex) as Hf2 by (by apply (mutex_free_other s1 s2 _ task_table_mutex mx)).
  pose proof kernel_segments_used as Hu. assert (k_gdt s2 = gdt_with kernel_segments) as Hg2 by (by rewrite <- boot_gdt_with).
  rewrite run_bind, (gdt_alloc_with s2 kernel_segments) by (done || (simpl; lia)). cbn [obind].
  rewrite run_bind, (segment_set_with s2 kernel_segments) by (done || (simpl; lia)). cbn [obind].
  rewrite run_bind, run_modify_tm. cbn [obind].
  set (used := kernel_segments ++ [segment_desc 0 0xffffffff ATTR_USER_DATA]). set (s3 := set_k_tm _ _).
  assert (Forall in_use used) as Hu3 by (apply Forall_app; split; [done | by repeat constructor]).
  rewrite run_bind, (gdt_alloc_with s3 used) by (done || (simpl; lia)). cbn [obind].
  rewrite run_bind, (segment_set_with s3 used) by (done || (simpl; lia)). cbn [obind]. kred.
  exists mx, h, ts. cbn zeta. split_and!; try done.
  intros t Ht'. apply Hs. intros k Hk. destruct (He t Ht') as (_ & _ & Hn & _). by apply Hn.
Qed.

(** ** The idle task *)

(** A new address space leaves the others as they were. *)
Lemma new_space_keeps s stack dir m a d :
  new_space s stack dir m a -> dir_wf (k_mem s) (frames s) d ->
  dir_wf m (free_frames a) d /\ forall x, 0 <= x < 2 ^ 32 -> mmu_walk d m x = mmu_walk d (k_mem s) x.
Proof.
  intros [Ef _ _ _ _ Hs] Hd.
  assert (dir ∈ frames s) as Hdir by (rewrite Ef; right; by left).
  assert (forall p, pt_page (k_mem s) d p -> same_page (k_mem s) m p) as Hp.
  { intros p Hp. apply Hs. intros ->. destruct Hp as [->|(i & Hi & Et)]; [by apply (dw_dir_used _ _ _ Hd)|].
    by destruct (dw_table _ _ _ Hd i dir Hi Et) as (_ & _ & Hn & _). }
  split; [|intros x Hx; by apply (walk_ext (k_mem s) m (frames s))].
  apply (dir_wf_ext (k_mem s)); [|apply Hp; by left].
  apply (dir_wf_weaken _ (frames s)); [|done]. rewrite Ef. intros q Hq. by right; right.
Qed.

(** Memory below 1 MiB is not a frame. *)
Lemma new_space_low s stack dir m a x :
  new_space s stack dir m a -> paging_ok s -> x < MEM_EXT_START -> mget m x = mget (k_mem s) x.
Proof.
  intros Hns Hok Hx. apply (ns_same _ _ _ _ _ Hns (page_of x)); [|done]. intros E.
  assert (dir ∈ frames s) as Hdir%free_frames_all by (rewrite (ns_frames _ _ _ _ _ Hns); right; by left).
  destruct (frame_bounds _ _ (po_alloc _ Hok) Hdir) as [Hb _]. unfold page_of, MEM_EXT_START in *. zdiv.
Qed.

(** The tables of the kernel, with the address spaces in order: [frames s] are free. *)
Record spaces_ok (s : kst) : Prop := {
  sp_paging : paging_ok s;
  sp_dir : dir_wf (k_mem s) (frames s) kernel_page_dir;
  sp_walk : forall x, 0 <= x < 2 ^ 32 -> mmu_walk kernel_page_dir (k_mem s) x = if kmapped x then Some x else None
}.

Lemma new_space_spaces s stack dir m a s' :
  new_space s stack dir m a -> spaces_ok s -> k_mem s' = m -> k_alloc s' = a -> k_mutex s' = k_mutex s -> spaces_ok s'.
Proof.
  intros Hns [Hok Hd Hw] Em Ea Ex. destruct (new_space_keeps s stack dir m a _ Hns Hd) as [Hd' Hw'].
  assert (frames s' = free_frames a) as Ef by (unfold frames; by rewrite Ea).
  constructor; rewrite ?Em, ?Ef; [|done|intros x Hx; rewrite Hw' by done; by apply Hw].
  destruct (ns_paging _ _ _ _ _ Hns) as [H1 H2 H3]. constructor; rewrite ?Ea; try done. by apply (mutex_free_same _ _ _ H1).
Qed.

(** Task management is up: nothing runs, the idle task is the only one. *)
Record tasks_ready (s s' : kst) : Prop := {
  tr_inv : sched_inv s' (SView 0 [] []);
  tr_list : dlist (k_nodes s') (task_list (k_tm s')) (all_node <$> [idle_task]);
  tr_gdt : k_gdt s' = gdt_with (kernel_segments ++ user_segments ++ [tss_segment idle_task]);
  tr_tasks : dom (k_tasks s') = dom (k_tasks s) /\ slots_free (k_tasks s') 0 TASK_NR /\
    k_tasks s' !! first_task = k_tasks s !! first_task;
  tr_idle : t_tss_sel <$> k_tasks s' !! idle_task = Some 48;
  tr_sels : app_code_sel (k_tm s') = 40 /\ app_data_sel (k_tm s') = 32;
  tr_mutex : mutex_free s' task_table_mutex /\ forall a, a <> task_table_mutex -> k_mutex s' !! a = k_mutex s !! a;
  tr_spaces : spaces_ok s';
  tr_frames : length (frames s) = (2 + length (frames s'))%nat;
  tr_low : forall x, x < MEM_EXT_START -> mget (k_mem s') x = mget (k_mem s) x;
  tr_same : k_cr3 s' = k_cr3 s /\ k_idt s' = k_idt s /\ k_idtr s' = k_idtr s /\ k_gdtr s' = k_gdtr s /\
    k_if s' = k_if s /\ k_sys_tick s' = k_sys_tick s
}.

(** Starting the idle task does not queue it. *)
Lemma task_start_idle s : task_start idle_task s = Done tt s.
Proof. unfold task_start, task_set_ready. rewrite Z.eqb_refl. kred. by destruct s. Qed.

(** The slot of the next task: descriptor [1 + length used] is the first free one. *)
Lemma next_slot_ok s task name t0 used ns :
  mutex_free s gdt_mutex -> k_gdt s = gdt_with used -> Forall in_use used -> (length used < 255)%nat ->
  0 < task -> task + TSS_OFF < 2 ^ 32 -> k_tasks s !! task = Some t0 -> length (t_name t0) = 32%nat ->
  str_bytes (until0 name) -> dlist (k_nodes s) (task_list (k_tm s)) ns ->
  (all_node task ∉ ns) /\ (run_node task ∉ ns) /\ (wait_node task ∉ ns) -> paging_ok s ->
  slot_ok s task name t0 (8 * (1 + Z.of_nat (length used))) ns.
Proof.
  intros Hf Hg Hu Hl H1 H2 Ht Hn Hs Hd Hns Hok. constructor; try done.
  - split; [done|]. rewrite Hg. unfold gdt_with. cbn [length]. rewrite length_app, length_replicate. unfold GDT_TABLE_SIZE. lia.
  - split; [by apply gdt_alloc_with | lia].
Qed.

(** The descriptor a new task got. *)
Lemma sel_free_next s (used : list segment_desc_t) k :
  sel_free s (8 * (1 + Z.of_nat (length used))) k -> k = S (length used).
Proof. intros (E & _). lia. Qed.

Lemma manager_inv s :
  curr_task (k_tm s) = 0 -> ready_list (k_tm s) = list_init -> sleep_list (k_tm s) = list_init -> live s idle_task ->
  tasks_apart (k_tasks s) -> sched_inv s (SView 0 [] []).
Proof.
  intros Hc Hr Hs Hl Ha. constructor; cbn [v_curr v_ready v_sleep app fmap list_fmap]; try done.
  - rewrite Hr. apply dlist_nil.
  - rewrite Hs. apply dlist_nil.
  - constructor.
  - apply not_elem_of_nil.
  - by intros t ->%list_elem_of_singleton.
  - by intros t n ?%not_elem_of_nil.
Qed.

Lemma task_manager_init_run s :
  cold_tasks s -> mutex_free s gdt_mutex -> cold_mutex s task_table_mutex -> gdt_mutex <> task_table_mutex ->
  paddr_alloc <> task_table_mutex -> k_gdt s = boot_gdt -> spaces_ok s -> (2 <= length (frames s))%nat ->
  exists s', task_manager_init s = Done tt s' /\ tasks_ready s s'.
Proof.
  intros Hct Hf Hc Hne Hne2 Hg Hsp Hfr.
  destruct (task_manager_prefix s Hct Hf Hc Hne Hg) as (mx & h & ts & E & Hmx & Hd & Hz & He).
  set (s1 := manager_start s mx h ts) in *. rewrite E. clear E.
  assert (spaces_ok s1) as Hsp1.
  { destruct Hsp as [[? ? ?] ? ?]. constructor; try done. constructor; try done.
    by apply (mutex_free_other s s1 _ task_table_mutex mx). }
  destruct (ct_embedded _ Hct idle_task ltac:(by left)) as (Hpos & Hend & _ & x & Hx & Hlen).
  set (used := kernel_segments ++ user_segments).
  assert (slot_ok s1 idle_task (cs "idle_task") x 48 []) as Hso.
  { apply (next_slot_ok s1 _ _ _ used); try done.
    - by apply (mutex_free_other s s1 _ task_table_mutex mx).
    - apply Forall_app. split; [apply kernel_segments_used | by repeat constructor].
    - simpl. lia.
    - unfold s1, manager_start. kproj. by rewrite He by (by left).
    - by repeat constructor.
    - apply dlist_nil.
    - repeat split; apply not_elem_of_nil.
    - apply Hsp1. }
  destruct (task_init_run s1 idle_task (cs "idle_task") TASK_FLAGS_SYSTEM idle_task_entry
    (u32 (idle_task_stack + IDLE_TASK_SIZE)) x 48 [] Hso (sp_dir _ Hsp1) Hfr)
    as (k & stack & dir & m & a & t & h' & l & E & Hns & Hsel & Hni & Hft).
  rewrite run_bind, E. cbn [obind]. set (s2 := after_init _ _ _ _ _ _ _ _) in *.
  exists s2. split; [apply task_start_idle|].
  pose proof (sel_free_next s1 used k Hsel) as ->. destruct (ft_tss _ _ _ _ Hft) as [_ Htsel].
  assert (k_tasks s2 = <[idle_task := t]> ts) as Ets by done.
  assert (dom (k_tasks s2) = dom (k_tasks s)) as Edom.
  { rewrite Ets, dom_insert_L, Hd. apply elem_of_dom_2 in Hx. set_solver. }
  constructor.
  - apply (manager_inv s2); [done | done | done | apply after_init_live with (sel := 48) (ns := []); done |].
    intros a1 a2. rewrite Edom. apply (ct_apart _ Hct).
  - apply Hni.
  - exact (gdt_with_next used (tss_segment idle_task) ltac:(simpl; lia)).
  - split_and!; [done | |].
    + intros i Hi. rewrite Ets, lookup_insert_ne; [by apply Hz|]. intros Ei.
      destruct (ct_embedded _ Hct idle_task ltac:(by left)) as (_ & _ & Hn & _). by apply (Hn i Hi).
    + rewrite Ets, lookup_insert_ne, He; [done | right; by left |]. unfold idle_task, first_task, SIZEOF_TASK. lia.
  - unfold s2, after_init, with_tss. kproj. rewrite lookup_insert_eq. cbn. by rewrite Htsel.
  - done.
  - split; [by apply (mutex_free_same s1)|]. intros b Hb. unfold s2, after_init, with_tss, s1, manager_start. kproj. by rewrite lookup_insert_ne.
  - by apply (new_space_spaces s1 stack dir m a).
  - change (frames s) with (frames s1). rewrite (ns_frames _ _ _ _ _ Hns). done.
  - intros y Hy. by apply (new_space_low s1 stack dir m a y Hns (sp_paging _ Hsp1)).
  - done.
Qed.

End Boot.
