(* ===== verification/FirstTask.v ===== *)
(** The first user task, [task_first_init] of kernel/core/task.c and [init_main] of
    kernel/init/init.c, and what start-up leaves, [booted]; [Start] puts the two
    halves together. *)
From S2P Require Import Prelude DList Bitmap Machine MachineFacts Klib Format Sched Ipc Log Cpu Alloc Paging AddrSpace.
From S2P Require Import KernelMap CopySpace Irq Timer Fs Task TaskLife Exec Syscall Fork Init Boot.

Section FirstTask.
Context `{Layout} `{Device}.

(** ** The kernel half of a task's address space *)

(** Pages mapped in the user half of a new space leave the kernel's own directory, whose
    tables it shares, as it was. *)
Section Shared.
Variables (s : kst) (stack dir : Z) (m : gmap Z Z) (a : addr_alloc_t).
Hypothesis Hns : new_space s stack dir m a.
Hypothesis Hk : dir_wf (k_mem s) (frames s) kernel_page_dir.
Variables (ds : list Z) (s4 s5 : kst).
Hypothesis Em : k_mem s4 = m.
Hypothesis Ef : frames s4 = free_frames a.
Hypothesis Hs : map_step dir ds s4 s5.
Hypothesis Hw : forall x, 0 <= x < MEMORY_TASK_BASE -> mmu_walk dir (k_mem s5) x = mmu_walk dir m x.

Lemma shared_frames p : p ∈ frames s4 -> p ∈ frames s.
Proof. rewrite Ef, (ns_frames _ _ _ _ _ Hns). intros Hp. by right; right. Qed.

Lemma shared_page p : p ∉ frames s -> (forall i, 0 <= i < 512 -> table_of (k_mem s) kernel_page_dir i <> Some p) ->
  same_page (k_mem s) (k_mem s5) p.
Proof.
  intros Hp Ht. assert (p <> dir) as Hd by (intros ->; apply Hp; rewrite (ns_frames _ _ _ _ _ Hns); right; by left).
  apply (same_page_trans _ m); [by apply (ns_same _ _ _ _ _ Hns)|]. rewrite <- Em. apply (ms_frame _ _ _ _ Hs).
  - intros [[->|(i & Hi & Et)]|Hin]%(ms_new _ _ _ _ Hs); [done | | by apply Hp, shared_frames].
    rewrite Em, (ns_tables _ _ _ _ _ Hns) in Et by done. destruct (Z.ltb_spec i 512); [|done]. apply (Ht i); [lia | done].
  - intros Hin. destruct (ms_data _ _ _ _ Hs p Hin) as [Hf _]. by apply Hp, shared_frames.
Qed.

(** Memory below 1 MiB. *)
Lemma shared_low x : paging_ok s -> 0 <= x < MEM_EXT_START -> mget (k_mem s5) x = mget (k_mem s) x.
Proof.
  intros Hok Hx. assert (page_of x < MEM_EXT_START) as Hp by (unfold page_of; zdiv).
  apply (shared_page (page_of x)); [| |done].
  - intros Hin%free_frames_all. destruct (frame_bounds _ _ (po_alloc _ Hok) Hin). lia.
  - intros i Hi Et. destruct (dw_table _ _ _ Hk i _ ltac:(lia) Et) as (_ & ? & _). lia.
Qed.

Lemma shared_dir : same_page (k_mem s) (k_mem s5) kernel_page_dir.
Proof.
  apply shared_page; [apply Hk|]. intros i Hi Et. by destruct (dw_table _ _ _ Hk i kernel_page_dir ltac:(lia) Et) as (_ & _ & _ & ?).
Qed.

Lemma shared_table i : 0 <= i < 1024 -> table_of (k_mem s5) kernel_page_dir i = table_of (k_mem s) kernel_page_dir i.
Proof. intros Hi. apply table_of_ext; [apply Hk | apply shared_dir | done]. Qed.

Lemma kernel_dir_kept : dir_wf (k_mem s5) (frames s5) kernel_page_dir.
Proof.
  apply (dir_wf_ext (k_mem s)); [|apply shared_dir]. apply (dir_wf_weaken _ (frames s)); [|done].
  intros p Hp. apply shared_frames. destruct (ms_taken _ _ _ _ Hs) as (ps & -> & _). apply elem_of_app. by right.
Qed.

Lemma kernel_walk_kept x :
  0 <= x < 2 ^ 32 -> mmu_walk kernel_page_dir (k_mem s5) x = mmu_walk kernel_page_dir (k_mem s) x.
Proof.
  intros Hx. pose proof (pde_index_range x Hx) as Hi. pose proof (proj1 (dw_dir _ _ _ Hk)) as Hal.
  destruct (table_of (k_mem s) kernel_page_dir (pde_index x)) as [t|] eqn:Et.
  2: { rewrite !walk_tables by done. by rewrite shared_table, Et by done. }
  destruct (decide (pde_index x < 512)) as [Hlt|Hge].
  - assert (x < MEMORY_TASK_BASE) as Hxl.
    { rewrite pde_index_div in Hlt. unfold MEMORY_TASK_BASE. change (2 ^ 22) with 4194304 in Hlt. zdiv. }
    pose proof (new_space_walk s stack dir m a x Hns Hk Hx) as E. rewrite (proj2 (Z.ltb_lt _ _)) in E by done.
    rewrite <- E, <- Hw by lia. clear E.
    pose proof (proj1 (dw_dir _ _ _ (ms_dir _ _ _ _ Hs))) as Hdal. rewrite !walk_tables by done.
    rewrite shared_table, Et by done. rewrite (ms_tables _ _ _ _ Hs (pde_index x) t Hi); [done|].
    rewrite Em, (ns_tables _ _ _ _ _ Hns) by done. by rewrite (proj2 (Z.ltb_lt _ _)) by done.
  - rewrite !walk_tables by done. rewrite shared_table, Et by done. cbn [mbind option_bind].
    destruct (dw_table _ _ _ Hk _ t Hi Et) as ([Hta _] & _ & Htf & _).
    rewrite (leaf_ext (k_mem s)); [done | done | | apply pte_index_range].
    apply shared_page; [done|]. intros j Hj Ej.
    apply Hge. rewrite (dw_inj _ _ _ Hk (pde_index x) j t); [lia | done | lia | done | done].
Qed.

End Shared.

(** ** The first task's structure *)
Definition boot_used : list segment_desc_t := kernel_segments ++ user_segments ++ [tss_segment idle_task].

Lemma boot_used_used s : cold_tasks s -> Forall in_use boot_used.
Proof.
  intros Hct. destruct (ct_embedded _ Hct idle_task ltac:(by left)) as (Hpos & Hend & _).
  apply Forall_app. split; [apply kernel_segments_used|]. apply Forall_app. split; [by repeat constructor|].
  repeat constructor. apply tss_segment_used; [lia | done].
Qed.

Lemma first_not_idle : first_task <> idle_task.
Proof. unfold idle_task, first_task, SIZEOF_TASK. lia. Qed.

(** The state [task_init] leaves for the first task. *)
Record first_made (s : kst) (esp stack dir : Z) (m : gmap Z Z) (a : addr_alloc_t) (t : task_t) (s1 : kst) : Prop := {
  fm_space : new_space s stack dir m a;
  fm_mem : k_mem s1 = m /\ k_alloc s1 = a;
  fm_inv : sched_inv s1 (SView 0 [] []);
  fm_live : live s1 first_task;
  fm_list : dlist (k_nodes s1) (task_list (k_tm s1)) (all_node <$> [idle_task; first_task]);
  fm_task : k_tasks s1 = <[first_task := t]> (k_tasks s) /\ t_tss_sel t = 56 /\
    t_tss t = tss_start first_task_entry esp (u32 (stack + MEM_PAGE_SIZE)) 43 35 dir;
  fm_gdt : k_gdt s1 = gdt_with (boot_used ++ [tss_segment first_task]);
  fm_same : k_mutex s1 = k_mutex s /\ k_idt s1 = k_idt s /\ k_idtr s1 = k_idtr s /\ k_gdtr s1 = k_gdtr s /\ k_if s1 = k_if s
}.

Lemma first_task_made s0 s esp :
  cold_tasks s0 -> tasks_ready s0 s -> mutex_free s gdt_mutex -> (2 <= length (frames s))%nat ->
  exists stack dir m a t s1,
    task_init first_task (cs "first task") TASK_FLAGS_USER first_task_entry esp s = Done 0 s1 /\
    first_made s esp stack dir m a t s1.
Proof.
  intros Hct Htr Hf Hfr. pose proof Htr as [Hi Hl Hg (Edom & Hz & Ht) Hid [Hsc Hsd] _ Hsp _ _ _].
  destruct (ct_embedded _ Hct first_task ltac:(right; by left)) as (Hpos & Hend & _ & x & Hx & Hlen).
  pose proof (boot_used_used _ Hct) as Hu. rewrite Hx in Ht.
  assert (first_task ∈ dom (k_tasks s)) as Hfd by (by apply elem_of_dom_2 in Ht).
  assert (idle_task ∈ dom (k_tasks s)) as Hidd.
  { apply elem_of_dom. by destruct (k_tasks s !! idle_task). }
  pose proof (nodes_apart (k_tasks s) first_task idle_task) as Hap.
  assert (slot_ok s first_task (cs "first task") x 56 (all_node <$> [idle_task])) as Hso.
  { apply (next_slot_ok s _ _ _ boot_used); try done.
    - simpl. lia.
    - by repeat constructor.
    - pose proof (si_apart _ _ Hi) as Ha. pose proof first_not_idle.
      unfold all_node, run_node, wait_node, ALL_NODE_OFF, RUN_NODE_OFF, WAIT_NODE_OFF, SIZEOF_TASK in *.
      split_and!; (intros E%list_elem_of_singleton; revert E; apply Hap; done || lia).
    - apply Hsp. }
  destruct (task_init_run s first_task (cs "first task") TASK_FLAGS_USER first_task_entry esp x 56 _ Hso (sp_dir _ Hsp) Hfr)
    as (k & stack & dir & m & a & t & h & l & E & Hns & Hsel & Hni & Hft).
  pose proof (sel_free_next s boot_used k Hsel) as ->. destruct (ft_tss _ _ _ _ Hft) as [Htss Htsel].
  exists stack, dir, m, a, t, (after_init first_task t (S (length boot_used)) m a h l s). split; [done|].
  constructor; try done.
  - apply (after_init_inv _ _ _ _ _ _ _ _ _ 56 [idle_task]); try done.
    + intros y ty d Hy Hty Hd. cbn in Hy. apply list_elem_of_singleton in Hy as ->. rewrite Hty in Hid. injection Hid as Es.
      rewrite Es, Hg in Hd. by injection Hd as <-.
    + intros ?%list_elem_of_singleton. by apply first_not_idle.
    + by intros y ->%list_elem_of_singleton.
  - by apply (after_init_live _ _ _ _ _ _ _ _ 56 (all_node <$> [idle_task])).
  - apply Hni.
  - split_and!; [done | done |]. rewrite Htss. cbn [t_tss set_t_tss_sel set_t_tss]. unfold tss_ready, task_sels.
    by rewrite Hsc, Hsd.
  - unfold after_init, with_tss. kproj. rewrite Hg. apply gdt_with_next. simpl. lia.
Qed.

(** ** The first task's memory *)

(** The image of the first task as kernel.lds and the link address place it. *)
Record first_image : Prop := {
  fi_entry : MEMORY_TASK_BASE <= first_task_entry /\ first_task_entry mod 4096 = 0 /\ first_task_entry + 40960 < 2 ^ 32;
  fi_size : 0 <= e_first_task - s_first_task < 40960;
  fi_low : 0 < s_first_task /\ e_first_task <= MEM_EBDA_START;
  fi_dir : forall x, s_first_task <= x < e_first_task -> page_of x <> kernel_page_dir
}.

(** The ten pages from [first_task_entry] on are mapped to the frames [ps], and the rest of
    the space is as [m] has it. *)
Definition first_space (dir : Z) (ps : list Z) (m m' : gmap Z Z) : Prop :=
  length ps = 10%nat /\ NoDup ps /\
  forall x, 0 <= x < 2 ^ 32 -> mmu_walk dir m' x = map_frames first_task_entry ps (mmu_walk dir m) x.

(** Where byte [i] of the block at [v] goes. *)
Definition frame_of (ps : list Z) (i : Z) : Z := default 0 (ps !! Z.to_nat (i / 4096)) + i mod 4096.

Lemma frame_of_spec v ps f i :
  0 <= i < Z.of_nat (length ps) * 4096 ->
  map_frames v ps f (v + i) = Some (frame_of ps i) /\
  ((forall p, p ∈ ps -> p mod 4096 = 0) -> page_of (frame_of ps i) ∈ ps).
Proof.
  intros Hi. unfold map_frames, frame_of. rewrite decide_True by lia. replace (v + i - v) with i by lia.
  destruct (lookup_lt_is_Some_2 ps (Z.to_nat (i / 4096))) as [p Hp]; [zdiv|]. rewrite Hp. cbn. split; [done|].
  intros Hal. apply list_elem_of_lookup_2 in Hp. pose proof (Hal p Hp). rewrite page_of_offset; [done | done | zdiv].
Qed.

Lemma frame_of_inj ps i j :
  NoDup ps -> (forall p, p ∈ ps -> p mod 4096 = 0) -> 0 <= i < Z.of_nat (length ps) * 4096 ->
  0 <= j < Z.of_nat (length ps) * 4096 -> frame_of ps i = frame_of ps j -> i = j.
Proof.
  intros Hnd Hal Hi Hj. unfold frame_of.
  destruct (lookup_lt_is_Some_2 ps (Z.to_nat (i / 4096))) as [p Hp]; [zdiv|].
  destruct (lookup_lt_is_Some_2 ps (Z.to_nat (j / 4096))) as [q Hq]; [zdiv|]. rewrite Hp, Hq. cbn. intros E.
  pose proof (Hal p ltac:(by eapply list_elem_of_lookup_2)). pose proof (Hal q ltac:(by eapply list_elem_of_lookup_2)).
  assert (p = q) as -> by zdiv. pose proof (NoDup_lookup _ _ _ _ Hnd Hp Hq). zdiv.
Qed.

Lemma ms_cr3 d ds s s' : map_step d ds s s' -> k_cr3 s' = k_cr3 s.
Proof. by intros [(m & a & ->) _ _ _ _ _ _ _ _]. Qed.

(** Mapping the pages and copying the image into them. *)
Lemma first_memory s stack dir m a s4 :
  first_image -> new_space s stack dir m a -> spaces_ok s -> (22 <= length (frames s))%nat ->
  k_mem s4 = m -> k_alloc s4 = a -> k_cr3 s4 = dir -> paging_ok s4 ->
  exists ps s5 s6, map_step dir ps s4 s6 /\ first_space dir ps m (k_mem s6) /\
    memory_alloc_for_page_dir dir first_task_entry (10 * MEM_PAGE_SIZE) (Z.lor (Z.lor PTE_P PTE_W) PTE_U) s4 = Done 0 s5 /\
    lift (kmemcpy first_task_entry s_first_task (e_first_task - s_first_task)) s5 = Done tt s6 /\
    forall i, 0 <= i < e_first_task - s_first_task -> mget (k_mem s6) (frame_of ps i) = mget (k_mem s) (s_first_task + i).
Proof.
  intros [(He & Hal & Hend) [Hsz Hsz'] [Hlo Hhi] _] Hns Hsp Hlen Em Ea Ec Hok.
  assert (frames s4 = free_frames a) as Ef by (unfold frames; by rewrite Ea).
  pose proof (ns_frames _ _ _ _ _ Hns) as Efs.
  assert (forall x, MEMORY_TASK_BASE <= x < 2 ^ 32 -> mmu_walk dir (k_mem s4) x = None) as Hnone.
  { intros x Hx. rewrite Em, (new_space_walk s stack dir m a) by (done || apply Hsp || (unfold MEMORY_TASK_BASE in Hx; lia)).
    by rewrite (proj2 (Z.ltb_ge _ _)) by lia. }
  destruct (memory_alloc_for_page_dir_run s4 dir first_task_entry 40960 7 Hok) as (ps & s5 & E5 & Hl & Hnd & Hs5 & _ & Hw5);
    try (unfold MEMORY_TASK_BASE in *; lia); try done.
  { rewrite Em, Ef. apply Hns. }
  { change ((40960 + 4095) / 4096) with 10. lia. }
  { intros x Hx. apply Hnone. change ((40960 + 4095) / 4096) with 10 in Hx. lia. }
  { change ((40960 + 4095) / 4096) with 10. rewrite Ef. rewrite Efs in Hlen. simpl in Hlen. lia. }
  change ((40960 + 4095) / 4096) with 10 in Hl.
  assert (forall p, p ∈ ps -> p mod 4096 = 0 /\ MEM_EXT_START <= p) as Hps.
  { intros p Hp. destruct (ms_data _ _ _ _ Hs5 p Hp) as [Hin%free_frames_all _].
    split; [by apply (po_frames _ Hok) | by apply (frame_bounds _ _ (po_alloc _ Hok) Hin)]. }
  destruct (kmemcpy_user dir ps s4 s5 first_task_entry s_first_task (e_first_task - s_first_task) (frame_of ps) Hs5)
    as (m6 & E6 & Ho6 & Hb6); [|lia| by rewrite (ms_cr3 _ _ _ _ Hs5) |].
  { constructor.
    - unfold MEMORY_TASK_BASE in *. lia.
    - unfold MEM_EBDA_START, MEM_EXT_START in *. split_and!; [done | intros i Hi; apply kmapped_spec; lia |].
      intros i Hi Hin. destruct (Hps _ Hin) as [_ Hge]. unfold page_of in Hge. zdiv.
    - intros i Hi. rewrite Hw5 by (unfold MEMORY_TASK_BASE in *; lia).
      destruct (frame_of_spec first_task_entry ps (mmu_walk dir (k_mem s4)) i) as [-> Hin]; [lia|].
      split; [done|]. apply Hin. intros p Hp. by apply Hps.
    - intros i j Hi Hj. apply frame_of_inj; [done | intros p Hp; by apply Hps | lia | lia]. }
  destruct (write_pages dir ps s4 s5 m6 Hs5 Ho6) as [Hs6 Hw6].
  exists ps, s5, (set_k_mem m6 s5). split_and!; [done | | exact E5 | exact E6 |].
  - split_and!; [lia | done |]. intros x Hx. kproj. rewrite Hw6, Hw5, Em by done. done.
  - intros i Hi. kproj. rewrite Hb6 by done.
    apply (shared_low s stack dir m a Hns (sp_dir _ Hsp) ps s4 s5 Em Ef Hs5); [apply Hsp|]. unfold MEM_EBDA_START, MEM_EXT_START in *. lia.
Qed.

(** ** task_first_init *)

(** The first task runs in its own address space, alone in the ready queue. *)
Record first_ready (s s' : kst) : Prop := {
  fr_inv : sched_inv s' (SView first_task [first_task] []);
  fr_list : dlist (k_nodes s') (task_list (k_tm s')) (all_node <$> [idle_task; first_task]);
  fr_task : exists t stack, k_tasks s' = <[first_task := t]> (k_tasks s) /\ t_state t = TASK_READY /\ t_tss_sel t = 56 /\
    t_tss t = tss_start first_task_entry (first_task_entry + 40960) (u32 (stack + MEM_PAGE_SIZE)) 43 35 (k_cr3 s');
  fr_tr : k_tr s' = 56;
  fr_gdt : k_gdt s' = gdt_with (boot_used ++ [tss_segment first_task]);
  fr_kernel : spaces_ok s';
  fr_space : dir_wf (k_mem s') (frames s') (k_cr3 s');
  fr_program : exists ps, length ps = 10%nat /\ NoDup ps /\
    (forall x, 0 <= x < 2 ^ 32 -> mmu_walk (k_cr3 s') (k_mem s') x =
      map_frames first_task_entry ps (fun x => if kmapped x then Some x else None) x) /\
    forall i, 0 <= i < e_first_task - s_first_task -> mget (k_mem s') (frame_of ps i) = mget (k_mem s) (s_first_task + i);
  fr_same : k_mutex s' = k_mutex s /\ k_idt s' = k_idt s /\ k_idtr s' = k_idtr s /\ k_gdtr s' = k_gdtr s /\ k_if s' = k_if s
}.

Lemma sched_inv_run s s' v t :
  sched_inv s v -> k_nodes s' = k_nodes s -> k_tasks s' = k_tasks s -> k_gdt s' = k_gdt s ->
  k_tm s' = set_curr_task t (k_tm s) -> sched_inv s' (SView t (v_ready v) (v_sleep v)).
Proof.
  intros [Hc Hr Hs Hnd Hid Hl Ht Ha] En Ets Eg Etm.
  constructor; cbn [v_curr v_ready v_sleep]; rewrite ?Etm, ?En, ?Ets; try done.
  intros x Hx. destruct (Hl x Hx) as (Hp & H1 & H2 & H3 & y & Hy & Ho). unfold live, tss_owner in *.
  rewrite En, Ets, Eg. split_and!; try done. by exists y.
Qed.

Lemma memory_alloc_page_for_run s v size perm c t :
  curr_task (k_tm s) = c -> k_tasks s !! c = Some t ->
  memory_alloc_page_for v size perm s = memory_alloc_for_page_dir (tss_cr3 (t_tss t)) v size perm s.
Proof. intros Hc Ht. unfold memory_alloc_page_for, task_current. kred. rewrite Hc. by rewrite (get_task_run _ _ t Ht). Qed.

(** What is behind [task_init] in [task_first_init]. *)
Definition first_running (dir : Z) (s1 : kst) : kst :=
  set_k_cr3 dir (set_k_tm (set_curr_task first_task (k_tm s1)) (set_k_tr 56 s1)).

Lemma task_first_prefix s0 s :
  first_image -> cold_tasks s0 -> tasks_ready s0 s -> mutex_free s gdt_mutex -> (2 <= length (frames s))%nat ->
  exists stack dir m a t s1, first_made s (first_task_entry + 40960) stack dir m a t s1 /\
    task_first_init s =
      (_ ← memory_alloc_for_page_dir dir first_task_entry (10 * MEM_PAGE_SIZE) (Z.lor (Z.lor PTE_P PTE_W) PTE_U);
       lift (kmemcpy first_task_entry s_first_task (e_first_task - s_first_task));;
       task_start first_task) (first_running dir s1).
Proof.
  intros [(He & Hal & Hend) [Hsz Hsz'] _ _] Hct Htr Hf Hfr. unfold MEMORY_TASK_BASE in He.
  destruct (first_task_made s0 s (first_task_entry + 40960) Hct Htr Hf Hfr) as (stack & dir & m & a & t & s1 & E & Hfm).
  exists stack, dir, m, a, t, s1. split; [done|]. destruct (fm_task _ _ _ _ _ _ _ _ Hfm) as (Et & Esel & Etss).
  assert (k_tasks s1 !! first_task = Some t) as Ht by (rewrite Et; apply lookup_insert_eq).
  unfold task_first_init, ASSERT. change (10 * MEM_PAGE_SIZE) with 40960.
  rewrite u32_small by lia. rewrite (proj2 (Z.ltb_lt _ _)) by lia. cbn [negb].
  rewrite run_bind, run_ret. cbn [obind]. rewrite (u32_small (first_task_entry + 40960)) by lia.
  rewrite run_bind, E. cbn [obind]. rewrite run_bind, (get_task_run _ _ t Ht). cbn [obind].
  unfold write_tr, mmu_set_page_dir, write_cr3. rewrite Esel.
  do 3 (rewrite run_bind, ?run_modify_tm, ?run_modify; cbn [obind]).
  rewrite Etss. cbn [tss_cr3 tss_start]. fold (first_running dir s1).
  rewrite (run_bind (memory_alloc_page_for _ _ _)).
  rewrite (memory_alloc_page_for_run _ _ _ _ first_task t) by done. by rewrite Etss, run_bind.
Qed.

Lemma map_frames_ext v ps f g x : f x = g x -> map_frames v ps f x = map_frames v ps g x.
Proof. intros E. unfold map_frames. by case_decide. Qed.

Lemma all_node_run s v x t :
  sched_inv s v -> x ∈ dom (k_tasks s) -> t ∈ dom (k_tasks s) -> all_node x <> run_node t.
Proof.
  intros Hi Hx Ht. destruct (decide (x = t)) as [->|Hne].
  - unfold all_node, run_node, ALL_NODE_OFF, RUN_NODE_OFF. lia.
  - by apply (nodes_apart (k_tasks s)); [apply Hi | | | |  |].
Qed.

Lemma task_first_init_run s0 s :
  first_image -> cold_tasks s0 -> tasks_ready s0 s -> mutex_free s gdt_mutex -> (22 <= length (frames s))%nat ->
  exists s', task_first_init s = Done tt s' /\ first_ready s s'.
Proof.
  intros Him Hct Htr Hf Hfr.
  destruct (task_first_prefix s0 s Him Hct Htr Hf ltac:(lia)) as (stack & dir & m & a & t & s1 & Hfm & E). rewrite E. clear E.
  pose proof Hfm as [Hns [Em Ea] Hi Hl Hli (Ets & Esel & Etss) Hg (Ex & Eid & Eidr & Egr & Eif)].
  pose proof (tr_spaces _ _ Htr) as Hsp. set (s4 := first_running dir s1).
  assert (paging_ok s4) as Hok4.
  { destruct (ns_paging _ _ _ _ _ Hns) as [H1 H2 H3]. assert (k_alloc s4 = a) as Ea4 by done.
    constructor; rewrite ?Ea4; [by apply (mutex_free_same _ _ _ H1) | done | done]. }
  destruct (first_memory s stack dir m a s4 Him Hns Hsp Hfr Em Ea eq_refl Hok4)
    as (ps & s5 & s6 & Hs & (Hpl & Hpd & Hw) & E5 & E6 & Hb).
  rewrite run_bind, E5. cbn [obind]. rewrite run_bind, E6. cbn [obind].
  pose proof (ms_state _ _ _ _ Hs) as (m6 & a6 & Es6).
  assert (sched_inv s6 (SView first_task [] [])) as Hi6.
  { subst s6. by apply (sched_inv_run s1 _ (SView 0 [] [])). }
  assert (live s6 first_task) as Hl6 by (by subst s6).
  assert (k_tasks s6 !! first_task = Some t) as Ht6 by (subst s6; unfold s4, first_running; kproj; rewrite Ets; apply lookup_insert_eq).
  destruct (task_start_run s6 _ first_task t Hi6 Hl6) as (s7 & E7 & Hi7 & Hst7 & Et7); [|done|].
  { unfold queued. cbn. intros ?%list_elem_of_singleton. by apply first_not_idle. }
  exists s7. split; [done|].
  assert (k_mem s7 = k_mem s6 /\ frames s7 = frames s6 /\ k_cr3 s7 = dir /\ k_mutex s7 = k_mutex s) as (Em7 & Ef7 & Ec7 & Ex7).
  { destruct Hst7 as (? & ? & ? & -> & _). subst s6. done. }
  assert (frames s4 = free_frames a) as Ef4 by (unfold frames; change (k_alloc s4) with (k_alloc s1); by rewrite Ea).
  constructor; rewrite ?Em7, ?Ef7, ?Ec7, ?Ex7.
  - exact Hi7.
  - assert (task_list (k_tm s7) = task_list (k_tm s1)) as -> by (destruct Hst7 as (tm & ? & ? & -> & E & _); by subst s6).
    apply (sched_step_dlist s6 s7); [done | | by subst s6]. intros n x Hn Hx.
    assert (forall y, y ∈ [idle_task; first_task] -> y ∈ dom (k_tasks s6)) as Hd.
    { intros y [->| ->%list_elem_of_singleton]%elem_of_cons.
      - apply (queued_dom s6 _ idle_task Hi6). by left.
      - by apply elem_of_dom_2 in Ht6. }
    apply list_elem_of_fmap in Hn as (y & -> & Hy). by apply (all_node_run s6 _ y x Hi6); [apply Hd|].
  - exists (set_t_state TASK_READY t), stack. split_and!; [| done | done | done].
    rewrite Et7. subst s6. unfold s4, first_running. kproj. by rewrite Ets, insert_insert_eq.
  - destruct Hst7 as (? & ? & ? & -> & _). by subst s6.
  - destruct Hst7 as (? & ? & ? & -> & _). by subst s6.
  - constructor; rewrite ?Em7, ?Ef7.
    + destruct (ms_ok _ _ _ _ Hs) as [H1 H2 H3]. destruct Hst7 as (? & ? & ? & -> & _). by constructor.
    + by apply (kernel_dir_kept s stack dir m a Hns (sp_dir _ Hsp) ps s4 s6).
    + intros x Hx. rewrite (kernel_walk_kept s stack dir m a Hns (sp_dir _ Hsp) ps s4 s6); [by apply Hsp | done..| |done].
      intros y Hy. rewrite Hw by (unfold MEMORY_TASK_BASE in Hy; lia). unfold map_frames. rewrite decide_False; [done|].
      pose proof (fi_entry Him). lia.
  - apply Hs.
  - exists ps. split_and!; [done | done | | done]. intros x Hx. rewrite Hw by done. apply map_frames_ext.
    rewrite (new_space_walk s stack dir m a), (sp_walk _ Hsp) by (done || apply Hsp).
    destruct (Z.ltb_spec x MEMORY_TASK_BASE) as [|Hge]; [done|]. destruct (kmapped x) eqn:Ek; [|done].
    apply kmapped_spec in Ek. unfold MEMORY_TASK_BASE in Hge. lia.
  - destruct Hst7 as (? & ? & ? & -> & _). by subst s6.
Qed.

(** ** From the loader to the first task *)

(** With nothing in the ready queue [sys_sched_yield] does nothing. *)
Lemma yield_empty s : list_size (ready_list (k_tm s)) = 0 -> sys_sched_yield s = Done 0 s.
Proof. intros Hl. unfold sys_sched_yield. kred. rewrite Hl. kred. by destruct s. Qed.

Lemma move_to_first_task_run s t x :
  curr_task (k_tm s) = t -> t <> 0 -> k_tasks s !! t = Some x ->
  move_to_first_task s = Done (tss_ss (t_tss x), tss_esp (t_tss x), tss_eflags (t_tss x), tss_cs (t_tss x), tss_eip (t_tss x)) s.
Proof.
  intros Hc Ht Hx. unfold move_to_first_task, task_current, ASSERT. kred. rewrite Hc, (proj2 (Z.eqb_neq t 0)) by done.
  cbn [negb]. kred. rewrite (get_task_run _ _ x Hx). by kred.
Qed.

Lemma tasks_ready_logged s0 s s' : tasks_ready s0 s -> logged s s' -> tasks_ready s0 s'.
Proof.
  intros [[] H2 H3 H4 H5 H6 [H7 H7'] [[] ? ?] H9 H10 H11] (n & o & ->).
  by repeat (constructor; try done).
Qed.

Lemma init_main_run s0 s :
  com1_ready -> log_free s -> first_image -> cold_tasks s0 -> tasks_ready s0 s -> mutex_free s gdt_mutex ->
  (22 <= length (frames s))%nat ->
  exists s1 s', init_main s = Done (35, first_task_entry + 40960, 0x202, 43, first_task_entry) s' /\
    logged s s1 /\ first_ready s1 s'.
Proof.
  intros Hr Hf Him Hct Htr Hg Hfr. unfold init_main.
  log_step s1 Hl1. pose proof (logged_free _ _ Hl1 Hf) as Hf1. log_step s2 Hl2. pose proof (logged_free _ _ Hl2 Hf1) as Hf2.
  log_step s3 Hl3. pose proof (logged_trans _ _ _ Hl1 (logged_trans _ _ _ Hl2 Hl3)) as Hl.
  pose proof (tasks_ready_logged s0 s s3 Htr Hl) as Htr3.
  assert (mutex_free s3 gdt_mutex /\ frames s3 = frames s) as [Hg3 Ef3] by (by destruct Hl as (? & ? & ->)).
  pose proof (si_ready _ _ (tr_inv _ _ Htr3)) as (_ & _ & _ & El).
  rewrite run_bind, yield_empty by (by rewrite El). cbn [obind].
  destruct (task_first_init_run s0 s3 Him Hct Htr3 Hg3) as (s4 & E4 & Hfr4); [by rewrite Ef3|].
  rewrite run_bind, E4. cbn [obind]. destruct (fr_task _ _ Hfr4) as (t & stack & Et & _ & _ & Etss).
  exists s3, s4. split_and!; [|done|done].
  destruct (ct_embedded _ Hct first_task ltac:(right; by left)) as (Hpos & _).
  rewrite (move_to_first_task_run s4 first_task t); [| |lia|].
  - by rewrite Etss.
  - apply (fr_inv _ _ Hfr4).
  - rewrite Et. apply lookup_insert_eq.
Qed.

(** What the kernel's other parts find when the first task starts. *)
Record booted (s s' : kst) : Prop := {
  bt_sched : sched_inv s' (SView first_task [first_task] []);
  bt_list : dlist (k_nodes s') (task_list (k_tm s')) (all_node <$> [idle_task; first_task]);
  bt_task : exists t, k_tasks s' !! first_task = Some t /\ t_state t = TASK_READY /\ t_tss_sel t = k_tr s' /\
    tss_cr3 (t_tss t) = k_cr3 s' /\ tss_owner s' (k_tr s') = Some (first_task, t);
  bt_gdt : k_gdt s' = gdt_with (kernel_segments ++ user_segments ++ [tss_segment idle_task; tss_segment first_task]) /\
    k_gdtr s' = (gdt_table, 2047);
  bt_idt : k_idtr s' = (idt_table, 1023) /\
    forall i, (i < IDT_TABLE_NO)%nat -> k_idt s' !! i = Some (boot_gate (Z.of_nat i));
  bt_mutex : forall a, a ∈ [gdt_mutex; log_mutex; paddr_alloc; task_table_mutex] -> mutex_free s' a;
  bt_slot : alloc_task s' = Done (task_table_at 0) s';
  bt_kernel : spaces_ok s';
  bt_space : dir_wf (k_mem s') (frames s') (k_cr3 s');
  bt_program : exists ps, length ps = 10%nat /\ NoDup ps /\
    (forall x, 0 <= x < 2 ^ 32 -> mmu_walk (k_cr3 s') (k_mem s') x =
      map_frames first_task_entry ps (fun x => if kmapped x then Some x else None) x) /\
    forall i, 0 <= i < e_first_task - s_first_task -> exists pa,
      mmu_walk (k_cr3 s') (k_mem s') (first_task_entry + i) = Some pa /\ mget (k_mem s') pa = mget (k_mem s) (s_first_task + i)
}.

Lemma slot_zero s : mutex_free s task_table_mutex -> k_tasks s !! task_table_at 0 = Some zero_task ->
  alloc_task s = Done (task_table_at 0) s.
Proof.
  intros Hm Ht. apply alloc_task_run; [done|]. unfold TASK_NR. cbn [find_free_task].
  by rewrite run_bind, (get_task_run _ _ _ Ht).
Qed.

Lemma mutex_free_ext s s' a : mutex_free s a -> k_mutex s' !! a = k_mutex s !! a -> mutex_free s' a.
Proof. intros (x & Hx & Hn) E. exists x. by rewrite E. Qed.

(** The state at the end, seen from the start. *)
Lemma boot_chain s s1 s2 s3 s' :
  first_image -> cold_tasks s -> hardware_ready s s1 -> tasks_ready s1 s2 -> logged s2 s3 -> first_ready s3 s' -> booted s s'.
Proof.
  intros Him Hct Hh Ht Hl Hf. pose proof Hl as (rd & o & E3).
  destruct (fr_task _ _ Hf) as (t & stack & Ets & Hst & Hsel & Etss). destruct (fr_same _ _ Hf) as (Ex & Eid & Eidr & Egr & _).
  destruct (tr_same _ _ Ht) as (_ & Eid2 & Eidr2 & Egr2 & _). destruct (tr_mutex _ _ Ht) as [Htm Hom].
  destruct (ct_embedded _ Hct first_task ltac:(right; by left)) as (Hpos & Hend & Hnt & _).
  assert (k_tasks s' !! first_task = Some t) as Ht' by (rewrite Ets; apply lookup_insert_eq).
  assert (forall a, mutex_free s2 a -> mutex_free s' a) as Hmu.
  { intros a Ha. apply (mutex_free_same s3); [|done]. rewrite E3. by apply (mutex_free_same s2). }
  constructor.
  - apply Hf.
  - apply Hf.
  - exists t. rewrite (fr_tr _ _ Hf), Etss. split_and!; try done. unfold tss_owner. rewrite (fr_gdt _ _ Hf).
    change (gdt_with _ !! Z.to_nat (56 / 8)) with (Some (tss_segment first_task)). cbn [mbind option_bind].
    unfold tss_segment. rewrite segment_desc_base by (unfold TSS_OFF in *; lia).
    replace (first_task + TSS_OFF - TSS_OFF) with first_task by lia. by rewrite Ht'.
  - split; [apply (fr_gdt _ _ Hf)|]. rewrite Egr, E3. kproj. rewrite Egr2. apply (hr_gdt _ _ Hh).
  - rewrite Eidr, Eid, E3. kproj. rewrite Eidr2, Eid2. apply (hr_idt _ _ Hh).
  - intros a Ha. apply Hmu. destruct (decide (a = task_table_mutex)) as [->|Hne]; [done|].
    apply (mutex_free_ext s1); [|by apply Hom]. apply (hr_mutex _ _ Hh). rewrite !elem_of_cons in *. tauto.
  - apply slot_zero; [by apply Hmu|]. rewrite Ets, lookup_insert_ne by (intros E; by apply (Hnt 0 ltac:(unfold TASK_NR; lia))).
    rewrite E3. kproj. apply (tr_tasks _ _ Ht). unfold TASK_NR. lia.
  - apply Hf.
  - apply Hf.
  - destruct (fr_program _ _ Hf) as (ps & Hpl & Hpd & Hw & Hb). exists ps. split_and!; try done.
    intros i Hi. pose proof (fi_entry Him) as (He1 & _ & He3). pose proof (fi_size Him).
    destruct (frame_of_spec first_task_entry ps (fun x => if kmapped x then Some x else None) i) as [Ew _]; [lia|].
    exists (frame_of ps i). rewrite Hw, Ew, Hb by (done || (unfold MEMORY_TASK_BASE in He1; lia)). split; [done|].
    pose proof (fi_low Him) as [Hlo Hhi]. unfold MEM_EBDA_START in Hhi.
    rewrite E3. kproj. rewrite (tr_low _ _ Ht) by (unfold MEM_EXT_START; lia).
    apply (hr_low _ _ Hh); [unfold MEM_EXT_START; lia | apply (fi_dir Him); lia].
Qed.

(** [kernel_init] as a whole. *)
Lemma kernel_init_run bits bi s :
  com1_ready -> layout_ok -> cold_hw s -> cold_tasks s -> ram_ok bits bi ->
  exists s1 s2, kernel_init bits bi s = Done tt s2 /\ hardware_ready s s1 /\ tasks_ready s1 s2 /\
    forall a, a ∈ [gdt_mutex; log_mutex; paddr_alloc] -> mutex_free s2 a.
Proof.
  intros Hr Hlo Hch Hct Hram.
  destruct (kernel_init_prefix bits bi s Hr Hch Hlo Hram) as (s1 & E1 & Hh).
  destruct (hr_tasks _ _ Hh) as [Et _]. destruct (ch_mutex _ Hch) as [Hnd _].
  assert (cold_tasks s1) as Hct1 by (destruct Hct; by constructor; rewrite Et).
  assert (forall a, a ∈ [gdt_mutex; log_mutex; paddr_alloc] -> a <> task_table_mutex) as Hne.
  { intros a Ha ->. rewrite !NoDup_cons, !not_elem_of_cons in Hnd. rewrite !elem_of_cons in Ha. naive_solver. }
  destruct (task_manager_init_run s1 Hct1) as (s2 & E2 & Ht).
  { apply (hr_mutex _ _ Hh). by left. }
  { apply Hh. }
  { apply Hne. by left. }
  { apply Hne. right; right; by left. }
  { apply Hh. }
  { constructor; apply Hh. }
  { pose proof (hr_frames _ _ Hh). lia. }
  destruct (tr_mutex _ _ Ht) as [_ Hom]. exists s1, s2. split_and!; [by rewrite E1 | done | done |].
  intros a Ha. apply (mutex_free_ext s1); [by apply (hr_mutex _ _ Hh) | by apply Hom, Hne].
Qed.

(** [init_main] from there. *)
Lemma first_task_run s s1 s2 :
  com1_ready -> first_image -> cold_tasks s -> hardware_ready s s1 -> tasks_ready s1 s2 ->
  (forall a, a ∈ [gdt_mutex; log_mutex; paddr_alloc] -> mutex_free s2 a) ->
  exists s', init_main s2 = Done (35, first_task_entry + 40960, 0x202, 43, first_task_entry) s' /\ booted s s'.
Proof.
  intros Hr Him Hct Hh Ht Hm2. destruct (hr_tasks _ _ Hh) as [Et _].
  assert (cold_tasks s1) as Hct1 by (destruct Hct; by constructor; rewrite Et).
  pose proof (hr_frames _ _ Hh) as Hfr1. pose proof (tr_frames _ _ Ht) as Hfr2.
  destruct (init_main_run s1 s2 Hr) as (s3 & s' & E3 & Hl & Hf); try done; [apply Hm2; right; by left | apply Hm2; by left | lia |].
  exists s'. split; [done|]. by apply (boot_chain s s1 s2 s3).
Qed.

End FirstTask.
