(* ===== verification/Asm.v ===== *)
(** The processor's registers and the instructions of the kernel's assembly code
    (kernel/init/start_kernel.S, first_task_entry.S, applib/crt0.S, loader/start_loader.S,
    boot/start.S), one definition per instruction, in a monad that threads the registers
    through the computations of the kernel's machine.  A routine is the sequence of its
    instructions. *)
From S2P Require Import Prelude DList Bitmap Machine MachineFacts Klib Sched Ipc Cpu.

(** The registers; EFLAGS without IF, which the machine's state holds. *)
Record cpu_t := Cpu {
  r_eax : Z;
  r_ecx : Z;
  r_edx : Z;
  r_ebx : Z;
  r_esp : Z;
  r_ebp : Z;
  r_esi : Z;
  r_edi : Z;
  r_eip : Z;
  r_flags : Z;
  r_cs : Z;
  r_ss : Z;
  r_ds : Z;
  r_es : Z;
  r_fs : Z;
  r_gs : Z
}.

Definition set_r_eax (v : Z) (c : cpu_t) : cpu_t :=
  Cpu v (r_ecx c) (r_edx c) (r_ebx c) (r_esp c) (r_ebp c) (r_esi c) (r_edi c) (r_eip c) (r_flags c) (r_cs c) (r_ss c) (r_ds c) (r_es c) (r_fs c) (r_gs c).
Definition set_r_ecx (v : Z) (c : cpu_t) : cpu_t :=
  Cpu (r_eax c) v (r_edx c) (r_ebx c) (r_esp c) (r_ebp c) (r_esi c) (r_edi c) (r_eip c) (r_flags c) (r_cs c) (r_ss c) (r_ds c) (r_es c) (r_fs c) (r_gs c).
Definition set_r_edx (v : Z) (c : cpu_t) : cpu_t :=
  Cpu (r_eax c) (r_ecx c) v (r_ebx c) (r_esp c) (r_ebp c) (r_esi c) (r_edi c) (r_eip c) (r_flags c) (r_cs c) (r_ss c) (r_ds c) (r_es c) (r_fs c) (r_gs c).
Definition set_r_ebx (v : Z) (c : cpu_t) : cpu_t :=
  Cpu (r_eax c) (r_ecx c) (r_edx c) v (r_esp c) (r_ebp c) (r_esi c) (r_edi c) (r_eip c) (r_flags c) (r_cs c) (r_ss c) (r_ds c) (r_es c) (r_fs c) (r_gs c).
Definition set_r_esp (v : Z) (c : cpu_t) : cpu_t :=
  Cpu (r_eax c) (r_ecx c) (r_edx c) (r_ebx c) v (r_ebp c) (r_esi c) (r_edi c) (r_eip c) (r_flags c) (r_cs c) (r_ss c) (r_ds c) (r_es c) (r_fs c) (r_gs c).
Definition set_r_ebp (v : Z) (c : cpu_t) : cpu_t :=
  Cpu (r_eax c) (r_ecx c) (r_edx c) (r_ebx c) (r_esp c) v (r_esi c) (r_edi c) (r_eip c) (r_flags c) (r_cs c) (r_ss c) (r_ds c) (r_es c) (r_fs c) (r_gs c).
Definition set_r_esi (v : Z) (c : cpu_t) : cpu_t :=
  Cpu (r_eax c) (r_ecx c) (r_edx c) (r_ebx c) (r_esp c) (r_ebp c) v (r_edi c) (r_eip c) (r_flags c) (r_cs c) (r_ss c) (r_ds c) (r_es c) (r_fs c) (r_gs c).
Definition set_r_edi (v : Z) (c : cpu_t) : cpu_t :=
  Cpu (r_eax c) (r_ecx c) (r_edx c) (r_ebx c) (r_esp c) (r_ebp c) (r_esi c) v (r_eip c) (r_flags c) (r_cs c) (r_ss c) (r_ds c) (r_es c) (r_fs c) (r_gs c).
Definition set_r_eip (v : Z) (c : cpu_t) : cpu_t :=
  Cpu (r_eax c) (r_ecx c) (r_edx c) (r_ebx c) (r_esp c) (r_ebp c) (r_esi c) (r_edi c) v (r_flags c) (r_cs c) (r_ss c) (r_ds c) (r_es c) (r_fs c) (r_gs c).
Definition set_r_flags (v : Z) (c : cpu_t) : cpu_t :=
  Cpu (r_eax c) (r_ecx c) (r_edx c) (r_ebx c) (r_esp c) (r_ebp c) (r_esi c) (r_edi c) (r_eip c) v (r_cs c) (r_ss c) (r_ds c) (r_es c) (r_fs c) (r_gs c).
Definition set_r_cs (v : Z) (c : cpu_t) : cpu_t :=
  Cpu (r_eax c) (r_ecx c) (r_edx c) (r_ebx c) (r_esp c) (r_ebp c) (r_esi c) (r_edi c) (r_eip c) (r_flags c) v (r_ss c) (r_ds c) (r_es c) (r_fs c) (r_gs c).
Definition set_r_ss (v : Z) (c : cpu_t) : cpu_t :=
  Cpu (r_eax c) (r_ecx c) (r_edx c) (r_ebx c) (r_esp c) (r_ebp c) (r_esi c) (r_edi c) (r_eip c) (r_flags c) (r_cs c) v (r_ds c) (r_es c) (r_fs c) (r_gs c).
Definition set_r_ds (v : Z) (c : cpu_t) : cpu_t :=
  Cpu (r_eax c) (r_ecx c) (r_edx c) (r_ebx c) (r_esp c) (r_ebp c) (r_esi c) (r_edi c) (r_eip c) (r_flags c) (r_cs c) (r_ss c) v (r_es c) (r_fs c) (r_gs c).
Definition set_r_es (v : Z) (c : cpu_t) : cpu_t :=
  Cpu (r_eax c) (r_ecx c) (r_edx c) (r_ebx c) (r_esp c) (r_ebp c) (r_esi c) (r_edi c) (r_eip c) (r_flags c) (r_cs c) (r_ss c) (r_ds c) v (r_fs c) (r_gs c).
Definition set_r_fs (v : Z) (c : cpu_t) : cpu_t :=
  Cpu (r_eax c) (r_ecx c) (r_edx c) (r_ebx c) (r_esp c) (r_ebp c) (r_esi c) (r_edi c) (r_eip c) (r_flags c) (r_cs c) (r_ss c) (r_ds c) (r_es c) v (r_gs c).
Definition set_r_gs (v : Z) (c : cpu_t) : cpu_t :=
  Cpu (r_eax c) (r_ecx c) (r_edx c) (r_ebx c) (r_esp c) (r_ebp c) (r_esi c) (r_edi c) (r_eip c) (r_flags c) (r_cs c) (r_ss c) (r_ds c) (r_es c) (r_fs c) v.

(** Parts of a register: the low half, and its two bytes. *)
Definition set_low16 (v r : Z) : Z := r / 2 ^ 16 * 2 ^ 16 + u16 v.
Definition set_low8 (v r : Z) : Z := r / 2 ^ 8 * 2 ^ 8 + u8 v.
Definition set_high8 (v r : Z) : Z := r / 2 ^ 16 * 2 ^ 16 + u8 v * 2 ^ 8 + r mod 2 ^ 8.

Definition r_ax (c : cpu_t) : Z := u16 (r_eax c).
Definition set_r_ax (v : Z) (c : cpu_t) : cpu_t := set_r_eax (set_low16 v (r_eax c)) c.
Definition set_r_al (v : Z) (c : cpu_t) : cpu_t := set_r_eax (set_low8 v (r_eax c)) c.
Definition set_r_ah (v : Z) (c : cpu_t) : cpu_t := set_r_eax (set_high8 v (r_eax c)) c.
Definition set_r_bx (v : Z) (c : cpu_t) : cpu_t := set_r_ebx (set_low16 v (r_ebx c)) c.
Definition set_r_cx (v : Z) (c : cpu_t) : cpu_t := set_r_ecx (set_low16 v (r_ecx c)) c.
Definition set_r_dx (v : Z) (c : cpu_t) : cpu_t := set_r_edx (set_low16 v (r_edx c)) c.

(** Every register has its width, and the bit of IF is kept elsewhere. *)
Definition is_word (v : Z) : Prop := 0 <= v < 2 ^ 32.
Definition is_sel (v : Z) : Prop := 0 <= v < 2 ^ 16.

Record cpu_wf (c : cpu_t) : Prop := {
  cw_general : Forall is_word [r_eax c; r_ecx c; r_edx c; r_ebx c; r_esp c; r_ebp c; r_esi c; r_edi c; r_eip c; r_flags c];
  cw_segments : Forall is_sel [r_cs c; r_ss c; r_ds c; r_es c; r_fs c; r_gs c];
  cw_flags : Z.testbit (r_flags c) 9 = false
}.

(** * Outcomes, up to equal continuations *)
Inductive oeq {A} : outcome A -> outcome A -> Prop :=
  | oeq_done a s : oeq (Done a s) (Done a s)
  | oeq_susp s k k' : (forall s', oeq (k s') (k' s')) -> oeq (Susp s k) (Susp s k')
  | oeq_halted s : oeq (Halted s) (Halted s)
  | oeq_fault s : oeq (Fault s) (Fault s).
#[export] Hint Constructors oeq : core.

#[export] Instance outcome_equiv {A} : Equiv (outcome A) := oeq.

#[export] Instance oeq_equivalence {A} : Equivalence (≡@{outcome A}).
Proof.
  split.
  - intros o. induction o; constructor; done.
  - intros o o' E. induction E; constructor; done.
  - intros o o' o'' E. revert o''. induction E as [| s k k' Hk IH | |]; intros o'' E'; try done.
    inversion E' as [|? ? k'' Hk'| |]; subst. constructor. intros s1. apply IH, Hk'.
Qed.

#[export] Instance obind_proper {A B} :
  Proper (pointwise_relation A (pointwise_relation kst (≡)) ==> (≡) ==> (≡)) (@obind A B).
Proof. intros f g Hfg o o' E. induction E; cbn [obind]; try done; [apply Hfg | by constructor]. Qed.

Lemma obind_assoc {A B C} (f : A -> K B) (g : B -> K C) o :
  obind g (obind f o) ≡ obind (fun a s => obind g (f a s)) o.
Proof. induction o; cbn [obind]; try done. by constructor. Qed.

(** [o] comes to its end with [a], in some state, when every state it is resumed in is one
    that the other tasks left. *)
Inductive returns {A} : outcome A -> A -> kst -> Prop :=
  | returns_done a s : returns (Done a s) a s
  | returns_susp s k s1 a s2 : returns (k s1) a s2 -> returns (Susp s k) a s2.
#[export] Hint Constructors returns : core.

Lemma returns_bind {A B} (f : A -> K B) o a s b s' :
  returns o a s -> returns (f a s) b s' -> returns (obind f o) b s'.
Proof. induction 1; cbn [obind]; intros; [done|]. econstructor. by eauto. Qed.

#[export] Instance returns_proper {A} : Proper ((≡) ==> (=) ==> (=) ==> iff) (@returns A).
Proof.
  assert (forall (o o' : outcome A) a s, o ≡ o' -> returns o a s -> returns o' a s) as Himp.
  { intros o o' a s E Hr. revert o' E. induction Hr as [|s k s1 a s2 Hr IH]; intros o' E.
    - inversion E. constructor.
    - inversion E as [|? ? k' Hk| |]; subst. econstructor. apply IH, Hk. }
  intros o o' E a ? <- s ? <-. split; by apply Himp.
Qed.

Lemma halted_equiv {A} (o : outcome A) s : o ≡ Halted s <-> o = Halted s.
Proof. split; [by inversion 1 | by intros ->]. Qed.

(** * Computations that use the registers *)
Definition X (A : Type) : Type := cpu_t -> K (A * cpu_t).

#[export] Instance X_ret : MRet X := fun A a c => mret (a, c).
#[export] Instance X_bind : MBind X := fun A B f m c => m c ≫= fun x => f x.1 x.2.

(** A computation of the machine without registers. *)
Definition onx {A} (x : K A) : X A := fun c => x ≫= fun a => mret (a, c).
Definition xgets {A} (f : cpu_t -> A) : X A := fun c => mret (f c, c).
Definition xmodify (f : cpu_t -> cpu_t) : X unit := fun c => mret (tt, f c).

Lemma xrun_bind {A B} (m : X A) (f : A -> X B) c s : (m ≫= f) c s = obind (fun x => f x.1 x.2) (m c s).
Proof. reflexivity. Qed.

Lemma xrun_ret {A} (a : A) c s : (mret a : X A) c s = Done (a, c) s.
Proof. reflexivity. Qed.

Lemma xrun_onx {A} (x : K A) c s : onx x c s = obind (fun a => mret (a, c)) (x s).
Proof. reflexivity. Qed.

Lemma xrun_gets {A} (f : cpu_t -> A) c s : xgets f c s = Done (f c, c) s.
Proof. reflexivity. Qed.

Lemma xrun_modify f c s : xmodify f c s = Done (tt, f c) s.
Proof. reflexivity. Qed.

Create Rewrite HintDb xrun.
#[export] Hint Rewrite @xrun_bind @xrun_ret @xrun_onx @xrun_gets xrun_modify : xrun.

Ltac xred := repeat (progress (autorewrite with xrun krun; cbn [obind fst snd]; cbn beta iota zeta)).

(** Registers of an updated register file. *)
Ltac xproj := cbn [r_eax r_ecx r_edx r_ebx r_esp r_ebp r_esi r_edi r_eip r_flags r_cs r_ss r_ds r_es r_fs r_gs
  set_r_eax set_r_ecx set_r_edx set_r_ebx set_r_esp set_r_ebp set_r_esi set_r_edi set_r_eip set_r_flags set_r_cs set_r_ss set_r_ds set_r_es set_r_fs set_r_gs].

(** * Instructions *)

(** ** The stack *)
Definition pushl (v : Z) : X unit :=
  esp ← xgets r_esp;
  onx (lift (store32 (u32 (esp - 4)) v));;
  xmodify (set_r_esp (u32 (esp - 4))).

Definition popl : X Z :=
  esp ← xgets r_esp;
  v ← onx (lift (load32 esp));
  xmodify (set_r_esp (u32 (esp + 4)));;
  mret v.

Fixpoint push_list (ws : list Z) : X unit :=
  match ws with
  | [] => mret tt
  | w :: ws => pushl w;; push_list ws
  end.

Fixpoint pop_list (n : nat) : X (list Z) :=
  match n with
  | O => mret []
  | S n => w ← popl; ws ← pop_list n; mret (w :: ws)
  end.

Definition push_reg (r : cpu_t -> Z) : X unit := v ← xgets r; pushl v.

Definition pop_reg (set : Z -> cpu_t -> cpu_t) : X unit := v ← popl; xmodify (set v).

(** A segment register takes the low half of the word. *)
Definition pop_sreg (set : Z -> cpu_t -> cpu_t) : X unit := v ← popl; xmodify (set (u16 v)).

Definition add_esp (n : Z) : X unit := xmodify (fun c => set_r_esp (u32 (r_esp c + n)) c).

(** [pusha] pushes the ESP from before it, [popa] skips that word. *)
Definition pusha : X unit :=
  ws ← xgets (fun c => [r_eax c; r_ecx c; r_edx c; r_ebx c; r_esp c; r_ebp c; r_esi c; r_edi c]);
  push_list ws.

Definition popa : X unit :=
  ws ← pop_list 8;
  match ws with
  | [edi; esi; ebp; _; ebx; edx; ecx; eax] =>
      xmodify (fun c => set_r_edi edi (set_r_esi esi (set_r_ebp ebp (set_r_ebx ebx
        (set_r_edx edx (set_r_ecx ecx (set_r_eax eax c)))))))
  | _ => onx kfault
  end.

(** EFLAGS as a word, with IF in bit 9. *)
Definition eflags_word (intr : bool) (flags : Z) : Z :=
  if intr then Z.setbit flags 9 else Z.clearbit flags 9.

Definition load_eflags (v : Z) : X unit :=
  onx (write_eflags (Z.testbit v 9));; xmodify (set_r_flags (Z.clearbit v 9)).

Definition pushf : X unit :=
  intr ← onx read_eflags;
  flags ← xgets r_flags;
  pushl (eflags_word intr flags).

Definition popf : X unit := v ← popl; load_eflags v.

(** ** Calls and returns *)

(** The privilege level a selector asks for; that of CS is the current one. *)
Definition rpl (sel : Z) : Z := sel mod 4.

(** What the C compiler leaves in the registers a function may change, and the address
    behind the call. *)
Record c_call := CCall { cc_eax : Z; cc_ecx : Z; cc_edx : Z; cc_ret : Z }.

(** [call f], for a C function that finds its argument on the stack and keeps the other
    registers. *)
Definition ccall_return (cc : c_call) : X unit :=
  xmodify (fun c => set_r_edx (cc_edx cc) (set_r_ecx (cc_ecx cc) (set_r_eax (cc_eax cc) c)));;
  back ← popl;
  if back =? cc_ret cc then mret tt else onx kfault.

Definition ccall (cc : c_call) (f : Z -> K unit) : X unit :=
  pushl (cc_ret cc);;
  esp ← xgets r_esp;
  arg ← onx (lift (load32 (u32 (esp + 4))));
  onx (f arg);;
  ccall_return cc.

(** Returning to an outer level takes the stack from the stack, too. *)
Definition pop_stack : X unit :=
  ws ← pop_list 2;
  match ws with
  | [esp; ss] => xmodify (fun c => set_r_ss (u16 ss) (set_r_esp esp c))
  | _ => onx kfault
  end.

Definition iret : X unit :=
  cpl ← xgets (fun c => rpl (r_cs c));
  ws ← pop_list 3;
  match ws with
  | [eip; cs; eflags] =>
      xmodify (fun c => set_r_cs (u16 cs) (set_r_eip eip c));;
      load_eflags eflags;;
      if cpl <? rpl cs then pop_stack else mret tt
  | _ => onx kfault
  end.

(** [lret n]: [n] bytes of arguments are dropped, from both stacks when there are two. *)
Definition lret (n : Z) : X unit :=
  cpl ← xgets (fun c => rpl (r_cs c));
  ws ← pop_list 2;
  match ws with
  | [eip; cs] =>
      xmodify (fun c => set_r_cs (u16 cs) (set_r_eip eip c));;
      add_esp n;;
      if cpl <? rpl cs then pop_stack;; add_esp n else mret tt
  | _ => onx kfault
  end.

(** The stack of the kernel for a program that enters it: from the TSS of the task. *)
Definition ring0_stack : K (Z * Z) :=
  fun s => match tss_owner s (k_tr s) with
           | Some (_, t) => Done (tss_ss0 (t_tss t), tss_esp0 (t_tss t)) s
           | None => Fault s
           end.

Definition enter_ring0 : X unit :=
  '(ss0, esp0) ← onx ring0_stack;
  c ← xgets (fun c => c);
  xmodify (fun c => set_r_ss (u16 ss0) (set_r_esp esp0 c));;
  push_list [r_ss c; r_esp c].

(** An interrupt clears TF, NT, RF and VM, and, through an interrupt gate, IF. *)
Definition entered_flags (flags : Z) : Z := Z.land flags (Z.lnot (2 ^ 8 + 2 ^ 14 + 2 ^ 16 + 2 ^ 17)).

(** The processor takes an interrupt or exception: through the gate of its vector, with
    the error code it pushes, if any. *)
Definition interrupt (vector : Z) (err : option Z) : X unit :=
  idt ← onx (gets k_idt);
  g ← onx (kopt (idt !! Z.to_nat vector));
  c ← xgets (fun c => c);
  intr ← onx read_eflags;
  (if rpl (gd_selector g) <? rpl (r_cs c) then enter_ring0 else mret tt);;
  push_list ([eflags_word intr (r_flags c); r_cs c; r_eip c] ++ option_list err);;
  onx cli;;
  xmodify (fun c => set_r_cs (gd_selector g) (set_r_eip (gate_offset g) (set_r_flags (entered_flags (r_flags c)) c))).

(** The words of arguments a call gate copies from the caller's stack. *)
Fixpoint load_list (n : nat) (a : Z) : K (list Z) :=
  match n with
  | O => mret []
  | S n => w ← lift (load32 a); ws ← load_list n (a + 4); mret (w :: ws)
  end.

(** [lcall] of a call gate's selector, from the instruction before [next]. *)
Definition lcall (sel next : Z) : X unit :=
  gdt ← onx (gets k_gdt);
  d ← onx (kopt (gdt !! Z.to_nat (sel / 8)));
  let g := gate_of_segment d in
  c ← xgets (fun c => c);
  args ← onx (load_list (Z.to_nat (gd_attr g mod 2 ^ 5)) (r_esp c));
  (if rpl (gd_selector g) <? rpl (r_cs c) then enter_ring0;; push_list (reverse args) else mret tt);;
  push_list [r_cs c; next];;
  xmodify (fun c => set_r_cs (gd_selector g) (set_r_eip (gate_offset g) c)).

(** * Lemmas *)

(** Words in memory from [p] on, lowest first. *)
Fixpoint stack_words (m : gmap Z Z) (p : Z) (ws : list Z) : Prop :=
  match ws with
  | [] => True
  | w :: ws => ld32 m p = w /\ stack_words m (p + 4) ws
  end.

Fixpoint push_words (m : gmap Z Z) (top : Z) (ws : list Z) : gmap Z Z :=
  match ws with
  | [] => m
  | w :: ws => push_words (st32 m (top - 4) w) (top - 4) ws
  end.

(** A part of a stack of the kernel. *)
Definition stack_room (lo hi : Z) : Prop := forall a, lo <= a < hi -> kmapped a = true.

Definition bytes_of (ws : list Z) : Z := 4 * Z.of_nat (length ws).

Lemma bytes_of_nonneg ws : 0 <= bytes_of ws.
Proof. unfold bytes_of. lia. Qed.

Lemma bytes_of_cons w ws : bytes_of (w :: ws) = bytes_of ws + 4.
Proof. unfold bytes_of. cbn [length]. lia. Qed.

Lemma bytes_of_app ws ws' : bytes_of (ws ++ ws') = bytes_of ws + bytes_of ws'.
Proof. unfold bytes_of. rewrite length_app. lia. Qed.

Lemma bytes_of_nil : bytes_of [] = 0.
Proof. done. Qed.

Lemma bytes_of_reverse ws : bytes_of (reverse ws) = bytes_of ws.
Proof. unfold bytes_of. by rewrite length_reverse. Qed.

Create Rewrite HintDb bytes.
#[export] Hint Rewrite bytes_of_nil bytes_of_cons bytes_of_app bytes_of_reverse : bytes.

(** Sizes of lists of words. *)
Ltac bytes := autorewrite with bytes in *; cbn [option_list option_rect] in *; autorewrite with bytes in *; lia.

Lemma kmapped_range a : kmapped a = true -> 0 <= a < MEM_EXT_END.
Proof. intros Ha%kmapped_spec. unfold MEM_EBDA_START, MEM_EXT_START, MEM_EXT_END in *. lia. Qed.

Lemma push_words_app ws : forall m top ws',
  push_words m top (ws ++ ws') = push_words (push_words m top ws) (top - bytes_of ws) ws'.
Proof.
  induction ws as [|w ws IH]; intros m top ws'; cbn [push_words app].
  - f_equal. unfold bytes_of. cbn. lia.
  - rewrite IH, bytes_of_cons. f_equal. lia.
Qed.

(** Nothing changes outside the words that were pushed. *)
Lemma push_words_out ws : forall m top a,
  a < top - bytes_of ws \/ top <= a -> mget (push_words m top ws) a = mget m a.
Proof.
  induction ws as [|w ws IH]; intros m top a Ha; cbn [push_words]; [done|].
  rewrite bytes_of_cons in Ha. pose proof (bytes_of_nonneg ws). rewrite IH by lia. apply mget_st32_ne. lia.
Qed.

Lemma stack_words_ext ws : forall m m' p,
  (forall a, p <= a < p + bytes_of ws -> mget m' a = mget m a) -> stack_words m p ws -> stack_words m' p ws.
Proof.
  induction ws as [|w ws IH]; intros m m' p Hm; [done|]. cbn [stack_words]. rewrite bytes_of_cons in Hm.
  pose proof (bytes_of_nonneg ws). intros [Hw Hws]. split.
  - rewrite <- Hw. apply ld32_ext. intros. apply Hm. lia.
  - eapply IH; [|exact Hws]. intros. apply Hm. lia.
Qed.

Lemma stack_words_app ws : forall m p ws',
  stack_words m p (ws ++ ws') <-> stack_words m p ws /\ stack_words m (p + bytes_of ws) ws'.
Proof.
  induction ws as [|w ws IH]; intros m p ws'; cbn [stack_words app].
  - replace (p + bytes_of []) with p by (unfold bytes_of; cbn; lia). tauto.
  - rewrite IH, bytes_of_cons. replace (p + 4 + bytes_of ws) with (p + (bytes_of ws + 4)) by lia. tauto.
Qed.

(** What was pushed is on the stack, the last word lowest. *)
Lemma push_words_stack ws : forall m top,
  Forall is_word ws -> stack_words (push_words m top ws) (top - bytes_of ws) (reverse ws).
Proof.
  induction ws as [|w ws IH]; intros m top Hw; [done|]. apply Forall_cons in Hw as [Hw Hws].
  cbn [push_words]. rewrite reverse_cons, bytes_of_cons, stack_words_app. split.
  - replace (top - (bytes_of ws + 4)) with (top - 4 - bytes_of ws) by lia. by apply IH.
  - assert (bytes_of (reverse ws) = bytes_of ws) as -> by (unfold bytes_of; by rewrite length_reverse).
    replace (top - (bytes_of ws + 4) + bytes_of ws) with (top - 4) by lia. cbn [stack_words]. split; [|done].
    rewrite (ld32_ext (st32 m (top - 4) w)); [rewrite ld32_st32_eq; by apply u32_small|].
    intros a Ha. apply push_words_out. right. lia.
Qed.

(** ** Running the stack instructions *)
Lemma pushl_run c s v :
  kmapped (r_esp c - 4) = true ->
  pushl v c s = Done (tt, set_r_esp (r_esp c - 4) c) (set_k_mem (st32 (k_mem s) (r_esp c - 4) v) s).
Proof.
  intros Hm. pose proof (kmapped_range _ Hm) as Hr. unfold MEM_EXT_END in Hr. unfold pushl. xred. rewrite u32_small by lia.
  erewrite lift_done by (by apply store32_kernel). by xred.
Qed.

Lemma push_list_run ws : forall c s,
  stack_room (r_esp c - bytes_of ws) (r_esp c) ->
  push_list ws c s = Done (tt, set_r_esp (r_esp c - bytes_of ws) c) (set_k_mem (push_words (k_mem s) (r_esp c) ws) s).
Proof.
  induction ws as [|w ws IH]; intros c s Hr; cbn [push_list push_words].
  - replace (r_esp c - bytes_of []) with (r_esp c) by (unfold bytes_of; cbn; lia). xred. by destruct c, s.
  - rewrite bytes_of_cons in *. pose proof (bytes_of_nonneg ws). xred. rewrite pushl_run by (apply Hr; lia). xred.
    rewrite IH; cbn [r_esp set_r_esp]; [|intros a Ha; apply Hr; lia].
    replace (r_esp c - 4 - bytes_of ws) with (r_esp c - (bytes_of ws + 4)) by lia. done.
Qed.

(** Registers and memory after words were pushed, the first one first. *)
Definition pushed_cpu (c : cpu_t) (ws : list Z) : cpu_t := set_r_esp (r_esp c - bytes_of ws) c.
Definition pushed_mem (c : cpu_t) (s : kst) (ws : list Z) : kst := set_k_mem (push_words (k_mem s) (r_esp c) ws) s.

Lemma pushed_nil {A} (o : cpu_t -> kst -> outcome A) c s : o c s = o (pushed_cpu c []) (pushed_mem c s []).
Proof. unfold pushed_cpu, pushed_mem. rewrite bytes_of_nil, Z.sub_0_r. cbn [push_words]. by destruct c, s. Qed.

Lemma push_list_step ws ws' c s :
  stack_room (r_esp c - bytes_of (ws ++ ws')) (r_esp c) ->
  push_list ws' (pushed_cpu c ws) (pushed_mem c s ws) = Done (tt, pushed_cpu c (ws ++ ws')) (pushed_mem c s (ws ++ ws')).
Proof.
  intros Hr. pose proof (bytes_of_nonneg ws). rewrite bytes_of_app in Hr. rewrite push_list_run.
  - unfold pushed_cpu, pushed_mem. xproj. kproj. rewrite push_words_app, bytes_of_app.
    by replace (r_esp c - (bytes_of ws + bytes_of ws')) with (r_esp c - bytes_of ws - bytes_of ws') by lia.
  - unfold pushed_cpu. xproj. intros a Ha. apply Hr. lia.
Qed.

Lemma pushl_step ws v c s :
  stack_room (r_esp c - bytes_of (ws ++ [v])) (r_esp c) ->
  pushl v (pushed_cpu c ws) (pushed_mem c s ws) = Done (tt, pushed_cpu c (ws ++ [v])) (pushed_mem c s (ws ++ [v])).
Proof.
  intros Hr. rewrite <- push_list_step by done. rewrite bytes_of_app in Hr. change (bytes_of [v]) with 4 in Hr.
  cbn [push_list]. xred. rewrite pushl_run; [done|]. unfold pushed_cpu. xproj. apply Hr. pose proof (bytes_of_nonneg ws). lia.
Qed.

Lemma push_reg_step r ws c s :
  let v := r (pushed_cpu c ws) in
  stack_room (r_esp c - bytes_of (ws ++ [v])) (r_esp c) ->
  push_reg r (pushed_cpu c ws) (pushed_mem c s ws) = Done (tt, pushed_cpu c (ws ++ [v])) (pushed_mem c s (ws ++ [v])).
Proof. intros v Hr. unfold push_reg. xred. by apply pushl_step. Qed.

Lemma pusha_step ws c s :
  let vs := [r_eax c; r_ecx c; r_edx c; r_ebx c; r_esp c - bytes_of ws; r_ebp c; r_esi c; r_edi c] in
  stack_room (r_esp c - bytes_of (ws ++ vs)) (r_esp c) ->
  pusha (pushed_cpu c ws) (pushed_mem c s ws) = Done (tt, pushed_cpu c (ws ++ vs)) (pushed_mem c s (ws ++ vs)).
Proof. intros vs Hr. unfold pusha. xred. by apply push_list_step. Qed.

Lemma popl_run c s w :
  kmapped (r_esp c) = true -> ld32 (k_mem s) (r_esp c) = w -> popl c s = Done (w, set_r_esp (r_esp c + 4) c) s.
Proof.
  intros Hm <-. pose proof (kmapped_range _ Hm) as Hr. unfold MEM_EXT_END in Hr. unfold popl. xred.
  erewrite lift_done by (by apply load32_kernel). xred. rewrite set_k_mem_id, u32_small by lia. done.
Qed.

Lemma pop_list_run ws : forall c s,
  stack_room (r_esp c) (r_esp c + bytes_of ws) -> stack_words (k_mem s) (r_esp c) ws ->
  pop_list (length ws) c s = Done (ws, set_r_esp (r_esp c + bytes_of ws) c) s.
Proof.
  induction ws as [|w ws IH]; intros c s Hr Hw; cbn [pop_list length].
  - replace (r_esp c + bytes_of []) with (r_esp c) by (unfold bytes_of; cbn; lia). xred. by destruct c.
  - destruct Hw as [Hw Hws]. rewrite bytes_of_cons in *. pose proof (bytes_of_nonneg ws). xred.
    rewrite (popl_run c s w) by (try apply Hr; done || lia). xred.
    rewrite IH; cbn [r_esp set_r_esp]; [| intros a Ha; apply Hr; lia | done].
    xred. by replace (r_esp c + 4 + bytes_of ws) with (r_esp c + (bytes_of ws + 4)) by lia.
Qed.

Lemma add_esp_run n c s : 0 <= r_esp c + n < 2 ^ 32 -> add_esp n c s = Done (tt, set_r_esp (r_esp c + n) c) s.
Proof. intros Hn. unfold add_esp. xred. by rewrite u32_small. Qed.

(** A pop of the first of the words [Hw], in the part [Hr] of the stack. *)
Ltac pop_step Hw Hr :=
  xred; erewrite popl_run; [destruct Hw as [_ Hw]; fold stack_words in Hw | xproj; apply Hr; lia | xproj; kproj; exact (proj1 Hw)];
  xred; xproj.

(** EFLAGS come back from a word as they went. *)
Lemma eflags_word_if intr flags : Z.testbit (eflags_word intr flags) 9 = intr.
Proof. unfold eflags_word. destruct intr; [by rewrite Z.setbit_eq | by rewrite Z.clearbit_eq]. Qed.

Lemma eflags_word_flags intr flags : Z.testbit flags 9 = false -> Z.clearbit (eflags_word intr flags) 9 = flags.
Proof.
  intros Hf. apply Z.bits_inj'. intros n Hn. unfold eflags_word.
  destruct (decide (n = 9)) as [->|Hne]; [by rewrite Z.clearbit_eq|]. rewrite Z.clearbit_neq by done.
  destruct intr; [by rewrite Z.setbit_neq by lia | by rewrite Z.clearbit_neq].
Qed.

(** ** Running what pops several words *)
Lemma popa_run c s edi esi ebp x ebx edx ecx eax :
  stack_words (k_mem s) (r_esp c) [edi; esi; ebp; x; ebx; edx; ecx; eax] -> stack_room (r_esp c) (r_esp c + 32) ->
  popa c s = Done (tt, Cpu eax ecx edx ebx (r_esp c + 32) ebp esi edi (r_eip c) (r_flags c) (r_cs c) (r_ss c)
    (r_ds c) (r_es c) (r_fs c) (r_gs c)) s.
Proof.
  intros Hw Hr. unfold popa. xred. rewrite (pop_list_run [edi; esi; ebp; x; ebx; edx; ecx; eax]) by done.
  xred. by change (bytes_of _) with 32.
Qed.

Lemma pop_stack_run c s esp ss :
  stack_words (k_mem s) (r_esp c) [esp; ss] -> stack_room (r_esp c) (r_esp c + 8) ->
  pop_stack c s = Done (tt, set_r_ss (u16 ss) (set_r_esp esp c)) s.
Proof.
  intros Hw Hr. unfold pop_stack. xred. by rewrite (pop_list_run [esp; ss]) by done.
Qed.

Definition leaves (c : cpu_t) (cs : Z) : bool := rpl (r_cs c) <? rpl cs.

(** The registers after a return to [eip] in [cs]; [esp] and [ss] are those of an outer level. *)
Definition returned (c : cpu_t) (eip cs esp ss esp' : Z) : cpu_t :=
  if leaves c cs then set_r_ss (u16 ss) (set_r_esp esp (set_r_cs (u16 cs) (set_r_eip eip c)))
  else set_r_esp esp' (set_r_cs (u16 cs) (set_r_eip eip c)).

Lemma iret_run c s eip cs eflags esp ss :
  let ws := [eip; cs; eflags] ++ if leaves c cs then [esp; ss] else [] in
  stack_words (k_mem s) (r_esp c) ws -> stack_room (r_esp c) (r_esp c + bytes_of ws) ->
  iret c s = Done (tt, set_r_flags (Z.clearbit eflags 9) (returned c eip cs esp ss (r_esp c + 12)))
    (set_k_if (Z.testbit eflags 9) s).
Proof.
  intros ws [Hw1 Hw2]%stack_words_app Hr. subst ws. change (bytes_of [eip; cs; eflags]) with 12 in *. unfold iret. xred.
  rewrite bytes_of_app in Hr. change (bytes_of [eip; cs; eflags]) with 12 in Hr.
  rewrite (pop_list_run [eip; cs; eflags]).
  2: { intros a Ha. apply Hr. revert Ha. change (bytes_of [eip; cs; eflags]) with 12.
    pose proof (bytes_of_nonneg (if leaves c cs then [esp; ss] else [])). lia. }
  2: done.
  xred. unfold load_eflags, write_eflags. xred. change (bytes_of _) with 12. unfold returned, leaves in *.
  destruct (rpl (r_cs c) <? rpl cs); [|by destruct c].
  rewrite (pop_stack_run _ _ esp ss); [by destruct c | done |]. xproj. intros a Ha. apply Hr. change (bytes_of [esp; ss]) with 8. lia.
Qed.

(** [lret n] returns the same way, and drops [n] bytes. *)
Lemma lret_run n c s eip cs esp ss args :
  let ws := [eip; cs] ++ args ++ if leaves c cs then [esp; ss] else [] in
  bytes_of args = n -> stack_words (k_mem s) (r_esp c) ws -> stack_room (r_esp c) (r_esp c + bytes_of ws) -> 0 <= esp + n < 2 ^ 32 ->
  lret n c s = Done (tt, returned c eip cs (esp + n) ss (r_esp c + 8 + n)) s.
Proof.
  intros ws Hn [Hw1 [_ Hw2]%stack_words_app]%stack_words_app Hr He. subst ws. change (bytes_of [eip; cs]) with 8 in Hw2.
  rewrite !bytes_of_app, Hn in Hr. change (bytes_of [eip; cs]) with 8 in Hr. rewrite Hn in Hw2.
  pose proof (bytes_of_nonneg args) as Hnn. pose proof (bytes_of_nonneg (if leaves c cs then [esp; ss] else [])) as Ho.
  pose proof (kmapped_range _ (Hr (r_esp c + 7 + n) ltac:(lia))) as Hhi. pose proof (kmapped_range _ (Hr (r_esp c) ltac:(lia))) as Hlo.
  unfold MEM_EXT_END in *. unfold lret. xred.
  rewrite (pop_list_run [eip; cs]) by (done || (intros a Ha; apply Hr; revert Ha; change (bytes_of [eip; cs]) with 8; lia)).
  xred. change (bytes_of _) with 8. rewrite add_esp_run by (xproj; lia). xred. unfold returned, leaves in *. xproj.
  destruct (rpl (r_cs c) <? rpl cs); [|by destruct c].
  xred. rewrite (pop_stack_run _ _ esp ss); [| done | intros a Ha; apply Hr; revert Ha; xproj; change (bytes_of [esp; ss]) with 8; lia].
  xred. rewrite add_esp_run by (xproj; lia). by destruct c.
Qed.

(** ** Widths *)

(** A word or selector. *)
Lemma is_word_sel v : is_sel v -> is_word v.
Proof. unfold is_sel, is_word. lia. Qed.

(** Setting or clearing a bit stays within the width. *)
Lemma eflags_word_word intr v : is_word v -> is_word (eflags_word intr v).
Proof.
  intros [Hv0 Hv]. unfold eflags_word.
  assert (forall x, 0 <= x -> (forall k, 32 <= k -> Z.testbit x k = false) -> is_word x) as Hw.
  { intros x Hx Hb. assert (x = x mod 2 ^ 32) as ->; [|apply Z.mod_pos_bound; lia].
    apply Z.bits_inj'. intros k Hk. destruct (decide (k < 32)); [by rewrite Z.mod_pow2_bits_low by lia|].
    rewrite Z.mod_pow2_bits_high by lia. apply Hb. lia. }
  assert (forall k, 32 <= k -> Z.testbit v k = false) as Hbits.
  { intros k Hk. rewrite <- (Z.mod_small v (2 ^ 32)) by lia. by apply Z.mod_pow2_bits_high; lia. }
  destruct intr.
  - apply Hw; [rewrite Z.setbit_spec'; by apply Z.lor_nonneg; split|]. intros k Hk. rewrite Z.setbit_neq by lia. by apply Hbits.
  - apply Hw; [rewrite Z.clearbit_spec'; by apply Z.ldiff_nonneg; left|]. intros k Hk. rewrite Z.clearbit_neq by lia. by apply Hbits.
Qed.

(** The widths of a register file, and of a list of words. *)
Ltac words :=
  cbn [app option_list option_rect]; repeat first [apply Forall_nil_2 | apply Forall_cons_2]; auto using is_word_sel, eflags_word_word; try done.

Ltac registers H :=
  let Hg := fresh in let Hs := fresh in let Hf := fresh in
  destruct H as [Hg Hs Hf]; repeat (apply Forall_cons in Hg as [? Hg]); repeat (apply Forall_cons in Hs as [? Hs]).
