(* ===== verification/Entry.v ===== *)
(** The entry points of kernel/init/start_kernel.S: the stubs of the exception handlers, of
    the timer interrupt and of the system call, with the code at their addresses and the
    way the processor reaches them. *)
From S2P Require Import Prelude DList Bitmap Machine MachineFacts Klib Format Sched Ipc Log Cpu Alloc Paging Irq Timer.
From S2P Require Import Fs Task TaskLife Exec Syscall Asm.

Section Entry.
Context `{Layout} `{Device}.
Variable cc : c_call.

(** ** The stubs *)

(** The macro [exception_handler name num with_err_code]: its end, its start and the call of
    the C function between them. *)
Definition exception_exit : X unit :=
  add_esp (1 * 4);;
  pop_sreg set_r_gs;;
  pop_sreg set_r_fs;;
  pop_sreg set_r_es;;
  pop_sreg set_r_ds;;
  popa;;
  add_esp (2 * 4);;
  iret.

Definition exception_enter (num : Z) (with_err_code : bool) : X unit :=
  (if with_err_code then mret tt else pushl 0);;
  pushl (u32 num);;
  pusha;;
  push_reg r_ds;;
  push_reg r_es;;
  push_reg r_fs;;
  push_reg r_gs;;
  push_reg r_esp.

Definition exception_stub (num : Z) (with_err_code : bool) (do_handler : Z -> K unit) : X unit :=
  exception_enter num with_err_code;;
  ccall cc do_handler;;
  exception_exit.

(** The handlers get a pointer to what the stub pushed. *)
Definition read_exception_frame (p : Z) : K exception_frame_t :=
  ws ← load_list 19 p;
  match ws with
  | [gs; fs; es; ds; edi; esi; ebp; esp; ebx; edx; ecx; eax; num; error_code; eip; cs; eflags; esp3; ss3] =>
      mret (ExceptionFrame gs fs es ds edi esi ebp esp ebx edx ecx eax num error_code eip cs eflags esp3 ss3)
  | _ => kfault
  end.

Definition with_frame (do_handler : exception_frame_t -> K unit) (p : Z) : K unit :=
  frame ← read_exception_frame p; do_handler frame.

(** The uses of the macro for exceptions, [num], [with_err_code] and the handler. *)
Definition exception_stubs : list (Z * bool * (exception_frame_t -> K unit)) :=
  [ (0, false, do_handler_divide_error);
    (1, false, do_handler_debug_exception);
    (2, false, do_handler_nmi_interrupt);
    (3, false, do_handler_breakpoint);
    (4, false, do_handler_overflow);
    (5, false, do_handler_bound_range_exceed);
    (6, false, do_handler_invalid_opcode);
    (7, false, do_handler_device_not_found);
    (8, true, do_handler_double_fault);
    (10, true, do_handler_invalid_tss);
    (11, true, do_handler_segment_not_present);
    (12, false, do_handler_stack_segment_fault);
    (13, true, do_handler_general_protection);
    (14, true, do_handler_page_fault);
    (16, false, do_handler_floating_point_error);
    (17, true, do_handler_aligment_check);
    (18, false, do_handler_machine_check);
    (19, false, do_handler_simd_floating_point_exception);
    (20, false, do_handler_virtualization_exception);
    (21, true, do_handler_control_protection_exception) ].

Definition exception_handler_unknown_stub : X unit := exception_stub (-1) false (with_frame do_handler_unknown).

(** The timer's handler does not look at the frame. *)
Definition exception_handler_timer_stub : X unit := exception_stub 0x20 false (fun _ => do_handler_timer).

(** The end of [exception_handler_syscall]. *)
Definition syscall_exit : X unit :=
  add_esp 4;;
  popf;;
  pop_sreg set_r_gs;;
  pop_sreg set_r_fs;;
  pop_sreg set_r_es;;
  pop_sreg set_r_ds;;
  popa;;
  lret (5 * 4).

(** [exception_handler_syscall]: the data segments of the kernel are loaded after the
    caller's are saved, and the registers come back from the frame. *)
Definition syscall_enter : X unit :=
  pusha;;
  push_reg r_ds;;
  push_reg r_es;;
  push_reg r_fs;;
  push_reg r_gs;;
  pushf;;
  xmodify (set_r_eax KERNEL_SELECTOR_DS);;
  eax ← xgets r_eax;
  xmodify (fun c => set_r_gs (u16 eax) (set_r_fs (u16 eax) (set_r_es (u16 eax) (set_r_ds (u16 eax) c))));;
  esp ← xgets r_esp;
  xmodify (set_r_eax esp);;
  push_reg r_eax.

Definition exception_handler_syscall_stub : X unit :=
  syscall_enter;;
  ccall cc do_handler_syscall;;
  syscall_exit.

(** ** The code at the addresses the linker gave the stubs *)
Definition stub_at (a : Z) (st : Z * bool * (exception_frame_t -> K unit)) : bool := exception_handler st.1.1 =? a.

Definition kernel_code (a : Z) : X unit :=
  if a =? exception_handler_syscall then exception_handler_syscall_stub
  else if a =? exception_handler_timer then exception_handler_timer_stub
  else if a =? exception_handler_unknown then exception_handler_unknown_stub
  else match filter (stub_at a) exception_stubs with
       | (num, with_err_code, do_handler) :: _ => exception_stub num with_err_code (with_frame do_handler)
       | [] => onx kfault
       end.

Definition run_from_eip : X unit := eip ← xgets r_eip; kernel_code eip.

(** An interrupt or exception, until the interrupted program goes on. *)
Definition take_interrupt (vector : Z) (err : option Z) : X unit := interrupt vector err;; run_from_eip.

(** A system call, from its [lcall] on. *)
Definition call_kernel (next : Z) : X unit := lcall SELECTOR_SYSCALL next;; run_from_eip.

(** * Lemmas *)

(** What an inner level finds on its stack of the program it was entered from. *)
Definition caller_stack (c : cpu_t) : list Z := if 0 <? rpl (r_cs c) then [r_esp c; r_ss c] else [].

(** The stack the kernel is entered on: that of the task's TSS, or the current one. *)
Record kernel_stack (s : kst) (c : cpu_t) (top ss : Z) : Prop := {
  ks_top : if 0 <? rpl (r_cs c) then ring0_stack s = Done (ss, top) s /\ is_sel ss else top = r_esp c /\ ss = r_ss c;
  ks_room : stack_room (top - 96) top
}.

Lemma caller_stack_bytes c : 0 <= bytes_of (caller_stack c) <= 8.
Proof. unfold caller_stack. destruct (0 <? rpl (r_cs c)); bytes. Qed.

Lemma room_within lo hi lo' hi' : stack_room lo hi -> lo <= lo' -> hi' <= hi -> stack_room lo' hi'.
Proof. intros Hr ? ? a Ha. apply Hr. lia. Qed.

(** The stack is entered. *)
Lemma enter_run c s top ss :
  kernel_stack s c top ss -> (if rpl KERNEL_SELECTOR_CS <? rpl (r_cs c) then enter_ring0 else mret tt) c s =
  Done (tt, set_r_esp (top - bytes_of (caller_stack c)) (set_r_ss ss c))
    (set_k_mem (push_words (k_mem s) top (reverse (caller_stack c))) s).
Proof.
  intros [Ht Hr]. change (rpl KERNEL_SELECTOR_CS) with 0. unfold caller_stack. destruct (0 <? rpl (r_cs c)).
  - destruct Ht as [Hs Hsel]. unfold enter_ring0. xred. rewrite Hs. xred.
    rewrite push_list_run; [|apply (room_within _ _ _ _ Hr); cbn [r_esp set_r_esp set_r_ss]; bytes].
    cbn [r_esp set_r_esp set_r_ss].
    unfold is_sel in Hsel. unfold u16. rewrite Z.mod_small by lia. done.
  - destruct Ht as [-> ->]. replace (r_esp c - bytes_of []) with (r_esp c) by (unfold bytes_of; cbn; lia).
    xred. by destruct c, s.
Qed.

(** The words of an interrupt and of the stub, in the order of [exception_frame_t]. *)
Definition interrupt_words (c : cpu_t) (intr : bool) (err : option Z) : list Z :=
  option_list err ++ [r_eip c; r_cs c; eflags_word intr (r_flags c)] ++ caller_stack c.

Definition saved_words (c : cpu_t) (esp : Z) : list Z :=
  [r_gs c; r_fs c; r_es c; r_ds c; r_edi c; r_esi c; r_ebp c; esp; r_ebx c; r_edx c; r_ecx c; r_eax c].

Lemma interrupt_words_bytes c intr err : 0 <= bytes_of (interrupt_words c intr err) <= 24.
Proof.
  unfold interrupt_words. rewrite !bytes_of_app. pose proof (caller_stack_bytes c). destruct err; bytes.
Qed.

(** The registers at the first instruction of a handler. *)
Definition entered (g : gate_desc_t) (esp ss : Z) (c : cpu_t) : cpu_t :=
  set_r_cs (gd_selector g) (set_r_eip (gate_offset g) (set_r_flags (entered_flags (r_flags c)) (set_r_esp esp (set_r_ss ss c)))).

Lemma interrupt_run c s vector err g top ss :
  k_idt s !! Z.to_nat vector = Some g -> gd_selector g = KERNEL_SELECTOR_CS -> kernel_stack s c top ss ->
  let ws := interrupt_words c (k_if s) err in
  interrupt vector err c s = Done (tt, entered g (top - bytes_of ws) ss c)
    (set_k_if false (set_k_mem (push_words (k_mem s) top (reverse ws)) s)).
Proof.
  intros Hg Hsel Hks ws. unfold interrupt, read_eflags, cli. xred. rewrite Hg. xred. rewrite Hsel, (enter_run c s top ss Hks). xred.
  pose proof (interrupt_words_bytes c (k_if s) err) as Hb. fold ws in Hb.
  assert (bytes_of ws = bytes_of (caller_stack c) + bytes_of ([eflags_word (k_if s) (r_flags c); r_cs c; r_eip c] ++ option_list err)) as Eb.
  { unfold ws, interrupt_words. bytes. }
  pose proof (caller_stack_bytes c) as Hc.
  rewrite push_list_run.
  2: { cbn [r_esp set_r_esp set_r_ss]. apply (room_within _ _ _ _ (ks_room _ _ _ _ Hks)); lia. }
  xred. cbn [r_esp set_r_esp set_r_ss]. unfold entered. rewrite Hsel.
  replace (top - bytes_of (caller_stack c) - bytes_of ([eflags_word (k_if s) (r_flags c); r_cs c; r_eip c] ++ option_list err))
    with (top - bytes_of ws) by lia.
  assert (reverse ws = reverse (caller_stack c) ++ [eflags_word (k_if s) (r_flags c); r_cs c; r_eip c] ++ option_list err) as ->.
  { unfold ws, interrupt_words. rewrite !reverse_app. destruct err; cbn [option_list option_rect]; by rewrite <- !app_assoc. }
  by rewrite (push_words_app (reverse (caller_stack c))), bytes_of_reverse.
Qed.

(** A call of a C function with the word on the stack. *)
Lemma ccall_run f c s arg :
  kmapped (r_esp c) = true -> kmapped (r_esp c - 4) = true -> ld32 (k_mem s) (r_esp c) = arg ->
  ccall cc f c s ≡ obind (fun _ => ccall_return cc (set_r_esp (r_esp c - 4) c))
    (f arg (set_k_mem (st32 (k_mem s) (r_esp c - 4) (cc_ret cc)) s)).
Proof.
  intros Hm Hm4 Harg. pose proof (kmapped_range _ Hm) as Hr. unfold MEM_EXT_END in Hr. unfold ccall.
  xred. rewrite pushl_run by done. xred. cbn [r_esp set_r_esp]. replace (r_esp c - 4 + 4) with (r_esp c) by lia.
  rewrite u32_small by lia. erewrite lift_done by (by apply load32_kernel). xred. kproj.
  rewrite ld32_st32_ne by lia. rewrite Harg. replace (set_k_mem _ (set_k_mem _ _)) with (set_k_mem (st32 (k_mem s) (r_esp c - 4) (cc_ret cc)) s) by (by destruct s).
  rewrite obind_assoc. reflexivity.
Qed.

(** A sequence of pushes, on a stack with the room [Hr]. *)
Ltac push_step Hr :=
  xred; first [rewrite pushl_step by (apply (room_within _ _ _ _ Hr); bytes)
              | rewrite pusha_step by (apply (room_within _ _ _ _ Hr); bytes)
              | rewrite push_reg_step by (apply (room_within _ _ _ _ Hr); bytes)].

Definition stub_words (c : cpu_t) (num : Z) (with_err_code : bool) (esp : Z) : list Z :=
  saved_words c esp ++ [num] ++ if with_err_code then [] else [0].

(** The stub up to the call of the handler, whose frame is at [p]. *)
Lemma exception_enter_run num we c s p :
  p = r_esp c - bytes_of (stub_words c (u32 num) we 0) -> stack_room (p - 4) (r_esp c) ->
  let ws := reverse (p :: stub_words c (u32 num) we (p + 48)) in
  exception_enter num we c s = Done (tt, pushed_cpu c ws) (pushed_mem c s ws).
Proof.
  intros Ep Hr ws. rewrite (pushed_nil (exception_enter num we) c s). unfold exception_enter.
  unfold ws, stub_words, saved_words in *. clear ws.
  destruct we; autorewrite with bytes in Ep; xred; repeat push_step Hr; xred; cbn [app r_ds r_es r_fs r_gs pushed_cpu set_r_esp].
  all: match goal with |- context [r_esp (pushed_cpu ?x ?l)] => replace (r_esp (pushed_cpu x l)) with p by (unfold pushed_cpu; xproj; bytes) end.
  - by replace (r_esp c - bytes_of [u32 num]) with (p + 48) by bytes.
  - by replace (r_esp c - bytes_of [0; u32 num]) with (p + 48) by bytes.
Qed.

(** A frame in memory: its last two words are there when an outer level was left. *)
Definition frame_words (f : exception_frame_t) (outer : bool) : list Z :=
  [f_gs f; f_fs f; f_es f; f_ds f; f_edi f; f_esi f; f_ebp f; f_esp f; f_ebx f; f_edx f; f_ecx f; f_eax f; f_num f;
   f_error_code f; f_eip f; f_cs f; f_eflags f] ++ if outer then [f_esp3 f; f_ss3 f] else [].

(** The registers that the end of a stub loads from a frame. *)
Definition frame_cpu (f : exception_frame_t) (outer : bool) (esp ss : Z) : cpu_t :=
  Cpu (f_eax f) (f_ecx f) (f_edx f) (f_ebx f) (if outer then f_esp3 f else esp) (f_ebp f) (f_esi f) (f_edi f) (f_eip f)
    (Z.clearbit (f_eflags f) 9) (u16 (f_cs f)) (if outer then u16 (f_ss3 f) else ss)
    (u16 (f_ds f)) (u16 (f_es f)) (u16 (f_fs f)) (u16 (f_gs f)).

Lemma exception_exit_run f c s arg outer :
  stack_words (k_mem s) (r_esp c) (cc_ret cc :: arg :: frame_words f outer) ->
  stack_room (r_esp c) (r_esp c + 8 + bytes_of (frame_words f outer)) -> outer = (rpl (r_cs c) <? rpl (f_cs f)) ->
  (ccall_return cc;; exception_exit) c s =
    Done (tt, frame_cpu f outer (r_esp c + 76) (r_ss c)) (set_k_if (Z.testbit (f_eflags f) 9) s).
Proof.
  intros Hw Hr Ho. assert (68 <= bytes_of (frame_words f outer)) as Hb by (unfold frame_words; destruct outer; bytes).
  pose proof (kmapped_range _ (Hr (r_esp c) ltac:(lia))) as Hlo.
  pose proof (kmapped_range _ (Hr (r_esp c + 75) ltac:(lia))) as Hhi. unfold MEM_EXT_END in *.
  unfold ccall_return, exception_exit. pop_step Hw Hr. xred. rewrite Z.eqb_refl. xred.
  rewrite add_esp_run by (xproj; lia). change (1 * 4) with 4. destruct Hw as [_ Hw]. fold stack_words in Hw.
  unfold frame_words in Hw. cbn [app] in Hw. unfold pop_sreg. do 4 pop_step Hw Hr. xred.
  apply (stack_words_app [f_edi f; f_esi f; f_ebp f; f_esp f; f_ebx f; f_edx f; f_ecx f; f_eax f]) in Hw as [Hw8 Hw].
  change (bytes_of _) with 32 in Hw. destruct Hw as (_ & _ & Hw). fold stack_words in Hw.
  erewrite popa_run; [| exact Hw8 | xproj; intros a Ha; apply Hr; lia]. xred.
  xproj. rewrite add_esp_run by (xproj; lia). xred. xproj.
  replace (r_esp c + 4 + 4 + 4 + 4 + 4 + 4 + 32 + 4 + 4) with (r_esp c + 64) in Hw by lia.
  replace (r_esp c + 4 + 4 + 4 + 4 + 4 + 4 + 32 + 2 * 4) with (r_esp c + 64) by lia.
  rewrite (iret_run _ _ (f_eip f) (f_cs f) (f_eflags f) (f_esp3 f) (f_ss3 f)); unfold returned, leaves; xproj; rewrite <- Ho.
  - unfold frame_cpu. destruct outer; [done|]. by replace (r_esp c + 64 + 12) with (r_esp c + 76) by lia.
  - exact Hw.
  - intros a Ha. apply Hr. unfold frame_words in Hb. revert Ha Hb. unfold frame_words. bytes.
Qed.

End Entry.

(** [simple_switch(&from->stack, to->stack)], with its arguments on the stack: the registers
    the C compiler keeps are saved on the old stack, and loaded from the new one. *)
Definition simple_switch : X unit :=
  esp ← xgets r_esp;
  from ← onx (lift (load32 (u32 (esp + 4))));
  xmodify (set_r_eax from);;
  to ← onx (lift (load32 (u32 (esp + 8))));
  xmodify (set_r_edx to);;
  push_reg r_ebp;;
  push_reg r_ebx;;
  push_reg r_esi;;
  push_reg r_edi;;
  esp ← xgets r_esp;
  eax ← xgets r_eax;
  onx (lift (store32 eax esp));;
  edx ← xgets r_edx;
  xmodify (set_r_esp edx);;
  pop_reg set_r_edi;;
  pop_reg set_r_esi;;
  pop_reg set_r_ebx;;
  pop_reg set_r_ebp;;
  eip ← popl;
  xmodify (set_r_eip eip).
