(* ===== verification/EntryRun.v ===== *)
(** What the entry points of the kernel do for the program they interrupt: the frame a handler
    finds, and the registers a handler that returns gives back. *)
From S2P Require Import Prelude DList Bitmap Machine MachineFacts Klib Format Sched Ipc Log Cpu Alloc Paging Irq Timer.
From S2P Require Import Fs Task TaskLife Exec Syscall Init Boot Asm Entry.

Section EntryRun.
Context `{Layout} `{Device}.
Variable cc : c_call.

(** The frame of a program interrupted with the registers [c] and IF [intr]. *)
Definition interrupted (c : cpu_t) (intr : bool) (num err p : Z) : exception_frame_t :=
  ExceptionFrame (r_gs c) (r_fs c) (r_es c) (r_ds c) (r_edi c) (r_esi c) (r_ebp c) (p + 48) (r_ebx c) (r_edx c) (r_ecx c)
    (r_eax c) (u32 num) err (r_eip c) (r_cs c) (eflags_word intr (r_flags c)) (r_esp c) (r_ss c).

(** The frame when the stub of a stack fault has pushed a code behind the processor's. *)
Definition shifted_frame (c : cpu_t) (intr : bool) (code p : Z) : exception_frame_t :=
  ExceptionFrame (r_gs c) (r_fs c) (r_es c) (r_ds c) (r_edi c) (r_esi c) (r_ebp c) (p + 48) (r_ebx c) (r_edx c) (r_ecx c)
    (r_eax c) 12 0 code (r_eip c) (r_cs c) (eflags_word intr (r_flags c)) (r_esp c).

Definition from_user (c : cpu_t) : bool := 0 <? rpl (r_cs c).

Definition has_code (err : option Z) : bool := match err with Some _ => true | None => false end.

(** The words on the stack at the handler's first instruction, and the address of the frame
    among them. *)
Definition frame_at (c : cpu_t) (intr : bool) (num : Z) (we : bool) (err : option Z) (top : Z) : Z :=
  top - bytes_of (interrupt_words c intr err) - bytes_of (stub_words c (u32 num) we 0).

Definition handler_words (c : cpu_t) (intr : bool) (num : Z) (we : bool) (err : option Z) (p : Z) : list Z :=
  cc_ret cc :: p :: stub_words c (u32 num) we (p + 48) ++ interrupt_words c intr err.

(** A stub that knows whether there is an error code completes the frame. *)
Lemma handler_words_frame c intr num err p :
  handler_words c intr num (has_code err) err p =
    cc_ret cc :: p :: frame_words (interrupted c intr num (default 0 err) p) (from_user c).
Proof.
  unfold handler_words, stub_words, interrupt_words, frame_words, caller_stack, from_user.
  destruct err; cbn; by destruct (0 <? rpl (r_cs c)).
Qed.

Lemma frame_at_bounds c intr num we err top : top - 80 <= frame_at c intr num we err top <= top - 64.
Proof.
  unfold frame_at, interrupt_words, caller_stack, stub_words, saved_words.
  destruct (0 <? rpl (r_cs c)), err, we; bytes.
Qed.

(** The handler [h] of a stub is called with the address of the frame, and its end is run in
    whatever state [h] leaves. *)
Lemma interrupt_stub_run c s vector num we err h top ss a :
  k_idt s !! Z.to_nat vector = Some (gate_desc KERNEL_SELECTOR_CS a ATTR_INT) -> kernel_stack s c top ss ->
  let p := frame_at c (k_if s) num we err top in
  let c2 := set_r_esp (p - 8) (entered (gate_desc KERNEL_SELECTOR_CS a ATTR_INT) (p - 8) ss c) in
  (interrupt vector err;; exception_stub cc num we h) c s ≡
    obind (fun _ => (ccall_return cc;; exception_exit) c2)
      (h p (set_k_if false (set_k_mem (push_words (k_mem s) top (reverse (handler_words c (k_if s) num we err p))) s))).
Proof.
  intros Hg Hks p c2. pose proof (frame_at_bounds c (k_if s) num we err top) as Hp. fold p in Hp.
  xred. rewrite (interrupt_run c s vector err _ top ss Hg) by done. xred.
  set (iw := interrupt_words c (k_if s) err). set (c1 := entered _ (top - _) _ _).
  pose proof (ks_room _ _ _ _ Hks) as Hroom.
  assert (p = r_esp c1 - bytes_of (stub_words c1 (u32 num) we 0)) as Ep by done.
  unfold exception_stub. xred. erewrite (exception_enter_run num we c1 _ p); [| exact Ep |].
  2: { apply (room_within _ _ _ _ Hroom); [lia|]. unfold c1, entered. xproj. pose proof (bytes_of_nonneg iw). lia. }
  xred. set (s1 := set_k_if false _). set (ws1 := reverse (p :: stub_words c1 (u32 num) we (p + 48))).
  assert (bytes_of ws1 = bytes_of (stub_words c1 (u32 num) we 0) + 4) as Eb by (unfold ws1; by rewrite bytes_of_reverse, bytes_of_cons).
  assert (r_esp (pushed_cpu c1 ws1) = p - 4) as Esp by (unfold pushed_cpu; xproj; rewrite Eb, Ep; lia).
  rewrite (ccall_run cc h (pushed_cpu c1 ws1) (pushed_mem c1 s1 ws1) p); rewrite ?Esp.
  - rewrite obind_assoc. replace (p - 4 - 4) with (p - 8) by lia. set (ws := handler_words _ _ _ _ _ _).
    assert (st32 (k_mem (pushed_mem c1 s1 ws1)) (p - 8) (cc_ret cc) = push_words (k_mem s) top (reverse ws)) as ->; [|by destruct s].
    assert (reverse ws = reverse iw ++ ws1 ++ [cc_ret cc]) as ->.
    { unfold ws, handler_words, ws1. by rewrite !reverse_cons, reverse_app, <- !app_assoc. }
    rewrite !push_words_app, bytes_of_reverse. cbn [push_words].
    replace (top - bytes_of iw - bytes_of ws1 - 4) with (p - 8); [done|]. change (r_esp c1) with (top - bytes_of iw) in Ep. lia.
  - apply Hroom. lia.
  - apply Hroom. lia.
  - unfold pushed_mem, ws1. kproj. rewrite reverse_cons, push_words_app. cbn [push_words].
    replace (r_esp c1 - _ - 4) with (p - 4); [|rewrite bytes_of_reverse; rewrite Ep; f_equal].
    rewrite ld32_st32_eq. apply u32_small. pose proof (kmapped_range p (Hroom p ltac:(lia))) as Hk. unfold MEM_EXT_END in Hk. lia.
Qed.

(** ** Reaching the stubs *)
(** The addresses of the entry points: words, no two alike. *)
Definition entry_addrs : list Z :=
  exception_handler_syscall :: exception_handler_timer :: exception_handler_unknown :: (exception_handler <$> irq_exceptions).

Record entries_ok : Prop := {
  eo_apart : NoDup entry_addrs;
  eo_words : Forall is_word entry_addrs
}.

(** The IDT is the one the kernel sets up. *)
Definition idt_booted (s : kst) : Prop := forall i, (i < IDT_TABLE_NO)%nat -> k_idt s !! i = Some (boot_gate (Z.of_nat i)).

Lemma take_interrupt_run c s vector err top ss a :
  k_idt s !! Z.to_nat vector = Some (gate_desc KERNEL_SELECTOR_CS a ATTR_INT) -> is_word a -> kernel_stack s c top ss ->
  take_interrupt cc vector err c s = (interrupt vector err;; kernel_code cc a) c s.
Proof.
  intros Hg Ha Hks. unfold take_interrupt, run_from_eip. rewrite !xrun_bind, (interrupt_run c s vector err _ top ss Hg) by done.
  cbn [obind fst snd]. rewrite xrun_bind, xrun_gets. cbn [obind fst snd]. unfold entered. cbn [r_eip set_r_eip set_r_cs].
  by rewrite gate_offset_desc.
Qed.

Lemma kernel_code_timer : entries_ok -> kernel_code cc exception_handler_timer = exception_handler_timer_stub cc.
Proof.
  intros [[Hs _]%NoDup_cons _]. unfold kernel_code. rewrite (proj2 (Z.eqb_neq _ _)); [by rewrite Z.eqb_refl|].
  intros E. apply Hs. rewrite <- E. left.
Qed.

(** The entry of the table with a given address. *)
Lemma filter_stub l st :
  NoDup ((fun x => exception_handler x.1.1) <$> l) -> st ∈ l -> filter (stub_at (exception_handler st.1.1)) l = [st].
Proof.
  induction l as [|x l IH]; intros Hnd Hin; [by apply not_elem_of_nil in Hin|].
  cbn [fmap list_fmap] in Hnd. apply NoDup_cons in Hnd as [Hx Hnd]. apply elem_of_cons in Hin as [->|Hin].
  - rewrite filter_cons_True by (unfold stub_at; by apply Is_true_true, Z.eqb_eq). f_equal.
    apply filter_none. intros y Hy E%Is_true_true%Z.eqb_eq. apply Hx. rewrite <- E. apply list_elem_of_fmap. by exists y.
  - rewrite filter_cons_False; [by apply IH|]. unfold stub_at. intros Hst%Is_true_true%Z.eqb_eq. apply Hx.
    rewrite Hst. apply list_elem_of_fmap. by exists st.
Qed.

Lemma exception_stubs_numbers : (fun st => st.1.1) <$> exception_stubs = irq_exceptions.
Proof. done. Qed.

Lemma kernel_code_exception num we h :
  entries_ok -> (num, we, h) ∈ exception_stubs -> kernel_code cc (exception_handler num) = exception_stub cc num we (with_frame h).
Proof.
  intros [Hnd _] Hin. unfold entry_addrs in Hnd. apply NoDup_cons in Hnd as [Hs Hnd]. apply NoDup_cons in Hnd as [Ht Hnd].
  apply NoDup_cons in Hnd as [Hu Hnd].
  assert (exception_handler num ∈ exception_handler <$> irq_exceptions) as Hn.
  { rewrite <- exception_stubs_numbers, <- list_fmap_compose. apply list_elem_of_fmap. by exists (num, we, h). }
  apply not_elem_of_cons in Hs as [_ [_ Hs]%not_elem_of_cons]. apply not_elem_of_cons in Ht as [_ Ht].
  assert (forall b, b ∉ exception_handler <$> irq_exceptions -> (exception_handler num =? b) = false) as Hne.
  { intros b Hb. apply Z.eqb_neq. by intros <-. }
  unfold kernel_code. rewrite !Hne by done.
  rewrite <- exception_stubs_numbers, <- list_fmap_compose in Hnd.
  pose proof (filter_stub exception_stubs (num, we, h) Hnd Hin) as E. cbn [fst] in E. by rewrite E.
Qed.

(** ** The frame *)
Lemma load_list_run ws : forall p s,
  stack_words (k_mem s) p ws -> stack_room p (p + bytes_of ws) -> load_list (length ws) p s = Done ws s.
Proof.
  induction ws as [|w ws IH]; intros p s Hw Hr; cbn [load_list length]; [done|]. destruct Hw as [Hw Hws].
  rewrite bytes_of_cons in Hr. pose proof (bytes_of_nonneg ws). rewrite run_bind.
  erewrite lift_done by (apply load32_kernel, Hr; lia). cbn [obind]. rewrite set_k_mem_id, Hw, run_bind, IH.
  - done.
  - done.
  - intros a Ha. apply Hr. lia.
Qed.

Lemma with_frame_run h f p s :
  stack_words (k_mem s) p (frame_words f true) -> stack_room p (p + 76) -> with_frame h p s = h f s.
Proof.
  intros Hw Hr. unfold with_frame, read_exception_frame. rewrite run_bind, run_bind.
  rewrite (load_list_run (frame_words f true)) by done. by destruct f.
Qed.

(** All of it is words. *)
Lemma interrupt_words_word c intr err : cpu_wf c -> is_word (default 0 err) -> Forall is_word (interrupt_words c intr err).
Proof.
  intros Hc He. registers Hc. unfold interrupt_words, caller_stack.
  destruct err, (0 <? rpl (r_cs c)); words.
Qed.

Lemma stub_words_word c num we p : cpu_wf c -> is_word num -> is_word p -> Forall is_word (stub_words c num we p).
Proof.
  intros Hc Hn Hp. registers Hc. unfold stub_words, saved_words.
  destruct we; words.
Qed.

Hypothesis Hcc : is_word (cc_ret cc).

(** The words at the handler's first instruction. *)
Lemma handler_words_stack c s num we err top ss :
  cpu_wf c -> is_word (default 0 err) -> kernel_stack s c top ss ->
  let p := frame_at c (k_if s) num we err top in
  let ws := handler_words c (k_if s) num we err p in
  let m := push_words (k_mem s) top (reverse ws) in
  stack_words m (p - 8) ws /\ bytes_of ws = top - (p - 8) /\
  forall a, a < p - 8 \/ top <= a -> mget m a = mget (k_mem s) a.
Proof.
  intros Hc He Hks p ws m. pose proof (frame_at_bounds c (k_if s) num we err top) as Hp. fold p in Hp.
  pose proof (ks_room _ _ _ _ Hks) as Hr. pose proof (kmapped_range p (Hr p ltac:(lia))) as Hk. unfold MEM_EXT_END in Hk.
  assert (bytes_of ws = top - (p - 8)) as Eb.
  { assert (p = top - bytes_of (interrupt_words c (k_if s) err) - bytes_of (stub_words c (u32 num) we (p + 48))) as Ep by done.
    unfold ws, handler_words. rewrite !bytes_of_cons, bytes_of_app. lia. }
  assert (Forall is_word ws) as Hw.
  { unfold ws, handler_words. apply Forall_cons_2; [done|]. apply Forall_cons_2; [unfold is_word; lia|].
    apply Forall_app_2; [|by apply interrupt_words_word]. apply stub_words_word; [done | apply u32_range | unfold is_word; lia]. }
  split_and!; [|done|].
  - pose proof (push_words_stack (reverse ws) (k_mem s) top) as Hst. rewrite reverse_involutive, bytes_of_reverse, Eb in Hst.
    replace (top - (top - (p - 8))) with (p - 8) in Hst by lia. apply Hst. by apply Forall_reverse.
  - intros a Ha. apply push_words_out. rewrite bytes_of_reverse, Eb. lia.
Qed.

(** The registers come back. *)
Lemma frame_cpu_interrupted c intr num err p top ss :
  cpu_wf c -> (if from_user c then True else top = r_esp c /\ ss = r_ss c) ->
  frame_cpu (interrupted c intr num err p) (from_user c) top ss = c.
Proof.
  intros Hc Ht. registers Hc. unfold is_sel in *. unfold frame_cpu, interrupted. cbn. rewrite eflags_word_flags by done. unfold u16. rewrite !(Z.mod_small _ (2 ^ 16)) by lia.
  destruct (from_user c); [by destruct c|]. destruct Ht as [-> ->]. by destruct c.
Qed.

(** The end of a stub gives the registers back. *)
Lemma stub_back c s num err top ss a s2 :
  cpu_wf c -> is_word (default 0 err) -> kernel_stack s c top ss ->
  let p := frame_at c (k_if s) num (has_code err) err top in
  let ws := handler_words c (k_if s) num (has_code err) err p in
  stack_words (k_mem s2) (p - 8) ws ->
  (ccall_return cc;; exception_exit) (set_r_esp (p - 8) (entered (gate_desc KERNEL_SELECTOR_CS a ATTR_INT) (p - 8) ss c)) s2 =
    Done (tt, c) (set_k_if (k_if s) s2).
Proof.
  intros Hc He Hks p ws Hw. destruct (handler_words_stack c s num (has_code err) err top ss Hc He Hks) as (_ & Eb & _). fold p ws in Eb.
  pose proof (frame_at_bounds c (k_if s) num (has_code err) err top) as Hp. fold p in Hp.
  unfold ws in Hw, Eb. rewrite handler_words_frame in Hw, Eb.
  set (c2 := set_r_esp (p - 8) _). change (p - 8) with (r_esp c2) in Hw at 1.
  rewrite (exception_exit_run cc (interrupted c (k_if s) num (default 0 err) p) c2 s2 p (from_user c) Hw); [| |done].
  - change (f_eflags _) with (eflags_word (k_if s) (r_flags c)). rewrite eflags_word_if.
    f_equal. f_equal. apply frame_cpu_interrupted; [done|]. destruct Hks as [Ht _]. unfold from_user in *.
    destruct (0 <? rpl (r_cs c)) eqn:E; [done|]. destruct Ht as [-> ->]. split; [|done].
    change (r_esp c2) with (p - 8). clear Hw c2 ws. clearbody p. unfold frame_words in Eb. bytes.
  - change (r_esp c2) with (p - 8). rewrite !bytes_of_cons in Eb. apply (room_within _ _ _ _ (ks_room _ _ _ _ Hks)); lia.
Qed.

(** The handlers of the table stop the kernel. *)
Lemma exception_stub_halts s f num we h :
  (num, we, h) ∈ exception_stubs -> com1_ready -> log_free s -> exists s', h f s = Halted s'.
Proof.
  intros Hin Hcom Hlog. pose proof (exception_handlers_run s f Hcom Hlog) as Hall. apply Forall_cons in Hall as [_ Hall].
  change (Forall (fun h : exception_frame_t -> K unit => exists s', h f s = Halted s') (exception_stubs.*2)) in Hall.
  apply (proj1 (Forall_forall _ _) Hall h). apply list_elem_of_fmap. by exists (num, we, h).
Qed.

Lemma exception_gate s num we h :
  idt_booted s -> (num, we, h) ∈ exception_stubs ->
  k_idt s !! Z.to_nat num = Some (gate_desc KERNEL_SELECTOR_CS (exception_handler num) ATTR_INT) /\ num ∈ irq_exceptions.
Proof.
  intros Hidt Hin. assert (num ∈ irq_exceptions) as Hn.
  { rewrite <- exception_stubs_numbers. apply list_elem_of_fmap. by exists (num, we, h). }
  split; [|done]. pose proof (proj1 (Forall_forall _ _) irq_exceptions_range num Hn) as Hr. cbn beta in Hr.
  assert (num <> IRQ0_TIMER) as Hne by (intros ->; revert Hn; by apply (bool_decide_unpack _)).
  rewrite (Hidt (Z.to_nat num)) by (unfold IDT_TABLE_NO; lia). rewrite Z2Nat.id by lia.
  unfold boot_gate, idt_gate. rewrite (proj2 (Z.eqb_neq _ _)) by done. by rewrite decide_True.
Qed.

(** An exception of the table, whose handler finds the frame [f]. *)
Lemma exception_run c s num we h err top ss f rest :
  entries_ok -> idt_booted s -> cpu_wf c -> kernel_stack s c top ss -> (num, we, h) ∈ exception_stubs -> is_word (default 0 err) ->
  com1_ready -> log_free s ->
  let p := frame_at c (k_if s) num we err top in
  handler_words c (k_if s) num we err p = cc_ret cc :: p :: frame_words f true ++ rest ->
  exists m s', h f (set_k_if false (set_k_mem m s)) = Halted s' /\ take_interrupt cc num err c s = Halted s'.
Proof.
  intros Hen Hidt Hc Hks Hin He Hcom Hlog p Ews. destruct (exception_gate s num we h Hidt Hin) as [Hg Hn].
  pose proof (frame_at_bounds c (k_if s) num we err top) as Hp. fold p in Hp.
  destruct (handler_words_stack c s num we err top ss Hc He Hks) as (Hw & Eb & _). fold p in Hw, Eb.
  assert (is_word (exception_handler num)) as Ha.
  { pose proof (eo_words Hen) as Hew. unfold entry_addrs in Hew. do 3 apply Forall_cons in Hew as [_ Hew].
    apply (proj1 (Forall_forall _ _) Hew). apply list_elem_of_fmap. by exists num. }
  set (m := push_words (k_mem s) top _) in Hw.
  destruct (exception_stub_halts (set_k_if false (set_k_mem m s)) f num we h Hin Hcom) as (s' & E); [by destruct Hlog as (x & ?); exists x|].
  exists m, s'. split; [exact E|]. apply halted_equiv.
  rewrite (take_interrupt_run c s num err top ss _ Hg Ha Hks), (kernel_code_exception num we h Hen Hin).
  rewrite (interrupt_stub_run c s num num we err (with_frame h) top ss _ Hg Hks). fold p. fold m.
  rewrite Ews in Hw, Eb. destruct Hw as (_ & _ & [Hw _]%stack_words_app). rewrite !bytes_of_cons, bytes_of_app in Eb.
  change (bytes_of (frame_words f true)) with 76 in Eb. pose proof (bytes_of_nonneg rest).
  replace (p - 8 + 4 + 4) with p in Hw by lia.
  rewrite (with_frame_run h f p); [by rewrite E | done |]. apply (room_within _ _ _ _ (ks_room _ _ _ _ Hks)); lia.
Qed.

(** * Properties *)

(** C9: An interrupt of the timer does not disturb the program it interrupts, in user mode or in
    the kernel: the handler runs with interrupts off on the stack below the program's (that
    of its task's TSS for a user program), and when it is done, at once or after other tasks
    have run, the program goes on with every register as it was, and with its interrupt
    flag, provided the words between [p] and the top of that stack are as the handler found
    them. *)
Theorem timer_interrupt_transparent c s top ss :
  entries_ok -> idt_booted s -> cpu_wf c -> kernel_stack s c top ss ->
  exists m p back, top - 88 <= p < top /\ (forall a, a < p \/ top <= a -> mget m a = mget (k_mem s) a) /\
    take_interrupt cc IRQ0_TIMER None c s ≡ obind back (do_handler_timer (set_k_if false (set_k_mem m s))) /\
    forall s2, (forall a, p <= a < top -> mget (k_mem s2) a = mget m a) -> back tt s2 = Done (tt, c) (set_k_if (k_if s) s2).
Proof.
  intros Hen Hidt Hc Hks. set (p := frame_at c (k_if s) 0x20 false None top).
  pose proof (frame_at_bounds c (k_if s) 0x20 false None top) as Hp. fold p in Hp.
  destruct (handler_words_stack c s 0x20 false None top ss Hc ltac:(done) Hks) as (Hw & Eb & Hout). fold p in Hw, Eb, Hout.
  assert (k_idt s !! Z.to_nat IRQ0_TIMER = Some (gate_desc KERNEL_SELECTOR_CS exception_handler_timer ATTR_INT)) as Hg
    by (apply (Hidt 32%nat); unfold IDT_TABLE_NO; lia).
  pose proof (eo_words Hen) as Hew. unfold entry_addrs in Hew. apply Forall_cons in Hew as [_ [Ht _]%Forall_cons].
  eexists _, (p - 8), _. split_and!; [lia | lia | exact Hout | |].
  - rewrite (take_interrupt_run c s _ None top ss _ Hg Ht Hks), (kernel_code_timer Hen).
    apply (interrupt_stub_run c s IRQ0_TIMER 0x20 false None (fun _ => do_handler_timer) top ss _ Hg Hks).
  - intros s2 Hs2. apply (stub_back c s 0x20 None top ss exception_handler_timer s2 Hc ltac:(done) Hks). cbn [has_code]. fold p.
    eapply stack_words_ext; [|exact Hw]. intros a Ha. apply Hs2. rewrite Eb in Ha. lia.
Qed.

(** C11: Every exception of a user program whose stub knows whether the processor pushes an error
    code stops the kernel, and the handler that logs it is given the number and code of the
    exception and the registers the program had at that point. *)
Theorem exception_reports_context c s num err h top ss :
  entries_ok -> idt_booted s -> cpu_wf c -> from_user c = true -> kernel_stack s c top ss ->
  (num, has_code err, h) ∈ exception_stubs -> is_word (default 0 err) -> com1_ready -> log_free s ->
  exists m p s', h (interrupted c (k_if s) num (default 0 err) p) (set_k_if false (set_k_mem m s)) = Halted s' /\
    take_interrupt cc num err c s = Halted s'.
Proof.
  intros Hen Hidt Hc Hu Hks Hin He Hcom Hlog.
  destruct (exception_run c s num (has_code err) h err top ss
    (interrupted c (k_if s) num (default 0 err) (frame_at c (k_if s) num (has_code err) err top)) [] Hen Hidt Hc Hks Hin He Hcom Hlog)
    as (m & s' & E & E'); [by rewrite handler_words_frame, Hu, app_nil_r|].
  by exists m, (frame_at c (k_if s) num (has_code err) err top), s'.
Qed.

(** The processor pushes an error code for a stack fault, the stub of that exception one more:
    the handler takes the code for EIP, EIP for CS, CS for EFLAGS, and reports the code 0. *)
Lemma stack_fault_frame_shifted c s code top ss :
  entries_ok -> idt_booted s -> cpu_wf c -> from_user c = true -> kernel_stack s c top ss -> is_word code ->
  com1_ready -> log_free s ->
  exists m p s', do_handler_stack_segment_fault (shifted_frame c (k_if s) code p) (set_k_if false (set_k_mem m s)) = Halted s' /\
    take_interrupt cc 12 (Some code) c s = Halted s'.
Proof.
  intros Hen Hidt Hc Hu Hks He Hcom Hlog. set (p := frame_at c (k_if s) 12 false (Some code) top).
  destruct (exception_run c s 12 false do_handler_stack_segment_fault (Some code) top ss (shifted_frame c (k_if s) code p) [r_ss c] Hen Hidt Hc Hks)
    as (m & s' & E & E'); try done.
  - unfold exception_stubs. do 11 right. left.
  - unfold handler_words, interrupt_words, caller_stack. unfold from_user in Hu. by rewrite Hu.
  - by exists m, p, s'.
Qed.

End EntryRun.
