(* ===== verification/CallPath.v ===== *)
(** The system call from the program's [lcall] to the instruction behind it: through the call
    gate, the stub of start_kernel.S and [do_handler_syscall], and back with the registers the
    frame holds then. *)
From S2P Require Import Prelude DList Bitmap Machine MachineFacts Klib Format Sched Ipc Log Cpu Alloc Paging AddrSpace CopySpace Irq Timer.
From S2P Require Import Fs Task TaskLife Exec ProgLoad ExecSpace LoadElf CopyArgs ExecRun Syscall Fork Init Boot Asm Entry EntryRun.

Section CallPath.
Context `{Layout} `{Device}.
Variable cc : c_call.
Hypothesis Hcc : is_word (cc_ret cc).

(** The gate of the system call, at its place in the GDT. *)
Definition call_gate : gate_desc_t := gate_desc KERNEL_SELECTOR_CS exception_handler_syscall ATTR_SYSCALL.

Definition gate_ready (s : kst) : Prop := k_gdt s !! 3%nat = Some (segment_of_gate call_gate).

(** The words the gate pushes, and the frame, in the order of [syscall_frame_t]. *)
Definition gate_stack (c : cpu_t) (args : list Z) (next : Z) : list Z := [next; r_cs c] ++ args ++ [r_esp c; r_ss c].

Definition call_words (c : cpu_t) (intr : bool) (args : list Z) (next esp : Z) : list Z :=
  eflags_word intr (r_flags c) :: saved_words c esp ++ gate_stack c args next.

Definition called (top ss : Z) (c : cpu_t) : cpu_t :=
  set_r_cs KERNEL_SELECTOR_CS (set_r_eip exception_handler_syscall (set_r_esp (top - 36) (set_r_ss ss c))).

Lemma lcall_run c s args next top ss :
  gate_ready s -> is_word exception_handler_syscall -> from_user c = true -> kernel_stack s c top ss ->
  length args = 5%nat -> load_list 5 (r_esp c) s = Done args s ->
  lcall SELECTOR_SYSCALL next c s =
    Done (tt, called top ss c) (set_k_mem (push_words (k_mem s) top (reverse (gate_stack c args next))) s).
Proof.
  intros Hg Ha Hu Hks Hl Hargs. unfold lcall. xred. change (Z.to_nat (SELECTOR_SYSCALL / 8)) with 3%nat.
  rewrite Hg. xred. unfold call_gate. rewrite gate_of_segment_of_gate.
  change (Z.to_nat (gd_attr _ mod 2 ^ 5)) with 5%nat. rewrite Hargs. xred.
  change (gd_selector _) with KERNEL_SELECTOR_CS. rewrite gate_offset_desc by done.
  pose proof (enter_run c s top ss Hks) as He. pose proof (ks_room _ _ _ _ Hks) as Hr.
  change (rpl KERNEL_SELECTOR_CS) with 0 in *. unfold from_user in Hu. unfold caller_stack in He. rewrite Hu in *. xred. rewrite He. xred.
  assert (bytes_of args = 20) as Eb by (unfold bytes_of; by rewrite Hl).
  change (bytes_of [r_esp c; r_ss c]) with 8.
  rewrite push_list_run by (xproj; rewrite bytes_of_reverse, Eb; apply (room_within _ _ _ _ Hr); lia). xred. xproj. kproj.
  rewrite push_list_run by (xproj; change (bytes_of [r_cs c; next]) with 8; rewrite bytes_of_reverse, Eb; apply (room_within _ _ _ _ Hr); lia).
  xred. xproj. kproj. unfold called. xproj. rewrite bytes_of_reverse, Eb. change (bytes_of [r_cs c; next]) with 8.
  replace (top - 8 - 20 - 8) with (top - 36) by lia.
  assert (reverse (gate_stack c args next) = reverse [r_esp c; r_ss c] ++ reverse args ++ [r_cs c; next]) as ->
    by (unfold gate_stack; by rewrite !reverse_app, <- !app_assoc).
  rewrite !push_words_app, !bytes_of_reverse, Eb. change (bytes_of [r_esp c; r_ss c]) with 8. by destruct s.
Qed.

Lemma pushf_step ws c s :
  let v := eflags_word (k_if s) (r_flags c) in
  stack_room (r_esp c - bytes_of (ws ++ [v])) (r_esp c) ->
  pushf (pushed_cpu c ws) (pushed_mem c s ws) = Done (tt, pushed_cpu c (ws ++ [v])) (pushed_mem c s (ws ++ [v])).
Proof. intros v Hr. unfold pushf, read_eflags. xred. by apply pushl_step. Qed.

(** The stub up to the call of [do_handler_syscall], whose frame is at [p]. *)
Definition kernel_segments (c : cpu_t) : cpu_t :=
  set_r_gs KERNEL_SELECTOR_DS (set_r_fs KERNEL_SELECTOR_DS (set_r_es KERNEL_SELECTOR_DS (set_r_ds KERNEL_SELECTOR_DS c))).

Lemma syscall_enter_run c s :
  let p := r_esp c - 52 in
  let ws := p :: eflags_word (k_if s) (r_flags c) :: saved_words c (r_esp c) in
  stack_room (p - 4) (r_esp c) ->
  syscall_enter c s = Done (tt, set_r_esp (p - 4) (set_r_eax p (kernel_segments c))) (pushed_mem c s (reverse ws)).
Proof.
  intros p ws Hr. rewrite (pushed_nil syscall_enter c s). unfold syscall_enter, p in *.
  xred. rewrite pusha_step by (apply (room_within _ _ _ _ Hr); bytes).
  do 4 (xred; rewrite push_reg_step by (apply (room_within _ _ _ _ Hr); bytes); cbn [app r_ds r_es r_fs r_gs pushed_cpu set_r_esp]).
  xred. rewrite pushf_step by (apply (room_within _ _ _ _ Hr); bytes). cbn [app]. rewrite bytes_of_nil, Z.sub_0_r.
  set (ws1 := [r_eax c; _; _; _; _; _; _; _; _; _; _; _; _]). xred. unfold push_reg. xred.
  unfold pushed_cpu, kernel_segments. xproj. change (bytes_of ws1) with 52.
  rewrite pushl_run by (xproj; apply Hr; lia). xproj. unfold pushed_mem. kproj.
  assert (reverse ws = ws1 ++ [r_esp c - 52]) as -> by done.
  rewrite push_words_app. change (bytes_of ws1) with 52. by destruct s.
Qed.

(** ** The end of the stub *)

(** The registers the frame at [p] gives the program, and its IF. *)
Definition user_cpu (m : gmap Z Z) (p : Z) : cpu_t :=
  let w off := ld32 m (p + off) in
  Cpu (w fr_eax) (w fr_ecx) (w fr_edx) (w fr_ebx) (w fr_esp + 20) (w fr_ebp) (w fr_esi) (w fr_edi) (w fr_eip)
    (Z.clearbit (w fr_eflags) 9) (u16 (w fr_cs)) (u16 (w (fr_esp + 4))) (u16 (w fr_ds)) (u16 (w fr_es)) (u16 (w fr_fs)) (u16 (w fr_gs)).

Definition user_if (m : gmap Z Z) (p : Z) : bool := Z.testbit (ld32 m (p + fr_eflags)) 9.

(** The end of the stub on the words of a frame. *)
Lemma syscall_exit_words c s arg eflags gs fs es ds edi esi ebp x ebx edx ecx eax eip cs args esp ss :
  stack_words (k_mem s) (r_esp c) (cc_ret cc :: arg :: [eflags; gs; fs; es; ds; edi; esi; ebp; x; ebx; edx; ecx; eax; eip; cs] ++ args ++ [esp; ss]) ->
  length args = 5%nat -> stack_room (r_esp c) (r_esp c + 96) -> rpl (r_cs c) < rpl cs -> 0 <= esp + 20 < 2 ^ 32 ->
  (ccall_return cc;; syscall_exit) c s =
    Done (tt, Cpu eax ecx edx ebx (esp + 20) ebp esi edi eip (Z.clearbit eflags 9) (u16 cs) (u16 ss) (u16 ds) (u16 es) (u16 fs) (u16 gs))
      (set_k_if (Z.testbit eflags 9) s).
Proof.
  intros Hw Hl Hr Hcs Hesp. pose proof (kmapped_range _ (Hr (r_esp c) ltac:(lia))) as Hlo.
  pose proof (kmapped_range _ (Hr (r_esp c + 95) ltac:(lia))) as Hhi. unfold MEM_EXT_END in *.
  unfold ccall_return, syscall_exit. pop_step Hw Hr. xred. rewrite Z.eqb_refl. xred.
  rewrite add_esp_run by (xproj; lia). destruct Hw as [_ Hw]. fold stack_words in Hw. cbn [app] in Hw.
  unfold popf. pop_step Hw Hr. unfold load_eflags, write_eflags. xred. unfold pop_sreg. do 4 pop_step Hw Hr.
  apply (stack_words_app [edi; esi; ebp; x; ebx; edx; ecx; eax]) in Hw as [Hw8 Hw]. change (bytes_of _) with 32 in Hw.
  erewrite popa_run; [| exact Hw8 | xproj; intros a Ha; apply Hr; lia]. xred. xproj.
  assert (leaves (Cpu 0 0 0 0 0 0 0 0 0 0 (r_cs c) 0 0 0 0 0) cs = true) as Hlv by (by apply Z.ltb_lt).
  erewrite (lret_run 20 _ _ eip cs esp ss args); [| unfold bytes_of; by rewrite Hl | | | done].
  - unfold returned. unfold leaves in *. xproj. cbn [r_cs] in Hlv. by rewrite Hlv.
  - unfold leaves in *. xproj. cbn [r_cs] in Hlv. rewrite Hlv. exact Hw.
  - unfold leaves in *. xproj. cbn [r_cs] in Hlv. rewrite Hlv. intros a Ha. apply Hr. revert Ha.
    rewrite !bytes_of_app. unfold bytes_of at 2. rewrite Hl. bytes.
Qed.

(** The frame's words as memory holds them. *)
Definition frame_offsets : list Z :=
  [fr_eflags; fr_gs; fr_fs; fr_es; fr_ds; fr_edi; fr_esi; fr_ebp; 32; fr_ebx; fr_edx; fr_ecx; fr_eax; fr_eip; fr_cs;
   fr_func_id; fr_arg0; fr_arg1; fr_arg2; fr_arg3; fr_esp; fr_esp + 4].

Lemma frame_offsets_words m p : stack_words m p ((fun off => ld32 m (p + off)) <$> frame_offsets).
Proof.
  cbn [frame_offsets fmap list_fmap stack_words].
  unfold fr_eflags, fr_gs, fr_fs, fr_es, fr_ds, fr_edi, fr_esi, fr_ebp, fr_ebx, fr_edx, fr_ecx, fr_eax, fr_eip, fr_cs, fr_func_id,
    fr_arg0, fr_arg1, fr_arg2, fr_arg3, fr_esp.
  repeat (split; [f_equal; lia|]). done.
Qed.

Lemma syscall_exit_run c s p :
  r_esp c = p - 8 -> ld32 (k_mem s) (p - 8) = cc_ret cc -> stack_room (p - 8) (p + 88) ->
  rpl (r_cs c) < rpl (ld32 (k_mem s) (p + fr_cs)) -> ld32 (k_mem s) (p + fr_esp) + 20 < 2 ^ 32 ->
  (ccall_return cc;; syscall_exit) c s = Done (tt, user_cpu (k_mem s) p) (set_k_if (user_if (k_mem s) p) s).
Proof.
  intros Esp Hret Hr Hcs Hsp. pose proof (frame_offsets_words (k_mem s) p) as Hw. cbn [fmap list_fmap frame_offsets] in Hw.
  pose proof (ld32_range (k_mem s) (p + fr_esp)) as Her.
  erewrite (syscall_exit_words c s (ld32 (k_mem s) (p - 4)) _ _ _ _ _ _ _ _ _ _ _ _ _ _ _
    ((fun off => ld32 (k_mem s) (p + off)) <$> [fr_func_id; fr_arg0; fr_arg1; fr_arg2; fr_arg3])); [reflexivity | | done | | exact Hcs | lia].
  - rewrite Esp. cbn [stack_words]. split; [done|]. split; [f_equal; lia|]. replace (p - 8 + 4 + 4) with p by lia. exact Hw.
  - rewrite Esp. by replace (p - 8 + 96) with (p + 88) by lia.
Qed.

(** ** The whole path *)

(** A program of user mode calls the kernel with the words [args] on its stack. *)
Record calls_kernel (s : kst) (c : cpu_t) (args : list Z) (next top ss : Z) : Prop := {
  ck_entries : entries_ok;
  ck_gate : gate_ready s;
  ck_cpu : cpu_wf c;
  ck_user : from_user c = true;
  ck_stack : kernel_stack s c top ss;
  ck_args : length args = 5%nat /\ Forall is_word args /\ load_list 5 (r_esp c) s = Done args s;
  ck_next : is_word next /\ r_esp c + 20 < 2 ^ 32
}.

(** The state in which [do_handler_syscall] is called with the frame [p]. *)
Record at_handler (s : kst) (c : cpu_t) (args : list Z) (next p : Z) (s1 : kst) : Prop := {
  ah_state : exists m, s1 = set_k_mem m s;
  ah_words : stack_words (k_mem s1) (p - 8) (cc_ret cc :: p :: call_words c (k_if s) args next (p + 52));
  ah_out : forall a, a < p - 8 \/ p + 88 <= a -> mget (k_mem s1) a = mget (k_mem s) a;
  ah_room : stack_room (p - 8) (p + 88);
  ah_caller : cpu_wf c /\ from_user c = true /\ length args = 5%nat /\ r_esp c + 20 < 2 ^ 32
}.

(** The words on the stack then, and the state. *)
Definition handler_stack (s : kst) (c : cpu_t) (args : list Z) (next p : Z) : list Z :=
  cc_ret cc :: p :: call_words c (k_if s) args next (p + 52).

Definition handler_state (s : kst) (c : cpu_t) (args : list Z) (next top : Z) : kst :=
  set_k_mem (push_words (k_mem s) top (reverse (handler_stack s c args next (top - 88)))) s.

Lemma handler_stack_bytes s c args next p :
  length args = 5%nat -> bytes_of args = 20 /\ bytes_of (gate_stack c args next) = 36 /\ bytes_of (handler_stack s c args next p) = 96.
Proof.
  intros Hl. assert (bytes_of args = 20) as Eba by (unfold bytes_of; by rewrite Hl).
  assert (bytes_of (gate_stack c args next) = 36) as Ebg by (unfold gate_stack; rewrite !bytes_of_app, Eba; bytes).
  split_and!; [done | done |]. unfold handler_stack, call_words, saved_words. rewrite !bytes_of_cons, bytes_of_app, Ebg. bytes.
Qed.

Lemma handler_state_at c s args next top ss :
  calls_kernel s c args next top ss -> at_handler s c args next (top - 88) (handler_state s c args next top).
Proof.
  intros [Hen Hg Hc Hu Hks (Hl & Haw & Hargs) (Hnext & Hesp)]. set (p := top - 88).
  pose proof (ks_room _ _ _ _ Hks) as Hr. pose proof (kmapped_range p (Hr p ltac:(lia))) as Hk. unfold MEM_EXT_END in Hk.
  unfold handler_state. fold p. set (ws := handler_stack s c args next p).
  destruct (handler_stack_bytes s c args next p Hl) as (_ & _ & Ebw). fold ws in Ebw. split; kproj.
  - by eexists.
  - pose proof (push_words_stack (reverse ws) (k_mem s) top) as Hst. rewrite reverse_involutive, bytes_of_reverse, Ebw in Hst.
    replace (top - 96) with (p - 8) in Hst by (unfold p; lia). apply Hst, Forall_reverse. registers Hc.
    unfold ws, handler_stack, call_words, saved_words, gate_stack. apply Forall_cons_2; [done|]. apply Forall_cons_2; [unfold is_word; lia|].
    apply Forall_cons_2; [by apply eflags_word_word|]. rewrite !Forall_app. split_and!; try done; words. unfold is_word; lia.
  - intros a Ha. apply push_words_out. rewrite bytes_of_reverse, Ebw. unfold p in Ha. lia.
  - apply (room_within _ _ _ _ Hr); unfold p; lia.
  - done.
Qed.

Lemma call_kernel_run c s args next top ss :
  calls_kernel s c args next top ss ->
  exists c2, r_esp c2 = top - 96 /\ r_cs c2 = KERNEL_SELECTOR_CS /\
    call_kernel cc next c s ≡
      obind (fun _ => (ccall_return cc;; syscall_exit) c2) (do_handler_syscall (top - 88) (handler_state s c args next top)).
Proof.
  intros Hck. destruct Hck as [Hen Hg Hc Hu Hks (Hl & Haw & Hargs) (Hnext & Hesp)]. set (p := top - 88).
  pose proof (ks_room _ _ _ _ Hks) as Hr. pose proof (kmapped_range p (Hr p ltac:(lia))) as Hk. unfold MEM_EXT_END in Hk.
  pose proof (eo_words Hen) as Hew. unfold entry_addrs in Hew. apply Forall_cons in Hew as [Hsys _].
  set (gs := gate_stack c args next). set (c1 := called top ss c).
  destruct (handler_stack_bytes s c args next p Hl) as (_ & Ebg & _). fold gs in Ebg.
  exists (set_r_esp (p - 8) (set_r_eax p (kernel_segments c1))). split_and!; [unfold p; xproj; lia | done |].
  unfold call_kernel, run_from_eip. xred. rewrite (lcall_run c s args next top ss) by done. xred. fold gs c1.
  change (r_eip c1) with exception_handler_syscall. unfold kernel_code. rewrite Z.eqb_refl.
  unfold exception_handler_syscall_stub. xred. set (s0 := set_k_mem _ s).
  rewrite (syscall_enter_run c1 s0) by (change (r_esp c1) with (top - 36); apply (room_within _ _ _ _ Hr); lia). xred.
  change (r_esp c1) with (top - 36). replace (top - 36 - 52) with p by (unfold p; lia).
  set (c3 := set_r_esp (p - 4) _). set (ws1 := reverse _). assert (bytes_of ws1 = 56) as Eb1 by done.
  assert (k_mem (pushed_mem c1 s0 ws1) = push_words (k_mem s) top (reverse gs ++ ws1)) as Em.
  { unfold pushed_mem, s0. kproj. by rewrite push_words_app, bytes_of_reverse, Ebg. }
  rewrite (ccall_run cc do_handler_syscall c3 (pushed_mem c1 s0 ws1) p); change (r_esp c3) with (p - 4).
  - rewrite obind_assoc. replace (p - 4 - 4) with (p - 8) by lia. rewrite Em. unfold handler_state. fold p.
    assert (reverse (handler_stack s c args next p) = (reverse gs ++ ws1) ++ [cc_ret cc]) as ->.
    { unfold handler_stack, ws1, call_words. fold gs. replace (top - 36) with (p + 52) by (unfold p; lia).
      by rewrite !reverse_cons, reverse_app, <- !app_assoc. }
    rewrite (push_words_app (reverse gs ++ ws1)), bytes_of_app, bytes_of_reverse, Ebg, Eb1. cbn [push_words].
    replace (top - (36 + 56) - 4) with (p - 8) by (unfold p; lia). by destruct s.
  - apply Hr. unfold p. lia.
  - apply Hr. unfold p. lia.
  - rewrite Em. unfold ws1. rewrite reverse_cons, app_assoc, push_words_app. cbn [push_words].
    replace (top - _ - 4) with (p - 4) by (rewrite bytes_of_app, !bytes_of_reverse, Ebg; unfold p, saved_words; bytes).
    rewrite ld32_st32_eq. apply u32_small. lia.
Qed.

(** ** The frame at the handler *)
Lemma stack_word_at ws k w : forall m p, stack_words m p ws -> ws !! k = Some w -> ld32 m (p + 4 * Z.of_nat k) = w.
Proof.
  revert k. induction ws as [|x ws IH]; intros k m p Hw Hk; [done|]. destruct Hw as [Hx Hws]. destruct k as [|k].
  - injection Hk as <-. rewrite Z.add_0_r. done.
  - replace (p + 4 * Z.of_nat (S k)) with (p + 4 + 4 * Z.of_nat k) by lia. by apply IH.
Qed.

(** The registers of the program behind its call. *)
Definition behind_call (c : cpu_t) (next : Z) : cpu_t := set_r_esp (r_esp c + 20) (set_r_eip next c).

Section AtHandler.
Variables (s : kst) (c : cpu_t) (args : list Z) (next p : Z) (s1 : kst).
Hypothesis Hat : at_handler s c args next p s1.

Lemma handler_frame_ok : frame_ok p.
Proof. intros off Ho. apply (ah_room _ _ _ _ _ _ Hat). unfold SIZEOF_SYSCALL_FRAME in Ho. lia. Qed.

Lemma handler_word k w :
  call_words c (k_if s) args next (p + 52) !! k = Some w -> ld32 (k_mem s1) (p + 4 * Z.of_nat k) = w.
Proof.
  intros Hk. destruct (ah_words _ _ _ _ _ _ Hat) as (_ & _ & Hw). fold stack_words in Hw. replace (p - 8 + 4 + 4) with p in Hw by lia.
  by apply (stack_word_at _ _ _ _ _ Hw).
Qed.

Lemma handler_arg k a : args !! k = Some a -> ld32 (k_mem s1) (p + (fr_func_id + 4 * Z.of_nat k)) = a.
Proof.
  intros Hk. replace (p + (fr_func_id + 4 * Z.of_nat k)) with (p + 4 * Z.of_nat (15 + k)) by (unfold fr_func_id; lia).
  apply handler_word. change (call_words _ _ _ _ _ !! (15 + k)%nat) with ((args ++ [r_esp c; r_ss c]) !! k). by apply lookup_app_l_Some.
Qed.

Lemma handler_cpu : user_cpu (k_mem s1) p = behind_call c next /\ user_if (k_mem s1) p = k_if s.
Proof.
  destruct (ah_caller _ _ _ _ _ _ Hat) as (Hc & _ & Hl & _). pose proof (cw_flags _ Hc) as Hf.
  assert (forall k w, call_words c (k_if s) args next (p + 52) !! k = Some w -> ld32 (k_mem s1) (p + 4 * Z.of_nat k) = w) as Hw
    by (intros; by apply handler_word).
  assert (forall k w, [r_esp c; r_ss c] !! k = Some w -> ld32 (k_mem s1) (p + 4 * Z.of_nat (20 + k)) = w) as Hw2.
  { intros k w Hk. apply Hw. change (call_words _ _ _ _ _ !! (20 + k)%nat) with ((args ++ [r_esp c; r_ss c]) !! (5 + k)%nat).
    rewrite lookup_app_r by lia. by replace (5 + k - length args)%nat with k by lia. }
  unfold user_cpu, user_if, behind_call.
  change fr_eflags with (4 * Z.of_nat 0). change fr_gs with (4 * Z.of_nat 1). change fr_fs with (4 * Z.of_nat 2).
  change fr_es with (4 * Z.of_nat 3). change fr_ds with (4 * Z.of_nat 4). change fr_edi with (4 * Z.of_nat 5).
  change fr_esi with (4 * Z.of_nat 6). change fr_ebp with (4 * Z.of_nat 7). change fr_ebx with (4 * Z.of_nat 9).
  change fr_edx with (4 * Z.of_nat 10). change fr_ecx with (4 * Z.of_nat 11). change fr_eax with (4 * Z.of_nat 12).
  change fr_eip with (4 * Z.of_nat 13). change fr_cs with (4 * Z.of_nat 14). change (fr_esp + 4) with (4 * Z.of_nat (20 + 1)).
  change fr_esp with (4 * Z.of_nat (20 + 0)).
  rewrite (Hw2 0%nat (r_esp c)), (Hw2 1%nat (r_ss c)) by done. cbn zeta. 
  erewrite !Hw by reflexivity.
  rewrite eflags_word_if, eflags_word_flags by done. split; [|done]. registers Hc. unfold is_sel in *.
  unfold u16. rewrite !(Z.mod_small _ (2 ^ 16)) by lia. by destruct c.
Qed.

(** A handler that leaves [v] in the frame's EAX, and the rest of the stack as it was. *)
Definition answered (v : Z) (s2 : kst) : Prop :=
  forall a, p - 8 <= a < p + 88 -> mget (k_mem s2) a = mget (st32 (k_mem s1) (p + fr_eax) v) a.

Lemma answered_word v s2 o :
  answered v s2 -> -8 <= o -> o + 4 <= 88 -> (o + 4 <= fr_eax \/ fr_eax + 4 <= o) -> ld32 (k_mem s2) (p + o) = ld32 (k_mem s1) (p + o).
Proof.
  intros Ha Hlo Hhi Ho. rewrite <- (ld32_st32_ne (k_mem s1) (p + fr_eax) v) by lia. apply ld32_ext. intros a Hin. apply Ha. lia.
Qed.

Lemma syscall_back v s2 c2 :
  answered v s2 -> r_esp c2 = p - 8 -> r_cs c2 = KERNEL_SELECTOR_CS ->
  (ccall_return cc;; syscall_exit) c2 s2 = Done (tt, set_r_eax (u32 v) (behind_call c next)) (set_k_if (k_if s) s2).
Proof.
  intros Ha Esp Ecs. destruct handler_cpu as [Ec Ei]. destruct (ah_caller _ _ _ _ _ _ Hat) as (Hc & Hu & _ & Hesp).
  assert (forall o, -8 <= o -> o + 4 <= 88 -> (o + 4 <= fr_eax \/ fr_eax + 4 <= o) -> ld32 (k_mem s2) (p + o) = ld32 (k_mem s1) (p + o)) as Hw
    by (intros; by apply (answered_word v)).
  assert (ld32 (k_mem s1) (p + fr_cs) = r_cs c) as Hcs by (by apply (handler_word 14)).
  assert (r_esp (user_cpu (k_mem s1) p) = r_esp c + 20) as Hes by (by rewrite Ec). cbn in Hes.
  assert (ld32 (k_mem s2) (p + fr_eax) = u32 v) as Hv.
  { rewrite <- (ld32_st32_eq (k_mem s1) (p + fr_eax) v). apply ld32_ext. intros a Hin. apply Ha. unfold fr_eax in *. lia. }
  rewrite (syscall_exit_run c2 s2 p Esp).
  - f_equal; [f_equal | f_equal].
    + rewrite <- Ec. unfold user_cpu. cbn zeta. xproj. rewrite Hv. by rewrite !Hw by (unfold fr_eax; vm_compute; intuition congruence).
    + rewrite <- Ei. unfold user_if. by rewrite Hw by (unfold fr_eax; vm_compute; intuition congruence).
  - replace (p - 8) with (p + -8) by lia. rewrite Hw by (unfold fr_eax; lia). apply (ah_words _ _ _ _ _ _ Hat).
  - apply (ah_room _ _ _ _ _ _ Hat).
  - rewrite Hw, Hcs, Ecs by (unfold fr_eax, fr_cs; lia). change (rpl KERNEL_SELECTOR_CS) with 0. by apply Z.ltb_lt.
  - rewrite Hw by (unfold fr_eax, fr_esp; lia). change (ld32 (k_mem s1) (p + fr_esp) + 20 = r_esp c + 20) in Hes. lia.
Qed.

End AtHandler.

(** A call the kernel answers at once, after [P] was done with the devices. *)
Lemma call_answered c s args next top ss v (P : nat -> list (Z * Z) -> Prop) :
  let p := top - 88 in
  calls_kernel s c args next top ss ->
  (forall s1, at_handler s c args next p s1 -> exists n o, P n o /\
     do_handler_syscall p s1 = Done tt (set_k_mem (st32 (k_mem s1) (p + fr_eax) v) (set_k_reads n (set_k_out o s1)))) ->
  exists m n o, P n o /\
    call_kernel cc next c s = Done (tt, set_r_eax (u32 v) (behind_call c next)) (set_k_mem m (set_k_reads n (set_k_out o s))) /\
    forall a, a < top - 96 \/ top <= a -> mget m a = mget (k_mem s) a.
Proof.
  intros p Hck Hh. destruct (call_kernel_run c s args next top ss Hck) as (c2 & Esp & Ecs & E).
  pose proof (handler_state_at c s args next top ss Hck) as Hat. set (s1 := handler_state _ _ _ _ _) in *.
  destruct (Hh s1 Hat) as (n & o & HP & Eh). destruct (ah_state _ _ _ _ _ _ Hat) as (m & Es1). rewrite Es1 in *. clear Es1 s1. kproj.
  exists (st32 m (p + fr_eax) v), n, o. split_and!; [done | |].
  - fold p in E. rewrite Eh in E. cbn [obind] in E. cbn [k_mem set_k_mem] in E.
    rewrite (syscall_back s c args next p _ Hat v) in E; [| done | rewrite Esp; unfold p; lia | done].
    inversion E as [a s' E1 E2| | |]. by destruct s.
  - intros a Ha. unfold p. rewrite mget_st32_ne by (unfold fr_eax; lia). apply (ah_out _ _ _ _ _ _ Hat). unfold p. lia.
Qed.

(** ** Registers from memory *)

(** The frame that memory holds at [p]. *)
Definition frame_in (m : gmap Z Z) (p : Z) : exception_frame_t :=
  let w k := ld32 m (p + 4 * k) in
  ExceptionFrame (w 0) (w 1) (w 2) (w 3) (w 4) (w 5) (w 6) (w 7) (w 8) (w 9) (w 10) (w 11) (w 12) (w 13) (w 14) (w 15) (w 16) (w 17) (w 18).

Lemma frame_in_words m p outer : stack_words m p (frame_words (frame_in m p) outer).
Proof. unfold frame_words, frame_in. destruct outer; cbn; repeat (split; [f_equal; lia|]); done. Qed.

Lemma frame_in_word m p : Forall is_word (frame_words (frame_in m p) true).
Proof. unfold frame_words, frame_in. cbn. repeat constructor; apply ld32_range. Qed.

Lemma u16_sel v : is_sel (u16 v).
Proof. unfold is_sel, u16. apply Z.mod_pos_bound. lia. Qed.

Lemma clearbit_word v : is_word v -> is_word (Z.clearbit v 9).
Proof. apply (eflags_word_word false). Qed.

Lemma frame_cpu_wf f outer esp ss :
  Forall is_word (frame_words f true) -> is_word esp -> is_sel ss -> cpu_wf (frame_cpu f outer esp ss).
Proof.
  intros Hf He Hs. unfold frame_words in Hf. cbn [app] in Hf. repeat (apply Forall_cons in Hf as [? Hf]).
  constructor; unfold frame_cpu; xproj; [| |apply Z.clearbit_eq].
  - destruct outer; words; by apply clearbit_word.
  - destruct outer; words; apply u16_sel.
Qed.

Lemma user_cpu_wf m p : ld32 m (p + fr_esp) + 20 < 2 ^ 32 -> cpu_wf (user_cpu m p).
Proof.
  intros He. pose proof (ld32_range m (p + fr_esp)). constructor; unfold user_cpu; cbn zeta; xproj; [| |apply Z.clearbit_eq].
  - words; try apply ld32_range; [unfold is_word; lia | apply clearbit_word, ld32_range].
  - words; apply u16_sel.
Qed.

(** * Properties *)

(** C10: Two calls as the program sees them, from its [lcall] to the next instruction: [getpid]
    gives it its process number and a call the kernel does not know gives it -1, in EAX; the
    arguments are gone from its stack, every other register, its interrupt flag and its
    memory are as they were, and of the kernel's memory only its task's kernel stack has
    changed. *)
Theorem call_returns_to_program c s id a0 a1 a2 a3 next top ss task :
  calls_kernel s c [id; a0; a1; a2; a3] next top ss -> k_tasks s !! curr_task (k_tm s) = Some task ->
  let returns_with v s' := call_kernel cc next c s = Done (tt, set_r_eax v (behind_call c next)) s' in
  let stack_only m := forall a, a < top - 96 \/ top <= a -> mget m a = mget (k_mem s) a in
  (id = SYS_getpid -> exists m, returns_with (u32 (t_pid task)) (set_k_mem m s) /\ stack_only m) /\
  (6 <= id -> com1_ready -> log_free s -> Forall (fun b => 0 <= b < 256) (t_name task) -> length (t_name task) = 32%nat ->
   exists m s', returns_with 0xFFFFFFFF s' /\ logged (set_k_mem m s) s' /\ stack_only m).
Proof.
  intros Hck Ht returns_with stack_only. set (p := top - 88).
  assert (forall s1, at_handler s c [id; a0; a1; a2; a3] next p s1 ->
    frame_ok p /\ k_tasks s1 !! curr_task (k_tm s1) = Some task /\ ld32 (k_mem s1) (p + fr_func_id) = id /\
    k_reads s1 = k_reads s /\ k_out s1 = k_out s /\ (log_free s -> log_free s1)) as Hat.
  { intros s1 Hat. pose proof (handler_frame_ok _ _ _ _ _ _ Hat) as Hf. pose proof (handler_arg _ _ _ _ _ _ Hat 0 id eq_refl) as Hid.
    destruct (ah_state _ _ _ _ _ _ Hat) as (m & ->). by split_and!. }
  split.
  - intros Eid. destruct (call_answered c s _ next top ss (t_pid task) (fun n o => n = k_reads s /\ o = k_out s) Hck)
      as (m & n & o & (-> & ->) & E & Hout); [|exists m; split; [by destruct s | done]].
    intros s1 Hs1. destruct (Hat s1 Hs1) as (Hf & Ht1 & Hid & Er & Eo & _). exists (k_reads s), (k_out s). split; [done|].
    destruct (syscall_answers_run s1 p task Hf Ht1) as [Hget _]. fold p. rewrite (Hget ltac:(by rewrite Hid)). rewrite <- Er, <- Eo. by destruct s1.
  - intros Eid Hcom Hlog Hb Hl. destruct (call_answered c s _ next top ss (-1) (fun _ _ => True) Hck) as (m & n & o & _ & E & Hout).
    + intros s1 Hs1. destruct (Hat s1 Hs1) as (Hf & Ht1 & Hid & _ & _ & Hlog1).
      destruct (syscall_answers_run s1 p task Hf Ht1) as [_ Hun]. destruct Hun as (s2 & E & n & o & ->); [by rewrite Hid | done | by apply Hlog1 | done | done |].
      exists n, o. split; [done | exact E].
    + exists m. eexists. split_and!; [exact E | | done]. exists n, o. by destruct s.
Qed.

(** C13: Whatever words the handler leaves in a frame, the stubs load exactly those: the
    exception stub, from the frame above the return address and the argument, EAX to EDI but ESP,
    EIP, the data selectors, CS and EFLAGS without the bit of IF, which goes to the interrupt
    flag; ESP and SS from the frame when its CS is of an outer level, and else the stack
    behind the frame and SS as it was. The system call stub, when CS is of an outer level, loads the same
    registers from its own frame, and ESP behind the five words of the call. Both leave
    registers of their widths and change nothing in the kernel's state but IF. *)
Theorem stubs_return_well_typed c s :
  cpu_wf c -> ld32 (k_mem s) (r_esp c) = cc_ret cc -> stack_room (r_esp c) (r_esp c + 96) ->
  let p := r_esp c + 8 in
  let f := frame_in (k_mem s) p in
  let f_cpu := frame_cpu f (rpl (r_cs c) <? rpl (f_cs f)) (r_esp c + 76) (r_ss c) in
  ((ccall_return cc;; exception_exit) c s = Done (tt, f_cpu) (set_k_if (Z.testbit (f_eflags f) 9) s) /\ cpu_wf f_cpu) /\
  (rpl (r_cs c) < rpl (ld32 (k_mem s) (p + fr_cs)) -> ld32 (k_mem s) (p + fr_esp) + 20 < 2 ^ 32 ->
   (ccall_return cc;; syscall_exit) c s = Done (tt, user_cpu (k_mem s) p) (set_k_if (user_if (k_mem s) p) s) /\
   cpu_wf (user_cpu (k_mem s) p)).
Proof.
  intros Hc Hret Hr p f f_cpu. pose proof (kmapped_range _ (Hr (r_esp c) ltac:(lia))) as Hlo.
  pose proof (kmapped_range _ (Hr (r_esp c + 95) ltac:(lia))) as Hhi. unfold MEM_EXT_END in *.
  split.
  - unfold f_cpu. set (outer := rpl (r_cs c) <? rpl (f_cs f)).
    split; [apply (exception_exit_run cc f c s (ld32 (k_mem s) (r_esp c + 4)) outer)|].
    + cbn [stack_words]. split; [done|]. split; [done|]. replace (r_esp c + 4 + 4) with (r_esp c + 8) by lia. apply frame_in_words.
    + intros a Ha. apply Hr. unfold frame_words in Ha. destruct outer; bytes.
    + done.
    + apply frame_cpu_wf; [apply frame_in_word | unfold is_word; lia | by registers Hc].
  - intros Hcs Hesp. split; [apply (syscall_exit_run c s p); unfold p in *; try done; try lia|].
    + by replace (r_esp c + 8 - 8) with (r_esp c) by lia.
    + replace (r_esp c + 8 - 8) with (r_esp c) by lia. by replace (r_esp c + 8 + 88) with (r_esp c + 96) by lia.
    + by apply user_cpu_wf.
Qed.

End CallPath.
