(* ===== verification/CallFork.v ===== *)
(** [fork] as the programs see it: it returns in the parent and in the child with the same
    registers, but for EAX. *)
From S2P Require Import Prelude DList Bitmap Machine MachineFacts Klib Format Sched Ipc Log Cpu Alloc Paging AddrSpace CopySpace Irq Timer.
From S2P Require Import Fs Task TaskLife Exec ProgLoad ExecSpace LoadElf CopyArgs ExecRun Syscall Fork Init Boot Asm Entry EntryRun CallPath.

(** The registers a task starts with, and its IF. *)
Definition cpu_of_tss (x : tss_t) : cpu_t :=
  Cpu (tss_eax x) (tss_ecx x) (tss_edx x) (tss_ebx x) (tss_esp x) (tss_ebp x) (tss_esi x) (tss_edi x) (tss_eip x)
    (Z.clearbit (tss_eflags x) 9) (u16 (tss_cs x)) (u16 (tss_ss x)) (u16 (tss_ds x)) (u16 (tss_es x)) (u16 (tss_fs x)) (u16 (tss_gs x)).

Section CallFork.
Context `{Layout} `{Device}.
Variable cc : c_call.
Hypothesis Hcc : is_word (cc_ret cc).

(** A word written to two memories that agree. *)
Lemma st32_same m m' a v b : mget m' b = mget m b -> mget (st32 m' a v) b = mget (st32 m a v) b.
Proof. intros E. by rewrite !mget_st32, E. Qed.

(** The child's registers are those of the frame, but for EAX and SS. *)
Lemma cpu_of_forked m frame x :
  tss_eip x = ld32 m (frame + fr_eip) -> tss_esp x = ld32 m (frame + fr_esp) + 20 ->
  cpu_of_tss (forked_tss m frame x) = set_r_eax 0 (set_r_ss (u16 (tss_ss x)) (user_cpu m frame)).
Proof. intros Ei Es. unfold cpu_of_tss, forked_tss, tss_forked, user_cpu. cbn. by rewrite Ei, Es. Qed.

Section Fork.
Variables (s : kst) (c : cpu_t) (args : list Z) (next top ss : Z).
Hypothesis Hck : calls_kernel s c (SYS_fork :: args) next top ss.
Let p := top - 88.
Let s1 := handler_state cc s c (SYS_fork :: args) next top.

(** The stack the handler runs on lies apart from the free frames and the kernel's page tables. *)
Definition stack_apart : Prop :=
  forall a, top - 96 <= a < top -> (page_of a ∉ frames s1) /\ ~ pt_page (k_mem s1) kernel_page_dir (page_of a).

(** C8: [fork] returns twice: the parent goes on behind its [lcall] with the number of the child in
    EAX, and the child, which is at the end of the ready queue, starts there with 0 in EAX;
    all other registers, the stack pointer and the interrupt flag are the same in both. (Which
    memory the child finds there is the subject of [sys_fork_makes_child]; when the copy of
    the parent's space fails it has none.) *)
Theorem fork_returns_twice v child pt t0 sel ts :
  fork_pre s1 v child pt t0 sel ts -> tss_esp0 (t_tss pt) = top -> stack_apart ->
  r_ss c = u16 (Z.lor (app_data_sel (k_tm s)) SEG_RPL3) ->
  exists s' t, call_kernel cc next c s = Done (tt, set_r_eax (u32 (i32 child)) (behind_call c next)) s' /\
    sched_inv s' (a_set_ready child v) /\ k_tasks s' !! child = Some t /\ t_state t = TASK_READY /\
    cpu_of_tss (t_tss t) = set_r_eax 0 (behind_call c next) /\ Z.testbit (tss_eflags (t_tss t)) 9 = k_if s /\ k_if s' = k_if s.
Proof.
  intros Hpre Htop Hap Hss. pose proof (handler_state_at cc Hcc c s _ next top ss Hck) as Hat. fold p s1 in Hat.
  destruct (call_kernel_run cc c s _ next top ss Hck) as (c2 & Esp & Ecs & E). fold p s1 in E, Esp.
  destruct (handler_cpu cc s c _ next p s1 Hat) as [Ecpu Eif].
  destruct (sys_fork_run s1 v child pt t0 sel ts Hpre) as (s2 & t & stack & dir & r & Ef & Hi & Ets & Est & _ & _ & _ & Etss & _ & Hsame & _).
  pose proof (handler_frame_ok cc s c _ next p s1 Hat) as Hf.
  assert (u32 (tss_esp0 (t_tss pt) - SIZEOF_SYSCALL_FRAME) = p) as Ep.
  { rewrite Htop. change (top - SIZEOF_SYSCALL_FRAME) with p. apply u32_small.
    pose proof (kmapped_range p (ah_room _ _ _ _ _ _ _ Hat p ltac:(unfold p; lia))) as Hk. unfold MEM_EXT_END in Hk. lia. }
  rewrite Ep in Etss. pose proof (handler_arg cc s c _ next p s1 Hat 0 SYS_fork eq_refl) as Hid.
  replace (fr_func_id + 4 * Z.of_nat 0) with fr_func_id in Hid by lia.
  assert (do_handler_syscall p s1 = Done tt (set_k_mem (st32 (k_mem s2) (p + fr_eax) (i32 child)) s2)) as Eh.
  { erewrite (do_handler_syscall_known s1 p sys_fork Hf) by (unfold frame_call; cbn zeta; rewrite Hid; reflexivity).
    rewrite run_bind, Ef. cbn [obind]. by apply frame_store. }
  set (s3 := set_k_mem _ s2) in Eh. rewrite Eh in E. cbn [obind] in E.
  rewrite (syscall_back cc s c _ next p s1 Hat (i32 child) s3 c2) in E; [| | rewrite Esp; unfold p; lia | done].
  - exists (set_k_if (k_if s) s3), t. split_and!.
    + by inversion E.
    + destruct Hi. by split.
    + unfold s3. kproj. rewrite Ets. apply lookup_insert_eq.
    + done.
    + rewrite Etss. set (x := tss_ready _ _ _ _ _ _). change (cpu_of_tss (forked_tss (k_mem s1) p x) = set_r_eax 0 (behind_call c next)).
      assert (r_esp (user_cpu (k_mem s1) p) = r_esp c + 20) as Hes by (by rewrite Ecpu).
      change (ld32 (k_mem s1) (p + fr_esp) + 20 = r_esp c + 20) in Hes. pose proof (ld32_range (k_mem s1) (p + fr_esp)).
      rewrite (cpu_of_forked (k_mem s1) p x); [| done |].
      * rewrite Ecpu. change (tss_ss x) with (Z.lor (app_data_sel (k_tm s)) SEG_RPL3). by rewrite <- Hss.
      * apply u32_small. destruct (ah_caller _ _ _ _ _ _ _ Hat) as (_ & _ & _ & ?). lia.
    + rewrite Etss. exact Eif.
    + done.
  - intros a Ha. unfold s3. kproj. apply st32_same. destruct (Hap a) as [Hfr Hpt]; [unfold p in Ha; lia|]. by apply (Hsame (page_of a)).
Qed.

End Fork.

End CallFork.
