(* ===== verification/Start.v ===== *)
(** The first instructions of the kernel, of the loader's protected-mode part and of the
    programs: [_start] of kernel/init/start_kernel.S, the [iret] at the end of kernel/init/init.c,
    kernel/init/first_task_entry.S, loader/start_loader.S and applib/crt0.S. *)
From S2P Require Import Prelude DList Bitmap Machine MachineFacts Klib Format Sched Ipc Log Cpu Alloc Paging AddrSpace KernelMap CopySpace Irq Timer.
From S2P Require Import Fs Task TaskLife Exec Syscall Fork Init Boot FirstTask Asm Entry.

(** [mov %ss, %ax] and the loads of DS, ES, FS and GS from it. *)
Definition data_segments_from_ss : X unit :=
  xmodify (fun c => set_r_ax (r_ss c) c);;
  xmodify (fun c => set_r_ds (r_ax c) c);;
  xmodify (fun c => set_r_es (r_ax c) c);;
  xmodify (fun c => set_r_fs (r_ax c) c);;
  xmodify (fun c => set_r_gs (r_ax c) c).

(** [mov $sel, %ax] and the loads of the five segment registers from it. *)
Definition data_segments (sel : Z) : X unit :=
  xmodify (set_r_ax sel);;
  xmodify (fun c => set_r_ds (r_ax c) c);;
  xmodify (fun c => set_r_ss (r_ax c) c);;
  xmodify (fun c => set_r_es (r_ax c) c);;
  xmodify (fun c => set_r_fs (r_ax c) c);;
  xmodify (fun c => set_r_gs (r_ax c) c).

Definition jmp (target : Z) : X unit := xmodify (set_r_eip target).

Definition ljmp (sel target : Z) : X unit := xmodify (fun c => set_r_cs sel (set_r_eip target c)).

(** crt0.S, first_task_entry.S and [protected_mode_entry]; the arguments are where the linker
    put the C functions. *)
Definition crt0_start (cstart : Z) : X unit := data_segments_from_ss;; jmp cstart.

Definition first_task_entry_code (first_task_main : Z) : X unit := data_segments_from_ss;; jmp first_task_main.

Definition protected_mode_entry (load_kernel : Z) : X unit := data_segments 16;; ljmp 8 load_kernel.

(** ** The kernel's [_start] *)
Section Start.
Context `{Layout} `{Device}.
Variable cc : c_call.
(** The label [gdt_reload], the function [init_main], and the stack that it and
    [move_to_first_task] use up to the [iret]. *)
Variables gdt_reload init_main_at init_main_frame : Z.

(** The structure of boot_info.h at [p]. *)
Fixpoint region_pairs (ws : list Z) : list (Z * Z) :=
  match ws with
  | start :: size :: ws => (start, size) :: region_pairs ws
  | _ => []
  end.

Definition read_boot_info (p : Z) : K boot_info_t :=
  ws ← load_list 20 p;
  count ← lift (load32 (p + 80));
  mret (BootInfo (region_pairs ws) (i32 count)).

(** [move_to_first_task] pushes what the [iret] takes. *)
Definition enter_first_task (ws : Z * Z * Z * Z * Z) : X unit :=
  let '(ss, esp, eflags, cs, eip) := ws in
  push_list [ss; esp; eflags; cs; eip];;
  iret.

Definition init_main_code : X unit :=
  add_esp (- init_main_frame);;
  ws ← onx init_main;
  enter_first_task ws.

Definition kernel_start (bits : list Z) : X unit :=
  push_reg r_ebp;;
  xmodify (fun c => set_r_ebp (r_esp c) c);;
  ebp ← xgets r_ebp;
  boot_info ← onx (lift (load32 (u32 (ebp + 8))));
  xmodify (set_r_eax boot_info);;
  push_reg r_eax;;
  ccall cc (fun p => info ← read_boot_info p; kernel_init bits info);;
  ljmp KERNEL_SELECTOR_CS gdt_reload;;
  data_segments KERNEL_SELECTOR_DS;;
  jmp init_main_at;;
  init_main_code.

(** * Lemmas *)
Hypothesis Hcc : is_word (cc_ret cc).

(** The structure, from its words in memory. *)
Definition boot_info_of (m : gmap Z Z) (p : Z) : boot_info_t :=
  BootInfo (region_pairs ((fun i => ld32 m (p + 4 * i)) <$> seqZ 0 20)) (i32 (ld32 m (p + 80))).

Lemma load_list_words n : forall a s,
  (forall x, a <= x < a + 4 * Z.of_nat n -> kmapped x = true) ->
  load_list n a s = Done ((fun i => ld32 (k_mem s) (a + 4 * i)) <$> seqZ 0 (Z.of_nat n)) s.
Proof.
  induction n as [|n IH]; intros a s Hk; [done|]. cbn [load_list]. rewrite run_bind.
  erewrite lift_done by (apply load32_kernel, Hk; lia). cbn [obind]. rewrite set_k_mem_id, run_bind, IH by (intros; apply Hk; lia).
  cbn [obind]. rewrite run_ret, (seqZ_cons 0 (Z.of_nat (S n))) by lia. cbn [fmap list_fmap]. replace (a + 4 * 0) with a by lia.
  replace (Z.pred (Z.of_nat (S n))) with (Z.of_nat n) by lia. do 2 f_equal.
  change (Z.succ 0) with (1 + 0). rewrite <- (fmap_add_seqZ 1 0), <- list_fmap_compose. apply list_fmap_ext. intros i x _. cbn. f_equal. lia.
Qed.

Lemma read_boot_info_run p s :
  (forall x, p <= x < p + 84 -> kmapped x = true) -> read_boot_info p s = Done (boot_info_of (k_mem s) p) s.
Proof.
  intros Hk. unfold read_boot_info. rewrite run_bind, load_list_words by (intros; apply Hk; lia). cbn [obind].
  rewrite run_bind. erewrite lift_done by (apply load32_kernel, Hk; lia). cbn [obind]. by rewrite set_k_mem_id, run_ret.
Qed.

Lemma set_r_ax_ax v c : is_sel v -> r_ax (set_r_ax v c) = v.
Proof. unfold is_sel, r_ax, set_r_ax, set_low16, u16. cbn [r_eax set_r_eax]. intros Hv. change (2 ^ 16) with 65536 in *. zdiv. Qed.

Lemma boot_info_ext m m' p : (forall a, p <= a < p + 84 -> mget m' a = mget m a) -> boot_info_of m' p = boot_info_of m p.
Proof.
  intros E. unfold boot_info_of. f_equal; [f_equal|f_equal; apply ld32_ext; intros; apply E; lia].
  apply list_fmap_ext. intros i x (-> & Hi)%lookup_seqZ. apply ld32_ext. intros. apply E. lia.
Qed.

(** The stack the loader calls the kernel on: the pointer to its boot information on top,
    and [room] bytes below. *)
Record boot_stack (s : kst) (c : cpu_t) (p room : Z) : Prop := {
  bs_cpu : cpu_wf c;
  bs_arg : ld32 (k_mem s) (r_esp c + 4) = p;
  bs_room : forall a, r_esp c - room <= a < r_esp c + 8 -> kmapped a = true /\ a < MEM_EXT_START /\ page_of a <> kernel_page_dir;
  bs_info : forall a, p <= a < p + 84 -> kmapped a = true /\ (a < r_esp c - 12 \/ r_esp c <= a)
}.

(** The words [_start] has pushed when [kernel_init] is called, and the state. *)
Definition start_words (c : cpu_t) (p : Z) : list Z := [r_ebp c; p; cc_ret cc].

Definition start_state (s : kst) (c : cpu_t) (p : Z) : kst := set_k_mem (push_words (k_mem s) (r_esp c) (start_words c p)) s.

Section Run.
Variables (s : kst) (c : cpu_t) (p room : Z).
Hypothesis Hbs : boot_stack s c p room.
Hypothesis Hroom : 12 <= room.

Lemma start_room a : r_esp c - room <= a < r_esp c + 8 -> kmapped a = true.
Proof. intros Ha. by apply (bs_room _ _ _ _ Hbs). Qed.

Lemma start_esp : 12 <= r_esp c /\ r_esp c + 8 < 2 ^ 32.
Proof.
  pose proof (kmapped_range _ (start_room (r_esp c - 12) ltac:(lia))) as H1.
  pose proof (kmapped_range _ (start_room (r_esp c + 7) ltac:(lia))) as H2. unfold MEM_EXT_END in *. lia.
Qed.

Lemma start_out a : a < r_esp c - 12 \/ r_esp c <= a -> mget (k_mem (start_state s c p)) a = mget (k_mem s) a.
Proof. intros Ha. unfold start_state. kproj. apply push_words_out. exact Ha. Qed.

Lemma start_ret : stack_words (k_mem (start_state s c p)) (r_esp c - 12) [cc_ret cc].
Proof.
  unfold start_state, start_words. kproj.
  assert (is_word p) as Hp by (rewrite <- (bs_arg _ _ _ _ Hbs); apply ld32_range).
  pose proof (bs_cpu _ _ _ _ Hbs) as Hc. registers Hc.
  pose proof (push_words_stack (start_words c p) (k_mem s) (r_esp c) ltac:(unfold start_words; words)) as Hw.
  change (bytes_of _) with 12 in Hw. destruct Hw as [Hw _]. done.
Qed.

(** [_start] up to and with the call of [kernel_init]. *)
Lemma kernel_start_call bits s2 :
  kernel_init bits (boot_info_of (k_mem s) p) (start_state s c p) = Done tt s2 ->
  (forall a, r_esp c - 12 <= a < r_esp c -> mget (k_mem s2) a = mget (k_mem (start_state s c p)) a) ->
  exists c2, r_esp c2 = r_esp c - 8 /\
    kernel_start bits c s = (ljmp KERNEL_SELECTOR_CS gdt_reload;; data_segments KERNEL_SELECTOR_DS;; jmp init_main_at;; init_main_code) c2 s2.
Proof.
  intros E Hkeep. pose proof start_esp as He. set (top := r_esp c) in *.
  set (c1 := set_r_esp (top - 8) (set_r_eax p (set_r_ebp (top - 4) (set_r_esp (top - 4) c)))).
  set (s1 := set_k_mem (st32 (st32 (k_mem s) (top - 4) (r_ebp c)) (top - 8) p) s).
  set (tail := _ ;; _). exists (set_r_esp (top - 8) (set_r_edx (cc_edx cc) (set_r_ecx (cc_ecx cc) (set_r_eax (cc_eax cc) (set_r_esp (top - 12) c1))))).
  split; [done|].
  assert (kernel_start bits c s = obind (fun x => tail x.2) (ccall cc (fun p => info ← read_boot_info p; kernel_init bits info) c1 s1)) as ->.
  { unfold kernel_start. unfold push_reg. xred. rewrite pushl_run by (apply start_room; lia). xred. xproj. kproj.
    rewrite u32_small by lia. erewrite lift_done by (apply load32_kernel, start_room; lia). xred. kproj. replace (r_esp c - 4 + 8) with (top + 4) by (unfold top; lia).
    rewrite ld32_st32_ne by lia. fold top. rewrite (bs_arg _ _ _ _ Hbs : ld32 (k_mem s) (top + 4) = p). rewrite pushl_run by (xproj; apply start_room; lia).
    xred. xproj. kproj. replace (top - 4 - 4) with (top - 8) by lia. by destruct s. }
  assert (ccall_return cc (set_r_esp (top - 12) c1) s2 =
    Done (tt, set_r_esp (top - 8) (set_r_edx (cc_edx cc) (set_r_ecx (cc_ecx cc) (set_r_eax (cc_eax cc) (set_r_esp (top - 12) c1))))) s2) as Eret.
  { unfold ccall_return. xred. erewrite popl_run; [| xproj; apply start_room; lia |].
    2: { xproj. rewrite (ld32_ext (k_mem (start_state s c p))) by (intros; apply Hkeep; lia). apply start_ret. }
    xred. rewrite Z.eqb_refl. xred. do 2 f_equal. xproj. by replace (top - 12 + 4) with (top - 8) by lia. }
  assert (set_k_mem (st32 (k_mem s1) (top - 12) (cc_ret cc)) s1 = start_state s c p) as Es.
  { unfold start_state, start_words, s1. cbn [push_words]. kproj. fold top. replace (top - 4 - 4 - 4) with (top - 12) by lia. replace (top - 4 - 4) with (top - 8) by lia. by destruct s. }
  assert (ld32 (k_mem s1) (top - 8) = p) as Earg.
  { unfold s1. kproj. rewrite ld32_st32_eq. apply u32_small. rewrite <- (bs_arg _ _ _ _ Hbs). apply ld32_range. }
  pose proof (ccall_run cc (fun p => info ← read_boot_info p; kernel_init bits info) c1 s1 p
    (start_room (top - 8) ltac:(lia)) ltac:(replace (r_esp c1 - 4) with (top - 12) by (cbn; lia); apply start_room; lia) Earg) as Ec.
  change (r_esp c1) with (top - 8) in Ec. replace (top - 8 - 4) with (top - 12) in Ec by lia.
  rewrite Es, run_bind, read_boot_info_run in Ec by (intros x Hx; by apply (bs_info _ _ _ _ Hbs)). cbn [obind] in Ec.
  rewrite (boot_info_ext (k_mem s)), E in Ec.
  2: { intros a Ha. apply start_out. destruct (bs_info _ _ _ _ Hbs a Ha). fold top. lia. }
  cbn [obind] in Ec. rewrite Eret in Ec. inversion Ec. by cbn [obind snd].
Qed.

End Run.

(** The far jump and the segment registers. *)
Lemma reload_run c s :
  exists c3, (ljmp KERNEL_SELECTOR_CS gdt_reload;; data_segments KERNEL_SELECTOR_DS;; jmp init_main_at;; init_main_code) c s = init_main_code c3 s /\
    r_esp c3 = r_esp c /\ r_cs c3 = KERNEL_SELECTOR_CS.
Proof. eexists. split; [unfold ljmp, data_segments, jmp; xred; reflexivity | done]. Qed.

(** The start-up code of a program. *)
Lemma data_segments_from_ss_run f c s :
  is_sel (r_ss c) ->
  exists eax, (data_segments_from_ss;; jmp f) c s =
    Done (tt, set_r_eip f (set_r_eax eax (set_r_gs (r_ss c) (set_r_fs (r_ss c) (set_r_es (r_ss c) (set_r_ds (r_ss c) c)))))) s.
Proof.
  intros Hs. exists (r_eax (set_r_ax (r_ss c) c)). pose proof (set_r_ax_ax (r_ss c) c Hs) as E.
  unfold data_segments_from_ss, jmp. xred. unfold r_ax in *. xproj. rewrite !E. by destruct c.
Qed.

(** The [iret] to an outer level. *)
Lemma enter_first_task_run c s ss esp eflags cs eip :
  stack_room (r_esp c - 20) (r_esp c) -> Forall is_word [ss; esp; eflags; cs; eip] -> leaves c cs = true ->
  enter_first_task (ss, esp, eflags, cs, eip) c s =
    Done (tt, set_r_flags (Z.clearbit eflags 9) (returned c eip cs esp ss 0))
      (set_k_if (Z.testbit eflags 9) (set_k_mem (push_words (k_mem s) (r_esp c) [ss; esp; eflags; cs; eip]) s)).
Proof.
  intros Hr Hw Hl. unfold enter_first_task. xred. rewrite push_list_run by exact Hr. xred.
  change (bytes_of _) with 20. set (c1 := set_r_esp _ c). set (s1 := set_k_mem _ s).
  assert (leaves c1 cs = true) as Hl1 by exact Hl.
  rewrite (iret_run c1 s1 eip cs eflags esp ss).
  - unfold returned. rewrite Hl, Hl1. done.
  - rewrite Hl1. cbn [app]. pose proof (push_words_stack [ss; esp; eflags; cs; eip] (k_mem s) (r_esp c) Hw) as Hst. exact Hst.
  - rewrite Hl1. change (bytes_of _) with 20. change (r_esp c1) with (r_esp c - 20). by replace (r_esp c - 20 + 20) with (r_esp c) by lia.
Qed.

(** * Properties *)

(** C1: Start-up succeeds, from the loader's call of the kernel to the C code of the first user
    task. With zeroed static objects and a memory map with room for the page tables, [_start]
    hands the loader's boot information to [kernel_init], reloads the segment registers from
    the kernel's GDT and goes on in [init_main], without a failed assertion, a fault or a wait;
    the [iret] at its end leaves the kernel for the first task, whose start-up code makes the
    data segments equal to SS and jumps to [first_task_main], in ring 3, on the task's own
    stack, with interrupts on. At that point every part of the kernel is in the state the
    theorems about it start from ([booted]): the scheduler's invariant holds with the first
    task running and ready, its selector designates its own TSS, the GDT and the IDT hold what
    they should, all kernel mutexes are free and a slot of the task table too, the kernel's
    memory is mapped one to one, and the ten pages at the task's entry hold its program. *)
Theorem kernel_start_reaches_first_task bits first_task_main s c p :
  let room := 28 + init_main_frame in
  let s0 := start_state s c p in
  com1_ready -> layout_ok -> first_image -> cold_hw s -> cold_tasks s -> ram_ok bits (boot_info_of (k_mem s) p) ->
  0 <= init_main_frame -> boot_stack s c p room ->
  exists c' s', booted s0 s' /\
    (kernel_start bits;; first_task_entry_code first_task_main) c s = Done (tt, c')
      (set_k_if true (set_k_mem (push_words (k_mem s') (r_esp c - 8 - init_main_frame) [35; first_task_entry + 40960; 0x202; 43; first_task_entry]) s')) /\
    r_eip c' = first_task_main /\ r_esp c' = first_task_entry + 40960 /\ r_flags c' = 2 /\ r_cs c' = 43 /\
    r_ss c' = 35 /\ r_ds c' = 35 /\ r_es c' = 35 /\ r_fs c' = 35 /\ r_gs c' = 35.
Proof.
  intros room s0 Hr Hlo Him Hch Hct Hram Hf Hbs. pose proof (start_esp s c p room Hbs ltac:(lia)) as He.
  assert (cold_hw s0) as Hch0 by (destruct Hch; by constructor).
  assert (cold_tasks s0) as Hct0 by (destruct Hct; by constructor).
  destruct (kernel_init_run bits _ s0 Hr Hlo Hch0 Hct0 Hram) as (s1 & s2 & E & Hh & Ht & Hm).
  destruct (first_task_run s0 s1 s2 Hr Him Hct0 Hh Ht Hm) as (s' & E' & Hb).
  destruct (kernel_start_call s c p room Hbs ltac:(lia) bits s2 E) as (c2 & Esp & Ek).
  { intros a Ha. destruct (bs_room _ _ _ _ Hbs a ltac:(lia)) as (Hk & Hlow & Hdir).
    rewrite (tr_low _ _ Ht) by done. apply (hr_low _ _ Hh); [|done]. pose proof (kmapped_range a Hk). lia. }
  pose proof (fi_entry Him) as (He1 & _ & He3). unfold MEMORY_TASK_BASE in He1.
  destruct (reload_run c2 s2) as (c3 & Er & Esp3 & Ecs3). rewrite Esp in Esp3.
  pose proof (kmapped_range _ (start_room s c p room Hbs (r_esp c - room) ltac:(lia))) as Hlo1. unfold MEM_EXT_END in Hlo1.
  set (sp := r_esp c - 8 - init_main_frame).
  assert (init_main_code c3 s2 = Done (tt, set_r_flags 2 (returned (set_r_esp sp c3) first_task_entry 43 (first_task_entry + 40960) 35 0))
    (set_k_if true (set_k_mem (push_words (k_mem s') sp [35; first_task_entry + 40960; 0x202; 43; first_task_entry]) s'))) as Ei.
  { unfold init_main_code. xred. rewrite add_esp_run by (rewrite Esp3; unfold room in *; lia). xred. rewrite E'. xred.
    replace (r_esp c3 + - init_main_frame) with sp by (unfold sp; lia).
    rewrite enter_first_task_run; [done | | | unfold leaves; xproj; by rewrite Ecs3].
    - xproj. intros a Ha. apply (start_room s c p room Hbs). unfold sp, room in *. lia.
    - words; unfold is_word; lia. }
  rewrite xrun_bind, Ek, Er, Ei. xred. set (c4 := set_r_flags 2 _).
  assert (r_ss c4 = 35 /\ r_esp c4 = first_task_entry + 40960 /\ r_cs c4 = 43) as (E1 & E2 & E3).
  { unfold c4, returned, leaves. xproj. rewrite Ecs3. done. }
  destruct (data_segments_from_ss_run first_task_main c4 (set_k_if true (set_k_mem (push_words (k_mem s') sp [35; first_task_entry + 40960; 0x202; 43; first_task_entry]) s')))
    as (eax & Ed); [by rewrite E1|].
  eexists _, s'. split; [done|]. split; [exact Ed|]. xproj. rewrite E1. unfold c4. xproj. split_and!; try done.
Qed.

End Start.
