(* ===== verification/CallExec.v ===== *)
(** [execve] as the processor sees it: from the caller's [lcall] to the first instruction of
    the new program, and through its start-up code (applib/crt0.S) to [cstart]. *)
From S2P Require Import Prelude DList Bitmap Machine MachineFacts Klib Format Sched Ipc Log Cpu Alloc Paging AddrSpace CopySpace Irq Timer.
From S2P Require Import Fs Task TaskLife Exec ProgLoad ExecSpace LoadElf CopyArgs ExecRun Syscall Fork Init Boot Asm Entry EntryRun CallPath Start.

(** * Memories with the same bytes *)
Definition same_bytes (m m' : gmap Z Z) : Prop := forall a, mget m' a = mget m a.

Lemma same_bytes_word m m' a : same_bytes m m' -> ld32 m' a = ld32 m a.
Proof. intros E. apply ld32_ext. intros b _. apply E. Qed.

Lemma same_bytes_walk m m' d x : same_bytes m m' -> mmu_walk d m' x = mmu_walk d m x.
Proof. intros E. unfold mmu_walk. by rewrite !(same_bytes_word m m') by done. Qed.

Lemma same_bytes_translate m m' d x : same_bytes m m' -> translate d m' x = translate d m x.
Proof. intros E. unfold translate. by rewrite (same_bytes_walk m m'). Qed.

Lemma same_bytes_load8 m m' d x v : same_bytes m m' -> load8 x d m = Some (v, m) -> load8 x d m' = Some (v, m').
Proof.
  intros E. unfold load8. rewrite (same_bytes_translate m m') by done. destruct (translate d m x); [|done].
  cbn. intros [= <-]. by rewrite E.
Qed.

Lemma same_bytes_load32 m m' d x v : same_bytes m m' -> load32 x d m = Some (v, m) -> load32 x d m' = Some (v, m').
Proof.
  intros E. unfold load32. rewrite (same_bytes_translate m m') by done. destruct (translate d m x); [|done].
  cbn. intros [= <-]. by rewrite (same_bytes_word m m').
Qed.

Lemma same_bytes_cstr m m' d str : same_bytes m m' -> forall p, cstr d m p str -> cstr d m' p str.
Proof.
  intros E. induction str as [|c str IH]; intros p Hc; [by apply (same_bytes_load8 m m')|].
  destruct Hc as (Hz & Hl & Hc). split; [done|]. split; [by apply (same_bytes_load8 m m') | by apply IH].
Qed.

Lemma same_bytes_args m m' d to strs : same_bytes m m' -> args_at d m to strs -> args_at d m' to strs.
Proof.
  intros E (Hc & Hv & Hs). split_and!; [by apply (same_bytes_load32 m m') | by apply (same_bytes_load32 m m') |].
  intros i str Hi. destruct (Hs i str Hi) as (p & Hp & Hstr). exists p.
  split; [by apply (same_bytes_load32 m m') | by apply (same_bytes_cstr m m')].
Qed.

(** A word written where it already is. *)
Lemma st32_same_bytes m a v : ld32 m a = u32 v -> same_bytes m (st32 m a v).
Proof.
  intros E b. rewrite mget_st32. unfold ld32 in E.
  pose proof (mget_range m a). pose proof (mget_range m (a + 1)). pose proof (mget_range m (a + 2)). pose proof (mget_range m (a + 3)).
  unfold u8, u32 in *. change (2 ^ 32) with 4294967296 in E. change (2 ^ 8) with 256 in *. change (2 ^ 16) with 65536 in *.
  change (2 ^ 24) with 16777216 in *.
  repeat case_match; try done; repeat match goal with H : (_ =? _) = true |- _ => apply Z.eqb_eq in H; subst end; zdiv.
Qed.

Section CallExec.
Context `{Layout} `{Device}.
Variable cc : c_call.
Hypothesis Hcc : is_word (cc_ret cc).

(** The registers the new program starts with: those of the frame [sys_execve] left, with the
    caller's segments. *)
Definition started (c : cpu_t) (entry : Z) : cpu_t :=
  Cpu 0 0 0 0 stack_top 0 0 0 entry 2 (r_cs c) (r_ss c) (r_ds c) (r_es c) (r_fs c) (r_gs c).

Section Run.
Variables (s : kst) (c : cpu_t) (args : list Z) (next p : Z) (s1 : kst).
Hypothesis Hat : at_handler cc s c args next p s1.

(** The frame after [sys_execve]. *)
Record frame_entered (m : gmap Z Z) (entry : Z) : Prop := {
  fe_set : forall o v, (o, v) ∈ execve_words entry (stack_top - 20) -> ld32 m (p + o) = v;
  fe_kept : forall a, p - 8 <= a < p + 88 ->
    (forall o v, (o, v) ∈ execve_words entry (stack_top - 20) -> a < p + o \/ p + o + 4 <= a) -> mget m a = mget (k_mem s1) a
}.

(** The words of the frame it leaves alone. *)
Lemma entered_word m entry o :
  frame_entered m entry -> In o [-8; fr_gs; fr_fs; fr_es; fr_ds; fr_cs; fr_esp + 4] -> ld32 m (p + o) = ld32 (k_mem s1) (p + o).
Proof.
  intros Hf Ho. apply ld32_ext. intros a Ha.
  assert (-8 <= o /\ o + 4 <= 88 /\ Forall (fun w : Z * Z => o + 4 <= w.1 \/ w.1 + 4 <= o) (execve_words entry (stack_top - 20))) as (H1 & H2 & Hw).
  { destruct Ho as [<-|[<-|[<-|[<-|[<-|[<-|[<-|[]]]]]]]]; (split; [done|]); (split; [done|]);
      repeat (apply Forall_cons; split; [cbn [fst]; unfold fr_gs, fr_fs, fr_es, fr_ds, fr_cs, fr_esp, fr_eip, fr_eax, fr_ebx, fr_ecx, fr_edx,
        fr_esi, fr_edi, fr_ebp, fr_eflags; lia|]); done. }
  apply (fe_kept _ _ Hf); [lia|]. intros o' v Hin.
  pose proof (proj1 (Forall_forall _ _) Hw (o', v) Hin) as Hd. cbn [fst] in Hd. lia.
Qed.

Lemma entered_cpu m entry : frame_entered m entry -> user_cpu m p = started c entry /\ user_if m p = true.
Proof.
  intros Hf. destruct (handler_cpu cc s c args next p s1 Hat) as [Ec _]. destruct (ah_caller _ _ _ _ _ _ _ Hat) as (Hc & _).
  assert (forall o v, (o, v) ∈ execve_words entry (stack_top - 20) -> ld32 m (p + o) = v) as Hw by apply (fe_set _ _ Hf).
  assert (ld32 m (p + fr_eip) = entry) as E1 by (apply Hw; unfold execve_words; set_solver).
  assert (ld32 m (p + fr_eflags) = 0x202) as E2 by (apply Hw; unfold execve_words; set_solver).
  assert (ld32 m (p + fr_esp) = stack_top - 20) as E3 by (apply Hw; unfold execve_words; set_solver).
  assert (forall o, o ∈ [fr_eax; fr_ebx; fr_ecx; fr_edx; fr_esi; fr_edi; fr_ebp] -> ld32 m (p + o) = 0) as E4
    by (intros o Ho; apply Hw; unfold execve_words; set_solver).
  split; [|unfold user_if; by rewrite E2].
  unfold user_cpu in *. cbn zeta in *. rewrite E1, E2, E3, !E4 by set_solver.
  rewrite !(entered_word m entry) by (done || (cbn; tauto)). injection Ec as _ _ _ _ _ _ _ _ _ _ -> -> -> -> -> ->.
  unfold started. f_equal; lia.
Qed.

(** The end of the stub, then. *)
Lemma enters_program entry s2 c2 :
  frame_entered (k_mem s2) entry -> r_esp c2 = p - 8 -> r_cs c2 = KERNEL_SELECTOR_CS ->
  (ccall_return cc;; syscall_exit) c2 s2 = Done (tt, started c entry) (set_k_if true s2).
Proof.
  intros Hf Esp Ecs. destruct (entered_cpu _ _ Hf) as [Ec Ei]. destruct (ah_caller _ _ _ _ _ _ _ Hat) as (Hc & Hu & _ & Hesp).
  rewrite (syscall_exit_run cc c2 s2 p Esp); rewrite ?Ec, ?Ei; try done.
  - replace (p - 8) with (p + -8) by lia. rewrite (entered_word _ entry) by (done || (cbn; tauto)).
    replace (p + -8) with (p - 8) by lia. apply (ah_words _ _ _ _ _ _ _ Hat).
  - apply (ah_room _ _ _ _ _ _ _ Hat).
  - rewrite (entered_word _ entry) by (done || (cbn; tauto)). pose proof (handler_word cc s c args next p s1 Hat 14 (r_cs c) eq_refl) as Hcs.
    change (4 * Z.of_nat 14) with fr_cs in Hcs. rewrite Hcs, Ecs. change (rpl KERNEL_SELECTOR_CS) with 0. by apply Z.ltb_lt.
  - assert (ld32 (k_mem s2) (p + fr_esp) = stack_top - 20) as -> by (apply (fe_set _ _ Hf); unfold execve_words; set_solver). done.
Qed.

End Run.

(** The frame of a call, once [sys_execve] has entered the program. *)
Lemma program_frame s t args named d entry s' :
  program_entered s t args named d entry s' -> frame_entered (tss_esp0 (t_tss t) - 88) s (k_mem s') entry.
Proof.
  intros Hpe. split.
  - exact (pe_frame _ _ _ _ _ _ _ Hpe).
  - intros a Ha Hw. apply (pe_kept _ _ _ _ _ _ _ Hpe); [unfold call_frame, SIZEOF_SYSCALL_FRAME; lia | exact Hw].
Qed.

(** The answer 0 is in the frame already. *)
Lemma answer_same_bytes p s1 m entry : frame_entered p s1 m entry -> same_bytes m (st32 m (p + fr_eax) 0).
Proof. intros Hf. apply st32_same_bytes. rewrite (fe_set _ _ _ _ Hf fr_eax 0); [done | unfold execve_words; set_solver]. Qed.

Lemma frame_entered_ext p s1 m m' entry : same_bytes m m' -> frame_entered p s1 m entry -> frame_entered p s1 m' entry.
Proof.
  intros E [Hs Hk]. split.
  - intros o v Hin. rewrite (same_bytes_word m m') by done. by apply Hs.
  - intros a Ha Hw. rewrite E. by apply Hk.
Qed.

(** * Properties *)

(** C7: A program's [execve] does not return: from its [lcall] the processor reaches the entry
    point of the file, with zeroed registers, interrupts on and the stack pointer below the
    arguments, and through the start-up code there (crt0.S) [cstart], with all data segments
    those of the stack; in the address space CR3 then selects, the bytes of the file are at
    the segment's addresses, and [argc], [argv] and the strings where [cstart] looks for them,
    above its stack pointer. *)
Theorem execve_starts_program cstart s c name argv env a3 next top ss t dir f sep args n vaddr memsz off filesz :
  calls_kernel s c [SYS_execve; name; argv; env; a3] next top ss ->
  let s1 := handler_state cc s c [SYS_execve; name; argv; env; a3] next top in
  let file := disk_byte (k_reads s) in
  let entry := word32 file e_entry in
  exec_call s1 t name dir f sep argv args -> tss_esp0 (t_tss t) = top -> hd 0 (dir ++ sep :: f) = 0x2f -> disk_ready ->
  elf_program file n vaddr memsz off filesz -> entry <> 0 ->
  vaddr + (memsz + 4095) / 4096 * 4096 <= stack_base \/ MEM_TASK_STACK_TOP <= vaddr ->
  1001 + 2 * ((memsz + 4095) / 4096) <= Z.of_nat (length (frames s1)) ->
  exists c' s', call_kernel cc next c s = Done (tt, started c entry) s' /\
    crt0_start cstart (started c entry) s' = Done (tt, c') s' /\
    r_eip c' = cstart /\ r_esp c' = stack_top /\ r_cs c' = r_cs c /\
    [r_ss c'; r_ds c'; r_es c'; r_fs c'; r_gs c'] = repeat (r_ss c) 5 /\ k_if s' = true /\
    args_at (k_cr3 s') (k_mem s') stack_top (snd <$> args) /\
    (forall i, 0 <= i < filesz ->
       exists pa, mmu_walk (k_cr3 s') (k_mem s') (vaddr + i) = Some pa /\ mget (k_mem s') pa = file (off + i)) /\
    exists named, task_set_name (take 32 f) t = Some named /\
      k_tasks s' !! curr_task (k_tm s') = Some (set_t_tss (set_tss_cr3 (k_cr3 s') (t_tss named)) named).
Proof.
  intros Hck s1 file entry Hx Htop Hhd Hdisk Helf Hne Hap Hroom. pose proof (handler_state_at cc Hcc c s _ next top ss Hck) as Hat.
  fold s1 in Hat. destruct (call_kernel_run cc c s _ next top ss Hck) as (c2 & Esp & Ecs & E). fold s1 in E.
  destruct (ah_state _ _ _ _ _ _ _ Hat) as (m1 & Es1). assert (k_reads s1 = k_reads s) as Erd by (by rewrite Es1).
  destruct (sys_execve_run s1 t name dir f sep argv env args n vaddr memsz off filesz Hx Hhd Hdisk) as
    (named & d & ps1 & ps2 & s2 & En & Ex & Hpe & _ & _ & _ & Hb); rewrite ?Erd; try done. rewrite Erd in Hpe, Hb. fold file in Hpe, Hb. fold entry in Hpe.
  pose proof (program_frame _ _ _ _ _ _ _ Hpe) as Hf. rewrite Htop in Hf.
  assert (frame_call (k_mem s1) (top - 88) = Some (sys_execve name argv env)) as Ecall.
  { pose proof (handler_arg cc s c _ next _ s1 Hat) as Harg. pose proof (Harg 0%nat SYS_execve eq_refl) as A0.
    pose proof (Harg 1%nat name eq_refl) as A1. pose proof (Harg 2%nat argv eq_refl) as A2. pose proof (Harg 3%nat env eq_refl) as A3.
    change (fr_func_id + 4 * Z.of_nat 0) with fr_func_id in A0. change (fr_func_id + 4 * Z.of_nat 1) with fr_arg0 in A1.
    change (fr_func_id + 4 * Z.of_nat 2) with fr_arg1 in A2. change (fr_func_id + 4 * Z.of_nat 3) with fr_arg2 in A3.
    unfold frame_call. cbn zeta. rewrite A0, A1, A2, A3. reflexivity. }
  assert (frame_ok (top - 88)) as Hfr by exact (handler_frame_ok cc s c _ next _ s1 Hat).
  rewrite (do_handler_syscall_known _ _ _ Hfr Ecall), run_bind, Ex in E. cbn [obind] in E.
  rewrite frame_store in E by done. cbn [obind] in E. pose proof (answer_same_bytes _ _ _ _ Hf) as Hsame.
  set (s3 := set_k_mem (st32 (k_mem s2) _ 0) s2) in *. change (st32 (k_mem s2) _ 0) with (k_mem s3) in Hsame.
  rewrite (enters_program s c _ next _ s1 Hat entry s3 c2) in E;
    [| by apply (frame_entered_ext _ _ (k_mem s2)) | rewrite Esp; lia | done].
  assert (is_sel (r_ss c)) as Hss by (destruct (ah_caller _ _ _ _ _ _ _ Hat) as (Hcw & _); by registers Hcw).
  destruct (data_segments_from_ss_run cstart (started c entry) (set_k_if true s3) Hss) as (eax & Ed).
  eexists _, (set_k_if true s3). split; [by inversion E|]. split; [exact Ed|]. xproj. split_and!; try done.
  - change (args_at (k_cr3 s2) (k_mem s3) stack_top (snd <$> args)). rewrite (pe_cr3 _ _ _ _ _ _ _ Hpe).
    by apply (same_bytes_args (k_mem s2)), (pe_args _ _ _ _ _ _ _ Hpe).
  - intros i Hi. destruct (Hb i Hi) as (pa & Ep & Eb). exists pa. change (mmu_walk (k_cr3 s2) (k_mem s3) (vaddr + i) = Some pa /\ mget (k_mem s3) pa = file (off + i)).
    by rewrite (pe_cr3 _ _ _ _ _ _ _ Hpe), (same_bytes_walk (k_mem s2)), Hsame.
  - exists named. split; [done|]. change (k_tasks s2 !! curr_task (k_tm s2) = Some (set_t_tss (set_tss_cr3 (k_cr3 s2) (t_tss named)) named)).
    rewrite (pe_tasks _ _ _ _ _ _ _ Hpe), (pe_tm _ _ _ _ _ _ _ Hpe), (pe_cr3 _ _ _ _ _ _ _ Hpe). apply lookup_insert_eq.
Qed.

End CallExec.
