(* ===== verification/BootSector.v ===== *)
(** The boot sector: boot/start.S and boot/boot.c, in 16-bit real mode, with the BIOS that
    serves its calls as a parameter. *)
From S2P Require Import Prelude DList Machine MachineFacts Asm.

(** The machine while the boot sector runs: registers (CF is bit 0 of the flags), memory, the
    characters on the screen, and the number of disk calls so far. *)
Record boot_t := BootState {
  b_cpu : cpu_t;
  b_mem : gmap Z Z;
  b_screen : list Z;
  b_calls : nat
}.

Definition set_b_cpu (c : cpu_t) (b : boot_t) : boot_t := BootState c (b_mem b) (b_screen b) (b_calls b).

(** What a disk call does to the registers and memory, by the number of the call. *)
Definition disk_bios : Type := nat -> cpu_t -> gmap Z Z -> cpu_t * gmap Z Z.

Section BootSector.
Variable bios_int13 : disk_bios.

(** The address the boot sector is linked at, and the loader's. *)
Definition boot_start_addr : Z := 0x7c00.
Definition LOADER_START_ADDR : Z := 0x8000.

Definition on_cpu (f : cpu_t -> cpu_t) (b : boot_t) : boot_t := set_b_cpu (f (b_cpu b)) b.

(** [int $0x10] with AH = 0x0e writes the character in AL. *)
Definition int_10 (b : boot_t) : boot_t :=
  if r_ax (b_cpu b) / 2 ^ 8 =? 0x0e
  then BootState (b_cpu b) (b_mem b) (b_screen b ++ [r_ax (b_cpu b) mod 2 ^ 8]) (b_calls b) else b.

Definition int_13 (b : boot_t) : boot_t :=
  let '(c, m) := bios_int13 (b_calls b) (b_cpu b) (b_mem b) in BootState c m (b_screen b) (S (b_calls b)).

Definition show_char (ch : Z) (b : boot_t) : boot_t := int_10 (on_cpu (set_r_al ch) b).

(** The seven characters, one call each. *)
Definition show_banner (b : boot_t) : boot_t :=
  foldl (fun b ch => show_char ch b) (on_cpu (set_r_ah 0xe) b) (cs "MINI-OS").

(** One round of [read_loader]. *)
Definition read_loader_regs (c : cpu_t) : cpu_t :=
  let c := set_r_bx 0x8000 c in
  let c := set_r_ah 0x02 c in
  let c := set_r_cx 0x02 c in
  let c := set_r_al 64 c in
  set_r_dx 0x80 c.

Definition read_loader_round (b : boot_t) : boot_t := int_13 (on_cpu read_loader_regs b).

(** [jc read_loader]; no result when [fuel] rounds were not enough. *)
Fixpoint read_loader (fuel : nat) (b : boot_t) : option boot_t :=
  match fuel with
  | O => None
  | S fuel =>
      let b := read_loader_round b in
      if Z.testbit (r_flags (b_cpu b)) 0 then read_loader fuel b else Some b
  end.

(** boot.c: the call of the loader, which does not return. [boot_frame] is the stack the
    function has used then, [boot_ret] the return address the call pushes. *)
Variables boot_frame boot_ret : Z.

Definition boot_entry (b : boot_t) : boot_t :=
  let esp := r_esp (b_cpu b) - boot_frame - 4 in
  BootState (set_r_eip LOADER_START_ADDR (set_r_esp esp (b_cpu b))) (st32 (b_mem b) esp boot_ret) (b_screen b) (b_calls b).

Definition boot_start (fuel : nat) (b : boot_t) : option boot_t :=
  let b := on_cpu (set_r_ax 0) b in
  let b := on_cpu (fun c => set_r_ds (r_ax c) c) b in
  let b := on_cpu (fun c => set_r_ss (r_ax c) c) b in
  let b := on_cpu (fun c => set_r_es (r_ax c) c) b in
  let b := on_cpu (fun c => set_r_fs (r_ax c) c) b in
  let b := on_cpu (fun c => set_r_gs (r_ax c) c) b in
  let b := on_cpu (set_r_esp boot_start_addr) b in
  let b := show_banner b in
  boot_entry <$> read_loader fuel b.

End BootSector.

(** * Lemmas *)

(** The registers a disk call leaves alone. *)
Definition frame_regs (c : cpu_t) : list Z := [r_esp c; r_ss c; r_ds c; r_es c; r_fs c; r_gs c].

(** A BIOS that reads from the drive 0x80 with the contents [disk]: in the call [k] only after
    it has failed [k] times. A call that fails sets CF, and may have filled part of the buffer;
    one that does not clears CF and fills it with the sectors from CL on. What is below the
    stack pointer is the BIOS's to use. *)
Record reads_disk (bios : disk_bios) (disk : Z -> Z) (fails : nat) : Prop := {
  rd_regs : forall n c m, frame_regs (bios n c m).1 = frame_regs c;
  rd_carry : forall n c m, Z.testbit (r_flags (bios n c m).1) 0 = bool_decide (n < fails)%nat;
  rd_mem : forall n c m, u16 (r_eax c) / 2 ^ 8 = 2 -> u16 (r_edx c) = 0x80 -> 1 <= u16 (r_ecx c) < 64 ->
    let count := 512 * (r_eax c mod 2 ^ 8) in
    let buffer := 16 * r_es c + u16 (r_ebx c) in
    let sector := u16 (r_ecx c) - 1 in
    (forall a, r_esp c <= a -> a < buffer \/ buffer + count <= a -> mget (bios n c m).2 a = mget m a) /\
    (n = fails -> forall i, 0 <= i < count -> mget (bios n c m).2 (buffer + i) = disk (512 * sector + i))
}.

(** Parts of a register. *)
Lemma set_low16_u16 v r : u16 (set_low16 v r) = u16 v.
Proof. unfold set_low16, u16. change (2 ^ 16) with 65536. zdiv. Qed.

Lemma set_low8_parts v r : set_low8 v r mod 2 ^ 8 = u8 v /\ u16 (set_low8 v r) / 2 ^ 8 = u16 r / 2 ^ 8.
Proof. unfold set_low8, u16, u8. change (2 ^ 16) with 65536. change (2 ^ 8) with 256. split; zdiv. Qed.

Lemma set_high8_parts v r : set_high8 v r mod 2 ^ 8 = r mod 2 ^ 8 /\ u16 (set_high8 v r) / 2 ^ 8 = u8 v.
Proof. unfold set_high8, u16, u8. change (2 ^ 16) with 65536. change (2 ^ 8) with 256. split; zdiv. Qed.

Lemma show_char_run ch b :
  0 <= ch < 256 -> r_ax (b_cpu b) / 2 ^ 8 = 0x0e ->
  exists eax, u16 eax / 2 ^ 8 = 0x0e /\
    show_char ch b = BootState (set_r_eax eax (b_cpu b)) (b_mem b) (b_screen b ++ [ch]) (b_calls b).
Proof.
  intros Hc Ha. exists (set_low8 ch (r_eax (b_cpu b))). destruct (set_low8_parts ch (r_eax (b_cpu b))) as [E1 E2].
  unfold r_ax in Ha. split; [by rewrite E2|]. unfold show_char, int_10, on_cpu, set_b_cpu, set_r_al, r_ax. cbn [b_cpu b_mem b_screen b_calls].
  xproj. rewrite E2, Ha. cbn. do 2 f_equal.
  replace (u16 _ mod 256) with (set_low8 ch (r_eax (b_cpu b)) mod 2 ^ 8).
  - rewrite E1. f_equal. by apply u8_small.
  - unfold u16. change (2 ^ 8) with 256. change (2 ^ 16) with 65536. zdiv.
Qed.

Lemma show_chars_run chs : forall b,
  Forall (fun ch => 0 <= ch < 256) chs -> u16 (r_eax (b_cpu b)) / 2 ^ 8 = 0x0e ->
  exists eax, foldl (fun b ch => show_char ch b) b chs =
    BootState (set_r_eax eax (b_cpu b)) (b_mem b) (b_screen b ++ chs) (b_calls b).
Proof.
  induction chs as [|ch chs IH]; intros b Hc Ha; cbn [foldl].
  - exists (r_eax (b_cpu b)). rewrite app_nil_r. by destruct b as [[]].
  - apply Forall_cons in Hc as [Hch Hc]. destruct (show_char_run ch b Hch Ha) as (eax & E1 & ->).
    destruct (IH (BootState (set_r_eax eax (b_cpu b)) (b_mem b) (b_screen b ++ [ch]) (b_calls b)) Hc E1) as (eax' & ->).
    exists eax'. cbn [b_cpu b_mem b_screen b_calls]. by rewrite <- app_assoc.
Qed.

Lemma show_banner_run b :
  exists eax, show_banner b = BootState (set_r_eax eax (b_cpu b)) (b_mem b) (b_screen b ++ cs "MINI-OS") (b_calls b).
Proof.
  apply (show_chars_run (cs "MINI-OS") (on_cpu (set_r_ah 0xe) b)).
  - repeat constructor; done.
  - change (r_eax _) with (set_high8 0xe (r_eax (b_cpu b))). by rewrite (proj2 (set_high8_parts 0xe (r_eax (b_cpu b)))).
Qed.

Section Read.
Context (bios : disk_bios) (disk : Z -> Z) (fails : nat).
Hypothesis Hbios : reads_disk bios disk fails.

Definition buffer_byte (a : Z) : Prop := 0x8000 <= a < 0x10000.

Lemma read_round b :
  r_es (b_cpu b) = 0 ->
  let b' := read_loader_round bios b in
  frame_regs (b_cpu b') = frame_regs (b_cpu b) /\ b_screen b' = b_screen b /\ b_calls b' = S (b_calls b) /\
  Z.testbit (r_flags (b_cpu b')) 0 = bool_decide (b_calls b < fails)%nat /\
  (forall a, r_esp (b_cpu b) <= a -> ~ buffer_byte a -> mget (b_mem b') a = mget (b_mem b) a) /\
  (b_calls b = fails -> forall i, 0 <= i < 32768 -> mget (b_mem b') (0x8000 + i) = disk (512 + i)).
Proof.
  intros Hes b'. set (c := read_loader_regs (b_cpu b)).
  pose proof (rd_regs _ _ _ Hbios (b_calls b) c (b_mem b)) as Hr. pose proof (rd_carry _ _ _ Hbios (b_calls b) c (b_mem b)) as Hcf.
  assert (u16 (r_eax c) / 2 ^ 8 = 2 /\ r_eax c mod 2 ^ 8 = 64) as [Hah Hal].
  { unfold c, read_loader_regs. cbn [r_eax set_r_dx set_r_edx set_r_al set_r_eax set_r_cx set_r_ecx set_r_ah set_r_bx set_r_ebx].
    destruct (set_low8_parts 64 (set_high8 2 (r_eax (b_cpu b)))) as [E1 E2]. rewrite E1, E2.
    destruct (set_high8_parts 2 (r_eax (b_cpu b))) as [_ ->]. done. }
  assert (u16 (r_edx c) = 0x80 /\ u16 (r_ecx c) = 2 /\ u16 (r_ebx c) = 0x8000 /\ r_es c = 0) as (Hdx & Hcx & Hbx & Hec).
  { unfold c, read_loader_regs. cbn [r_edx r_ecx r_ebx r_es set_r_dx set_r_edx set_r_al set_r_eax set_r_cx set_r_ecx set_r_ah set_r_bx set_r_ebx].
    by rewrite !set_low16_u16. }
  destruct (rd_mem _ _ _ Hbios (b_calls b) c (b_mem b) Hah Hdx ltac:(lia)) as [Ho Hd]. rewrite Hal, Hbx, Hec in Ho, Hd. rewrite Hcx in Hd.
  unfold b', read_loader_round, int_13, on_cpu, set_b_cpu. cbn [b_cpu b_mem b_screen b_calls]. fold c.
  destruct (bios (b_calls b) c (b_mem b)) as [c' m'] eqn:E. cbn [fst snd b_cpu b_mem b_screen b_calls] in *.
  split_and!; try done.
  intros a Hlo Ha. apply Ho; [exact Hlo|]. unfold buffer_byte in Ha. lia.
Qed.

Lemma read_loader_run k : forall b fuel,
  r_es (b_cpu b) = 0 -> (b_calls b + k = fails)%nat -> (k < fuel)%nat ->
  exists b', read_loader bios fuel b = Some b' /\ frame_regs (b_cpu b') = frame_regs (b_cpu b) /\ b_screen b' = b_screen b /\
    b_calls b' = S fails /\ (forall a, r_esp (b_cpu b) <= a -> ~ buffer_byte a -> mget (b_mem b') a = mget (b_mem b) a) /\
    forall i, 0 <= i < 32768 -> mget (b_mem b') (0x8000 + i) = disk (512 + i).
Proof.
  induction k as [|k IH]; intros b [|fuel] Hes Hk Hf; try lia; cbn [read_loader];
    destruct (read_round b Hes) as (Hr & Hs & Hc & Hcf & Ho & Hd); set (b1 := read_loader_round bios b) in *; rewrite Hcf.
  - rewrite bool_decide_false by lia. exists b1. split_and!; try done; [lia | apply Hd; lia].
  - rewrite bool_decide_true by lia. assert (r_es (b_cpu b1) = 0) as Hes1 by (unfold frame_regs in Hr; congruence).
    destruct (IH b1 fuel Hes1) as (b' & E & Hr' & Hs' & Hc' & Ho' & Hd'); [lia | lia |].
    exists b'. split_and!; try done; [congruence | congruence |]. intros a Hlo Ha.
    assert (r_esp (b_cpu b1) = r_esp (b_cpu b)) as Esp by (unfold frame_regs in Hr; congruence). by rewrite Ho', Ho by (done || by rewrite Esp).
Qed.

End Read.

(** A disk that always fails keeps the boot sector in its loop. *)
Lemma read_loader_stuck bios : (forall n c m, Z.testbit (r_flags (bios n c m).1) 0 = true) ->
  forall fuel b, read_loader bios fuel b = None.
Proof.
  intros Hb. induction fuel as [|fuel IH]; intros b; [done|]. cbn [read_loader].
  assert (Z.testbit (r_flags (b_cpu (read_loader_round bios b))) 0 = true) as ->; [|apply IH].
  unfold read_loader_round, int_13. pose proof (Hb (b_calls (on_cpu read_loader_regs b)) (b_cpu (on_cpu read_loader_regs b)) (b_mem (on_cpu read_loader_regs b))) as H1.
  by destruct (bios _ _ _).
Qed.

(** * Properties *)

(** C12: The boot sector greets, reads the 64 sectors behind itself to 0x8000 in one call of the
    BIOS, repeated until one succeeds, and calls their first byte, with all segments at 0,
    the stack below the boot sector, and above that no byte outside the buffer changed; while
    the disk fails, it never goes on. *)
Theorem boot_sector_starts_loader bios disk fails frame ret fuel b :
  b_calls b = 0%nat -> reads_disk bios disk fails -> (fails < fuel)%nat -> 0 <= frame ->
  exists b', boot_start bios frame ret fuel b = Some b' /\ r_eip (b_cpu b') = LOADER_START_ADDR /\
    frame_regs (b_cpu b') = [boot_start_addr - frame - 4; 0; 0; 0; 0; 0] /\ b_screen b' = b_screen b ++ cs "MINI-OS" /\ b_calls b' = S fails /\
    (forall i, 0 <= i < 64 * 512 -> mget (b_mem b') (LOADER_START_ADDR + i) = disk (512 + i)) /\
    (forall a, boot_start_addr <= a -> ~ (LOADER_START_ADDR <= a < LOADER_START_ADDR + 64 * 512) -> mget (b_mem b') a = mget (b_mem b) a) /\
    forall dead, (forall n c m, Z.testbit (r_flags (dead n c m).1) 0 = true) -> boot_start dead frame ret fuel b = None.
Proof.
  intros Hc Hb Hf Hfr. unfold boot_start. set (b0 := on_cpu (set_r_esp boot_start_addr) _).
  destruct (show_banner_run b0) as (eax & Eb). rewrite Eb. set (b1 := BootState _ _ _ _).
  assert (frame_regs (b_cpu b1) = [boot_start_addr; 0; 0; 0; 0; 0] /\ r_es (b_cpu b1) = 0) as [Hr Hes].
  { unfold b1, b0, on_cpu, set_b_cpu, frame_regs. cbn [b_cpu]. unfold r_ax, set_r_ax. xproj. by rewrite !set_low16_u16. }
  destruct (read_loader_run bios disk fails Hb fails b1 fuel Hes) as (b' & E & Hr' & Hs' & Hc' & Ho & Hd);
    [change (b_calls b1) with (b_calls b); lia | done |]. rewrite Hr in Hr'.
  exists (boot_entry frame ret b'). rewrite E. split; [done|]. unfold frame_regs in Hr'. injection Hr' as E1 E2 E3 E4 E5 E6.
  unfold boot_entry, frame_regs. cbn [b_cpu b_mem b_screen b_calls]. xproj. rewrite E1, E2, E3, E4, E5, E6.
  unfold boot_start_addr, LOADER_START_ADDR in *. split_and!; [done | done | exact Hs' | exact Hc' | | |].
  - intros i Hi. rewrite mget_st32_ne by lia. by apply Hd.
  - intros a Hlo Ha. rewrite mget_st32_ne by lia. apply Ho; [exact Hlo | unfold buffer_byte; lia].
  - intros dead Hdead. by rewrite read_loader_stuck.
Qed.
