(* ===== verification/Loader.v ===== *)
(** The second-stage loader: loader/loader_16.c and loader/loader_32.c.

    It runs without paging: an address is a physical address. *)
From S2P Require Import Prelude DList Machine MachineFacts Klib Sched Paging Fs Exec.

(** * loader_16.c: the memory map

    loader.h: [SMAP_entry_t]. *)
Record SMAP_entry_t := SmapEntry {
  BaseL : Z; BaseH : Z; LengthL : Z; LengthH : Z; Type_ : Z; ACPI : Z
}.

(** boot_info.h *)
Definition BOOT_RAM_REGION_MAX : nat := 10.
Definition SMAP_SIGNATURE : Z := 0x534D4150.

Section DetectMemory.
(** The BIOS call [int 0x15, eax=0xE820] with a continuation and the buffer it
    fills: signature, number of bytes stored, next continuation, buffer. *)
Variable bios_e820 : Z -> SMAP_entry_t -> Z * Z * Z * SMAP_entry_t.

(** The regions found so far, and whether the loop ended without an error.  The
    [continue] for an entry to ignore also skips the test of the continuation. *)
Fixpoint detect_loop (n : nat) (contID : Z) (entry : SMAP_entry_t) (regions : list (Z * Z))
    : list (Z * Z) * bool :=
  match n with
  | O => (regions, true)
  | S n =>
      let '(signature, bytes, contID, entry) := bios_e820 contID entry in
      if negb (signature =? SMAP_SIGNATURE) then (regions, false)
      else if (bytes >? 20) && (Z.land (ACPI entry) 1 =? 0)
      then detect_loop n contID entry regions
      else
        let regions :=
          if Type_ entry =? 1 then regions ++ [(BaseL entry, LengthL entry)] else regions in
        if contID =? 0 then (regions, true) else detect_loop n contID entry regions
  end.

Definition detect_regions (smap_entry : SMAP_entry_t) : boot_info_t * bool :=
  let '(regions, ok) := detect_loop BOOT_RAM_REGION_MAX 0 smap_entry [] in
  (BootInfo regions (Z.of_nat (length regions)), ok).

End DetectMemory.

(** * loader_32.c *)
Definition SYS_KERNEL_LOAD_ADDR : Z := 1024 * 1024.

(** Half words of physical memory. *)
Definition ld16 (m : gmap Z Z) (a : Z) : Z := mget m a + 2 ^ 8 * mget m (a + 1).

(** [for (j = 0; j < n; j++) *dest++ = *src++] *)
Fixpoint copy_bytes (n : nat) (m : gmap Z Z) (dest src : Z) : gmap Z Z :=
  match n with
  | O => m
  | S n => copy_bytes n (mset m dest (mget m src)) (u32 (dest + 1)) (u32 (src + 1))
  end.

Fixpoint zero_bytes (n : nat) (m : gmap Z Z) (dest : Z) : gmap Z Z :=
  match n with
  | O => m
  | S n => zero_bytes n (mset m dest 0) (u32 (dest + 1))
  end.

(** One program header.  The loops read [p_filesz] and [p_memsz] again in every
    round; the model reads them before the loop, which is the same as long as no
    segment overwrites the header. *)
Definition reload_phdr (m : gmap Z Z) (file_buffer p_hdr : Z) : gmap Z Z :=
  if negb (ld32 m (p_hdr + p_type) =? PT_LOAD) then m
  else
    let filesz := ld32 m (p_hdr + p_filesz) in
    let src := u32 (file_buffer + ld32 m (p_hdr + p_offset)) in
    let dest := ld32 m (p_hdr + p_paddr) in
    let m1 := copy_bytes (Z.to_nat filesz) m dest src in
    let dest := u32 (ld32 m1 (p_hdr + p_paddr) + ld32 m1 (p_hdr + p_filesz)) in
    zero_bytes (Z.to_nat (u32 (ld32 m1 (p_hdr + p_memsz) - ld32 m1 (p_hdr + p_filesz)))) m1 dest.

Fixpoint reload_phdrs (n : nat) (i : Z) (m : gmap Z Z) (file_buffer : Z) : gmap Z Z :=
  match n with
  | O => m
  | S n =>
      let p_hdr := u32 (file_buffer + ld32 m (file_buffer + e_phoff) + SIZEOF_PHDR * i) in
      reload_phdrs n (i + 1) (reload_phdr m file_buffer p_hdr) file_buffer
  end.

(** The entry point, or 0 for a file without the ELF magic number. *)
Definition reload_elf_file (m : gmap Z Z) (file_buffer : Z) : Z * gmap Z Z :=
  if negb (mget m file_buffer =? ELF_MAGIC) || negb (mget m (file_buffer + 1) =? 0x45)
     || negb (mget m (file_buffer + 2) =? 0x4c) || negb (mget m (file_buffer + 3) =? 0x46)
  then (0, m)
  else
    let m' := reload_phdrs (Z.to_nat (ld16 m (file_buffer + e_phnum))) 0 m file_buffer in
    (ld32 m' (file_buffer + e_entry), m').

(** * Lemmas *)
Lemma copy_bytes_spec n : forall m dest src a,
  0 <= dest -> dest + Z.of_nat n < 2 ^ 32 -> 0 <= src -> src + Z.of_nat n < 2 ^ 32 ->
  dest + Z.of_nat n <= src \/ src + Z.of_nat n <= dest ->
  mget (copy_bytes n m dest src) a =
    if decide (dest <= a < dest + Z.of_nat n) then mget m (src + (a - dest)) else mget m a.
Proof.
  induction n as [|n IH]; intros m dest src a Hd Hdn Hs Hsn Hdis; cbn [copy_bytes].
  { by rewrite decide_False by lia. }
  rewrite !u32_small, IH by lia. rewrite !mget_mset.
  destruct (Z.eqb_spec dest a) as [->|Hne].
  - rewrite decide_False, decide_True by lia. rewrite Z.sub_diag, Z.add_0_r. apply u8_small, mget_range.
  - replace (src + 1 + (a - (dest + 1))) with (src + (a - dest)) by lia.
    destruct (decide (dest + 1 <= a < dest + 1 + Z.of_nat n)).
    + rewrite decide_True by lia. by rewrite (proj2 (Z.eqb_neq dest _)) by lia.
    + by rewrite decide_False by lia.
Qed.

Lemma zero_bytes_spec n : forall m dest a,
  0 <= dest -> dest + Z.of_nat n < 2 ^ 32 ->
  mget (zero_bytes n m dest) a = if decide (dest <= a < dest + Z.of_nat n) then 0 else mget m a.
Proof.
  induction n as [|n IH]; intros m dest a Hd Hdn; cbn [zero_bytes].
  { by rewrite decide_False by lia. }
  rewrite !u32_small, IH by lia. rewrite !mget_mset.
  destruct (Z.eqb_spec dest a) as [->|Hne]; repeat case_decide; done || lia.
Qed.

(** ** The reference loader

    A segment as its header describes it, and the byte it puts at an address. *)
Record segment := Segment {
  sg_load : bool; sg_off : Z; sg_paddr : Z; sg_filesz : Z; sg_memsz : Z
}.

Definition segment_at (m : gmap Z Z) (p_hdr : Z) : segment :=
  Segment (ld32 m (p_hdr + p_type) =? PT_LOAD) (ld32 m (p_hdr + p_offset)) (ld32 m (p_hdr + p_paddr))
    (ld32 m (p_hdr + p_filesz)) (ld32 m (p_hdr + p_memsz)).

Definition segments (m : gmap Z Z) (fb n : Z) : list segment :=
  (fun i => segment_at m (fb + ld32 m (fb + e_phoff) + SIZEOF_PHDR * i)) <$> seqZ 0 n.

Definition segment_byte (m : gmap Z Z) (fb : Z) (g : segment) (a : Z) : option Z :=
  if negb (sg_load g) then None
  else if decide (sg_paddr g <= a < sg_paddr g + sg_filesz g) then Some (mget m (fb + sg_off g + (a - sg_paddr g)))
  else if decide (sg_paddr g <= a < sg_paddr g + sg_memsz g) then Some 0
  else None.

(** What the segments [gs], loaded one after the other, leave at [a]. *)
Definition loaded (m : gmap Z Z) (fb : Z) (gs : list segment) (a : Z) : Z :=
  foldl (fun v g => default v (segment_byte m fb g a)) (mget m a) gs.

(** The file image [fb .. fb + len) holds the headers and the file bytes of a
    segment, whose memory is elsewhere. *)
Definition segment_ok (fb len : Z) (g : segment) : Prop :=
  sg_load g = true -> sg_filesz g <= sg_memsz g /\ sg_paddr g + sg_memsz g < 2 ^ 32 /\
    sg_off g + sg_filesz g <= len /\ (sg_paddr g + sg_memsz g <= fb \/ fb + len <= sg_paddr g).

Record image_ok (m : gmap Z Z) (fb len n : Z) : Prop := {
  io_bounds : 0 <= fb /\ fb + len < 2 ^ 32 /\ SIZEOF_EHDR <= len;
  io_magic : mget m fb = ELF_MAGIC /\ mget m (fb + 1) = 0x45 /\ mget m (fb + 2) = 0x4c /\ mget m (fb + 3) = 0x46;
  io_phnum : ld16 m (fb + e_phnum) = n;
  io_headers : ld32 m (fb + e_phoff) + SIZEOF_PHDR * n <= len;
  io_segments : Forall (segment_ok fb len) (segments m fb n)
}.

(** The image is as in [m0]. *)
Definition image_kept (m0 m : gmap Z Z) (fb len : Z) : Prop :=
  forall a, fb <= a < fb + len -> mget m a = mget m0 a.

Lemma segment_at_kept m0 m fb len p :
  image_kept m0 m fb len -> fb <= p -> p + SIZEOF_PHDR <= fb + len -> segment_at m p = segment_at m0 p.
Proof.
  intros Hk Hp Hl. unfold segment_at, SIZEOF_PHDR, p_type, p_offset, p_paddr, p_filesz, p_memsz in *.
  by repeat match goal with |- context [ld32 m ?a] => rewrite (ld32_ext m0 m a) by (intros; apply Hk; lia) end.
Qed.

Lemma reload_phdr_spec m fb len p a :
  0 <= fb -> fb + len < 2 ^ 32 -> fb <= p -> p + SIZEOF_PHDR <= fb + len -> segment_ok fb len (segment_at m p) ->
  mget (reload_phdr m fb p) a = default (mget m a) (segment_byte m fb (segment_at m p) a).
Proof.
  intros Hfb Hlen Hp Hpl Hg. unfold reload_phdr, segment_byte, segment_ok in *. cbn [segment_at sg_load sg_paddr sg_filesz sg_off sg_memsz] in *.
  destruct (ld32 m (p + p_type) =? PT_LOAD); [|done]. cbn [negb] in *. destruct (Hg eq_refl) as (Hfm & Hpm & Hof & Hdis).
  pose proof (ld32_range m (p + p_filesz)). pose proof (ld32_range m (p + p_offset)). pose proof (ld32_range m (p + p_paddr)).
  rewrite (u32_small (fb + _)) by lia.
  set (m1 := copy_bytes _ _ _ _).
  assert (forall x, mget m1 x = if decide (ld32 m (p + p_paddr) <= x < ld32 m (p + p_paddr) + ld32 m (p + p_filesz))
    then mget m (fb + ld32 m (p + p_offset) + (x - ld32 m (p + p_paddr))) else mget m x) as Hm1.
  { intros x. unfold m1. rewrite copy_bytes_spec by lia. by rewrite Z2Nat.id by lia. }
  assert (segment_at m1 p = segment_at m p) as [= _ _ Ep Ef Em].
  { apply (segment_at_kept m m1 fb len); [|done..]. intros x Hx. rewrite Hm1. by rewrite decide_False by lia. }
  rewrite Ep, Ef, Em. rewrite !u32_small by lia. rewrite zero_bytes_spec by lia. rewrite Z2Nat.id, Hm1 by lia.
  repeat case_decide; done || lia.
Qed.

Lemma segment_byte_kept m0 m fb len g a :
  image_kept m0 m fb len -> segment_ok fb len g -> 0 <= sg_off g -> segment_byte m fb g a = segment_byte m0 fb g a.
Proof.
  intros Hk Hg Hoff. unfold segment_byte. destruct (sg_load g) eqn:El; [|done]. destruct (Hg El) as (_ & _ & ? & _). cbn [negb].
  case_decide; [|done]. f_equal. apply Hk. lia.
Qed.

Lemma segment_byte_image m fb len g a :
  segment_ok fb len g -> fb <= a < fb + len -> segment_byte m fb g a = None.
Proof.
  intros Hg Ha. unfold segment_byte. destruct (sg_load g) eqn:El; [|done]. destruct (Hg El) as (? & _ & ? & ?). cbn [negb].
  by rewrite !decide_False by lia.
Qed.

Lemma reload_phdrs_spec m0 fb len n : forall i m,
  image_kept m0 m fb len -> 0 <= i -> 0 <= fb -> fb + len < 2 ^ 32 -> SIZEOF_EHDR <= len ->
  ld32 m0 (fb + e_phoff) + SIZEOF_PHDR * (i + Z.of_nat n) <= len ->
  Forall (segment_ok fb len)
    ((fun i => segment_at m0 (fb + ld32 m0 (fb + e_phoff) + SIZEOF_PHDR * i)) <$> seqZ i (Z.of_nat n)) ->
  image_kept m0 (reload_phdrs n i m fb) fb len /\
  forall a, mget (reload_phdrs n i m fb) a =
    foldl (fun v g => default v (segment_byte m0 fb g a)) (mget m a)
      ((fun i => segment_at m0 (fb + ld32 m0 (fb + e_phoff) + SIZEOF_PHDR * i)) <$> seqZ i (Z.of_nat n)).
Proof.
  induction n as [|n IH]; intros i m Hk Hi Hfb Hlen He Hh Hg; cbn [reload_phdrs]; [done|].
  rewrite seqZ_cons in Hg |- * by lia. replace (Z.pred (Z.of_nat (S n))) with (Z.of_nat n) in * by lia.
  cbn [fmap list_fmap] in Hg |- *. apply Forall_cons in Hg as [Hg Hgs].
  unfold SIZEOF_EHDR, SIZEOF_PHDR in *. pose proof (ld32_range m0 (fb + e_phoff)).
  rewrite (ld32_ext m0 m (fb + e_phoff)) by (intros; apply Hk; unfold e_phoff in *; lia).
  rewrite u32_small by lia. set (p := fb + ld32 m0 (fb + e_phoff) + 32 * i) in *.
  assert (forall a, mget (reload_phdr m fb p) a = default (mget m a) (segment_byte m0 fb (segment_at m0 p) a)) as Hm.
  { intros a. assert (segment_at m p = segment_at m0 p) as Ep by (apply (segment_at_kept m0 m fb len); unfold p, SIZEOF_PHDR; done || lia).
    rewrite reload_phdr_spec with (len := len), Ep by (rewrite ?Ep; unfold p, SIZEOF_PHDR; done || lia).
    rewrite (segment_byte_kept m0 m fb len); [done.. |]. apply ld32_range. }
  assert (image_kept m0 (reload_phdr m fb p) fb len) as Hk'.
  { intros a Ha. rewrite Hm, (segment_byte_image _ _ _ _ _ Hg Ha). by apply Hk. }
  destruct (IH (i + 1) _ Hk') as [Hkept Ha]; try lia; [done|]. split; [done|]. intros a. rewrite Ha. cbn [foldl]. by rewrite Hm.
Qed.

(** ** A BIOS that serves a table

    The entries with the number of bytes stored for each; the continuation is the
    index of the next one, and 0 after the last. *)
Definition serves (es : list (Z * SMAP_entry_t)) (bios_e820 : Z -> SMAP_entry_t -> Z * Z * Z * SMAP_entry_t) : Prop :=
  forall i b e buf, es !! i = Some (b, e) ->
    bios_e820 (Z.of_nat i) buf =
      (SMAP_SIGNATURE, b, if decide (S i = length es) then 0 else Z.of_nat (S i), e).

(** Entries to ignore, and the usable ones. *)
Definition ignored (x : Z * SMAP_entry_t) : bool := (x.1 >? 20) && (Z.land (ACPI x.2) 1 =? 0).

Definition usable (es : list (Z * SMAP_entry_t)) : list (Z * Z) :=
  (fun x => (BaseL x.2, LengthL x.2)) <$> filter (fun x => ignored x = false /\ Type_ x.2 = 1) es.

Lemma usable_cons x es : usable (x :: es) =
  (if ignored x then [] else if Type_ x.2 =? 1 then [(BaseL x.2, LengthL x.2)] else []) ++ usable es.
Proof.
  unfold usable. rewrite filter_cons. destruct (ignored x); [by rewrite decide_False by (intros []; done)|].
  destruct (Z.eqb_spec (Type_ x.2) 1); [by rewrite decide_True | by rewrite decide_False by (intros []; done)].
Qed.

(** Table [es] read from index [i] on, over and over. *)
Fixpoint cycle (n i : nat) (es : list (Z * SMAP_entry_t)) : list (Z * SMAP_entry_t) :=
  match n with
  | O => []
  | S n => match es !! i with
           | Some x => x :: cycle n (if decide (S i = length es) then 0%nat else S i) es
           | None => []
           end
  end.

Lemma detect_loop_cycle bios es : forall n i buf regions,
  serves es bios -> (forall x, es !! pred (length es) = Some x -> ignored x = true) -> (i < length es)%nat ->
  detect_loop bios n (Z.of_nat i) buf regions = (regions ++ usable (cycle n i es), true).
Proof.
  intros n i buf regions Hs Hlast. revert i buf regions.
  induction n as [|n IH]; intros i buf regions Hi; cbn [detect_loop cycle]; [by rewrite app_nil_r|].
  destruct (lookup_lt_is_Some_2 es i Hi) as [[b e] Ex]. rewrite (Hs i b e buf Ex), Ex. cbn [negb].
  rewrite Z.eqb_refl. cbn [negb]. change ((b >? 20) && (Z.land (ACPI e) 1 =? 0)) with (ignored (b, e)). rewrite usable_cons. cbn [fst snd].
  assert ((if decide (S i = length es) then 0 else Z.of_nat (S i)) =
    Z.of_nat (if decide (S i = length es) then 0%nat else S i)) as -> by (by case_decide).
  destruct (ignored (b, e)) eqn:Eig.
  - apply IH. case_decide; lia.
  - assert (S i <> length es) as Hne.
    { intros Hl. assert (es !! pred (length es) = Some (b, e)) as Hx by (by rewrite <- Hl). apply Hlast in Hx. congruence. }
    rewrite decide_False by done. rewrite (proj2 (Z.eqb_neq (Z.of_nat (S i)) 0)) by lia.
    rewrite IH by lia. destruct (Type_ e =? 1); [by rewrite <- app_assoc | done].
Qed.

Lemma detect_loop_table bios es : forall n i buf regions,
  serves es bios -> (forall x, es !! pred (length es) = Some x -> ignored x = false) -> (i < length es)%nat ->
  detect_loop bios n (Z.of_nat i) buf regions = (regions ++ usable (take n (drop i es)), true).
Proof.
  intros n i buf regions Hs Hlast. revert i buf regions.
  induction n as [|n IH]; intros i buf regions Hi; cbn [detect_loop]; [by rewrite take_0, app_nil_r|].
  destruct (lookup_lt_is_Some_2 es i Hi) as [[b e] Ex]. rewrite (Hs i b e buf Ex). cbn [negb].
  rewrite (drop_S _ _ _ Ex). cbn [take]. rewrite Z.eqb_refl. cbn [negb]. change ((b >? 20) && (Z.land (ACPI e) 1 =? 0)) with (ignored (b, e)). rewrite usable_cons. cbn [fst snd].
  destruct (decide (S i = length es)) as [Hl|Hne].
  - assert (ignored (b, e) = false) as -> by (apply Hlast; by rewrite <- Hl).
    rewrite drop_ge by lia. rewrite take_nil. cbn. by destruct (Type_ e =? 1); rewrite ?app_nil_r.
  - rewrite (proj2 (Z.eqb_neq (Z.of_nat (S i)) 0)) by lia.
    destruct (ignored (b, e)); [by rewrite IH by lia|].
    rewrite IH by lia. destruct (Type_ e =? 1); [by rewrite <- app_assoc | done].
Qed.

(** From a BIOS that serves a table of memory ranges the loop reports the
    usable ranges of its first ten entries, in order, when the last entry is one
    the loader looks at; but when it is one to ignore, the [continue] skips the end
    test and the loop goes through the table again and again, until its ten rounds
    are over. *)
Lemma detect_regions_table bios es x buf :
  serves es bios -> es !! pred (length es) = Some x ->
  detect_regions bios buf =
    (let regions := usable (if ignored x then cycle 10 0 es else take 10 es) in
     (BootInfo regions (Z.of_nat (length regions)), true)).
Proof.
  intros Hs Hl. assert (0 < length es)%nat as Hlen by (destruct es; [done | simpl; lia]).
  unfold detect_regions, BOOT_RAM_REGION_MAX.
  change (detect_loop bios 10 0 buf []) with (detect_loop bios 10 (Z.of_nat 0) buf []). destruct (ignored x) eqn:Ei.
  - rewrite (detect_loop_cycle bios es 10 0 buf []); [done | done | congruence | done].
  - rewrite (detect_loop_table bios es 10 0 buf []), drop_0; [done | done | congruence | done].
Qed.

Lemma reload_elf_run m fb len n :
  image_ok m fb len n ->
  exists m', reload_elf_file m fb = (ld32 m (fb + e_entry), m') /\
    forall a, mget m' a = loaded m fb (segments m fb n) a.
Proof.
  intros [(Hfb & Hlen & He) (E0 & E1 & E2 & E3) En Hh Hg]. unfold reload_elf_file.
  rewrite E0, E1, E2, E3. cbn [Z.eqb Pos.eqb negb orb ELF_MAGIC]. rewrite En.
  assert (0 <= n) as Hn by (rewrite <- En; unfold ld16; pose proof (mget_range m (fb + e_phnum));
    pose proof (mget_range m (fb + e_phnum + 1)); lia).
  destruct (reload_phdrs_spec m fb len (Z.to_nat n) 0 m) as [Hk Ha]; rewrite ?Z2Nat.id by done; try done.
  rewrite Z2Nat.id in Ha by done. eexists. split; [|exact Ha]. f_equal.
  apply ld32_ext. intros a Hin. apply Hk. unfold SIZEOF_EHDR, e_entry in *. lia.
Qed.

(** * Properties *)

(** C30: [reload_elf_file] leaves in memory what a reference loader computes byte by
    byte from the file: at each address the file byte of the last [PT_LOAD] segment
    that covers it, 0 in the part a segment has only in memory, and what was there
    everywhere else; and it returns the entry point. The segments must lie inside
    the file, and their memory outside of it. *)
Theorem reload_elf_reference m fb len n :
  image_ok m fb len n ->
  exists m', reload_elf_file m fb = (ld32 m (fb + e_entry), m') /\
    forall a, mget m' a = loaded m fb (segments m fb n) a.
Proof. apply reload_elf_run. Qed.
