(* ===== verification/LoaderRun.v ===== *)
(** The loader as a whole: loader/loader_16.c up to the jump to protected mode and
    loader/loader_32.c up to the jump to the kernel, with the control registers they
    set and the 4 MiB page the kernel starts on. *)
From S2P Require Import Prelude DList Machine MachineFacts Klib Sched Format Ipc Log Paging Cpu Irq Fs Exec Loader.

(** * The loader's machine: the kernel's, with CR0, CR4, what the BIOS wrote on the screen
    (newest first), and the loader's one global object. *)
Record lregs := LRegs {
  l_cr0 : Z;
  l_cr4 : Z;
  l_screen : list Z;
  boot_info : boot_info_t
}.

Definition set_l_cr0 (v : Z) (r : lregs) : lregs := LRegs v (l_cr4 r) (l_screen r) (boot_info r).
Definition set_l_cr4 (v : Z) (r : lregs) : lregs := LRegs (l_cr0 r) v (l_screen r) (boot_info r).
Definition set_l_screen (v : list Z) (r : lregs) : lregs := LRegs (l_cr0 r) (l_cr4 r) v (boot_info r).
Definition set_boot_info (v : boot_info_t) (r : lregs) : lregs := LRegs (l_cr0 r) (l_cr4 r) (l_screen r) v.

Definition L (A : Type) : Type := lregs -> K (A * lregs).

#[export] Instance L_ret : MRet L := fun A a r => mret (a, r).
#[export] Instance L_bind : MBind L := fun A B f m r => m r ≫= fun x => f x.1 x.2.

(** A computation of the kernel's machine. *)
Definition onk {A} (x : K A) : L A := fun r => x ≫= fun a => mret (a, r).

Definition lgets {A} (f : lregs -> A) : L A := fun r => mret (f r, r).
Definition lmodify (f : lregs -> lregs) : L unit := fun r => mret (tt, f r).

(** ** cpu_instr.h *)
Definition read_cr0 : L Z := lgets l_cr0.
Definition write_cr0 (v : Z) : L unit := lmodify (set_l_cr0 v).
Definition read_cr4 : L Z := lgets l_cr4.
Definition write_cr4 (v : Z) : L unit := lmodify (set_l_cr4 v).

(** Execution goes on in the code segment [selector] at [offset]: the end of the
    16-bit part. *)
Definition far_jump (selector offset : Z) : L (Z * Z) := mret (selector, offset).

(** ** Running *)
Lemma lrun_bind {A B} (m : L A) (f : A -> L B) r s : (m ≫= f) r s = obind (fun x => f x.1 x.2) (m r s).
Proof. reflexivity. Qed.

Lemma lrun_ret {A} (a : A) r s : (mret a : L A) r s = Done (a, r) s.
Proof. reflexivity. Qed.

Lemma lrun_onk {A} (x : K A) r s : onk x r s = obind (fun a => mret (a, r)) (x s).
Proof. reflexivity. Qed.

Lemma lrun_lgets {A} (f : lregs -> A) r s : lgets f r s = Done (f r, r) s.
Proof. reflexivity. Qed.

Lemma lrun_lmodify f r s : lmodify f r s = Done (tt, f r) s.
Proof. reflexivity. Qed.

Create Rewrite HintDb lrun.
#[export] Hint Rewrite @lrun_bind @lrun_ret @lrun_onk @lrun_lgets lrun_lmodify : lrun.

Ltac lred := repeat (progress (autorewrite with lrun krun; cbn [obind fst snd]; cbn beta iota zeta)).

(** * loader_16.c *)

(** [int 0x10], [ah = 0xe]: the BIOS shows the character in [al]. *)
Definition bios_teletype (c : Z) : L unit := lmodify (fun r => set_l_screen (u8 c :: l_screen r) r).

Fixpoint show_msg (msg : list Z) : L unit :=
  match msg with
  | [] => mret tt
  | c :: msg => if c =? 0 then mret tt else bios_teletype c;; show_msg msg
  end.

Definition crlf : list Z := [13; 10].

(** [uint16_t gdt_table[][4]]: the null entry, flat code, flat data. *)
Definition loader_gdt_table : list (Z * Z * Z * Z) :=
  [ (0, 0, 0, 0); (0xffff, 0x0000, 0x9a00, 0x00cf); (0xffff, 0x0000, 0x9200, 0x00cf) ].

(** The entry as the processor divides it into fields. *)
Definition desc_of_words (w : Z * Z * Z * Z) : segment_desc_t :=
  let '(w0, w1, w2, w3) := w in SegmentDesc w0 w1 (u8 w2) (w2 / 2 ^ 8 + 2 ^ 8 * u8 w3) (w3 / 2 ^ 8).

Section Loader16.
Context `{Device}.
(** Addresses the linker chose for the loader, and the BIOS's memory map service. *)
Variables gdt_table protected_mode_entry : Z.
Variable bios_e820 : Z -> SMAP_entry_t -> Z * Z * Z * SMAP_entry_t.

(** The global [boot_info] gets the regions found, on the failure exit too. *)
Definition detect_memory (smap_entry : SMAP_entry_t) : L unit :=
  show_msg (cs "trying to detect memory: ");;
  let '(info, ok) := detect_regions bios_e820 smap_entry in
  lmodify (set_boot_info info);;
  show_msg (if ok : bool then cs "ok." ++ crlf else cs "failed" ++ crlf).

Definition enter_protected_mode : L (Z * Z) :=
  onk cli;;
  v ← onk (inb 0x92);
  onk (outb 0x92 (Z.lor v 0x02));;
  onk (lgdt gdt_table (8 * Z.of_nat (length loader_gdt_table)));;
  cr0 ← read_cr0;
  write_cr0 (Z.lor cr0 (Z.shiftl 1 0));;
  far_jump 8 protected_mode_entry.

(** The [while (1)] behind the jump is never reached. *)
Definition loader_entry (smap_entry : SMAP_entry_t) : L (Z * Z) :=
  show_msg (cs "....loading...." ++ [10; 13]);;
  detect_memory smap_entry;;
  enter_protected_mode.

(** ** Lemmas *)
Lemma show_msg_run msg : forall r s,
  str_bytes msg -> show_msg msg r s = Done (tt, set_l_screen (reverse msg ++ l_screen r) r) s.
Proof.
  induction msg as [|c msg IH]; intros r s Hm; cbn [show_msg].
  { lred. by destruct r. }
  apply Forall_cons in Hm as [Hc Hm]. rewrite (proj2 (Z.eqb_neq c 0)) by lia. unfold bios_teletype. lred.
  rewrite IH by done. rewrite u8_small by lia. by rewrite reverse_cons, <- app_assoc.
Qed.

Lemma str_bytes_cs (msg : list Z) : forallb (fun c => (0 <? c) && (c <? 256)) msg = true -> str_bytes msg.
Proof.
  intros Hb. apply Forall_forall. intros c Hc. rewrite forallb_forall in Hb.
  specialize (Hb c (proj1 (list_elem_of_In _ _) Hc)). lia.
Qed.

(** What the loader shows. *)
Definition loader_text (ok : bool) : list Z :=
  (cs "....loading...." ++ [10; 13]) ++ cs "trying to detect memory: " ++ (if ok then cs "ok." else cs "failed") ++ crlf.

(** The state in which protected mode is entered. *)
Definition protected_state (s : kst) : kst :=
  set_k_gdtr (gdt_table, 23)
    (set_k_out ((0x92, u8 (Z.lor (u8 (port_in 0x92 (k_reads s))) 2)) :: k_out s)
      (set_k_reads (S (k_reads s)) (set_k_if false s))).

Lemma enter_protected_mode_run r s :
  enter_protected_mode r s = Done ((8, protected_mode_entry), set_l_cr0 (Z.lor (l_cr0 r) 1) r) (protected_state s).
Proof. reflexivity. Qed.

Lemma loader_entry_run smap_entry r s :
  let '(info, ok) := detect_regions bios_e820 smap_entry in
  loader_entry smap_entry r s =
    Done ((8, protected_mode_entry),
      LRegs (Z.lor (l_cr0 r) 1) (l_cr4 r) (reverse (loader_text ok) ++ l_screen r) info) (protected_state s).
Proof.
  destruct (detect_regions bios_e820 smap_entry) as [info ok] eqn:E.
  unfold loader_entry, detect_memory. rewrite E. rewrite lrun_bind, show_msg_run by (by apply str_bytes_cs). cbn [obind fst snd].
  rewrite !lrun_bind, show_msg_run by (by apply str_bytes_cs). cbn [obind fst snd]. rewrite lrun_bind, lrun_lmodify. cbn [obind fst snd].
  rewrite show_msg_run by (by destruct ok; apply str_bytes_cs). cbn [obind fst snd].
  rewrite enter_protected_mode_run. unfold loader_text. rewrite !reverse_app, <- !app_assoc. by destruct ok.
Qed.

End Loader16.

(** * loader_32.c *)
Definition PDE_PS : Z := Z.shiftl 1 7.
Definition PDE_W : Z := Z.shiftl 1 1.
Definition CR4_PSE : Z := Z.shiftl 1 4.
Definition CR0_PG : Z := u32 (Z.shiftl 1 31).

(** [static uint32_t page_dir[1024]]: one 4 MiB page. *)
Definition page_dir_words : list Z := Z.lor (Z.lor PDE_P PDE_PS) PDE_W :: replicate 1023 0.

(** The static [page_dir] at the address [pd] as it was loaded. *)
Definition page_dir_at (m : gmap Z Z) (pd : Z) : Prop :=
  forall i w, page_dir_words !! i = Some w -> ld32 m (pd + 4 * Z.of_nat i) = w.

(** The processor's translation with the control registers: none without CR0.PG; with
    CR4.PSE a directory entry that has PS maps 4 MiB. *)
Definition paged_translate (cr0 cr4 cr3 : Z) (m : gmap Z Z) (va : Z) : option Z :=
  if negb (Z.testbit cr0 31) then Some va
  else
    let pde := ld32 m (cr3 / 4096 * 4096 + 4 * (va / 2 ^ 22)) in
    if Z.testbit pde 0 && Z.testbit pde 7 && Z.testbit cr4 4
    then Some (pde / 2 ^ 22 * 2 ^ 22 + va mod 2 ^ 22)
    else mmu_walk cr3 m va.

Section Loader32.
Context `{Device}.
(** The address of [page_dir]. *)
Variable page_dir : Z.

(** [while (1) { }] *)
Definition die (code : Z) : L unit := onk khalt.

(** A byte of physical memory. *)
Definition put_phys (a v : Z) : K unit := modify (fun s => set_k_mem (mset (k_mem s) a v) s).

Definition enable_page_mode : L unit :=
  cr4 ← read_cr4;
  write_cr4 (Z.lor cr4 CR4_PSE);;
  onk (write_cr3 page_dir);;
  cr0 ← read_cr0;
  write_cr0 (Z.lor cr0 CR0_PG).

(** [reload_elf_file] on the machine's memory. *)
Definition reload_kernel (file_buffer : Z) : K Z :=
  m ← gets k_mem;
  let '(entry, m) := reload_elf_file m file_buffer in
  modify (set_k_mem m);;
  mret entry.

(** Up to the call of the kernel's entry: its address and the argument [&boot_info],
    here the object. *)
Definition load_kernel : L (Z * boot_info_t) :=
  onk (read_disk put_phys 100 500 SYS_KERNEL_LOAD_ADDR);;
  kernel_entry_address ← onk (reload_kernel SYS_KERNEL_LOAD_ADDR);
  (if kernel_entry_address =? 0 then die (-1) else mret tt);;
  enable_page_mode;;
  info ← lgets boot_info;
  mret (kernel_entry_address, info).

(** ** The 4 MiB page *)
Lemma page_dir_word m i :
  page_dir_at m page_dir -> 0 <= i < 1024 -> ld32 m (page_dir + 4 * i) = if i =? 0 then 0x83 else 0.
Proof.
  intros Hp Hi. rewrite <- (Z2Nat.id i) at 1 by lia. destruct (Z.eqb_spec i 0) as [->|Hne].
  - exact (Hp 0%nat 0x83 eq_refl).
  - rewrite (Hp (Z.to_nat i) 0); [done|]. unfold page_dir_words.
    replace (Z.to_nat i) with (S (Z.to_nat (i - 1))) by lia. cbn [lookup list_lookup].
    apply lookup_replicate. split; [done | lia].
Qed.

Lemma page_dir_identity m cr0 cr4 x :
  page_dir_at m page_dir -> page_dir mod 4096 = 0 -> Z.testbit cr0 31 = true -> Z.testbit cr4 4 = true -> 0 <= x < 2 ^ 32 ->
  paged_translate cr0 cr4 page_dir m x = if x <? 2 ^ 22 then Some x else None.
Proof.
  intros Hp Hal Hpg Hpse Hx. unfold paged_translate. rewrite Hpg, Hpse. cbn [negb].
  replace (page_dir / 4096 * 4096) with page_dir by zdiv.
  assert (0 <= x / 2 ^ 22 < 1024) as Hi by (change (2 ^ 22) with 4194304; zdiv).
  rewrite page_dir_word by done. destruct (Z.ltb_spec x (2 ^ 22)) as [Hlt|Hge].
  - rewrite (Z.div_small x) by lia. cbn. rewrite Z.mod_small by lia. done.
  - assert (x / 2 ^ 22 <> 0) as Hne by (change (2 ^ 22) with 4194304 in *; zdiv).
    rewrite (proj2 (Z.eqb_neq _ 0)) by done. cbn. unfold mmu_walk.
    replace (page_dir / 4096 * 4096) with page_dir by zdiv. rewrite page_dir_word by done.
    by rewrite (proj2 (Z.eqb_neq _ 0)) by done.
Qed.

(** ** The kernel's image depends on the bytes of memory only *)
Definition same_bytes (m m' : gmap Z Z) : Prop := forall a, mget m' a = mget m a.

Lemma same_bytes_ld32 m m' a : same_bytes m m' -> ld32 m' a = ld32 m a.
Proof. intros E. apply ld32_ext. intros. apply E. Qed.

Lemma same_bytes_segments m m' fb n : same_bytes m m' -> segments m' fb n = segments m fb n.
Proof.
  intros E. unfold segments. rewrite (same_bytes_ld32 m m') by done. apply list_fmap_ext. intros i x _.
  unfold segment_at. by rewrite !(same_bytes_ld32 m m') by done.
Qed.

Lemma same_bytes_loaded m m' fb gs a : same_bytes m m' -> loaded m' fb gs a = loaded m fb gs a.
Proof.
  intros E. unfold loaded. rewrite (E a). generalize (mget m a). induction gs as [|g gs IH]; intros v; [done|].
  cbn [foldl]. assert (segment_byte m' fb g a = segment_byte m fb g a) as -> by (unfold segment_byte; by rewrite !E).
  apply IH.
Qed.

Lemma same_bytes_image m m' fb len n : same_bytes m m' -> image_ok m fb len n -> image_ok m' fb len n.
Proof.
  intros E [H1 H2 H3 H4 H5]. constructor; rewrite ?E, ?(same_bytes_ld32 m m'), ?(same_bytes_segments m m') by done; try done.
  unfold ld16. by rewrite !E.
Qed.

(** ** load_kernel *)
Definition KERNEL_IMAGE : Z := 500 * 512.

(** [img] is the memory once the disk's sectors 100 .. 599 are read; the file in it is an
    ELF image with [n] program headers, no segment of which lies over [page_dir]. *)
Record kernel_disk (s : kst) (img : gmap Z Z) (n : Z) : Prop := {
  kd_bytes : forall x, 0 <= x < KERNEL_IMAGE -> mget img (SYS_KERNEL_LOAD_ADDR + x) = disk_byte (k_reads s) x;
  kd_rest : same_outside SYS_KERNEL_LOAD_ADDR KERNEL_IMAGE (k_mem s) img;
  kd_image : image_ok img SYS_KERNEL_LOAD_ADDR KERNEL_IMAGE n;
  kd_entry : ld32 img (SYS_KERNEL_LOAD_ADDR + e_entry) <> 0;
  kd_dir : page_dir mod 4096 = 0 /\ 0 <= page_dir /\ page_dir + 4096 <= SYS_KERNEL_LOAD_ADDR /\ page_dir_at (k_mem s) page_dir;
  kd_apart : Forall (fun g => sg_load g = true -> sg_paddr g + sg_memsz g <= page_dir \/ page_dir + 4096 <= sg_paddr g)
    (segments img SYS_KERNEL_LOAD_ADDR n)
}.

Lemma put_phys_block lo n : puts_block put_phys lo n.
Proof. by intros a v s _. Qed.

Lemma read_kernel_run s :
  disk_ready -> exists m o rd, read_disk put_phys 100 500 SYS_KERNEL_LOAD_ADDR s = Done tt (set_k_reads rd (set_k_out o (set_k_mem m s))) /\
    same_outside SYS_KERNEL_LOAD_ADDR KERNEL_IMAGE (k_mem s) m /\
    forall x, 0 <= x < KERNEL_IMAGE -> mget m (SYS_KERNEL_LOAD_ADDR + x) = disk_byte (k_reads s) x.
Proof.
  intros Hr. destruct (read_disk_run put_phys 100 500 SYS_KERNEL_LOAD_ADDR s Hr ltac:(lia) (put_phys_block _ _)) as (m & E & Ho & Hb).
  eexists m, _, _. by split_and!.
Qed.

(** The last segment over an address that no segment covers. *)
Lemma loaded_apart m fb gs a :
  Forall (fun g => segment_byte m fb g a = None) gs -> loaded m fb gs a = mget m a.
Proof. intros Hf. unfold loaded. induction Hf as [|g gs Hg _ IH]; [done|]. cbn [foldl]. by rewrite Hg. Qed.

Lemma page_dir_kept s img n m' :
  kernel_disk s img n -> (forall a, mget m' a = loaded img SYS_KERNEL_LOAD_ADDR (segments img SYS_KERNEL_LOAD_ADDR n) a) ->
  page_dir_at m' page_dir.
Proof.
  intros [_ Hrest Him _ (Hal & Hpos & Hlow & Hpd) Hap] Hm i w Hw. rewrite <- (Hpd i w Hw).
  assert (i < 1024)%nat as Hi by (apply lookup_lt_Some in Hw; exact Hw).
  apply ld32_ext. intros a Ha. rewrite Hm, loaded_apart.
  - apply Hrest. lia.
  - pose proof (io_segments _ _ _ _ Him) as Hok. rewrite !Forall_forall in *. intros g Hg. unfold segment_byte.
    destruct (sg_load g) eqn:El; [|done]. cbn [negb]. specialize (Hap g Hg El). destruct (Hok g Hg El) as (? & _).
    by rewrite !decide_False by lia.
Qed.

Lemma testbit_lor_bit x b c : 0 <= b -> 0 <= c -> Z.testbit (Z.lor x (Z.shiftl 1 b)) c = Z.testbit x c || (c =? b).
Proof. intros Hb Hc. rewrite Z.lor_spec, Z.shiftl_1_l, Z.pow2_bits_eqb by done. by rewrite Z.eqb_sym. Qed.

Lemma enable_page_mode_run r s :
  enable_page_mode r s = Done (tt, set_l_cr0 (Z.lor (l_cr0 r) CR0_PG) (set_l_cr4 (Z.lor (l_cr4 r) CR4_PSE) r)) (set_k_cr3 page_dir s).
Proof. reflexivity. Qed.

(** * Properties *)

(** C2: [load_kernel] reads the 500 sectors, leaves every segment of the kernel's ELF file
    at its address with the rest of its memory zeroed, and enters it at its entry point with
    the boot information, with paging on: the processor then translates the first 4 MiB of
    addresses to themselves and no others, and no other bit of CR0 and CR4 has changed. *)
Theorem load_kernel_enters r s img n :
  disk_ready -> kernel_disk s img n ->
  exists r' s', load_kernel r s = Done ((ld32 img (SYS_KERNEL_LOAD_ADDR + e_entry), boot_info r), r') s' /\
    (forall a, mget (k_mem s') a = loaded img SYS_KERNEL_LOAD_ADDR (segments img SYS_KERNEL_LOAD_ADDR n) a) /\
    (forall x, 0 <= x < 2 ^ 32 ->
      paged_translate (l_cr0 r') (l_cr4 r') (k_cr3 s') (k_mem s') x = if x <? 2 ^ 22 then Some x else None) /\
    (forall b, 0 <= b -> Z.testbit (l_cr0 r') b = Z.testbit (l_cr0 r) b || (b =? 31)) /\
    forall b, 0 <= b -> Z.testbit (l_cr4 r') b = Z.testbit (l_cr4 r) b || (b =? 4).
Proof.
  intros Hr Hkd. pose proof Hkd as [Hby Hrest Him Hen (Hal & _) _].
  destruct (read_kernel_run s Hr) as (m & o & rd & E & Ho & Hb).
  assert (same_bytes img m) as Hsame.
  { intros a. destruct (decide (SYS_KERNEL_LOAD_ADDR <= a < SYS_KERNEL_LOAD_ADDR + KERNEL_IMAGE)) as [Hin|Hout].
    - replace a with (SYS_KERNEL_LOAD_ADDR + (a - SYS_KERNEL_LOAD_ADDR)) by lia. by rewrite Hb, Hby by lia.
    - by rewrite Ho, Hrest. }
  destruct (reload_elf_run m SYS_KERNEL_LOAD_ADDR KERNEL_IMAGE n (same_bytes_image _ _ _ _ _ Hsame Him)) as (m' & E' & Hm').
  assert (forall a, mget m' a = loaded img SYS_KERNEL_LOAD_ADDR (segments img SYS_KERNEL_LOAD_ADDR n) a) as Hl.
  { intros a. by rewrite Hm', (same_bytes_segments img m), (same_bytes_loaded img m) by done. }
  rewrite (same_bytes_ld32 img m) in E' by done.
  eexists _, _. split; [|split_and!].
  - unfold load_kernel, reload_kernel. rewrite lrun_bind, lrun_onk, E. cbn [obind]. lred. kproj.
    rewrite E'. lred. rewrite (proj2 (Z.eqb_neq _ 0)) by done. lred. rewrite enable_page_mode_run. by lred.
  - exact Hl.
  - intros x Hx. apply page_dir_identity; try done; [by apply (page_dir_kept s img n) | |];
      cbn [l_cr0 l_cr4 set_l_cr0 set_l_cr4].
    + change CR0_PG with (Z.shiftl 1 31). rewrite testbit_lor_bit by done. apply orb_true_r.
    + unfold CR4_PSE. rewrite testbit_lor_bit by done. apply orb_true_r.
  - intros b Hb'. cbn [l_cr0 l_cr4 set_l_cr0 set_l_cr4]. change CR0_PG with (Z.shiftl 1 31). by apply testbit_lor_bit.
  - intros b Hb'. cbn [l_cr0 l_cr4 set_l_cr0 set_l_cr4]. by apply testbit_lor_bit.
Qed.

(** A disk without the kernel's ELF file stops the loader. *)
Theorem load_kernel_dies r s :
  disk_ready -> disk_byte (k_reads s) 0 <> ELF_MAGIC -> exists s', load_kernel r s = Halted s'.
Proof.
  intros Hr Hne. destruct (read_kernel_run s Hr) as (m & o & rd & E & Ho & Hb).
  eexists. unfold load_kernel, reload_kernel. rewrite lrun_bind, lrun_onk, E. cbn [obind]. lred. kproj.
  unfold reload_elf_file. pose proof (Hb 0 ltac:(done)) as H0. rewrite Z.add_0_r in H0. rewrite H0.
  rewrite (proj2 (Z.eqb_neq _ _)) by done. cbn [negb orb]. lred. done.
Qed.

End Loader32.

(** C3: [loader_entry] collects the usable ranges of the BIOS's memory map in [boot_info]
    and enters protected mode at [protected_mode_entry], with interrupts off, line A20 open
    and the other bits of port 0x92 as they were, CR0 as it was but for PE, and GDTR on a
    table whose entry of selector 8 is a flat code segment of 4 GiB and that of selector 16
    a flat data segment; its ten rounds bound the entries it looks at, and a table that ends
    in an entry to ignore is read again from the start. *)
Theorem loader_entry_enters `{Device} gdt_table entry bios es x buf r s :
  serves es bios -> es !! pred (length es) = Some x ->
  let regions := usable (if ignored x then cycle 10 0 es else take 10 es) in
  exists r' s', loader_entry gdt_table entry bios buf r s = Done ((8, entry), r') s' /\
    boot_info r' = BootInfo regions (Z.of_nat (length regions)) /\
    k_if s' = false /\ k_gdtr s' = (gdt_table, 23) /\
    (exists v, k_out s' = (0x92, v) :: k_out s /\
      forall b, 0 <= b < 8 -> Z.testbit v b = Z.testbit (port_in 0x92 (k_reads s)) b || (b =? 1)) /\
    (forall b, 0 <= b -> Z.testbit (l_cr0 r') b = Z.testbit (l_cr0 r) b || (b =? 0)) /\
    exists code data, loader_gdt_table !! 1%nat = Some code /\ loader_gdt_table !! 2%nat = Some data /\
      desc_base (desc_of_words code) = 0 /\ desc_limit (desc_of_words code) = 2 ^ 32 - 1 /\
      desc_attr (desc_of_words code) = ATTR_KERNEL_CODE /\
      desc_base (desc_of_words data) = 0 /\ desc_limit (desc_of_words data) = 2 ^ 32 - 1 /\
      desc_attr (desc_of_words data) = ATTR_KERNEL_DATA.
Proof.
  intros Hs Hl regions. pose proof (loader_entry_run gdt_table entry bios buf r s) as E.
  rewrite (detect_regions_table bios es x buf Hs Hl) in E. cbv zeta in E. fold regions in E.
  eexists _, _. split; [exact E|]. split_and!; try done.
  - eexists. split; [reflexivity|]. intros b Hb. change 2 with (Z.shiftl 1 1).
    rewrite testbit_u8, testbit_lor_bit, testbit_u8 by lia. done.
  - intros b Hb. cbn [l_cr0]. change 1 with (Z.shiftl 1 0) at 1. by apply testbit_lor_bit.
  - eexists _, _. by split_and!.
Qed.
