(* ===== verification/Demo.v ===== *)
(** A concrete kernel state: task A runs, B is ready, C sleeps two more ticks.
    It is used to show that the hypotheses of the theorems can hold. *)
From S2P Require Import Prelude DList Bitmap Machine MachineFacts Klib Sched Ipc Cpu Task.

#[export] Instance demo_layout : Layout := kernel_elf.

(** A serial line that is always ready to send, and a disk that answers 0x08. *)
#[export] Instance demo_device : Device := {|
  port_in := fun port _ => if port =? 0x3fd then 0x40 else 0x08;
  port_patience := 3
|}.

Definition tA : Z := 0x181c0.
Definition tB : Z := 0x1827c.
Definition tC : Z := 0x18338.

Definition demo_task (t sel slice sleep : Z) : task_t :=
  Task TASK_READY (cs "task" ++ replicate 28 0) t 0 sleep 10 slice
    (tss_start 0x80000000 0x8000a000 0x200000 0x2b 0x23 0x17000) sel.

Definition demo_gdt : list segment_desc_t :=
  <[3%nat := syscall_gate]>
  (  <[5%nat := segment_desc (idle_task + TSS_OFF) 104 ATTR_TSS]>
  (<[6%nat := segment_desc (tA + TSS_OFF) 104 ATTR_TSS]>
  (<[7%nat := segment_desc (tB + TSS_OFF) 104 ATTR_TSS]>
  (<[8%nat := segment_desc (tC + TSS_OFF) 104 ATTR_TSS]>
    (replicate 16 (segment_desc 0 0 0)))))).

Definition demo_nodes : heap :=
  <[run_node tA := Node 0 (run_node tB)]> (<[run_node tB := Node (run_node tA) 0]>
  (<[run_node tC := Node 0 0]> (<[run_node idle_task := Node 0 0]>
  (<[wait_node tA := Node 0 0]> (<[wait_node tB := Node 0 0]>
  (<[wait_node tC := Node 0 0]> (<[wait_node idle_task := Node 0 0]>
  (<[all_node tA := Node 0 0]> (<[all_node tB := Node 0 0]>
  (<[all_node tC := Node 0 0]> {[all_node idle_task := Node 0 0]})))))))))).

Definition demo_tasks : gmap Z task_t :=
  <[tA := demo_task tA 0x30 10 0]> (<[tB := demo_task tB 0x38 10 0]>
  (<[tC := demo_task tC 0x40 10 2]> {[idle_task := demo_task idle_task 0x28 10 0]})).

Definition demo_mutex : mutex_t := Mutex (replicate 64 0) 0 0 list_init.

Definition demo_sem : Z := 0x50000.

Definition demo : kst := {|
  k_if := true; k_cr3 := 0x17000; k_tr := 0x30; k_mem := ∅;
  k_nodes := demo_nodes; k_tasks := demo_tasks;
  k_tm := TaskManager tA (List (run_node tA) (run_node tB) 2) list_init
            (List (run_node tC) (run_node tC) 1) 0x28 0x20;
  k_mutex := <[paddr_alloc := demo_mutex]> (<[gdt_mutex := demo_mutex]>
             (<[task_table_mutex := demo_mutex]> {[log_mutex := demo_mutex]}));
  k_sem := {[demo_sem := Sem 0 list_init]};
  k_alloc := AddrAlloc (Bitmap 16 [0x0f; 0]) 0x100000 0x10000 4096;
  k_gdt := demo_gdt; k_idt := replicate 128 (gate_desc 0 0 0);
  k_sys_tick := 0; k_temp_pos := 0; k_out := []; k_reads := 0; k_cr2 := 0;
  k_gdtr := (0, 0); k_idtr := (0, 0)
|}.

Definition demo_view : sview := SView tA [tA; tB] [(tC, 2)].

Lemma demo_live t : t ∈ [idle_task; tA; tB; tC] -> live demo t.
Proof.
  intros H. repeat (apply elem_of_cons in H as [->|H]); [.. | by apply not_elem_of_nil in H];
    (split; [done|]; split_and!; [by eexists | by eexists | by eexists |]; eexists; split; done).
Qed.

Lemma demo_apart : tasks_apart demo_tasks.
Proof.
  intros t t'. unfold demo_tasks. rewrite !dom_insert_L, dom_singleton_L.
  rewrite !elem_of_union, !elem_of_singleton. unfold tA, tB, tC, SIZEOF_TASK.
  change idle_task with 0x180e4. lia.
Qed.

(** The links of a concrete list. *)
Ltac demo_dlist :=
  split; [by repeat split | split; [apply (bool_decide_unpack _); reflexivity |
    split; [apply (bool_decide_unpack _); reflexivity | done]]].

Lemma demo_inv : sched_inv demo demo_view.
Proof.
  split.
  - done.
  - by demo_dlist.
  - by demo_dlist.
  - apply (bool_decide_unpack _). reflexivity.
  - apply (bool_decide_unpack _). reflexivity.
  - apply demo_live.
  - intros t n [= -> ->]%list_elem_of_singleton. split; [lia | done].
  - apply demo_apart.
Qed.

Lemma demo_dispatched : dispatched demo_view.
Proof. done. Qed.

Lemma demo_ready : v_curr demo_view ∈ v_ready demo_view.
Proof. by left. Qed.

(** Task B waits for the mutex of the page allocator, which A holds. *)
Definition demo_wait_nodes : heap :=
  <[run_node tA := Node 0 0]> (<[run_node tB := Node 0 0]> demo_nodes).

Definition demo_wait : kst :=
  set_k_nodes demo_wait_nodes
    (set_k_tm (set_ready_list (List (run_node tA) (run_node tA) 1) (k_tm demo))
      (set_k_mutex (<[paddr_alloc := Mutex (replicate 64 0) tA 1 (List (wait_node tB) (wait_node tB) 1)]> (k_mutex demo))
        demo)).

Definition demo_wait_view : sview := SView tA [tA] [(tC, 2)].

Lemma demo_wait_live t : t ∈ [idle_task; tA; tB; tC] -> live demo_wait t.
Proof.
  intros H. repeat (apply elem_of_cons in H as [->|H]); [.. | by apply not_elem_of_nil in H];
    (split; [done|]; split_and!; [by eexists | by eexists | by eexists |]; eexists; split; done).
Qed.

Lemma demo_wait_inv : sched_inv demo_wait demo_wait_view.
Proof.
  split.
  - done.
  - by demo_dlist.
  - by demo_dlist.
  - apply (bool_decide_unpack _). reflexivity.
  - apply (bool_decide_unpack _). reflexivity.
  - intros t Ht. apply demo_wait_live. simpl in Ht. set_solver.
  - intros t n [= -> ->]%list_elem_of_singleton. split; [lia | done].
  - apply demo_apart.
Qed.

Lemma demo_lock : lock_inv demo demo_view paddr_alloc (AMutex 0 0 []).
Proof.
  split; [exact demo_inv | | | ].
  - eexists. split_and!; [done | done | done |]; by demo_dlist.
  - split; [constructor | by intros ? ?%not_elem_of_nil].
  - split_and!; try done. by intros ?%not_elem_of_nil.
Qed.

Lemma demo_wait_lock : lock_inv demo_wait demo_wait_view paddr_alloc (AMutex tA 1 [tB]).
Proof.
  split; [exact demo_wait_inv | | | ].
  - eexists. split_and!; [done | done | done |]; by demo_dlist.
  - split; [apply NoDup_singleton|]. intros t ->%list_elem_of_singleton. split_and!.
    + apply demo_wait_live. right; right; by left.
    + done.
    + apply (bool_decide_unpack _). reflexivity.
  - split_and!; try done. apply (bool_decide_unpack _). reflexivity.
Qed.

Lemma demo_semaphore : semaphore_inv demo demo_view demo_sem (ASem 0 []).
Proof.
  split; [exact demo_inv | | | ].
  - eexists. split_and!; [done | done |]; by demo_dlist.
  - split; [constructor | by intros ? ?%not_elem_of_nil].
  - by split.
Qed.
