(* ===== verification/Witness.v ===== *)
(** The theorems applied to concrete states: their hypotheses can hold. *)
From S2P Require Import Prelude DList Bitmap Machine MachineFacts Klib Format Sched Ipc Log Cpu Alloc Paging AddrSpace Irq Timer.
From S2P Require Import Fs Task Exec Syscall Init Loader Demo.

(** Task A is in the last tick of its slice. *)
Definition demo_last_tick : kst :=
  set_k_tasks (<[tA := set_t_slice_ticks 1 (demo_task tA 0x30 10 0)]> (k_tasks demo)) demo.

Lemma demo_last_tick_inv : sched_inv demo_last_tick demo_view.
Proof. by apply (sched_inv_upd demo demo_view tA (demo_task tA 0x30 10 0) (set_t_slice_ticks 1) demo_inv). Qed.

Lemma scheduler_refines_witness :
  resched demo 0 demo_view (a_call CallYield demo_view) (run_call CallYield demo) /\
  exists s1 to k, sched_inv s1 (SView tB [tB; tA] (v_sleep demo_view)) /\
    run_call CallTick demo_last_tick = Susp (enter_task to s1) k.
Proof.
  destruct (scheduler_refines demo demo_view CallYield demo_inv demo_dispatched demo_ready) as [H1 _].
  pose proof (scheduler_refines demo_last_tick demo_view CallTick demo_last_tick_inv demo_dispatched I) as H2.
  change (preempts CallTick demo_last_tick demo_view) with true in H2.
  destruct H2 as (s1 & to & k & _ & Hi & _ & _ & _ & _ & E & _). split; [exact H1|].
  exact (ex_intro _ s1 (ex_intro _ to (ex_intro _ k (conj Hi E)))).
Defined.

Lemma yield_round_robin_witness : exists s', yields 3 demo = Some s' /\ curr_task (k_tm s') = tB.
Proof. exact (yield_round_robin demo demo_view 3 demo_inv demo_dispatched demo_ready). Defined.

Lemma sleeper_wakes_on_time_witness :
  exists s' v', walks 2 demo = Some s' /\ sched_inv s' v' /\
    (Z.of_nat 2 < 2 -> (tC, 2 - Z.of_nat 2) ∈ v_sleep v') /\ (2 <= Z.of_nat 2 -> tC ∈ v_ready v').
Proof. apply (sleeper_wakes_on_time demo demo_view tC 2 2 demo_inv). by left. Defined.

Lemma sys_sleep_loses_task_witness :
  exists v', resched demo tt demo_view v' (sys_sleep 0 demo) /\
    (tA ∉ v_ready v' ++ (v_sleep v').*1) /\ v_curr v' <> tA.
Proof.
  apply (sys_sleep_loses_task demo demo_view 0 demo_inv demo_dispatched demo_ready). by left.
Defined.

Lemma expired_tick_delays_sleepers_witness :
  exists s' k, task_time_tick demo_last_tick = Susp s' k /\
    sched_inv s' (a_dispatch (a_rotate tA demo_view)) /\
    (forall s2, k s2 = tick_rest (set_k_if true s2)).
Proof.
  apply (expired_tick_delays_sleepers demo_last_tick demo_view (set_t_slice_ticks 1 (demo_task tA 0x30 10 0)));
    [exact demo_last_tick_inv | done | done | exact demo_ready | done].
Defined.

Lemma mutex_refines_witness :
  exists s', mutex_step paddr_alloc [] demo s' /\
    lock_inv s' demo_view paddr_alloc (AMutex tA 1 []) /\
    switched true tt demo_view demo_view (mutex_acquire paddr_alloc demo) s'.
Proof. exact (mutex_refines demo demo_view paddr_alloc (AMutex 0 0 []) OpAcquire demo_lock demo_ready eq_refl). Defined.

Lemma nested_critical_sections_witness :
  (times 3 (mutex_acquire paddr_alloc);; times 3 (mutex_release paddr_alloc)) demo = Done tt demo.
Proof. apply (nested_critical_sections demo paddr_alloc demo_mutex 3); done. Defined.

(** Task A takes the mutex task B waits for once more, and releases it twice. *)
Definition after_op (o : lock_op) (s : kst) : kst := default s (leaves (run_lock_op paddr_alloc o s)).

Definition demo_twice : kst := after_op (LockOp OpRelease) (after_op (LockOp OpAcquire) demo_wait).

Lemma demo_twice_trace : lock_trace paddr_alloc demo_wait 2 0 demo_twice.
Proof.
  apply (lock_trace_cons _ _ (LockOp OpAcquire) (after_op (LockOp OpAcquire) demo_wait) 1 0); [done | by vm_compute |].
  assert (last_release paddr_alloc (LockOp OpRelease) (after_op (LockOp OpAcquire) demo_wait) = false) as E by (by vm_compute).
  pose proof (lock_trace_cons paddr_alloc (after_op (LockOp OpAcquire) demo_wait) (LockOp OpRelease) demo_twice 0 0 demo_twice) as H.
  rewrite E in H. apply H; [done | by vm_compute | constructor].
Qed.

Lemma mutex_first_come_witness :
  exists s2 v2 m2, leaves (mutex_release paddr_alloc demo_twice) = Some s2 /\
    lock_inv s2 v2 paddr_alloc m2 /\ a_owner m2 = tB /\ a_count m2 = 1.
Proof.
  destruct (mutex_first_come demo_wait demo_wait_view paddr_alloc (AMutex tA 1 [tB]) 0 tB 2 0 demo_twice demo_wait_lock)
    as (v' & m' & _ & _ & _ & _ & Hh); [done | done | done | exact demo_twice_trace | lia |].
  destruct Hh as (s2 & v2 & m2 & E & Hm & Ho & Hc & _); [done | done | by vm_compute |].
  exact (ex_intro _ s2 (ex_intro _ v2 (ex_intro _ m2 (conj E (conj Hm (conj Ho Hc)))))).
Defined.

Lemma sem_refines_witness :
  sem_count demo_sem demo = Done 0 demo /\
  exists s' ws, sem_step demo_sem ws demo s' /\
    semaphore_inv s' (SView tB [tB] [(tC, 2)]) demo_sem (ASem 0 [tA]) /\
    switched true tt demo_view (SView tB [tB] [(tC, 2)]) (sem_wait demo_sem demo) s'.
Proof.
  exact (sem_refines demo demo_view demo_sem (ASem 0 []) OpWait demo_semaphore (fun _ => demo_ready) eq_refl).
Defined.

Lemma sem_conservation_witness :
  exists s', sem_trace demo_sem demo [OpNotify] s' /\
  exists v' x', semaphore_inv s' v' demo_sem x' /\ dispatched v' /\ sem_balance x' = 1.
Proof.
  eexists. split; [econstructor; [done | reflexivity | constructor]|].
  apply (sem_conservation demo_sem demo [OpNotify] _ demo_view (ASem 0 [])); [|exact demo_semaphore | done | done].
  econstructor; [done | reflexivity | constructor].
Defined.

Lemma mutex_init_drops_name_witness :
  mutex_init log_mutex (cs "log") demo =
    Done tt (set_k_mutex (<[log_mutex := Mutex (replicate 64 0) 0 0 list_init]> (k_mutex demo)) demo).
Proof. apply (mutex_init_drops_name demo log_mutex demo_mutex (cs "log")); done. Defined.

(** ** Data structures *)
Definition demo_heap : heap :=
  <[1 := Node 0 2]> (<[2 := Node 1 3]> (<[3 := Node 2 0]> (<[4 := Node 0 0]> ∅))).

Lemma demo_heap_list : dlist demo_heap (List 1 3 3) [1; 2; 3].
Proof. by demo_dlist. Qed.

Lemma list_operations_correct_witness :
  exists h l, list_remove demo_heap (List 1 3 3) 2 = Some (2, h, l) /\ dlist h l [1; 3].
Proof.
  destruct (list_operations_correct demo_heap (List 1 3 3) [1; 2; 3] demo_heap_list) as (_ & _ & H).
  destruct (H [1] 2 [3] eq_refl) as (h & l & E & Hd & _). by exists h, l.
Defined.

Lemma list_is_fifo_witness :
  exists h1 l1 h2 l2, insert_all_back demo_heap list_init [4; 2] = Some (h1, l1) /\ list_size l1 = 2 /\
    remove_all_front h1 l1 2 = Some ([4; 2], h2, l2) /\ dlist h2 l2 [].
Proof.
  apply (list_is_fifo demo_heap [4; 2]).
  - apply (bool_decide_unpack _). reflexivity.
  - apply (bool_decide_unpack _). reflexivity.
  - intros n Hn. apply elem_of_cons in Hn as [->|Hn]; [by eexists|].
    apply elem_of_cons in Hn as [->|Hn]; [by eexists | by apply not_elem_of_nil in Hn].
Defined.

Lemma list_remove_unchecked_witness :
  exists l', list_remove demo_heap (List 1 3 3) 4 = Some (4, demo_heap, l') /\ first l' = 1 /\ list_size l' = 2.
Proof.
  apply (list_remove_unchecked demo_heap (List 1 3 3) [1; 2; 3] 4 demo_heap_list); [|done..].
  apply (bool_decide_unpack _). reflexivity.
Defined.

Definition demo_bitmap : bitmap_t := Bitmap 16 [0x0f; 0x01].

Lemma demo_bitmap_wf : bitmap_wf demo_bitmap.
Proof. split; [simpl; lia|]. repeat constructor; lia. Qed.

Lemma bitmap_alloc_one_correct_witness :
  exists rs bm', alloc_many demo_bitmap 5 = Some (rs, bm') /\ NoDup (filter (fun r => r <> -1) rs).
Proof.
  destruct (bitmap_alloc_one_correct demo_bitmap 5 demo_bitmap_wf) as (_ & rs & bm' & E & _ & N). by exists rs, bm'.
Defined.

Lemma bitmap_alloc_run_spec_witness : exists r bm', bitmap_alloc_nbits demo_bitmap 0 3 = Some (r, bm').
Proof.
  destruct (bitmap_alloc_run_spec demo_bitmap 0 3 demo_bitmap_wf) as (r & bm' & E & _). by exists r, bm'.
Defined.

(** Four bits are clear, the fifth is in use, and five are handed out. *)
Lemma bitmap_alloc_run_overlaps_witness :
  exists bm', bitmap_alloc_nbits (Bitmap 8 [0x10]) 0 5 = Some (0, bm').
Proof.
  apply (bitmap_alloc_run_overlaps (Bitmap 8 [0x10]) 5).
  - split; [simpl; lia|]. repeat constructor; lia.
  - simpl. lia.
  - intros j Hj. assert (j = 0 \/ j = 1 \/ j = 2 \/ j = 3) as [->|[->|[->| ->]]] by lia; reflexivity.
  - reflexivity.
Defined.

Lemma bitmap_bits_correct_witness :
  exists bm', bitmap_set_bit (Bitmap 16 [0; 0]) 3 4 1 = Some bm' /\
    forall j, 0 <= j < 16 ->
      let b := if (3 <=? j) && (j <? 3 + 4) then negb (1 =? 0) else negb (0 =? 0) in
      bitmap_get_bit bm' j = Some (bval b) /\ bitmap_is_set bm' j = Some (bval b).
Proof.
  apply (bitmap_bits_correct [0xff; 0x12] (Bitmap 16 [0; 0]) 16 0 3 4 1); [lia | repeat constructor; lia | reflexivity | lia].
Defined.

(** ** Strings and memory *)
(** The bytes [bs] at address [p]. *)
Fixpoint mem_of (p : Z) (bs : list Z) (m : gmap Z Z) : gmap Z Z :=
  match bs with [] => m | b :: bs => <[p := b]> (mem_of (p + 1) bs m) end.

Lemma memory_routines_correct_witness :
  exists m', kmemcpy 0x100000 0x200000 8 0 (mem_of 0x200000 [1; 2; 3] ∅) = Some (tt, m') /\
    kmemcmp 0x100000 0x200000 8 0 m' = Some (0, m').
Proof.
  destruct (memory_routines_correct 0x100000 0x200000 8 0 0 (mem_of 0x200000 [1; 2; 3] ∅)) as (_ & m' & E & _ & _ & C);
    [lia | lia | lia | apply kblock_ext; unfold MEM_EXT_START, MEM_EXT_END; lia
    | apply kblock_ext; unfold MEM_EXT_START, MEM_EXT_END; lia | lia |].
  by exists m'.
Defined.

Lemma string_scan_correct_witness :
  let m := mem_of 0x1000 (cs "ab") (mem_of 0x2000 (cs "abc") ∅) in
  exists r, kstrncmp 0x1000 0x2000 4 0 m = Some (r, m) /\
    (r = 0 <-> cs "ab" `prefix_of` cs "abc" \/ cs "abc" `prefix_of` cs "ab").
Proof. apply (string_scan_correct 0 _ 0x1000 0x2000 (cs "ab") (cs "abc") 4); (done || by repeat split). Defined.

Lemma alignment_correct_witness : down2 0x12345 (2 ^ 12) = 0x12000 /\ up2 0x12345 (2 ^ 12) mod 2 ^ 12 = 0.
Proof.
  destruct (alignment_correct 0x12345 12 ltac:(lia) ltac:(lia)) as [E U]. split; [exact E|].
  by apply U.
Defined.

Lemma path_and_argv_correct_witness :
  let m := mem_of 0x1000 (cs "bin/sh") (mem_of 0x2000 [0x34; 0x12] ∅) in
  strings_count 0x2000 0 m = Some (1, m).
Proof.
  intros m.
  destruct (path_and_argv_correct 0 m 0x1000 (cs "bin") 0x2f (cs "sh") 0x2000 [0x1234]) as [_ E];
    [by repeat split | done | by repeat constructor | done | done | by repeat split | done | exact E].
Defined.

Lemma kitoa_reads_back_witness :
  exists sign ds, kitoa (replicate 40 0) 0 (-123) 10 = Some ((sign ++ ds) ++ 0 :: drop (S (length (sign ++ ds))) (replicate 40 0)) /\
    sign = [0x2d] /\ value 10 ds = 123.
Proof.
  destruct (kitoa_reads_back [] (replicate 40 0) (-123) 10 ltac:(lia) ltac:(simpl; lia)) as [H _].
  apply H. right; right; by left.
Defined.

Lemma kvsprintf_writes_text_witness :
  kvsprintf (fun _ => None) (replicate 16 0) (cs "pid=%d %x") [VInt (-7); VInt 255] =
    Some (cs "pid=-7 0xFF" ++ replicate 5 0).
Proof. apply (kvsprintf_writes_text (fun _ => None) _ _ (cs "pid=-7 0xFF") 16); [reflexivity | simpl; lia]. Defined.

Lemma load8_stable m m' lo n a v :
  same_outside lo n m m' -> kmapped a = true -> a < MEMORY_TASK_BASE -> ~ lo <= a < lo + n -> mget m a = v ->
  load8 a 0 m' = Some (v, m').
Proof.
  intros Hm Hk Hb Ha <-. unfold load8, translate. rewrite (proj2 (Z.ltb_lt _ _)), Hk by done.
  cbn. by rewrite Hm.
Qed.

(** A string outside the block survives what is written in the block. *)
Lemma cstr_stable_abc : cstr_stable 0 (mem_of 0x2000 (cs "abc") ∅) 0x1000 8 0x2000 (cs "abc").
Proof.
  intros m' Hm. change (cs "abc") with [0x61; 0x62; 0x63]. cbn [cstr].
  repeat split; try done; eapply load8_stable; (exact Hm || done || lia).
Qed.

Lemma kstrncpy_result_witness :
  exists m', kstrncpy 0x1000 0x2000 4 0 (mem_of 0x2000 (cs "abc") ∅) = Some (tt, m') /\
    array_at m' 0x1000 (cs "ab" ++ 0 :: replicate 5 0).
Proof.
  destruct (kstrncpy_result 0 0x1000 0x2000 (cs "abc") (replicate 8 0) 4 (mem_of 0x2000 (cs "abc") ∅))
    as (m' & E & A & _); [done | done | done | | | exact cstr_stable_abc | by repeat constructor | simpl; lia | done |].
  - intros i Hi. unfold kmapped, MEM_EBDA_START. simpl in Hi. lia.
  - intros i b [-> Hb]%lookup_replicate. unfold mget, mem_of. simpl.
    rewrite !lookup_insert_ne by lia. done.
  - by exists m'.
Defined.

Lemma kstrcpy_result_witness :
  exists m', kstrcpy 0x1000 0x2000 0 (mem_of 0x2000 (cs "abc") ∅) = Some (tt, m') /\
    array_at m' 0x1000 (0 :: replicate 7 0).
Proof.
  destruct (kstrcpy_result 0 0x2000 0x1000 [] (replicate 7 0) (cs "abc") (mem_of 0x2000 (cs "abc") ∅))
    as (m' & E & A & _); [done | done | done | constructor | by repeat constructor | | | exact cstr_stable_abc |].
  - intros i Hi. unfold kmapped, MEM_EBDA_START. simpl in Hi. lia.
  - intros i b Hb. change (0 :: replicate 7 0) with (replicate 8 0) in Hb.
    apply lookup_replicate in Hb as [-> Hb]. unfold mget, mem_of. simpl. rewrite !lookup_insert_ne by lia. done.
  - by exists m'.
Defined.

(** ** Log and descriptor tables *)
Lemma demo_com1 : com1_ready.
Proof. split; [simpl; lia | done]. Qed.

Lemma demo_log_free : log_free demo.
Proof. by eexists. Qed.

Lemma log_printf_sends_text_witness :
  exists n, log_printf (cs "irq %d") [VInt 7] demo =
    Done tt (set_k_reads n
      (set_k_out (reverse (pair COM1_PORT <$> cs "irq 7" ++ [0x0d; 0x0a]) ++ []) demo)).
Proof.
  apply (log_printf_sends_text demo (cs "irq %d") [VInt 7] (cs "irq 7") demo_com1 demo_log_free); [reflexivity | | simpl; unfold LOG_BUF_SIZE; lia].
  repeat constructor; lia.
Defined.

Lemma assert_halts_witness :
  exists s', ASSERT false (cs "core/memory.c") 165 (cs "memory_create_map") (cs "pte->present == 0") demo = Halted s'.
Proof.
  eapply (assert_halts demo (cs "core/memory.c") 165 (cs "memory_create_map") (cs "pte->present == 0") _ _ demo_com1 demo_log_free);
    [reflexivity | reflexivity | repeat constructor; lia | repeat constructor; lia | simpl; unfold LOG_BUF_SIZE; lia | simpl; unfold LOG_BUF_SIZE; lia].
Defined.

Lemma demo_gdt_free : mutex_free demo gdt_mutex.
Proof. by eexists. Qed.

Lemma descriptor_round_trip_witness :
  exists t d, segment_desc_set 0x30 0x18210 104 ATTR_TSS demo = Done tt (set_k_gdt t demo) /\ t !! 6%nat = Some d /\
    desc_base d = 0x18210 /\ desc_limit d = 104 /\
    exists t' g, gdt_put 6 (segment_of_gate (gate_desc KERNEL_SELECTOR_CS 0x18210 ATTR_TSS)) demo = Done tt (set_k_gdt t' demo) /\
      t' !! 6%nat = Some g /\ gate_offset (gate_of_segment g) = 0x18210.
Proof.
  assert (0 <= ATTR_TSS < 2 ^ 16) as Ha by (split; [by apply Z.leb_le | by apply Z.ltb_lt]).
  assert (0 <= gdt_index 0x30 < Z.of_nat (length (k_gdt demo))) as Hi by (split; [by apply Z.leb_le | by apply Z.ltb_lt]).
  destruct (descriptor_round_trip demo 0x30 0x18210 104 ATTR_TSS Hi ltac:(lia) ltac:(lia) Ha) as [Hd Hg].
  destruct (Hd eq_refl) as (d & (t & E & _ & Et & _) & Eb & El & _).
  destruct (Hg KERNEL_SELECTOR_CS) as (g & (t' & E' & _ & Et' & _) & _ & Eo & _); [unfold KERNEL_SELECTOR_CS; lia|].
  exact (ex_intro _ t (ex_intro _ d (conj E (conj Et (conj Eb (conj El (ex_intro _ t' (ex_intro _ g (conj E' (conj Et' Eo)))))))))).
Defined.

Lemma gdt_alloc_first_free_witness :
  exists sel, gdt_alloc_desc demo = Done sel demo /\ (gdt_alloc_desc;; gdt_alloc_desc) demo = Done sel demo.
Proof. destruct (gdt_alloc_first_free demo demo_gdt_free) as (sel & E1 & E2 & _).
  exact (ex_intro _ sel (conj E1 E2)). Defined.

Lemma gdt_alloc_set_free_witness :
  exists s1, segment_desc_set 8 0x1000 104 ATTR_TSS demo = Done tt s1 /\
    exists s2, gdt_free_sel 8 s1 = Done tt s2 /\ gdt_alloc_desc s2 = Done 8 s2.
Proof.
  destruct (gdt_alloc_set_free demo 8 0x1000 104 ATTR_TSS demo_gdt_free) as (s1 & E & _ & F);
    [reflexivity | lia | simpl; unfold GDT_TABLE_SIZE; lia | lia | lia | split; [by apply Z.leb_le | by apply Z.ltb_lt] | reflexivity | discriminate | exact (ex_intro _ s1 (conj E F))].
Defined.

Definition demo_boot : kst := set_k_gdt (replicate GDT_TABLE_SIZE (segment_desc 0x1234 5 6)) demo.

Lemma cpu_init_table_witness :
  exists s' code data gate, cpu_init demo_boot = Done tt s' /\
    k_gdt s' = segment_desc 0 0 0 :: code :: data :: gate :: replicate 252 (segment_desc 0 0 0) /\
    k_gdtr s' = (gdt_table, 2047).
Proof.
  destruct (cpu_init_table demo_boot demo_mutex) as (s' & c & d & g & E & G & _ & _ & _ & _ & _ & _ & _ & R);
    [reflexivity | reflexivity | reflexivity |].
  exact (ex_intro _ s' (ex_intro _ c (ex_intro _ d (ex_intro _ g (conj E (conj G R)))))).
Defined.

(** ** Physical pages and address spaces *)
Lemma demo_alloc_free : mutex_free demo paddr_alloc.
Proof. by eexists. Qed.

Lemma demo_alloc_wf : alloc_wf (k_alloc demo).
Proof.
  split; [|done|done|done]. split; [simpl; lia|]. repeat constructor; lia.
Qed.

Lemma frame_allocator_refines_witness :
  exists a, kalloc demo = Done 0x104000 (set_k_alloc a demo) /\ alloc_wf a.
Proof.
  destruct (frame_allocator_refines demo demo_alloc_free demo_alloc_wf) as [E _].
  change (free_frames (k_alloc demo)) with (map (fun i => 0x100000 + i * 4096) [4; 5; 6; 7; 8; 9; 10; 11; 12; 13; 14; 15]) in E.
  cbn [map] in E. destruct E as (a & E & Hwf & _). exact (ex_intro _ a (conj E Hwf)).
Defined.

Lemma frames_partition_witness :
  exists s1 held a, addr_alloc_init [0xff; 0xff] 0x100000 0x8000 MEM_PAGE_SIZE demo = Done tt s1 /\
    run_frames [FrameAlloc; FrameAlloc; FrameFree 1; FrameAlloc] [] s1 = Done held (set_k_alloc a s1) /\
    NoDup (held ++ free_frames a).
Proof.
  destruct (frames_partition [0xff; 0xff] 0x100000 0x8000 demo demo_mutex [FrameAlloc; FrameAlloc; FrameFree 1; FrameAlloc])
    as (s1 & held & a & E1 & E2 & Hn & _);
    [reflexivity | reflexivity | by apply Z.leb_le | reflexivity | lia | lia | repeat constructor; lia | by apply Z.leb_le |].
  exact (ex_intro _ s1 (ex_intro _ held (ex_intro _ a (conj E1 (conj E2 Hn))))).
Defined.

Lemma demo_paging : paging_ok demo.
Proof.
  split; [exact demo_alloc_free | exact demo_alloc_wf |]. intros p (i & Hi & ->)%elem_of_all_frames.
  unfold frame_addr. cbn in *. split; [zdiv|]. apply kmapped_spec. lia.
Qed.

Lemma demo_kernel_dir : dir_wf (k_mem demo) (frames demo) kernel_page_dir.
Proof.
  assert (forall i, table_of (k_mem demo) kernel_page_dir i = None) as E by done.
  split.
  - by split.
  - apply (bool_decide_unpack _). reflexivity.
  - intros i t _. by rewrite E.
  - intros i j t _ _. by rewrite E.
Qed.

Lemma memory_create_map_maps_witness :
  exists r s' k, memory_create_map kernel_page_dir 0x100000 0x100000 3 PTE_W demo = Done r s' /\
    forall x, 0 <= x < 2 ^ 32 -> mmu_walk kernel_page_dir (k_mem s') x =
      map_pages 0x100000 0x100000 k (mmu_walk kernel_page_dir (k_mem demo)) x.
Proof.
  destruct (memory_create_map_maps demo kernel_page_dir 0x100000 0x100000 3 PTE_W demo_paging demo_kernel_dir)
    as (r & s' & k & E & _ & _ & Hw); [lia | by compute | lia | done | lia | lia | done | lia | done |].
  exact (ex_intro _ r (ex_intro _ s' (ex_intro _ k (conj E Hw)))).
Defined.

Lemma memory_create_uvm_shares_kernel_witness :
  (frames demo = [] /\ memory_create_uvm demo = Done 0 demo) \/
  exists d s', memory_create_uvm demo = Done d s' /\ d <> 0 /\ frames demo = d :: frames s'.
Proof.
  destruct (memory_create_uvm_shares_kernel demo demo_paging demo_kernel_dir) as [?|(d & s' & E & Hd & Ef & _)]; [by left|].
  right. exact (ex_intro _ d (ex_intro _ s' (conj E (conj Hd Ef)))).
Defined.

(** A user directory with one page: [0x80000000] is the frame [0x102000]. *)
Definition demo_dir : Z := 0x100000.

Definition demo_mem : gmap Z Z :=
  st32 (st32 ∅ (0x101000 + 4 * 0) (Z.lor 0x102000 7)) (demo_dir + 4 * 512) (Z.lor 0x101000 7).

Definition demo_user : kst := set_k_mem demo_mem demo.

Lemma demo_tables i : 0 <= i < 1024 -> table_of demo_mem demo_dir i = if i =? 512 then Some 0x101000 else None.
Proof.
  intros Hi. unfold demo_mem. rewrite table_of_set by (done || lia). destruct (i =? 512); [done|].
  rewrite (table_of_ext ∅); [done | done | | done]. apply st32_same_page; done || lia.
Qed.

Lemma demo_user_dir : dir_wf (k_mem demo_user) (frames demo_user) demo_dir.
Proof.
  split.
  - by split.
  - apply (bool_decide_unpack _). reflexivity.
  - intros i t Hi. change (k_mem demo_user) with demo_mem. rewrite demo_tables by done.
    destruct (i =? 512); [|done]. intros [= <-]. split_and!; [by split | by apply Z.leb_le | | done].
    apply (bool_decide_unpack _). reflexivity.
  - intros i j t Hi Hj. change (k_mem demo_user) with demo_mem. rewrite !demo_tables by done.
    destruct (Z.eqb_spec i 512), (Z.eqb_spec j 512); congruence.
Qed.

Lemma demo_user_walk i : 0 <= i < 4096 -> mmu_walk demo_dir demo_mem (0x80000000 + i) = Some (0x102000 + i).
Proof.
  intros Hi. rewrite walk_tables by done.
  assert (page_of (0x80000000 + i) = page_of 0x80000000) as [-> ->]%page_indices by (rewrite page_of_offset; done || lia).
  change (pde_index 0x80000000) with 512. change (pte_index 0x80000000) with 0. rewrite demo_tables by lia.
  rewrite Z.eqb_refl. cbn [mbind option_bind].
  assert (leaf demo_mem 0x101000 0 = Some 0x102000) as -> by reflexivity. cbn [mbind option_bind]. f_equal. zdiv.
Qed.

Lemma memory_get_paddr_translates_witness :
  exists r, memory_get_paddr demo_dir 0x80000123 demo_user = Done r demo_user /\
    (forall pa, mmu_walk demo_dir (k_mem demo_user) 0x80000123 = Some pa -> r = pa).
Proof.
  destruct (memory_get_paddr_translates demo_user demo_dir 0x80000123 demo_user_dir ltac:(lia)) as (r & E & Hw & _).
  exact (ex_intro _ r (conj E Hw)).
Defined.

Lemma demo_copy_ok :
  copy_ok demo_user demo_dir 0x80000010 0x1000 16 (fun x => 0x102000 + (x - 0x80000000)) (fun i => 0x1000 + i).
Proof.
  assert (forall i, 0 <= i < 16 -> page_of (0x102000 + (0x80000010 + i - 0x80000000)) = 0x102000) as Hpg.
  { intros i Hi. replace (0x102000 + (0x80000010 + i - 0x80000000)) with (0x102000 + (0x10 + i)) by lia.
    apply page_of_offset; [done | lia]. }
  split.
  - exact demo_user_dir.
  - lia.
  - lia.
  - intros i Hi. change (k_mem demo_user) with demo_mem.
    replace (0x80000010 + i) with (0x80000000 + (0x10 + i)) by lia. rewrite demo_user_walk by lia. f_equal. lia.
  - intros i Hi. rewrite Hpg by done. split; [by split|]. unfold MEM_EXT_START. lia.
  - intros p (i & Hi & ->). rewrite Hpg by done. intros [?|(k & Hk & Et)]; [done|].
    change (k_mem demo_user) with demo_mem in Et. rewrite demo_tables in Et by done. by destruct (k =? 512).
  - intros i j Hi Hj _. unfold page_of; zdiv.
  - intros m i _ Hi. split; [apply translate_kernel, kmapped_spec; lia|]. intros (k & Hk & E). rewrite Hpg in E by done.
    unfold page_of in E. zdiv.
Qed.

Lemma memory_copy_uvm_data_copies_witness :
  exists m', memory_copy_uvm_data 0x80000010 demo_dir 0x1000 16 demo_user = Done 0 (set_k_mem m' demo_user) /\
    forall i, 0 <= i < 16 -> mget m' (0x102000 + (0x80000010 + i - 0x80000000)) = mget demo_mem (0x1000 + i).
Proof.
  destruct (memory_copy_uvm_data_copies demo_user demo_dir 0x80000010 0x1000 16 _ _ ltac:(lia) demo_copy_ok) as (m' & E & Hc & _).
  exact (ex_intro _ m' (conj E Hc)).
Defined.

Lemma memory_alloc_for_page_dir_maps_witness :
  exists (ps : list Z) s', memory_alloc_for_page_dir demo_dir 0x90000000 5000 7 demo_user = Done 0 s' /\
    Z.of_nat (length ps) = (5000 + 4095) / 4096 /\ NoDup ps.
Proof.
  destruct (memory_alloc_for_page_dir_maps demo_user demo_dir 0x90000000 5000 7) as (ps & s' & E & Hl & Hn & _);
    [by apply (paging_ok_mem demo), demo_paging | exact demo_user_dir | lia | lia | lia | done | by apply Z.leb_le | by compute | | by apply Z.leb_le |].
  - intros x Hx. change ((5000 + 4095) / 4096) with 2 in Hx. rewrite walk_tables by done.
    change (k_mem demo_user) with demo_mem. rewrite demo_tables by (apply pde_index_range; lia).
    rewrite (proj2 (Z.eqb_neq _ 512)); [done|]. rewrite pde_index_div. change (2 ^ 22) with 4194304. zdiv.
  - exact (ex_intro _ ps (ex_intro _ s' (conj E (conj Hl Hn)))).
Defined.
