(* ===== verification/WitnessKernel.v ===== *)
(** The theorems on page tables, tasks, interrupts, system calls, the disk and the
    loader applied to concrete states. *)
From S2P Require Import Prelude DList Bitmap Machine MachineFacts Klib Format Sched Ipc Log Cpu Alloc Paging AddrSpace.
From S2P Require Import KernelMap FreeSpace CopySpace Irq Timer Fs Task TaskLife Exec ProgLoad Syscall Fork User Init Loader Demo Witness.

(** ** The kernel's page table: 8 MiB of free frames *)
Definition boot_state : kst :=
  set_k_alloc (AddrAlloc (Bitmap 2048 (replicate 256 0)) 0x100000 0x800000 4096) demo.

Lemma boot_paging : paging_ok boot_state.
Proof.
  split; [by eexists | |].
  - split; [|done|done|done]. split; [by apply Z.leb_le || (simpl; lia)|]. by apply Forall_replicate.
  - intros p (i & Hi & ->)%elem_of_all_frames. unfold frame_addr. cbn in *. split; [zdiv|]. apply kmapped_spec. lia.
Qed.

Lemma boot_layout : layout_ok.
Proof. split; by vm_compute. Qed.

Lemma create_kernel_table_identity_witness :
  exists s', create_kernel_table boot_state = Done tt s' /\
    forall x, 0 <= x < 2 ^ 32 -> mmu_walk kernel_page_dir (k_mem s') x = if kmapped x then Some x else None.
Proof.
  destruct (create_kernel_table_identity boot_state boot_layout boot_paging) as (s' & E & _ & _ & Hw).
  - apply (bool_decide_unpack _). vm_compute. reflexivity.
  - exact (ex_intro _ s' (conj E Hw)).
Defined.

(** ** Destroying address spaces *)
Lemma memory_destroy_uvm_frees_witness :
  exists s', memory_destroy_uvm demo_dir demo_user = Done tt s' /\
    freed (fun q => q = demo_dir \/ below (k_mem demo_user) demo_dir (pde_index demo_dir) (1024 - pde_index demo_dir) q)
      demo_user s'.
Proof.
  assert (paging_ok demo_user) as Hok by (by apply paging_ok_mem, demo_paging).
  assert (dir_wf (k_mem demo_user) [] demo_dir) as Hd
    by (apply (dir_wf_weaken _ (frames demo_user)); [by intros p ?%not_elem_of_nil | exact demo_user_dir]).
  exact (memory_destroy_uvm_frees demo_user demo_dir Hok Hd ltac:(done)).
Defined.

(** A directory that maps the sixteen frames of [demo] to themselves; twelve are free. *)
Definition identity_leaves : gmap Z Z :=
  foldr (fun k m => st32 m (0x101000 + 4 * (0x100 + k)) (Z.lor (0x100000 + 0x1000 * k) 7)) ∅ (seqZ 0 16).

Definition identity_user : kst := set_k_mem (st32 identity_leaves (demo_dir + 4 * 0) (Z.lor 0x101000 7)) demo.

Lemma identity_tables i : 0 <= i < 1024 -> table_of (k_mem identity_user) demo_dir i = if i =? 0 then Some 0x101000 else None.
Proof.
  intros Hi. unfold identity_user. kproj. rewrite table_of_set by (done || lia). destruct (i =? 0); [done|].
  rewrite (table_of_ext ∅); [done | done | | done]. intros a Ha. unfold page_of, demo_dir in Ha.
  unfold identity_leaves. cbn [seqZ fmap list_fmap seq foldr Z.to_nat Pos.to_nat]. change (seqZ 0 16) with [0;1;2;3;4;5;6;7;8;9;10;11;12;13;14;15].
  cbn [foldr]. rewrite !mget_st32_ne by zdiv. done.
Qed.

Lemma destroy_uvm_frees_live_memory_witness :
  exists s', memory_destroy_uvm demo_dir identity_user = Done tt s' /\ (0x102000 ∈ frames s') /\ 0x102000 ∉ frames identity_user.
Proof.
  destruct (destroy_uvm_frees_live_memory identity_user demo_dir) as (s' & E & Hf).
  - destruct demo_paging. by split.
  - split; [by split | by intros ?%not_elem_of_nil | |].
    + intros i t Hi. rewrite identity_tables by done. destruct (i =? 0); [|done]. intros [= <-].
      split_and!; [by split | done | by intros ?%not_elem_of_nil | done].
    + intros i j t Hi Hj. rewrite !identity_tables by done. destruct (Z.eqb_spec i 0), (Z.eqb_spec j 0); congruence.
  - done.
  - apply (Forall_forall (fun p => mmu_walk demo_dir (k_mem identity_user) p = Some p)).
    apply (bool_decide_unpack _). vm_compute. reflexivity.
  - refine (ex_intro _ s' (conj E (conj (Hf 0x102000 _ _) _))); [|done|]; apply (bool_decide_unpack _); vm_compute; reflexivity.
Defined.

(** ** Fork: the page [0x80000000] of [demo_dir] copied into the new space [0x103000] *)
Definition demo_parent : kst := set_k_cr3 demo_dir demo_user.

Lemma demo_leaf j : 0 <= j < 1024 -> leaf demo_mem 0x101000 j = if j =? 0 then Some 0x102000 else None.
Proof.
  intros Hj. unfold demo_mem. rewrite (leaf_ext (st32 ∅ (0x101000 + 4 * 0) (Z.lor 0x102000 7))); [|done | | done].
  - rewrite leaf_set. by destruct (j =? 0).
  - apply st32_same_page; done || lia.
Qed.

Lemma demo_own p : own demo_parent demo_dir p -> p = 0x100000 \/ p = 0x101000 \/ p = 0x102000.
Proof.
  intros [->|[(i & Hi & Et)|(x & pa & Hx & Ew & ->)]]; [by left | |].
  - right; left. change (k_mem demo_parent) with demo_mem in Et. rewrite demo_tables in Et by lia. destruct (i =? 512); congruence.
  - right; right. unfold user, MEMORY_TASK_BASE in Hx. change (k_mem demo_parent) with demo_mem in Ew.
    rewrite walk_tables in Ew by done. rewrite demo_tables in Ew by (apply pde_index_range; lia).
    destruct (_ =? 512); [|done]. cbn [mbind option_bind] in Ew. rewrite demo_leaf in Ew by (apply pte_index_range).
    destruct (_ =? 0); [|done]. cbn [mbind option_bind] in Ew. injection Ew as <-.
    unfold page_of. zdiv.
Qed.

Lemma new_dir_tables i : 0 <= i < 1024 -> table_of demo_mem 0x103000 i = None.
Proof.
  intros Hi. unfold demo_mem, demo_dir.
  rewrite (table_of_ext (st32 ∅ (0x101000 + 4 * 0) (Z.lor 0x102000 7))); [|done | | done].
  - rewrite (table_of_ext ∅); [done | done | | done]. apply st32_same_page; done || lia.
  - apply st32_same_page; done || lia.
Qed.

Lemma demo_fork : fork_ok demo_parent demo_dir 0x103000.
Proof.
  split.
  - destruct demo_paging. by split.
  - done.
  - exact demo_user_dir.
  - split; [by split | apply (bool_decide_unpack _); reflexivity | |];
      intros; change (k_mem demo_parent) with demo_mem in *; rewrite new_dir_tables in * by done; done.
  - intros p Hp%demo_own. split.
    + intros [->|(i & Hi & Et)]; [lia|]. change (k_mem demo_parent) with demo_mem in Et. by rewrite new_dir_tables in Et.
    + destruct Hp as [->|[->| ->]]; apply (bool_decide_unpack _); reflexivity.
  - intros x Hx. unfold user, MEMORY_TASK_BASE in Hx. change (k_mem demo_parent) with demo_mem.
    rewrite walk_tables by done. by rewrite new_dir_tables by (apply pde_index_range; lia).
Qed.

(** The page and its table take two frames, and they are free. *)
Lemma demo_copy_need : copy_need demo_mem demo_dir = 2%nat /\ (4 <= length (frames demo))%nat.
Proof. split; [vm_compute; reflexivity | apply Nat.leb_le; reflexivity]. Qed.

Lemma memory_copy_uvm2_copies_witness :
  exists s' pa, memory_copy_uvm2 demo_dir 0x103000 demo_parent = Done 0x103000 s' /\ paging_ok s' /\
    (forall x, user x -> mmu_walk demo_dir (k_mem s') x = mmu_walk demo_dir (k_mem demo_parent) x) /\
    mmu_walk 0x103000 (k_mem s') 0x80000000 = Some pa /\ mget (k_mem s') pa = mget demo_mem 0x102000.
Proof.
  destruct (memory_copy_uvm2_copies demo_parent demo_dir 0x103000 demo_fork) as (r & s' & E & Hok & Hw & _ & Hr); [done|].
  destruct demo_copy_need as [Hn Hl].
  destruct Hr as [(-> & ds & _ & Hc & _)|(_ & _ & Hlt)]; [|change (k_mem demo_parent) with demo_mem in Hlt; rewrite Hn in Hlt;
    change (frames demo_parent) with (frames demo) in Hlt; lia].
  specialize (Hc 0x80000000 ltac:(unfold user, MEMORY_TASK_BASE; lia)). unfold copied_at in Hc.
  change (k_mem demo_parent) with demo_mem in Hc.
  assert (mmu_walk demo_dir demo_mem 0x80000000 = Some 0x102000) as Ew by (vm_compute; reflexivity). rewrite Ew in Hc.
  destruct Hc as (pa & Ewt & _ & Eb).
  exact (ex_intro _ s' (ex_intro _ pa (conj E (conj Hok (conj Hw (conj Ewt Eb)))))).
Defined.

(** ** A new task *)
Definition tD : Z := 0x183f4.

Definition demo_slot : kst := set_k_tasks (<[tD := zero_task]> demo_tasks) demo.

Lemma demo_slot_ok : slot_ok demo_slot tD (cs "new") zero_task 8 [].
Proof.
  split.
  - done.
  - split; [apply lookup_insert_eq | done].
  - by repeat constructor.
  - split; [by eexists | by apply (bool_decide_unpack _)].
  - split; [reflexivity | done].
  - by demo_dlist.
  - by split_and!; intros ?%not_elem_of_nil.
  - destruct demo_paging; by split.
Qed.

Lemma task_init_live_witness :
  exists s' t stack dir, task_init tD (cs "new") TASK_FLAGS_USER 0x80000000 0xe0000000 demo_slot = Done 0 s' /\
    k_tasks s' !! tD = Some t /\ t_tss t = tss_ready demo_slot TASK_FLAGS_USER 0x80000000 0xe0000000 stack dir /\ live s' tD.
Proof.
  destruct (task_init_live demo_slot tD (cs "new") TASK_FLAGS_USER 0x80000000 0xe0000000 zero_task 8 []
              demo_slot_ok demo_kernel_dir) as (s' & t & stack & dir & E & Ht & Htss & _ & _ & _ & Hlive & _).
  - apply (bool_decide_unpack _). reflexivity.
  - exact (ex_intro _ s' (ex_intro _ t (ex_intro _ stack (ex_intro _ dir (conj E (conj Ht (conj Htss Hlive))))))).
Defined.

Definition demo_full : kst := set_k_alloc (AddrAlloc (Bitmap 16 [0xff; 0xff]) 0x100000 0x10000 4096) demo_slot.

Lemma demo_full_ok : slot_ok demo_full tD (cs "new") zero_task 8 [].
Proof.
  destruct demo_slot_ok as [H1 H2 H3 H4 H5 H6 H7 _]. split; [done..|].
  split; [by eexists | |].
  - split; [|done|done|done]. split; [simpl; lia|]. repeat constructor; lia.
  - intros p (i & Hi & ->)%elem_of_all_frames. unfold frame_addr. cbn in *. split; [zdiv|]. apply kmapped_spec. lia.
Qed.

Lemma task_init_hides_failure_witness :
  (exists s1, tss_init tD TASK_FLAGS_USER 0x80000000 0xe0000000 demo_full = Done (-1) s1) /\
  exists s', task_init tD (cs "new") TASK_FLAGS_USER 0x80000000 0xe0000000 demo_full = Done 0 s'.
Proof.
  destruct (task_init_hides_failure demo_full tD (cs "new") TASK_FLAGS_USER 0x80000000 0xe0000000 zero_task 8 []
              demo_full_ok eq_refl) as [H1 (s' & t & d & E & _)].
  exact (conj H1 (ex_intro _ s' E)).
Defined.

(** ** Interrupts and the timer *)
Definition demo_frame : exception_frame_t := ExceptionFrame 0 0 0 0 0 0 0 0 0 0 0 0 14 2 0x10400 8 0x202 0 0.

Lemma irq_init_table_witness :
  exists idt, irq_init demo =
    Done tt (set_k_out (reverse pic_writes ++ k_out demo) (set_k_idtr (idt_table, 1023) (set_k_idt idt demo))) /\
    length idt = IDT_TABLE_NO /\ forall i, (i < IDT_TABLE_NO)%nat -> idt !! i = Some (idt_gate (Z.of_nat i)).
Proof. exact (irq_init_table demo eq_refl). Defined.

Lemma irq_mask_one_line_witness : irq_enable 3 demo = Done tt demo /\ irq_disable 3 demo = Done tt demo.
Proof. destruct (irq_mask_one_line demo 3) as [H _]. exact (H eq_refl). Defined.

Lemma timer_tick_acknowledged_witness :
  resched (acknowledged demo) tt demo_view (a_dispatch (a_tick_sleepers demo_view)) (do_handler_timer demo) /\
  exists s' k, do_handler_timer demo_last_tick = Susp s' k /\ k_out s' = (PIC0_OCW2, PIC_OCW2_EOI) :: k_out demo_last_tick.
Proof.
  destruct (timer_tick_acknowledged demo demo_view demo_inv demo_dispatched) as [_ H1].
  destruct (timer_tick_acknowledged demo_last_tick demo_view demo_last_tick_inv demo_dispatched) as [(s' & El & Eo & _) H2].
  split; [exact H1|]. change (tick_preempts demo_last_tick demo_view) with true in H2.
  destruct H2 as (s1 & to & k & _ & _ & _ & _ & E & _). exists (enter_task to s1), k. split; [exact E|].
  rewrite E in El. injection El as <-. exact Eo.
Defined.

Lemma timer_init_period_witness : exists s' lo hi mask, timer_init demo = Done tt s' /\
  k_out s' = [(0x21, mask); (0x40, hi); (0x40, lo); (0x43, 0x36)] ++ k_out demo /\ lo + 256 * hi = 11931.
Proof.
  destruct (timer_init_period demo eq_refl) as (s' & lo & hi & mask & E & _ & Eo & El & _).
  exact (ex_intro _ s' (ex_intro _ lo (ex_intro _ hi (ex_intro _ mask (conj E (conj Eo El)))))).
Defined.

(** ** System calls: a frame at [0x60000] *)
Definition demo_call (id arg : Z) : kst :=
  set_k_mem (st32 (st32 ∅ (0x60000 + fr_func_id) id) (0x60000 + fr_arg0) arg) demo.

Lemma demo_frame_ok : frame_ok 0x60000.
Proof. intros off Ho. unfold SIZEOF_SYSCALL_FRAME in Ho. apply kmapped_spec. lia. Qed.

Lemma syscall_sleep_suspends_witness :
  let v' := a_sleep (sleep_ticks_of_ms 20) demo_view in
  exists s1 task k, sched_inv s1 v' /\ v_curr v' <> v_curr demo_view /\
    do_handler_syscall 0x60000 (demo_call SYS_sleep 20) = Susp (enter_task task s1) k.
Proof.
  assert (sched_inv (demo_call SYS_sleep 20) demo_view) as Hi by (destruct demo_inv; by split).
  destruct (syscall_sleep_suspends (demo_call SYS_sleep 20) demo_view 0x60000 Hi demo_ready demo_frame_ok eq_refl)
    as (s1 & task & k & _ & Hi1 & _ & Hne & E & _).
  exact (ex_intro _ s1 (ex_intro _ task (ex_intro _ k (conj Hi1 (conj Hne E))))).
Defined.

(** ** The file: the path "/" at [0x61000], a buffer at [0x62000] *)
Definition demo_path : kst := set_k_mem (mset ∅ 0x61000 0x2f) demo.

Lemma file_read_at_witness :
  exists s', (fd ← sys_open 0x61000 0; _ ← sys_lseek fd 500 0; sys_read fd 0x62000 100) demo_path = Done 100 s' /\
    forall i, 0 <= i < 100 -> mget (k_mem s') (0x62000 + i) = disk_byte 0 (500 + i).
Proof.
  assert (disk_ready) as Hr by (split; [simpl; lia | done]).
  assert (file_block) as Hf by (split_and!; [done | done | intros i Hi; apply kmapped_spec; simpl; lia]).
  destruct (file_read_at demo_path 0x61000 0 500 0 0x62000 100 (k_mem demo_path) Hr Hf) as (s' & E & Hb & _);
    [reflexivity | done | lia | lia | lia | done | intros i Hi; apply kmapped_spec; lia | right; simpl; lia |].
  exact (ex_intro _ s' (conj E Hb)).
Defined.

(** ** The loader: a file with one segment of two bytes, four in memory *)
Definition demo_image : gmap Z Z :=
  let put m offv := st32 m (0x100000 + offv.1) offv.2 in
  foldl put ∅ [(0, 0x464c457f); (24, 0x10000); (28, 52); (44, 1);
               (52, 1); (56, 84); (64, 0x10000); (68, 2); (72, 4); (84, 0xbbaa)].

Lemma demo_image_ok : image_ok demo_image 0x100000 88 1.
Proof.
  split; [by split_and! | by split_and! | by vm_compute | by vm_compute |].
  assert (segments demo_image 0x100000 1 = [Segment true 84 0x10000 2 4]) as -> by (by vm_compute).
  constructor; [|constructor]. intros _. cbn. lia.
Qed.

Lemma reload_elf_reference_witness :
  exists m', reload_elf_file demo_image 0x100000 = (0x10000, m') /\
    mget m' 0x10001 = 0xbb /\ mget m' 0x10002 = 0 /\ mget m' 0x10004 = 0.
Proof.
  destruct (reload_elf_reference demo_image 0x100000 88 1 demo_image_ok) as (m' & E & H).
  change (ld32 demo_image (0x100000 + e_entry)) with 0x10000 in E.
  refine (ex_intro _ m' (conj E (conj _ (conj _ _)))); rewrite H; by vm_compute.
Defined.

(** A BIOS with three ranges, the second one reserved. *)
Definition demo_ranges : list (Z * SMAP_entry_t) :=
  [(20, SmapEntry 0 0 0x9fc00 0 1 0); (20, SmapEntry 0x9fc00 0 0x60400 0 2 0); (20, SmapEntry 0x100000 0 0x7ee0000 0 1 0)].

Definition demo_bios (contID : Z) (buf : SMAP_entry_t) : Z * Z * Z * SMAP_entry_t :=
  match demo_ranges !! Z.to_nat contID with
  | Some (b, e) => (SMAP_SIGNATURE, b, if decide (S (Z.to_nat contID) = 3%nat) then 0 else Z.of_nat (S (Z.to_nat contID)), e)
  | None => (0, 0, 0, buf)
  end.

(** ** Fork: task A, in the space [demo_dir], with its call frame at [0x60000] *)
Definition demo_forker : task_t :=
  set_t_tss (set_tss_cr3 demo_dir (tss_start 0x80000000 0x8000a000 0x60058 0x2b 0x23 0)) (demo_task tA 0x30 10 0).

Definition fork_state : kst :=
  set_k_cr3 demo_dir (set_k_mem demo_mem (set_k_tasks (<[tD := zero_task]> (<[tA := demo_forker]> demo_tasks)) demo)).

Lemma fork_state_inv : sched_inv fork_state demo_view.
Proof.
  destruct demo_inv as [H1 H2 H3 H4 H5 _ _ _]. split; [done..| | |].
  - intros t Hin. change (t ∈ [idle_task; tA; tB; tC]) in Hin.
    repeat (apply elem_of_cons in Hin as [->|Hin]); [.. | by apply not_elem_of_nil in Hin];
      (split; [done|]; split_and!; [by eexists | by eexists | by eexists |]; eexists; split; done).
  - intros t n [= -> ->]%list_elem_of_singleton. split; [lia | done].
  - intros t t'. unfold fork_state, demo_tasks. kproj. rewrite !dom_insert_L, dom_singleton_L.
    rewrite !elem_of_union, !elem_of_singleton. unfold tA, tB, tC, tD, SIZEOF_TASK. change idle_task with 0x180e4. lia.
Qed.

Lemma fork_kernel_tables i : 0 <= i < 1024 -> table_of demo_mem kernel_page_dir i = None.
Proof.
  intros Hi. unfold demo_mem, demo_dir.
  rewrite (table_of_ext (st32 ∅ (0x101000 + 4 * 0) (Z.lor 0x102000 7))); [|done | | done].
  - rewrite (table_of_ext ∅); [done | done | | done]. apply st32_same_page; done || lia.
  - apply st32_same_page; done || lia.
Qed.

Lemma fork_kernel_dir : dir_wf demo_mem (frames demo) kernel_page_dir.
Proof.
  destruct demo_kernel_dir as [H1 H2 _ _]. split; [done..| |]; intros; rewrite fork_kernel_tables in * by done; done.
Qed.

Lemma fork_state_own p : own fork_state demo_dir p -> p = 0x100000 \/ p = 0x101000 \/ p = 0x102000.
Proof. exact (demo_own p). Qed.

Lemma fork_state_pre : fork_pre fork_state demo_view tD demo_forker zero_task 8 [].
Proof.
  split.
  - exact fork_state_inv.
  - done.
  - split; [by vm_compute | by eexists].
  - apply (bool_decide_unpack _). reflexivity.
  - destruct demo_slot_ok as [H1 H2 _ H4 _ H6 H7 H8]. split; [done | done | | done | by split | done | done |].
    + by repeat constructor.
    + destruct demo_paging. by split.
  - intros x Hx%not_elem_of_nil. done.
  - intros x tx d Hx. change (x ∈ [idle_task; tA; tB; tC]) in Hx.
    repeat (apply elem_of_cons in Hx as [->|Hx]); [.. | by apply not_elem_of_nil in Hx]; intros [= <-] [= <-]; done.
  - change (u32 (tss_esp0 (t_tss demo_forker) - SIZEOF_SYSCALL_FRAME)) with 0x60000. split; [exact demo_frame_ok|].
    intros off Ho. unfold SIZEOF_SYSCALL_FRAME in Ho. assert (page_of (0x60000 + off) = 0x60000) as -> by (unfold page_of; zdiv).
    apply (bool_decide_unpack _). reflexivity.
  - done.
  - exact fork_kernel_dir.
  - exact demo_user_dir.
  - intros p Hp%fork_state_own. split.
    + destruct Hp as [->|[->| ->]]; apply (bool_decide_unpack _); reflexivity.
    + intros [->|(i & Hi & Et)]; [by destruct Hp as [E|[E|E]]|].
      change (k_mem fork_state) with demo_mem in Et. by rewrite fork_kernel_tables in Et.
  - apply Nat.leb_le. reflexivity.
Qed.

Lemma sys_fork_makes_child_witness :
  exists s' t dir, sys_fork fork_state = Done (i32 tD) s' /\ sched_inv s' (a_set_ready tD demo_view) /\
    k_tasks s' = <[tD := t]> (k_tasks fork_state) /\ tss_cr3 (t_tss t) = dir /\
    forall x, user x -> child_copy fork_state s' dir x.
Proof.
  destruct (sys_fork_makes_child fork_state demo_view tD demo_forker zero_task 8 [] fork_state_pre)
    as (s' & t & stack & dir & r & E & Hi & Et & _ & _ & _ & _ & Htss & _ & Hr).
  destruct demo_copy_need as [Hn Hl].
  destruct Hr as [(-> & Hc)|(_ & Hlt)]; [|change (copy_need (k_mem fork_state) (k_cr3 fork_state)) with (copy_need demo_mem demo_dir) in Hlt;
    rewrite Hn in Hlt; change (frames fork_state) with (frames demo) in Hlt; lia].
  refine (ex_intro _ s' (ex_intro _ t (ex_intro _ dir (conj E (conj Hi (conj Et (conj _ Hc))))))).
  rewrite Htss. reflexivity.
Defined.

(** ** Calls of user programs *)
Lemma wrappers_reach_handlers_witness :
  frame_call (gate_words ∅ 0x60000 (msleep_args (fun _ => 7) 1000)) 0x60000 =
    Some (sys_sleep 1000;; mret (void_eax SYS_sleep)) /\
  frame_call (gate_words ∅ 0x60000 (fork_args (fun _ => 7))) 0x60000 = Some sys_fork.
Proof.
  destruct (wrappers_reach_handlers (fun _ => 7) ∅ 0x60000 1000 0x80000000 5 0x80000010 0x80000020 0 1)
    as (H1 & _ & _ & H2 & _); [lia | lia | lia | lia | lia | lia | lia |].
  exact (conj H1 H2).
Defined.

(** ** A segment of 4100 bytes, 5000 in memory, loaded at [0x90000000] in [demo_dir] *)
Definition demo_header : gmap Z Z :=
  st32 (st32 (st32 (st32 demo_mem (0x60000 + p_offset) 84) (0x60000 + p_vaddr) 0x90000000)
    (0x60000 + p_filesz) 4100) (0x60000 + p_memsz) 5000.

Definition load_state : kst := set_k_mem demo_header demo.

Lemma demo_header_same : same_page demo_mem demo_header demo_dir.
Proof. intros a Ha. unfold demo_header. rewrite !mget_st32_ne; [done|..]; unfold page_of, demo_dir in Ha; unfold p_offset, p_vaddr, p_filesz, p_memsz; zdiv. Qed.

Lemma load_state_dir : dir_wf demo_header (frames demo) demo_dir.
Proof. exact (dir_wf_ext _ _ _ _ demo_user_dir demo_header_same). Qed.

Lemma load_state_tables i : 0 <= i < 1024 -> table_of demo_header demo_dir i = if i =? 512 then Some 0x101000 else None.
Proof. intros Hi. rewrite (table_of_ext demo_mem) by (done || apply demo_header_same). by apply demo_tables. Qed.

(** Low addresses are neither frames nor page tables. *)
Lemma load_state_low x :
  0 <= x < 0x100000 -> (page_of x ∉ frames demo) /\ ~ pt_page demo_header demo_dir (page_of x).
Proof.
  intros Hx. assert (page_of x < 0x100000) as Hp by (unfold page_of; zdiv). split.
  - intros Hin%free_frames_all. destruct (frame_bounds _ _ demo_alloc_wf Hin) as [Hb _]. unfold MEM_EXT_START in Hb. lia.
  - unfold demo_dir. intros [E|(i & Hi & Et)]; [lia|]. change 0x100000 with demo_dir in Et. rewrite load_state_tables in Et by done.
    destruct (i =? 512); [|done]. injection Et. lia.
Qed.

Lemma load_state_loadable : loadable load_state demo_dir 0x60000 0x90000000 5000 84 4100.
Proof.
  split.
  - destruct demo_paging. by split.
  - exact load_state_dir.
  - intros off Ho. unfold SIZEOF_PHDR in Ho. split; [apply kmapped_spec; lia | apply load_state_low; lia].
  - by split_and!; vm_compute.
  - split_and!; [lia | done | lia].
  - intros x Hx. change (k_mem load_state) with demo_header. change ((5000 + 4095) / 4096 * 4096) with 8192 in Hx.
    rewrite walk_tables by done. rewrite load_state_tables by (apply pde_index_range; lia).
    rewrite pde_index_div. change (2 ^ 22) with 4194304. by replace (x / 4194304 =? 512) with false by (symmetry; apply Z.eqb_neq; zdiv).
  - by apply Z.leb_le.
  - change TEMP_ADDR with 0x1fca0. split_and!; [done | done |]. intros i Hi. apply kmapped_spec. lia.
  - intros i Hi. change TEMP_ADDR with 0x1fca0. apply load_state_low. lia.
Qed.

Lemma load_phdr_loads_witness :
  exists (ps : list Z) s', load_phdr TEMP_FD 0x60000 demo_dir load_state = Done 0 (set_k_temp_pos (TEMP_ADDR + 84 + 4100) s') /\
    Z.of_nat (length ps) = 2.
Proof.
  destruct (load_phdr_loads load_state demo_dir 0x60000 0x90000000 5000 84 4100 load_state_loadable) as (ps & s' & E & Hl & _).
  exact (ex_intro _ ps (ex_intro _ s' (conj E Hl))).
Defined.
