(* ===== verification/WitnessBoot.v ===== *)
(** The loader's theorems at a disk with a small ELF file, and the state start-up begins in,
    at the linked kernel image: the zeroed static objects and a PC with 16 MiB of extended memory. *)
From S2P Require Import Prelude DList Bitmap Machine MachineFacts Klib Format Sched Ipc Log Cpu Alloc Paging AddrSpace.
From S2P Require Import KernelMap CopySpace Irq Timer Fs Task TaskLife Exec Syscall Fork Init Boot FirstTask Loader LoaderRun Demo Witness WitnessKernel.

Definition cold_addresses : list Z := idle_task :: first_task :: (task_table_at <$> seqZ 0 128).

Definition cold_mem : gmap Z Z := {[s_first_task := 0x90]}.

Definition cold : kst := {|
  k_if := false; k_cr3 := 0; k_tr := 0; k_mem := cold_mem; k_nodes := ∅;
  k_tasks := list_to_map ((fun a => (a, zero_task)) <$> cold_addresses);
  k_tm := TaskManager 0 list_init list_init list_init 0 0;
  k_mutex := <[paddr_alloc := demo_mutex]> (<[gdt_mutex := demo_mutex]>
             (<[task_table_mutex := demo_mutex]> {[log_mutex := demo_mutex]}));
  k_sem := ∅; k_alloc := AddrAlloc (Bitmap 0 []) 0 0 0;
  k_gdt := replicate 256 (SegmentDesc 0 0 0 0 0); k_idt := replicate 128 (GateDesc 0 0 0 0);
  k_sys_tick := 0; k_temp_pos := 0; k_out := []; k_reads := 0; k_cr2 := 0;
  k_gdtr := (0, 0); k_idtr := (0, 0)
|}.

Definition cold_bits : list Z := replicate 512 0.

Definition cold_ram : boot_info_t := BootInfo [(0, 0x9fc00); (0x100000, 0x1000000)] 2.

Lemma cold_hw_ok : cold_hw cold.
Proof.
  constructor; [split | done | done].
  - apply (bool_decide_unpack _). reflexivity.
  - intros a Ha. exists demo_mutex. split; [|done]. revert a Ha.
    apply (Forall_forall (fun a => k_mutex cold !! a = Some demo_mutex)). by repeat constructor.
Qed.

Lemma cold_lookup a : a ∈ cold_addresses -> k_tasks cold !! a = Some zero_task.
Proof.
  revert a. apply (Forall_forall (fun a => k_tasks cold !! a = Some zero_task)).
  unfold cold_addresses. vm_compute. repeat constructor.
Qed.

Lemma cold_dom a : a ∈ dom (k_tasks cold) -> a = idle_task \/ a = first_task \/ exists k, 0 <= k < 128 /\ a = task_table_at k.
Proof.
  cbn [k_tasks cold]. rewrite dom_list_to_map_L, elem_of_list_to_set. rewrite <- list_fmap_compose.
  intros (b & -> & Hb)%list_elem_of_fmap. cbn. unfold cold_addresses in Hb.
  rewrite !elem_of_cons in Hb. destruct Hb as [->|[->|(k & -> & Hk%elem_of_seqZ)%list_elem_of_fmap]]; [by left | by right; left |].
  right; right. exists k. split; [lia | done].
Qed.

Lemma cold_tasks_ok : cold_tasks cold.
Proof.
  constructor.
  - intros k Hk. apply elem_of_dom. exists zero_task. apply cold_lookup. right; right.
    apply (list_elem_of_fmap_2 task_table_at). apply elem_of_seqZ. unfold TASK_NR in Hk. lia.
  - intros t Ht. assert (t = idle_task \/ t = first_task) as Ht' by (rewrite !elem_of_cons in Ht; pose proof (not_elem_of_nil t); tauto).
    split_and!; [destruct Ht' as [->| ->]; done | destruct Ht' as [->| ->]; done | |].
    + intros k Hk. unfold TASK_NR, task_table_at, SIZEOF_TASK in *. change task_table with 98752.
      destruct Ht' as [->| ->]; [change idle_task with 98532 | change first_task with 98344]; lia.
    + exists zero_task. split; [|done]. apply cold_lookup. unfold cold_addresses. destruct Ht' as [->| ->]; [by left | right; by left].
  - intros t t' Ht%cold_dom Ht'%cold_dom Hne. unfold task_table_at, SIZEOF_TASK in *. change task_table with 98752 in *.
    change idle_task with 98532 in *. change first_task with 98344 in *.
    destruct Ht as [->|[->|(k & ? & ->)]], Ht' as [->|[->|(k' & ? & ->)]]; try done; lia.
Qed.

Lemma kernel_elf_image : first_image.
Proof.
  constructor; [done | done | done |]. intros x Hx. unfold page_of. change s_first_task with 274272 in Hx.
  change e_first_task with 274938 in Hx. change kernel_page_dir with 94208. zdiv.
Qed.

Lemma cold_ram_ok : ram_ok cold_bits cold_ram.
Proof. constructor; [done | done | | done | done]. unfold cold_bits. apply Forall_replicate. lia. Qed.

(** ** The loader *)
Lemma demo_bios_serves : serves demo_ranges demo_bios.
Proof. intros i b e buf' E. unfold demo_bios. by rewrite Nat2Z.id, E. Qed.

Lemma loader_entry_enters_witness :
  exists r' s', loader_entry 0x9200 0x9100 demo_bios (SmapEntry 0 0 0 0 0 0) (LRegs 0x10 0 [] (BootInfo [] 0)) cold =
      Done ((8, 0x9100), r') s' /\
    boot_info r' = BootInfo [(0, 0x9fc00); (0x100000, 0x7ee0000)] 2 /\ Z.testbit (l_cr0 r') 0 = true.
Proof.
  destruct (loader_entry_enters 0x9200 0x9100 demo_bios demo_ranges (20, SmapEntry 0x100000 0 0x7ee0000 0 1 0)
    (SmapEntry 0 0 0 0 0 0) (LRegs 0x10 0 [] (BootInfo [] 0)) cold demo_bios_serves eq_refl)
    as (r' & s' & E & Hb & _ & _ & _ & Hc & _).
  exact (ex_intro _ r' (ex_intro _ s' (conj E (conj Hb (Hc 0 ltac:(done)))))).
Defined.

(** A disk whose sectors from 100 on hold [demo_image]. *)
Definition file_byte (i : Z) : Z := mget demo_image (0x100000 + i).

Definition disk_device : Device := {|
  port_in := fun port n =>
    if port =? 0x1f0 then
      let w := Z.of_nat n / 257 * 256 + (Z.of_nat n mod 257 - 1) in file_byte (2 * w) + 2 ^ 8 * file_byte (2 * w + 1)
    else 0x08;
  port_patience := 1
|}.

Definition loader_state : kst := set_k_mem (st32 ∅ 0x9000 0x83) cold.

Definition loader_image : gmap Z Z := st32 demo_image 0x9000 0x83.

Lemma disk_device_bytes x : 0 <= x -> @disk_byte disk_device 0 x = file_byte x.
Proof.
  intros Hx. unfold disk_byte, disk_word. cbn [port_in disk_device]. change (0x1f0 =? 0x1f0) with true. cbn iota.
  set (j := x / 512 * 257 + 1 + x mod 512 / 2). rewrite Nat.add_0_l, Z2Nat.id by (unfold j; zdiv).
  assert (j / 257 * 256 + (j mod 257 - 1) = x / 2) as -> by (unfold j; zdiv).
  pose proof (mget_range demo_image (0x100000 + 2 * (x / 2))). pose proof (mget_range demo_image (0x100000 + (2 * (x / 2) + 1))).
  fold (file_byte (2 * (x / 2))) (file_byte (2 * (x / 2) + 1)) in *.
  unfold u16. rewrite Z.mod_small by lia. assert (x mod 2 = 0 \/ x mod 2 = 1) as [E|E] by zdiv; rewrite E.
  - rewrite Z.div_1_r. replace (2 * (x / 2)) with x in * by zdiv. unfold u8. zdiv.
  - change (2 ^ (8 * 1)) with 256. change (2 ^ 8) with 256. replace (2 * (x / 2) + 1) with x in * by zdiv. unfold u8. zdiv.
Qed.

Lemma loader_image_low a : 0x100000 <= a -> mget loader_image a = mget demo_image a.
Proof. intros Ha. apply mget_st32_ne. lia. Qed.

Lemma demo_image_outside a : a < 0x100000 \/ 0x100000 + KERNEL_IMAGE <= a -> mget demo_image a = 0.
Proof. intros Ha. unfold KERNEL_IMAGE in Ha. unfold demo_image. cbn [foldl fst snd]. rewrite !mget_st32_ne by lia. done. Qed.

Lemma loader_image_dir : page_dir_at (st32 ∅ 0x9000 0x83) 0x9000.
Proof.
  intros i w Hw. destruct i as [|i]; [injection Hw as <-; done|].
  unfold page_dir_words in Hw. cbn [lookup list_lookup] in Hw. apply lookup_replicate in Hw as [-> _].
  unfold ld32. rewrite !mget_st32_ne by lia. done.
Qed.

Lemma loader_image_ok : image_ok loader_image 0x100000 KERNEL_IMAGE 1.
Proof.
  split; [by split_and! | by split_and! | by vm_compute | by vm_compute |].
  assert (segments loader_image 0x100000 1 = [Segment true 84 0x10000 2 4]) as -> by (by vm_compute).
  constructor; [|constructor]. intros _. unfold KERNEL_IMAGE. cbn. lia.
Qed.

Lemma loader_disk : @kernel_disk disk_device 0x9000 loader_state loader_image 1.
Proof.
  constructor.
  - intros x Hx. rewrite disk_device_bytes by lia. apply loader_image_low. unfold SYS_KERNEL_LOAD_ADDR. lia.
  - intros a Ha. unfold loader_image, loader_state. cbn [k_mem set_k_mem].
    destruct (decide (0x9000 <= a < 0x9004)) as [Hin|Hout].
    + assert (a = 0x9000 \/ a = 0x9001 \/ a = 0x9002 \/ a = 0x9003) as [->|[->|[->| ->]]] by lia; by vm_compute.
    + rewrite !mget_st32_ne by lia. rewrite demo_image_outside; [done | unfold SYS_KERNEL_LOAD_ADDR in Ha; lia].
  - apply loader_image_ok.
  - by vm_compute.
  - split_and!; [done | done | done |]. apply loader_image_dir.
  - assert (segments loader_image SYS_KERNEL_LOAD_ADDR 1 = [Segment true 84 0x10000 2 4]) as -> by (by vm_compute).
    constructor; [|constructor]. intros _. cbn. lia.
Qed.

Lemma disk_device_ready : @disk_ready disk_device.
Proof. split; [cbn; lia | done]. Qed.

Lemma load_kernel_enters_witness :
  exists r' s', @load_kernel disk_device 0x9000 (LRegs 0x11 0 [] cold_ram) loader_state = Done ((0x10000, cold_ram), r') s' /\
    mget (k_mem s') 0x10001 = 0xbb /\ mget (k_mem s') 0x10002 = 0 /\
    paged_translate (l_cr0 r') (l_cr4 r') (k_cr3 s') (k_mem s') 0x10001 = Some 0x10001.
Proof.
  destruct (@load_kernel_enters disk_device 0x9000 (LRegs 0x11 0 [] cold_ram) loader_state loader_image 1
    disk_device_ready loader_disk) as (r' & s' & E & Hm & Ht & _).
  change (ld32 loader_image (SYS_KERNEL_LOAD_ADDR + e_entry)) with 0x10000 in E.
  refine (ex_intro _ r' (ex_intro _ s' (conj E (conj _ (conj _ (Ht 0x10001 _))))));
    [rewrite Hm; by vm_compute | rewrite Hm; by vm_compute | by split].
Defined.

Lemma load_kernel_dies_witness : exists s', load_kernel 0x9000 (LRegs 0x11 0 [] cold_ram) cold = Halted s'.
Proof.
  exact (load_kernel_dies 0x9000 (LRegs 0x11 0 [] cold_ram) cold (conj (Nat.lt_0_succ 2) (fun _ => eq_refl)) ltac:(vm_compute; discriminate)).
Defined.
