(* ===== verification/WitnessExec.v ===== *)
(** The theorems on [sys_execve] at a task that calls it with the path "/sh.elf" and two
    arguments, and at a disk with a small program. *)
From S2P Require Import Prelude DList Bitmap Machine MachineFacts Klib Format Sched Ipc Log Cpu Alloc Paging AddrSpace.
From S2P Require Import CopySpace Fs Task Exec ExecSpace LoadElf CopyArgs ExecRun Demo Witness WitnessKernel.

(** The caller's page: a path, [argv], and an argument. *)
Definition caller_mem (path : list Z) : gmap Z Z :=
  let put m p bs := fst (foldl (fun x b => (mset x.1 x.2 b, x.2 + 1)) (m, p) bs) in
  st32 (st32 (put (put demo_mem 0x102100 path) 0x102300 (cs "hi")) 0x102200 0x80000100) 0x102204 0x80000300.

Definition caller : task_t :=
  set_t_tss (set_tss_cr3 demo_dir (tss_start 0x80000000 0x8000a000 0x61000 0x2b 0x23 0)) (demo_task tA 0x30 10 0).

Definition caller_state (m : gmap Z Z) : kst :=
  set_k_alloc (AddrAlloc (Bitmap 2048 (7 :: replicate 255 0)) 0x100000 0x800000 4096)
    (set_k_cr3 demo_dir (set_k_mem m (set_k_tasks (<[tA := caller]> demo_tasks) demo))).

(** Only the frame [0x102000] and the pages of the kernel stack were written. *)
Definition caller_kept (m : gmap Z Z) : Prop :=
  forall a, page_of a <> 0x102000 -> page_of a <> 0x60000 -> page_of a <> 0x5f000 -> mget m a = mget demo_mem a.

Lemma caller_paging m : paging_ok (caller_state m).
Proof.
  split; [by eexists | |].
  - split; [|done|done|done]. split; [by apply Z.leb_le || (simpl; lia)|]. constructor; [lia|]. by apply Forall_replicate.
  - intros p (i & Hi & ->)%elem_of_all_frames. unfold frame_addr. cbn in *. split; [zdiv|]. apply kmapped_spec. lia.
Qed.

Lemma caller_frames m p : p ∈ frames (caller_state m) -> 0x103000 <= p.
Proof.
  change (frames (caller_state m)) with (free_frames (k_alloc (caller_state ∅))). revert p.
  apply (Forall_forall (fun p => 0x103000 <= p)). apply (bool_decide_unpack _). vm_compute. reflexivity.
Qed.

Lemma caller_room m : Z.of_nat (length (frames (caller_state m))) = 2045.
Proof. change (frames (caller_state m)) with (free_frames (k_alloc (caller_state ∅))). by vm_compute. Qed.

Section Caller.
Variable m : gmap Z Z.
Hypothesis Hkept : caller_kept m.

Lemma caller_tables i : 0 <= i < 1024 -> table_of m demo_dir i = if i =? 512 then Some 0x101000 else None.
Proof.
  intros Hi. rewrite (table_of_ext demo_mem); [by apply demo_tables | done | | done].
  intros a Ha. apply Hkept; by rewrite Ha.
Qed.

Lemma caller_kernel_tables i : 0 <= i < 1024 -> table_of m kernel_page_dir i = None.
Proof.
  intros Hi. rewrite (table_of_ext demo_mem); [by apply fork_kernel_tables | done | | done].
  intros a Ha. apply Hkept; by rewrite Ha.
Qed.

Lemma caller_leaf j : 0 <= j < 1024 -> leaf m 0x101000 j = if j =? 0 then Some 0x102000 else None.
Proof.
  intros Hj. rewrite (leaf_ext demo_mem); [by apply demo_leaf | done | | done]. intros a Ha. apply Hkept; by rewrite Ha.
Qed.

Lemma caller_dir : dir_wf m [] demo_dir.
Proof.
  split; [by split | by intros ?%not_elem_of_nil | |].
  - intros i t Hi. rewrite caller_tables by done. destruct (i =? 512); [|done]. intros [= <-].
    split_and!; [by split | done | by intros ?%not_elem_of_nil | done].
  - intros i j t Hi Hj. rewrite !caller_tables by done. destruct (Z.eqb_spec i 512), (Z.eqb_spec j 512); congruence.
Qed.

Lemma caller_kernel_dir : dir_wf m (frames (caller_state m)) kernel_page_dir.
Proof.
  split.
  - by split.
  - intros Hp%caller_frames. done.
  - intros i t Hi. by rewrite caller_kernel_tables.
  - intros i j t Hi Hj. by rewrite caller_kernel_tables.
Qed.

Lemma caller_own p : own (caller_state m) demo_dir p -> p = 0x100000 \/ p = 0x101000 \/ p = 0x102000.
Proof.
  intros [->|[(i & Hi & Et)|(x & pa & Hx & Ew & ->)]]; [by left | |].
  - right; left. change (k_mem (caller_state m)) with m in Et. rewrite caller_tables in Et by lia.
    destruct (i =? 512); congruence.
  - right; right. unfold user, MEMORY_TASK_BASE in Hx. change (k_mem (caller_state m)) with m in Ew.
    rewrite walk_tables in Ew by done. rewrite caller_tables in Ew by (apply pde_index_range; lia).
    destruct (_ =? 512); [|done]. cbn [mbind option_bind] in Ew. rewrite caller_leaf in Ew by (apply pte_index_range).
    destruct (_ =? 0); [|done]. cbn [mbind option_bind] in Ew. injection Ew as <-. unfold page_of. zdiv.
Qed.

Lemma caller_area x : exec_area 0x61000 x -> 0x1fca0 <= x < 0x29ca0 \/ 0x60000 <= x < 0x61000.
Proof.
  unfold exec_area, exec_buffer, call_frame, SIZEOF_EHDR, SIZEOF_PHDR, SIZEOF_TASK_ARGS, SIZEOF_SYSCALL_FRAME.
  change TEMP_ADDR with 0x1fca0. change stk_elf_hdr with 300. change stk_elf_phdr with 340. change stk_task_args with 260. lia.
Qed.

Lemma caller_kernel_page p : pt_page m kernel_page_dir p -> p = 0x17000.
Proof. intros [->|(i & Hi & Et)]; [done|]. by rewrite caller_kernel_tables in Et. Qed.

End Caller.

Lemma caller_call m path dir f sep argv args :
  caller_kept m -> path = dir ++ sep :: f -> is_sep sep = true -> Forall (fun c => is_sep c = false) f ->
  (length path < 100)%nat -> cstr demo_dir m 0x80000100 path ->
  args = [(0x80000100, path); (0x80000300, cs "hi")] -> argv = 0x80000200 ->
  argv_at demo_dir m argv (fst <$> args) -> cstr demo_dir m 0x80000300 (cs "hi") ->
  exec_call (caller_state m) caller 0x80000100 dir f sep argv args.
Proof.
  intros Hk -> Hsep Hf Hl Hc -> -> Ha Hc2. set (path := dir ++ sep :: f) in *.
  constructor; change (k_cr3 (caller_state m)) with demo_dir; change (k_mem (caller_state m)) with m;
    change (tss_esp0 (t_tss caller)) with 0x61000; unfold MEMORY_TASK_BASE.
  - by split.
  - split_and!; [done | by apply caller_dir | done].
  - apply caller_paging.
  - by apply caller_kernel_dir.
  - intros p Hp%caller_own; [|done]. split_and!.
    + intros Hin%caller_frames. lia.
    + intros E%caller_kernel_page; [|done]. lia.
    + intros x Ex Hx%caller_area. unfold page_of in Ex. zdiv.
  - split; unfold SIZEOF_SYSCALL_FRAME, SIZEOF_EHDR, SIZEOF_PHDR, SIZEOF_TASK_ARGS; change TEMP_ADDR with 0x1fca0;
      change stk_elf_hdr with 300; change stk_elf_phdr with 340; change stk_task_args with 260; lia.
  - intros x Hx%caller_area. assert (0x1f000 <= page_of x < 0x80000) as Hp by (unfold page_of; zdiv). split_and!.
    + apply kmapped_spec. lia.
    + intros Hin%caller_frames. lia.
    + intros E%caller_kernel_page; [|done]. lia.
  - fold path; split_and!; [done | lia | done | done | done].
  - by split_and!.
  - constructor; [|constructor; [|done]]; cbn [fst snd]; fold path; (split_and!; [lia | | done]); [lia |].
    change (length (cs "hi")) with 2%nat. lia.
  - split; [done|]. cbn [fmap list_fmap snd strings_size foldr length]. unfold MEM_TASK_ARG_SIZE, MEM_PAGE_SIZE, SIZEOF_TASK_ARGS.
    change (length (cs "hi")) with 2%nat. lia.
Qed.

(** ** The path on the disk: a program of two bytes, in four bytes of memory at [0x80000000] *)
Definition program_image : gmap Z Z :=
  let put m offv := st32 m offv.1 offv.2 in
  foldl put ∅ [(0, 0x464c457f); (24, 0x80000001); (28, 52); (40, 0x200034); (44, 1);
               (52, 1); (56, 84); (60, 0x80000000); (68, 2); (72, 4); (84, 0xbbaa)].

Definition exec_device : Device := {|
  port_in := fun port n =>
    if port =? 0x1f0 then
      let w := Z.of_nat n / 257 * 256 + (Z.of_nat n mod 257 - 1) in mget program_image (2 * w) + 2 ^ 8 * mget program_image (2 * w + 1)
    else 0x08;
  port_patience := 1
|}.

Lemma exec_device_ready : @disk_ready exec_device.
Proof. split; [cbn; lia | done]. Qed.

Definition sh_path : list Z := cs "/sh.elf".

Lemma caller_kept_spec path : (length path < 256)%nat -> caller_kept (caller_mem path).
Proof.
  intros Hl a Ha _ _. assert (~ 0x102000 <= a < 0x103000) as Hout by (intros ?; apply Ha; unfold page_of; zdiv). clear Ha.
  assert (forall bs m p, 0x102000 <= p -> p + Z.of_nat (length bs) <= 0x103000 ->
    mget (fst (foldl (fun x b => (mset x.1 x.2 b, x.2 + 1)) (m, p) bs)) a = mget m a) as Hput.
  { induction bs as [|b bs IH]; intros m p Hp Hpe; [done|]. cbn [foldl fst snd length] in *.
    rewrite IH by lia. apply mget_mset_ne. lia. }
  unfold caller_mem. rewrite !mget_st32_ne by lia. rewrite !Hput; try done; try lia.
Qed.

Lemma sh_program : elf_program (@disk_byte exec_device (k_reads (caller_state (caller_mem sh_path)))) 0 0x80000000 4 84 2.
Proof.
  split; [by vm_compute | by vm_compute | by vm_compute | lia | by vm_compute | by vm_compute | | done].
  by split_and!.
Qed.

Lemma sh_call : exec_call (caller_state (caller_mem sh_path)) caller 0x80000100 [] (cs "sh.elf") 0x2f 0x80000200
  [(0x80000100, sh_path); (0x80000300, cs "hi")].
Proof.
  apply (caller_call (caller_mem sh_path) sh_path); try done.
  - apply caller_kept_spec. cbn. lia.
  - repeat constructor.
  - cbn. lia.
Qed.

Lemma sh_byte : @disk_byte exec_device (k_reads (caller_state (caller_mem sh_path))) (84 + 1) = 0xbb.
Proof. by vm_compute. Qed.

Lemma sys_execve_enters_program_witness :
  exists named d s', @sys_execve _ exec_device 0x80000100 0x80000200 0 (caller_state (caller_mem sh_path)) = Done 0 s' /\ k_cr3 s' = d /\
    task_set_name (take 32 (cs "sh.elf")) caller = Some named /\
    exists pa, mmu_walk d (k_mem s') (0x80000000 + 1) = Some pa /\ mget (k_mem s') pa = 0xbb.
Proof.
  destruct (@sys_execve_enters_program _ exec_device (caller_state (caller_mem sh_path)) caller 0x80000100 [] (cs "sh.elf") 0x2f 0x80000200 0
    [(0x80000100, sh_path); (0x80000300, cs "hi")] 0 0x80000000 4 84 2 sh_call eq_refl exec_device_ready sh_program)
    as (named & d & ps1 & ps2 & s' & En & E & Hpe & _ & _ & _ & Hb); [by vm_compute | by vm_compute; left | by rewrite caller_room |].
  exists named, d, s'. split; [exact E|]. split; [apply (pe_cr3 _ _ _ _ _ _ _ Hpe)|]. split; [exact En|].
  rewrite <- sh_byte. apply (Hb 1). lia.
Defined.

(** ** A path that does not start with a slash: the file system opens nothing *)
Definition rel_path : list Z := cs "bin/sh".

Lemma rel_call : exec_call (caller_state (caller_mem rel_path)) caller 0x80000100 (cs "bin") (cs "sh") 0x2f 0x80000200
  [(0x80000100, rel_path); (0x80000300, cs "hi")].
Proof.
  apply (caller_call (caller_mem rel_path) rel_path); try done.
  - apply caller_kept_spec. cbn. lia.
  - repeat constructor.
  - cbn. lia.
Qed.

Lemma sys_execve_missing_file_witness :
  exists d s', sys_execve 0x80000100 0x80000200 0 (caller_state (caller_mem rel_path)) = Done 0 s' /\ k_cr3 s' = d /\
    mmu_walk d (k_mem s') 0xFFFFFFFF = None /\ is_Some (mmu_walk d (k_mem s') (MEM_TASK_STACK_TOP - 1)).
Proof.
  destruct (sys_execve_missing_file (caller_state (caller_mem rel_path)) caller 0x80000100 (cs "bin") (cs "sh") 0x2f 0x80000200 0
    [(0x80000100, rel_path); (0x80000300, cs "hi")] rel_call)
    as (named & d & ps & s' & E & Hpe & Hw & Hl & Hsp); [done | apply demo_com1 | by eexists | cbn; lia | by rewrite caller_room |].
  exists d, s'. split; [exact E|]. split; [apply (pe_cr3 _ _ _ _ _ _ _ Hpe)|]. split; [exact Hw|].
  rewrite Hsp by (unfold MEM_TASK_STACK_TOP; lia). unfold map_frames, stack_base, MEM_TASK_STACK_TOP, MEM_TASK_STACK_SIZE, MEM_PAGE_SIZE.
  rewrite Hl, decide_True by lia. destruct (lookup_lt_is_Some_2 ps 499) as (p & Ep); [lia|].
  change (Z.to_nat _) with 499%nat. rewrite Ep. by eexists.
Defined.
