(* ===== verification/WitnessEntry.v ===== *)
(** The theorems on the assembly entry points at concrete programs: a user program at
    0x80000010 that is interrupted, and that calls the kernel. *)
From S2P Require Import Prelude DList Bitmap Machine MachineFacts Klib Format Sched Ipc Log Cpu Alloc Paging AddrSpace KernelMap CopySpace Irq Timer.
From S2P Require Import Fs Task TaskLife Exec ExecSpace LoadElf CopyArgs ExecRun Syscall Fork Init Boot FirstTask Asm Entry EntryRun CallPath CallFork.
From S2P Require Import Start CallExec BootSector Demo Witness WitnessKernel WitnessBoot WitnessExec.

(** What the C compiler leaves in the registers, and the return address in the stub. *)
Definition demo_cc : c_call := CCall 7 8 9 0x10300.

Lemma demo_cc_word : is_word (cc_ret demo_cc).
Proof. done. Qed.

Definition demo_cpu (esp : Z) : cpu_t := Cpu 1 2 3 4 esp 5 6 7 0x80000010 2 0x2b 0x23 0x23 0x23 0x23 0x23.

Lemma demo_cpu_wf esp : is_word esp -> cpu_wf (demo_cpu esp).
Proof. intros He. split; [| |done]; repeat (apply Forall_nil_2 || apply Forall_cons_2); try done; unfold is_word, is_sel; cbn; lia. Qed.

Lemma demo_entries : entries_ok.
Proof. split; [by apply (bool_decide_unpack _) | repeat constructor; done]. Qed.

(** ** Interrupts and exceptions *)
Definition idt_state : kst := set_k_idt ((fun i => boot_gate (Z.of_nat i)) <$> seq 0 IDT_TABLE_NO) demo.

Lemma idt_state_idt : idt_booted idt_state.
Proof.
  intros i Hi. change (k_idt idt_state) with ((fun i => boot_gate (Z.of_nat i)) <$> seq 0 IDT_TABLE_NO).
  by rewrite list_lookup_fmap, lookup_seq_lt by done.
Qed.

Lemma low_stack top : 96 <= top <= 0x80000 -> stack_room (top - 96) top.
Proof. intros Ht a Ha. apply kmapped_spec. unfold MEM_EBDA_START. lia. Qed.

Lemma idt_state_stack esp : kernel_stack idt_state (demo_cpu esp) 0x200000 16.
Proof.
  split; [by split|]. intros a Ha. apply kmapped_spec. unfold MEM_EXT_START, MEM_EXT_END. lia.
Qed.

Lemma timer_interrupt_transparent_witness :
  exists m p back, 0x200000 - 88 <= p < 0x200000 /\
    (forall s2, (forall a, p <= a < 0x200000 -> mget (k_mem s2) a = mget m a) -> back tt s2 = Done (tt, demo_cpu 0x80009000) (set_k_if true s2)) /\
    take_interrupt demo_cc IRQ0_TIMER None (demo_cpu 0x80009000) idt_state ≡
      obind back (do_handler_timer (set_k_if false (set_k_mem m idt_state))).
Proof.
  destruct (timer_interrupt_transparent demo_cc demo_cc_word (demo_cpu 0x80009000) idt_state 0x200000 16 demo_entries idt_state_idt
    (demo_cpu_wf 0x80009000 ltac:(done)) (idt_state_stack _)) as (m & p & back & Hp & _ & E & Hb).
  exact (ex_intro _ m (ex_intro _ p (ex_intro _ back (conj Hp (conj Hb E))))).
Defined.

Lemma exception_reports_context_witness :
  exists m p s', do_handler_page_fault (interrupted (demo_cpu 0x80009000) true 14 6 p) (set_k_if false (set_k_mem m idt_state)) = Halted s' /\
    take_interrupt demo_cc 14 (Some 6) (demo_cpu 0x80009000) idt_state = Halted s'.
Proof.
  apply (exception_reports_context demo_cc demo_cc_word (demo_cpu 0x80009000) idt_state 14 (Some 6) do_handler_page_fault 0x200000 16 demo_entries idt_state_idt
    (demo_cpu_wf 0x80009000 ltac:(done)) eq_refl (idt_state_stack _)); [|done|apply demo_com1 | by eexists].
  unfold exception_stubs. do 13 right. left.
Defined.

Lemma stack_fault_frame_shifted_witness :
  exists m p s', do_handler_stack_segment_fault (shifted_frame (demo_cpu 0x80009000) true 0x10 p) (set_k_if false (set_k_mem m idt_state)) = Halted s' /\
    take_interrupt demo_cc 12 (Some 0x10) (demo_cpu 0x80009000) idt_state = Halted s'.
Proof.
  exact (stack_fault_frame_shifted demo_cc demo_cc_word (demo_cpu 0x80009000) idt_state 0x10 0x200000 16 demo_entries idt_state_idt
    (demo_cpu_wf 0x80009000 ltac:(done)) eq_refl (idt_state_stack _) ltac:(done) demo_com1 ltac:(by eexists)).
Defined.

(** ** System calls *)

(** The words of a call on the program's stack, at 0x80000f00. *)
Definition with_call (m : gmap Z Z) (args : list Z) : gmap Z Z :=
  fst (foldl (fun x w => (st32 x.1 x.2 w, x.2 + 4)) (m, 0x102f00) args).

Lemma with_call_page m args a : (length args <= 8)%nat -> page_of a <> 0x102000 -> mget (with_call m args) a = mget m a.
Proof.
  intros Hl Ha. assert (~ 0x102f00 <= a < 0x102f20) as Hout by (intros ?; apply Ha; unfold page_of; zdiv). clear Ha. unfold with_call.
  assert (forall args m p, 0x102f00 <= p -> p + 4 * Z.of_nat (length args) <= 0x102f20 ->
    mget (fst (foldl (fun x w => (st32 x.1 x.2 w, x.2 + 4)) (m, p) args)) a = mget m a) as Hall.
  { clear args m Hl. induction args as [|w args IH]; intros m p Hp Hpe; [done|]. cbn [foldl fst snd length] in *. rewrite IH by lia. apply mget_st32_ne. lia. }
  apply Hall; lia.
Qed.

Definition call_cpu : cpu_t := demo_cpu 0x80000f00.

Definition getpid_call : list Z := [SYS_getpid; 0; 0; 0; 0].

Definition getpid_state : kst := set_k_cr3 demo_dir (set_k_mem (with_call demo_mem getpid_call) demo).

Lemma getpid_calls : calls_kernel getpid_state call_cpu getpid_call 0x80000017 0x200000 16.
Proof.
  split; [exact demo_entries | done | by apply demo_cpu_wf | done | | | done].
  - split; [by split|]. intros a Ha. apply kmapped_spec. unfold MEM_EXT_START, MEM_EXT_END. lia.
  - split; [done|]. split; [by repeat constructor|]. by vm_compute.
Qed.

Lemma call_returns_to_program_witness :
  exists m, call_kernel demo_cc 0x80000017 call_cpu getpid_state =
      Done (tt, set_r_eax tA (set_r_esp 0x80000f14 (set_r_eip 0x80000017 call_cpu))) (set_k_mem m getpid_state) /\
    forall a, a < 0x200000 - 96 \/ 0x200000 <= a -> mget m a = mget (k_mem getpid_state) a.
Proof.
  destruct (call_returns_to_program demo_cc demo_cc_word call_cpu getpid_state SYS_getpid 0 0 0 0 0x80000017 0x200000 16 (demo_task tA 0x30 10 0)
    getpid_calls eq_refl) as [H _].
  exact (H eq_refl).
Defined.

Definition return_state : kst := set_k_mem (push_words ∅ 0x60060 (replicate 23 0x23 ++ [cc_ret demo_cc])) demo.

Lemma stubs_return_well_typed_witness :
  let c := set_r_cs KERNEL_SELECTOR_CS (demo_cpu 0x60000) in
  (ccall_return demo_cc;; exception_exit) c return_state =
    Done (tt, Cpu 0x23 0x23 0x23 0x23 0x23 0x23 0x23 0x23 0x23 0x23 0x23 0x23 0x23 0x23 0x23 0x23) (set_k_if false return_state) /\
  (ccall_return demo_cc;; syscall_exit) c return_state =
    Done (tt, Cpu 0x23 0x23 0x23 0x23 0x37 0x23 0x23 0x23 0x23 0x23 0x23 0x23 0x23 0x23 0x23 0x23) (set_k_if false return_state).
Proof.
  destruct (stubs_return_well_typed demo_cc (set_r_cs KERNEL_SELECTOR_CS (demo_cpu 0x60000)) return_state) as [[H1 _] H2].
  - destruct (demo_cpu_wf 0x60000 ltac:(done)) as [Hg Hs Hf]. split; [done | | done]. apply Forall_cons in Hs as [_ Hs]. by apply Forall_cons_2.
  - by vm_compute.
  - change (stack_room (0x60060 - 96) 0x60060). apply low_stack. lia.
  - destruct H2 as [H2 _]; [by vm_compute | by vm_compute |]. exact (conj H1 H2).
Defined.

(** ** A fork *)
Definition fork_call : list Z := [SYS_fork; 0; 0; 0; 0].

Definition forking (m : gmap Z Z) : kst := set_k_mem m fork_state.

Lemma forking_kernel_dir m : caller_kept m -> dir_wf m (frames demo) kernel_page_dir.
Proof.
  intros Hk. destruct fork_kernel_dir as [H1 H2 _ _]. split; [done..| |];
    intros; rewrite (caller_kernel_tables m Hk) in * by done; done.
Qed.

Lemma forking_dir m : caller_kept m -> dir_wf m (frames demo) demo_dir.
Proof. intros Hk. apply (dir_wf_ext demo_mem); [exact demo_user_dir|]. intros a Ha. apply Hk; by rewrite Ha. Qed.

Lemma forking_pre m : caller_kept m -> fork_pre (forking m) demo_view tD demo_forker zero_task 8 [].
Proof.
  intros Hk. destruct fork_state_pre as [Hi Hp Hfree Hc Hs Hl Hsel Hf Hcr _ _ _ Hroom]. split; try done.
  - by destruct Hi.
  - split; [|by destruct Hfree]. by vm_compute.
  - destruct Hs as [S1 S2 S3 S4 S5 S6 S7 S8]. split; [done | done | done | done | by split | done | done |]. by destruct S8.
  - by apply forking_kernel_dir.
  - by apply forking_dir.
  - intros p Hown. change (own (forking m) (k_cr3 (forking m)) p) with (own (caller_state m) demo_dir p) in Hown.
    apply (caller_own m Hk) in Hown. split.
    + destruct Hown as [->|[->| ->]]; apply (bool_decide_unpack _); reflexivity.
    + intros E%(caller_kernel_page m Hk). lia.
Qed.

Definition forking_state : kst := forking (with_call demo_mem fork_call).

Lemma forking_calls : calls_kernel forking_state call_cpu fork_call 0x80000017 0x60058 16.
Proof.
  split; [exact demo_entries | done | by apply demo_cpu_wf | done | | | done].
  - split; [by split | apply low_stack; lia].
  - split; [done|]. split; [by repeat constructor|]. by vm_compute.
Qed.

(** The state in the handler keeps what the call does not write. *)
Lemma handler_kept m s c args next top :
  k_mem s = m -> (forall a, page_of a <> 0x102000 -> mget m a = mget demo_mem a) -> length args = 5%nat ->
  0x5f000 <= top - 96 -> top <= 0x61000 -> caller_kept (k_mem (handler_state demo_cc s c args next top)).
Proof.
  intros <- Hm Hl Hlo Hhi a H1 H2 H3. unfold handler_state. kproj. rewrite push_words_out; [by apply Hm|].
  rewrite bytes_of_reverse. destruct (handler_stack_bytes demo_cc s c args next (top - 88) Hl) as (_ & _ & ->).
  assert (~ 0x5f000 <= a < 0x61000) by (intros ?; revert H2 H3; unfold page_of; zdiv). lia.
Qed.

Lemma fork_returns_twice_witness :
  exists s' t, call_kernel demo_cc 0x80000017 call_cpu forking_state =
      Done (tt, set_r_eax (u32 (i32 tD)) (behind_call call_cpu 0x80000017)) s' /\
    k_tasks s' !! tD = Some t /\ cpu_of_tss (t_tss t) = set_r_eax 0 (behind_call call_cpu 0x80000017).
Proof.
  assert (caller_kept (k_mem (handler_state demo_cc forking_state call_cpu fork_call 0x80000017 0x60058))) as Hk.
  { apply (handler_kept (with_call demo_mem fork_call)); try done. intros a Ha. apply with_call_page; [cbn; lia | done]. }
  destruct (fork_returns_twice demo_cc demo_cc_word forking_state call_cpu [0; 0; 0; 0] 0x80000017 0x60058 16 forking_calls
    demo_view tD demo_forker zero_task 8 [] (forking_pre _ Hk) eq_refl) as (s' & t & E & _ & Et & _ & Ec & _).
  - intros a Ha. assert (0x5f000 <= page_of a <= 0x60000) by (unfold page_of; zdiv). split.
    + assert (page_of a = 0x5f000 \/ page_of a = 0x60000) as [->| ->] by (unfold page_of in *; zdiv); apply (bool_decide_unpack _); reflexivity.
    + intros Hp%(caller_kernel_page _ Hk). lia.
  - done.
  - exact (ex_intro _ s' (ex_intro _ t (conj E (conj Et Ec)))).
Defined.

(** ** An execve *)
Definition execve_words_at : list Z := [SYS_execve; 0x80000100; 0x80000200; 0; 0].

Definition execve_mem : gmap Z Z := with_call (caller_mem sh_path) execve_words_at.

Definition execve_state : kst := caller_state execve_mem.

Lemma execve_calls : calls_kernel execve_state call_cpu execve_words_at 0x80000017 0x61000 16.
Proof.
  split; [exact demo_entries | done | by apply demo_cpu_wf | done | | | done].
  - split; [by split | apply low_stack; lia].
  - split; [done|]. split; [by repeat constructor|]. by vm_compute.
Qed.

(** What the caller's frame holds, in the handler's state. *)
Definition execve_handler_mem : gmap Z Z := k_mem (handler_state demo_cc execve_state call_cpu execve_words_at 0x80000017 0x61000).

Lemma execve_kept : caller_kept execve_handler_mem.
Proof.
  intros a H1 H2 H3. unfold execve_handler_mem, handler_state. kproj. rewrite push_words_out.
  - change (k_mem execve_state) with execve_mem. unfold execve_mem. rewrite with_call_page by (done || (cbn; lia)).
    apply caller_kept_spec; done || (cbn; lia).
  - rewrite bytes_of_reverse. destruct (handler_stack_bytes demo_cc execve_state call_cpu execve_words_at 0x80000017 (0x61000 - 88) eq_refl) as (_ & _ & ->).
    assert (~ 0x60000 <= a < 0x61000) by (intros ?; revert H2; unfold page_of; zdiv). lia.
Qed.

Lemma execve_call : exec_call (caller_state execve_handler_mem) caller 0x80000100 [] (cs "sh.elf") 0x2f 0x80000200
  [(0x80000100, sh_path); (0x80000300, cs "hi")].
Proof.
  apply (caller_call execve_handler_mem sh_path); try done.
  - apply execve_kept.
  - repeat constructor.
  - cbn. lia.
Qed.

Lemma execve_program : elf_program (@disk_byte exec_device (k_reads execve_state)) 0 0x80000000 4 84 2.
Proof. exact sh_program. Qed.

Lemma execve_starts_program_witness :
  exists c' s', @call_kernel _ exec_device demo_cc 0x80000017 call_cpu execve_state = Done (tt, started call_cpu 0x80000001) s' /\
    crt0_start 0x80000555 (started call_cpu 0x80000001) s' = Done (tt, c') s' /\ r_eip c' = 0x80000555 /\
    exists pa, mmu_walk (k_cr3 s') (k_mem s') 0x80000001 = Some pa /\ mget (k_mem s') pa = 0xbb.
Proof.
  destruct (@execve_starts_program _ exec_device demo_cc demo_cc_word 0x80000555 execve_state call_cpu 0x80000100 0x80000200 0 0 0x80000017 0x61000 16
    caller [] (cs "sh.elf") 0x2f [(0x80000100, sh_path); (0x80000300, cs "hi")] 0 0x80000000 4 84 2 execve_calls execve_call eq_refl eq_refl
    exec_device_ready execve_program) as (c' & s' & E & Ec & Eip & _ & _ & _ & _ & _ & Hb & _);
    [by vm_compute | by vm_compute; left | |].
  - change (frames (handler_state _ _ _ _ _ _)) with (frames (caller_state execve_handler_mem)). by rewrite caller_room.
  - exists c', s'. split; [exact E|]. split; [exact Ec|]. split; [exact Eip|]. rewrite <- sh_byte. apply (Hb 1). lia.
Defined.

(** ** Start-up *)

(** The loader's [boot_info] at 0x9000 and its stack below 0x7c00. *)
Definition loader_mem : gmap Z Z :=
  st32 (foldl (fun m x => st32 m x.1 x.2) cold_mem [(0x9000, 0); (0x9004, 0x9fc00); (0x9008, 0x100000); (0x900c, 0x1000000); (0x9050, 2)])
    0x7bf8 0x9000.

Definition start_cold : kst := set_k_mem loader_mem cold.

Lemma start_boot_info : ram_ok cold_bits (boot_info_of loader_mem 0x9000).
Proof. constructor; [by vm_compute | by vm_compute | apply cold_ram_ok | by vm_compute | by vm_compute]. Qed.

Lemma start_boot_stack : boot_stack start_cold (demo_cpu 0x7bf4) 0x9000 (28 + 100).
Proof.
  split; [by apply demo_cpu_wf | by vm_compute | |]; intros a Ha; cbn [r_esp demo_cpu] in Ha.
  - split_and!; [apply kmapped_spec; unfold MEM_EBDA_START; lia | unfold MEM_EXT_START; lia |].
    change kernel_page_dir with 0x17000. unfold page_of. zdiv.
  - split; [apply kmapped_spec; unfold MEM_EBDA_START; lia | cbn; lia].
Qed.

Lemma kernel_start_reaches_first_task_witness :
  exists c' s', (kernel_start demo_cc 0x10018 0x11000 100 cold_bits;; first_task_entry_code 0x80000777) (demo_cpu 0x7bf4) start_cold = Done (tt, c') s' /\
    r_eip c' = 0x80000777 /\ r_cs c' = 43 /\ r_ss c' = 35 /\ k_if s' = true.
Proof.
  destruct (kernel_start_reaches_first_task demo_cc 0x10018 0x11000 100 demo_cc_word cold_bits 0x80000777 start_cold (demo_cpu 0x7bf4) 0x9000
    demo_com1 boot_layout kernel_elf_image) as (c' & s' & _ & E & Eip & _ & _ & Ecs & Ess & _); [ | | exact start_boot_info | lia | exact start_boot_stack |].
  - by destruct cold_hw_ok.
  - by destruct cold_tasks_ok.
  - eexists c', _. split; [exact E|]. split; [exact Eip|]. split; [exact Ecs|]. split; [exact Ess | reflexivity].
Defined.

(** ** The boot sector: a disk that answers in the third call *)
Definition third_time : disk_bios := fun n c m =>
  let buffer := 16 * r_es c + u16 (r_ebx c) in
  let count := 512 * (r_eax c mod 2 ^ 8) in
  if (n <? 2)%nat then (set_r_flags 1 c, m)
  else (set_r_flags 0 c, foldr (fun i m => mset m (buffer + i) (u8 (512 * (u16 (r_ecx c) - 1) + i + 3))) m (seqZ 0 count)).

Lemma fill_spec f m b n a :
  mget (foldr (fun i m => mset m (b + i) (f i)) m (seqZ 0 n)) a = if decide (b <= a < b + n) then u8 (f (a - b)) else mget m a.
Proof.
  assert (forall k z, mget (foldr (fun i m => mset m (b + i) (f i)) m (seqZ z (Z.of_nat k))) a =
    if decide (b + z <= a < b + z + Z.of_nat k) then u8 (f (a - b)) else mget m a) as Hall.
  { induction k as [|k IH]; intros z; [by rewrite decide_False by lia|]. rewrite seqZ_cons by lia. cbn [foldr].
    replace (Z.pred (Z.of_nat (S k))) with (Z.of_nat k) by lia. rewrite mget_mset, IH. destruct (Z.eqb_spec (b + z) a) as [<-|Hne].
    - rewrite decide_True by lia. do 2 f_equal. lia.
    - repeat case_decide; done || lia. }
  destruct (decide (0 <= n)); [pose proof (Hall (Z.to_nat n) 0) as E; rewrite Z2Nat.id, Z.add_0_r in E by done; exact E|].
  rewrite seqZ_nil by lia. cbn. by rewrite decide_False by lia.
Qed.

Lemma third_time_reads : reads_disk third_time (fun x => u8 (x + 3)) 2.
Proof.
  split; intros n c m.
  - unfold third_time. by destruct (n <? 2)%nat.
  - unfold third_time. destruct (Nat.ltb_spec n 2); cbn; [by rewrite bool_decide_true | by rewrite bool_decide_false by lia].
  - intros _ _ _. unfold third_time. cbn zeta. destruct (Nat.ltb_spec n 2); cbn [snd].
    + split; [done | intros ->; lia].
    + split; [intros a _ Ha; rewrite fill_spec, decide_False by lia; done|]. intros -> i Hi. rewrite fill_spec, decide_True by lia.
      unfold u8. rewrite Z.mod_mod by lia. f_equal. lia.
Qed.

Definition boot_demo : boot_t := BootState (demo_cpu 0) ∅ [] 0.

Lemma boot_sector_starts_loader_witness :
  exists b', boot_start third_time 12 0x7c59 5 boot_demo = Some b' /\ b_screen b' = cs "MINI-OS" /\ b_calls b' = 3%nat /\
    mget (b_mem b') 0x8001 = u8 (513 + 3).
Proof.
  destruct (boot_sector_starts_loader third_time (fun x => u8 (x + 3)) 2 12 0x7c59 5 boot_demo eq_refl third_time_reads) as (b' & E & _ & _ & Es & Ec & Hd & _);
    [lia | lia |].
  exact (ex_intro _ b' (conj E (conj Es (conj Ec (Hd 1 ltac:(lia)))))).
Defined.
